(* ===== verification/_CoqProject ===== *)
-Q . S2P
Prelude.v
Wire.v
Platform.v
KernelAbi.v
LinkedList.v
World.v
Monad.v
Request.v
Reply.v
Buffer.v
Server.v
Handlers.v
Interrupt.v
Notify.v
Init.v
Session.v
Calls.v
Groups.v
Uring.v
Receive.v
Queue.v
Dirent.v
DirentPlus.v
Daemon.v
UkFs.v
System.v
FileOps.v
Boot.v
Posix.v
PosixProps.v
Opt.v
Helper.v
Examples.v
HelloLl.v
PerfLl.v
HelloSpec.v
PosixRef.v
Concurrent.v
EndToEnd.v
PerfSpec.v
LinuxLl.v
LinuxSpec.v
QueueProps.v
ReplyProps.v
DaemonProps.v
SessionProps.v
InterruptProps.v
InitProps.v
BufferProps.v
OptProps.v
OptSafety.v
HelperProps.v
HelloMain.v
LinuxMain.v
Program.v
TestSuite.v
ClientRules.v
TestRules.v
TestProps.v
Ideal.v
Bench.v
BenchRules.v
BenchProps.v
LinuxBench.v
LinuxProps.v
IdealProps.v
ReceiveProps.v
UringProps.v
GroupsProps.v
CallsProps.v
NotifyProps.v
