(* ===== verification/Prelude.v ===== *)
(** * UKFS-FUSE: a verified model of the Unikraft FUSE driver and library

    UKFS-FUSE puts a port of libfuse's low-level library under Unikraft's
    virtual file system, in one address space: there is no kernel device.  A
    file operation of the driver ([src/libs/ukfusefs/ukfs-fuse.c]) puts a
    request on a queue ([fuse_queue.c]) and sleeps.  The daemon thread
    ([fuse_daemon.c]) takes it off, writes it as a message of the FUSE protocol
    and hands it to the library ([src/libs/libfuse/lib/fuse_lowlevel.c]), which
    dispatches it to a handler and so to an operation of the file system server
    ([src/apps/fuse-test/hello_ll.c] is the example).  The server replies through
    the library; six reply functions are patched to store the answer in the
    driver's request and wake its thread.

    ** How the program is modelled

    A C function is a Rocq function of the same name in the state-and-fault
    monad [M] of [Monad]: from a [world] ([World]: one heap per kind of object,
    the session, the queue, what was sent) to a result and a new world, or to
    the [fault] it ran into: an access outside an object, a bad or freed pointer,
    a failed assertion, a lock taken twice, a blocked thread.  "Without fault" in
    a theorem is therefore memory safety, assertion safety and absence of
    deadlock of the code.  Integers are [Z] with [u32], [u64], [i32] and [i64]
    where the code converts; structs that cross a message buffer are records with
    a byte image ([Wire], [KernelAbi]).  [goto]s are conditionals in order, the
    unions of [struct fuse_req] are two words, and the session of a request is
    the one of the world: the program has one.

    Loops over lists and vectors recurse on a measure computed from their input
    or take fuel; what fuel suffices is part of the theorems: the lengths left in
    the two vectors for a copy ([BufferProps.copy_returns]), the number of reads
    that the device answers with "interrupted" for [Receive], a power of four
    times the first buffer for [Groups], the length of the text for the option
    parser, the number of entries and one for a program's loop over [readdir], of
    blocks and one for the transfers of the benchmarks.  Nothing is proved only
    "if it returns".

    Code outside the repository is a parameter.  [Platform] has Unikraft's
    semaphores, mutexes and tail queues, the allocator's decisions, the system
    calls and constants of its headers; [PlatformSpec] has the documented
    behaviour theorems rely on, and [ref_platform] is an instance that computes.
    [Server] is the server's operation table and [System.FileServer] what the
    driver expects of it, which [HelloSpec] proves of the example server.
    [UkFs.Scheduler] is what happens while a thread sleeps; [System] instantiates
    it with turns of the daemon, [Concurrent] with all other threads.  [Posix]
    lists the system calls of Unikraft that the test and benchmark programs make;
    [PosixSpec] promises that they report what the driver's operations find, and
    says nothing about how; [PosixRef] is an instance that computes.

    ** Files

    - [Prelude], [Wire], [Platform], [LinkedList], [World], [Monad]: integers,
      bytes, C strings, automation; struct layouts; the platform; the intrusive
      lists; the state; the monad with its evaluation lemmas (hint database
      [fuse], tactic [mstep]).
    - [KernelAbi]: [fuse_kernel.h].
    - [Request], [Reply], [Handlers], [Interrupt], [Notify], [Init], [Session],
      [Dirent], [DirentPlus], [Receive], [Uring], [Groups]: the parts of
      [fuse_lowlevel.c]: life of a request, replies, the [do_*] handlers,
      interrupts, notifications, INIT and DESTROY, sessions and dispatch, the
      packing of directory entries, reading the device, the table for io_uring,
      [fuse_req_getgroups].  [Server]: the operation table and the structures of
      [fuse_lowlevel.h] and [fuse_common.h].
    - [Buffer]: [buffer.c].  [Opt]: [fuse_opt.c].  [Helper]: [helper.c] with the
      stubs of [fuse_compat_stub.c] and [fuse_posix_stub.c].
    - [Queue], [Daemon], [UkFs]: [src/libs/ukfusefs].
    - [HelloLl], [HelloMain], [HelloSpec]: the example server, the program around
      it, and that it is a [FileServer].  [PerfLl], [PerfSpec]: the same for the
      server of the benchmarks; [LinuxLl], [LinuxSpec], [LinuxMain]: for the server
      that the measurements on Linux use ([linux_hello_ll.c]), whose loop belongs
      to the libfuse of Linux and is a parameter.
    - [System], [FileOps], [Boot]: a request from driver to server and back, the
      file operations on top of it, and the state after start-up.
    - [Posix], [PosixProps], [PosixRef]: the system call interface, what its
      promises determine, and a reference implementation.
    - [Program]: client programs, their state and monad; [ClientRules]: a weakest
      precondition with one rule per system call and the tactic [step], which
      picks the rule of the next call.  [TestSuite], [Bench] and [LinuxBench]: the
      test programs, the benchmarks and their Linux baseline; [TestRules],
      [TestProps], [BenchRules], [BenchProps], [LinuxProps]: their runs.
    - [Ideal]: an ideal file system as a step relation on system calls, the
      abstract specification of the whole; [IdealProps]: that programs see it.
    - [Calls]: the calls of the operation table each message stands for.
    - [Examples]: concrete states for the witnesses.
    - [Concurrent], [EndToEnd] and the files that end in [Props], [OptSafety]:
      the theorems.

    ** Theorems

    - The whole stack ([EndToEnd], [Concurrent], [HelloMain]).  Every sequence of
      file operations returns what the server says and leaves the system ready
      with nothing leaked; [fusefs_getstat], [fusefs_read], [fusefs_lookup] and
      [fusefs_listdir] refine the server's operations on every branch; any number
      of threads, in any interleaving with the daemon, get the answers to their
      requests and finish; the example server, started as the tests start it,
      gives its directory and the contents of its file, and the server of the
      benchmarks every part of its big file ([PerfSpec]).  Three theorems show
      where this ends: no memory for a request, names beyond the message buffer,
      requests the daemon does not know.
    - The whole against its specification ([IdealProps]): whatever a program does
      within the rules of [Ideal], its answers are a run of the ideal file system
      that the server presents; the three servers present theirs, the server of
      the baseline the same as the server of the benchmarks.
    - The programs ([TestProps], [BenchProps], [LinuxProps]).  On every system call layer that
      keeps the promises of [PosixSpec], the correctness suite passes with all
      its tests, the smoke test with all its assertions, and the benchmarks end
      with ordered figures and whole transfers; the baseline below its mount point
      runs in lock step with the benchmarks and reports the same.
    - The queue ([QueueProps]): first in, first out and exclusive under every
      interleaving of single accesses; every run ends.
    - Messages ([DaemonProps], [CallsProps]): a message of the daemon reads back
      as the request it stands for; any message of the protocol calls the server's
      function for it with its arguments.
    - Notifications ([NotifyProps]): what a retrieve leaves in the table of
      outstanding notifications, and that its answer finds it there.
    - Replies ([ReplyProps], [DirentPlus]): one answer per request to its client,
      or one framed message to the device; packed directories read back.
    - Sessions ([SessionProps], [InitProps], [InterruptProps], [UringProps]): who
      is admitted, what the others are told, that both dispatch tables agree, the
      feature flags, interrupts in either order, and that INIT cannot succeed.
    - Buffers ([BufferProps], [ReceiveProps]): copies move exactly the common
      prefix and end; reading the device ends, stays inside its buffer and leaks
      nothing; the room of a buffer.
    - Options ([OptProps], [OptSafety], [HelperProps]): option strings, tables and
      argument vectors, with round trips, and safety for every input.
    - Groups ([GroupsProps]): the groups listed in the status file.

    ** Assumptions

    Unikraft's scheduler is cooperative, so in [Concurrent] a thread runs from one
    blocking call to the next; only [Queue] interleaves single accesses.  Lengths
    of strings and argument vectors fit the [int] and [unsigned] variables that
    hold them.  Memory has contents and bounds, but no alignment.  The
    allocator may fail at every call; [alloc_ok n] says whether the [n]-th call
    succeeds, and theorems that need memory say which calls must.

    ** Not modelled

    - Output: logging, [perror], help texts, version texts, debug traces.
    - The [HAVE_SPLICE] branches and the other code this configuration leaves
      out; the pipes of [fuse_ll_pipe], which only they create.
    - Of [fuse_daemonize] the descriptors of the child ([fork] fails in this
      port); of [realpath] everything but the copy the stub makes.
    - [fuse.h]'s high-level interface (only declarations here), mount helpers and
      [cuse_lowlevel.c] beyond its two stubs.
    - What the test and benchmark programs print, apart from the figures of the
      benchmarks.  The POSIX layer of Unikraft itself is a parameter. *)

From stdpp Require Export base numbers list gmap option strings.

From Stdlib Require Export ZArith Lia.

#[export] Set Default Goal Selector "!".
Global Open Scope Z_scope.

(** ** Machine integers

    An integer of the program is a [Z].  [wrapu w] is the value a [w]-bit
    unsigned variable holds after an assignment, [wraps w] the value a [w]-bit
    two's complement variable holds. *)

Definition wrapu (w z : Z) : Z := z `mod` 2 ^ w.
Definition wraps (w z : Z) : Z := (z + 2 ^ (w - 1)) `mod` 2 ^ w - 2 ^ (w - 1).

Definition u16 (z : Z) : Z := wrapu 16 z.
Definition u32 (z : Z) : Z := wrapu 32 z.
Definition u64 (z : Z) : Z := wrapu 64 z.
Definition i32 (z : Z) : Z := wraps 32 z.
Definition i64 (z : Z) : Z := wraps 64 z.

(** [is_u w z]: [z] is a value of a [w]-bit unsigned type. *)
Definition is_u (w z : Z) : Prop := 0 <= z < 2 ^ w.

#[export] Instance is_u_dec w z : Decision (is_u w z).
Proof. unfold is_u. apply _. Defined.

Lemma wrapu_range w z : 0 <= w -> is_u w (wrapu w z).
Proof. intros Hw. apply Z.mod_pos_bound, Z.pow_pos_nonneg; lia. Qed.

Lemma wrapu_id w z : is_u w z -> wrapu w z = z.
Proof. intros [? ?]. by apply Z.mod_small. Qed.

Lemma wrapu_wrapu w z : wrapu w (wrapu w z) = wrapu w z.
Proof.
  unfold wrapu. destruct (decide (0 <= w)).
  - apply Z.mod_mod. apply Z.pow_nonzero; lia.
  - rewrite Z.pow_neg_r by lia. by rewrite !Z.mod_0_r.
Qed.

Lemma wraps_id w z : 0 < w -> - 2 ^ (w - 1) <= z < 2 ^ (w - 1) -> wraps w z = z.
Proof.
  intros Hw Hz. unfold wraps.
  assert (2 ^ w = 2 * 2 ^ (w - 1)) as ->.
  { rewrite <- Z.pow_succ_r by lia. f_equal. lia. }
  rewrite Z.mod_small; lia.
Qed.

Lemma is_u_mono w w' z : w <= w' -> is_u w z -> is_u w' z.
Proof. intros ? [? ?]. split; [done|]. pose proof (Z.pow_le_mono_r 2 w w'). lia. Qed.

(** The bits of a truncated number. *)
Lemma u32_bit x i : 0 <= i -> Z.testbit (u32 x) i = (i <? 32) && Z.testbit x i.
Proof.
  intros Hi. unfold u32, wrapu. destruct (Z.ltb_spec i 32).
  - by rewrite Z.mod_pow2_bits_low.
  - by rewrite Z.mod_pow2_bits_high by lia.
Qed.

Lemma high_bit x i : is_u 32 x -> 32 <= i -> Z.testbit x i = false.
Proof. intros Hx Hi. rewrite <- (wrapu_id 32 x Hx). unfold wrapu. by rewrite Z.mod_pow2_bits_high by lia. Qed.

Lemma lor_u32 x y : is_u 32 x -> is_u 32 y -> is_u 32 (Z.lor x y).
Proof.
  intros Hx Hy. assert (Z.lor x y = u32 (Z.lor x y)) as ->; [|by apply wrapu_range].
  apply Z.bits_inj'. intros i Hi. rewrite u32_bit, Z.lor_spec by done.
  destruct (Z.ltb_spec i 32) as [|Hge]; [done|]. by rewrite !high_bit.
Qed.

(** A flag test [x & m] of the source. *)
Definition flag (x m : Z) : bool := negb (Z.land x m =? 0).

(** Truth value of an integer condition of the source. *)
Definition truth (z : Z) : bool := negb (z =? 0).

(** ** Bytes *)

Abbreviation bytes := (list Z).

Definition byte_ok (b : Z) : Prop := is_u 8 b.

(** [le n z]: the [n] bytes of the integer [z] in memory (little endian). *)
Fixpoint le (n : nat) (z : Z) : bytes :=
  match n with
  | O => []
  | S n => z `mod` 256 :: le n (z `div` 256)
  end.

(** [unle bs]: the unsigned integer the bytes [bs] hold. *)
Fixpoint unle (bs : bytes) : Z :=
  match bs with
  | [] => 0
  | b :: bs => b + 256 * unle bs
  end.

Lemma length_le n z : length (le n z) = n.
Proof. revert z. induction n; intros z; simpl; [done|]. by rewrite IHn. Qed.

Lemma le_bytes n z : Forall byte_ok (le n z).
Proof.
  revert z. induction n; intros z; simpl; constructor; [|done].
  apply Z.mod_pos_bound. lia.
Qed.

Lemma unle_le n z : unle (le n z) = z `mod` 2 ^ (8 * Z.of_nat n).
Proof.
  revert z. induction n as [|n IH]; intros z.
  - simpl. by rewrite Z.mod_1_r.
  - cbn [le unle]. rewrite IH.
    replace (2 ^ (8 * Z.of_nat (S n))) with (256 * 2 ^ (8 * Z.of_nat n)).
    2:{ rewrite Nat2Z.inj_succ, Z.mul_succ_r, Z.add_comm, Z.pow_add_r by lia. done. }
    rewrite (Z.rem_mul_r z 256) by (try apply Z.pow_pos_nonneg; lia). lia.
Qed.

Lemma unle_le_id n z : is_u (8 * Z.of_nat n) z -> unle (le n z) = z.
Proof. intros H. rewrite unle_le. by apply wrapu_id. Qed.

(** [write_at off src mem]: the memory [mem] after [memcpy(mem + off, src, n)];
    [None] when the copy would leave the object. *)
Definition write_at (off : Z) (src mem : bytes) : option bytes :=
  if (0 <=? off) && (off + Z.of_nat (length src) <=? Z.of_nat (length mem)) then
    Some (take (Z.to_nat off) mem ++ src ++
          drop (Z.to_nat off + length src) mem)
  else None.

(** [slice off n bs]: the [n] bytes at offset [off]. *)
Definition slice (off n : Z) (bs : bytes) : bytes :=
  take (Z.to_nat n) (drop (Z.to_nat off) bs).

Lemma length_write_at off src mem mem' :
  write_at off src mem = Some mem' -> length mem' = length mem.
Proof.
  unfold write_at. destruct (_ && _) eqn:E; [|done].
  apply andb_true_iff in E as [?%Z.leb_le ?%Z.leb_le]. intros [= <-].
  rewrite !length_app, length_take, length_drop. lia.
Qed.

(** Writing right behind a prefix of the memory. *)
Lemma write_at_app pre src old rest :
  length old = length src ->
  write_at (Z.of_nat (length pre)) src (pre ++ old ++ rest)
  = Some (pre ++ src ++ rest).
Proof.
  intros Hl. unfold write_at.
  rewrite (proj2 (Z.leb_le _ _)) by lia.
  rewrite (proj2 (Z.leb_le _ _)) by (rewrite !length_app; lia).
  simpl. rewrite Nat2Z.id, take_app_length. do 3 f_equal.
  rewrite <- Hl, app_assoc.
  replace (length pre + length old)%nat with (length (pre ++ old))
    by (rewrite length_app; lia).
  by rewrite drop_app_length.
Qed.

(** The same with the bytes to overwrite named by their count. *)
Lemma write_at_pre pre src tail :
  (length src <= length tail)%nat ->
  write_at (Z.of_nat (length pre)) src (pre ++ tail)
  = Some (pre ++ src ++ drop (length src) tail).
Proof.
  intros Hl. rewrite <- (take_drop (length src) tail) at 1.
  apply write_at_app. rewrite length_take. lia.
Qed.

(** ** C strings

    The value of a [const char *] argument: the bytes before the terminating
    zero byte; [None] when there is none before the end of the object. *)
Fixpoint cstr (mem : bytes) : option bytes :=
  match mem with
  | [] => None
  | b :: mem => if b =? 0 then Some [] else (b ::.) <$> cstr mem
  end.

(** The bytes of a C string carry no zero byte. *)
Definition nonul (s : bytes) : Prop := Forall (fun b => b <> 0) s.

#[export] Instance nonul_dec s : Decision (nonul s).
Proof. unfold nonul. apply _. Defined.

Lemma cstr_app s rest : nonul s -> cstr (s ++ 0 :: rest) = Some s.
Proof.
  induction 1 as [|b s Hb Hs IH]; simpl; [done|].
  rewrite (proj2 (Z.eqb_neq _ _) Hb), IH. done.
Qed.

Lemma cstr_nonul mem s : cstr mem = Some s -> nonul s.
Proof.
  revert s. induction mem as [|b mem IH]; intros s; simpl; [done|].
  destruct (b =? 0) eqn:E; [intros [= <-]; constructor|].
  intros (s' & Hs' & ->)%fmap_Some. constructor; [|by apply IH].
  by apply Z.eqb_neq.
Qed.

(** String literals of the source. *)
Fixpoint str (s : String.string) : bytes :=
  match s with
  | String.EmptyString => []
  | String.String c s => Z.of_nat (Ascii.nat_of_ascii c) :: str s
  end.

Lemma Forall2_and_r {A B} (R : A -> B -> Prop) (Q : B -> Prop) l k :
  Forall2 R l k -> Forall Q k -> Forall2 (fun x y => R x y /\ Q y) l k.
Proof. induction 1; inversion 1; subst; constructor; auto. Qed.

(** Length of a byte string as an integer of the program. *)
Definition blen (bs : bytes) : Z := Z.of_nat (length bs).

(** ** Automation *)

(** Boolean integer tests in the context and in the goal as propositions. *)
Ltac zify_bool :=
  repeat match goal with
  | H : (_ =? _) = true |- _ => apply Z.eqb_eq in H
  | H : (_ =? _) = false |- _ => apply Z.eqb_neq in H
  | H : (_ <? _) = true |- _ => apply Z.ltb_lt in H
  | H : (_ <? _) = false |- _ => apply Z.ltb_ge in H
  | H : (_ <=? _) = true |- _ => apply Z.leb_le in H
  | H : (_ <=? _) = false |- _ => apply Z.leb_gt in H
  | H : _ && _ = true |- _ => apply andb_true_iff in H as [? ?]
  | H : _ || _ = false |- _ => apply orb_false_iff in H as [? ?]
  | H : negb _ = true |- _ => apply negb_true_iff in H
  | H : negb _ = false |- _ => apply negb_false_iff in H
  end.

(** Split on the innermost condition of the goal. *)
Ltac case_bool :=
  match goal with
  | |- context [if ?b then _ else _] =>
      lazymatch b with
      | context [if _ then _ else _] => fail
      | _ => destruct b eqn:?
      end
  end.

Create HintDb fuse discriminated.

#[export] Hint Resolve le_bytes cstr_nonul : fuse.
