(* ===== verification/Wire.v ===== *)
(** * Wire formats

    The C structs of [src/libs/libfuse/include/fuse/fuse_kernel.h] cross the
    request buffer as raw memory.  A struct is a record; its memory image is
    given by the widths of its members in declaration order (all of them are
    naturally aligned, the header file pads them explicitly).  [Wire] is the
    interface between the struct definitions ([KernelAbi]) and the code that
    casts buffers: encoding, decoding and their round trip are proved once. *)

From S2P Require Import Prelude.

(** ** Raw layouts *)

(** Total size in bytes of members of the widths [ws]. *)
Definition layout_size (ws : list nat) : nat := sum_list ws.

Fixpoint pack (ws : list nat) (vs : list Z) : bytes :=
  match ws, vs with
  | w :: ws, v :: vs => le w v ++ pack ws vs
  | _, _ => []
  end.

Fixpoint unpack (ws : list nat) (bs : bytes) : list Z :=
  match ws with
  | [] => []
  | w :: ws => unle (take w bs) :: unpack ws (drop w bs)
  end.

(** Every value fits the unsigned type of its member. *)
Definition fits (ws : list nat) (vs : list Z) : Prop :=
  Forall2 (fun w v => is_u (8 * Z.of_nat w) v) ws vs.

Lemma length_pack ws vs : length vs = length ws -> length (pack ws vs) = layout_size ws.
Proof.
  revert vs. induction ws as [|w ws IH]; intros [|v vs] H; simpl in *; try done.
  rewrite length_app, length_le, IH by lia. done.
Qed.

Lemma unpack_pack ws vs rest : fits ws vs -> unpack ws (pack ws vs ++ rest) = vs.
Proof.
  induction 1 as [|w v ws vs Hv _ IH]; simpl; [done|].
  rewrite <- app_assoc.
  rewrite (take_app_length' (le w v)), (drop_app_length' (le w v)) by (by rewrite length_le).
  by rewrite unle_le_id, IH.
Qed.

Lemma length_unpack ws bs : length (unpack ws bs) = length ws.
Proof. revert bs. induction ws; intros bs; simpl; [done|]. by rewrite IHws. Qed.

(** ** Structs *)

Class Wire (A : Type) := {
  layout : list nat;           (* member widths, in declaration order *)
  members : A -> list Z;       (* member values as stored (unsigned) *)
  build : list Z -> option A;  (* the struct with the given members *)
  signed_ok : A -> Prop;       (* signed members are in range *)
}.
Arguments layout A {_}.

(** What the client of a format relies on. *)
Class WireOk (A : Type) `{!Wire A} : Prop := {
  members_length : forall a : A, length (members a) = length (layout A);
  build_members : forall a : A, signed_ok a -> build (members a) = Some a;
}.

Section wire.
Context {A : Type} `{WO : WireOk A}.

(** [sizeof(struct A)] *)
Definition sizeof : Z := Z.of_nat (layout_size (layout A)).

(** Memory image of a struct. *)
Definition enc (a : A) : bytes := pack (layout A) (members a).

(** Reading [*(struct A * )p], where [bs] is the memory from [p] to the end of
    the object [p] points into; [None] when the struct does not fit. *)
Definition dec (bs : bytes) : option A :=
  if sizeof <=? blen bs then build (unpack (layout A) bs) else None.

Definition wire_wf (a : A) : Prop := fits (layout A) (members a) /\ signed_ok a.

Lemma length_enc a : length (enc a) = layout_size (layout A).
Proof. apply length_pack, members_length. Qed.

Lemma blen_enc a : blen (enc a) = sizeof.
Proof. unfold blen. by rewrite length_enc. Qed.

(** Reading back what was written, whatever follows it in memory. *)
Lemma dec_enc a rest : wire_wf a -> dec (enc a ++ rest) = Some a.
Proof.
  intros [Hwf Hs]. unfold dec, sizeof, blen, enc.
  rewrite length_app, length_pack by apply members_length.
  rewrite (proj2 (Z.leb_le _ _)) by lia.
  rewrite unpack_pack by done. by apply build_members.
Qed.

Lemma dec_short bs : blen bs < sizeof -> dec bs = None.
Proof. intros H. unfold dec. by rewrite (proj2 (Z.leb_gt _ _)). Qed.

(** [PARAM(p)]: the memory behind the struct. *)
Definition PARAM (bs : bytes) : bytes := drop (layout_size (layout A)) bs.

Lemma PARAM_enc a rest : PARAM (enc a ++ rest) = rest.
Proof. apply drop_app_length'. by rewrite length_enc. Qed.
End wire.
Arguments sizeof A {_}.
Arguments PARAM A {_} bs.

(** A [WireOk] instance of a struct of unsigned members. *)
Ltac solve_wire_ok := constructor; [by intros []|by intros []].

(** The range of a signed member. *)
Definition is_i (w z : Z) : Prop := - 2 ^ (w - 1) <= z < 2 ^ (w - 1).

Lemma i32_u32 z : is_i 32 z -> i32 (u32 z) = z.
Proof.
  intros H. rewrite <- (wraps_id 32 z) at 2 by (unfold is_i in H; lia).
  unfold i32, u32, wraps, wrapu. by rewrite Zplus_mod_idemp_l.
Qed.

Lemma i64_u64 z : is_i 64 z -> i64 (u64 z) = z.
Proof.
  intros H. rewrite <- (wraps_id 64 z) at 2 by (unfold is_i in H; lia).
  unfold i64, u64, wraps, wrapu. by rewrite Zplus_mod_idemp_l.
Qed.

(** Prove [wire_wf] of a struct whose members are known to be in range. *)
Ltac solve_wire_wf :=
  split; [unfold fits; cbn [layout members app];
          repeat first [apply Forall2_nil_2 | apply Forall2_cons_2];
          try (unfold is_u in *; cbn in *; lia)
         |try done].
