(* ===== verification/Platform.v ===== *)
(** * The platform

    Code the program calls and that is not part of the repository: Unikraft's
    semaphores, mutexes and tail queues ([uk/semaphore.h], [uk/mutex.h],
    [uk/list.h]), the constants and macros of [uk/fs.h] and [uk/fs/dirent.h],
    the allocator's decisions and the results of system calls.  It is a
    parameter of the whole model: [Platform] lists the operations, and
    [PlatformSpec] the documented behaviour the theorems rely on. *)

From S2P Require Import Prelude.

Class Platform := {
  (* uk/semaphore.h *)
  sem : Type;
  uk_semaphore_init : Z -> sem;
  uk_semaphore_up : sem -> sem;
  uk_semaphore_down : sem -> option sem;      (* [None]: the caller blocks *)
  (* uk/mutex.h *)
  mutex : Type;
  uk_mutex_init : mutex;
  uk_mutex_lock : mutex -> option mutex;      (* [None]: the caller blocks *)
  uk_mutex_unlock : mutex -> mutex;
  (* uk/list.h: UK_TAILQ_*, elements are the addresses of the queued objects *)
  tailq : Type;
  UK_TAILQ_INIT : tailq;
  UK_TAILQ_INSERT_TAIL : tailq -> Z -> tailq;
  UK_TAILQ_FIRST : tailq -> option Z;
  UK_TAILQ_REMOVE : tailq -> Z -> tailq;
  (* uk/fs.h, uk/fs/dirent.h, uk/file.h *)
  UKFS_STOP_FILE : Z;
  UKFS_STOP_MNT : Z;
  UKFS_DIRENT_RECLEN : Z -> Z;
  UKFS_DIRENT_NAME_OFF : Z;  (* offset of the name in a directory record *)
  UK_STATX_MODE : Z;
  UK_STATX_SIZE : Z;
  UK_STATX_INO : Z;
  UK_STATX_NLINK : Z;
  UK_FILE_RELEASE_OBJ : Z;
  (* sizeof(struct stat) of the C library *)
  sizeof_stat : Z;
  (* does the [n]-th call of an allocation function succeed? *)
  alloc_ok : nat -> bool;
  (* byte [i] of the uninitialised memory the [n]-th allocation returns *)
  junk : nat -> nat -> Z;
  (* is there a default allocator; does the [n]-th thread creation succeed? *)
  uk_alloc_get_default : bool;
  uk_thread_create_ok : nat -> bool;
  (* result of the [n]-th [writev] on a descriptor: 0 or a positive errno *)
  sys_writev : nat -> Z -> bytes -> Z;
  (* the request code of an [ioctl] that writes (group, number, argument size),
     and the result of the [n]-th [ioctl] on a descriptor *)
  IOW : Z -> Z -> Z -> Z;
  sys_ioctl : nat -> Z -> Z -> bytes -> Z;
  (* [read]/[pread] and [write]/[pwrite] on descriptor, position and length or
     data: an errno, or the data read or the number of bytes written *)
  iostate : Type;
  sys_read : iostate -> Z -> option Z -> Z -> (Z + bytes) * iostate;
  sys_write : iostate -> Z -> option Z -> bytes -> (Z + Z) * iostate;
  (* the [int] at the offset of [fd] of [struct fuse_chan] behind an address that
     is used as a [struct fuse_chan *], which may be one of a UKFS request *)
  chan_fd_of_request : Z -> Z;
}.

Class PlatformSpec (P : Platform) := {
  (* a counting semaphore *)
  sem_value : sem -> nat;
  sem_init_value : forall n, 0 <= n -> sem_value (uk_semaphore_init n) = Z.to_nat n;
  sem_up_value : forall s, sem_value (uk_semaphore_up s) = S (sem_value s);
  sem_down_zero : forall s, uk_semaphore_down s = None <-> sem_value s = O;
  sem_down_value : forall s s', uk_semaphore_down s = Some s' -> sem_value s = S (sem_value s');
  (* mutual exclusion: a held mutex blocks, unlock undoes lock *)
  mutex_held : mutex -> bool;
  mutex_init_free : mutex_held uk_mutex_init = false;
  mutex_lock_free : forall m, mutex_held m = false ->
    exists m', uk_mutex_lock m = Some m' /\ mutex_held m' = true /\ uk_mutex_unlock m' = m;
  mutex_lock_held : forall m, mutex_held m = true -> uk_mutex_lock m = None;
  mutex_unlock_free : forall m, mutex_held (uk_mutex_unlock m) = false;
  (* a queue of distinct elements *)
  tq_elems : tailq -> list Z;
  tq_init_elems : tq_elems UK_TAILQ_INIT = [];
  tq_insert_elems : forall q x, x ∉ tq_elems q ->
    tq_elems (UK_TAILQ_INSERT_TAIL q x) = tq_elems q ++ [x];
  tq_first_elems : forall q, UK_TAILQ_FIRST q = head (tq_elems q);
  tq_remove_elems : forall q x r, tq_elems q = x :: r -> tq_elems (UK_TAILQ_REMOVE q x) = r;
  (* a record of the given name length has room for the name and its NUL *)
  name_off_nonneg : 0 <= UKFS_DIRENT_NAME_OFF;
  reclen_room : forall n, 0 <= n -> UKFS_DIRENT_NAME_OFF + n + 1 <= UKFS_DIRENT_RECLEN n;
  (* system calls transfer at most what was asked for *)
  sys_read_len : forall s fd pos n bs s', 0 <= n ->
    sys_read s fd pos n = (inr bs, s') -> blen bs <= n;
  sys_write_len : forall s fd pos bs n s',
    sys_write s fd pos bs = (inr n, s') -> 0 <= n <= blen bs;
  sys_read_errno : forall s fd pos n e s', sys_read s fd pos n = (inl e, s') -> 0 < e;
  sys_write_errno : forall s fd pos bs e s', sys_write s fd pos bs = (inl e, s') -> 0 < e;
  (* allocator memory consists of bytes *)
  junk_byte : forall n i, byte_ok (junk n i);
}.

(** ** A concrete platform

    Used to evaluate the definitions: allocation fails exactly at the calls
    [bad] selects, every [writev] succeeds, descriptors are one pipe. *)
Definition ref_platform (bad : nat -> bool) : Platform := {|
  sem := nat;
  uk_semaphore_init n := Z.to_nat n;
  uk_semaphore_up s := S s;
  uk_semaphore_down s := match s with O => None | S s => Some s end;
  mutex := bool;
  uk_mutex_init := false;
  uk_mutex_lock m := if m then None else Some true;
  uk_mutex_unlock _ := false;
  tailq := list Z;
  UK_TAILQ_INIT := [];
  UK_TAILQ_INSERT_TAIL q x := q ++ [x];
  UK_TAILQ_FIRST q := head q;
  UK_TAILQ_REMOVE q x := match q with y :: r => if y =? x then r else q | [] => [] end;
  UKFS_STOP_FILE := 1;
  UKFS_STOP_MNT := 2;
  UKFS_DIRENT_RECLEN n := ((19 + n + 1 + 7) `div` 8) * 8;
  UKFS_DIRENT_NAME_OFF := 19;
  UK_STATX_MODE := 2;
  UK_STATX_SIZE := 512;
  UK_STATX_INO := 256;
  UK_STATX_NLINK := 4;
  UK_FILE_RELEASE_OBJ := 1;
  sizeof_stat := 144;
  alloc_ok n := negb (bad n);
  junk _ _ := 0;
  uk_alloc_get_default := true;
  uk_thread_create_ok _ := true;
  sys_writev _ _ _ := 0;
  IOW _ nr _ := nr;
  sys_ioctl _ _ _ _ := 0;
  iostate := bytes;
  sys_read s _ _ n := (inr (take (Z.to_nat n) s), drop (Z.to_nat n) s);
  sys_write s _ _ bs := (inr (blen bs), s ++ bs);
  chan_fd_of_request _ := 0;
|}.


#[refine] Definition ref_platform_spec bad : PlatformSpec (ref_platform bad) := {|
  sem_value (s : @sem (ref_platform bad)) := s;
  mutex_held (m : @mutex (ref_platform bad)) := m;
  tq_elems (q : @tailq (ref_platform bad)) := q;
|}.
Proof.
  all: cbn; try done.
  - intros [|s]; split; congruence.
  - intros [|s] s' H; congruence.
  - intros [] H; [done|]. by exists true.
  - by intros [].
  - intros q x r ->. by rewrite Z.eqb_refl.
  - intros n Hn. pose proof (Z.div_mod (19 + n + 1 + 7) 8). pose proof (Z.mod_pos_bound (19 + n + 1 + 7) 8). lia.
  - intros s _ _ n bs s' Hn [= <- _]. unfold blen. rewrite length_take. lia.
  - intros s _ _ bs n s' [= <- _]. unfold blen. lia.
Defined.

(** Every allocation succeeds. *)
Definition good : Platform := ref_platform (fun _ => false).
#[export] Instance good_spec : PlatformSpec good := ref_platform_spec (fun _ => false).
