(* ===== verification/KernelAbi.v ===== *)
(** * Kernel ABI

    [src/libs/libfuse/include/fuse/fuse_kernel.h]: the opcodes, flag bits and
    message structs of the FUSE protocol.  A member [m] of [struct fuse_s] is the
    field [s_m] of the record [fuse_s]. *)

From S2P Require Import Prelude Wire.

(** ** Opcodes *)

Inductive fuse_opcode :=
  | FUSE_LOOKUP | FUSE_FORGET | FUSE_GETATTR | FUSE_SETATTR | FUSE_READLINK
  | FUSE_SYMLINK | FUSE_MKNOD | FUSE_MKDIR | FUSE_UNLINK | FUSE_RMDIR | FUSE_RENAME
  | FUSE_LINK | FUSE_OPEN | FUSE_READ | FUSE_WRITE | FUSE_STATFS | FUSE_RELEASE
  | FUSE_FSYNC | FUSE_SETXATTR | FUSE_GETXATTR | FUSE_LISTXATTR | FUSE_REMOVEXATTR
  | FUSE_FLUSH | FUSE_INIT | FUSE_OPENDIR | FUSE_READDIR | FUSE_RELEASEDIR
  | FUSE_FSYNCDIR | FUSE_GETLK | FUSE_SETLK | FUSE_SETLKW | FUSE_ACCESS | FUSE_CREATE
  | FUSE_INTERRUPT | FUSE_BMAP | FUSE_DESTROY | FUSE_IOCTL | FUSE_POLL
  | FUSE_NOTIFY_REPLY | FUSE_BATCH_FORGET | FUSE_FALLOCATE | FUSE_READDIRPLUS
  | FUSE_RENAME2 | FUSE_LSEEK | FUSE_COPY_FILE_RANGE | FUSE_SETUPMAPPING
  | FUSE_REMOVEMAPPING | FUSE_SYNCFS | FUSE_TMPFILE | FUSE_STATX
  | FUSE_COPY_FILE_RANGE_64 | CUSE_INIT | CUSE_INIT_BSWAP_RESERVED
  | FUSE_INIT_BSWAP_RESERVED.

(** The value of an enumerator. *)
Definition opcode_val (o : fuse_opcode) : Z :=
  match o with
  | FUSE_LOOKUP => 1 | FUSE_FORGET => 2 | FUSE_GETATTR => 3 | FUSE_SETATTR => 4
  | FUSE_READLINK => 5 | FUSE_SYMLINK => 6 | FUSE_MKNOD => 8 | FUSE_MKDIR => 9
  | FUSE_UNLINK => 10 | FUSE_RMDIR => 11 | FUSE_RENAME => 12 | FUSE_LINK => 13
  | FUSE_OPEN => 14 | FUSE_READ => 15 | FUSE_WRITE => 16 | FUSE_STATFS => 17
  | FUSE_RELEASE => 18 | FUSE_FSYNC => 20 | FUSE_SETXATTR => 21 | FUSE_GETXATTR => 22
  | FUSE_LISTXATTR => 23 | FUSE_REMOVEXATTR => 24 | FUSE_FLUSH => 25 | FUSE_INIT => 26
  | FUSE_OPENDIR => 27 | FUSE_READDIR => 28 | FUSE_RELEASEDIR => 29 | FUSE_FSYNCDIR => 30
  | FUSE_GETLK => 31 | FUSE_SETLK => 32 | FUSE_SETLKW => 33 | FUSE_ACCESS => 34
  | FUSE_CREATE => 35 | FUSE_INTERRUPT => 36 | FUSE_BMAP => 37 | FUSE_DESTROY => 38
  | FUSE_IOCTL => 39 | FUSE_POLL => 40 | FUSE_NOTIFY_REPLY => 41
  | FUSE_BATCH_FORGET => 42 | FUSE_FALLOCATE => 43 | FUSE_READDIRPLUS => 44
  | FUSE_RENAME2 => 45 | FUSE_LSEEK => 46 | FUSE_COPY_FILE_RANGE => 47
  | FUSE_SETUPMAPPING => 48 | FUSE_REMOVEMAPPING => 49 | FUSE_SYNCFS => 50
  | FUSE_TMPFILE => 51 | FUSE_STATX => 52 | FUSE_COPY_FILE_RANGE_64 => 53
  | CUSE_INIT => 4096 | CUSE_INIT_BSWAP_RESERVED => 1048576
  | FUSE_INIT_BSWAP_RESERVED => 436207616
  end.

Coercion opcode_val : fuse_opcode >-> Z.

Lemma opcode_val_inj (o o' : fuse_opcode) : opcode_val o = opcode_val o' -> o = o'.
Proof. by destruct o, o'. Qed.

(** ** Flag bits *)

Definition FATTR_MODE : Z := Z.shiftl 1 0.
Definition FATTR_UID : Z := Z.shiftl 1 1.
Definition FATTR_GID : Z := Z.shiftl 1 2.
Definition FATTR_SIZE : Z := Z.shiftl 1 3.
Definition FATTR_ATIME : Z := Z.shiftl 1 4.
Definition FATTR_MTIME : Z := Z.shiftl 1 5.
Definition FATTR_FH : Z := Z.shiftl 1 6.
Definition FATTR_ATIME_NOW : Z := Z.shiftl 1 7.
Definition FATTR_MTIME_NOW : Z := Z.shiftl 1 8.
Definition FATTR_LOCKOWNER : Z := Z.shiftl 1 9.
Definition FATTR_CTIME : Z := Z.shiftl 1 10.
Definition FATTR_KILL_SUIDGID : Z := Z.shiftl 1 11.
Definition FOPEN_DIRECT_IO : Z := Z.shiftl 1 0.
Definition FOPEN_KEEP_CACHE : Z := Z.shiftl 1 1.
Definition FOPEN_NONSEEKABLE : Z := Z.shiftl 1 2.
Definition FOPEN_CACHE_DIR : Z := Z.shiftl 1 3.
Definition FOPEN_STREAM : Z := Z.shiftl 1 4.
Definition FOPEN_NOFLUSH : Z := Z.shiftl 1 5.
Definition FOPEN_PARALLEL_DIRECT_WRITES : Z := Z.shiftl 1 6.
Definition FOPEN_PASSTHROUGH : Z := Z.shiftl 1 7.
Definition FUSE_ASYNC_READ : Z := Z.shiftl 1 0.
Definition FUSE_POSIX_LOCKS : Z := Z.shiftl 1 1.
Definition FUSE_FILE_OPS : Z := Z.shiftl 1 2.
Definition FUSE_ATOMIC_O_TRUNC : Z := Z.shiftl 1 3.
Definition FUSE_EXPORT_SUPPORT : Z := Z.shiftl 1 4.
Definition FUSE_BIG_WRITES : Z := Z.shiftl 1 5.
Definition FUSE_DONT_MASK : Z := Z.shiftl 1 6.
Definition FUSE_SPLICE_WRITE : Z := Z.shiftl 1 7.
Definition FUSE_SPLICE_MOVE : Z := Z.shiftl 1 8.
Definition FUSE_SPLICE_READ : Z := Z.shiftl 1 9.
Definition FUSE_FLOCK_LOCKS : Z := Z.shiftl 1 10.
Definition FUSE_HAS_IOCTL_DIR : Z := Z.shiftl 1 11.
Definition FUSE_AUTO_INVAL_DATA : Z := Z.shiftl 1 12.
Definition FUSE_DO_READDIRPLUS : Z := Z.shiftl 1 13.
Definition FUSE_READDIRPLUS_AUTO : Z := Z.shiftl 1 14.
Definition FUSE_ASYNC_DIO : Z := Z.shiftl 1 15.
Definition FUSE_WRITEBACK_CACHE : Z := Z.shiftl 1 16.
Definition FUSE_NO_OPEN_SUPPORT : Z := Z.shiftl 1 17.
Definition FUSE_PARALLEL_DIROPS : Z := Z.shiftl 1 18.
Definition FUSE_HANDLE_KILLPRIV : Z := Z.shiftl 1 19.
Definition FUSE_POSIX_ACL : Z := Z.shiftl 1 20.
Definition FUSE_ABORT_ERROR : Z := Z.shiftl 1 21.
Definition FUSE_MAX_PAGES : Z := Z.shiftl 1 22.
Definition FUSE_CACHE_SYMLINKS : Z := Z.shiftl 1 23.
Definition FUSE_NO_OPENDIR_SUPPORT : Z := Z.shiftl 1 24.
Definition FUSE_EXPLICIT_INVAL_DATA : Z := Z.shiftl 1 25.
Definition FUSE_MAP_ALIGNMENT : Z := Z.shiftl 1 26.
Definition FUSE_SUBMOUNTS : Z := Z.shiftl 1 27.
Definition FUSE_HANDLE_KILLPRIV_V2 : Z := Z.shiftl 1 28.
Definition FUSE_SETXATTR_EXT : Z := Z.shiftl 1 29.
Definition FUSE_INIT_EXT : Z := Z.shiftl 1 30.
Definition FUSE_INIT_RESERVED : Z := Z.shiftl 1 31.
Definition FUSE_SECURITY_CTX : Z := Z.shiftl 1 32.
Definition FUSE_HAS_INODE_DAX : Z := Z.shiftl 1 33.
Definition FUSE_CREATE_SUPP_GROUP : Z := Z.shiftl 1 34.
Definition FUSE_HAS_EXPIRE_ONLY : Z := Z.shiftl 1 35.
Definition FUSE_DIRECT_IO_ALLOW_MMAP : Z := Z.shiftl 1 36.
Definition FUSE_PASSTHROUGH : Z := Z.shiftl 1 37.
Definition FUSE_NO_EXPORT_SUPPORT : Z := Z.shiftl 1 38.
Definition FUSE_HAS_RESEND : Z := Z.shiftl 1 39.
Definition FUSE_ALLOW_IDMAP : Z := Z.shiftl 1 40.
Definition FUSE_OVER_IO_URING : Z := Z.shiftl 1 41.
Definition FUSE_REQUEST_TIMEOUT : Z := Z.shiftl 1 42.
Definition CUSE_UNRESTRICTED_IOCTL : Z := Z.shiftl 1 0.
Definition FUSE_RELEASE_FLUSH : Z := Z.shiftl 1 0.
Definition FUSE_RELEASE_FLOCK_UNLOCK : Z := Z.shiftl 1 1.
Definition FUSE_GETATTR_FH : Z := Z.shiftl 1 0.
Definition FUSE_LK_FLOCK : Z := Z.shiftl 1 0.
Definition FUSE_WRITE_CACHE : Z := Z.shiftl 1 0.
Definition FUSE_WRITE_LOCKOWNER : Z := Z.shiftl 1 1.
Definition FUSE_WRITE_KILL_SUIDGID : Z := Z.shiftl 1 2.
Definition FUSE_READ_LOCKOWNER : Z := Z.shiftl 1 1.
Definition FUSE_IOCTL_COMPAT : Z := Z.shiftl 1 0.
Definition FUSE_IOCTL_UNRESTRICTED : Z := Z.shiftl 1 1.
Definition FUSE_IOCTL_RETRY : Z := Z.shiftl 1 2.
Definition FUSE_IOCTL_32BIT : Z := Z.shiftl 1 3.
Definition FUSE_IOCTL_DIR : Z := Z.shiftl 1 4.
Definition FUSE_IOCTL_COMPAT_X32 : Z := Z.shiftl 1 5.
Definition FUSE_POLL_SCHEDULE_NOTIFY : Z := Z.shiftl 1 0.
Definition FUSE_FSYNC_FDATASYNC : Z := Z.shiftl 1 0.
Definition FUSE_ATTR_SUBMOUNT : Z := Z.shiftl 1 0.
Definition FUSE_ATTR_DAX : Z := Z.shiftl 1 1.
Definition FUSE_OPEN_KILL_SUIDGID : Z := Z.shiftl 1 0.
Definition FUSE_SETXATTR_ACL_KILL_SGID : Z := Z.shiftl 1 0.
Definition FUSE_EXPIRE_ONLY : Z := Z.shiftl 1 0.
Definition FUSE_UNIQUE_RESEND : Z := Z.shiftl 1 63.

(** ** Sizes and versions *)

Definition FUSE_KERNEL_VERSION : Z := 7.
Definition FUSE_KERNEL_MINOR_VERSION : Z := 45.
Definition FUSE_MIN_READ_BUFFER : Z := 8192.
Definition FUSE_COMPAT_ENTRY_OUT_SIZE : Z := 120.
Definition FUSE_COMPAT_MKNOD_IN_SIZE : Z := 8.
Definition FUSE_COMPAT_WRITE_IN_SIZE : Z := 24.
Definition FUSE_COMPAT_STATFS_SIZE : Z := 48.
Definition FUSE_COMPAT_SETXATTR_IN_SIZE : Z := 8.
Definition FUSE_COMPAT_INIT_OUT_SIZE : Z := 8.
Definition FUSE_COMPAT_22_INIT_OUT_SIZE : Z := 24.

(** [FUSE_REC_ALIGN], [FUSE_DIRENT_ALIGN] *)
Definition FUSE_DIRENT_ALIGN (x : Z) : Z :=
  Z.land (u64 (u64 (x + 8) - 1)) (Z.lxor (2 ^ 64 - 1) (8 - 1)).

Ltac solve_wire_ok_signed :=
  constructor; [by intros []|intros []; cbn; intros; destruct_and?; by rewrite ?i32_u32, ?i64_u64].

(** ** Request headers *)

Record fuse_in_header := { in_header_len : Z; in_header_opcode : Z; in_header_unique : Z;
    in_header_nodeid : Z; in_header_uid : Z; in_header_gid : Z; in_header_pid : Z;
    in_header_total_extlen : Z; in_header_padding : Z }.
#[export] Instance fuse_in_header_wire : Wire fuse_in_header := {|
  layout := [4; 4; 8; 8; 4; 4; 4; 2; 2]%nat;
  members a := [in_header_len a; in_header_opcode a; in_header_unique a; in_header_nodeid a;
      in_header_uid a; in_header_gid a; in_header_pid a; in_header_total_extlen a;
      in_header_padding a];
  build l := match l with [len'; opcode'; unique'; nodeid'; uid'; gid'; pid'; total_extlen';
      padding'] => Some (Build_fuse_in_header len' opcode' unique' nodeid' uid' gid' pid'
      total_extlen' padding') | _ => None end;
  signed_ok a := True |}.
#[export] Instance fuse_in_header_ok : WireOk fuse_in_header.
Proof. solve_wire_ok. Qed.

Record fuse_out_header := { out_header_len : Z; out_header_error : Z; out_header_unique : Z
    }.
#[export] Instance fuse_out_header_wire : Wire fuse_out_header := {|
  layout := [4; 4; 8]%nat;
  members a := [out_header_len a; u32 (out_header_error a); out_header_unique a];
  build l := match l with [len'; error'; unique'] => Some (Build_fuse_out_header len' (i32
      error') unique') | _ => None end;
  signed_ok a := is_i 32 (out_header_error a) |}.
#[export] Instance fuse_out_header_ok : WireOk fuse_out_header.
Proof. solve_wire_ok_signed. Qed.

(** ** Requests *)

Record fuse_forget_in := { forget_in_nlookup : Z }.
#[export] Instance fuse_forget_in_wire : Wire fuse_forget_in := {|
  layout := [8]%nat;
  members a := [forget_in_nlookup a];
  build l := match l with [nlookup'] => Some (Build_fuse_forget_in nlookup') | _ => None
      end;
  signed_ok a := True |}.
#[export] Instance fuse_forget_in_ok : WireOk fuse_forget_in.
Proof. solve_wire_ok. Qed.

Record fuse_forget_one := { forget_one_nodeid : Z; forget_one_nlookup : Z }.
#[export] Instance fuse_forget_one_wire : Wire fuse_forget_one := {|
  layout := [8; 8]%nat;
  members a := [forget_one_nodeid a; forget_one_nlookup a];
  build l := match l with [nodeid'; nlookup'] => Some (Build_fuse_forget_one nodeid'
      nlookup') | _ => None end;
  signed_ok a := True |}.
#[export] Instance fuse_forget_one_ok : WireOk fuse_forget_one.
Proof. solve_wire_ok. Qed.

Record fuse_batch_forget_in := { batch_forget_in_count : Z; batch_forget_in_dummy : Z }.
#[export] Instance fuse_batch_forget_in_wire : Wire fuse_batch_forget_in := {|
  layout := [4; 4]%nat;
  members a := [batch_forget_in_count a; batch_forget_in_dummy a];
  build l := match l with [count'; dummy'] => Some (Build_fuse_batch_forget_in count'
      dummy') | _ => None end;
  signed_ok a := True |}.
#[export] Instance fuse_batch_forget_in_ok : WireOk fuse_batch_forget_in.
Proof. solve_wire_ok. Qed.

Record fuse_getattr_in := { getattr_in_getattr_flags : Z; getattr_in_dummy : Z;
    getattr_in_fh : Z }.
#[export] Instance fuse_getattr_in_wire : Wire fuse_getattr_in := {|
  layout := [4; 4; 8]%nat;
  members a := [getattr_in_getattr_flags a; getattr_in_dummy a; getattr_in_fh a];
  build l := match l with [getattr_flags'; dummy'; fh'] => Some (Build_fuse_getattr_in
      getattr_flags' dummy' fh') | _ => None end;
  signed_ok a := True |}.
#[export] Instance fuse_getattr_in_ok : WireOk fuse_getattr_in.
Proof. solve_wire_ok. Qed.

Record fuse_mknod_in := { mknod_in_mode : Z; mknod_in_rdev : Z; mknod_in_umask : Z;
    mknod_in_padding : Z }.
#[export] Instance fuse_mknod_in_wire : Wire fuse_mknod_in := {|
  layout := [4; 4; 4; 4]%nat;
  members a := [mknod_in_mode a; mknod_in_rdev a; mknod_in_umask a; mknod_in_padding a];
  build l := match l with [mode'; rdev'; umask'; padding'] => Some (Build_fuse_mknod_in
      mode' rdev' umask' padding') | _ => None end;
  signed_ok a := True |}.
#[export] Instance fuse_mknod_in_ok : WireOk fuse_mknod_in.
Proof. solve_wire_ok. Qed.

Record fuse_mkdir_in := { mkdir_in_mode : Z; mkdir_in_umask : Z }.
#[export] Instance fuse_mkdir_in_wire : Wire fuse_mkdir_in := {|
  layout := [4; 4]%nat;
  members a := [mkdir_in_mode a; mkdir_in_umask a];
  build l := match l with [mode'; umask'] => Some (Build_fuse_mkdir_in mode' umask') | _ =>
      None end;
  signed_ok a := True |}.
#[export] Instance fuse_mkdir_in_ok : WireOk fuse_mkdir_in.
Proof. solve_wire_ok. Qed.

Record fuse_rename_in := { rename_in_newdir : Z }.
#[export] Instance fuse_rename_in_wire : Wire fuse_rename_in := {|
  layout := [8]%nat;
  members a := [rename_in_newdir a];
  build l := match l with [newdir'] => Some (Build_fuse_rename_in newdir') | _ => None end;
  signed_ok a := True |}.
#[export] Instance fuse_rename_in_ok : WireOk fuse_rename_in.
Proof. solve_wire_ok. Qed.

Record fuse_rename2_in := { rename2_in_newdir : Z; rename2_in_flags : Z; rename2_in_padding
    : Z }.
#[export] Instance fuse_rename2_in_wire : Wire fuse_rename2_in := {|
  layout := [8; 4; 4]%nat;
  members a := [rename2_in_newdir a; rename2_in_flags a; rename2_in_padding a];
  build l := match l with [newdir'; flags'; padding'] => Some (Build_fuse_rename2_in newdir'
      flags' padding') | _ => None end;
  signed_ok a := True |}.
#[export] Instance fuse_rename2_in_ok : WireOk fuse_rename2_in.
Proof. solve_wire_ok. Qed.

Record fuse_link_in := { link_in_oldnodeid : Z }.
#[export] Instance fuse_link_in_wire : Wire fuse_link_in := {|
  layout := [8]%nat;
  members a := [link_in_oldnodeid a];
  build l := match l with [oldnodeid'] => Some (Build_fuse_link_in oldnodeid') | _ => None
      end;
  signed_ok a := True |}.
#[export] Instance fuse_link_in_ok : WireOk fuse_link_in.
Proof. solve_wire_ok. Qed.

Record fuse_setattr_in := { setattr_in_valid : Z; setattr_in_padding : Z; setattr_in_fh : Z;
    setattr_in_size : Z; setattr_in_lock_owner : Z; setattr_in_atime : Z; setattr_in_mtime :
    Z; setattr_in_ctime : Z; setattr_in_atimensec : Z; setattr_in_mtimensec : Z;
    setattr_in_ctimensec : Z; setattr_in_mode : Z; setattr_in_unused4 : Z; setattr_in_uid :
    Z; setattr_in_gid : Z; setattr_in_unused5 : Z }.
#[export] Instance fuse_setattr_in_wire : Wire fuse_setattr_in := {|
  layout := [4; 4; 8; 8; 8; 8; 8; 8; 4; 4; 4; 4; 4; 4; 4; 4]%nat;
  members a := [setattr_in_valid a; setattr_in_padding a; setattr_in_fh a; setattr_in_size
      a; setattr_in_lock_owner a; setattr_in_atime a; setattr_in_mtime a; setattr_in_ctime
      a; setattr_in_atimensec a; setattr_in_mtimensec a; setattr_in_ctimensec a;
      setattr_in_mode a; setattr_in_unused4 a; setattr_in_uid a; setattr_in_gid a;
      setattr_in_unused5 a];
  build l := match l with [valid'; padding'; fh'; size'; lock_owner'; atime'; mtime';
      ctime'; atimensec'; mtimensec'; ctimensec'; mode'; unused4'; uid'; gid'; unused5'] =>
      Some (Build_fuse_setattr_in valid' padding' fh' size' lock_owner' atime' mtime' ctime'
      atimensec' mtimensec' ctimensec' mode' unused4' uid' gid' unused5') | _ => None end;
  signed_ok a := True |}.
#[export] Instance fuse_setattr_in_ok : WireOk fuse_setattr_in.
Proof. solve_wire_ok. Qed.

Record fuse_open_in := { open_in_flags : Z; open_in_open_flags : Z }.
#[export] Instance fuse_open_in_wire : Wire fuse_open_in := {|
  layout := [4; 4]%nat;
  members a := [open_in_flags a; open_in_open_flags a];
  build l := match l with [flags'; open_flags'] => Some (Build_fuse_open_in flags'
      open_flags') | _ => None end;
  signed_ok a := True |}.
#[export] Instance fuse_open_in_ok : WireOk fuse_open_in.
Proof. solve_wire_ok. Qed.

Record fuse_create_in := { create_in_flags : Z; create_in_mode : Z; create_in_umask : Z;
    create_in_open_flags : Z }.
#[export] Instance fuse_create_in_wire : Wire fuse_create_in := {|
  layout := [4; 4; 4; 4]%nat;
  members a := [create_in_flags a; create_in_mode a; create_in_umask a; create_in_open_flags
      a];
  build l := match l with [flags'; mode'; umask'; open_flags'] => Some (Build_fuse_create_in
      flags' mode' umask' open_flags') | _ => None end;
  signed_ok a := True |}.
#[export] Instance fuse_create_in_ok : WireOk fuse_create_in.
Proof. solve_wire_ok. Qed.

Record fuse_release_in := { release_in_fh : Z; release_in_flags : Z;
    release_in_release_flags : Z; release_in_lock_owner : Z }.
#[export] Instance fuse_release_in_wire : Wire fuse_release_in := {|
  layout := [8; 4; 4; 8]%nat;
  members a := [release_in_fh a; release_in_flags a; release_in_release_flags a;
      release_in_lock_owner a];
  build l := match l with [fh'; flags'; release_flags'; lock_owner'] => Some
      (Build_fuse_release_in fh' flags' release_flags' lock_owner') | _ => None end;
  signed_ok a := True |}.
#[export] Instance fuse_release_in_ok : WireOk fuse_release_in.
Proof. solve_wire_ok. Qed.

Record fuse_flush_in := { flush_in_fh : Z; flush_in_unused : Z; flush_in_padding : Z;
    flush_in_lock_owner : Z }.
#[export] Instance fuse_flush_in_wire : Wire fuse_flush_in := {|
  layout := [8; 4; 4; 8]%nat;
  members a := [flush_in_fh a; flush_in_unused a; flush_in_padding a; flush_in_lock_owner
      a];
  build l := match l with [fh'; unused'; padding'; lock_owner'] => Some (Build_fuse_flush_in
      fh' unused' padding' lock_owner') | _ => None end;
  signed_ok a := True |}.
#[export] Instance fuse_flush_in_ok : WireOk fuse_flush_in.
Proof. solve_wire_ok. Qed.

Record fuse_read_in := { read_in_fh : Z; read_in_offset : Z; read_in_size : Z;
    read_in_read_flags : Z; read_in_lock_owner : Z; read_in_flags : Z; read_in_padding : Z
    }.
#[export] Instance fuse_read_in_wire : Wire fuse_read_in := {|
  layout := [8; 8; 4; 4; 8; 4; 4]%nat;
  members a := [read_in_fh a; read_in_offset a; read_in_size a; read_in_read_flags a;
      read_in_lock_owner a; read_in_flags a; read_in_padding a];
  build l := match l with [fh'; offset'; size'; read_flags'; lock_owner'; flags'; padding']
      => Some (Build_fuse_read_in fh' offset' size' read_flags' lock_owner' flags' padding')
      | _ => None end;
  signed_ok a := True |}.
#[export] Instance fuse_read_in_ok : WireOk fuse_read_in.
Proof. solve_wire_ok. Qed.

Record fuse_write_in := { write_in_fh : Z; write_in_offset : Z; write_in_size : Z;
    write_in_write_flags : Z; write_in_lock_owner : Z; write_in_flags : Z; write_in_padding
    : Z }.
#[export] Instance fuse_write_in_wire : Wire fuse_write_in := {|
  layout := [8; 8; 4; 4; 8; 4; 4]%nat;
  members a := [write_in_fh a; write_in_offset a; write_in_size a; write_in_write_flags a;
      write_in_lock_owner a; write_in_flags a; write_in_padding a];
  build l := match l with [fh'; offset'; size'; write_flags'; lock_owner'; flags'; padding']
      => Some (Build_fuse_write_in fh' offset' size' write_flags' lock_owner' flags'
      padding') | _ => None end;
  signed_ok a := True |}.
#[export] Instance fuse_write_in_ok : WireOk fuse_write_in.
Proof. solve_wire_ok. Qed.

Record fuse_fsync_in := { fsync_in_fh : Z; fsync_in_fsync_flags : Z; fsync_in_padding : Z }.
#[export] Instance fuse_fsync_in_wire : Wire fuse_fsync_in := {|
  layout := [8; 4; 4]%nat;
  members a := [fsync_in_fh a; fsync_in_fsync_flags a; fsync_in_padding a];
  build l := match l with [fh'; fsync_flags'; padding'] => Some (Build_fuse_fsync_in fh'
      fsync_flags' padding') | _ => None end;
  signed_ok a := True |}.
#[export] Instance fuse_fsync_in_ok : WireOk fuse_fsync_in.
Proof. solve_wire_ok. Qed.

Record fuse_setxattr_in := { setxattr_in_size : Z; setxattr_in_flags : Z;
    setxattr_in_setxattr_flags : Z; setxattr_in_padding : Z }.
#[export] Instance fuse_setxattr_in_wire : Wire fuse_setxattr_in := {|
  layout := [4; 4; 4; 4]%nat;
  members a := [setxattr_in_size a; setxattr_in_flags a; setxattr_in_setxattr_flags a;
      setxattr_in_padding a];
  build l := match l with [size'; flags'; setxattr_flags'; padding'] => Some
      (Build_fuse_setxattr_in size' flags' setxattr_flags' padding') | _ => None end;
  signed_ok a := True |}.
#[export] Instance fuse_setxattr_in_ok : WireOk fuse_setxattr_in.
Proof. solve_wire_ok. Qed.

Record fuse_getxattr_in := { getxattr_in_size : Z; getxattr_in_padding : Z }.
#[export] Instance fuse_getxattr_in_wire : Wire fuse_getxattr_in := {|
  layout := [4; 4]%nat;
  members a := [getxattr_in_size a; getxattr_in_padding a];
  build l := match l with [size'; padding'] => Some (Build_fuse_getxattr_in size' padding')
      | _ => None end;
  signed_ok a := True |}.
#[export] Instance fuse_getxattr_in_ok : WireOk fuse_getxattr_in.
Proof. solve_wire_ok. Qed.

Record fuse_file_lock := { file_lock_start : Z; file_lock_end : Z; file_lock_type : Z;
    file_lock_pid : Z }.
#[export] Instance fuse_file_lock_wire : Wire fuse_file_lock := {|
  layout := [8; 8; 4; 4]%nat;
  members a := [file_lock_start a; file_lock_end a; file_lock_type a; file_lock_pid a];
  build l := match l with [start'; end'; type'; pid'] => Some (Build_fuse_file_lock start'
      end' type' pid') | _ => None end;
  signed_ok a := True |}.
#[export] Instance fuse_file_lock_ok : WireOk fuse_file_lock.
Proof. solve_wire_ok. Qed.

Record fuse_lk_in := { lk_in_fh : Z; lk_in_owner : Z; lk_in_lk : fuse_file_lock;
    lk_in_lk_flags : Z; lk_in_padding : Z }.
#[export] Instance fuse_lk_in_wire : Wire fuse_lk_in := {|
  layout := [8; 8]%nat ++ layout fuse_file_lock ++ [4; 4]%nat;
  members a := [lk_in_fh a; lk_in_owner a] ++ members (lk_in_lk a) ++
               [lk_in_lk_flags a; lk_in_padding a];
  build l := match l with
             | [fh'; owner'; start'; end'; type'; pid'; flags'; padding'] =>
                 Some (Build_fuse_lk_in fh' owner'
                         (Build_fuse_file_lock start' end' type' pid') flags' padding')
             | _ => None
             end;
  signed_ok a := True |}.
#[export] Instance fuse_lk_in_ok : WireOk fuse_lk_in.
Proof. constructor; [by intros [? ? [] ? ?]|by intros [? ? [] ? ?]]. Qed.

Record fuse_access_in := { access_in_mask : Z; access_in_padding : Z }.
#[export] Instance fuse_access_in_wire : Wire fuse_access_in := {|
  layout := [4; 4]%nat;
  members a := [access_in_mask a; access_in_padding a];
  build l := match l with [mask'; padding'] => Some (Build_fuse_access_in mask' padding') |
      _ => None end;
  signed_ok a := True |}.
#[export] Instance fuse_access_in_ok : WireOk fuse_access_in.
Proof. solve_wire_ok. Qed.

Record fuse_interrupt_in := { interrupt_in_unique : Z }.
#[export] Instance fuse_interrupt_in_wire : Wire fuse_interrupt_in := {|
  layout := [8]%nat;
  members a := [interrupt_in_unique a];
  build l := match l with [unique'] => Some (Build_fuse_interrupt_in unique') | _ => None
      end;
  signed_ok a := True |}.
#[export] Instance fuse_interrupt_in_ok : WireOk fuse_interrupt_in.
Proof. solve_wire_ok. Qed.

Record fuse_bmap_in := { bmap_in_block : Z; bmap_in_blocksize : Z; bmap_in_padding : Z }.
#[export] Instance fuse_bmap_in_wire : Wire fuse_bmap_in := {|
  layout := [8; 4; 4]%nat;
  members a := [bmap_in_block a; bmap_in_blocksize a; bmap_in_padding a];
  build l := match l with [block'; blocksize'; padding'] => Some (Build_fuse_bmap_in block'
      blocksize' padding') | _ => None end;
  signed_ok a := True |}.
#[export] Instance fuse_bmap_in_ok : WireOk fuse_bmap_in.
Proof. solve_wire_ok. Qed.

Record fuse_ioctl_in := { ioctl_in_fh : Z; ioctl_in_flags : Z; ioctl_in_cmd : Z;
    ioctl_in_arg : Z; ioctl_in_in_size : Z; ioctl_in_out_size : Z }.
#[export] Instance fuse_ioctl_in_wire : Wire fuse_ioctl_in := {|
  layout := [8; 4; 4; 8; 4; 4]%nat;
  members a := [ioctl_in_fh a; ioctl_in_flags a; ioctl_in_cmd a; ioctl_in_arg a;
      ioctl_in_in_size a; ioctl_in_out_size a];
  build l := match l with [fh'; flags'; cmd'; arg'; in_size'; out_size'] => Some
      (Build_fuse_ioctl_in fh' flags' cmd' arg' in_size' out_size') | _ => None end;
  signed_ok a := True |}.
#[export] Instance fuse_ioctl_in_ok : WireOk fuse_ioctl_in.
Proof. solve_wire_ok. Qed.

Record fuse_poll_in := { poll_in_fh : Z; poll_in_kh : Z; poll_in_flags : Z; poll_in_events :
    Z }.
#[export] Instance fuse_poll_in_wire : Wire fuse_poll_in := {|
  layout := [8; 8; 4; 4]%nat;
  members a := [poll_in_fh a; poll_in_kh a; poll_in_flags a; poll_in_events a];
  build l := match l with [fh'; kh'; flags'; events'] => Some (Build_fuse_poll_in fh' kh'
      flags' events') | _ => None end;
  signed_ok a := True |}.
#[export] Instance fuse_poll_in_ok : WireOk fuse_poll_in.
Proof. solve_wire_ok. Qed.

Record fuse_fallocate_in := { fallocate_in_fh : Z; fallocate_in_offset : Z;
    fallocate_in_length : Z; fallocate_in_mode : Z; fallocate_in_padding : Z }.
#[export] Instance fuse_fallocate_in_wire : Wire fuse_fallocate_in := {|
  layout := [8; 8; 8; 4; 4]%nat;
  members a := [fallocate_in_fh a; fallocate_in_offset a; fallocate_in_length a;
      fallocate_in_mode a; fallocate_in_padding a];
  build l := match l with [fh'; offset'; length'; mode'; padding'] => Some
      (Build_fuse_fallocate_in fh' offset' length' mode' padding') | _ => None end;
  signed_ok a := True |}.
#[export] Instance fuse_fallocate_in_ok : WireOk fuse_fallocate_in.
Proof. solve_wire_ok. Qed.

Record fuse_lseek_in := { lseek_in_fh : Z; lseek_in_offset : Z; lseek_in_whence : Z;
    lseek_in_padding : Z }.
#[export] Instance fuse_lseek_in_wire : Wire fuse_lseek_in := {|
  layout := [8; 8; 4; 4]%nat;
  members a := [lseek_in_fh a; lseek_in_offset a; lseek_in_whence a; lseek_in_padding a];
  build l := match l with [fh'; offset'; whence'; padding'] => Some (Build_fuse_lseek_in fh'
      offset' whence' padding') | _ => None end;
  signed_ok a := True |}.
#[export] Instance fuse_lseek_in_ok : WireOk fuse_lseek_in.
Proof. solve_wire_ok. Qed.

Record fuse_copy_file_range_in := { copy_file_range_in_fh_in : Z; copy_file_range_in_off_in
    : Z; copy_file_range_in_nodeid_out : Z; copy_file_range_in_fh_out : Z;
    copy_file_range_in_off_out : Z; copy_file_range_in_len : Z; copy_file_range_in_flags : Z
    }.
#[export] Instance fuse_copy_file_range_in_wire : Wire fuse_copy_file_range_in := {|
  layout := [8; 8; 8; 8; 8; 8; 8]%nat;
  members a := [copy_file_range_in_fh_in a; copy_file_range_in_off_in a;
      copy_file_range_in_nodeid_out a; copy_file_range_in_fh_out a;
      copy_file_range_in_off_out a; copy_file_range_in_len a; copy_file_range_in_flags a];
  build l := match l with [fh_in'; off_in'; nodeid_out'; fh_out'; off_out'; len'; flags'] =>
      Some (Build_fuse_copy_file_range_in fh_in' off_in' nodeid_out' fh_out' off_out' len'
      flags') | _ => None end;
  signed_ok a := True |}.
#[export] Instance fuse_copy_file_range_in_ok : WireOk fuse_copy_file_range_in.
Proof. solve_wire_ok. Qed.

Record fuse_notify_retrieve_in := { notify_retrieve_in_dummy1 : Z; notify_retrieve_in_offset
    : Z; notify_retrieve_in_size : Z; notify_retrieve_in_dummy2 : Z;
    notify_retrieve_in_dummy3 : Z; notify_retrieve_in_dummy4 : Z }.
#[export] Instance fuse_notify_retrieve_in_wire : Wire fuse_notify_retrieve_in := {|
  layout := [8; 8; 4; 4; 8; 8]%nat;
  members a := [notify_retrieve_in_dummy1 a; notify_retrieve_in_offset a;
      notify_retrieve_in_size a; notify_retrieve_in_dummy2 a; notify_retrieve_in_dummy3 a;
      notify_retrieve_in_dummy4 a];
  build l := match l with [dummy1'; offset'; size'; dummy2'; dummy3'; dummy4'] => Some
      (Build_fuse_notify_retrieve_in dummy1' offset' size' dummy2' dummy3' dummy4') | _ =>
      None end;
  signed_ok a := True |}.
#[export] Instance fuse_notify_retrieve_in_ok : WireOk fuse_notify_retrieve_in.
Proof. solve_wire_ok. Qed.

(** ** Replies *)

Record fuse_attr := { attr_ino : Z; attr_size : Z; attr_blocks : Z; attr_atime : Z;
    attr_mtime : Z; attr_ctime : Z; attr_atimensec : Z; attr_mtimensec : Z; attr_ctimensec :
    Z; attr_mode : Z; attr_nlink : Z; attr_uid : Z; attr_gid : Z; attr_rdev : Z;
    attr_blksize : Z; attr_flags : Z }.
#[export] Instance fuse_attr_wire : Wire fuse_attr := {|
  layout := [8; 8; 8; 8; 8; 8; 4; 4; 4; 4; 4; 4; 4; 4; 4; 4]%nat;
  members a := [attr_ino a; attr_size a; attr_blocks a; attr_atime a; attr_mtime a;
      attr_ctime a; attr_atimensec a; attr_mtimensec a; attr_ctimensec a; attr_mode a;
      attr_nlink a; attr_uid a; attr_gid a; attr_rdev a; attr_blksize a; attr_flags a];
  build l := match l with [ino'; size'; blocks'; atime'; mtime'; ctime'; atimensec';
      mtimensec'; ctimensec'; mode'; nlink'; uid'; gid'; rdev'; blksize'; flags'] => Some
      (Build_fuse_attr ino' size' blocks' atime' mtime' ctime' atimensec' mtimensec'
      ctimensec' mode' nlink' uid' gid' rdev' blksize' flags') | _ => None end;
  signed_ok a := True |}.
#[export] Instance fuse_attr_ok : WireOk fuse_attr.
Proof. solve_wire_ok. Qed.

Record fuse_entry_out := { entry_out_nodeid : Z; entry_out_generation : Z;
    entry_out_entry_valid : Z; entry_out_attr_valid : Z; entry_out_entry_valid_nsec : Z;
    entry_out_attr_valid_nsec : Z; entry_out_attr : fuse_attr }.
#[export] Instance fuse_entry_out_wire : Wire fuse_entry_out := {|
  layout := [8; 8; 8; 8; 4; 4]%nat ++ layout fuse_attr;
  members a := [entry_out_nodeid a; entry_out_generation a; entry_out_entry_valid a;
                entry_out_attr_valid a; entry_out_entry_valid_nsec a;
                entry_out_attr_valid_nsec a] ++ members (entry_out_attr a);
  build l := match l with
             | nodeid' :: generation' :: ev' :: av' :: evn' :: avn' :: l =>
                 Build_fuse_entry_out nodeid' generation' ev' av' evn' avn' <$> build l
             | _ => None
             end;
  signed_ok a := True |}.
#[export] Instance fuse_entry_out_ok : WireOk fuse_entry_out.
Proof. constructor; [by intros [? ? ? ? ? ? []]|by intros [? ? ? ? ? ? []]]. Qed.

Record fuse_open_out := { open_out_fh : Z; open_out_open_flags : Z; open_out_backing_id : Z
    }.
#[export] Instance fuse_open_out_wire : Wire fuse_open_out := {|
  layout := [8; 4; 4]%nat;
  members a := [open_out_fh a; open_out_open_flags a; u32 (open_out_backing_id a)];
  build l := match l with [fh'; open_flags'; backing_id'] => Some (Build_fuse_open_out fh'
      open_flags' (i32 backing_id')) | _ => None end;
  signed_ok a := is_i 32 (open_out_backing_id a) |}.
#[export] Instance fuse_open_out_ok : WireOk fuse_open_out.
Proof. solve_wire_ok_signed. Qed.

Record fuse_write_out := { write_out_size : Z; write_out_padding : Z }.
#[export] Instance fuse_write_out_wire : Wire fuse_write_out := {|
  layout := [4; 4]%nat;
  members a := [write_out_size a; write_out_padding a];
  build l := match l with [size'; padding'] => Some (Build_fuse_write_out size' padding') |
      _ => None end;
  signed_ok a := True |}.
#[export] Instance fuse_write_out_ok : WireOk fuse_write_out.
Proof. solve_wire_ok. Qed.

Record fuse_getxattr_out := { getxattr_out_size : Z; getxattr_out_padding : Z }.
#[export] Instance fuse_getxattr_out_wire : Wire fuse_getxattr_out := {|
  layout := [4; 4]%nat;
  members a := [getxattr_out_size a; getxattr_out_padding a];
  build l := match l with [size'; padding'] => Some (Build_fuse_getxattr_out size' padding')
      | _ => None end;
  signed_ok a := True |}.
#[export] Instance fuse_getxattr_out_ok : WireOk fuse_getxattr_out.
Proof. solve_wire_ok. Qed.

Record fuse_lk_out := { lk_out_lk : fuse_file_lock }.
#[export] Instance fuse_lk_out_wire : Wire fuse_lk_out := {|
  layout := layout fuse_file_lock;
  members a := members (lk_out_lk a);
  build l := Build_fuse_lk_out <$> build l;
  signed_ok a := True |}.
#[export] Instance fuse_lk_out_ok : WireOk fuse_lk_out.
Proof. constructor; [by intros [[]]|by intros [[]]]. Qed.

Record fuse_bmap_out := { bmap_out_block : Z }.
#[export] Instance fuse_bmap_out_wire : Wire fuse_bmap_out := {|
  layout := [8]%nat;
  members a := [bmap_out_block a];
  build l := match l with [block'] => Some (Build_fuse_bmap_out block') | _ => None end;
  signed_ok a := True |}.
#[export] Instance fuse_bmap_out_ok : WireOk fuse_bmap_out.
Proof. solve_wire_ok. Qed.

Record fuse_ioctl_iovec := { ioctl_iovec_base : Z; ioctl_iovec_len : Z }.
#[export] Instance fuse_ioctl_iovec_wire : Wire fuse_ioctl_iovec := {|
  layout := [8; 8]%nat;
  members a := [ioctl_iovec_base a; ioctl_iovec_len a];
  build l := match l with [base'; len'] => Some (Build_fuse_ioctl_iovec base' len') | _ =>
      None end;
  signed_ok a := True |}.
#[export] Instance fuse_ioctl_iovec_ok : WireOk fuse_ioctl_iovec.
Proof. solve_wire_ok. Qed.

Record fuse_ioctl_out := { ioctl_out_result : Z; ioctl_out_flags : Z; ioctl_out_in_iovs : Z;
    ioctl_out_out_iovs : Z }.
#[export] Instance fuse_ioctl_out_wire : Wire fuse_ioctl_out := {|
  layout := [4; 4; 4; 4]%nat;
  members a := [u32 (ioctl_out_result a); ioctl_out_flags a; ioctl_out_in_iovs a;
      ioctl_out_out_iovs a];
  build l := match l with [result'; flags'; in_iovs'; out_iovs'] => Some
      (Build_fuse_ioctl_out (i32 result') flags' in_iovs' out_iovs') | _ => None end;
  signed_ok a := is_i 32 (ioctl_out_result a) |}.
#[export] Instance fuse_ioctl_out_ok : WireOk fuse_ioctl_out.
Proof. solve_wire_ok_signed. Qed.

Record fuse_poll_out := { poll_out_revents : Z; poll_out_padding : Z }.
#[export] Instance fuse_poll_out_wire : Wire fuse_poll_out := {|
  layout := [4; 4]%nat;
  members a := [poll_out_revents a; poll_out_padding a];
  build l := match l with [revents'; padding'] => Some (Build_fuse_poll_out revents'
      padding') | _ => None end;
  signed_ok a := True |}.
#[export] Instance fuse_poll_out_ok : WireOk fuse_poll_out.
Proof. solve_wire_ok. Qed.

Record fuse_lseek_out := { lseek_out_offset : Z }.
#[export] Instance fuse_lseek_out_wire : Wire fuse_lseek_out := {|
  layout := [8]%nat;
  members a := [lseek_out_offset a];
  build l := match l with [offset'] => Some (Build_fuse_lseek_out offset') | _ => None end;
  signed_ok a := True |}.
#[export] Instance fuse_lseek_out_ok : WireOk fuse_lseek_out.
Proof. solve_wire_ok. Qed.

Record fuse_copy_file_range_out := { copy_file_range_out_bytes_copied : Z }.
#[export] Instance fuse_copy_file_range_out_wire : Wire fuse_copy_file_range_out := {|
  layout := [8]%nat;
  members a := [copy_file_range_out_bytes_copied a];
  build l := match l with [bytes_copied'] => Some (Build_fuse_copy_file_range_out
      bytes_copied') | _ => None end;
  signed_ok a := True |}.
#[export] Instance fuse_copy_file_range_out_ok : WireOk fuse_copy_file_range_out.
Proof. solve_wire_ok. Qed.

Record fuse_dirent := { dirent_ino : Z; dirent_off : Z; dirent_namelen : Z; dirent_type : Z
    }.
#[export] Instance fuse_dirent_wire : Wire fuse_dirent := {|
  layout := [8; 8; 4; 4]%nat;
  members a := [dirent_ino a; dirent_off a; dirent_namelen a; dirent_type a];
  build l := match l with [ino'; off'; namelen'; type'] => Some (Build_fuse_dirent ino' off'
      namelen' type') | _ => None end;
  signed_ok a := True |}.
#[export] Instance fuse_dirent_ok : WireOk fuse_dirent.
Proof. solve_wire_ok. Qed.

(** ** Notifications *)

Record fuse_notify_poll_wakeup_out := { notify_poll_wakeup_out_kh : Z }.
#[export] Instance fuse_notify_poll_wakeup_out_wire : Wire fuse_notify_poll_wakeup_out := {|
  layout := [8]%nat;
  members a := [notify_poll_wakeup_out_kh a];
  build l := match l with [kh'] => Some (Build_fuse_notify_poll_wakeup_out kh') | _ => None
      end;
  signed_ok a := True |}.
#[export] Instance fuse_notify_poll_wakeup_out_ok : WireOk fuse_notify_poll_wakeup_out.
Proof. solve_wire_ok. Qed.

Record fuse_notify_inval_inode_out := { notify_inval_inode_out_ino : Z;
    notify_inval_inode_out_off : Z; notify_inval_inode_out_len : Z }.
#[export] Instance fuse_notify_inval_inode_out_wire : Wire fuse_notify_inval_inode_out := {|
  layout := [8; 8; 8]%nat;
  members a := [notify_inval_inode_out_ino a; u64 (notify_inval_inode_out_off a); u64
      (notify_inval_inode_out_len a)];
  build l := match l with [ino'; off'; len'] => Some (Build_fuse_notify_inval_inode_out ino'
      (i64 off') (i64 len')) | _ => None end;
  signed_ok a := is_i 64 (notify_inval_inode_out_off a) /\ is_i 64
      (notify_inval_inode_out_len a) |}.
#[export] Instance fuse_notify_inval_inode_out_ok : WireOk fuse_notify_inval_inode_out.
Proof. solve_wire_ok_signed. Qed.

Record fuse_notify_inval_entry_out := { notify_inval_entry_out_parent : Z;
    notify_inval_entry_out_namelen : Z; notify_inval_entry_out_flags : Z }.
#[export] Instance fuse_notify_inval_entry_out_wire : Wire fuse_notify_inval_entry_out := {|
  layout := [8; 4; 4]%nat;
  members a := [notify_inval_entry_out_parent a; notify_inval_entry_out_namelen a;
      notify_inval_entry_out_flags a];
  build l := match l with [parent'; namelen'; flags'] => Some
      (Build_fuse_notify_inval_entry_out parent' namelen' flags') | _ => None end;
  signed_ok a := True |}.
#[export] Instance fuse_notify_inval_entry_out_ok : WireOk fuse_notify_inval_entry_out.
Proof. solve_wire_ok. Qed.

Record fuse_notify_delete_out := { notify_delete_out_parent : Z; notify_delete_out_child :
    Z; notify_delete_out_namelen : Z; notify_delete_out_padding : Z }.
#[export] Instance fuse_notify_delete_out_wire : Wire fuse_notify_delete_out := {|
  layout := [8; 8; 4; 4]%nat;
  members a := [notify_delete_out_parent a; notify_delete_out_child a;
      notify_delete_out_namelen a; notify_delete_out_padding a];
  build l := match l with [parent'; child'; namelen'; padding'] => Some
      (Build_fuse_notify_delete_out parent' child' namelen' padding') | _ => None end;
  signed_ok a := True |}.
#[export] Instance fuse_notify_delete_out_ok : WireOk fuse_notify_delete_out.
Proof. solve_wire_ok. Qed.

Record fuse_notify_store_out := { notify_store_out_nodeid : Z; notify_store_out_offset : Z;
    notify_store_out_size : Z; notify_store_out_padding : Z }.
#[export] Instance fuse_notify_store_out_wire : Wire fuse_notify_store_out := {|
  layout := [8; 8; 4; 4]%nat;
  members a := [notify_store_out_nodeid a; notify_store_out_offset a; notify_store_out_size
      a; notify_store_out_padding a];
  build l := match l with [nodeid'; offset'; size'; padding'] => Some
      (Build_fuse_notify_store_out nodeid' offset' size' padding') | _ => None end;
  signed_ok a := True |}.
#[export] Instance fuse_notify_store_out_ok : WireOk fuse_notify_store_out.
Proof. solve_wire_ok. Qed.

Record fuse_notify_retrieve_out := { notify_retrieve_out_notify_unique : Z;
    notify_retrieve_out_nodeid : Z; notify_retrieve_out_offset : Z; notify_retrieve_out_size
    : Z; notify_retrieve_out_padding : Z }.
#[export] Instance fuse_notify_retrieve_out_wire : Wire fuse_notify_retrieve_out := {|
  layout := [8; 8; 8; 4; 4]%nat;
  members a := [notify_retrieve_out_notify_unique a; notify_retrieve_out_nodeid a;
      notify_retrieve_out_offset a; notify_retrieve_out_size a; notify_retrieve_out_padding
      a];
  build l := match l with [notify_unique'; nodeid'; offset'; size'; padding'] => Some
      (Build_fuse_notify_retrieve_out notify_unique' nodeid' offset' size' padding') | _ =>
      None end;
  signed_ok a := True |}.
#[export] Instance fuse_notify_retrieve_out_ok : WireOk fuse_notify_retrieve_out.
Proof. solve_wire_ok. Qed.

(** ** File system statistics *)

Record fuse_kstatfs := { kstatfs_blocks : Z; kstatfs_bfree : Z; kstatfs_bavail : Z;
      kstatfs_files : Z; kstatfs_ffree : Z; kstatfs_bsize : Z; kstatfs_namelen : Z;
      kstatfs_frsize : Z; kstatfs_padding : Z; kstatfs_spare0 : Z; kstatfs_spare1 : Z;
      kstatfs_spare2 : Z; kstatfs_spare3 : Z; kstatfs_spare4 : Z; kstatfs_spare5 : Z }.
#[export] Instance fuse_kstatfs_wire : Wire fuse_kstatfs := {|
  layout := [8; 8; 8; 8; 8; 4; 4; 4; 4; 4; 4; 4; 4; 4; 4]%nat;
    members a := [kstatfs_blocks a; kstatfs_bfree a; kstatfs_bavail a; kstatfs_files a;
      kstatfs_ffree a; kstatfs_bsize a; kstatfs_namelen a; kstatfs_frsize a; kstatfs_padding
      a; kstatfs_spare0 a; kstatfs_spare1 a; kstatfs_spare2 a; kstatfs_spare3 a;
      kstatfs_spare4 a; kstatfs_spare5 a];
    build l := match l with [blocks'; bfree'; bavail'; files'; ffree'; bsize'; namelen';
      frsize'; padding'; spare0'; spare1'; spare2'; spare3'; spare4'; spare5'] => Some
      (Build_fuse_kstatfs blocks' bfree' bavail' files' ffree' bsize' namelen' frsize'
      padding' spare0' spare1' spare2' spare3' spare4' spare5') | _ => None end;
  signed_ok a := True |}.
#[export] Instance fuse_kstatfs_ok : WireOk fuse_kstatfs.
Proof. solve_wire_ok. Qed.

Record fuse_statfs_out := { statfs_out_st : fuse_kstatfs }.
#[export] Instance fuse_statfs_out_wire : Wire fuse_statfs_out := {|
  layout := layout fuse_kstatfs;
  members a := members (statfs_out_st a);
  build l := Build_fuse_statfs_out <$> build l;
  signed_ok a := True |}.
#[export] Instance fuse_statfs_out_ok : WireOk fuse_statfs_out.
Proof. constructor; [by intros [[]]|by intros [[]]]. Qed.

(** ** Session setup *)

Record fuse_init_in := { init_in_major : Z; init_in_minor : Z; init_in_max_readahead : Z;
      init_in_flags : Z; init_in_flags2 : Z; init_in_unused0 : Z; init_in_unused1 : Z;
      init_in_unused2 : Z; init_in_unused3 : Z; init_in_unused4 : Z; init_in_unused5 : Z;
      init_in_unused6 : Z; init_in_unused7 : Z; init_in_unused8 : Z; init_in_unused9 : Z;
      init_in_unused10 : Z }.
#[export] Instance fuse_init_in_wire : Wire fuse_init_in := {|
  layout := [4; 4; 4; 4; 4; 4; 4; 4; 4; 4; 4; 4; 4; 4; 4; 4]%nat;
    members a := [init_in_major a; init_in_minor a; init_in_max_readahead a; init_in_flags
      a; init_in_flags2 a; init_in_unused0 a; init_in_unused1 a; init_in_unused2 a;
      init_in_unused3 a; init_in_unused4 a; init_in_unused5 a; init_in_unused6 a;
      init_in_unused7 a; init_in_unused8 a; init_in_unused9 a; init_in_unused10 a];
    build l := match l with [major'; minor'; max_readahead'; flags'; flags2'; unused0';
      unused1'; unused2'; unused3'; unused4'; unused5'; unused6'; unused7'; unused8';
      unused9'; unused10'] => Some (Build_fuse_init_in major' minor' max_readahead' flags'
      flags2' unused0' unused1' unused2' unused3' unused4' unused5' unused6' unused7'
      unused8' unused9' unused10') | _ => None end;
  signed_ok a := True |}.
#[export] Instance fuse_init_in_ok : WireOk fuse_init_in.
Proof. solve_wire_ok. Qed.

Record fuse_init_out := { init_out_major : Z; init_out_minor : Z; init_out_max_readahead :
      Z; init_out_flags : Z; init_out_max_background : Z; init_out_congestion_threshold : Z;
      init_out_max_write : Z; init_out_time_gran : Z; init_out_max_pages : Z;
      init_out_map_alignment : Z; init_out_flags2 : Z; init_out_max_stack_depth : Z;
      init_out_request_timeout : Z; init_out_unused0 : Z; init_out_unused1 : Z;
      init_out_unused2 : Z; init_out_unused3 : Z; init_out_unused4 : Z; init_out_unused5 :
      Z; init_out_unused6 : Z; init_out_unused7 : Z; init_out_unused8 : Z; init_out_unused9
      : Z; init_out_unused10 : Z }.
#[export] Instance fuse_init_out_wire : Wire fuse_init_out := {|
  layout := [4; 4; 4; 4; 2; 2; 4; 4; 2; 2; 4; 4; 2; 2; 2; 2; 2; 2; 2; 2; 2; 2; 2; 2]%nat;
    members a := [init_out_major a; init_out_minor a; init_out_max_readahead a;
      init_out_flags a; init_out_max_background a; init_out_congestion_threshold a;
      init_out_max_write a; init_out_time_gran a; init_out_max_pages a;
      init_out_map_alignment a; init_out_flags2 a; init_out_max_stack_depth a;
      init_out_request_timeout a; init_out_unused0 a; init_out_unused1 a; init_out_unused2
      a; init_out_unused3 a; init_out_unused4 a; init_out_unused5 a; init_out_unused6 a;
      init_out_unused7 a; init_out_unused8 a; init_out_unused9 a; init_out_unused10 a];
    build l := match l with [major'; minor'; max_readahead'; flags'; max_background';
      congestion_threshold'; max_write'; time_gran'; max_pages'; map_alignment'; flags2';
      max_stack_depth'; request_timeout'; unused0'; unused1'; unused2'; unused3'; unused4';
      unused5'; unused6'; unused7'; unused8'; unused9'; unused10'] => Some
      (Build_fuse_init_out major' minor' max_readahead' flags' max_background'
      congestion_threshold' max_write' time_gran' max_pages' map_alignment' flags2'
      max_stack_depth' request_timeout' unused0' unused1' unused2' unused3' unused4'
      unused5' unused6' unused7' unused8' unused9' unused10') | _ => None end;
  signed_ok a := True |}.
#[export] Instance fuse_init_out_ok : WireOk fuse_init_out.
Proof. solve_wire_ok. Qed.

(** ** Device control *)

Record fuse_backing_map := { backing_map_fd : Z; backing_map_flags : Z; backing_map_padding : Z }.
#[export] Instance fuse_backing_map_wire : Wire fuse_backing_map := {|
  layout := [4; 4; 8]%nat;
  members a := [u32 (backing_map_fd a); backing_map_flags a; backing_map_padding a];
  build l := match l with [fd'; flags'; padding'] => Some (Build_fuse_backing_map (i32 fd')
      flags' padding') | _ => None end;
  signed_ok a := is_i 32 (backing_map_fd a) |}.
#[export] Instance fuse_backing_map_ok : WireOk fuse_backing_map.
Proof. solve_wire_ok_signed. Qed.

Definition FUSE_DEV_IOC_MAGIC : Z := 229.
