(* ===== verification/LinkedList.v ===== *)
(** * Circular doubly linked lists

    [fuse_lowlevel.c] threads requests and notifications on intrusive lists
    whose heads are objects of the same struct ([list_*_req], [list_*_nreq]).
    A heap is a map from addresses to objects; [Linked] is the interface of the
    structs with [next] and [prev] members.  [dll h head l] is the abstraction:
    the list at [head] holds the objects [l] in order. *)

From S2P Require Import Prelude.

Class Linked (A : Type) := {
  next : A -> Z;
  prev : A -> Z;
  set_next : Z -> A -> A;
  set_prev : Z -> A -> A;
}.

Class LinkedOk (A : Type) `{!Linked A} : Prop := {
  next_set_next : forall v a, next (set_next v a) = v;
  next_set_prev : forall v a, next (set_prev v a) = next a;
  prev_set_next : forall v a, prev (set_next v a) = prev a;
  prev_set_prev : forall v a, prev (set_prev v a) = v;
  set_next_next : forall a, set_next (next a) a = a;
  set_prev_prev : forall a, set_prev (prev a) a = a;
  set_next_set_next : forall u v a, set_next u (set_next v a) = set_next u a;
  set_prev_set_prev : forall u v a, set_prev u (set_prev v a) = set_prev u a;
  set_next_set_prev : forall u v a, set_next u (set_prev v a) = set_prev v (set_next u a);
}.

Section ops.
Context {A : Type} `{!Linked A}.
Implicit Types (h : gmap Z A) (x y head : Z).

(** Reading and writing the link members of the object at an address; [None]
    when there is no object there. *)
Definition get_next x h : option Z := next <$> h !! x.
Definition get_prev x h : option Z := prev <$> h !! x.
Definition put_next x v h : option (gmap Z A) :=
  a ← h !! x; Some (<[x := set_next v a]> h).
Definition put_prev x v h : option (gmap Z A) :=
  a ← h !! x; Some (<[x := set_prev v a]> h).

(** [x->next = x; x->prev = x] *)
Definition ll_init x h : option (gmap Z A) :=
  h ← put_next x x h; put_prev x x h.

(** [list_del_*] *)
Definition ll_del x h : option (gmap Z A) :=
  p ← get_prev x h;
  n ← get_next x h;
  h ← put_next p n h;
  put_prev n p h.

(** [list_add_*]: [x] goes in front of [nx] *)
Definition ll_add x nx h : option (gmap Z A) :=
  p ← get_prev nx h;
  h ← put_next x nx h;
  h ← put_prev x p h;
  h ← put_next p x h;
  put_prev nx x h.

(** The loop [for (c = head->next; c != head; c = c->next)] stopping at the
    first object that satisfies [P]: [Some (Some c)] when it stops there,
    [Some None] when it gets back to the head, [None] when a link dangles
    or the fuel runs out. *)
Fixpoint ll_scan (P : A -> bool) (fuel : nat) head c h : option (option Z) :=
  match fuel with
  | O => None
  | S fuel =>
      if c =? head then Some None
      else a ← h !! c;
           if P a then Some (Some c) else ll_scan P fuel head (next a) h
  end.

(** A map with at least one binding per list element bounds the walk. *)
Definition ll_find (P : A -> bool) head h : option (option Z) :=
  n ← get_next head h; ll_scan P (S (size h)) head n h.
End ops.

Section dll.
Context {A : Type} `{LO : LinkedOk A}.
Implicit Types (h : gmap Z A) (x y head : Z) (l : list Z).

(** [link h x y]: [y] follows [x]. *)
Definition link h x y : Prop := get_next x h = Some y /\ get_prev y h = Some x.

Fixpoint chain h x l y : Prop :=
  match l with
  | [] => link h x y
  | z :: l => link h x z /\ chain h z l y
  end.

Definition dll h head l : Prop := NoDup (head :: l) /\ chain h head l head.

Lemma get_next_lookup x h a : h !! x = Some a -> get_next x h = Some (next a).
Proof. unfold get_next. by intros ->. Qed.

Lemma get_prev_lookup x h a : h !! x = Some a -> get_prev x h = Some (prev a).
Proof. unfold get_prev. by intros ->. Qed.

Lemma get_next_insert x y h a :
  get_next x (<[y := a]> h) = if decide (y = x) then Some (next a) else get_next x h.
Proof. unfold get_next. rewrite lookup_insert. by case_decide. Qed.

Lemma get_prev_insert x y h a :
  get_prev x (<[y := a]> h) = if decide (y = x) then Some (prev a) else get_prev x h.
Proof. unfold get_prev. rewrite lookup_insert. by case_decide. Qed.

Lemma get_next_Some x h n : get_next x h = Some n -> exists a, h !! x = Some a /\ next a = n.
Proof. unfold get_next. rewrite fmap_Some. naive_solver. Qed.

Lemma get_prev_Some x h n : get_prev x h = Some n -> exists a, h !! x = Some a /\ prev a = n.
Proof. unfold get_prev. rewrite fmap_Some. naive_solver. Qed.

Lemma put_next_inv x v h h' : put_next x v h = Some h' ->
  (forall y, get_next y h' = if decide (x = y) then Some v else get_next y h) /\
  (forall y, get_prev y h' = get_prev y h).
Proof.
  unfold put_next. intros (a & Ha & [= <-])%bind_Some. split; intros y.
  - rewrite get_next_insert. by rewrite next_set_next.
  - rewrite get_prev_insert, prev_set_next. case_decide; [|done].
    subst. by rewrite (get_prev_lookup _ _ a).
Qed.

Lemma put_prev_inv x v h h' : put_prev x v h = Some h' ->
  (forall y, get_prev y h' = if decide (x = y) then Some v else get_prev y h) /\
  (forall y, get_next y h' = get_next y h).
Proof.
  unfold put_prev. intros (a & Ha & [= <-])%bind_Some. split; intros y.
  - rewrite get_prev_insert. by rewrite prev_set_prev.
  - rewrite get_next_insert, next_set_prev. case_decide; [|done].
    subst. by rewrite (get_next_lookup _ _ a).
Qed.

Lemma put_next_is_Some x v h : is_Some (h !! x) -> exists h', put_next x v h = Some h'.
Proof. intros [a Ha]. unfold put_next. rewrite Ha. simpl. eauto. Qed.

Lemma put_prev_is_Some x v h : is_Some (h !! x) -> exists h', put_prev x v h = Some h'.
Proof. intros [a Ha]. unfold put_prev. rewrite Ha. simpl. eauto. Qed.

Lemma put_next_dom x v h h' y : put_next x v h = Some h' ->
  is_Some (h' !! y) <-> is_Some (h !! y).
Proof.
  unfold put_next. intros (a & Ha & [= <-])%bind_Some.
  rewrite lookup_insert_is_Some'. naive_solver.
Qed.

Lemma put_prev_dom x v h h' y : put_prev x v h = Some h' ->
  is_Some (h' !! y) <-> is_Some (h !! y).
Proof.
  unfold put_prev. intros (a & Ha & [= <-])%bind_Some.
  rewrite lookup_insert_is_Some'. naive_solver.
Qed.
End dll.

Section dll_ops.
Context {A : Type} `{LO : LinkedOk A}.
Implicit Types (h : gmap Z A) (x y head : Z) (l : list Z).

Lemma chain_app h x l1 z l2 y :
  chain h x (l1 ++ z :: l2) y <-> chain h x l1 z /\ chain h z l2 y.
Proof.
  revert x. induction l1 as [|w l1 IH]; intros x; simpl; [done|].
  rewrite IH. tauto.
Qed.

(** A chain only depends on the [next] of its sources and the [prev] of its targets. *)
Lemma chain_frame h h' x l y :
  (forall z, z ∈ x :: l -> get_next z h' = get_next z h) ->
  (forall z, z ∈ l ++ [y] -> get_prev z h' = get_prev z h) ->
  chain h x l y -> chain h' x l y.
Proof.
  revert x. induction l as [|w l IH]; simpl; intros x Hn Hp.
  - intros [? ?]. split; [rewrite Hn|rewrite Hp]; set_solver.
  - intros [[? ?] ?]. split; [split; [rewrite Hn|rewrite Hp]; set_solver|].
    apply IH; set_solver.
Qed.

(** The predecessor of the end of a chain, and the rest of the chain. *)
Lemma chain_unsnoc h x l y :
  chain h x l y -> exists p, link h p y /\
    ((l = [] /\ p = x) \/ exists l', l = l' ++ [p] /\ chain h x l' p).
Proof.
  destruct l as [|z l _] using rev_ind; simpl.
  - eauto.
  - rewrite chain_app. simpl. intros [? ?]. exists z. eauto.
Qed.

Lemma chain_head h x l y :
  chain h x l y -> exists n, link h x n /\
    ((l = [] /\ n = y) \/ exists l', l = n :: l' /\ chain h n l' y).
Proof. destruct l as [|z l]; simpl; [eauto|]. intros [? ?]. exists z. eauto. Qed.

Lemma link_dom_l h x y : link h x y -> is_Some (h !! x).
Proof. intros [(a & ? & _)%get_next_Some _]. eauto. Qed.

Lemma link_dom_r h x y : link h x y -> is_Some (h !! y).
Proof. intros [_ (a & ? & _)%get_prev_Some]. eauto. Qed.

(** Effect of [ll_add] on every link. *)
Lemma ll_add_links h x nx p :
  get_prev nx h = Some p -> x <> nx -> x <> p -> is_Some (h !! x) -> is_Some (h !! p) ->
  exists h', ll_add x nx h = Some h' /\
    (forall y, get_next y h' = if decide (p = y) then Some x
                               else if decide (x = y) then Some nx else get_next y h) /\
    (forall y, get_prev y h' = if decide (nx = y) then Some x
                               else if decide (x = y) then Some p else get_prev y h).
Proof.
  intros Hp Hn Hxp Hx HpD. unfold ll_add. rewrite Hp. simpl.
  assert (is_Some (h !! nx)) as HnD.
  { apply get_prev_Some in Hp as (a & ? & _). eauto. }
  destruct (put_next_is_Some x nx h Hx) as [h1 E1]. rewrite E1. simpl.
  destruct (put_prev_is_Some x p h1) as [h2 E2]; [by rewrite put_next_dom|].
  rewrite E2. simpl.
  destruct (put_next_is_Some p x h2) as [h3 E3].
  { rewrite put_prev_dom, put_next_dom; done. }
  rewrite E3. simpl.
  destruct (put_prev_is_Some nx x h3) as [h4 E4].
  { rewrite put_next_dom, put_prev_dom, put_next_dom; done. }
  exists h4. split; [done|].
  apply put_next_inv in E1 as [E1n E1p]. apply put_prev_inv in E2 as [E2p E2n].
  apply put_next_inv in E3 as [E3n E3p]. apply put_prev_inv in E4 as [E4p E4n].
  split; intros y.
  - by rewrite E4n, E3n, E2n, E1n.
  - by rewrite E4p, E3p, E2p, E1p.
Qed.

Lemma ll_del_links h x p n :
  get_prev x h = Some p -> get_next x h = Some n -> is_Some (h !! p) -> is_Some (h !! n) ->
  exists h', ll_del x h = Some h' /\
    (forall y, get_next y h' = if decide (p = y) then Some n else get_next y h) /\
    (forall y, get_prev y h' = if decide (n = y) then Some p else get_prev y h).
Proof.
  intros Hp Hn HpD HnD. unfold ll_del. rewrite Hp, Hn. simpl.
  destruct (put_next_is_Some p n h HpD) as [h1 E1]. rewrite E1. simpl.
  destruct (put_prev_is_Some n p h1) as [h2 E2]; [by rewrite put_next_dom|].
  exists h2. split; [done|].
  apply put_next_inv in E1 as [E1n E1p]. apply put_prev_inv in E2 as [E2p E2n].
  split; intros y; [by rewrite E2n, E1n|by rewrite E2p, E1p].
Qed.

(** [list_init] makes the empty list. *)
Lemma dll_init h x : is_Some (h !! x) -> exists h', ll_init x h = Some h' /\ dll h' x [].
Proof.
  intros Hx. unfold ll_init.
  destruct (put_next_is_Some x x h Hx) as [h1 E1]. rewrite E1. simpl.
  destruct (put_prev_is_Some x x h1) as [h2 E2]; [by rewrite put_next_dom|].
  exists h2. split; [done|].
  apply put_next_inv in E1 as [E1n E1p]. apply put_prev_inv in E2 as [E2p E2n].
  split; [apply NoDup_singleton|].
  split; [rewrite E2n, E1n|rewrite E2p]; by rewrite decide_True.
Qed.

(** Adding in front of the head appends. *)
Lemma dll_add h head l x :
  dll h head l -> x ∉ head :: l -> is_Some (h !! x) ->
  exists h', ll_add x head h = Some h' /\ dll h' head (l ++ [x]).
Proof.
  intros [Hnd Hc] Hx HxD.
  destruct (chain_unsnoc _ _ _ _ Hc) as (p & Hl & Hcase).
  assert (p ∈ head :: l) as Hpl.
  { destruct Hcase as [[-> ->]|(l' & -> & _)]; set_solver. }
  destruct (ll_add_links h x head p) as (h' & E & En & Ep);
    [apply Hl|set_solver..|by eapply link_dom_l|].
  exists h'. split; [done|]. split.
  { change (head :: l ++ [x]) with ((head :: l) ++ [x]).
    apply NoDup_app. split_and!; [done|set_solver|apply NoDup_singleton]. }
  apply chain_app. simpl. split.
  - destruct Hcase as [[-> ->]|(l' & -> & Hc')]; simpl.
    { split; [rewrite En, decide_True by done; done|].
      rewrite Ep, decide_False, decide_True by set_solver. done. }
    apply chain_app. apply NoDup_cons in Hnd as [Hh Hnd].
    apply NoDup_app in Hnd as (Hnd & Hpl' & _). simpl. split; [|split].
    + revert Hc'. apply chain_frame; intros z Hz.
      * rewrite En, !decide_False; set_solver.
      * rewrite Ep, !decide_False; set_solver.
    + by rewrite En, decide_True.
    + rewrite Ep, decide_False, decide_True; set_solver.
  - split; [rewrite En, decide_False, decide_True; set_solver|].
    by rewrite Ep, decide_True.
Qed.

(** Deleting an element of the list. *)
Lemma dll_del h head l1 x l2 :
  dll h head (l1 ++ x :: l2) ->
  exists h', ll_del x h = Some h' /\ dll h' head (l1 ++ l2).
Proof.
  intros [Hnd Hc]. apply chain_app in Hc as [Hc1 Hc2].
  destruct (chain_unsnoc _ _ _ _ Hc1) as (p & Hlp & Hp).
  destruct (chain_head _ _ _ _ Hc2) as (n & Hln & Hn).
  destruct (ll_del_links h x p n) as (h' & E & En & Ep);
    [apply Hlp|apply Hln|by eapply link_dom_l|by eapply link_dom_r|].
  exists h'. split; [done|].
  apply NoDup_cons in Hnd as [Hh Hnd].
  apply NoDup_app in Hnd as (Hn1 & Hdisj & [Hx2 Hn2]%NoDup_cons).
  split.
  { apply NoDup_cons. split; [set_solver|]. apply NoDup_app. set_solver. }
  assert (chain h' head l1 n) as H1.
  { destruct Hp as [[-> ->]|(l' & -> & Hc')]; simpl.
    - split; [by rewrite En, decide_True|by rewrite Ep, decide_True].
    - apply NoDup_app in Hn1 as (Hn1 & Hpl' & _).
      apply chain_app. simpl. split; [|split].
      + revert Hc'. apply chain_frame; intros z Hz.
        * rewrite En, decide_False; set_solver.
        * rewrite Ep, decide_False; [done|].
          destruct Hn as [[-> ->]|(l2' & -> & _)]; set_solver.
      + by rewrite En, decide_True.
      + by rewrite Ep, decide_True. }
  destruct Hn as [[-> ->]|(l2' & -> & Hc')]; [by rewrite app_nil_r|].
  apply NoDup_cons in Hn2 as [Hn2 Hnd2].
  apply chain_app. split; [done|].
  revert Hc'. apply chain_frame; intros z Hz.
  - rewrite En, decide_False; [done|].
    destruct Hp as [[-> ->]|(l' & -> & _)]; set_solver.
  - rewrite Ep, decide_False; set_solver.
Qed.
End dll_ops.

(** ** Searching *)

Section dll_find.
Context {A : Type} `{LO : LinkedOk A}.
Implicit Types (h : gmap Z A) (x y head : Z) (l : list Z).

(** Does the object at [x] satisfy [P]? *)
Definition sat (P : A -> bool) h x : bool :=
  match h !! x with Some a => P a | None => false end.

(** Specification of the search: the first element that satisfies [P]. *)
Fixpoint first_match (P : A -> bool) h l : option Z :=
  match l with
  | [] => None
  | x :: l => if sat P h x then Some x else first_match P h l
  end.

Lemma ll_scan_chain P h head l c fuel :
  chain h c l head -> head ∉ c :: l -> (length l + 1 < fuel)%nat ->
  ll_scan P fuel head c h = Some (first_match P h (c :: l)).
Proof.
  revert c fuel. induction l as [|z l IH]; intros c fuel Hc Hh Hf;
    destruct fuel as [|[|fuel]]; simpl in Hf; try lia;
    (rewrite not_elem_of_cons in Hh; destruct Hh as [Hhc Hh]);
    cbn [ll_scan first_match]; rewrite (proj2 (Z.eqb_neq _ _)) by done.
  - destruct Hc as [(a & Ha & Hn)%get_next_Some _].
    unfold sat. rewrite Ha. simpl. destruct (P a); [done|].
    by rewrite Hn, Z.eqb_refl.
  - destruct Hc as [[(a & Ha & Hn)%get_next_Some _] Hc].
    unfold sat at 1. rewrite Ha. simpl (a ← Some a; _). cbn [mbind option_bind].
    destruct (P a); [done|]. rewrite Hn. apply (IH z (S fuel)); [done..|lia].
Qed.

Lemma chain_dom h x l y z : chain h x l y -> z ∈ x :: l -> is_Some (h !! z).
Proof.
  revert x. induction l as [|w l IH]; simpl; intros x Hc Hz.
  - apply list_elem_of_singleton in Hz as ->. by eapply link_dom_l.
  - destruct Hc as [Hl Hc]. apply elem_of_cons in Hz as [->|Hz]; [by eapply link_dom_l|eauto].
Qed.

Lemma dll_dom h head l z : dll h head l -> z ∈ head :: l -> is_Some (h !! z).
Proof. intros [_ Hc]. by eapply chain_dom. Qed.

Lemma dll_size h head l : dll h head l -> (length l < size h)%nat.
Proof.
  intros H. assert (size (list_to_set (C := gset Z) (head :: l)) ≤ size (dom h))%nat as Hs.
  { apply subseteq_size. intros z. rewrite elem_of_list_to_set, elem_of_dom.
    by apply dll_dom. }
  rewrite size_list_to_set, size_dom in Hs by apply H. simpl in Hs. lia.
Qed.

(** The search terminates within its fuel and finds the first match. *)
Lemma dll_find h head l P : dll h head l -> ll_find P head h = Some (first_match P h l).
Proof.
  intros H. pose proof (dll_size _ _ _ H) as Hs. destruct H as [Hnd Hc].
  apply NoDup_cons in Hnd as [Hh _].
  destruct (chain_head _ _ _ _ Hc) as (n & [Hn _] & Hcase).
  unfold ll_find. rewrite Hn. cbn [mbind option_bind].
  destruct Hcase as [[-> ->]|(l' & -> & Hc')].
  - simpl. by rewrite Z.eqb_refl.
  - apply ll_scan_chain; [done|done|]. simpl in Hs. lia.
Qed.

Lemma first_match_Some P h l x :
  first_match P h l = Some x -> exists l1 l2, l = l1 ++ x :: l2 /\ sat P h x = true.
Proof.
  induction l as [|z l IH]; simpl; [done|]. destruct (sat P h z) eqn:E.
  - intros [= ->]. by exists [], l.
  - intros (l1 & l2 & -> & ?)%IH. by exists (z :: l1), l2.
Qed.

Lemma first_match_None P h l : first_match P h l = None <-> Forall (fun x => sat P h x = false) l.
Proof.
  induction l as [|z l IH]; simpl; [done|]. rewrite Forall_cons.
  destruct (sat P h z); [naive_solver|]. rewrite IH. naive_solver.
Qed.
End dll_find.

(** ** Adding and deleting again restores the heap *)

Section dll_restore.
Context {A : Type} `{LO : LinkedOk A}.
Implicit Types (h : gmap Z A) (x y head : Z) (l : list Z).

Lemma put_next_eq h x v a : h !! x = Some a -> put_next x v h = Some (<[x := set_next v a]> h).
Proof. unfold put_next. by intros ->. Qed.

Lemma put_prev_eq h x v a : h !! x = Some a -> put_prev x v h = Some (<[x := set_prev v a]> h).
Proof. unfold put_prev. by intros ->. Qed.

(** A tail insertion into the empty list, written out. *)
Lemma ll_add_nil_eq h head x a b :
  dll h head [] -> x <> head -> h !! head = Some a -> h !! x = Some b ->
  ll_add x head h =
    Some (<[head := set_prev x (set_next x a)]> (<[x := set_prev head (set_next head b)]> h)).
Proof.
  intros [_ [Hn Hp]] Hx Ha Hb. unfold ll_add. rewrite Hp. cbn [mbind option_bind].
  rewrite (put_next_eq _ _ _ b) by done. cbn [mbind option_bind].
  rewrite (put_prev_eq _ _ _ (set_next head b)) by (by rewrite lookup_insert_eq).
  cbn [mbind option_bind]. rewrite insert_insert_eq.
  rewrite (put_next_eq _ _ _ a) by (by rewrite lookup_insert_ne).
  cbn [mbind option_bind].
  rewrite (put_prev_eq _ _ _ (set_next x a)) by (by rewrite lookup_insert_eq).
  by rewrite insert_insert_eq.
Qed.

(** Deleting the only element, whatever its other members hold by then. *)
Lemma ll_del_single_eq h head x a b c :
  x <> head -> dll h head [] -> h !! head = Some a -> next c = head -> prev c = head ->
  ll_del x (<[head := set_prev x (set_next x a)]> (<[x := c]> (<[x := b]> h)))
  = Some (<[x := c]> h).
Proof.
  intros Hx [_ [Hn Hp]] Ha Hnc Hpc.
  rewrite (get_next_lookup _ _ _ Ha) in Hn. rewrite (get_prev_lookup _ _ _ Ha) in Hp.
  injection Hn as Hn. injection Hp as Hp.
  rewrite insert_insert_eq. unfold ll_del.
  rewrite (get_prev_lookup x _ c) by (rewrite lookup_insert_ne by done; apply lookup_insert_eq).
  rewrite (get_next_lookup x _ c) by (rewrite lookup_insert_ne by done; apply lookup_insert_eq).
  cbn [mbind option_bind]. rewrite Hnc, Hpc.
  rewrite (put_next_eq _ _ _ (set_prev x (set_next x a))) by (by rewrite lookup_insert_eq).
  cbn [mbind option_bind].
  rewrite (put_prev_eq _ _ _ (set_next head (set_prev x (set_next x a))))
    by (by rewrite lookup_insert_eq).
  rewrite !insert_insert_eq. f_equal.
  rewrite set_next_set_prev, set_prev_set_prev, set_next_set_next.
  assert (set_next head a = a) as -> by (rewrite <- Hn at 1; apply set_next_next).
  assert (set_prev head a = a) as -> by (rewrite <- Hp at 1; apply set_prev_prev).
  rewrite insert_id; [done|]. by rewrite lookup_insert_ne.
Qed.
End dll_restore.

(** ** Contents and frames

    The contents of a heap of objects are its objects without their links.  Link
    operations do not change the contents, and only touch the links of the
    neighbours of the object they move. *)

Section contents.
Context {A : Type} `{LO : LinkedOk A}.
Implicit Types (h : gmap Z A) (x y head : Z) (l : list Z).

Definition strip (a : A) : A := set_next 0 (set_prev 0 a).
Definition contents h : gmap Z A := strip <$> h.

Lemma strip_set_next v a : strip (set_next v a) = strip a.
Proof.
  unfold strip. rewrite set_next_set_prev, set_next_set_next.
  by rewrite set_next_set_prev.
Qed.

Lemma strip_set_prev v a : strip (set_prev v a) = strip a.
Proof. unfold strip. by rewrite set_prev_set_prev. Qed.

Lemma contents_insert_same h x a b :
  h !! x = Some a -> strip b = strip a -> contents (<[x := b]> h) = contents h.
Proof.
  intros Ha Hs. unfold contents. rewrite fmap_insert, Hs, <- fmap_insert.
  by rewrite insert_id.
Qed.

Lemma contents_put_next h h' x v : put_next x v h = Some h' -> contents h' = contents h.
Proof.
  unfold put_next. intros (a & Ha & [= <-])%bind_Some.
  by eapply contents_insert_same; [|apply strip_set_next].
Qed.

Lemma contents_put_prev h h' x v : put_prev x v h = Some h' -> contents h' = contents h.
Proof.
  unfold put_prev. intros (a & Ha & [= <-])%bind_Some.
  by eapply contents_insert_same; [|apply strip_set_prev].
Qed.

Lemma contents_ll_add h h' x nx : ll_add x nx h = Some h' -> contents h' = contents h.
Proof.
  unfold ll_add. intros (p & _ & H)%bind_Some.
  apply bind_Some in H as (h1 & <-%contents_put_next & H).
  apply bind_Some in H as (h2 & <-%contents_put_prev & H).
  apply bind_Some in H as (h3 & <-%contents_put_next & H).
  by apply contents_put_prev in H.
Qed.

Lemma contents_ll_del h h' x : ll_del x h = Some h' -> contents h' = contents h.
Proof.
  unfold ll_del. intros (p & _ & H)%bind_Some. apply bind_Some in H as (n & _ & H).
  apply bind_Some in H as (h1 & <-%contents_put_next & H).
  by apply contents_put_prev in H.
Qed.

Lemma contents_ll_init h h' x : ll_init x h = Some h' -> contents h' = contents h.
Proof.
  unfold ll_init. intros (h1 & <-%contents_put_next & H)%bind_Some.
  by apply contents_put_prev in H.
Qed.

Lemma contents_lookup h h' x a :
  contents h' = contents h -> h !! x = Some a ->
  exists a', h' !! x = Some a' /\ strip a' = strip a.
Proof.
  intros He Ha. assert (contents h' !! x = Some (strip a)) as H.
  { rewrite He. unfold contents. by rewrite lookup_fmap, Ha. }
  unfold contents in H. rewrite lookup_fmap in H. apply fmap_Some in H as (a' & ? & ?).
  eauto.
Qed.

(** Heaps that agree on the links of a list hold the same list. *)
Lemma dll_frame h h' head l :
  (forall y, y ∈ head :: l -> get_next y h' = get_next y h /\ get_prev y h' = get_prev y h) ->
  dll h head l -> dll h' head l.
Proof.
  intros Hf [Hnd Hc]. split; [done|]. revert Hc.
  apply chain_frame; intros z Hz; apply Hf; set_solver.
Qed.

Lemma dll_insert_same h head l x a b :
  h !! x = Some a -> next b = next a -> prev b = prev a ->
  dll h head l -> dll (<[x := b]> h) head l.
Proof.
  intros Ha Hn Hp. apply dll_frame. intros y _.
  rewrite get_next_insert, get_prev_insert. case_decide; [|done]. subst.
  by rewrite Hn, Hp, (get_next_lookup _ _ a), (get_prev_lookup _ _ a).
Qed.

Lemma dll_insert_fresh h head l x a :
  x ∉ head :: l -> dll h head l -> dll (<[x := a]> h) head l.
Proof.
  intros Hx. apply dll_frame. intros y Hy. unfold get_next, get_prev.
  rewrite lookup_insert_ne; [done|]. by intros ->.
Qed.

Lemma dll_delete_fresh h head l x :
  x ∉ head :: l -> dll h head l -> dll (delete x h) head l.
Proof.
  intros Hx. apply dll_frame. intros y Hy. unfold get_next, get_prev.
  rewrite lookup_delete_ne; [done|]. by intros ->.
Qed.

(** The neighbours of a member are the head or members. *)
Lemma dll_neighbours h head l1 x l2 :
  dll h head (l1 ++ x :: l2) ->
  exists p n, get_prev x h = Some p /\ get_next x h = Some n /\ p ∈ head :: l1 /\ n ∈ head :: l2.
Proof.
  intros [_ [Hc1 Hc2]%chain_app].
  destruct (chain_unsnoc _ _ _ _ Hc1) as (p & Hlp & Hp).
  destruct (chain_head _ _ _ _ Hc2) as (n & Hln & Hn).
  exists p, n. split; [apply Hlp|]. split; [apply Hln|]. split.
  - destruct Hp as [[-> ->]|(? & -> & _)]; set_solver.
  - destruct Hn as [[-> ->]|(? & -> & _)]; set_solver.
Qed.

Lemma dll_last h head l : dll h head l -> exists p, get_prev head h = Some p /\ p ∈ head :: l.
Proof.
  intros [_ Hc]. destruct (chain_unsnoc _ _ _ _ Hc) as (p & Hlp & Hp).
  exists p. split; [apply Hlp|]. destruct Hp as [[-> ->]|(? & -> & _)]; set_solver.
Qed.

(** Deleting a member of one list leaves the other lists alone. *)
Lemma dll_del_frame h h' head l1 x l2 head' l' :
  dll h head (l1 ++ x :: l2) -> ll_del x h = Some h' ->
  (forall y, y ∈ head' :: l' -> y ∉ head :: l1 ++ l2) ->
  dll h head' l' -> dll h' head' l'.
Proof.
  intros Hd E Hdis. destruct (dll_neighbours _ _ _ _ _ Hd) as (p & n & Hp & Hn & Hpi & Hni).
  destruct (ll_del_links h x p n) as (h1 & E1 & En & Ep);
    [done|done|eapply dll_dom; [done|set_solver]..|].
  assert (h1 = h') as -> by congruence.
  apply dll_frame. intros y Hy. apply Hdis in Hy.
  rewrite En, Ep, !decide_False; [done|set_solver..].
Qed.

Lemma dll_add_frame h h' head l x head' l' :
  dll h head l -> x ∉ head :: l -> is_Some (h !! x) -> ll_add x head h = Some h' ->
  (forall y, y ∈ head' :: l' -> y ∉ x :: head :: l) ->
  dll h head' l' -> dll h' head' l'.
Proof.
  intros Hd Hx HxD E Hdis. destruct (dll_last _ _ _ Hd) as (p & Hp & Hpi).
  destruct (ll_add_links h x head p) as (h1 & E1 & En & Ep);
    [done|set_solver|set_solver|done|by eapply dll_dom|].
  assert (h1 = h') as -> by congruence.
  apply dll_frame. intros y Hy. apply Hdis in Hy.
  rewrite En, Ep, !decide_False; [done|set_solver..].
Qed.

(** [list_del] on an object linked to itself changes nothing. *)
Lemma ll_del_self h x : dll h x [] -> ll_del x h = Some h.
Proof.
  intros [_ [Hn Hp]]. unfold ll_del. rewrite Hn, Hp. cbn [mbind option_bind].
  apply get_next_Some in Hn as (a & Ha & Hn). apply get_prev_Some in Hp as (a' & Ha' & Hp).
  assert (a' = a) as -> by congruence.
  rewrite (put_next_eq _ _ _ a) by done. cbn [mbind option_bind].
  assert (set_next x a = a) as -> by (rewrite <- Hn; apply set_next_next).
  rewrite insert_id, (put_prev_eq _ _ _ a) by done.
  assert (set_prev x a = a) as -> by (rewrite <- Hp; apply set_prev_prev).
  by rewrite insert_id.
Qed.
End contents.

(** The list without one of its elements. *)
Definition drop_elem (x : Z) (l : list Z) : list Z := filter (fun y => y <> x) l.

Lemma drop_elem_notin x l : x ∉ l -> drop_elem x l = l.
Proof.
  unfold drop_elem. induction l as [|y l IH]; intros Hx; [done|].
  rewrite filter_cons_True by set_solver. f_equal. apply IH. set_solver.
Qed.

Lemma drop_elem_middle x l1 l2 : NoDup (l1 ++ x :: l2) -> drop_elem x (l1 ++ x :: l2) = l1 ++ l2.
Proof.
  intros (_ & H1 & [H2 _]%NoDup_cons)%NoDup_app. unfold drop_elem.
  rewrite filter_app, filter_cons_False by (intros []; done).
  fold (drop_elem x l1) (drop_elem x l2).
  rewrite !drop_elem_notin; [done|done|]. intros Hx. apply (H1 _ Hx). set_solver.
Qed.

Lemma elem_of_drop_elem x y l : y ∈ drop_elem x l <-> y ∈ l /\ y <> x.
Proof. unfold drop_elem. rewrite list_elem_of_filter. tauto. Qed.
