(* ===== verification/World.v ===== *)
(** * Program state

    The objects the program keeps and the world they live in.  Pointers are
    addresses ([Z]); every kind of object has a heap of its own, a map from
    addresses to objects.  A [fault] names the undefined behaviour or the failed
    assertion an operation ran into. *)

From S2P Require Import Prelude Wire Platform KernelAbi LinkedList.
From Stdlib Require Import SpecFloat.

(** ** errno values (Linux numbering, as used by nolibc) *)

Definition ENOENT : Z := 2.
Definition EINTR : Z := 4.
Definition EIO : Z := 5.
Definition EBADF : Z := 9.
Definition EAGAIN : Z := 11.
Definition ENOMEM : Z := 12.
Definition EACCES : Z := 13.
Definition ENODEV : Z := 19.
Definition ENOTDIR : Z := 20.
Definition EISDIR : Z := 21.
Definition EINVAL : Z := 22.
Definition ENOTTY : Z := 25.
Definition ERANGE : Z := 34.
Definition ENOSYS : Z := 38.
Definition EPROTO : Z := 71.
Definition ENOTSUP : Z := 95.
Definition ENOTCONN : Z := 107.

(** ** Faults *)

Inductive fault :=
| OutOfBounds        (* access outside an object *)
| BadPointer         (* NULL, freed or otherwise invalid pointer *)
| TypeConfusion      (* object used as another type *)
| AssertFailed       (* assert(), UK_ASSERT() *)
| Deadlock           (* a lock taken again by its only user *)
| Uninitialized      (* use of an object that was never initialised *)
| Overflow           (* conversion out of the range of the target type *)
| OutOfFuel.         (* a loop of the model ran longer than its bound *)

(** ** libc and libfuse data *)

(** [struct stat], the members the program touches. *)
Record stat := {
  st_ino : Z; st_mode : Z; st_nlink : Z; st_uid : Z; st_gid : Z; st_rdev : Z;
  st_size : Z; st_blksize : Z; st_blocks : Z;
  st_atime : Z; st_mtime : Z; st_ctime : Z;
  st_atim_nsec : Z; st_mtim_nsec : Z; st_ctim_nsec : Z }.

(** [memset(&st, 0, sizeof(st))] *)
Definition stat_zero : stat := Build_stat 0 0 0 0 0 0 0 0 0 0 0 0 0 0 0.

Definition S_IFMT : Z := 61440.    (* 0170000 *)
Definition S_IFDIR : Z := 16384.   (* 0040000 *)
Definition S_IFREG : Z := 32768.   (* 0100000 *)

(** C [double]: IEEE 754 binary64. *)
Definition double : Type := spec_float.

(** A [double] holding an integer (exact up to 2^53). *)
Definition double_of_Z (z : Z) : double := binary_normalize 53 1024 z 0 false.

(** [struct fuse_entry_param] *)
Record fuse_entry_param := {
  e_ino : Z; e_generation : Z; e_attr : stat; e_attr_timeout : double; e_entry_timeout : double }.

(** [struct fuse_ctx] *)
Record fuse_ctx := { ctx_uid : Z; ctx_gid : Z; ctx_pid : Z; ctx_umask : Z }.

(** [struct fuse_file_info] *)
Record fuse_file_info := {
  fi_flags : Z; fi_writepage : bool; fi_direct_io : bool; fi_keep_cache : bool;
  fi_flush : bool; fi_nonseekable : bool; fi_flock_release : bool;
  fi_cache_readdir : bool; fi_noflush : bool; fi_parallel_direct_writes : bool;
  fi_fh : Z; fi_lock_owner : Z; fi_poll_events : Z; fi_backing_id : Z }.

Definition fi_zero : fuse_file_info :=
  Build_fuse_file_info 0 false false false false false false false false false 0 0 0 0.

(** [struct fuse_conn_info] *)
Record fuse_conn_info := {
  proto_major : Z; proto_minor : Z; max_write : Z; max_read : Z; max_readahead : Z;
  capable : Z; want : Z; max_background : Z; congestion_threshold : Z; time_gran : Z;
  max_backing_stack_depth : Z; no_interrupt : bool; capable_ext : Z; want_ext : Z;
  request_timeout : Z }.

Definition conn_zero : fuse_conn_info :=
  Build_fuse_conn_info 0 0 0 0 0 0 0 0 0 0 0 false 0 0 0.

(** [struct fuse_req].  The union [u] is its two words: [u.i.unique] and
    [u.ni.func] are the first, [u.ni.data] is the second.  The session is the
    one of the world. *)
Record fuse_req {P : Platform} := {
  rq_unique : Z; rq_ref_cnt : Z; rq_lock : mutex; rq_ukfs_req : option Z; rq_ctx : fuse_ctx;
  rq_ch : option Z; rq_interrupted : bool;
  rq_ioctl_64bit : bool; rq_is_uring : bool; rq_is_copy_file_range_64 : bool;
  rq_u0 : Z; rq_u1 : Z; rq_next : Z; rq_prev : Z }.
Arguments fuse_req {P}.

(** [calloc(1, sizeof(struct fuse_req))]; the lock is set up by its own
    initialiser before any use. *)
Definition req_zero {P : Platform} : fuse_req :=
  Build_fuse_req P 0 0 uk_mutex_init None (Build_fuse_ctx 0 0 0 0) None
    false false false false 0 0 0 0.

#[export] Instance fuse_req_linked {P : Platform} : Linked fuse_req := {|
  next := rq_next;
  prev := rq_prev;
  set_next v '(Build_fuse_req _ a b m c d e f g h i j k _ p) :=
    Build_fuse_req _ a b m c d e f g h i j k v p;
  set_prev v '(Build_fuse_req _ a b m c d e f g h i j k n _) :=
    Build_fuse_req _ a b m c d e f g h i j k n v |}.
#[export] Instance fuse_req_linked_ok {P : Platform} : LinkedOk fuse_req.
Proof. by constructor; repeat intros []. Qed.

(** [struct fuse_retrieve_req]: a [struct fuse_notify_req] with its cookie. *)
Record fuse_notify_req := { nq_unique : Z; nq_cookie : Z; nq_next : Z; nq_prev : Z }.

#[export] Instance fuse_notify_req_linked : Linked fuse_notify_req := {|
  next := nq_next;
  prev := nq_prev;
  set_next v '(Build_fuse_notify_req a b _ p) := Build_fuse_notify_req a b v p;
  set_prev v '(Build_fuse_notify_req a b n _) := Build_fuse_notify_req a b n v |}.
#[export] Instance fuse_notify_req_linked_ok : LinkedOk fuse_notify_req.
Proof. by constructor; repeat intros []. Qed.

(** ** Heap contents handed between the two sides

    Memory from [malloc] is tagged with the type of the data written to it. *)
Inductive blob :=
| B_undef (n : Z)                      (* malloc'ed, never written *)
| B_bytes (bs : bytes)
| B_entry (e : fuse_entry_param)
| B_stat (st : stat)
| B_open_out (o : fuse_open_out)
| B_poll (kh : Z)                       (* struct fuse_pollhandle *).

(** ** UKFS side *)

(** The union [in] of [struct fuse_ukfs_request]; [name] is an address. *)
Inductive ukfs_in :=
| In_none
| In_lookup (parent_ino name : Z)
| In_getattr (ino : Z)
| In_open (ino flags : Z)
| In_read (ino fh offset size : Z)
| In_readdir (ino fh offset size : Z).

(** [struct fusefs_file] *)
Record fusefs_file := {
  ff_nodeid : Z;
  ff_fh : Z;
  ff_upref : option Z;
  ff_vol : Z;
  ff_fsops : Z }.

(** Calls to code outside the repository that leave no trace in its own state. *)
Inductive event :=
| Ev_acquire (file : Z)                (* uk_file_acquire *)
| Ev_release (file : Z)                (* uk_file_release *)
| Ev_writev (fd : Z) (msg : bytes)     (* writev on a descriptor *)
| Ev_ioctl (fd request : Z) (arg : bytes)  (* ioctl on a descriptor *)
| Ev_close (fd : Z)                    (* close *)
| Ev_destroy                           (* the server's destroy operation *)
| Ev_thread.                           (* a daemon thread handed to the scheduler *)

Section world.
Context {P : Platform}.

(** [struct fuse_ukfs_request] *)
Record fuse_ukfs_request := {
  uq_opcode : Z; uq_unique : Z; uq_in : ukfs_in;
  uq_error : Z; uq_reply_data : option Z; uq_reply_len : Z; uq_done : sem }.

(** [struct fuse_ukfs_queue] *)
Record fuse_ukfs_queue := { q_head : tailq; q_lock : mutex; q_count : sem }.

(** [struct fuse_custom_io]: the two functions the library calls instead of
    [writev] and [read]. *)
Record fuse_custom_io := {
  io_writev : nat -> Z -> bytes -> Z;
  io_read : iostate -> Z -> Z -> (Z + bytes) * iostate }.

(** [struct fuse_session], without the operation table, which never changes
    after [fuse_session_new] and is a parameter of the code that calls it.
    [mt_finish] is [None] until [sem_init] is called on it. *)
Record fuse_session := {
  se_fd : Z; se_io : option fuse_custom_io; se_debug : bool;
  se_deny_others : bool; se_got_init : bool; se_cuse_data : bool; se_owner : Z;
  se_conn : fuse_conn_info; se_lock : mutex; se_got_destroy : bool;
  se_notify_ctr : Z; se_bufsize : Z; se_error : Z; se_mt_exited : bool;
  se_mt_finish : option sem; se_buf_reallocable : bool; se_uring_enable : bool;
  se_uring_q_depth : Z; se_conn_want : Z; se_conn_want_ext : Z;
  se_mountpoint : option bytes }.

(** Everything. [w_next] is the next unused address, [w_nalloc] and [w_nio]
    count allocations and system calls, [w_mem] holds raw memory objects, [w_registered] tells whether
    [fuse_registered_session] points to the session, [w_unique] is
    [fuse_req_unique], [w_queue] is [fuse_global_queue]. *)
Record world := {
  w_next : Z; w_nalloc : nat; w_nio : nat;
  w_reqs : gmap Z fuse_req;
  w_nreqs : gmap Z fuse_notify_req;
  w_blobs : gmap Z blob;
  w_mem : gmap Z bytes;
  w_io : iostate;
  w_uks : gmap Z fuse_ukfs_request;
  w_files : gmap Z fusefs_file;
  w_se : fuse_session;
  w_registered : bool;
  w_unique : Z;
  w_queue : fuse_ukfs_queue;
  w_trace : list event }.
End world.

(** The list heads embedded in [struct fuse_session]. *)
Definition SE_LIST : Z := 1.
Definition SE_INTERRUPTS : Z := 2.
Definition SE_NOTIFY : Z := 3.
