(* ===== verification/Monad.v ===== *)
(** * Effects

    Operations of the program are functions from a world to an outcome: a
    result and the world after it, or the fault the operation ran into.  [M] is
    the state-and-fault monad of these functions; the primitives below are the
    loads, stores, allocations and lock operations of the source. *)

From S2P Require Import Prelude Platform LinkedList World.

Section monad.
Context {P : Platform}.

Inductive outcome (A : Type) :=
| Ok (a : A) (w : world)
| Fault (f : fault).
Arguments Ok {A}.
Arguments Fault {A}.

Definition M (A : Type) : Type := world -> outcome A.

#[export] Instance M_ret : MRet M := fun A a w => Ok a w.
#[export] Instance M_bind : MBind M := fun A B f m w =>
  match m w with
  | Ok a w' => f a w'
  | Fault e => Fault e
  end.

(** ** Assignments to the parts of the world *)

Definition w_set_next (x : Z) (w : world) : world := Build_world x (w_nalloc w) (w_nio w)
  (w_reqs w) (w_nreqs w) (w_blobs w) (w_mem w) (w_io w) (w_uks w) (w_files w) (w_se w)
  (w_registered w) (w_unique w) (w_queue w) (w_trace w).
Definition w_set_nalloc (x : nat) (w : world) : world := Build_world (w_next w) x (w_nio
  w) (w_reqs w) (w_nreqs w) (w_blobs w) (w_mem w) (w_io w) (w_uks w) (w_files w) (w_se w)
  (w_registered w) (w_unique w) (w_queue w) (w_trace w).
Definition w_set_nio (x : nat) (w : world) : world := Build_world (w_next w) (w_nalloc w)
  x (w_reqs w) (w_nreqs w) (w_blobs w) (w_mem w) (w_io w) (w_uks w) (w_files w) (w_se w)
  (w_registered w) (w_unique w) (w_queue w) (w_trace w).
Definition w_set_reqs (x : gmap Z fuse_req) (w : world) : world := Build_world (w_next w)
  (w_nalloc w) (w_nio w) x (w_nreqs w) (w_blobs w) (w_mem w) (w_io w) (w_uks w) (w_files
  w) (w_se w) (w_registered w) (w_unique w) (w_queue w) (w_trace w).
Definition w_set_nreqs (x : gmap Z fuse_notify_req) (w : world) : world := Build_world
  (w_next w) (w_nalloc w) (w_nio w) (w_reqs w) x (w_blobs w) (w_mem w) (w_io w) (w_uks w)
  (w_files w) (w_se w) (w_registered w) (w_unique w) (w_queue w) (w_trace w).
Definition w_set_blobs (x : gmap Z blob) (w : world) : world := Build_world (w_next w)
  (w_nalloc w) (w_nio w) (w_reqs w) (w_nreqs w) x (w_mem w) (w_io w) (w_uks w) (w_files w)
  (w_se w) (w_registered w) (w_unique w) (w_queue w) (w_trace w).
Definition w_set_mem (x : gmap Z bytes) (w : world) : world := Build_world (w_next w)
  (w_nalloc w) (w_nio w) (w_reqs w) (w_nreqs w) (w_blobs w) x (w_io w) (w_uks w) (w_files
  w) (w_se w) (w_registered w) (w_unique w) (w_queue w) (w_trace w).
Definition w_set_io (x : iostate) (w : world) : world := Build_world (w_next w) (w_nalloc
  w) (w_nio w) (w_reqs w) (w_nreqs w) (w_blobs w) (w_mem w) x (w_uks w) (w_files w) (w_se
  w) (w_registered w) (w_unique w) (w_queue w) (w_trace w).
Definition w_set_uks (x : gmap Z fuse_ukfs_request) (w : world) : world := Build_world
  (w_next w) (w_nalloc w) (w_nio w) (w_reqs w) (w_nreqs w) (w_blobs w) (w_mem w) (w_io w)
  x (w_files w) (w_se w) (w_registered w) (w_unique w) (w_queue w) (w_trace w).
Definition w_set_files (x : gmap Z fusefs_file) (w : world) : world := Build_world (w_next
  w) (w_nalloc w) (w_nio w) (w_reqs w) (w_nreqs w) (w_blobs w) (w_mem w) (w_io w) (w_uks
  w) x (w_se w) (w_registered w) (w_unique w) (w_queue w) (w_trace w).
Definition w_set_se (x : fuse_session) (w : world) : world := Build_world (w_next w)
  (w_nalloc w) (w_nio w) (w_reqs w) (w_nreqs w) (w_blobs w) (w_mem w) (w_io w) (w_uks w)
  (w_files w) x (w_registered w) (w_unique w) (w_queue w) (w_trace w).
Definition w_set_registered (x : bool) (w : world) : world := Build_world (w_next w)
  (w_nalloc w) (w_nio w) (w_reqs w) (w_nreqs w) (w_blobs w) (w_mem w) (w_io w) (w_uks w)
  (w_files w) (w_se w) x (w_unique w) (w_queue w) (w_trace w).
Definition w_set_unique (x : Z) (w : world) : world := Build_world (w_next w) (w_nalloc w)
  (w_nio w) (w_reqs w) (w_nreqs w) (w_blobs w) (w_mem w) (w_io w) (w_uks w) (w_files w)
  (w_se w) (w_registered w) x (w_queue w) (w_trace w).
Definition w_set_queue (x : fuse_ukfs_queue) (w : world) : world := Build_world (w_next w)
  (w_nalloc w) (w_nio w) (w_reqs w) (w_nreqs w) (w_blobs w) (w_mem w) (w_io w) (w_uks w)
  (w_files w) (w_se w) (w_registered w) (w_unique w) x (w_trace w).
Definition w_set_trace (x : list event) (w : world) : world := Build_world (w_next w)
  (w_nalloc w) (w_nio w) (w_reqs w) (w_nreqs w) (w_blobs w) (w_mem w) (w_io w) (w_uks w)
  (w_files w) (w_se w) (w_registered w) (w_unique w) (w_queue w) x.

(** ** Primitives *)

Definition fault_ {A} (e : fault) : M A := fun _ => Fault e.

Definition gets {A} (f : world -> A) : M A := fun w => Ok (f w) w.

Definition modify (f : world -> world) : M unit := fun w => Ok tt (f w).

(** The value of a partial computation, or a fault. *)
Definition of_option {A} (e : fault) (o : option A) : M A :=
  match o with Some a => mret a | None => fault_ e end.

Definition assert_ (b : bool) : M unit := if b then mret tt else fault_ AssertFailed.

Definition when (b : bool) (m : M unit) : M unit := if b then m else mret tt.

(** [r->...] on a request *)
Definition get_req (r : Z) : M fuse_req := fun w =>
  match w_reqs w !! r with Some q => Ok q w | None => Fault BadPointer end.

Definition mod_req (r : Z) (f : fuse_req -> fuse_req) : M unit := fun w =>
  match w_reqs w !! r with
  | Some q => Ok tt (w_set_reqs (<[r := f q]> (w_reqs w)) w)
  | None => Fault BadPointer
  end.

(** An operation on the links of the requests. *)
Definition on_reqs (f : gmap Z fuse_req -> option (gmap Z fuse_req)) : M unit := fun w =>
  match f (w_reqs w) with
  | Some h => Ok tt (w_set_reqs h w)
  | None => Fault BadPointer
  end.

(** [u->...] on a UKFS request *)
Definition get_uk (u : Z) : M fuse_ukfs_request := fun w =>
  match w_uks w !! u with Some q => Ok q w | None => Fault BadPointer end.

Definition mod_uk (u : Z) (f : fuse_ukfs_request -> fuse_ukfs_request) : M unit := fun w =>
  match w_uks w !! u with
  | Some q => Ok tt (w_set_uks (<[u := f q]> (w_uks w)) w)
  | None => Fault BadPointer
  end.

Definition get_se : M fuse_session := gets w_se.
Definition mod_se (f : fuse_session -> fuse_session) : M unit :=
  modify (fun w => w_set_se (f (w_se w)) w).

Definition emit (e : event) : M unit := modify (fun w => w_set_trace (w_trace w ++ [e]) w).

(** ** Memory *)

(** One call of an allocation function: an unused address, or [NULL]. *)
Definition alloc : M (option Z) := fun w =>
  let w1 := w_set_nalloc (S (w_nalloc w)) w in
  if alloc_ok (w_nalloc w) then Ok (Some (w_next w)) (w_set_next (w_next w + 1) w1)
  else Ok None w1.

(** [malloc(n)] *)
Definition malloc (n : Z) : M (option Z) :=
  p ← alloc;
  match p with
  | Some a => modify (fun w => w_set_blobs (<[a := B_undef n]> (w_blobs w)) w);; mret (Some a)
  | None => mret None
  end.

(** The data a block holds. *)
Definition load (a : Z) : M blob := fun w =>
  match w_blobs w !! a with Some b => Ok b w | None => Fault BadPointer end.

(** Overwriting all of a block. *)
Definition store (a : Z) (b : blob) : M unit := fun w =>
  match w_blobs w !! a with
  | Some _ => Ok tt (w_set_blobs (<[a := b]> (w_blobs w)) w)
  | None => Fault BadPointer
  end.

(** [free(p)] *)
Definition free (p : option Z) : M unit := fun w =>
  match p with
  | None => Ok tt w
  | Some a =>
      match w_blobs w !! a with
      | Some _ => Ok tt (w_set_blobs (delete a (w_blobs w)) w)
      | None => Fault BadPointer
      end
  end.

(** ** The session lock *)

Definition se_set_lock (m : mutex) (se : fuse_session) : fuse_session :=
  let '(Build_fuse_session a b c d e f g h _ i j k l m1 m2 m3 m4 m5 m6 m7 m8) := se in
  Build_fuse_session a b c d e f g h m i j k l m1 m2 m3 m4 m5 m6 m7 m8.

Definition lock_se : M unit := fun w =>
  match uk_mutex_lock (se_lock (w_se w)) with
  | Some m => Ok tt (w_set_se (se_set_lock m (w_se w)) w)
  | None => Fault Deadlock
  end.

Definition unlock_se : M unit :=
  mod_se (fun se => se_set_lock (uk_mutex_unlock (se_lock se)) se).
End monad.
Arguments Ok {P A}.
Arguments Fault {P A}.

(** ** Running *)

Section run.
Context {P : Platform}.
Implicit Types (w : world) (r u : Z).

Lemma bind_run {A B} (m : M A) (k : A -> M B) w a w' :
  m w = Ok a w' -> (m ≫= k) w = k a w'.
Proof. intros H. unfold mbind, M_bind. by rewrite H. Qed.

Lemma bind_fault {A B} (m : M A) (k : A -> M B) w e :
  m w = Fault e -> (m ≫= k) w = Fault e.
Proof. intros H. unfold mbind, M_bind. by rewrite H. Qed.

(** The steps of a run that returns. *)
Lemma bind_inv {A B} (m : M A) (k : A -> M B) w b w' :
  (m ≫= k) w = Ok b w' -> exists a w1, m w = Ok a w1 /\ k a w1 = Ok b w'.
Proof. unfold mbind, M_bind. destruct (m w) as [a w1|]; [eauto|done]. Qed.

Lemma ret_run {A} (a : A) w : (mret a : M A) w = Ok a w.
Proof. done. Qed.

Lemma of_option_run {A} e o (a : A) w : o = Some a -> of_option e o w = Ok a w.
Proof. by intros ->. Qed.

Lemma get_req_run r q w : w_reqs w !! r = Some q -> get_req r w = Ok q w.
Proof. unfold get_req. by intros ->. Qed.

Lemma mod_req_run r f q w : w_reqs w !! r = Some q ->
  mod_req r f w = Ok tt (w_set_reqs (<[r := f q]> (w_reqs w)) w).
Proof. unfold mod_req. by intros ->. Qed.

Lemma on_reqs_run f h w : f (w_reqs w) = Some h -> on_reqs f w = Ok tt (w_set_reqs h w).
Proof. unfold on_reqs. by intros ->. Qed.

Lemma get_uk_run u q w : w_uks w !! u = Some q -> get_uk u w = Ok q w.
Proof. unfold get_uk. by intros ->. Qed.

Lemma mod_uk_run u f q w : w_uks w !! u = Some q ->
  mod_uk u f w = Ok tt (w_set_uks (<[u := f q]> (w_uks w)) w).
Proof. unfold mod_uk. by intros ->. Qed.

Lemma load_run a b w : w_blobs w !! a = Some b -> load a w = Ok b w.
Proof. unfold load. by intros ->. Qed.

Lemma store_run a b b0 w : w_blobs w !! a = Some b0 ->
  store a b w = Ok tt (w_set_blobs (<[a := b]> (w_blobs w)) w).
Proof. unfold store. by intros ->. Qed.

Lemma free_run a b w : w_blobs w !! a = Some b ->
  free (Some a) w = Ok tt (w_set_blobs (delete a (w_blobs w)) w).
Proof. unfold free. by intros ->. Qed.

Lemma lock_se_run m w : uk_mutex_lock (se_lock (w_se w)) = Some m ->
  lock_se w = Ok tt (w_set_se (se_set_lock m (w_se w)) w).
Proof. unfold lock_se. by intros ->. Qed.

Lemma w_set_se_id w : w_set_se (w_se w) w = w.
Proof. by destruct w. Qed.
Lemma w_set_reqs_id w : w_set_reqs (w_reqs w) w = w.
Proof. by destruct w. Qed.
Lemma w_set_uks_id w : w_set_uks (w_uks w) w = w.
Proof. by destruct w. Qed.

Lemma critical_section w m hp :
  w_set_se (w_se w) (w_set_reqs hp (w_set_se (se_set_lock m (w_se w)) w)) = w_set_reqs hp w.
Proof. by destruct w. Qed.

(** A critical section leaves the lock as it found it. *)
Lemma se_set_lock_lock m se : se_lock (se_set_lock m se) = m.
Proof. by destruct se. Qed.

Lemma se_set_lock_twice m m' se : se_set_lock m (se_set_lock m' se) = se_set_lock m se.
Proof. by destruct se. Qed.

Lemma se_set_lock_id se : se_set_lock (se_lock se) se = se.
Proof. by destruct se. Qed.
End run.

#[export] Hint Resolve ret_run of_option_run get_req_run mod_req_run on_reqs_run get_uk_run
  mod_uk_run load_run store_run free_run : fuse.

(** One step of a computation: its outcome is given by a tactic, or found in the
    hint database. *)
Tactic Notation "mstep" "by" tactic3(t) := erewrite bind_run by t; cbv beta iota.
Tactic Notation "mstep" := erewrite bind_run by (eauto with fuse); cbv beta iota.
