(* ===== verification/Request.v ===== *)
(** * Requests of the library

    [struct fuse_req] and its life cycle in [fuse_lowlevel.c]: allocation,
    the session's lists of requests in progress and of pending interrupts, and
    the release of a request.  The invariant [lists_ok] says that both lists are
    well formed and disjoint; [live] describes a request the library may still
    answer, [freed] what releasing it leaves behind. *)

From S2P Require Import Prelude Platform LinkedList World Monad.

Section request.
Context {P : Platform}.

(** ** Assignments to members of a request *)

Definition rq_set_unique (x : Z) (q : fuse_req) : fuse_req :=
  let '(Build_fuse_req _ _ b c d e f g h i j k l m n) := q in Build_fuse_req _ x b c d e f g h i j k l m n.
Definition rq_set_ref_cnt (x : Z) (q : fuse_req) : fuse_req :=
  let '(Build_fuse_req _ a _ c d e f g h i j k l m n) := q in Build_fuse_req _ a x c d e f g h i j k l m n.
Definition rq_set_lock (x : mutex) (q : fuse_req) : fuse_req :=
  let '(Build_fuse_req _ a b _ d e f g h i j k l m n) := q in Build_fuse_req _ a b x d e f g h i j k l m n.
Definition rq_set_ukfs_req (x : option Z) (q : fuse_req) : fuse_req :=
  let '(Build_fuse_req _ a b c _ e f g h i j k l m n) := q in Build_fuse_req _ a b c x e f g h i j k l m n.
Definition rq_set_ctx (x : fuse_ctx) (q : fuse_req) : fuse_req :=
  let '(Build_fuse_req _ a b c d _ f g h i j k l m n) := q in Build_fuse_req _ a b c d x f g h i j k l m n.
Definition rq_set_ch (x : option Z) (q : fuse_req) : fuse_req :=
  let '(Build_fuse_req _ a b c d e _ g h i j k l m n) := q in Build_fuse_req _ a b c d e x g h i j k l m n.
Definition rq_set_interrupted (x : bool) (q : fuse_req) : fuse_req :=
  let '(Build_fuse_req _ a b c d e f _ h i j k l m n) := q in Build_fuse_req _ a b c d e f x h i j k l m n.
Definition rq_set_ioctl_64bit (x : bool) (q : fuse_req) : fuse_req :=
  let '(Build_fuse_req _ a b c d e f g _ i j k l m n) := q in Build_fuse_req _ a b c d e f g x i j k l m n.
Definition rq_set_is_uring (x : bool) (q : fuse_req) : fuse_req :=
  let '(Build_fuse_req _ a b c d e f g h _ j k l m n) := q in Build_fuse_req _ a b c d e f g h x j k l m n.
Definition rq_set_is_copy_file_range_64 (x : bool) (q : fuse_req) : fuse_req :=
  let '(Build_fuse_req _ a b c d e f g h i _ k l m n) := q in Build_fuse_req _ a b c d e f g h i x k l m n.
Definition rq_set_u0 (x : Z) (q : fuse_req) : fuse_req :=
  let '(Build_fuse_req _ a b c d e f g h i j _ l m n) := q in Build_fuse_req _ a b c d e f g h i j x l m n.
Definition rq_set_u1 (x : Z) (q : fuse_req) : fuse_req :=
  let '(Build_fuse_req _ a b c d e f g h i j k _ m n) := q in Build_fuse_req _ a b c d e f g h i j k x m n.

(** ** Operations *)

Definition list_init_req (r : Z) : M unit := on_reqs (ll_init r).
Definition list_del_req (r : Z) : M unit := on_reqs (ll_del r).
Definition list_add_req (r next : Z) : M unit := on_reqs (ll_add r next).

(** [fuse_chan_get] and [fuse_chan_put] do nothing on this platform. *)
Definition fuse_chan_put (ch : option Z) : M unit := mret tt.
Definition fuse_chan_get (ch : option Z) : M (option Z) := mret ch.

Definition destroy_req (r : Z) : M unit :=
  q ← get_req r;
  if rq_is_uring q then mret tt
  else
    assert_ (bool_decide (rq_ch q = None));;
    modify (fun w => w_set_reqs (delete r (w_reqs w)) w).

Definition fuse_free_req (r : Z) : M unit :=
  q ← get_req r;
  se ← get_se;
  ctr ← (if no_interrupt (se_conn se) || rq_is_uring q then
    mod_req r (fun q => rq_set_ref_cnt (rq_ref_cnt q - 1) q);;
    q ← get_req r;
    fuse_chan_put (rq_ch q);;
    mod_req r (rq_set_ch None);;
    mret (rq_ref_cnt q)
  else
    lock_se;;
    mod_req r (fun q => rq_set_u1 0 (rq_set_u0 0 q));;
    list_del_req r;;
    mod_req r (fun q => rq_set_ref_cnt (rq_ref_cnt q - 1) q);;
    q ← get_req r;
    fuse_chan_put (rq_ch q);;
    mod_req r (rq_set_ch None);;
    unlock_se;;
    mret (rq_ref_cnt q));
  when (ctr =? 0) (destroy_req r).

Definition fuse_ll_alloc_req : M (option Z) :=
  p ← alloc;
  match p with
  | None => mret None
  | Some r =>
      modify (fun w => w_set_reqs (<[r := req_zero]> (w_reqs w)) w);;
      mod_req r (rq_set_ref_cnt 1);;
      list_init_req r;;
      mod_req r (rq_set_lock uk_mutex_init);;
      mret (Some r)
  end.
End request.

(** ** Invariants *)

Section request_inv.
Context {P : Platform} {PS : PlatformSpec P}.
Implicit Types (h : gmap Z fuse_req) (w : world) (l il : list Z).

(** Requests in progress [l] and pending interrupts [il]. *)
Record lists_ok h l il : Prop := {
  lo_list : dll h SE_LIST l;
  lo_intr : dll h SE_INTERRUPTS il;
  lo_disj : forall x, x ∈ SE_LIST :: l -> x ∉ SE_INTERRUPTS :: il }.

(** A request [r] that is in progress or not on any list, with nobody else
    holding a reference. *)
Record live w r l il : Prop := {
  lv_lock : mutex_held (se_lock (w_se w)) = false;
  lv_lists : lists_ok (w_reqs w) l il;
  lv_req : exists q, w_reqs w !! r = Some q /\ rq_is_uring q = false /\ rq_ref_cnt q = 1;
  lv_pos : (r ∈ l /\ no_interrupt (se_conn (w_se w)) = false) \/
           (r ∉ SE_LIST :: l /\ r ∉ SE_INTERRUPTS :: il /\ dll (w_reqs w) r []) }.

(** The requests after [r] is gone. *)
Definition freed w r l il h : Prop :=
  lists_ok h (drop_elem r l) il /\ contents h = delete r (contents (w_reqs w)).

Lemma lists_ok_insert_same h l il r a b :
  h !! r = Some a -> rq_next b = rq_next a -> rq_prev b = rq_prev a ->
  lists_ok h l il -> lists_ok (<[r := b]> h) l il.
Proof.
  intros Ha Hn Hp [H1 H2 H3]. split; [by eapply (dll_insert_same (A := fuse_req))..|done].
Qed.

Lemma lists_ok_insert_fresh h l il r a :
  r ∉ SE_LIST :: l -> r ∉ SE_INTERRUPTS :: il -> lists_ok h l il -> lists_ok (<[r := a]> h) l il.
Proof. intros ?? [H1 H2 H3]. split; [by apply dll_insert_fresh..|done]. Qed.

Lemma lists_ok_delete h l il r :
  r ∉ SE_LIST :: l -> r ∉ SE_INTERRUPTS :: il -> lists_ok h l il -> lists_ok (delete r h) l il.
Proof. intros ?? [H1 H2 H3]. split; [by apply dll_delete_fresh..|done]. Qed.

(** Taking a request off the list of requests in progress. *)
Lemma lists_ok_del h l il r :
  lists_ok h l il -> r ∈ l ->
  exists h', ll_del r h = Some h' /\ lists_ok h' (drop_elem r l) il /\ contents h' = contents h.
Proof.
  intros [H1 H2 H3] (l1 & l2 & ->)%list_elem_of_split.
  destruct (dll_del _ _ _ _ _ H1) as (h' & E & H1').
  exists h'. split; [done|]. split; [|by eapply contents_ll_del].
  rewrite drop_elem_middle by (apply H1 || (destruct H1 as [[_ Hnd]%NoDup_cons _]; done)).
  split; [done| |].
  - eapply dll_del_frame; [done|done| |done]. intros y Hy Hy'.
    apply (H3 y); [set_solver|done].
  - intros x Hx. apply H3. set_solver.
Qed.

(** Adding a request to it. *)
Lemma lists_ok_add h l il r :
  lists_ok h l il -> is_Some (h !! r) -> r ∉ SE_LIST :: l -> r ∉ SE_INTERRUPTS :: il ->
  exists h', ll_add r SE_LIST h = Some h' /\ lists_ok h' (l ++ [r]) il /\ contents h' = contents h.
Proof.
  intros [H1 H2 H3] Hr Hl Hil.
  destruct (dll_add _ _ _ r H1) as (h' & E & H1'); [done..|].
  exists h'. split; [done|]. split; [|by eapply contents_ll_add].
  split; [done| |set_solver].
  eapply (dll_add_frame h h' SE_LIST l r); [done..| |done].
  intros y Hy [->|Hy']%elem_of_cons; [done|]. by apply (H3 y).
Qed.

(** Adding a request to the pending interrupts. *)
Lemma lists_ok_add_intr h l il r :
  lists_ok h l il -> is_Some (h !! r) -> r ∉ SE_LIST :: l -> r ∉ SE_INTERRUPTS :: il ->
  exists h', ll_add r SE_INTERRUPTS h = Some h' /\ lists_ok h' l (il ++ [r]) /\
             contents h' = contents h.
Proof.
  intros [H1 H2 H3] Hr Hl Hil.
  destruct (dll_add _ _ _ r H2) as (h' & E & H2'); [done..|].
  exists h'. split; [done|]. split; [|by eapply contents_ll_add].
  split; [|done|set_solver].
  eapply (dll_add_frame h h' SE_INTERRUPTS il r); [done..| |done].
  intros y Hy [->|Hy']%elem_of_cons; [done|]. by apply (H3 y).
Qed.

(** Taking a request off the pending interrupts. *)
Lemma lists_ok_del_intr h l il r :
  lists_ok h l il -> r ∈ il ->
  exists h', ll_del r h = Some h' /\ lists_ok h' l (drop_elem r il) /\ contents h' = contents h.
Proof.
  intros [H1 H2 H3] (l1 & l2 & ->)%list_elem_of_split.
  destruct (dll_del _ _ _ _ _ H2) as (h' & E & H2').
  exists h'. split; [done|]. split; [|by eapply contents_ll_del].
  rewrite drop_elem_middle by (apply H2 || (destruct H2 as [[_ Hnd]%NoDup_cons _]; done)).
  split; [|done|].
  - eapply dll_del_frame; [done|done| |done]. intros y Hy Hy'.
    apply (H3 y); [done|set_solver].
  - intros x Hx Hx'. apply (H3 x Hx). set_solver.
Qed.

Lemma lists_ok_notin_list h l il r : lists_ok h l il -> r ∈ l -> r ∉ SE_LIST :: drop_elem r l /\ r ∉ SE_INTERRUPTS :: il.
Proof.
  intros [[[Hx _]%NoDup_cons _] _ Hd] Hr. split; [|apply Hd; set_solver].
  rewrite not_elem_of_cons, elem_of_drop_elem. split; [by intros ->|tauto].
Qed.

Lemma lists_ok_notin_intr h l il r : lists_ok h l il -> r ∈ il -> r ∉ SE_LIST :: l /\ r ∉ SE_INTERRUPTS :: drop_elem r il.
Proof.
  intros [_ [[Hx _]%NoDup_cons _] Hd] Hr. split.
  - intros Hr'. apply (Hd r Hr'). set_solver.
  - rewrite not_elem_of_cons, elem_of_drop_elem. split; [by intros ->|tauto].
Qed.

Lemma contents_insert h r q : contents (<[r := q]> h) = <[r := strip q]> (contents h).
Proof. apply fmap_insert. Qed.

Lemma contents_delete h r : contents (delete r h) = delete r (contents h).
Proof. apply fmap_delete. Qed.

(** An update of members other than the links. *)
Definition keeps_links (f : fuse_req -> fuse_req) : Prop :=
  forall q, rq_next (f q) = rq_next q /\ rq_prev (f q) = rq_prev q.

Lemma lists_ok_update h l il r f q :
  h !! r = Some q -> keeps_links f -> lists_ok h l il -> lists_ok (<[r := f q]> h) l il.
Proof. intros Hq Hf. apply (lists_ok_insert_same _ _ _ _ q); [done|apply Hf..]. Qed.

Lemma self_update h r f q :
  h !! r = Some q -> keeps_links f -> dll h r [] -> dll (<[r := f q]> h) r [].
Proof. intros Hq Hf. apply (dll_insert_same _ _ _ _ q); [done|apply Hf..]. Qed.

(** What [destroy_req] does to a request without a channel. *)
Lemma destroy_req_run w r q :
  w_reqs w !! r = Some q -> rq_is_uring q = false -> rq_ch q = None ->
  destroy_req r w = Ok tt (w_set_reqs (delete r (w_reqs w)) w).
Proof. intros Hq Hu Hc. unfold destroy_req. mstep. by rewrite Hu, Hc. Qed.

(** The middle of [fuse_free_req]: the request leaves its list. *)
Lemma live_unlink w r l il q :
  live w r l il -> w_reqs w !! r = Some q ->
  no_interrupt (se_conn (w_se w)) = false ->
  forall f, keeps_links f -> exists h q',
    ll_del r (<[r := f q]> (w_reqs w)) = Some h /\ h !! r = Some q' /\
    strip q' = strip (f q) /\ lists_ok h (drop_elem r l) il /\
    contents h = <[r := strip (f q)]> (contents (w_reqs w)) /\ 
    r ∉ SE_LIST :: drop_elem r l /\ r ∉ SE_INTERRUPTS :: il.
Proof.
  intros [_ Hl _ Hpos] Hq Hni f Hf.
  pose proof (lists_ok_update _ _ _ _ f _ Hq Hf Hl) as Hl1.
  destruct Hpos as [[Hr _]|(Hr1 & Hr2 & Hs)].
  - destruct (lists_ok_del _ _ _ _ Hl1 Hr) as (h & E & Hl' & Hc).
    destruct (contents_lookup _ h r (f q) Hc) as (q' & Hq' & Hst);
      [by rewrite lookup_insert_eq|].
    exists h, q'. rewrite Hc, contents_insert. split_and!; try done.
    + rewrite not_elem_of_cons, elem_of_drop_elem.
      destruct Hl as [[[Hx _]%NoDup_cons _] _ _]. split; [by intros ->|tauto].
    + apply Hl. set_solver.
  - exists (<[r := f q]> (w_reqs w)), (f q). rewrite lookup_insert_eq, contents_insert.
    rewrite drop_elem_notin by set_solver. split_and!; try done; [|set_solver..].
    apply ll_del_self. by apply self_update.
Qed.

(** Requests with the same contents differ in their links only. *)
Lemma strip_eq (q q' : fuse_req) :
  strip q' = strip q -> q' = set_prev (rq_prev q') (set_next (rq_next q') q).
Proof. destruct q, q'. unfold strip. cbn. by intros [= -> -> -> -> -> -> -> -> -> -> -> ->]. Qed.

Lemma strip_uring (q q' : fuse_req) : strip q' = strip q -> rq_is_uring q' = rq_is_uring q.
Proof. intros ->%strip_eq. by destruct q. Qed.

Lemma strip_ref_cnt (q q' : fuse_req) : strip q' = strip q -> rq_ref_cnt q' = rq_ref_cnt q.
Proof. intros ->%strip_eq. by destruct q. Qed.

Lemma strip_update (q q' : fuse_req) : strip q' = strip q ->
  rq_unique q' = rq_unique q /\ rq_ukfs_req q' = rq_ukfs_req q /\ rq_ch q' = rq_ch q /\
  rq_ctx q' = rq_ctx q /\ rq_u0 q' = rq_u0 q.
Proof. intros ->%strip_eq. by destruct q. Qed.

(** Releasing the last reference: the request leaves its list and is freed,
    the other requests and the lock are untouched. *)
Lemma fuse_free_req_run w r l il :
  live w r l il ->
  exists h', fuse_free_req r w = Ok tt (w_set_reqs h' w) /\ freed w r l il h'.
Proof.
  intros Hlive. pose proof (lv_req _ _ _ _ Hlive) as (q & Hq & Hur & Hrc).
  unfold fuse_free_req. mstep. mstep by done. rewrite Hur, orb_false_r.
  destruct (no_interrupt (se_conn (w_se w))) eqn:Hni.
  - destruct (lv_pos _ _ _ _ Hlive) as [[_ ?]|(Hr1 & Hr2 & _)]; [congruence|].
    exists (delete r (w_reqs w)). split.
    2:{ split; [|apply contents_delete]. rewrite drop_elem_notin by set_solver.
        apply lists_ok_delete; [done..|apply Hlive]. }
    erewrite bind_run.
    2:{ mstep. mstep by (apply get_req_run, lookup_insert_eq). mstep by done.
        mstep by (apply mod_req_run, lookup_insert_eq). apply ret_run. }
    replace (rq_ref_cnt _) with 0 by (destruct q; cbn in *; lia). cbn [when Z.eqb].
    erewrite destroy_req_run; [|apply lookup_insert_eq|by destruct q|by destruct q].
    cbn. by rewrite insert_insert_eq, delete_insert_eq.
  - destruct (mutex_lock_free _ (lv_lock _ _ _ _ Hlive)) as (m & Hm & _ & Hum).
    destruct (live_unlink _ _ _ _ _ Hlive Hq Hni (fun q => rq_set_u1 0 (rq_set_u0 0 q)))
      as (h & q' & E & Hq' & Hst & Hl & Hc & Hn1 & Hn2); [intros []; done|].
    exists (delete r h). split.
    2:{ split; [by apply lists_ok_delete|]. by rewrite contents_delete, Hc, delete_insert_eq. }
    assert (rq_ref_cnt q' = 1) as Hrc' by (apply strip_ref_cnt in Hst as ->; by destruct q).
    assert (rq_is_uring q' = false) as Hur' by (apply strip_uring in Hst as ->; by destruct q).
    erewrite bind_run.
    2:{ mstep by (by apply lock_se_run). mstep by (by apply mod_req_run).
        mstep by (by apply on_reqs_run). mstep by (by apply mod_req_run).
        mstep by (apply get_req_run, lookup_insert_eq). mstep by done.
        mstep by (apply mod_req_run, lookup_insert_eq). mstep by done. apply ret_run. }
    replace (rq_ref_cnt _) with 0 by (destruct q'; cbn in *; lia). cbn [when Z.eqb].
    erewrite destroy_req_run; [|apply lookup_insert_eq|by destruct q'|by destruct q'].
    cbn. rewrite insert_insert_eq, delete_insert_eq, se_set_lock_lock, se_set_lock_twice.
    rewrite Hum, se_set_lock_id. by destruct w.
Qed.

(** A new request: one reference, linked to itself. *)
Definition new_req (r : Z) : fuse_req := set_prev r (set_next r (rq_set_ref_cnt 1 req_zero)).

Lemma self_linked h r (q : fuse_req) :
  rq_next q = r -> rq_prev q = r -> dll (<[r := q]> h) r [].
Proof.
  intros Hn Hp. split; [apply NoDup_singleton|]. split.
  - rewrite get_next_insert, decide_True by done. cbn. by rewrite Hn.
  - rewrite get_prev_insert, decide_True by done. cbn. by rewrite Hp.
Qed.

Lemma fuse_ll_alloc_req_run w :
  alloc_ok (w_nalloc w) = true ->
  fuse_ll_alloc_req w = Ok (Some (w_next w))
    (w_set_reqs (<[w_next w := new_req (w_next w)]> (w_reqs w))
      (w_set_next (w_next w + 1) (w_set_nalloc (S (w_nalloc w)) w))).
Proof.
  intros Ha. unfold fuse_ll_alloc_req, alloc. rewrite (bind_run _ _ w (Some (w_next w))
    (w_set_next (w_next w + 1) (w_set_nalloc (S (w_nalloc w)) w))) by (by rewrite Ha).
  cbv beta iota. mstep by done. mstep by (apply mod_req_run, lookup_insert_eq).
  mstep by (apply on_reqs_run; unfold ll_init, put_next; cbn; rewrite lookup_insert_eq; cbn;
            unfold put_prev; rewrite lookup_insert_eq; done).
  mstep by (apply mod_req_run, lookup_insert_eq).
  unfold mret, M_ret. cbn. by rewrite !insert_insert_eq.
Qed.

Lemma fuse_ll_alloc_req_fail w :
  alloc_ok (w_nalloc w) = false ->
  fuse_ll_alloc_req w = Ok None (w_set_nalloc (S (w_nalloc w)) w).
Proof.
  intros Ha. unfold fuse_ll_alloc_req, alloc.
  by rewrite (bind_run _ _ w None (w_set_nalloc (S (w_nalloc w)) w)) by (by rewrite Ha).
Qed.
End request_inv.
