(* ===== verification/Reply.v ===== *)
(** * Replies

    The reply functions of [fuse_lowlevel.c].  Six of them know the UKFS request
    a library request stems from: they store the result in it and wake up its
    client.  The others write a message to the device.  [deliver] is the
    specification of the first kind: the client's request is answered once. *)

From S2P Require Import Prelude Wire Platform KernelAbi LinkedList World Monad Request.
From Stdlib Require Import SpecFloat.

(** ** Conversions *)

Definition convert_stat (st : stat) : fuse_attr := {|
  attr_ino := u64 (st_ino st);
  attr_size := u64 (st_size st);
  attr_blocks := u64 (st_blocks st);
  attr_atime := u64 (st_atime st);
  attr_mtime := u64 (st_mtime st);
  attr_ctime := u64 (st_ctime st);
  attr_atimensec := u32 (st_atim_nsec st);
  attr_mtimensec := u32 (st_mtim_nsec st);
  attr_ctimensec := u32 (st_ctim_nsec st);
  attr_mode := u32 (st_mode st);
  attr_nlink := u32 (st_nlink st);
  attr_uid := u32 (st_uid st);
  attr_gid := u32 (st_gid st);
  attr_rdev := u32 (st_rdev st);
  attr_blksize := u32 (st_blksize st);
  attr_flags := 0 |}.

Definition iov_length (iov : list bytes) : Z :=
  fold_left (fun ret seg => u64 (ret + blen seg)) iov 0.

Definition ULONG_MAX : Z := 2 ^ 64 - 1.

(** [(unsigned long) t], [(unsigned int) t]: the integer part; [None] when it is
    not a value of the type. *)
Definition uint_of_double (w : Z) (t : double) : option Z :=
  match t with
  | S754_zero _ => Some 0
  | S754_infinity _ | S754_nan => None
  | S754_finite s m e =>
      let n := Z.shiftl (Zpos m) e in
      if s then if n =? 0 then Some 0 else None
      else if n <? 2 ^ w then Some n else None
  end.

Definition calc_timeout_sec (t : double) : option Z :=
  if SFltb (double_of_Z ULONG_MAX) t then Some ULONG_MAX
  else if SFltb t (double_of_Z 0) then Some 0
  else uint_of_double 64 t.

(** The [double] nearest to 0.999999999. *)
Definition one_minus_nano : double := S754_finite false 9007199245733793 (-53).

Definition calc_timeout_nsec (t : double) : option Z :=
  s ← calc_timeout_sec t;
  let f := SFsub 53 1024 t (double_of_Z s) in
  if SFltb f (double_of_Z 0) then Some 0
  else if SFleb one_minus_nano f then Some 999999999
  else uint_of_double 32 (SFmul 53 1024 f (double_of_Z 1000000000)).

Definition fill_entry (e : fuse_entry_param) : option fuse_entry_out :=
  es ← calc_timeout_sec (e_entry_timeout e);
  en ← calc_timeout_nsec (e_entry_timeout e);
  as_ ← calc_timeout_sec (e_attr_timeout e);
  an ← calc_timeout_nsec (e_attr_timeout e);
  Some {| entry_out_nodeid := u64 (e_ino e);
          entry_out_generation := u64 (e_generation e);
          entry_out_entry_valid := es;
          entry_out_entry_valid_nsec := en;
          entry_out_attr_valid := as_;
          entry_out_attr_valid_nsec := an;
          entry_out_attr := convert_stat (e_attr e) |}.

(** [if (b) x |= m] *)
Definition or_if (b : bool) (m x : Z) : Z := if b then Z.lor x m else x.

Definition fill_open (arg : fuse_open_out) (f : fuse_file_info) : fuse_open_out :=
  let pass := 0 <? fi_backing_id f in
  {| open_out_fh := u64 (fi_fh f);
     open_out_backing_id := if pass then fi_backing_id f else open_out_backing_id arg;
     open_out_open_flags :=
       or_if (fi_parallel_direct_writes f) FOPEN_PARALLEL_DIRECT_WRITES (
       or_if (fi_noflush f) FOPEN_NOFLUSH (
       or_if (fi_nonseekable f) FOPEN_NONSEEKABLE (
       or_if (fi_cache_readdir f) FOPEN_CACHE_DIR (
       or_if (fi_keep_cache f) FOPEN_KEEP_CACHE (
       or_if (fi_direct_io f) FOPEN_DIRECT_IO (
       or_if pass FOPEN_PASSTHROUGH (open_out_open_flags arg))))))) |}.

(** [memset(&arg, 0, sizeof(arg))] *)
Definition open_out_zero : fuse_open_out := Build_fuse_open_out 0 0 0.

(** [struct statvfs] *)
Record statvfs := {
  f_bsize : Z; f_frsize : Z; f_blocks : Z; f_bfree : Z; f_bavail : Z; f_files : Z;
  f_ffree : Z; f_namemax : Z }.

Definition convert_statfs (st : statvfs) : fuse_kstatfs := {|
  kstatfs_blocks := u64 (f_blocks st);
  kstatfs_bfree := u64 (f_bfree st);
  kstatfs_bavail := u64 (f_bavail st);
  kstatfs_files := u64 (f_files st);
  kstatfs_ffree := u64 (f_ffree st);
  kstatfs_bsize := u32 (f_bsize st);
  kstatfs_namelen := u32 (f_namemax st);
  kstatfs_frsize := u32 (f_frsize st);
  kstatfs_padding := 0;
  kstatfs_spare0 := 0; kstatfs_spare1 := 0; kstatfs_spare2 := 0;
  kstatfs_spare3 := 0; kstatfs_spare4 := 0; kstatfs_spare5 := 0 |}.

(** [struct flock]; this configuration has no [l_pid] support. *)
Record flock := { l_type : Z; l_whence : Z; l_start : Z; l_len : Z }.

Definition F_RDLCK : Z := 0.
Definition F_WRLCK : Z := 1.
Definition F_UNLCK : Z := 2.
Definition OFFSET_MAX : Z := 9223372036854775807.

(** ** Directory entries *)

(** [offsetof(struct fuse_dirent, name)] *)
Definition FUSE_NAME_OFFSET : Z := sizeof fuse_dirent.

(** [fuse_add_direntry]: the memory at [buf] after the call, and the result. *)
Definition fuse_add_direntry (buf : option bytes) (bufsize : Z) (name : bytes)
    (stbuf : stat) (off : Z) : option (option bytes * Z) :=
  let namelen := blen name in
  let entlen := u64 (FUSE_NAME_OFFSET + namelen) in
  let entlen_padded := FUSE_DIRENT_ALIGN entlen in
  match buf with
  | None => Some (None, entlen_padded)
  | Some mem =>
      if bufsize <? entlen_padded then Some (Some mem, entlen_padded)
      else
        mem ← write_at 0 (enc {| dirent_ino := u64 (st_ino stbuf);
                                 dirent_off := u64 off;
                                 dirent_namelen := u32 namelen;
                                 dirent_type := Z.shiftr (Z.land (st_mode stbuf) S_IFMT) 12 |}) mem;
        mem ← write_at FUSE_NAME_OFFSET name mem;
        mem ← write_at (FUSE_NAME_OFFSET + namelen)
                (repeat 0 (Z.to_nat (u64 (entlen_padded - entlen)))) mem;
        Some (Some mem, entlen_padded)
  end.

(** ** Sending to the device *)

Section send.
Context {P : Platform}.

(** The stubs that stand for io_uring support. *)
Definition send_reply_uring (r error : Z) (arg : bytes) : M Z := mret (- ENOSYS).
Definition fuse_send_msg_uring (r : Z) (iov : list bytes) : M Z := mret (- ENOSYS).

(** One [writev]: the number of the call selects its result. *)
Definition do_writev (wv : nat -> Z -> bytes -> Z) (fd : Z) (msg : bytes) : M Z :=
  n ← gets w_nio;
  modify (w_set_nio (S n));;
  emit (Ev_writev fd msg);;
  mret (wv n fd msg).

Definition fuse_write_msg_dev (ch : option Z) (iov : list bytes) : M Z :=
  se ← get_se;
  let fd := match ch with Some c => chan_fd_of_request c | None => se_fd se end in
  err ← do_writev (match se_io se with Some io => io_writev io | None => sys_writev end) fd (concat iov);
  if err =? 0 then mret 0 else mret (- err).

(** The first segment of the message is [out], [iov] are the others. *)
Definition fuse_send_msg (ch : option Z) (out : fuse_out_header) (iov : list bytes)
    (req : option Z) : M Z :=
  let out' := {| out_header_len := u32 (iov_length (enc out :: iov));
                 out_header_error := out_header_error out;
                 out_header_unique := out_header_unique out |} in
  match req with
  | Some r =>
      q ← get_req r;
      if rq_is_uring q then fuse_send_msg_uring r (enc out' :: iov)
      else fuse_write_msg_dev ch (enc out' :: iov)
  | None => fuse_write_msg_dev ch (enc out' :: iov)
  end.

Definition fuse_send_reply_iov_nofree (r error : Z) (iov : list bytes) : M Z :=
  let error := if (error <=? -1000) || (0 <? error) then - ERANGE else error in
  q ← get_req r;
  fuse_send_msg (rq_ch q) {| out_header_len := 0; out_header_error := error;
                             out_header_unique := rq_unique q |} iov (Some r).

Definition send_reply_iov (r error : Z) (iov : list bytes) : M Z :=
  res ← fuse_send_reply_iov_nofree r error iov;
  fuse_free_req r;;
  mret res.

Definition send_reply (r error : Z) (arg : bytes) : M Z :=
  q ← get_req r;
  if rq_is_uring q then send_reply_uring r error arg
  else send_reply_iov r error (if truth (blen arg) then [arg] else []).

Definition send_reply_ok (r : Z) (arg : bytes) : M Z := send_reply r 0 arg.
End send.

(** ** Answering a UKFS request *)

Section answer.
Context {P : Platform}.

Definition uq_set_error (x : Z) (k : fuse_ukfs_request) : fuse_ukfs_request :=
  let '(Build_fuse_ukfs_request a b c _ e f g) := k in Build_fuse_ukfs_request a b c x e f g.
Definition uq_set_reply_data (x : option Z) (k : fuse_ukfs_request) : fuse_ukfs_request :=
  let '(Build_fuse_ukfs_request a b c d _ f g) := k in Build_fuse_ukfs_request a b c d x f g.
Definition uq_set_reply_len (x : Z) (k : fuse_ukfs_request) : fuse_ukfs_request :=
  let '(Build_fuse_ukfs_request a b c d e _ g) := k in Build_fuse_ukfs_request a b c d e x g.
Definition uq_set_done (x : sem) (k : fuse_ukfs_request) : fuse_ukfs_request :=
  let '(Build_fuse_ukfs_request a b c d e f _) := k in Build_fuse_ukfs_request a b c d e f x.

(** [uk_semaphore_up(&u->done)] *)
Definition up_done (u : Z) : M unit :=
  mod_uk u (fun k => uq_set_done (uk_semaphore_up (uq_done k)) k).

(** [if (ukfs_req) ...] *)
Definition for_ukfs (q : fuse_req) (m : Z -> M unit) : M unit :=
  match rq_ukfs_req q with Some u => m u | None => mret tt end.

Definition fuse_reply_err (r err : Z) : M Z :=
  q ← get_req r;
  for_ukfs q (fun u =>
    mod_uk u (uq_set_error (- err));;
    mod_uk u (uq_set_reply_data None);;
    mod_uk u (uq_set_reply_len 0);;
    up_done u);;
  fuse_free_req r;;
  mret 0.

Definition fuse_reply_none (r : Z) : M unit := fuse_free_req r.

(** The common body of the replies that copy an object for the client. *)
Definition sizeof_entry_param : Z := 8 + 8 + sizeof_stat + 8 + 8.

Definition fuse_reply_entry (r : Z) (e : fuse_entry_param) : M Z :=
  q ← get_req r;
  se ← get_se;
  if negb (truth (e_ino e)) && (proto_minor (se_conn se) <? 4) then fuse_reply_err r ENOENT
  else
    for_ukfs q (fun u =>
      mod_uk u (uq_set_error 0);;
      mod_uk u (uq_set_reply_len sizeof_entry_param);;
      p ← malloc sizeof_entry_param;
      mod_uk u (uq_set_reply_data p);;
      match p with
      | Some a => store a (B_entry e)
      | None => mod_uk u (uq_set_error (- ENOMEM))
      end;;
      up_done u);;
    fuse_free_req r;;
    mret 0.

Definition fuse_reply_attr (r : Z) (attr : stat) (attr_timeout : double) : M Z :=
  q ← get_req r;
  for_ukfs q (fun u =>
    mod_uk u (uq_set_error 0);;
    mod_uk u (uq_set_reply_len sizeof_stat);;
    p ← malloc sizeof_stat;
    mod_uk u (uq_set_reply_data p);;
    match p with
    | Some a => store a (B_stat attr)
    | None => mod_uk u (uq_set_error (- ENOMEM))
    end;;
    up_done u);;
  fuse_free_req r;;
  mret 0.

Definition fuse_reply_open (r : Z) (f : fuse_file_info) : M Z :=
  q ← get_req r;
  match rq_ukfs_req q with
  | Some u =>
      p ← malloc (sizeof fuse_open_out);
      match p with
      | Some a =>
          store a (B_open_out (fill_open open_out_zero f));;
          mod_uk u (uq_set_error 0);;
          mod_uk u (uq_set_reply_data (Some a));;
          mod_uk u (uq_set_reply_len (sizeof fuse_open_out))
      | None =>
          mod_uk u (uq_set_error (- ENOMEM));;
          mod_uk u (uq_set_reply_data None);;
          mod_uk u (uq_set_reply_len 0)
      end;;
      up_done u;;
      fuse_free_req r;;
      mret 0
  | None => send_reply_ok r (enc (fill_open open_out_zero f))
  end.

(** [buf] is [NULL] or the memory from it on. *)
Definition fuse_reply_buf (r : Z) (buf : option bytes) (size : Z) : M Z :=
  q ← get_req r;
  for_ukfs q (fun u =>
    mod_uk u (uq_set_error 0);;
    mod_uk u (uq_set_reply_len size);;
    p ← malloc size;
    mod_uk u (uq_set_reply_data p);;
    match p, buf with
    | Some a, Some mem =>
        when (0 <? size)
          (bs ← of_option OutOfBounds
                  (if size <=? blen mem then Some (slice 0 size mem) else None);
           store a (B_bytes bs))
    | Some a, None => mret tt
    | None, _ => when (0 <? size) (mod_uk u (uq_set_error (- ENOMEM)))
    end;;
    up_done u);;
  fuse_free_req r;;
  mret 0.
End answer.

(** ** Replies through the device *)

Section device.
Context {P : Platform}.

Definition fuse_reply_iov (r : Z) (iov : list bytes) : M Z :=
  p ← malloc ((Z.of_nat (length iov) + 1) * 16);
  match p with
  | None => fuse_reply_err r ENOMEM
  | Some a =>
      res ← send_reply_iov r 0 iov;
      free (Some a);;
      mret res
  end.

Definition fuse_reply_create (r : Z) (e : fuse_entry_param) (f : fuse_file_info) : M Z :=
  se ← get_se;
  let entrysize := if proto_minor (se_conn se) <? 9 then FUSE_COMPAT_ENTRY_OUT_SIZE
                   else sizeof fuse_entry_out in
  let buf := repeat 0 (Z.to_nat (sizeof fuse_entry_out + sizeof fuse_open_out)) in
  earg ← of_option Overflow (fill_entry e);
  buf ← of_option OutOfBounds (write_at 0 (enc earg) buf);
  oarg ← of_option OutOfBounds (dec (drop (Z.to_nat entrysize) buf));
  buf ← of_option OutOfBounds (write_at entrysize (enc (fill_open oarg f)) buf);
  send_reply_ok r (slice 0 (entrysize + sizeof fuse_open_out) buf).

Definition fuse_reply_readlink (r : Z) (linkname : bytes) : M Z := send_reply_ok r linkname.

(** One [ioctl], of which [arg] is the argument. *)
Definition do_ioctl_call (fd request : Z) (arg : bytes) : M Z :=
  n ← gets w_nio;
  modify (w_set_nio (S n));;
  emit (Ev_ioctl fd request arg);;
  mret (sys_ioctl n fd request arg).

Definition FUSE_DEV_IOC_BACKING_OPEN : Z := IOW FUSE_DEV_IOC_MAGIC 1 (sizeof fuse_backing_map).
Definition FUSE_DEV_IOC_BACKING_CLOSE : Z := IOW FUSE_DEV_IOC_MAGIC 2 4.

Definition fuse_passthrough_open (r fd : Z) : M Z :=
  _ ← get_req r;
  se ← get_se;
  ret ← do_ioctl_call (se_fd se) FUSE_DEV_IOC_BACKING_OPEN
          (enc {| backing_map_fd := fd; backing_map_flags := 0; backing_map_padding := 0 |});
  if ret <=? 0 then mret 0 else mret ret.

Definition fuse_passthrough_close (r backing_id : Z) : M Z :=
  _ ← get_req r;
  se ← get_se;
  do_ioctl_call (se_fd se) FUSE_DEV_IOC_BACKING_CLOSE (le 4 (u32 backing_id)).

Definition do_fuse_reply_write (r count : Z) : M Z :=
  send_reply_ok r (enc {| write_out_size := u32 count; write_out_padding := 0 |}).

Definition do_fuse_reply_copy (r count : Z) : M Z :=
  send_reply_ok r (enc {| copy_file_range_out_bytes_copied := u64 count |}).

Definition fuse_reply_write (r count : Z) : M Z :=
  q ← get_req r;
  if rq_is_copy_file_range_64 q then do_fuse_reply_copy r count
  else do_fuse_reply_write r count.

Definition fuse_reply_statfs (r : Z) (stbuf : statvfs) : M Z :=
  se ← get_se;
  let size := if proto_minor (se_conn se) <? 4 then FUSE_COMPAT_STATFS_SIZE
              else sizeof fuse_statfs_out in
  send_reply_ok r (slice 0 size (enc {| statfs_out_st := convert_statfs stbuf |})).

Definition fuse_reply_xattr (r count : Z) : M Z :=
  send_reply_ok r (enc {| getxattr_out_size := u32 count; getxattr_out_padding := 0 |}).

Definition fuse_reply_lock (r : Z) (lock : flock) : M Z :=
  let lk := if l_type lock =? F_UNLCK then
              {| file_lock_start := 0; file_lock_end := 0;
                 file_lock_type := u32 (l_type lock); file_lock_pid := 0 |}
            else
              {| file_lock_start := u64 (l_start lock);
                 file_lock_end := if l_len lock =? 0 then OFFSET_MAX
                                  else u64 (l_start lock + l_len lock - 1);
                 file_lock_type := u32 (l_type lock); file_lock_pid := 0 |} in
  send_reply_ok r (enc {| lk_out_lk := lk |}).

Definition fuse_reply_bmap (r idx : Z) : M Z :=
  send_reply_ok r (enc {| bmap_out_block := u64 idx |}).

(** An [iovec] of a retry request: base address and length. *)
Definition fuse_ioctl_iovec_copy (iov : list (Z * Z)) : M (option (Z * bytes)) :=
  p ← malloc (16 * Z.of_nat (length iov));
  match p with
  | None => mret None
  | Some a =>
      let fiov := concat (map (fun '(base, len) =>
        enc {| ioctl_iovec_base := u64 base; ioctl_iovec_len := u64 len |}) iov) in
      store a (B_bytes fiov);;
      mret (Some (a, fiov))
  end.

(** The segment of an array of [iovec], none when it is empty. *)
Definition iov_seg (n : nat) (bs : bytes) : list bytes := match n with O => [] | S _ => [bs] end.

Definition fuse_reply_ioctl_retry (r : Z) (in_iov out_iov : list (Z * Z)) : M Z :=
  let arg := enc {| ioctl_out_result := 0; ioctl_out_flags := FUSE_IOCTL_RETRY;
                    ioctl_out_in_iovs := u32 (Z.of_nat (length in_iov));
                    ioctl_out_out_iovs := u32 (Z.of_nat (length out_iov)) |} in
  let raw iov := concat (map (fun '(base, len) => le 8 base ++ le 8 len) iov) in
  se ← get_se;
  if proto_minor (se_conn se) <? 16 then
    send_reply_iov r 0 (arg :: iov_seg (length in_iov) (raw in_iov)
                            ++ iov_seg (length out_iov) (raw out_iov))
  else
    in_fiov ← (if 0 <? Z.of_nat (length in_iov) then
                 c ← fuse_ioctl_iovec_copy in_iov; mret (Some c)
               else mret None);
    match in_fiov with
    | Some None => fuse_reply_err r ENOMEM
    | _ =>
        let in_fiov := match in_fiov with Some c => c | None => None end in
        out_fiov ← (if 0 <? Z.of_nat (length out_iov) then
                      c ← fuse_ioctl_iovec_copy out_iov; mret (Some c)
                    else mret None);
        res ← match out_fiov with
              | Some None => fuse_reply_err r ENOMEM
              | _ =>
                  let out_fiov := match out_fiov with Some c => c | None => None end in
                  send_reply_iov r 0
                    (arg :: match in_fiov with Some (_, bs) => [bs] | None => [] end
                         ++ match out_fiov with Some (_, bs) => [bs] | None => [] end)
              end;
        free (fst <$> in_fiov);;
        free (match out_fiov with Some (Some (a, _)) => Some a | _ => None end);;
        mret res
    end.

Definition ioctl_out (result : Z) : fuse_ioctl_out :=
  {| ioctl_out_result := result; ioctl_out_flags := 0;
     ioctl_out_in_iovs := 0; ioctl_out_out_iovs := 0 |}.

Definition fuse_reply_ioctl (r result : Z) (buf : bytes) : M Z :=
  send_reply_iov r 0 (enc (ioctl_out result) :: if truth (blen buf) then [buf] else []).

Definition fuse_reply_ioctl_iov (r result : Z) (iov : list bytes) : M Z :=
  p ← malloc ((Z.of_nat (length iov) + 2) * 16);
  match p with
  | None => fuse_reply_err r ENOMEM
  | Some a =>
      res ← send_reply_iov r 0 (enc (ioctl_out result) :: iov);
      free (Some a);;
      mret res
  end.

Definition fuse_reply_poll (r revents : Z) : M Z :=
  send_reply_ok r (enc {| poll_out_revents := u32 revents; poll_out_padding := 0 |}).

Definition fuse_reply_lseek (r off : Z) : M Z :=
  send_reply_ok r (enc {| lseek_out_offset := u64 off |}).

(** Without [HAVE_STATX] the call is rejected and the request stays. *)
Definition fuse_reply_statx (r : Z) : M Z := mret (- ENOSYS).
End device.

(** ** Specification of the replies to UKFS requests *)

Section deliver.
Context {P : Platform} {PS : PlatformSpec P}.
Implicit Types (w : world) (k : fuse_ukfs_request) (l il : list Z).

(** A request with its result, and its client woken up. *)
Definition answered k (error : Z) (data : option Z) (len : Z) : fuse_ukfs_request :=
  let '(Build_fuse_ukfs_request op un inp _ _ _ done) := k in
  Build_fuse_ukfs_request op un inp error data len (uk_semaphore_up done).

Definition finish (u error : Z) (data : option Z) (len : Z) w : world :=
  match w_uks w !! u with
  | Some k => w_set_uks (<[u := answered k error data len]> (w_uks w)) w
  | None => w
  end.

(** Hand [b] over to the client of [u]; [lfail] is the length the client sees
    when there is no memory for [b]. *)
Definition deliver (u : Z) (b : blob) (len lfail : Z) w : world :=
  let w1 := w_set_nalloc (S (w_nalloc w)) w in
  if alloc_ok (w_nalloc w) then
    finish u 0 (Some (w_next w)) len
      (w_set_blobs (<[w_next w := b]> (w_blobs w)) (w_set_next (w_next w + 1) w1))
  else finish u (- ENOMEM) None lfail w1.

(** [m] answers according to [spec] and releases [r]. *)
Definition replies (m : M Z) (w : world) (r : Z) l il (w' : world) : Prop :=
  exists h, m w = Ok 0 (w_set_reqs h w') /\ freed w r l il h.

Lemma live_ext w w' r l il :
  w_reqs w' = w_reqs w -> w_se w' = w_se w -> live w r l il -> live w' r l il.
Proof. intros Hr Hs [H1 H2 H3 H4]. by constructor; rewrite ?Hr, ?Hs. Qed.

Lemma then_free w w1 r l il (m : M unit) :
  live w r l il -> m w = Ok tt w1 -> w_reqs w1 = w_reqs w -> w_se w1 = w_se w ->
  replies (m;; fuse_free_req r;; mret 0) w r l il w1.
Proof.
  intros Hl Hm Hr Hs. destruct (fuse_free_req_run w1 r l il) as (h & E & Hf);
    [by apply (live_ext w)|].
  exists h. split; [|unfold freed in *; by rewrite <- Hr].
  by erewrite bind_run, bind_run by done.
Qed.

Lemma mod_uk_twice u f g {A} (m : unit -> M A) w :
  (mod_uk u f;; (mod_uk u g ≫= m)) w = (mod_uk u (fun k => g (f k)) ≫= m) w.
Proof.
  unfold mbind, M_bind, mod_uk. destruct (w_uks w !! u) as [k|] eqn:Hk; [|done].
  cbn [w_uks w_set_uks]. by rewrite lookup_insert_eq, insert_insert_eq.
Qed.

Lemma replies_bind {A} (m : M A) (f : A -> M Z) w r l il a w' :
  m w = Ok a w -> replies (f a) w r l il w' -> replies (m ≫= f) w r l il w'.
Proof. intros Hm (h & E & Hf). exists h. by erewrite bind_run by done. Qed.

(** Evaluate updates of the UKFS request and of its block. *)
Ltac uk_step :=
  first [ mstep by (apply mod_uk_run; cbn; first [eassumption|apply lookup_insert_eq])
        | mstep by (eapply store_run; cbn; apply lookup_insert_eq) ].
Ltac uk_last := unfold up_done;
  erewrite mod_uk_run by (cbn; first [eassumption|apply lookup_insert_eq]).

Lemma fuse_reply_err_run w r l il q u k err :
  live w r l il -> w_reqs w !! r = Some q -> rq_ukfs_req q = Some u -> w_uks w !! u = Some k ->
  replies (fuse_reply_err r err) w r l il (finish u (- err) None 0 w).
Proof.
  intros Hl Hq Hu Hk. eapply replies_bind; [by apply get_req_run|].
  unfold for_ukfs, finish. rewrite Hu, Hk. cbv beta. apply then_free; try done.
  repeat uk_step. uk_last. cbn. rewrite !insert_insert_eq. by destruct k.
Qed.

Lemma alloc_run w : alloc_ok (w_nalloc w) = true ->
  alloc w = Ok (Some (w_next w)) (w_set_next (w_next w + 1) (w_set_nalloc (S (w_nalloc w)) w)).
Proof. intros H. unfold alloc. by rewrite H. Qed.

Lemma alloc_fail w : alloc_ok (w_nalloc w) = false ->
  alloc w = Ok None (w_set_nalloc (S (w_nalloc w)) w).
Proof. intros H. unfold alloc. by rewrite H. Qed.

Lemma malloc_run n w : alloc_ok (w_nalloc w) = true ->
  malloc n w = Ok (Some (w_next w))
    (w_set_blobs (<[w_next w := B_undef n]> (w_blobs w))
      (w_set_next (w_next w + 1) (w_set_nalloc (S (w_nalloc w)) w))).
Proof. intros H. unfold malloc. mstep by (by apply alloc_run). by mstep by done. Qed.

Lemma malloc_fail n w : alloc_ok (w_nalloc w) = false ->
  malloc n w = Ok None (w_set_nalloc (S (w_nalloc w)) w).
Proof. intros H. unfold malloc. by mstep by (by apply alloc_fail). Qed.

(** The worlds a reply goes through keep the requests and the session. *)
Lemma finish_frame u e d n w :
  w_reqs (finish u e d n w) = w_reqs w /\ w_se (finish u e d n w) = w_se w.
Proof. unfold finish. by case_match. Qed.

Lemma deliver_frame u b n nf w :
  w_reqs (deliver u b n nf w) = w_reqs w /\ w_se (deliver u b n nf w) = w_se w.
Proof. unfold deliver. case_match; by rewrite !(proj1 (finish_frame _ _ _ _ _)), !(proj2 (finish_frame _ _ _ _ _)). Qed.

(** The common shape of the replies that copy an object for the client. *)
Lemma copy_reply w r l il q u k (b : blob) n m :
  live w r l il -> w_reqs w !! r = Some q -> rq_ukfs_req q = Some u -> w_uks w !! u = Some k ->
  m = (for_ukfs q (fun u =>
        mod_uk u (uq_set_error 0);;
        mod_uk u (uq_set_reply_len n);;
        p ← malloc n;
        mod_uk u (uq_set_reply_data p);;
        match p with
        | Some a => store a b
        | None => mod_uk u (uq_set_error (- ENOMEM))
        end;;
        up_done u);;
      fuse_free_req r;;
      mret 0) ->
  replies m w r l il (deliver u b n n w).
Proof.
  intros Hl Hq Hu Hk ->. unfold for_ukfs. rewrite Hu. cbv beta.
  destruct (deliver_frame u b n n w) as [Hf1 Hf2].
  apply then_free; [done| |done|done]. unfold deliver, finish.
  do 2 uk_step. destruct (alloc_ok (w_nalloc w)) eqn:Ha.
  - mstep by (by apply malloc_run). uk_step. uk_step. uk_last.
    cbn. rewrite Hk, !insert_insert_eq. by destruct k.
  - mstep by (by apply malloc_fail). uk_step. uk_step. uk_last.
    cbn. rewrite Hk, !insert_insert_eq. by destruct k.
Qed.

Lemma fuse_reply_entry_run w r l il q u k e :
  live w r l il -> w_reqs w !! r = Some q -> rq_ukfs_req q = Some u -> w_uks w !! u = Some k ->
  e_ino e <> 0 \/ 4 <= proto_minor (se_conn (w_se w)) ->
  replies (fuse_reply_entry r e) w r l il
    (deliver u (B_entry e) sizeof_entry_param sizeof_entry_param w).
Proof.
  intros Hl Hq Hu Hk Hi. eapply replies_bind; [by apply get_req_run|].
  eapply replies_bind; [done|]. unfold truth.
  replace (_ && _) with false; [by eapply copy_reply|].
  symmetry. apply andb_false_iff. rewrite negb_involutive, Z.eqb_neq, Z.ltb_ge. tauto.
Qed.

(** A negative entry is an error for peers older than 7.4. *)
Lemma fuse_reply_entry_negative w r l il q u k e :
  live w r l il -> w_reqs w !! r = Some q -> rq_ukfs_req q = Some u -> w_uks w !! u = Some k ->
  e_ino e = 0 -> proto_minor (se_conn (w_se w)) < 4 ->
  replies (fuse_reply_entry r e) w r l il (finish u (- ENOENT) None 0 w).
Proof.
  intros Hl Hq Hu Hk Hi Hm. eapply replies_bind; [by apply get_req_run|].
  eapply replies_bind; [done|]. rewrite Hi, (proj2 (Z.ltb_lt _ _) Hm).
  by eapply fuse_reply_err_run.
Qed.

Lemma fuse_reply_attr_run w r l il q u k st t :
  live w r l il -> w_reqs w !! r = Some q -> rq_ukfs_req q = Some u -> w_uks w !! u = Some k ->
  replies (fuse_reply_attr r st t) w r l il (deliver u (B_stat st) sizeof_stat sizeof_stat w).
Proof.
  intros Hl Hq Hu Hk. eapply replies_bind; [by apply get_req_run|]. by eapply copy_reply.
Qed.

Lemma replies_step {A} (m : M A) (f : A -> M Z) w w1 r l il a w' :
  m w = Ok a w1 -> w_reqs w1 = w_reqs w ->
  replies (f a) w1 r l il w' -> replies (m ≫= f) w r l il w'.
Proof.
  intros Hm Hr (h & E & Hf). exists h. split; [by erewrite bind_run by done|].
  unfold freed in *. by rewrite <- Hr.
Qed.

Lemma replies_free w r l il : live w r l il -> replies (fuse_free_req r;; mret 0) w r l il w.
Proof.
  intros Hl. destruct (fuse_free_req_run w r l il Hl) as (h & E & Hf).
  exists h. split; [|done]. by mstep by done.
Qed.

Lemma replies_eq m w r l il w1 w2 : w1 = w2 -> replies m w r l il w1 -> replies m w r l il w2.
Proof. by intros ->. Qed.

(** The update of the client's request as one step. *)
Lemma finish_run u k e d n w :
  w_uks w !! u = Some k ->
  (mod_uk u (uq_set_error e);; mod_uk u (uq_set_reply_data d);;
   mod_uk u (uq_set_reply_len n);; up_done u) w = Ok tt (finish u e d n w).
Proof.
  intros Hk. unfold finish. repeat uk_step. uk_last.
  cbn. rewrite Hk, !insert_insert_eq. by destruct k.
Qed.

Lemma bind_assoc {A B C} (m : M A) (f : A -> M B) (g : B -> M C) w :
  ((m ≫= f) ≫= g) w = (m ≫= (fun a => f a ≫= g)) w.
Proof. unfold mbind, M_bind. by destruct (m w). Qed.

Lemma fuse_reply_open_run w r l il q u k f :
  live w r l il -> w_reqs w !! r = Some q -> rq_ukfs_req q = Some u -> w_uks w !! u = Some k ->
  replies (fuse_reply_open r f) w r l il
    (deliver u (B_open_out (fill_open open_out_zero f)) (sizeof fuse_open_out) 0 w).
Proof.
  intros Hl Hq Hu Hk. eapply replies_bind; [by apply get_req_run|]. rewrite Hu. cbv beta iota.
  unfold deliver. destruct (alloc_ok (w_nalloc w)) eqn:Ha.
  - eapply replies_step; [by apply malloc_run|done|]. cbv beta iota.
    eapply replies_step; [uk_step; uk_step; uk_step; by apply mod_uk_run, lookup_insert_eq|done|].
    eapply replies_step; [apply mod_uk_run, lookup_insert_eq|done|].
    eapply replies_eq; [|apply replies_free, (live_ext w); done].
    unfold finish. cbn. rewrite Hk, !insert_insert_eq. by destruct k.
  - eapply replies_step; [by apply malloc_fail|done|]. cbv beta iota.
    eapply replies_step; [uk_step; uk_step; by apply mod_uk_run, lookup_insert_eq|done|].
    eapply replies_step; [apply mod_uk_run, lookup_insert_eq|done|].
    eapply replies_eq; [|apply replies_free, (live_ext w); done].
    unfold finish. cbn. rewrite Hk, !insert_insert_eq. by destruct k.
Qed.

(** A buffer reply hands over the first [size] bytes.  An allocation that
    fails for a non-empty buffer is reported as [-ENOMEM]. *)
Definition buf_blob (buf : option bytes) (size : Z) : blob :=
  match buf with
  | Some mem => if 0 <? size then B_bytes (slice 0 size mem) else B_undef size
  | None => B_undef size
  end.

Definition deliver_buf (u : Z) (buf : option bytes) (size : Z) (w : world) : world :=
  if alloc_ok (w_nalloc w) || (0 <? size) then deliver u (buf_blob buf size) size size w
  else finish u 0 None size (w_set_nalloc (S (w_nalloc w)) w).

Lemma fuse_reply_buf_run w r l il q u k buf size :
  live w r l il -> w_reqs w !! r = Some q -> rq_ukfs_req q = Some u -> w_uks w !! u = Some k ->
  (forall mem, buf = Some mem -> size <= blen mem) ->
  replies (fuse_reply_buf r buf size) w r l il (deliver_buf u buf size w).
Proof.
  intros Hl Hq Hu Hk Hb. eapply replies_bind; [by apply get_req_run|].
  unfold for_ukfs. rewrite Hu. cbv beta.
  apply then_free; [done| |unfold deliver_buf; case_match; [apply deliver_frame|by rewrite (proj1 (finish_frame _ _ _ _ _))]
                        |unfold deliver_buf; case_match; [apply deliver_frame|by rewrite (proj2 (finish_frame _ _ _ _ _))]].
  unfold deliver_buf, deliver, finish, buf_blob. do 2 uk_step.
  destruct (alloc_ok (w_nalloc w)) eqn:Ha; cbn [orb].
  - mstep by (by apply malloc_run). uk_step. destruct buf as [mem|].
    + destruct (0 <? size); cbn [when].
      * rewrite bind_assoc. rewrite (proj2 (Z.leb_le _ _)) by (by apply Hb).
        mstep by done. uk_step. uk_last. cbn. rewrite Hk, !insert_insert_eq. by destruct k.
      * mstep by done. uk_last. cbn. rewrite Hk, !insert_insert_eq. by destruct k.
    + mstep by done. uk_last. cbn. rewrite Hk, !insert_insert_eq. by destruct k.
  - mstep by (by apply malloc_fail). uk_step. destruct (0 <? size); cbn [when].
    + uk_step. uk_last. cbn. rewrite Hk, !insert_insert_eq. by destruct k.
    + mstep by done. uk_last. cbn. rewrite Hk, !insert_insert_eq. by destruct k.
Qed.
End deliver.

(** ** Specification of the replies through the device *)

Section device_spec.
Context {P : Platform} {PS : PlatformSpec P}.
Implicit Types (w : world) (l il : list Z).

(** The descriptor a message goes to. *)
Definition dev_fd (ch : option Z) w : Z :=
  match ch with Some c => chan_fd_of_request c | None => se_fd (w_se w) end.

Definition dev_result (fd : Z) (msg : bytes) w : Z :=
  let err := match se_io (w_se w) with
             | Some io => io_writev io (w_nio w) fd msg
             | None => sys_writev (w_nio w) fd msg
             end in
  if err =? 0 then 0 else - err.

Definition sent (fd : Z) (msg : bytes) w : world :=
  w_set_trace (w_trace w ++ [Ev_writev fd msg]) (w_set_nio (S (w_nio w)) w).

(** The message of a reply. *)
Definition reply_msg (unique error : Z) (iov : list bytes) : bytes :=
  enc {| out_header_len := u32 (sizeof fuse_out_header + blen (concat iov));
         out_header_error := error; out_header_unique := unique |} ++ concat iov.

Lemma iov_length_concat iov : blen (concat iov) < 2 ^ 64 -> iov_length iov = blen (concat iov).
Proof.
  unfold iov_length. intros H.
  assert (forall acc, 0 <= acc -> acc + blen (concat iov) < 2 ^ 64 ->
            fold_left (fun ret seg => u64 (ret + blen seg)) iov acc = acc + blen (concat iov)) as Hg.
  { clear H. induction iov as [|seg iov IH]; intros acc Ha Hlt; simpl in *.
    - unfold blen. simpl. lia.
    - unfold blen in *. rewrite length_app in *. unfold u64. rewrite wrapu_id.
      + rewrite IH; lia.
      + split; lia. }
  rewrite Hg; lia.
Qed.

Lemma fuse_write_msg_dev_run ch iov w :
  fuse_write_msg_dev ch iov w =
  Ok (dev_result (dev_fd ch w) (concat iov) w) (sent (dev_fd ch w) (concat iov) w).
Proof.
  unfold fuse_write_msg_dev, dev_result, sent, dev_fd. mstep by done.
  erewrite bind_run by done. cbv beta. cbn. destruct (se_io (w_se w)); by case_bool.
Qed.

(** A message carries its own length. *)
Lemma fuse_send_msg_run ch out iov r q w :
  w_reqs w !! r = Some q -> rq_is_uring q = false -> blen (concat iov) < 2 ^ 63 ->
  fuse_send_msg ch out iov (Some r) w =
  let msg := reply_msg (out_header_unique out) (out_header_error out) iov in
  Ok (dev_result (dev_fd ch w) msg w) (sent (dev_fd ch w) msg w).
Proof.
  intros Hq Hu Hl. unfold fuse_send_msg, reply_msg. mstep. rewrite Hu.
  rewrite fuse_write_msg_dev_run. cbn [concat].
  assert (blen (concat (enc out :: iov)) = sizeof fuse_out_header + blen (concat iov)) as E.
  { cbn [concat]. unfold blen at 1. rewrite length_app, Nat2Z.inj_add.
    by rewrite length_enc. }
  rewrite iov_length_concat; rewrite E; [done|]. change (sizeof fuse_out_header) with 16. lia.
Qed.

(** Errors a kernel would not understand are replaced. *)
Definition sane_error (error : Z) : Z :=
  if (error <=? -1000) || (0 <? error) then - ERANGE else error.

Lemma send_reply_iov_run w r l il q error iov :
  live w r l il -> w_reqs w !! r = Some q -> blen (concat iov) < 2 ^ 63 ->
  let fd := dev_fd (rq_ch q) w in
  let msg := reply_msg (rq_unique q) (sane_error error) iov in
  exists h, send_reply_iov r error iov w =
            Ok (dev_result fd msg w) (w_set_reqs h (sent fd msg w)) /\ freed w r l il h.
Proof.
  intros Hl Hq Hb. pose proof (lv_req _ _ _ _ Hl) as (q' & Hq' & Hu & _).
  assert (q' = q) as -> by congruence.
  destruct (fuse_free_req_run (sent (dev_fd (rq_ch q) w)
    (reply_msg (rq_unique q) (sane_error error) iov) w) r l il) as (h & E & Hf);
    [by apply (live_ext w)|].
  exists h. split; [|done]. unfold send_reply_iov, fuse_send_reply_iov_nofree.
  erewrite bind_run by (mstep; by eapply fuse_send_msg_run).
  by mstep by done.
Qed.

Lemma send_reply_ok_run w r l il q arg :
  live w r l il -> w_reqs w !! r = Some q -> blen arg < 2 ^ 63 ->
  let fd := dev_fd (rq_ch q) w in
  let msg := reply_msg (rq_unique q) 0 [arg] in
  exists h, send_reply_ok r arg w =
            Ok (dev_result fd msg w) (w_set_reqs h (sent fd msg w)) /\ freed w r l il h.
Proof.
  intros Hl Hq Hb. pose proof (lv_req _ _ _ _ Hl) as (q' & Hq' & Hu & _).
  assert (q' = q) as -> by congruence.
  unfold send_reply_ok, send_reply. erewrite bind_run by eauto with fuse. rewrite Hu.
  destruct (send_reply_iov_run w r l il q 0 (if truth (blen arg) then [arg] else []))
    as (h & E & Hf); [done|done| |].
  { case_bool; simpl; [by rewrite app_nil_r|done]. }
  rewrite E. exists h. split; [|done]. unfold reply_msg.
  destruct (truth (blen arg)) eqn:Ht; [done|].
  unfold truth in Ht. zify_bool. destruct arg; [done|]. unfold blen in Ht. simpl in Ht. lia.
Qed.
End device_spec.
