(* ===== verification/Buffer.v ===== *)
(** * Data buffers

    [src/libs/libfuse/lib/buffer.c]: vectors of memory and file descriptor
    buffers, and copying between them.  A memory buffer points into an object of
    [w_mem]; descriptors are read and written by the platform's system calls.
  
    That copies end, and what they move, is proved in [BufferProps]. *)

From S2P Require Import Prelude Platform World Monad.

Definition SIZE_MAX : Z := 2 ^ 64 - 1.

Definition FUSE_BUF_IS_FD : Z := Z.shiftl 1 1.
Definition FUSE_BUF_FD_SEEK : Z := Z.shiftl 1 2.
Definition FUSE_BUF_FD_RETRY : Z := Z.shiftl 1 3.

(** [enum fuse_buf_copy_flags] *)
Definition FUSE_BUF_NO_SPLICE : Z := Z.shiftl 1 1.

(** A pointer into memory: object and offset. *)
Definition ptr : Type := Z * Z.

Definition ptr_add (p : ptr) (n : Z) : ptr := (p.1, p.2 + n).

(** [struct fuse_buf] *)
Record fuse_buf := {
  buf_size : Z; buf_flags : Z; buf_mem : option ptr; buf_fd : Z; buf_pos : Z;
  buf_mem_size : Z }.

(** [struct fuse_bufvec] *)
Record fuse_bufvec := { bv_count : Z; bv_idx : Z; bv_off : Z; bv_buf : list fuse_buf }.

Definition FUSE_BUFVEC_INIT (size : Z) : fuse_bufvec := {|
  bv_count := 1; bv_idx := 0; bv_off := 0;
  bv_buf := [{| buf_size := size; buf_flags := 0; buf_mem := None; buf_fd := -1;
                buf_pos := 0; buf_mem_size := 0 |}] |}.

Definition min_size (s1 s2 : Z) : Z := if s1 <? s2 then s1 else s2.

(** [bufv->buf[i]], within the array. *)
Definition bv_at (bufv : fuse_bufvec) (i : Z) : option fuse_buf :=
  if 0 <=? i then bv_buf bufv !! Z.to_nat i else None.

(** The loop of [fuse_buf_size]. *)
Fixpoint buf_size_loop (bufs : list fuse_buf) (n : nat) (size : Z) : option Z :=
  match n, bufs with
  | O, _ => Some size
  | S _, [] => None
  | S n, b :: bufs =>
      if SIZE_MAX - size <=? buf_size b then Some SIZE_MAX
      else buf_size_loop bufs n (size + buf_size b)
  end.

Definition fuse_buf_size (bufv : fuse_bufvec) : option Z :=
  buf_size_loop (bv_buf bufv) (Z.to_nat (bv_count bufv)) 0.

Definition fuse_bufvec_current (bufv : fuse_bufvec) : option (option fuse_buf) :=
  if bv_idx bufv <? bv_count bufv then Some <$> bv_at bufv (bv_idx bufv) else Some None.

Section buffer.
Context {P : Platform}.

(** Memory accesses of [n] bytes. *)
Definition load_mem (p : ptr) (n : Z) : M bytes := fun w =>
  match w_mem w !! p.1 with
  | Some bs => if (0 <=? p.2) && (0 <=? n) && (p.2 + n <=? blen bs)
               then Ok (slice p.2 n bs) w else Fault OutOfBounds
  | None => Fault BadPointer
  end.

Definition store_mem (p : ptr) (bs : bytes) : M unit := fun w =>
  match w_mem w !! p.1 with
  | Some mem => match write_at p.2 bs mem with
                | Some mem' => Ok tt (w_set_mem (<[p.1 := mem']> (w_mem w)) w)
                | None => Fault OutOfBounds
                end
  | None => Fault BadPointer
  end.

Definition buf_ptr (b : fuse_buf) (off : Z) : M ptr :=
  p ← of_option BadPointer (buf_mem b); mret (ptr_add p off).

(** The position argument of a transfer. *)
Definition buf_seek (b : fuse_buf) (off : Z) : option Z :=
  if flag (buf_flags b) FUSE_BUF_FD_SEEK then Some (buf_pos b + off) else None.

Definition do_read (fd : Z) (pos : option Z) (n : Z) : M (Z + bytes) := fun w =>
  let '(r, s) := sys_read (w_io w) fd pos n in Ok r (w_set_io s w).
Definition do_write (fd : Z) (pos : option Z) (bs : bytes) : M (Z + Z) := fun w =>
  let '(r, s) := sys_write (w_io w) fd pos bs in Ok r (w_set_io s w).

Fixpoint fuse_buf_write (fuel : nat) (dst : fuse_buf) (dst_off : Z) (src : fuse_buf)
    (src_off len copied : Z) : M Z :=
  match fuel with
  | O => fault_ OutOfFuel
  | S fuel =>
      if len =? 0 then mret copied
      else
        p ← buf_ptr src src_off;
        bs ← load_mem p len;
        res ← do_write (buf_fd dst) (buf_seek dst dst_off) bs;
        match res with
        | inl errno => if copied =? 0 then mret (- errno) else mret copied
        | inr res =>
            if res =? 0 then mret copied
            else
              let copied := copied + res in
              if negb (flag (buf_flags dst) FUSE_BUF_FD_RETRY) then mret copied
              else fuse_buf_write fuel dst (dst_off + res) src (src_off + res) (len - res) copied
        end
  end.

Fixpoint fuse_buf_read (fuel : nat) (dst : fuse_buf) (dst_off : Z) (src : fuse_buf)
    (src_off len copied : Z) : M Z :=
  match fuel with
  | O => fault_ OutOfFuel
  | S fuel =>
      if len =? 0 then mret copied
      else
        p ← buf_ptr dst dst_off;
        res ← do_read (buf_fd src) (buf_seek src src_off) len;
        match res with
        | inl errno => if copied =? 0 then mret (- errno) else mret copied
        | inr bs =>
            let res := blen bs in
            if res =? 0 then mret copied
            else
              store_mem p bs;;
              let copied := copied + res in
              if negb (flag (buf_flags src) FUSE_BUF_FD_RETRY) then mret copied
              else fuse_buf_read fuel dst (dst_off + res) src (src_off + res) (len - res) copied
        end
  end.

(** Enough iterations for a transfer of [len] bytes. *)
Definition len_fuel (len : Z) : nat := S (Z.to_nat len).

(** The loop of [fuse_buf_fd_to_fd]; [tmp] is the buffer on its stack. *)
Fixpoint fd_to_fd_loop (fuel : nat) (tmp dst : fuse_buf) (dst_off : Z) (src : fuse_buf)
    (src_off len copied : Z) : M Z :=
  match fuel with
  | O => fault_ OutOfFuel
  | S fuel =>
      if len =? 0 then mret copied
      else
        let this_len := min_size (buf_size tmp) len in
        res ← fuse_buf_read (len_fuel this_len) tmp 0 src src_off this_len 0;
        if res <? 0 then (if copied =? 0 then mret res else mret copied)
        else if res =? 0 then mret copied
        else
          let read_len := res in
          res ← fuse_buf_write (len_fuel read_len) dst dst_off tmp 0 read_len 0;
          if res <? 0 then (if copied =? 0 then mret res else mret copied)
          else if res =? 0 then mret copied
          else
            let copied := copied + res in
            if res <? this_len then mret copied
            else fd_to_fd_loop fuel tmp dst (dst_off + res) src (src_off + res) (len - res) copied
  end.

(** [char buf[4096]] on the stack: an object that lives as long as the call. *)
Definition fuse_buf_fd_to_fd (dst : fuse_buf) (dst_off : Z) (src : fuse_buf)
    (src_off len : Z) : M Z :=
  a ← gets w_next;
  n ← gets w_nalloc;
  modify (fun w => w_set_mem (<[a := map (junk n) (seq 0 4096)]> (w_mem w))
                     (w_set_next (a + 1) w));;
  let tmp := {| buf_size := 4096; buf_flags := 0; buf_mem := Some (a, 0); buf_fd := 0;
                buf_pos := 0; buf_mem_size := 0 |} in
  res ← fd_to_fd_loop (len_fuel len) tmp dst dst_off src src_off len 0;
  modify (fun w => w_set_mem (delete a (w_mem w)) w);;
  mret res.

(** Without [HAVE_SPLICE]. *)
Definition fuse_buf_splice (dst : fuse_buf) (dst_off : Z) (src : fuse_buf)
    (src_off len : Z) (flags : Z) : M Z :=
  fuse_buf_fd_to_fd dst dst_off src src_off len.

Definition fuse_buf_copy_one (dst : fuse_buf) (dst_off : Z) (src : fuse_buf)
    (src_off len : Z) (flags : Z) : M Z :=
  let src_is_fd := flag (buf_flags src) FUSE_BUF_IS_FD in
  let dst_is_fd := flag (buf_flags dst) FUSE_BUF_IS_FD in
  if negb src_is_fd && negb dst_is_fd then
    dstmem ← buf_ptr dst dst_off;
    srcmem ← buf_ptr src src_off;
    when (negb (bool_decide (dstmem = srcmem)))
      (bs ← load_mem srcmem len; store_mem dstmem bs);;
    mret len
  else if negb src_is_fd then fuse_buf_write (len_fuel len) dst dst_off src src_off len 0
  else if negb dst_is_fd then fuse_buf_read (len_fuel len) dst dst_off src src_off len 0
  else if flag flags FUSE_BUF_NO_SPLICE then fuse_buf_fd_to_fd dst dst_off src src_off len
  else fuse_buf_splice dst dst_off src src_off len flags.

(** Returns the advanced vector with the result. *)
Definition fuse_bufvec_advance (bufv : fuse_bufvec) (len : Z) : M (fuse_bufvec * Z) :=
  buf ← of_option OutOfBounds (fuse_bufvec_current bufv);
  match buf with
  | None => mret (bufv, 0)
  | Some buf =>
      let off := bv_off bufv + len in
      let set i o := {| bv_count := bv_count bufv; bv_idx := i; bv_off := o;
                        bv_buf := bv_buf bufv |} in
      assert_ (off <=? buf_size buf);;
      if off =? buf_size buf then
        assert_ (bv_idx bufv <? bv_count bufv);;
        let i := bv_idx bufv + 1 in
        if i =? bv_count bufv then mret (set i off, 0) else mret (set i 0, 1)
      else mret (set (bv_idx bufv) off, 1)
  end.

(** The loop of [fuse_buf_copy]. *)
Fixpoint copy_loop (fuel : nat) (dstv srcv : fuse_bufvec) (flags copied : Z)
    : M (Z * fuse_bufvec * fuse_bufvec) :=
  match fuel with
  | O => fault_ OutOfFuel
  | S fuel =>
      src ← of_option OutOfBounds (fuse_bufvec_current srcv);
      dst ← of_option OutOfBounds (fuse_bufvec_current dstv);
      match src, dst with
      | Some src, Some dst =>
          let src_len := buf_size src - bv_off srcv in
          let dst_len := buf_size dst - bv_off dstv in
          let len := min_size src_len dst_len in
          res ← fuse_buf_copy_one dst (bv_off dstv) src (bv_off srcv) len flags;
          if res <? 0 then
            mret (if copied =? 0 then res else copied, dstv, srcv)
          else
            let copied := copied + res in
            '(srcv, more) ← fuse_bufvec_advance srcv res;
            if more =? 0 then mret (copied, dstv, srcv)
            else
              '(dstv, more) ← fuse_bufvec_advance dstv res;
              if more =? 0 then mret (copied, dstv, srcv)
              else if res <? len then mret (copied, dstv, srcv)
              else copy_loop fuel dstv srcv flags copied
      | _, _ => mret (copied, dstv, srcv)
      end
  end.

(** Buffers left in a vector. *)
Definition bufs_left (v : fuse_bufvec) : nat := Z.to_nat (bv_count v - bv_idx v).

(** [fuse_buf_copy] of two different vectors: the result and both vectors. *)
Definition fuse_buf_copy (dstv srcv : fuse_bufvec) (flags : Z)
    : M (Z * fuse_bufvec * fuse_bufvec) :=
  copy_loop (S (bufs_left dstv + bufs_left srcv)) dstv srcv flags 0.
End buffer.
