(* ===== verification/Server.v ===== *)
(** * The server side

    [struct fuse_lowlevel_ops]: the operations a file system server registers,
    as optional handlers in the effect monad.  They and the interrupt callbacks
    are the interface between the library and the server: the library's
    definitions take them as a parameter.  The file also holds the capability
    bits of [fuse_common.h] and the assignments to session members. *)

From S2P Require Import Prelude Platform KernelAbi World Monad Buffer Reply.

(** ** Capability flags ([fuse_common.h]) *)

Definition FUSE_CAP_ASYNC_READ : Z := Z.shiftl 1 0.
Definition FUSE_CAP_POSIX_LOCKS : Z := Z.shiftl 1 1.
Definition FUSE_CAP_ATOMIC_O_TRUNC : Z := Z.shiftl 1 3.
Definition FUSE_CAP_EXPORT_SUPPORT : Z := Z.shiftl 1 4.
Definition FUSE_CAP_DONT_MASK : Z := Z.shiftl 1 6.
Definition FUSE_CAP_SPLICE_WRITE : Z := Z.shiftl 1 7.
Definition FUSE_CAP_SPLICE_MOVE : Z := Z.shiftl 1 8.
Definition FUSE_CAP_SPLICE_READ : Z := Z.shiftl 1 9.
Definition FUSE_CAP_FLOCK_LOCKS : Z := Z.shiftl 1 10.
Definition FUSE_CAP_IOCTL_DIR : Z := Z.shiftl 1 11.
Definition FUSE_CAP_AUTO_INVAL_DATA : Z := Z.shiftl 1 12.
Definition FUSE_CAP_READDIRPLUS : Z := Z.shiftl 1 13.
Definition FUSE_CAP_READDIRPLUS_AUTO : Z := Z.shiftl 1 14.
Definition FUSE_CAP_ASYNC_DIO : Z := Z.shiftl 1 15.
Definition FUSE_CAP_WRITEBACK_CACHE : Z := Z.shiftl 1 16.
Definition FUSE_CAP_NO_OPEN_SUPPORT : Z := Z.shiftl 1 17.
Definition FUSE_CAP_PARALLEL_DIROPS : Z := Z.shiftl 1 18.
Definition FUSE_CAP_POSIX_ACL : Z := Z.shiftl 1 19.
Definition FUSE_CAP_HANDLE_KILLPRIV : Z := Z.shiftl 1 20.
Definition FUSE_CAP_HANDLE_KILLPRIV_V2 : Z := Z.shiftl 1 21.
Definition FUSE_CAP_CACHE_SYMLINKS : Z := Z.shiftl 1 23.
Definition FUSE_CAP_NO_OPENDIR_SUPPORT : Z := Z.shiftl 1 24.
Definition FUSE_CAP_EXPLICIT_INVAL_DATA : Z := Z.shiftl 1 25.
Definition FUSE_CAP_EXPIRE_ONLY : Z := Z.shiftl 1 26.
Definition FUSE_CAP_SETXATTR_EXT : Z := Z.shiftl 1 27.
Definition FUSE_CAP_DIRECT_IO_ALLOW_MMAP : Z := Z.shiftl 1 28.
Definition FUSE_CAP_PASSTHROUGH : Z := Z.shiftl 1 29.
Definition FUSE_CAP_NO_EXPORT_SUPPORT : Z := Z.shiftl 1 30.
Definition FUSE_CAP_OVER_IO_URING : Z := Z.shiftl 1 31.

(** ** Attributes to set ([fuse_lowlevel.h]) *)

Definition FUSE_SET_ATTR_MODE : Z := Z.shiftl 1 0.
Definition FUSE_SET_ATTR_UID : Z := Z.shiftl 1 1.
Definition FUSE_SET_ATTR_GID : Z := Z.shiftl 1 2.
Definition FUSE_SET_ATTR_SIZE : Z := Z.shiftl 1 3.
Definition FUSE_SET_ATTR_ATIME : Z := Z.shiftl 1 4.
Definition FUSE_SET_ATTR_MTIME : Z := Z.shiftl 1 5.
Definition FUSE_SET_ATTR_ATIME_NOW : Z := Z.shiftl 1 7.
Definition FUSE_SET_ATTR_MTIME_NOW : Z := Z.shiftl 1 8.
Definition FUSE_SET_ATTR_FORCE : Z := Z.shiftl 1 9.
Definition FUSE_SET_ATTR_CTIME : Z := Z.shiftl 1 10.
Definition FUSE_SET_ATTR_KILL_SUID : Z := Z.shiftl 1 11.
Definition FUSE_SET_ATTR_KILL_SGID : Z := Z.shiftl 1 12.
Definition FUSE_SET_ATTR_FILE : Z := Z.shiftl 1 13.
Definition FUSE_SET_ATTR_KILL_PRIV : Z := Z.shiftl 1 14.
Definition FUSE_SET_ATTR_OPEN : Z := Z.shiftl 1 15.
Definition FUSE_SET_ATTR_TIMES_SET : Z := Z.shiftl 1 16.
Definition FUSE_SET_ATTR_TOUCH : Z := Z.shiftl 1 17.

(** ** Assignments to session members *)

Section setters.
Context {P : Platform}.

Definition conn_set_proto_major (x : Z) (s : fuse_conn_info) : fuse_conn_info := let
  '(Build_fuse_conn_info _ x1 x2 x3 x4 x5 x6 x7 x8 x9 x10 x11 x12 x13 x14) := s in
  Build_fuse_conn_info x x1 x2 x3 x4 x5 x6 x7 x8 x9 x10 x11 x12 x13 x14.
Definition conn_set_proto_minor (x : Z) (s : fuse_conn_info) : fuse_conn_info := let
  '(Build_fuse_conn_info x0 _ x2 x3 x4 x5 x6 x7 x8 x9 x10 x11 x12 x13 x14) := s in
  Build_fuse_conn_info x0 x x2 x3 x4 x5 x6 x7 x8 x9 x10 x11 x12 x13 x14.
Definition conn_set_max_write (x : Z) (s : fuse_conn_info) : fuse_conn_info := let
  '(Build_fuse_conn_info x0 x1 _ x3 x4 x5 x6 x7 x8 x9 x10 x11 x12 x13 x14) := s in
  Build_fuse_conn_info x0 x1 x x3 x4 x5 x6 x7 x8 x9 x10 x11 x12 x13 x14.
Definition conn_set_max_read (x : Z) (s : fuse_conn_info) : fuse_conn_info := let
  '(Build_fuse_conn_info x0 x1 x2 _ x4 x5 x6 x7 x8 x9 x10 x11 x12 x13 x14) := s in
  Build_fuse_conn_info x0 x1 x2 x x4 x5 x6 x7 x8 x9 x10 x11 x12 x13 x14.
Definition conn_set_max_readahead (x : Z) (s : fuse_conn_info) : fuse_conn_info := let
  '(Build_fuse_conn_info x0 x1 x2 x3 _ x5 x6 x7 x8 x9 x10 x11 x12 x13 x14) := s in
  Build_fuse_conn_info x0 x1 x2 x3 x x5 x6 x7 x8 x9 x10 x11 x12 x13 x14.
Definition conn_set_capable (x : Z) (s : fuse_conn_info) : fuse_conn_info := let
  '(Build_fuse_conn_info x0 x1 x2 x3 x4 _ x6 x7 x8 x9 x10 x11 x12 x13 x14) := s in
  Build_fuse_conn_info x0 x1 x2 x3 x4 x x6 x7 x8 x9 x10 x11 x12 x13 x14.
Definition conn_set_want (x : Z) (s : fuse_conn_info) : fuse_conn_info := let
  '(Build_fuse_conn_info x0 x1 x2 x3 x4 x5 _ x7 x8 x9 x10 x11 x12 x13 x14) := s in
  Build_fuse_conn_info x0 x1 x2 x3 x4 x5 x x7 x8 x9 x10 x11 x12 x13 x14.
Definition conn_set_max_background (x : Z) (s : fuse_conn_info) : fuse_conn_info := let
  '(Build_fuse_conn_info x0 x1 x2 x3 x4 x5 x6 _ x8 x9 x10 x11 x12 x13 x14) := s in
  Build_fuse_conn_info x0 x1 x2 x3 x4 x5 x6 x x8 x9 x10 x11 x12 x13 x14.
Definition conn_set_congestion_threshold (x : Z) (s : fuse_conn_info) : fuse_conn_info
  := let '(Build_fuse_conn_info x0 x1 x2 x3 x4 x5 x6 x7 _ x9 x10 x11 x12 x13 x14) := s
  in Build_fuse_conn_info x0 x1 x2 x3 x4 x5 x6 x7 x x9 x10 x11 x12 x13 x14.
Definition conn_set_time_gran (x : Z) (s : fuse_conn_info) : fuse_conn_info := let
  '(Build_fuse_conn_info x0 x1 x2 x3 x4 x5 x6 x7 x8 _ x10 x11 x12 x13 x14) := s in
  Build_fuse_conn_info x0 x1 x2 x3 x4 x5 x6 x7 x8 x x10 x11 x12 x13 x14.
Definition conn_set_max_backing_stack_depth (x : Z) (s : fuse_conn_info) :
  fuse_conn_info := let '(Build_fuse_conn_info x0 x1 x2 x3 x4 x5 x6 x7 x8 x9 _ x11 x12
  x13 x14) := s in Build_fuse_conn_info x0 x1 x2 x3 x4 x5 x6 x7 x8 x9 x x11 x12 x13 x14.
Definition conn_set_no_interrupt (x : bool) (s : fuse_conn_info) : fuse_conn_info := let
  '(Build_fuse_conn_info x0 x1 x2 x3 x4 x5 x6 x7 x8 x9 x10 _ x12 x13 x14) := s in
  Build_fuse_conn_info x0 x1 x2 x3 x4 x5 x6 x7 x8 x9 x10 x x12 x13 x14.
Definition conn_set_capable_ext (x : Z) (s : fuse_conn_info) : fuse_conn_info := let
  '(Build_fuse_conn_info x0 x1 x2 x3 x4 x5 x6 x7 x8 x9 x10 x11 _ x13 x14) := s in
  Build_fuse_conn_info x0 x1 x2 x3 x4 x5 x6 x7 x8 x9 x10 x11 x x13 x14.
Definition conn_set_want_ext (x : Z) (s : fuse_conn_info) : fuse_conn_info := let
  '(Build_fuse_conn_info x0 x1 x2 x3 x4 x5 x6 x7 x8 x9 x10 x11 x12 _ x14) := s in
  Build_fuse_conn_info x0 x1 x2 x3 x4 x5 x6 x7 x8 x9 x10 x11 x12 x x14.
Definition conn_set_request_timeout (x : Z) (s : fuse_conn_info) : fuse_conn_info := let
  '(Build_fuse_conn_info x0 x1 x2 x3 x4 x5 x6 x7 x8 x9 x10 x11 x12 x13 _) := s in
  Build_fuse_conn_info x0 x1 x2 x3 x4 x5 x6 x7 x8 x9 x10 x11 x12 x13 x.

Definition se_set_fd (x : Z) (s : fuse_session) : fuse_session := let
  '(Build_fuse_session _ x1 x2 x3 x4 x5 x6 x7 x8 x9 x10 x11 x12 x13 x14 x15 x16 x17 x18
  x19 x20) := s in Build_fuse_session x x1 x2 x3 x4 x5 x6 x7 x8 x9 x10 x11 x12 x13 x14
  x15 x16 x17 x18 x19 x20.
Definition se_set_io (x : option fuse_custom_io) (s : fuse_session) :
  fuse_session := let '(Build_fuse_session x0 _ x2 x3 x4 x5 x6 x7 x8 x9 x10 x11 x12 x13
  x14 x15 x16 x17 x18 x19 x20) := s in Build_fuse_session x0 x x2 x3 x4 x5 x6 x7 x8 x9
  x10 x11 x12 x13 x14 x15 x16 x17 x18 x19 x20.
Definition se_set_got_init (x : bool) (s : fuse_session) : fuse_session := let
  '(Build_fuse_session x0 x1 x2 x3 _ x5 x6 x7 x8 x9 x10 x11 x12 x13 x14 x15 x16 x17 x18
  x19 x20) := s in Build_fuse_session x0 x1 x2 x3 x x5 x6 x7 x8 x9 x10 x11 x12 x13 x14
  x15 x16 x17 x18 x19 x20.
Definition se_set_conn (x : fuse_conn_info) (s : fuse_session) : fuse_session := let
  '(Build_fuse_session x0 x1 x2 x3 x4 x5 x6 _ x8 x9 x10 x11 x12 x13 x14 x15 x16 x17 x18
  x19 x20) := s in Build_fuse_session x0 x1 x2 x3 x4 x5 x6 x x8 x9 x10 x11 x12 x13 x14
  x15 x16 x17 x18 x19 x20.
Definition se_set_got_destroy (x : bool) (s : fuse_session) : fuse_session := let
  '(Build_fuse_session x0 x1 x2 x3 x4 x5 x6 x7 x8 _ x10 x11 x12 x13 x14 x15 x16 x17 x18
  x19 x20) := s in Build_fuse_session x0 x1 x2 x3 x4 x5 x6 x7 x8 x x10 x11 x12 x13 x14
  x15 x16 x17 x18 x19 x20.
Definition se_set_notify_ctr (x : Z) (s : fuse_session) : fuse_session := let
  '(Build_fuse_session x0 x1 x2 x3 x4 x5 x6 x7 x8 x9 _ x11 x12 x13 x14 x15 x16 x17 x18
  x19 x20) := s in Build_fuse_session x0 x1 x2 x3 x4 x5 x6 x7 x8 x9 x x11 x12 x13 x14
  x15 x16 x17 x18 x19 x20.
Definition se_set_bufsize (x : Z) (s : fuse_session) : fuse_session := let
  '(Build_fuse_session x0 x1 x2 x3 x4 x5 x6 x7 x8 x9 x10 _ x12 x13 x14 x15 x16 x17 x18
  x19 x20) := s in Build_fuse_session x0 x1 x2 x3 x4 x5 x6 x7 x8 x9 x10 x x12 x13 x14
  x15 x16 x17 x18 x19 x20.
Definition se_set_error (x : Z) (s : fuse_session) : fuse_session := let
  '(Build_fuse_session x0 x1 x2 x3 x4 x5 x6 x7 x8 x9 x10 x11 _ x13 x14 x15 x16 x17 x18
  x19 x20) := s in Build_fuse_session x0 x1 x2 x3 x4 x5 x6 x7 x8 x9 x10 x11 x x13 x14
  x15 x16 x17 x18 x19 x20.
Definition se_set_mt_exited (x : bool) (s : fuse_session) : fuse_session := let
  '(Build_fuse_session x0 x1 x2 x3 x4 x5 x6 x7 x8 x9 x10 x11 x12 _ x14 x15 x16 x17 x18
  x19 x20) := s in Build_fuse_session x0 x1 x2 x3 x4 x5 x6 x7 x8 x9 x10 x11 x12 x x14
  x15 x16 x17 x18 x19 x20.
Definition se_set_mt_finish (x : option sem) (s : fuse_session) : fuse_session := let
  '(Build_fuse_session x0 x1 x2 x3 x4 x5 x6 x7 x8 x9 x10 x11 x12 x13 _ x15 x16 x17 x18
  x19 x20) := s in Build_fuse_session x0 x1 x2 x3 x4 x5 x6 x7 x8 x9 x10 x11 x12 x13 x
  x15 x16 x17 x18 x19 x20.
Definition se_set_buf_reallocable (x : bool) (s : fuse_session) : fuse_session := let
  '(Build_fuse_session x0 x1 x2 x3 x4 x5 x6 x7 x8 x9 x10 x11 x12 x13 x14 _ x16 x17 x18
  x19 x20) := s in Build_fuse_session x0 x1 x2 x3 x4 x5 x6 x7 x8 x9 x10 x11 x12 x13 x14
  x x16 x17 x18 x19 x20.
Definition se_set_conn_want (x : Z) (s : fuse_session) : fuse_session := let
  '(Build_fuse_session x0 x1 x2 x3 x4 x5 x6 x7 x8 x9 x10 x11 x12 x13 x14 x15 x16 x17 _
  x19 x20) := s in Build_fuse_session x0 x1 x2 x3 x4 x5 x6 x7 x8 x9 x10 x11 x12 x13 x14
  x15 x16 x17 x x19 x20.
Definition se_set_conn_want_ext (x : Z) (s : fuse_session) : fuse_session := let
  '(Build_fuse_session x0 x1 x2 x3 x4 x5 x6 x7 x8 x9 x10 x11 x12 x13 x14 x15 x16 x17 x18
  _ x20) := s in Build_fuse_session x0 x1 x2 x3 x4 x5 x6 x7 x8 x9 x10 x11 x12 x13 x14
  x15 x16 x17 x18 x x20.
Definition se_set_mountpoint (x : option bytes) (s : fuse_session) : fuse_session := let
  '(Build_fuse_session x0 x1 x2 x3 x4 x5 x6 x7 x8 x9 x10 x11 x12 x13 x14 x15 x16 x17 x18
  x19 _) := s in Build_fuse_session x0 x1 x2 x3 x4 x5 x6 x7 x8 x9 x10 x11 x12 x13 x14
  x15 x16 x17 x18 x19 x.

(** [se->conn... = ...] *)
Definition mod_conn (f : fuse_conn_info -> fuse_conn_info) : M unit :=
  mod_se (fun se => se_set_conn (f (se_conn se)) se).

(** The session seen through its connection: [container_of]. *)
Definition get_conn : M fuse_conn_info := gets (fun w => se_conn (w_se w)).
End setters.

(** ** Operations of a server *)

Section ops.
Context {P : Platform}.


(** An argument [const char *name] is given as the bytes of the string. *)
Record fuse_lowlevel_ops := {
  op_init : option (M unit);
  op_destroy : option (M unit);
  op_lookup : option (Z -> Z -> bytes -> M unit);
  op_forget : option (Z -> Z -> Z -> M unit);
  op_getattr : option (Z -> Z -> option fuse_file_info -> M unit);
  op_setattr : option (Z -> Z -> stat -> Z -> option fuse_file_info -> M unit);
  op_readlink : option (Z -> Z -> M unit);
  op_mknod : option (Z -> Z -> bytes -> Z -> Z -> M unit);
  op_mkdir : option (Z -> Z -> bytes -> Z -> M unit);
  op_unlink : option (Z -> Z -> bytes -> M unit);
  op_rmdir : option (Z -> Z -> bytes -> M unit);
  op_symlink : option (Z -> bytes -> Z -> bytes -> M unit);
  op_rename : option (Z -> Z -> bytes -> Z -> bytes -> Z -> M unit);
  op_link : option (Z -> Z -> Z -> bytes -> M unit);
  op_open : option (Z -> Z -> fuse_file_info -> M unit);
  op_read : option (Z -> Z -> Z -> Z -> fuse_file_info -> M unit);
  op_write : option (Z -> Z -> bytes -> Z -> Z -> fuse_file_info -> M unit);
  op_flush : option (Z -> Z -> fuse_file_info -> M unit);
  op_release : option (Z -> Z -> fuse_file_info -> M unit);
  op_fsync : option (Z -> Z -> Z -> fuse_file_info -> M unit);
  op_opendir : option (Z -> Z -> fuse_file_info -> M unit);
  op_readdir : option (Z -> Z -> Z -> Z -> fuse_file_info -> M unit);
  op_releasedir : option (Z -> Z -> fuse_file_info -> M unit);
  op_fsyncdir : option (Z -> Z -> Z -> fuse_file_info -> M unit);
  op_statfs : option (Z -> Z -> M unit);
  op_setxattr : option (Z -> Z -> bytes -> bytes -> Z -> Z -> M unit);
  op_getxattr : option (Z -> Z -> bytes -> Z -> M unit);
  op_listxattr : option (Z -> Z -> Z -> M unit);
  op_removexattr : option (Z -> Z -> bytes -> M unit);
  op_access : option (Z -> Z -> Z -> M unit);
  op_create : option (Z -> Z -> bytes -> Z -> fuse_file_info -> M unit);
  op_getlk : option (Z -> Z -> fuse_file_info -> flock -> M unit);
  op_setlk : option (Z -> Z -> fuse_file_info -> flock -> Z -> M unit);
  op_bmap : option (Z -> Z -> Z -> Z -> M unit);
  op_ioctl : option (Z -> Z -> Z -> Z -> fuse_file_info -> Z -> option bytes -> Z -> Z -> M unit);
  op_poll : option (Z -> Z -> fuse_file_info -> option Z -> M unit);
  op_write_buf : option (Z -> Z -> fuse_bufvec -> Z -> fuse_file_info -> M fuse_bufvec);
  op_retrieve_reply : option (Z -> Z -> Z -> Z -> fuse_bufvec -> M fuse_bufvec);
  op_forget_multi : option (Z -> Z -> bytes -> M unit);
  op_flock : option (Z -> Z -> fuse_file_info -> Z -> M unit);
  op_fallocate : option (Z -> Z -> Z -> Z -> Z -> fuse_file_info -> M unit);
  op_readdirplus : option (Z -> Z -> Z -> Z -> fuse_file_info -> M unit);
  op_copy_file_range : option (Z -> Z -> Z -> fuse_file_info -> Z -> Z -> fuse_file_info ->
                               Z -> Z -> M unit);
  op_lseek : option (Z -> Z -> Z -> Z -> fuse_file_info -> M unit);
  op_tmpfile : option (Z -> Z -> Z -> fuse_file_info -> M unit) }.

(** A server: its operations, and what its interrupt callbacks do when called
    with the function's address, the request and the data pointer. *)
Class Server := {
  se_op : fuse_lowlevel_ops;
  interrupt_func : Z -> Z -> Z -> M unit }.

(** [memset(&op, 0, sizeof(op))] *)
Definition no_ops : fuse_lowlevel_ops := {|
  op_init := None; op_destroy := None; op_lookup := None; op_forget := None;
  op_getattr := None; op_setattr := None; op_readlink := None; op_mknod := None;
  op_mkdir := None; op_unlink := None; op_rmdir := None; op_symlink := None;
  op_rename := None; op_link := None; op_open := None; op_read := None; op_write := None;
  op_flush := None; op_release := None; op_fsync := None; op_opendir := None;
  op_readdir := None; op_releasedir := None; op_fsyncdir := None; op_statfs := None;
  op_setxattr := None; op_getxattr := None; op_listxattr := None; op_removexattr := None;
  op_access := None; op_create := None; op_getlk := None; op_setlk := None; op_bmap := None;
  op_ioctl := None; op_poll := None; op_write_buf := None; op_retrieve_reply := None;
  op_forget_multi := None; op_flock := None; op_fallocate := None; op_readdirplus := None;
  op_copy_file_range := None; op_lseek := None; op_tmpfile := None |}.
End ops.
