(* ===== verification/Handlers.v ===== *)
(** * Request handlers

    The functions [_do_*] and [do_*] of [fuse_lowlevel.c] except INIT, DESTROY,
    interrupts and notifications.  [_do_x] gets the fixed part of a message and
    its payload as separate pointers, [do_x] finds them in one buffer.  A pointer
    into a message is the memory from it to the end of its object ([NULL] is the
    empty memory); a struct is read as a whole where its first member is. *)

From S2P Require Import Prelude Wire Platform KernelAbi World Monad Buffer Request Reply.
From S2P Require Import Server.

(** ** Assignments to [struct fuse_file_info] *)

Definition fi_set_flags (x : Z) (f : fuse_file_info) : fuse_file_info :=
  let '(Build_fuse_file_info _ a b c d e g h i j k l m n) := f in
  Build_fuse_file_info x a b c d e g h i j k l m n.
Definition fi_set_writepage (x : bool) (f : fuse_file_info) : fuse_file_info :=
  let '(Build_fuse_file_info z _ b c d e g h i j k l m n) := f in
  Build_fuse_file_info z x b c d e g h i j k l m n.
Definition fi_set_flush (x : bool) (f : fuse_file_info) : fuse_file_info :=
  let '(Build_fuse_file_info z a b c _ e g h i j k l m n) := f in
  Build_fuse_file_info z a b c x e g h i j k l m n.
Definition fi_set_flock_release (x : bool) (f : fuse_file_info) : fuse_file_info :=
  let '(Build_fuse_file_info z a b c d e _ h i j k l m n) := f in
  Build_fuse_file_info z a b c d e x h i j k l m n.
Definition fi_set_fh (x : Z) (f : fuse_file_info) : fuse_file_info :=
  let '(Build_fuse_file_info z a b c d e g h i j _ l m n) := f in
  Build_fuse_file_info z a b c d e g h i j x l m n.
Definition fi_set_lock_owner (x : Z) (f : fuse_file_info) : fuse_file_info :=
  let '(Build_fuse_file_info z a b c d e g h i j k _ m n) := f in
  Build_fuse_file_info z a b c d e g h i j k x m n.
Definition fi_set_poll_events (x : Z) (f : fuse_file_info) : fuse_file_info :=
  let '(Build_fuse_file_info z a b c d e g h i j k l _ n) := f in
  Build_fuse_file_info z a b c d e g h i j k l x n.

(** The file info of a request that only carries a handle. *)
Definition fi_fh_only (fh : Z) : fuse_file_info := fi_set_fh fh fi_zero.

Definition convert_attr (attr : fuse_setattr_in) (st : stat) : stat := {|
  st_ino := st_ino st;
  st_mode := setattr_in_mode attr;
  st_nlink := st_nlink st;
  st_uid := setattr_in_uid attr;
  st_gid := setattr_in_gid attr;
  st_rdev := st_rdev st;
  st_size := i64 (setattr_in_size attr);
  st_blksize := st_blksize st;
  st_blocks := st_blocks st;
  st_atime := i64 (setattr_in_atime attr);
  st_mtime := i64 (setattr_in_mtime attr);
  st_ctime := i64 (setattr_in_ctime attr);
  st_atim_nsec := setattr_in_atimensec attr;
  st_mtim_nsec := setattr_in_mtimensec attr;
  st_ctim_nsec := setattr_in_ctimensec attr |}.

(** The bits of [to_set] a server may see. *)
Definition setattr_mask : Z :=
  fold_right Z.lor 0 [FUSE_SET_ATTR_MODE; FUSE_SET_ATTR_UID; FUSE_SET_ATTR_GID;
    FUSE_SET_ATTR_SIZE; FUSE_SET_ATTR_ATIME; FUSE_SET_ATTR_MTIME; FUSE_SET_ATTR_KILL_SUID;
    FUSE_SET_ATTR_KILL_SGID; FUSE_SET_ATTR_ATIME_NOW; FUSE_SET_ATTR_MTIME_NOW;
    FUSE_SET_ATTR_CTIME].

Definition SEEK_SET : Z := 0.
Definition O_RDONLY : Z := 0.
Definition O_ACCMODE : Z := 3.
Definition LOCK_SH : Z := 1.
Definition LOCK_EX : Z := 2.
Definition LOCK_NB : Z := 4.
Definition LOCK_UN : Z := 8.

Definition convert_fuse_file_lock (fl : fuse_file_lock) : flock := {|
  l_type := wraps 16 (file_lock_type fl);
  l_whence := SEEK_SET;
  l_start := i64 (file_lock_start fl);
  l_len := if file_lock_end fl =? OFFSET_MAX then 0
           else i64 (u64 (file_lock_end fl - file_lock_start fl + 1)) |}.

Section handlers.
Context {P : Platform} {S : Server}.

(** A string argument; the string must end inside its object. *)
Definition c_string (mem : bytes) : M bytes := of_option OutOfBounds (cstr mem).

(** [*(struct A * )p] *)
Definition arg_of A `{Wire A} (p : bytes) : M A := of_option OutOfBounds (dec p).

Definition reply_err (r err : Z) : M unit := fuse_reply_err r err;; mret tt.

(** [req->se->conn.proto_minor] *)
Definition minor : M Z := gets (fun w => proto_minor (se_conn (w_se w))).

(** [req->ctx.umask = umask] for peers that send one. *)
Definition set_umask (r umask : Z) : M unit :=
  mod_req r (fun q => let c := rq_ctx q in
    rq_set_ctx {| ctx_uid := ctx_uid c; ctx_gid := ctx_gid c; ctx_pid := ctx_pid c;
                  ctx_umask := umask |} q).

Definition _do_lookup (r nodeid : Z) (op_in in_payload : bytes) : M unit :=
  match op_lookup se_op with
  | Some f => name ← c_string in_payload; f r nodeid name
  | None => reply_err r ENOSYS
  end.
Definition do_lookup (r nodeid : Z) (inarg : bytes) : M unit := _do_lookup r nodeid [] inarg.

Definition _do_forget (r nodeid : Z) (op_in in_payload : bytes) : M unit :=
  match op_forget se_op with
  | Some f => arg ← arg_of fuse_forget_in op_in; f r nodeid (forget_in_nlookup arg)
  | None => fuse_reply_none r
  end.
Definition do_forget (r nodeid : Z) (inarg : bytes) : M unit := _do_forget r nodeid inarg [].

(** The loop over the records of a batch, [n] of them left. *)
Fixpoint batch_forget_loop (f : Z -> Z -> Z -> M unit) (r : Z) (forgets : bytes) (n : nat)
    : M unit :=
  match n with
  | O => mret tt
  | Datatypes.S n =>
      dummy ← fuse_ll_alloc_req;
      match dummy with
      | None => mret tt
      | Some d =>
          q ← get_req r;
          mod_req d (fun q' => rq_set_ch None (rq_set_ctx (rq_ctx q) (rq_set_unique (rq_unique q) q')));;
          forget ← arg_of fuse_forget_one forgets;
          f d (forget_one_nodeid forget) (forget_one_nlookup forget);;
          batch_forget_loop f r (PARAM fuse_forget_one forgets) n
      end
  end.

Definition _do_batch_forget (r nodeid : Z) (op_in in_payload : bytes) : M unit :=
  match op_forget_multi se_op, op_forget se_op with
  | Some f, _ => arg ← arg_of fuse_batch_forget_in op_in; f r (batch_forget_in_count arg) in_payload
  | None, Some f =>
      arg ← arg_of fuse_batch_forget_in op_in;
      batch_forget_loop f r in_payload (Z.to_nat (batch_forget_in_count arg));;
      fuse_reply_none r
  | None, None => fuse_reply_none r
  end.
Definition do_batch_forget (r nodeid : Z) (inarg : bytes) : M unit :=
  _do_batch_forget r nodeid inarg (PARAM fuse_batch_forget_in inarg).

Definition _do_getattr (r nodeid : Z) (op_in in_payload : bytes) : M unit :=
  m ← minor;
  fip ← (if 9 <=? m then
           arg ← arg_of fuse_getattr_in op_in;
           mret (if flag (getattr_in_getattr_flags arg) FUSE_GETATTR_FH
                 then Some (fi_fh_only (getattr_in_fh arg)) else None)
         else mret None);
  match op_getattr se_op with
  | Some f => f r nodeid fip
  | None => reply_err r ENOSYS
  end.
Definition do_getattr (r nodeid : Z) (inarg : bytes) : M unit := _do_getattr r nodeid inarg [].

Definition _do_setattr (r nodeid : Z) (op_in in_payload : bytes) : M unit :=
  arg ← arg_of fuse_setattr_in op_in;
  let valid := setattr_in_valid arg in
  match op_setattr se_op with
  | Some f =>
      let stbuf := convert_attr arg stat_zero in
      let fh := flag (setattr_in_valid arg) FATTR_FH in
      let valid := if fh then Z.land valid (Z.lxor (2 ^ 32 - 1) FATTR_FH) else valid in
      let fi := if fh then Some (fi_fh_only (setattr_in_fh arg)) else None in
      f r nodeid stbuf (Z.land valid setattr_mask) fi
  | None => reply_err r ENOSYS
  end.
Definition do_setattr (r nodeid : Z) (inarg : bytes) : M unit := _do_setattr r nodeid inarg [].

Definition _do_access (r nodeid : Z) (op_in in_payload : bytes) : M unit :=
  match op_access se_op with
  | Some f => arg ← arg_of fuse_access_in op_in; f r nodeid (i32 (access_in_mask arg))
  | None => reply_err r ENOSYS
  end.
Definition do_access (r nodeid : Z) (inarg : bytes) : M unit := _do_access r nodeid inarg [].

Definition _do_readlink (r nodeid : Z) (op_in in_payload : bytes) : M unit :=
  match op_readlink se_op with
  | Some f => f r nodeid
  | None => reply_err r ENOSYS
  end.
Definition do_readlink (r nodeid : Z) (inarg : bytes) : M unit := _do_readlink r nodeid inarg [].

Definition _do_mknod (r nodeid : Z) (op_in in_payload : bytes) : M unit :=
  m ← minor;
  when (12 <=? m) (arg ← arg_of fuse_mknod_in op_in; set_umask r (mknod_in_umask arg));;
  match op_mknod se_op with
  | Some f =>
      arg ← arg_of fuse_mknod_in op_in;
      name ← c_string in_payload;
      f r nodeid name (mknod_in_mode arg) (mknod_in_rdev arg)
  | None => reply_err r ENOSYS
  end.
Definition do_mknod (r nodeid : Z) (inarg : bytes) : M unit :=
  m ← minor;
  _do_mknod r nodeid inarg
    (if m <? 12 then drop (Z.to_nat FUSE_COMPAT_MKNOD_IN_SIZE) inarg
     else PARAM fuse_mknod_in inarg).

Definition _do_mkdir (r nodeid : Z) (op_in in_payload : bytes) : M unit :=
  m ← minor;
  when (12 <=? m) (arg ← arg_of fuse_mkdir_in op_in; set_umask r (mkdir_in_umask arg));;
  match op_mkdir se_op with
  | Some f =>
      arg ← arg_of fuse_mkdir_in op_in;
      name ← c_string in_payload;
      f r nodeid name (mkdir_in_mode arg)
  | None => reply_err r ENOSYS
  end.
Definition do_mkdir (r nodeid : Z) (inarg : bytes) : M unit :=
  _do_mkdir r nodeid inarg (PARAM fuse_mkdir_in inarg).

Definition _do_unlink (r nodeid : Z) (op_in in_payload : bytes) : M unit :=
  match op_unlink se_op with
  | Some f => name ← c_string in_payload; f r nodeid name
  | None => reply_err r ENOSYS
  end.
Definition do_unlink (r nodeid : Z) (inarg : bytes) : M unit := _do_unlink r nodeid [] inarg.

Definition _do_rmdir (r nodeid : Z) (op_in in_payload : bytes) : M unit :=
  match op_rmdir se_op with
  | Some f => name ← c_string in_payload; f r nodeid name
  | None => reply_err r ENOSYS
  end.
Definition do_rmdir (r nodeid : Z) (inarg : bytes) : M unit := _do_rmdir r nodeid [] inarg.

(** [s + strlen(s) + 1] *)
Definition after_string (mem : bytes) : M bytes :=
  s ← c_string mem; mret (drop (length s + 1) mem).

Definition _do_symlink (r nodeid : Z) (op_in in_payload : bytes) : M unit :=
  linkname ← after_string in_payload;
  match op_symlink se_op with
  | Some f =>
      name ← c_string in_payload;
      linkname ← c_string linkname;
      f r linkname nodeid name
  | None => reply_err r ENOSYS
  end.
Definition do_symlink (r nodeid : Z) (inarg : bytes) : M unit := _do_symlink r nodeid [] inarg.

Definition _do_rename (r nodeid : Z) (op_in in_payload : bytes) : M unit :=
  newname ← after_string in_payload;
  match op_rename se_op with
  | Some f =>
      arg ← arg_of fuse_rename_in op_in;
      oldname ← c_string in_payload;
      newname ← c_string newname;
      f r nodeid oldname (rename_in_newdir arg) newname 0
  | None => reply_err r ENOSYS
  end.
Definition do_rename (r nodeid : Z) (inarg : bytes) : M unit :=
  _do_rename r nodeid inarg (PARAM fuse_rename_in inarg).

Definition _do_rename2 (r nodeid : Z) (op_in in_payload : bytes) : M unit :=
  newname ← after_string in_payload;
  match op_rename se_op with
  | Some f =>
      arg ← arg_of fuse_rename2_in op_in;
      oldname ← c_string in_payload;
      newname ← c_string newname;
      f r nodeid oldname (rename2_in_newdir arg) newname (rename2_in_flags arg)
  | None => reply_err r ENOSYS
  end.
Definition do_rename2 (r nodeid : Z) (inarg : bytes) : M unit :=
  _do_rename2 r nodeid inarg (PARAM fuse_rename2_in inarg).

Definition _do_tmpfile (r nodeid : Z) (op_in in_payload : bytes) : M unit :=
  match op_tmpfile se_op with
  | Some f =>
      arg ← arg_of fuse_create_in op_in;
      let fi := fi_set_flags (i32 (create_in_flags arg)) fi_zero in
      m ← minor;
      when (12 <=? m) (set_umask r (create_in_umask arg));;
      f r nodeid (create_in_mode arg) fi
  | None => reply_err r ENOSYS
  end.
Definition do_tmpfile (r nodeid : Z) (inarg : bytes) : M unit := _do_tmpfile r nodeid inarg [].

Definition _do_link (r nodeid : Z) (op_in in_payload : bytes) : M unit :=
  match op_link se_op with
  | Some f =>
      arg ← arg_of fuse_link_in op_in;
      name ← c_string in_payload;
      f r (link_in_oldnodeid arg) nodeid name
  | None => reply_err r ENOSYS
  end.
Definition do_link (r nodeid : Z) (inarg : bytes) : M unit :=
  _do_link r nodeid inarg (PARAM fuse_link_in inarg).

Definition _do_create (r nodeid : Z) (op_in in_payload : bytes) : M unit :=
  match op_create se_op with
  | Some f =>
      arg ← arg_of fuse_create_in op_in;
      let fi := fi_set_flags (i32 (create_in_flags arg)) fi_zero in
      m ← minor;
      when (12 <=? m) (set_umask r (create_in_umask arg));;
      name ← c_string in_payload;
      f r nodeid name (create_in_mode arg) fi
  | None => reply_err r ENOSYS
  end.
Definition do_create (r nodeid : Z) (inarg : bytes) : M unit :=
  m ← minor;
  _do_create r nodeid inarg
    (if m <? 12 then PARAM fuse_open_in inarg else PARAM fuse_create_in inarg).

Definition want_ext_flag (cap : Z) : M bool :=
  gets (fun w => flag (want_ext (se_conn (w_se w))) cap).

Definition _do_open (r nodeid : Z) (op_in in_payload : bytes) : M unit :=
  arg ← arg_of fuse_open_in op_in;
  let fi := fi_set_flags (i32 (open_in_flags arg)) fi_zero in
  match op_open se_op with
  | Some f => f r nodeid fi
  | None =>
      no_open ← want_ext_flag FUSE_CAP_NO_OPEN_SUPPORT;
      if (no_open : bool) then reply_err r ENOSYS else fuse_reply_open r fi;; mret tt
  end.
Definition do_open (r nodeid : Z) (inarg : bytes) : M unit := _do_open r nodeid inarg [].

Definition _do_read (r nodeid : Z) (op_in in_payload : bytes) : M unit :=
  match op_read se_op with
  | Some f =>
      arg ← arg_of fuse_read_in op_in;
      m ← minor;
      let fi := fi_fh_only (read_in_fh arg) in
      let fi := if 9 <=? m then
                  fi_set_flags (i32 (read_in_flags arg)) (fi_set_lock_owner (read_in_lock_owner arg) fi)
                else fi in
      f r nodeid (read_in_size arg) (i64 (read_in_offset arg)) fi
  | None => reply_err r ENOSYS
  end.
Definition do_read (r nodeid : Z) (inarg : bytes) : M unit := _do_read r nodeid inarg [].

Definition _do_write (r nodeid : Z) (op_in in_payload : bytes) : M unit :=
  arg ← arg_of fuse_write_in op_in;
  m ← minor;
  let fi := fi_set_writepage (flag (write_in_write_flags arg) FUSE_WRITE_CACHE)
              (fi_fh_only (write_in_fh arg)) in
  let fi := if 9 <=? m then
              fi_set_flags (i32 (write_in_flags arg)) (fi_set_lock_owner (write_in_lock_owner arg) fi)
            else fi in
  match op_write se_op with
  | Some f => f r nodeid in_payload (write_in_size arg) (i64 (write_in_offset arg)) fi
  | None => reply_err r ENOSYS
  end.
Definition do_write (r nodeid : Z) (inarg : bytes) : M unit :=
  m ← minor;
  _do_write r nodeid inarg
    (if m <? 9 then drop (Z.to_nat FUSE_COMPAT_WRITE_IN_SIZE) inarg
     else PARAM fuse_write_in inarg).

(** Called only when the server has a [write_buf] operation [f]. *)
Definition _do_write_buf (f : Z -> Z -> fuse_bufvec -> Z -> fuse_file_info -> M fuse_bufvec)
    (r nodeid : Z) (op_in : bytes) (bufv : fuse_bufvec) : M fuse_bufvec :=
  arg ← arg_of fuse_write_in op_in;
  m ← minor;
  let fi := fi_set_writepage (flag (write_in_write_flags arg) FUSE_WRITE_CACHE)
              (fi_fh_only (write_in_fh arg)) in
  let fi := if 9 <=? m then
              fi_set_flags (i32 (write_in_flags arg)) (fi_set_lock_owner (write_in_lock_owner arg) fi)
            else fi in
  f r nodeid bufv (i64 (write_in_offset arg)) fi.

(** The memory from a pointer to the end of its object. *)
Definition view (p : ptr) : M bytes := fun w =>
  match w_mem w !! p.1 with
  | Some bs => if (0 <=? p.2) && (p.2 <=? blen bs) then Ok (drop (Z.to_nat p.2) bs) w
               else Fault OutOfBounds
  | None => Fault BadPointer
  end.

(** Without splice there is no pipe. *)
Definition fuse_ll_clear_pipe : M unit := mret tt.

Definition bv_one (b : fuse_buf) : fuse_bufvec :=
  {| bv_count := 1; bv_idx := 0; bv_off := 0; bv_buf := [b] |}.

Definition do_write_buf (f : Z -> Z -> fuse_bufvec -> Z -> fuse_file_info -> M fuse_bufvec)
    (r nodeid : Z) (inarg : ptr) (ibuf : fuse_buf) : M unit :=
  m ← minor;
  inmem ← view inarg;
  let is_fd := flag (buf_flags ibuf) FUSE_BUF_IS_FD in
  let set mem size := {| buf_size := size; buf_flags := buf_flags ibuf; buf_mem := mem;
                         buf_fd := buf_fd ibuf; buf_pos := buf_pos ibuf;
                         buf_mem_size := buf_mem_size ibuf |} in
  buf ← (if m <? 9 then
           assert_ (negb is_fd);;
           mret (set (Some (ptr_add inarg FUSE_COMPAT_WRITE_IN_SIZE))
                   (u64 (buf_size ibuf - (sizeof fuse_in_header + FUSE_COMPAT_WRITE_IN_SIZE))))
         else
           mret (set (if is_fd then buf_mem ibuf else Some (ptr_add inarg (sizeof fuse_write_in)))
                   (u64 (buf_size ibuf - (sizeof fuse_in_header + sizeof fuse_write_in)))));
  arg ← arg_of fuse_write_in inmem;
  bufv ← (if buf_size buf <? write_in_size arg then
            reply_err r EIO;; mret (bv_one buf)
          else _do_write_buf f r nodeid inmem (bv_one (set (buf_mem buf) (write_in_size arg))));
  when (is_fd && (bv_idx bufv <? bv_count bufv)) fuse_ll_clear_pipe.

Definition _do_flush (r nodeid : Z) (op_in in_payload : bytes) : M unit :=
  arg ← arg_of fuse_flush_in op_in;
  m ← minor;
  let fi := fi_set_flush true (fi_fh_only (flush_in_fh arg)) in
  let fi := if 7 <=? m then fi_set_lock_owner (flush_in_lock_owner arg) fi else fi in
  match op_flush se_op with
  | Some f => f r nodeid fi
  | None => reply_err r ENOSYS
  end.
Definition do_flush (r nodeid : Z) (inarg : bytes) : M unit := _do_flush r nodeid inarg [].

Definition _do_release (r nodeid : Z) (op_in in_payload : bytes) : M unit :=
  arg ← arg_of fuse_release_in op_in;
  m ← minor;
  let fi := fi_set_fh (release_in_fh arg) (fi_set_flags (i32 (release_in_flags arg)) fi_zero) in
  let fi := if 8 <=? m then
              fi_set_lock_owner (release_in_lock_owner arg)
                (fi_set_flush (flag (release_in_release_flags arg) FUSE_RELEASE_FLUSH) fi)
            else fi in
  let fi := if flag (release_in_release_flags arg) FUSE_RELEASE_FLOCK_UNLOCK then
              fi_set_lock_owner (release_in_lock_owner arg) (fi_set_flock_release true fi)
            else fi in
  match op_release se_op with
  | Some f => f r nodeid fi
  | None => reply_err r 0
  end.
Definition do_release (r nodeid : Z) (inarg : bytes) : M unit := _do_release r nodeid inarg [].

Definition _do_fsync (r nodeid : Z) (op_in in_payload : bytes) : M unit :=
  arg ← arg_of fuse_fsync_in op_in;
  let datasync := Z.land (fsync_in_fsync_flags arg) 1 in
  match op_fsync se_op with
  | Some f => f r nodeid datasync (fi_fh_only (fsync_in_fh arg))
  | None => reply_err r ENOSYS
  end.
Definition do_fsync (r nodeid : Z) (inarg : bytes) : M unit := _do_fsync r nodeid inarg [].

Definition _do_opendir (r nodeid : Z) (op_in in_payload : bytes) : M unit :=
  arg ← arg_of fuse_open_in op_in;
  let fi := fi_set_flags (i32 (open_in_flags arg)) fi_zero in
  match op_opendir se_op with
  | Some f => f r nodeid fi
  | None =>
      no_opendir ← want_ext_flag FUSE_CAP_NO_OPENDIR_SUPPORT;
      if (no_opendir : bool) then reply_err r ENOSYS else fuse_reply_open r fi;; mret tt
  end.
Definition do_opendir (r nodeid : Z) (inarg : bytes) : M unit := _do_opendir r nodeid inarg [].

Definition _do_readdir (r nodeid : Z) (op_in in_payload : bytes) : M unit :=
  arg ← arg_of fuse_read_in op_in;
  match op_readdir se_op with
  | Some f => f r nodeid (read_in_size arg) (i64 (read_in_offset arg)) (fi_fh_only (read_in_fh arg))
  | None => reply_err r ENOSYS
  end.
Definition do_readdir (r nodeid : Z) (inarg : bytes) : M unit := _do_readdir r nodeid inarg [].

Definition _do_readdirplus (r nodeid : Z) (op_in in_payload : bytes) : M unit :=
  arg ← arg_of fuse_read_in op_in;
  match op_readdirplus se_op with
  | Some f => f r nodeid (read_in_size arg) (i64 (read_in_offset arg)) (fi_fh_only (read_in_fh arg))
  | None => reply_err r ENOSYS
  end.
Definition do_readdirplus (r nodeid : Z) (inarg : bytes) : M unit :=
  _do_readdirplus r nodeid inarg [].

Definition _do_releasedir (r nodeid : Z) (op_in in_payload : bytes) : M unit :=
  arg ← arg_of fuse_release_in op_in;
  let fi := fi_set_fh (release_in_fh arg) (fi_set_flags (i32 (release_in_flags arg)) fi_zero) in
  match op_releasedir se_op with
  | Some f => f r nodeid fi
  | None => reply_err r 0
  end.
Definition do_releasedir (r nodeid : Z) (inarg : bytes) : M unit :=
  _do_releasedir r nodeid inarg [].

Definition _do_fsyncdir (r nodeid : Z) (op_in in_payload : bytes) : M unit :=
  arg ← arg_of fuse_fsync_in op_in;
  let datasync := Z.land (fsync_in_fsync_flags arg) 1 in
  match op_fsyncdir se_op with
  | Some f => f r nodeid datasync (fi_fh_only (fsync_in_fh arg))
  | None => reply_err r ENOSYS
  end.
Definition do_fsyncdir (r nodeid : Z) (inarg : bytes) : M unit := _do_fsyncdir r nodeid inarg [].

(** The statistics of a server without a [statfs] operation. *)
Definition default_statvfs : statvfs := {|
  f_bsize := 512; f_frsize := 0; f_blocks := 0; f_bfree := 0; f_bavail := 0; f_files := 0;
  f_ffree := 0; f_namemax := 255 |}.

Definition _do_statfs (r nodeid : Z) (op_in in_payload : bytes) : M unit :=
  match op_statfs se_op with
  | Some f => f r nodeid
  | None => fuse_reply_statfs r default_statvfs;; mret tt
  end.
Definition do_statfs (r nodeid : Z) (inarg : bytes) : M unit := _do_statfs r nodeid inarg [].

Definition _do_setxattr (r nodeid : Z) (op_in in_payload : bytes) : M unit :=
  value ← after_string in_payload;
  match op_setxattr se_op with
  | Some f =>
      name ← c_string in_payload;
      arg ← arg_of fuse_setxattr_in op_in;
      f r nodeid name value (setxattr_in_size arg) (i32 (setxattr_in_flags arg))
  | None => reply_err r ENOSYS
  end.
Definition do_setxattr (r nodeid : Z) (inarg : bytes) : M unit :=
  xattr_ext ← gets (fun w => flag (want (se_conn (w_se w))) FUSE_CAP_SETXATTR_EXT);
  _do_setxattr r nodeid inarg
    (if (xattr_ext : bool) then PARAM fuse_setxattr_in inarg
     else drop (Z.to_nat FUSE_COMPAT_SETXATTR_IN_SIZE) inarg).

Definition _do_getxattr (r nodeid : Z) (op_in in_payload : bytes) : M unit :=
  match op_getxattr se_op with
  | Some f =>
      name ← c_string in_payload;
      arg ← arg_of fuse_getxattr_in op_in;
      f r nodeid name (getxattr_in_size arg)
  | None => reply_err r ENOSYS
  end.
Definition do_getxattr (r nodeid : Z) (inarg : bytes) : M unit :=
  _do_getxattr r nodeid inarg (PARAM fuse_getxattr_in inarg).

Definition _do_listxattr (r nodeid : Z) (op_in in_payload : bytes) : M unit :=
  match op_listxattr se_op with
  | Some f => arg ← arg_of fuse_getxattr_in op_in; f r nodeid (getxattr_in_size arg)
  | None => reply_err r ENOSYS
  end.
Definition do_listxattr (r nodeid : Z) (inarg : bytes) : M unit :=
  _do_listxattr r nodeid inarg [].

Definition _do_removexattr (r nodeid : Z) (op_in in_payload : bytes) : M unit :=
  match op_removexattr se_op with
  | Some f => name ← c_string in_payload; f r nodeid name
  | None => reply_err r ENOSYS
  end.
Definition do_removexattr (r nodeid : Z) (inarg : bytes) : M unit :=
  _do_removexattr r nodeid [] inarg.

(** The file info of a lock request. *)
Definition lk_fi (arg : fuse_lk_in) : fuse_file_info :=
  fi_set_lock_owner (lk_in_owner arg) (fi_fh_only (lk_in_fh arg)).

Definition _do_getlk (r nodeid : Z) (op_in in_payload : bytes) : M unit :=
  arg ← arg_of fuse_lk_in op_in;
  match op_getlk se_op with
  | Some f => f r nodeid (lk_fi arg) (convert_fuse_file_lock (lk_in_lk arg))
  | None => reply_err r ENOSYS
  end.
Definition do_getlk (r nodeid : Z) (inarg : bytes) : M unit := _do_getlk r nodeid inarg [].

(** The [flock] operation for a lock type. *)
Definition flock_op (type : Z) (sleep : bool) : Z :=
  let op := if type =? F_RDLCK then LOCK_SH
            else if type =? F_WRLCK then LOCK_EX
            else if type =? F_UNLCK then LOCK_UN else 0 in
  if sleep then op else Z.lor op LOCK_NB.

Definition do_setlk_common (r nodeid : Z) (op_in : bytes) (sleep : bool) : M unit :=
  arg ← arg_of fuse_lk_in op_in;
  if flag (lk_in_lk_flags arg) FUSE_LK_FLOCK then
    match op_flock se_op with
    | Some f => f r nodeid (lk_fi arg) (flock_op (file_lock_type (lk_in_lk arg)) sleep)
    | None => reply_err r ENOSYS
    end
  else
    match op_setlk se_op with
    | Some f => f r nodeid (lk_fi arg) (convert_fuse_file_lock (lk_in_lk arg)) (if sleep then 1 else 0)
    | None => reply_err r ENOSYS
    end.

Definition _do_setlk (r nodeid : Z) (op_in in_payload : bytes) : M unit :=
  do_setlk_common r nodeid op_in false.
Definition do_setlk (r nodeid : Z) (inarg : bytes) : M unit := _do_setlk r nodeid inarg [].
Definition _do_setlkw (r nodeid : Z) (op_in in_payload : bytes) : M unit :=
  do_setlk_common r nodeid op_in true.
Definition do_setlkw (r nodeid : Z) (inarg : bytes) : M unit := _do_setlkw r nodeid inarg [].

Definition _do_bmap (r nodeid : Z) (op_in in_payload : bytes) : M unit :=
  match op_bmap se_op with
  | Some f =>
      arg ← arg_of fuse_bmap_in op_in;
      f r nodeid (bmap_in_blocksize arg) (bmap_in_block arg)
  | None => reply_err r ENOSYS
  end.
Definition do_bmap (r nodeid : Z) (inarg : bytes) : M unit := _do_bmap r nodeid inarg [].

(** Pointers are eight bytes wide: the compatibility flag is never set. *)
Definition _do_ioctl (r nodeid : Z) (op_in : bytes) (in_payload : option bytes) : M unit :=
  arg ← arg_of fuse_ioctl_in op_in;
  let flags := ioctl_in_flags arg in
  dir ← want_ext_flag FUSE_CAP_IOCTL_DIR;
  if flag flags FUSE_IOCTL_DIR && negb dir then reply_err r ENOTTY
  else
    match op_ioctl se_op with
    | Some f => f r nodeid (ioctl_in_cmd arg) (ioctl_in_arg arg) (fi_fh_only (ioctl_in_fh arg))
                  flags in_payload (ioctl_in_in_size arg) (ioctl_in_out_size arg)
    | None => reply_err r ENOSYS
    end.
Definition do_ioctl (r nodeid : Z) (inarg : bytes) : M unit :=
  arg ← arg_of fuse_ioctl_in inarg;
  _do_ioctl r nodeid inarg
    (if truth (ioctl_in_in_size arg) then Some (PARAM fuse_ioctl_in inarg) else None).

Definition fuse_pollhandle_destroy (ph : option Z) : M unit := free ph.

Definition _do_poll (r nodeid : Z) (op_in in_payload : bytes) : M unit :=
  arg ← arg_of fuse_poll_in op_in;
  let fi := fi_set_poll_events (poll_in_events arg) (fi_fh_only (poll_in_fh arg)) in
  match op_poll se_op with
  | Some f =>
      if flag (poll_in_flags arg) FUSE_POLL_SCHEDULE_NOTIFY then
        ph ← malloc 16;
        match ph with
        | None => reply_err r ENOMEM
        | Some a => store a (B_poll (poll_in_kh arg));; f r nodeid fi (Some a)
        end
      else f r nodeid fi None
  | None => reply_err r ENOSYS
  end.
Definition do_poll (r nodeid : Z) (inarg : bytes) : M unit := _do_poll r nodeid inarg [].

Definition _do_fallocate (r nodeid : Z) (op_in in_payload : bytes) : M unit :=
  arg ← arg_of fuse_fallocate_in op_in;
  match op_fallocate se_op with
  | Some f => f r nodeid (i32 (fallocate_in_mode arg)) (i64 (fallocate_in_offset arg))
                (i64 (fallocate_in_length arg)) (fi_fh_only (fallocate_in_fh arg))
  | None => reply_err r ENOSYS
  end.
Definition do_fallocate (r nodeid : Z) (inarg : bytes) : M unit :=
  _do_fallocate r nodeid inarg [].

Definition copy_file_range_common (r nodeid_in : Z) (arg : fuse_copy_file_range_in) : M unit :=
  match op_copy_file_range se_op with
  | Some f =>
      f r nodeid_in (i64 (copy_file_range_in_off_in arg)) (fi_fh_only (copy_file_range_in_fh_in arg))
        (copy_file_range_in_nodeid_out arg) (i64 (copy_file_range_in_off_out arg))
        (fi_fh_only (copy_file_range_in_fh_out arg)) (copy_file_range_in_len arg)
        (i32 (copy_file_range_in_flags arg))
  | None => reply_err r ENOSYS
  end.

Definition COPY_MAX : Z := 4294963200.   (* 0xfffff000 *)

Definition _do_copy_file_range (r nodeid_in : Z) (op_in in_payload : bytes) : M unit :=
  arg ← arg_of fuse_copy_file_range_in op_in;
  let arg := if COPY_MAX <? copy_file_range_in_len arg then
               {| copy_file_range_in_fh_in := copy_file_range_in_fh_in arg;
                  copy_file_range_in_off_in := copy_file_range_in_off_in arg;
                  copy_file_range_in_nodeid_out := copy_file_range_in_nodeid_out arg;
                  copy_file_range_in_fh_out := copy_file_range_in_fh_out arg;
                  copy_file_range_in_off_out := copy_file_range_in_off_out arg;
                  copy_file_range_in_len := COPY_MAX;
                  copy_file_range_in_flags := copy_file_range_in_flags arg |}
             else arg in
  copy_file_range_common r nodeid_in arg.
Definition do_copy_file_range (r nodeid_in : Z) (inarg : bytes) : M unit :=
  _do_copy_file_range r nodeid_in inarg [].

Definition _do_copy_file_range_64 (r nodeid_in : Z) (op_in in_payload : bytes) : M unit :=
  mod_req r (rq_set_is_copy_file_range_64 true);;
  arg ← arg_of fuse_copy_file_range_in op_in;
  copy_file_range_common r nodeid_in arg.
Definition do_copy_file_range_64 (r nodeid_in : Z) (inarg : bytes) : M unit :=
  _do_copy_file_range_64 r nodeid_in inarg [].

Definition _do_lseek (r nodeid : Z) (op_in in_payload : bytes) : M unit :=
  arg ← arg_of fuse_lseek_in op_in;
  match op_lseek se_op with
  | Some f => f r nodeid (i64 (lseek_in_offset arg)) (i32 (lseek_in_whence arg))
                (fi_fh_only (lseek_in_fh arg))
  | None => reply_err r ENOSYS
  end.
Definition do_lseek (r nodeid : Z) (inarg : bytes) : M unit := _do_lseek r nodeid inarg [].

(** Without [HAVE_STATX] the request is dropped. *)
Definition _do_statx (r nodeid : Z) (op_in in_payload : bytes) : M unit := mret tt.
Definition do_statx (r nodeid : Z) (inarg : bytes) : M unit := _do_statx r nodeid inarg [].
End handlers.

(** ** Byte range locks

    The wire format gives the last byte of a range, [struct flock] its length. *)

Lemma file_lock_range s e ty :
  0 <= s -> s <= e < OFFSET_MAX -> 0 <= ty < 2 ^ 15 ->
  let fl := convert_fuse_file_lock (Build_fuse_file_lock s e ty 0) in
  l_type fl = ty /\ l_start fl = s /\ l_len fl = e - s + 1 /\ l_start fl + l_len fl - 1 = e.
Proof.
  unfold OFFSET_MAX. intros Hs He Hty. unfold convert_fuse_file_lock. cbn.
  rewrite (proj2 (Z.eqb_neq e _)) by (unfold OFFSET_MAX; lia).
  assert (i64 s = s) as -> by (apply wraps_id; lia).
  unfold u64, i64. rewrite (wrapu_id 64), !wraps_id by (unfold is_u; lia). lia.
Qed.
