(* ===== verification/Interrupt.v ===== *)
(** * Interrupts

    The INTERRUPT handler and the functions around it in [fuse_lowlevel.c].  An
    interrupt names a request by its unique id: it is delivered to a request in
    progress, or kept on the session's second list until the request arrives
    ([check_interrupt]) or another request takes it off. *)

From S2P Require Import Prelude Wire Platform KernelAbi LinkedList World Monad Request Reply.
From S2P Require Import Buffer Server Handlers.

Section interrupt.
Context {P : Platform} {S : Server}.

(** The loop over a list of requests that stops at the first match. *)
Definition find_req (p : fuse_req -> bool) (head : Z) : M (option Z) := fun w =>
  match ll_find p head (w_reqs w) with
  | Some res => Ok res w
  | None => Fault BadPointer
  end.

(** [pthread_mutex_lock(&req->lock)] and its counterpart. *)
Definition lock_req (r : Z) : M unit :=
  q ← get_req r;
  m ← of_option Deadlock (uk_mutex_lock (rq_lock q));
  mod_req r (rq_set_lock m).
Definition unlock_req (r : Z) : M unit :=
  mod_req r (fun q => rq_set_lock (uk_mutex_unlock (rq_lock q)) q).

Definition find_interrupted (r : Z) : M bool :=
  q ← get_req r;
  curr ← find_req (fun c => rq_unique c =? rq_u0 q) SE_LIST;
  match curr with
  | Some c =>
      mod_req c (fun q => rq_set_ref_cnt (rq_ref_cnt q + 1) q);;
      unlock_se;;
      lock_req c;;
      lock_se;;
      mod_req c (rq_set_interrupted true);;
      qc ← get_req c;
      unlock_se;;
      when (truth (rq_u0 qc)) (interrupt_func (rq_u0 qc) c (rq_u1 qc));;
      unlock_req c;;
      lock_se;;
      mod_req c (fun q => rq_set_ref_cnt (rq_ref_cnt q - 1) q);;
      qc ← get_req c;
      when (rq_ref_cnt qc =? 0) (destroy_req c);;
      mret true
  | None =>
      q ← get_req r;
      curr ← find_req (fun c => rq_u0 c =? rq_u0 q) SE_INTERRUPTS;
      mret (match curr with Some _ => true | None => false end)
  end.

Definition _do_interrupt (r nodeid : Z) (op_in in_payload : bytes) : M unit :=
  arg ← arg_of fuse_interrupt_in op_in;
  mod_req r (rq_set_u0 (interrupt_in_unique arg));;
  lock_se;;
  found ← find_interrupted r;
  (if (found : bool) then
     q ← get_req r;
     fuse_chan_put (rq_ch q);;
     mod_req r (rq_set_ch None);;
     destroy_req r
   else list_add_req r SE_INTERRUPTS);;
  unlock_se.
Definition do_interrupt (r nodeid : Z) (inarg : bytes) : M unit := _do_interrupt r nodeid inarg [].

Definition check_interrupt (r : Z) : M (option Z) :=
  q ← get_req r;
  curr ← find_req (fun c => rq_u0 c =? rq_unique q) SE_INTERRUPTS;
  match curr with
  | Some c =>
      mod_req r (rq_set_interrupted true);;
      list_del_req c;;
      qc ← get_req c;
      fuse_chan_put (rq_ch qc);;
      mod_req c (rq_set_ch None);;
      destroy_req c;;
      mret None
  | None =>
      head ← get_req SE_INTERRUPTS;
      let c := rq_next head in
      if negb (c =? SE_INTERRUPTS) then
        list_del_req c;;
        list_init_req c;;
        mret (Some c)
      else mret None
  end.

Definition fuse_req_interrupt_func (r func data : Z) : M unit :=
  lock_req r;;
  lock_se;;
  mod_req r (fun q => rq_set_u1 data (rq_set_u0 func q));;
  unlock_se;;
  q ← get_req r;
  when (rq_interrupted q && truth func) (interrupt_func func r data);;
  unlock_req r.

Definition fuse_req_interrupted (r : Z) : M Z :=
  lock_se;;
  q ← get_req r;
  unlock_se;;
  mret (if rq_interrupted q then 1 else 0).

Definition fuse_req_ctx (r : Z) : M fuse_ctx := q ← get_req r; mret (rq_ctx q).
Definition fuse_req_is_uring (r : Z) : M bool := q ← get_req r; mret (rq_is_uring q).
Definition fuse_req_get_payload (r : Z) : M Z := mret (- ENOTSUP).
End interrupt.

(** ** Specification *)

Section interrupt_spec.
Context {P : Platform} {PS : PlatformSpec P} {S : Server}.
Implicit Types (w : world) (l il : list Z).

Lemma find_req_list p w l il :
  lists_ok (w_reqs w) l il -> find_req p SE_LIST w = Ok (first_match p (w_reqs w) l) w.
Proof. intros [H _ _]. unfold find_req. by rewrite (dll_find _ _ l). Qed.

Lemma find_req_intr p w l il :
  lists_ok (w_reqs w) l il -> find_req p SE_INTERRUPTS w = Ok (first_match p (w_reqs w) il) w.
Proof. intros [_ H _]. unfold find_req. by rewrite (dll_find _ _ il). Qed.

(** The head of the pending interrupts points to the first of them. *)
Lemma intr_head w l il :
  lists_ok (w_reqs w) l il ->
  exists hd, w_reqs w !! SE_INTERRUPTS = Some hd /\ rq_next hd = default SE_INTERRUPTS (head il).
Proof.
  intros [_ [_ Hc] _]. destruct il as [|c il]; cbn in *;
    [destruct Hc as [Hn _]|destruct Hc as [[Hn _] _]];
    apply get_next_Some in Hn as (a & Ha & Hn); by exists a.
Qed.

(** No interrupt is pending. *)
Lemma check_interrupt_none w r q l :
  lists_ok (w_reqs w) l [] -> w_reqs w !! r = Some q -> check_interrupt r w = Ok None w.
Proof.
  intros Hl Hq. unfold check_interrupt. mstep.
  mstep by (by apply (find_req_intr _ _ l)). cbn [first_match].
  destruct (intr_head _ _ _ Hl) as (hd & Hhd & Hn). mstep. cbn in Hn. by rewrite Hn.
Qed.

(** The interrupt of the new request [r] is pending: [r] is marked and the
    interrupt is dropped. *)
Lemma check_interrupt_match w r q l il c qc :
  lists_ok (w_reqs w) l il -> w_reqs w !! r = Some q -> r ∉ SE_LIST :: l -> r ∉ SE_INTERRUPTS :: il ->
  first_match (fun c => rq_u0 c =? rq_unique q) (w_reqs w) il = Some c ->
  w_reqs w !! c = Some qc -> rq_is_uring qc = false ->
  exists h, check_interrupt r w = Ok None (w_set_reqs h w) /\ lists_ok h l (drop_elem c il) /\
    contents h = delete c (<[r := strip (rq_set_interrupted true q)]> (contents (w_reqs w))).
Proof.
  intros Hl Hq Hr1 Hr2 Hm Hqc Hu. unfold check_interrupt. mstep.
  mstep by (by apply (find_req_intr _ _ l)). rewrite Hm.
  destruct (first_match_Some _ _ _ _ Hm) as (i1 & i2 & Hil & _).
  assert (c ∈ il) as Hc by (subst; set_solver).
  assert (c <> r) as Hcr by (intros ->; set_solver).
  assert (lists_ok (<[r := rq_set_interrupted true q]> (w_reqs w)) l il) as Hl1
    by (apply lists_ok_update; [done|intros []; done|done]).
  destruct (lists_ok_del_intr _ _ _ _ Hl1 Hc) as (h & E & Hl' & Hcont).
  destruct (contents_lookup (<[r:=rq_set_interrupted true q]> (w_reqs w)) h c qc) as (qc' & Hqc' & Hst);
    [done|by rewrite lookup_insert_ne|].
  destruct (lists_ok_notin_intr _ _ _ _ Hl1 Hc) as [Hn1 Hn2].
  exists (delete c h). split.
  - mstep by (by apply mod_req_run). mstep by (by apply on_reqs_run).
    mstep by (apply get_req_run; exact Hqc'). mstep by done.
    mstep by (apply mod_req_run; exact Hqc').
    mstep by (eapply destroy_req_run; [apply lookup_insert_eq
      |apply strip_uring in Hst; destruct qc'; cbn in *; congruence|by destruct qc']).
    unfold mret, M_ret. cbn. by rewrite delete_insert_eq.
  - split; [by apply lists_ok_delete|]. by rewrite contents_delete, Hcont, contents_insert.
Qed.

(** Another request's interrupt is pending: the oldest one is handed back. *)
Lemma check_interrupt_other w r q l c il qc :
  lists_ok (w_reqs w) l (c :: il) -> w_reqs w !! r = Some q ->
  r ∉ SE_LIST :: l -> r ∉ SE_INTERRUPTS :: c :: il ->
  first_match (fun c => rq_u0 c =? rq_unique q) (w_reqs w) (c :: il) = None ->
  w_reqs w !! c = Some qc ->
  exists h, check_interrupt r w = Ok (Some c) (w_set_reqs h w) /\ lists_ok h l il /\
    dll h c [] /\ contents h = contents (w_reqs w).
Proof.
  intros Hl Hq Hr1 Hr2 Hm Hqc. unfold check_interrupt. mstep.
  mstep by (by apply (find_req_intr _ _ l)). rewrite Hm.
  destruct (intr_head _ _ _ Hl) as (hd & Hhd & Hn). mstep. cbn in Hn. rewrite Hn.
  destruct (lists_ok_del_intr _ _ _ c Hl) as (h & E & Hl' & Hcont); [set_solver|].
  destruct (lists_ok_notin_intr _ _ _ c Hl) as [Hn1 Hn2]; [set_solver|].
  assert (NoDup (SE_INTERRUPTS :: c :: il)) as Hnd by (by destruct Hl as [_ [? _] _]).
  assert (drop_elem c (c :: il) = il) as Hd.
  { apply (drop_elem_middle c [] il). by apply NoDup_cons in Hnd as [_ ?]. }
  rewrite Hd in *. destruct (contents_lookup _ h c qc Hcont Hqc) as (qc' & Hqc' & Hst).
  destruct (dll_init h c) as (h' & E' & Hself); [eauto|].
  rewrite (proj2 (Z.eqb_neq c _)) by (intros ->; by apply NoDup_cons in Hnd as [? _]; set_solver).
  cbn [negb]. exists h'. split.
  - mstep by (by apply on_reqs_run). mstep by (by apply on_reqs_run). done.
  - assert (contents h' = contents h) as Hc' by (by eapply contents_ll_init).
    split; [|split; [done|congruence]].
    unfold ll_init, put_next, put_prev in E'. rewrite Hqc' in E'. cbn in E'.
    rewrite lookup_insert_eq in E'. cbn in E'. rewrite insert_insert_eq in E'.
    injection E' as <-. by apply lists_ok_insert_fresh.
Qed.
End interrupt_spec.
