(* ===== verification/Notify.v ===== *)
(** * Notifications

    Messages the server sends to the peer on its own ([fuse_lowlevel_notify_*]),
    the data replies, and the table of outstanding retrieve notifications. *)

From S2P Require Import Prelude Wire Platform KernelAbi LinkedList World Monad Buffer Request.
From S2P Require Import Reply Server Handlers.

Definition FUSE_NOTIFY_POLL : Z := 1.
Definition FUSE_NOTIFY_INVAL_INODE : Z := 2.
Definition FUSE_NOTIFY_INVAL_ENTRY : Z := 3.
Definition FUSE_NOTIFY_STORE : Z := 4.
Definition FUSE_NOTIFY_RETRIEVE : Z := 5.
Definition FUSE_NOTIFY_DELETE : Z := 6.
Definition FUSE_NOTIFY_INC_EPOCH : Z := 8.

(** [enum fuse_notify_entry_flags] *)
Definition FUSE_LL_INVALIDATE : Z := 0.
Definition FUSE_LL_EXPIRE_ONLY : Z := Z.shiftl 1 0.

Section notify.
Context {P : Platform} {S : Server}.

Definition on_nreqs (f : gmap Z fuse_notify_req -> option (gmap Z fuse_notify_req)) : M unit :=
  fun w => match f (w_nreqs w) with
           | Some h => Ok tt (w_set_nreqs h w)
           | None => Fault BadPointer
           end.

Definition list_del_nreq (n : Z) : M unit := on_nreqs (ll_del n).
Definition list_add_nreq (n next : Z) : M unit := on_nreqs (ll_add n next).
Definition list_init_nreq (n : Z) : M unit := on_nreqs (ll_init n).

Definition get_nreq (n : Z) : M fuse_notify_req := fun w =>
  match w_nreqs w !! n with Some q => Ok q w | None => Fault BadPointer end.

Definition send_notify_iov (notify_code : Z) (iov : list bytes) : M Z :=
  se ← get_se;
  if negb (se_got_init se) then mret (- ENOTCONN)
  else fuse_send_msg None {| out_header_len := 0; out_header_error := notify_code;
                             out_header_unique := 0 |} iov None.

Definition fuse_lowlevel_notify_poll (ph : option Z) : M Z :=
  match ph with
  | Some a =>
      b ← load a;
      match b with
      | B_poll kh => send_notify_iov FUSE_NOTIFY_POLL [enc {| notify_poll_wakeup_out_kh := kh |}]
      | _ => fault_ TypeConfusion
      end
  | None => mret 0
  end.

Definition fuse_lowlevel_notify_inval_inode (ino off len : Z) : M Z :=
  m ← minor;
  if m <? 12 then mret (- ENOSYS)
  else send_notify_iov FUSE_NOTIFY_INVAL_INODE
         [enc {| notify_inval_inode_out_ino := ino; notify_inval_inode_out_off := off;
                 notify_inval_inode_out_len := len |}].

Definition fuse_lowlevel_notify_increment_epoch : M Z :=
  m ← minor;
  if m <? 44 then mret (- ENOSYS) else send_notify_iov FUSE_NOTIFY_INC_EPOCH [].

(** [name] is the memory from the name on; the message takes one byte more
    than [namelen]. *)
Definition fuse_lowlevel_notify_entry (parent : Z) (name : bytes) (namelen flags : Z) : M Z :=
  m ← minor;
  if m <? 12 then mret (- ENOSYS)
  else
    seg ← of_option OutOfBounds (if namelen + 1 <=? blen name then Some (slice 0 (namelen + 1) name) else None);
    send_notify_iov FUSE_NOTIFY_INVAL_ENTRY
      [enc {| notify_inval_entry_out_parent := parent;
              notify_inval_entry_out_namelen := u32 namelen;
              notify_inval_entry_out_flags :=
                if flag flags FUSE_LL_EXPIRE_ONLY then FUSE_EXPIRE_ONLY else 0 |}; seg].

Definition fuse_lowlevel_notify_inval_entry (parent : Z) (name : bytes) (namelen : Z) : M Z :=
  fuse_lowlevel_notify_entry parent name namelen FUSE_LL_INVALIDATE.

Definition fuse_lowlevel_notify_expire_entry (parent : Z) (name : bytes) (namelen : Z) : M Z :=
  se ← get_se;
  if negb (flag (capable_ext (se_conn se)) FUSE_CAP_EXPIRE_ONLY) then mret (- ENOSYS)
  else fuse_lowlevel_notify_entry parent name namelen FUSE_LL_EXPIRE_ONLY.

Definition fuse_lowlevel_notify_delete (parent child : Z) (name : bytes) (namelen : Z) : M Z :=
  m ← minor;
  if m <? 18 then mret (- ENOSYS)
  else
    seg ← of_option OutOfBounds (if namelen + 1 <=? blen name then Some (slice 0 (namelen + 1) name) else None);
    send_notify_iov FUSE_NOTIFY_DELETE
      [enc {| notify_delete_out_parent := parent; notify_delete_out_child := child;
              notify_delete_out_namelen := u32 namelen; notify_delete_out_padding := 0 |}; seg].

(** ** Data replies *)

(** [posix_memalign]: an object of [n] bytes in raw memory. *)
Definition memalign (n : Z) : M (option Z) :=
  k ← gets w_nalloc;
  p ← alloc;
  match p with
  | None => mret None
  | Some a =>
      modify (fun w => w_set_mem (<[a := map (junk k) (seq 0 (Z.to_nat n))]> (w_mem w)) w);;
      mret (Some a)
  end.
Definition free_mem (a : Z) : M unit := modify (fun w => w_set_mem (delete a (w_mem w)) w).

(** The message is [out], the segments [iov] and [len] bytes of the buffer. *)
Definition fuse_send_data_iov_fallback (ch : option Z) (out : fuse_out_header)
    (iov : list bytes) (buf : fuse_bufvec) (len : Z) (req : option Z) : M (Z * fuse_bufvec) :=
  b0 ← of_option OutOfBounds (bv_at buf 0);
  if (bv_count buf =? 1) && (bv_idx buf =? 0) && (bv_off buf =? 0) &&
     negb (flag (buf_flags b0) FUSE_BUF_IS_FD) then
    p ← buf_ptr b0 0;
    seg ← load_mem p len;
    res ← fuse_send_msg ch out (iov ++ [seg]) req;
    mret (res, buf)
  else
    mbuf ← memalign len;
    match mbuf with
    | None => mret (ENOMEM, buf)
    | Some a =>
        let v := FUSE_BUFVEC_INIT len in
        let mem_buf := {| bv_count := bv_count v; bv_idx := bv_idx v; bv_off := bv_off v;
          bv_buf := [{| buf_size := len; buf_flags := 0; buf_mem := Some (a, 0);
                        buf_fd := -1; buf_pos := 0; buf_mem_size := 0 |}] |} in
        '(res, _, buf) ← fuse_buf_copy mem_buf buf 0;
        if res <? 0 then free_mem a;; mret (- res, buf)
        else
          seg ← load_mem (a, 0) res;
          res ← fuse_send_msg ch out (iov ++ [seg]) req;
          free_mem a;;
          mret (res, buf)
    end.

(** Without [HAVE_SPLICE]. *)
Definition fuse_send_data_iov (ch : option Z) (out : fuse_out_header) (iov : list bytes)
    (buf : fuse_bufvec) (flags : Z) (req : option Z) : M (Z * fuse_bufvec) :=
  len ← of_option OutOfBounds (fuse_buf_size buf);
  fuse_send_data_iov_fallback ch out iov buf len req.

Definition fuse_reply_data_uring (r : Z) (bufv : fuse_bufvec) (flags : Z) : M Z := mret (- ENOSYS).

Definition fuse_reply_data (r : Z) (bufv : fuse_bufvec) (flags : Z) : M Z :=
  q ← get_req r;
  if rq_is_uring q then fuse_reply_data_uring r bufv flags
  else
    '(res, _) ← fuse_send_data_iov (rq_ch q)
                  {| out_header_len := 0; out_header_error := 0; out_header_unique := rq_unique q |}
                  [] bufv flags (Some r);
    if res <=? 0 then fuse_free_req r;; mret res
    else fuse_reply_err r res.

Definition fuse_lowlevel_notify_store (ino offset : Z) (bufv : fuse_bufvec) (flags : Z) : M Z :=
  size ← of_option OutOfBounds (fuse_buf_size bufv);
  m ← minor;
  if m <? 15 then mret (- ENOSYS)
  else
    '(res, _) ← fuse_send_data_iov None
                  {| out_header_len := 0; out_header_error := FUSE_NOTIFY_STORE;
                     out_header_unique := 0 |}
                  [enc {| notify_store_out_nodeid := ino; notify_store_out_offset := u64 offset;
                          notify_store_out_size := u32 size; notify_store_out_padding := 0 |}]
                  bufv flags None;
    mret (if 0 <? res then - res else res).

(** ** Retrieving *)

Definition fuse_ll_retrieve_reply (n r ino : Z) (inarg : ptr) (ibuf : fuse_buf) : M unit :=
  inmem ← view inarg;
  nq ← get_nreq n;
  let is_fd := flag (buf_flags ibuf) FUSE_BUF_IS_FD in
  let set mem size := {| buf_size := size; buf_flags := buf_flags ibuf; buf_mem := mem;
                         buf_fd := buf_fd ibuf; buf_pos := buf_pos ibuf;
                         buf_mem_size := buf_mem_size ibuf |} in
  let buf := set (if is_fd then buf_mem ibuf else Some (ptr_add inarg (sizeof fuse_notify_retrieve_in)))
               (u64 (buf_size ibuf - (sizeof fuse_in_header + sizeof fuse_notify_retrieve_in))) in
  arg ← arg_of fuse_notify_retrieve_in inmem;
  bufv ← (if buf_size buf <? notify_retrieve_in_size arg then fuse_reply_none r;; mret (bv_one buf)
          else
            let bufv := bv_one (set (buf_mem buf) (notify_retrieve_in_size arg)) in
            match op_retrieve_reply se_op with
            | Some f => f r (nq_cookie nq) ino (i64 (notify_retrieve_in_offset arg)) bufv
            | None => fuse_reply_none r;; mret bufv
            end);
  modify (fun w => w_set_nreqs (delete n (w_nreqs w)) w);;
  when (is_fd && (bv_idx bufv <? bv_count bufv)) fuse_ll_clear_pipe.

(** Every outstanding notification has [fuse_ll_retrieve_reply] as its [reply]. *)
Definition do_notify_reply (r nodeid : Z) (inarg : ptr) (buf : fuse_buf) : M unit :=
  lock_se;;
  q ← get_req r;
  n ← (fun w => match ll_find (fun nq => nq_unique nq =? rq_unique q) SE_NOTIFY (w_nreqs w) with
                | Some res => Ok res w
                | None => Fault BadPointer
                end) : M (option Z);
  match n with Some n => list_del_nreq n | None => mret tt end;;
  unlock_se;;
  match n with
  | Some n => fuse_ll_retrieve_reply n r nodeid inarg buf
  | None => mret tt
  end.

Definition fuse_lowlevel_notify_retrieve (ino size offset cookie : Z) : M Z :=
  m ← minor;
  if m <? 15 then mret (- ENOSYS)
  else
    p ← alloc;
    match p with
    | None => mret (- ENOMEM)
    | Some n =>
        lock_se;;
        se ← get_se;
        let unique := se_notify_ctr se in
        mod_se (se_set_notify_ctr (u64 (unique + 1)));;
        modify (fun w => w_set_nreqs
          (<[n := {| nq_unique := unique; nq_cookie := cookie; nq_next := 0; nq_prev := 0 |}]>
            (w_nreqs w)) w);;
        list_add_nreq n SE_NOTIFY;;
        unlock_se;;
        err ← send_notify_iov FUSE_NOTIFY_RETRIEVE
                [enc {| notify_retrieve_out_notify_unique := unique;
                        notify_retrieve_out_nodeid := ino;
                        notify_retrieve_out_offset := u64 offset;
                        notify_retrieve_out_size := u32 size;
                        notify_retrieve_out_padding := 0 |}];
        when (truth err)
          (lock_se;; list_del_nreq n;; unlock_se;;
           modify (fun w => w_set_nreqs (delete n (w_nreqs w)) w));;
        mret err
    end.

End notify.
