(* ===== verification/Init.v ===== *)
(** * Session start and end: INIT and DESTROY

    The capability negotiation of [fuse_lowlevel.c] ([_do_init] and the feature
    flag functions), [_do_destroy] and the exit flag of a session. *)

From S2P Require Import Prelude Wire Platform KernelAbi World Monad Request Reply Server.
From S2P Require Import Handlers.

Definition FUSE_DEFAULT_MAX_PAGES_PER_REQ : Z := 32.
Definition FUSE_BUFFER_HEADER_SIZE : Z := 4096.
Definition getpagesize : Z := 4096.
Definition UINT_MAX : Z := 2 ^ 32 - 1.

(** [~x] on 64 bits *)
Definition not64 (x : Z) : Z := Z.lxor (2 ^ 64 - 1) x.

Definition want_flags_valid (capable want : Z) : bool := Z.land want (not64 capable) =? 0.

Definition fuse_lower_32_bits (n : Z) : Z := u32 n.

(** The stub of this platform: the high half, moved to the low half. *)
Definition fuse_higher_32_bits (n : Z) : Z := u32 (Z.shiftr n 32).

(** Flags of the request and the capabilities they announce, in the order of
    the tests; those below the test of [FUSE_MAX_PAGES] are in [in_caps2]. *)
Definition in_caps1 : list (Z * Z) :=
  [(FUSE_ASYNC_READ, FUSE_CAP_ASYNC_READ); (FUSE_POSIX_LOCKS, FUSE_CAP_POSIX_LOCKS);
   (FUSE_ATOMIC_O_TRUNC, FUSE_CAP_ATOMIC_O_TRUNC);
   (FUSE_EXPORT_SUPPORT, FUSE_CAP_EXPORT_SUPPORT); (FUSE_DONT_MASK, FUSE_CAP_DONT_MASK);
   (FUSE_FLOCK_LOCKS, FUSE_CAP_FLOCK_LOCKS); (FUSE_AUTO_INVAL_DATA, FUSE_CAP_AUTO_INVAL_DATA);
   (FUSE_DO_READDIRPLUS, FUSE_CAP_READDIRPLUS);
   (FUSE_READDIRPLUS_AUTO, FUSE_CAP_READDIRPLUS_AUTO); (FUSE_ASYNC_DIO, FUSE_CAP_ASYNC_DIO);
   (FUSE_WRITEBACK_CACHE, FUSE_CAP_WRITEBACK_CACHE);
   (FUSE_NO_OPEN_SUPPORT, FUSE_CAP_NO_OPEN_SUPPORT);
   (FUSE_PARALLEL_DIROPS, FUSE_CAP_PARALLEL_DIROPS); (FUSE_POSIX_ACL, FUSE_CAP_POSIX_ACL);
   (FUSE_HANDLE_KILLPRIV, FUSE_CAP_HANDLE_KILLPRIV);
   (FUSE_HANDLE_KILLPRIV_V2, FUSE_CAP_HANDLE_KILLPRIV_V2);
   (FUSE_CACHE_SYMLINKS, FUSE_CAP_CACHE_SYMLINKS);
   (FUSE_NO_OPENDIR_SUPPORT, FUSE_CAP_NO_OPENDIR_SUPPORT);
   (FUSE_EXPLICIT_INVAL_DATA, FUSE_CAP_EXPLICIT_INVAL_DATA);
   (FUSE_SETXATTR_EXT, FUSE_CAP_SETXATTR_EXT)].

Definition in_caps2 : list (Z * Z) :=
  [(FUSE_PASSTHROUGH, FUSE_CAP_PASSTHROUGH);
   (FUSE_NO_EXPORT_SUPPORT, FUSE_CAP_NO_EXPORT_SUPPORT);
   (FUSE_OVER_IO_URING, FUSE_CAP_OVER_IO_URING)].

(** Capabilities the reply turns into flags, in the order of the tests; the
    two that do more than that are written out in [_do_init]. *)
Definition out_flags1 : list (Z * Z) :=
  [(FUSE_CAP_ASYNC_READ, FUSE_ASYNC_READ); (FUSE_CAP_POSIX_LOCKS, FUSE_POSIX_LOCKS);
   (FUSE_CAP_ATOMIC_O_TRUNC, FUSE_ATOMIC_O_TRUNC);
   (FUSE_CAP_EXPORT_SUPPORT, FUSE_EXPORT_SUPPORT); (FUSE_CAP_DONT_MASK, FUSE_DONT_MASK);
   (FUSE_CAP_FLOCK_LOCKS, FUSE_FLOCK_LOCKS); (FUSE_CAP_AUTO_INVAL_DATA, FUSE_AUTO_INVAL_DATA);
   (FUSE_CAP_READDIRPLUS, FUSE_DO_READDIRPLUS);
   (FUSE_CAP_READDIRPLUS_AUTO, FUSE_READDIRPLUS_AUTO); (FUSE_CAP_ASYNC_DIO, FUSE_ASYNC_DIO);
   (FUSE_CAP_WRITEBACK_CACHE, FUSE_WRITEBACK_CACHE);
   (FUSE_CAP_PARALLEL_DIROPS, FUSE_PARALLEL_DIROPS); (FUSE_CAP_POSIX_ACL, FUSE_POSIX_ACL);
   (FUSE_CAP_HANDLE_KILLPRIV, FUSE_HANDLE_KILLPRIV);
   (FUSE_CAP_HANDLE_KILLPRIV_V2, FUSE_HANDLE_KILLPRIV_V2);
   (FUSE_CAP_CACHE_SYMLINKS, FUSE_CACHE_SYMLINKS);
   (FUSE_CAP_EXPLICIT_INVAL_DATA, FUSE_EXPLICIT_INVAL_DATA);
   (FUSE_CAP_SETXATTR_EXT, FUSE_SETXATTR_EXT);
   (FUSE_CAP_DIRECT_IO_ALLOW_MMAP, FUSE_DIRECT_IO_ALLOW_MMAP);
   (FUSE_CAP_PASSTHROUGH, FUSE_PASSTHROUGH)].

(** Run the tests [if (src & a) dst |= b]. *)
Definition translate_flags (table : list (Z * Z)) (src dst : Z) : Z :=
  fold_left (fun d '(a, b) => or_if (flag src a) b d) table dst.

(** [struct fuse_init_out] with its unused members zero. *)
Definition init_out (max_readahead flags max_background congestion_threshold max_write time_gran
    max_pages flags2 max_stack_depth request_timeout : Z) : fuse_init_out :=
  Build_fuse_init_out FUSE_KERNEL_VERSION FUSE_KERNEL_MINOR_VERSION max_readahead flags
    max_background congestion_threshold max_write time_gran max_pages 0 flags2 max_stack_depth
    request_timeout 0 0 0 0 0 0 0 0 0 0 0.

Section init.
Context {P : Platform} {S : Server}.

Definition fuse_session_exit : M unit :=
  mod_se (se_set_mt_exited true);;
  se ← get_se;
  s ← of_option Uninitialized (se_mt_finish se);
  mod_se (se_set_mt_finish (Some (uk_semaphore_up s))).

Definition fuse_session_reset : M unit :=
  mod_se (fun se => se_set_error 0 (se_set_mt_exited false se)).

Definition fuse_session_exited : M bool := gets (fun w => se_mt_exited (w_se w)).

Definition fuse_convert_to_conn_want_ext : M Z :=
  se ← get_se;
  let conn := se_conn se in
  let convert := negb (want conn =? se_conn_want se) &&
                 negb (fuse_lower_32_bits (want_ext conn) =? want conn) in
  if convert && negb (want_ext conn =? se_conn_want_ext se) then mret (- EINVAL)
  else
    when convert (mod_conn (fun c =>
      conn_set_want_ext (Z.lor (fuse_higher_32_bits (want_ext c)) (want c)) c));;
    mod_conn (fun c => conn_set_want (fuse_lower_32_bits (want_ext c)) c);;
    mret 0.

Definition fuse_set_feature_flag (f : Z) : M bool :=
  conn ← get_conn;
  if flag (capable_ext conn) f then
    mod_conn (fun c => conn_set_want_ext (Z.lor (want_ext c) f) c);;
    mod_se (fun se => se_set_conn_want_ext (Z.lor (se_conn_want_ext se) f) se);;
    mod_conn (fun c => conn_set_want (u32 (Z.lor (want c) f)) c);;
    mod_se (fun se => se_set_conn_want (u32 (Z.lor (se_conn_want se) f)) se);;
    mret true
  else mret false.

Definition fuse_unset_feature_flag (f : Z) : M unit :=
  mod_conn (fun c => conn_set_want_ext (Z.land (want_ext c) (not64 f)) c);;
  mod_se (fun se => se_set_conn_want_ext (Z.land (se_conn_want_ext se) (not64 f)) se);;
  mod_conn (fun c => conn_set_want (u32 (Z.land (want c) (not64 f))) c);;
  mod_se (fun se => se_set_conn_want (u32 (Z.land (se_conn_want se) (not64 f))) se).

Definition fuse_get_feature_flag (f : Z) : M bool :=
  conn ← get_conn; mret (flag (capable_ext conn) f).

Definition is_set {A} (o : option A) : bool := match o with Some _ => true | None => false end.

(** [LL_SET_DEFAULT] *)
Definition ll_set_default (cond : bool) (cap : Z) : M unit :=
  when cond (fuse_set_feature_flag cap;; mret tt).

Definition ll_set_defaults : M unit :=
  ll_set_default true FUSE_CAP_ASYNC_READ;;
  ll_set_default true FUSE_CAP_AUTO_INVAL_DATA;;
  ll_set_default true FUSE_CAP_ASYNC_DIO;;
  ll_set_default true FUSE_CAP_IOCTL_DIR;;
  ll_set_default true FUSE_CAP_ATOMIC_O_TRUNC;;
  ll_set_default (is_set (op_write_buf se_op)) FUSE_CAP_SPLICE_READ;;
  ll_set_default (is_set (op_getlk se_op) && is_set (op_setlk se_op)) FUSE_CAP_POSIX_LOCKS;;
  ll_set_default (is_set (op_flock se_op)) FUSE_CAP_FLOCK_LOCKS;;
  ll_set_default (is_set (op_readdirplus se_op)) FUSE_CAP_READDIRPLUS;;
  ll_set_default (is_set (op_readdirplus se_op) && is_set (op_readdir se_op))
    FUSE_CAP_READDIRPLUS_AUTO;;
  ll_set_default true FUSE_CAP_OVER_IO_URING.

(** The stub that stands for mount options. *)
Definition get_max_read : Z := 0.
Definition fuse_uring_start : Z := - ENOSYS.

(** A failed negotiation. *)
Definition init_fail (r : Z) : M unit :=
  reply_err r EPROTO;;
  mod_se (se_set_error (- EPROTO));;
  fuse_session_exit.

(** What INIT learns from the request: capabilities, buffer size, and whether
    request buffers may be reallocated. *)
Definition init_caps (arg : fuse_init_in) (inargflags : Z) : Z :=
  let c := translate_flags in_caps1 inargflags 0 in
  let c := or_if (flag inargflags FUSE_DIRECT_IO_ALLOW_MMAP) FUSE_CAP_DIRECT_IO_ALLOW_MMAP c in
  let c := or_if ((38 <=? init_in_minor arg) || flag inargflags FUSE_HAS_EXPIRE_ONLY)
             FUSE_CAP_EXPIRE_ONLY c in
  translate_flags in_caps2 inargflags c.

Definition init_inargflags (arg : fuse_init_in) : Z :=
  if 6 <=? init_in_minor arg then
    let f := init_in_flags arg in
    if flag f FUSE_INIT_EXT then Z.lor f (Z.shiftl (init_in_flags2 arg) 32) else f
  else 0.

Definition _do_init (r nodeid : Z) (op_in in_payload : bytes) : M unit :=
  arg ← arg_of fuse_init_in op_in;
  se ← get_se;
  let bufsize := se_bufsize se in
  let buf_reallocable := se_buf_reallocable se in
  mod_conn (fun c => conn_set_want_ext 0 (conn_set_capable_ext 0
    (conn_set_proto_minor (init_in_minor arg) (conn_set_proto_major (init_in_major arg) c))));;
  if init_in_major arg <? 7 then reply_err r EPROTO
  else if 7 <? init_in_major arg then
    send_reply_ok r (enc (init_out 0 0 0 0 0 0 0 0 0 0));; mret tt
  else
    let minor6 := 6 <=? init_in_minor arg in
    let inargflags := init_inargflags arg in
    (if minor6 then
       conn ← get_conn;
       when (init_in_max_readahead arg <? max_readahead conn)
         (mod_conn (conn_set_max_readahead (init_in_max_readahead arg)));;
       mod_conn (conn_set_capable_ext (init_caps arg inargflags))
     else mod_conn (conn_set_max_readahead 0));;
    let no_max_pages := minor6 && negb (flag inargflags FUSE_MAX_PAGES) in
    let max_bufsize := FUSE_DEFAULT_MAX_PAGES_PER_REQ * getpagesize + FUSE_BUFFER_HEADER_SIZE in
    let bufsize := if no_max_pages && (max_bufsize <? bufsize) then max_bufsize else bufsize in
    let buf_reallocable := buf_reallocable && negb no_max_pages in
    when (18 <=? init_in_minor arg)
      (mod_conn (fun c => conn_set_capable_ext (Z.lor (capable_ext c) FUSE_CAP_IOCTL_DIR) c));;
    ll_set_defaults;;
    mod_conn (conn_set_time_gran 1);;
    match op_init se_op with
    | Some f =>
        mod_conn (fun c => conn_set_capable (fuse_lower_32_bits (capable_ext c)) c);;
        f;;
        fuse_convert_to_conn_want_ext;;
        mret tt
    | None => mret tt
    end;;
    conn ← get_conn;
    if negb (want_flags_valid (capable_ext conn) (want_ext conn)) then init_fail r
    else if negb (max_read conn =? get_max_read) then init_fail r
    else
      let bufsize := if bufsize <? FUSE_MIN_READ_BUFFER then FUSE_MIN_READ_BUFFER else bufsize in
      let bufsize := if buf_reallocable then UINT_MAX else bufsize in
      let mw := if max_write conn <? bufsize - FUSE_BUFFER_HEADER_SIZE then max_write conn
                else u32 (bufsize - FUSE_BUFFER_HEADER_SIZE) in
      mod_conn (conn_set_max_write mw);;
      mod_se (se_set_bufsize (u32 (mw + FUSE_BUFFER_HEADER_SIZE)));;
      let pages := flag (init_in_flags arg) FUSE_MAX_PAGES in
      let max_pages := if pages then u16 (u32 (mw - 1) `div` getpagesize + 1) else 0 in
      let outflags := Z.lor (if pages then FUSE_MAX_PAGES else 0) FUSE_BIG_WRITES in
      let outflags := translate_flags out_flags1 (want_ext conn) outflags in
      let max_stack_depth := if flag (want_ext conn) FUSE_CAP_PASSTHROUGH
                             then u32 (max_backing_stack_depth conn + 1) else 0 in
      let outflags := or_if (flag (want_ext conn) FUSE_CAP_NO_EXPORT_SUPPORT)
                        FUSE_NO_EXPORT_SUPPORT outflags in
      let enable_io_uring := se_uring_enable se && flag (want_ext conn) FUSE_CAP_OVER_IO_URING in
      let outflags := or_if enable_io_uring FUSE_OVER_IO_URING outflags in
      let timeout := flag inargflags FUSE_REQUEST_TIMEOUT && truth (request_timeout conn) in
      let outflags := or_if timeout FUSE_REQUEST_TIMEOUT outflags in
      when (13 <=? init_in_minor arg) (mod_conn (fun c =>
        let bg := if 65536 <=? max_background c then 65535 else max_background c in
        let ct := if bg <? congestion_threshold c then bg else congestion_threshold c in
        let ct := if ct =? 0 then u32 (bg * 3) `div` 4 else ct in
        conn_set_congestion_threshold ct (conn_set_max_background bg c)));;
      conn ← get_conn;
      let minor13 := 13 <=? init_in_minor arg in
      let outflags := if enable_io_uring && truth fuse_uring_start
                      then Z.land outflags (not64 FUSE_OVER_IO_URING) else outflags in
      let ext := flag inargflags FUSE_INIT_EXT in
      let outflags := or_if ext FUSE_INIT_EXT outflags in
      let outarg := init_out (max_readahead conn) (u32 outflags)
        (if minor13 then u16 (max_background conn) else 0)
        (if minor13 then u16 (congestion_threshold conn) else 0)
        (max_write conn)
        (if 23 <=? init_in_minor arg then time_gran conn else 0)
        max_pages
        (if ext then u32 (Z.shiftr outflags 32) else 0)
        max_stack_depth
        (if timeout then u16 (request_timeout conn) else 0) in
      let outargsize := if init_in_minor arg <? 5 then FUSE_COMPAT_INIT_OUT_SIZE
                        else if init_in_minor arg <? 23 then FUSE_COMPAT_22_INIT_OUT_SIZE
                        else sizeof fuse_init_out in
      mod_se (se_set_got_init true);;
      send_reply_ok r (slice 0 outargsize (enc outarg));;
      mret tt.
Definition do_init (r nodeid : Z) (inarg : bytes) : M unit := _do_init r nodeid inarg [].

Definition _do_destroy (r nodeid : Z) (op_in in_payload : bytes) : M unit :=
  mod_se (se_set_mountpoint None);;
  mod_se (fun se => se_set_got_init false (se_set_got_destroy true se));;
  match op_destroy se_op with Some f => f | None => mret tt end;;
  send_reply_ok r [];;
  mret tt.
Definition do_destroy (r nodeid : Z) (inarg : bytes) : M unit := _do_destroy r nodeid inarg [].
End init.
