(* ===== verification/Session.v ===== *)
(** * Sessions

    Creation and destruction of a session, and the dispatch of a request buffer
    to its handler ([fuse_session_process_buf_internal] and the functions and
    table it uses in [fuse_lowlevel.c]). *)

From S2P Require Import Prelude Wire Platform KernelAbi LinkedList World Monad Buffer Request.
From S2P Require Import Reply Server Handlers Interrupt Notify Init.

Definition FUSE_MAXOP : Z := CUSE_INIT + 1.

(** ** Checks *)

(** The members of the session each check uses are its arguments. *)
Definition fuse_req_opcode_sanity_ok (got_init cuse_data : bool) (in_op : Z) : Z :=
  if negb got_init then
    let expected : Z := if cuse_data then CUSE_INIT else FUSE_INIT in
    if negb (in_op =? expected) then EIO else 0
  else if (in_op =? FUSE_INIT) || (in_op =? CUSE_INIT) then EIO else 0.

Definition fuse_req_check_allow_root (deny_others : bool) (owner in_op in_uid : Z) : Z :=
  if deny_others && negb (in_uid =? owner) && negb (in_uid =? 0) &&
     negb (in_op =? FUSE_INIT) && negb (in_op =? FUSE_READ) &&
     negb (in_op =? FUSE_WRITE) && negb (in_op =? FUSE_FSYNC) &&
     negb (in_op =? FUSE_RELEASE) && negb (in_op =? FUSE_READDIR) &&
     negb (in_op =? FUSE_FSYNCDIR) && negb (in_op =? FUSE_RELEASEDIR) &&
     negb (in_op =? FUSE_NOTIFY_REPLY) && negb (in_op =? FUSE_READDIRPLUS)
  then EACCES else 0.

Section session.
Context {P : Platform} {S : Server}.

(** ** The dispatch table *)

(** A table entry holds a function, or the marker [(void * ) 1]. *)
Inductive ll_func :=
| Func (f : Z -> Z -> bytes -> M unit)
| Marker.

Definition cuse_lowlevel_init (r nodeid : Z) (inarg : bytes) : M unit := reply_err r ENOSYS.

Definition fuse_ll_table : list (fuse_opcode * ll_func * String.string) :=
  [ (FUSE_LOOKUP, Func do_lookup, "LOOKUP"%string);
    (FUSE_FORGET, Func do_forget, "FORGET"%string);
    (FUSE_GETATTR, Func do_getattr, "GETATTR"%string);
    (FUSE_SETATTR, Func do_setattr, "SETATTR"%string);
    (FUSE_READLINK, Func do_readlink, "READLINK"%string);
    (FUSE_SYMLINK, Func do_symlink, "SYMLINK"%string);
    (FUSE_MKNOD, Func do_mknod, "MKNOD"%string);
    (FUSE_MKDIR, Func do_mkdir, "MKDIR"%string);
    (FUSE_UNLINK, Func do_unlink, "UNLINK"%string);
    (FUSE_RMDIR, Func do_rmdir, "RMDIR"%string);
    (FUSE_RENAME, Func do_rename, "RENAME"%string);
    (FUSE_LINK, Func do_link, "LINK"%string);
    (FUSE_OPEN, Func do_open, "OPEN"%string);
    (FUSE_READ, Func do_read, "READ"%string);
    (FUSE_WRITE, Func do_write, "WRITE"%string);
    (FUSE_STATFS, Func do_statfs, "STATFS"%string);
    (FUSE_RELEASE, Func do_release, "RELEASE"%string);
    (FUSE_FSYNC, Func do_fsync, "FSYNC"%string);
    (FUSE_SETXATTR, Func do_setxattr, "SETXATTR"%string);
    (FUSE_GETXATTR, Func do_getxattr, "GETXATTR"%string);
    (FUSE_LISTXATTR, Func do_listxattr, "LISTXATTR"%string);
    (FUSE_REMOVEXATTR, Func do_removexattr, "REMOVEXATTR"%string);
    (FUSE_FLUSH, Func do_flush, "FLUSH"%string);
    (FUSE_INIT, Func do_init, "INIT"%string);
    (FUSE_OPENDIR, Func do_opendir, "OPENDIR"%string);
    (FUSE_READDIR, Func do_readdir, "READDIR"%string);
    (FUSE_RELEASEDIR, Func do_releasedir, "RELEASEDIR"%string);
    (FUSE_FSYNCDIR, Func do_fsyncdir, "FSYNCDIR"%string);
    (FUSE_GETLK, Func do_getlk, "GETLK"%string);
    (FUSE_SETLK, Func do_setlk, "SETLK"%string);
    (FUSE_SETLKW, Func do_setlkw, "SETLKW"%string);
    (FUSE_ACCESS, Func do_access, "ACCESS"%string);
    (FUSE_CREATE, Func do_create, "CREATE"%string);
    (FUSE_TMPFILE, Func do_tmpfile, "TMPFILE"%string);
    (FUSE_INTERRUPT, Func do_interrupt, "INTERRUPT"%string);
    (FUSE_BMAP, Func do_bmap, "BMAP"%string);
    (FUSE_IOCTL, Func do_ioctl, "IOCTL"%string);
    (FUSE_POLL, Func do_poll, "POLL"%string);
    (FUSE_FALLOCATE, Func do_fallocate, "FALLOCATE"%string);
    (FUSE_DESTROY, Func do_destroy, "DESTROY"%string);
    (FUSE_NOTIFY_REPLY, Marker, "NOTIFY_REPLY"%string);
    (FUSE_BATCH_FORGET, Func do_batch_forget, "BATCH_FORGET"%string);
    (FUSE_READDIRPLUS, Func do_readdirplus, "READDIRPLUS"%string);
    (FUSE_RENAME2, Func do_rename2, "RENAME2"%string);
    (FUSE_COPY_FILE_RANGE, Func do_copy_file_range, "COPY_FILE_RANGE"%string);
    (FUSE_COPY_FILE_RANGE_64, Func do_copy_file_range_64, "COPY_FILE_RANGE_64"%string);
    (FUSE_LSEEK, Func do_lseek, "LSEEK"%string);
    (FUSE_STATX, Func do_statx, "STATX"%string);
    (CUSE_INIT, Func cuse_lowlevel_init, "CUSE_INIT"%string) ].

(** [fuse_ll_ops[op]], for an index below [FUSE_MAXOP]. *)
Definition fuse_ll_ops (op : Z) : option (ll_func * String.string) :=
  (fun '(_, f, n) => (f, n)) <$>
    List.find (fun '(o, _, _) => opcode_val o =? op) fuse_ll_table.

Definition opname (opcode : Z) : String.string :=
  if FUSE_MAXOP <=? opcode then "???"%string
  else match fuse_ll_ops opcode with Some (_, n) => n | None => "???"%string end.

(** ** Processing a request *)

Definition fuse_session_in2req (r : Z) (inh : fuse_in_header) : M unit :=
  mod_req r (fun q =>
    rq_set_ctx {| ctx_uid := in_header_uid inh; ctx_gid := in_header_gid inh;
                  ctx_pid := in_header_pid inh; ctx_umask := ctx_umask (rq_ctx q) |}
      (rq_set_unique (in_header_unique inh) q)).

Definition mem_buf (a size : Z) : fuse_buf :=
  {| buf_size := size; buf_flags := 0; buf_mem := Some (a, 0); buf_fd := -1; buf_pos := 0;
     buf_mem_size := 0 |}.

(** Returns the advanced source as well. *)
Definition fuse_ll_copy_from_pipe (dst src : fuse_bufvec) : M (Z * fuse_bufvec) :=
  '(res, dst, src) ← fuse_buf_copy dst src 0;
  if res <? 0 then mret (res, src)
  else
    size ← of_option OutOfBounds (fuse_buf_size dst);
    mret (if res <? size then -1 else 0, src).

Definition write_header_size : Z := sizeof fuse_in_header + sizeof fuse_write_in.

(** [free(mbuf)] *)
Definition free_mbuf (mbuf : option Z) : M unit :=
  match mbuf with Some a => free_mem a | None => mret tt end.

(** The header of the request: in the buffer, or copied from a pipe to new
    memory; [None] when that fails. *)
Definition fetch_header (buf : fuse_buf) : M (option (ptr * option Z * fuse_bufvec)) :=
  if flag (buf_flags buf) FUSE_BUF_IS_FD then
    let size := if buf_size buf <? write_header_size then buf_size buf else write_header_size in
    mbuf ← memalign size;
    match mbuf with
    | None => mret None
    | Some a =>
        '(res, bufv) ← fuse_ll_copy_from_pipe (bv_one (mem_buf a size)) (bv_one buf);
        if res <? 0 then free_mem a;; mret None
        else mret (Some ((a, 0), Some a, bufv))
    end
  else
    p ← of_option BadPointer (buf_mem buf);
    mret (Some (p, None, bv_one buf)).

(** [realloc(mbuf, size)] and the rest of the request from the pipe. *)
Definition fetch_rest (a size : Z) (bufv : fuse_bufvec) : M (Z + Z) :=
  old ← view (a, 0);
  newmbuf ← memalign size;
  match newmbuf with
  | None => free_mem a;; mret (inl ENOMEM)
  | Some b =>
      store_mem (b, 0) old;;
      free_mem a;;
      let tmp := {| buf_size := size - write_header_size; buf_flags := 0;
                    buf_mem := Some (b, write_header_size); buf_fd := -1; buf_pos := 0;
                    buf_mem_size := 0 |} in
      '(res, _) ← fuse_ll_copy_from_pipe (bv_one tmp) bufv;
      if res <? 0 then free_mem b;; mret (inl (- res)) else mret (inr b)
  end.

(** The interrupt check of a new request, which also enters it in the list of
    requests in progress. *)
Definition start_req (r : Z) : M unit :=
  lock_se;;
  intr ← check_interrupt r;
  list_add_req r SE_LIST;;
  unlock_se;;
  match intr with Some i => reply_err i EAGAIN | None => mret tt end.

Definition call_handler (opcode r nodeid : Z) (inarg : ptr) (buf : fuse_buf) : M unit :=
  match op_write_buf se_op, opcode =? FUSE_WRITE with
  | Some f, true => do_write_buf f r nodeid inarg buf
  | _, _ =>
      if opcode =? FUSE_NOTIFY_REPLY then do_notify_reply r nodeid inarg buf
      else
        inmem ← view inarg;
        match fuse_ll_ops opcode with
        | Some (Func h, _) => h r nodeid inmem
        | _ => fault_ BadPointer
        end
  end.

(** The reason to reject a request, [0] when it is processed. *)
Definition reject_code (se : fuse_session) (inh : fuse_in_header) : Z :=
  let op := in_header_opcode inh in
  let err := fuse_req_opcode_sanity_ok (se_got_init se) (se_cuse_data se) op in
  if truth err then err
  else
    let err := fuse_req_check_allow_root (se_deny_others se) (se_owner se) op (in_header_uid inh) in
    if truth err then err
    else if (FUSE_MAXOP <=? op) || negb (is_set (fuse_ll_ops op)) then ENOSYS
    else if no_interrupt (se_conn se) && (op =? FUSE_INTERRUPT) then ENOSYS
    else 0.

Definition reject (inh : fuse_in_header) : M Z := se ← get_se; mret (reject_code se inh).

Definition fuse_session_process_buf_internal (buf : fuse_buf) (ch : option Z) : M unit :=
  hdr ← fetch_header buf;
  match hdr with
  | None => fuse_ll_clear_pipe
  | Some (inp, mbuf, bufv) =>
      inmem ← view inp;
      inh ← arg_of fuse_in_header inmem;
      req ← fuse_ll_alloc_req;
      match req with
      | None =>
          fuse_send_msg ch {| out_header_len := 0; out_header_error := - ENOMEM;
                              out_header_unique := in_header_unique inh |} [] None;;
          fuse_ll_clear_pipe;;
          free_mbuf mbuf
      | Some r =>
          fuse_session_in2req r inh;;
          c ← fuse_chan_get ch;
          mod_req r (rq_set_ch c);;
          mod_req r (rq_set_ukfs_req ch);;
          err ← reject inh;
          if truth err then reply_err r err;; fuse_ll_clear_pipe;; free_mbuf mbuf
          else
            let op := in_header_opcode inh in
            se ← get_se;
            when (negb (no_interrupt (se_conn se)) && negb (op =? FUSE_INTERRUPT)) (start_req r);;
            let more := (write_header_size <? buf_size buf) &&
                        (negb (op =? FUSE_WRITE) || negb (is_set (op_write_buf se_op))) &&
                        negb (op =? FUSE_NOTIFY_REPLY) in
            rest ← match mbuf with
                   | Some a => if more then fetch_rest a (buf_size buf) bufv else mret (inr a)
                   | None => mret (inr 0)
                   end;
            match rest with
            | inl err => reply_err r err;; fuse_ll_clear_pipe
            | inr b =>
                let inp := match mbuf with Some _ => (b, 0) | None => inp end in
                call_handler op r (in_header_nodeid inh) (ptr_add inp (sizeof fuse_in_header)) buf;;
                free_mbuf (match mbuf with Some _ => Some b | None => None end)
            end
      end
  end.

Definition fuse_session_process_buf (buf : fuse_buf) : M unit :=
  fuse_session_process_buf_internal buf None.

(** ** Sessions *)

(** [fuse_session_new_versioned]: the session becomes the one of the world.
    The operation table the caller passes is the server's. *)
Definition session_zero : fuse_session := {|
  se_fd := 0; se_io := None; se_debug := false; se_deny_others := false;
  se_got_init := false; se_cuse_data := false; se_owner := 0; se_conn := conn_zero;
  se_lock := uk_mutex_init; se_got_destroy := false; se_notify_ctr := 0; se_bufsize := 0;
  se_error := 0; se_mt_exited := false; se_mt_finish := None; se_buf_reallocable := false;
  se_uring_enable := false; se_uring_q_depth := 0; se_conn_want := 0; se_conn_want_ext := 0;
  se_mountpoint := None |}.

Definition fuse_session_new_versioned (has_op : bool) (op_size : Z) : M bool :=
  if negb has_op || (op_size =? 0) then mret false
  else
    p ← alloc;
    match p with
    | None => mret false
    | Some _ =>
        modify (fun w => w_set_nreqs (<[SE_NOTIFY := Build_fuse_notify_req 0 0 0 0]> (w_nreqs w))
                  (w_set_reqs (<[SE_LIST := req_zero]> (<[SE_INTERRUPTS := req_zero]> (w_reqs w)))
                    (w_set_se session_zero w)));;
        mod_se (se_set_got_init true);;
        mod_conn (conn_set_proto_major 7);;
        mod_conn (conn_set_proto_minor 31);;
        mod_conn (conn_set_max_read 131072);;
        mod_conn (conn_set_max_write 131072);;
        list_init_req SE_LIST;;
        list_init_req SE_INTERRUPTS;;
        list_init_nreq SE_NOTIFY;;
        mod_se (se_set_notify_ctr 1);;
        mod_se (se_set_lock uk_mutex_init);;
        mret true
    end.

(** Without operations the session gets an empty table. *)
Definition sizeof_lowlevel_ops : Z := 8 * 46.
Definition fuse_session_new_30 (has_op : bool) (op_size : Z) : M bool :=
  fuse_session_new_versioned true (if has_op then op_size else sizeof_lowlevel_ops).

Definition fuse_session_mount : M Z := modify (w_set_registered true);; mret 0.

Definition fuse_session_get_registered : M bool := gets w_registered.

(** The caller blocks on a semaphore nobody posts. *)
Definition fuse_session_loop : M Z :=
  match uk_semaphore_down (uk_semaphore_init 0) with
  | Some _ => mret 0
  | None => fault_ Deadlock
  end.

Definition fuse_session_fd : M Z := gets (fun w => se_fd (w_se w)).

Definition fuse_session_unmount : M unit :=
  se ← get_se;
  match se_mountpoint se with
  | Some _ => mod_se (se_set_mountpoint None);; mod_se (se_set_fd (-1))
  | None => mret tt
  end.

(** The session's memory goes away; the registration does not notice. *)
Definition fuse_session_destroy : M unit :=
  se ← get_se;
  when (se_got_init se && negb (se_got_destroy se))
    (match op_destroy se_op with Some f => f | None => mret tt end);;
  se ← get_se;
  when (negb (se_fd se =? -1)) (emit (Ev_close (se_fd se)));;
  modify (fun w => w_set_reqs (delete SE_LIST (delete SE_INTERRUPTS (w_reqs w)))
                     (w_set_nreqs (delete SE_NOTIFY (w_nreqs w)) w)).

(** [io] is the caller's table, whose members may be [NULL]; [op_size], which is
    at most its size, covers both functions. *)
Definition fuse_session_custom_io_317
    (io : option (option (nat -> Z -> bytes -> Z) * option (iostate -> Z -> Z -> (Z + bytes) * iostate)))
    (fd : Z) : M Z :=
  if fd <? 0 then mret (- EBADF)
  else match io with
       | Some (Some wv, Some rd) =>
           p ← alloc;
           match p with
           | None => mret (- ENOMEM)
           | Some _ =>
               mod_se (se_set_fd fd);;
               mod_se (se_set_io (Some {| io_writev := wv; io_read := rd |}));;
               mret 0
           end
       | _ => mret (- EINVAL)
       end.

Definition fuse_session_custom_io_30 :=
  fuse_session_custom_io_317.
End session.

(** ** Specification of the dispatch *)

Section session_spec.
Context {P : Platform} {PS : PlatformSpec P} {S : Server}.
Implicit Types (w : world) (h : fuse_in_header) (l il : list Z).

(** Memory from a pointer to the start of an object, and behind its prefix. *)
Lemma view_start_run b mem w : w_mem w !! b = Some mem -> view (b, 0) w = Ok mem w.
Proof.
  intros H. unfold view. cbn. rewrite H.
  by rewrite (proj2 (Z.leb_le 0 (blen mem))) by (unfold blen; lia).
Qed.

Lemma view_behind_run b pre rest w :
  w_mem w !! b = Some (pre ++ rest) -> view (ptr_add (b, 0) (blen pre)) w = Ok rest w.
Proof.
  intros H. unfold view, ptr_add. cbn. rewrite H. unfold blen.
  rewrite (proj2 (Z.leb_le 0 _)) by lia.
  rewrite (proj2 (Z.leb_le _ _)) by (rewrite length_app; lia). cbn.
  by rewrite Z.add_0_l, Nat2Z.id, drop_app_length.
Qed.

Lemma arg_of_enc {A} `{WireOk A} (a : A) rest w :
  wire_wf a -> arg_of A (enc a ++ rest) w = Ok a w.
Proof. intros Hwf. unfold arg_of. apply of_option_run. by apply dec_enc. Qed.

(** The buffer with a request of the daemon or the device. *)
Definition req_buf (b size : Z) : fuse_buf :=
  {| buf_size := size; buf_flags := 0; buf_mem := Some (b, 0); buf_fd := 0; buf_pos := 0;
     buf_mem_size := 0 |}.

(** The request object before dispatch. *)
Definition received (r : Z) h (ch : option Z) : fuse_req :=
  Build_fuse_req P (in_header_unique h) 1 uk_mutex_init ch
    {| ctx_uid := in_header_uid h; ctx_gid := in_header_gid h; ctx_pid := in_header_pid h;
       ctx_umask := 0 |} ch false false false false 0 0 r r.

(** The world with the new request. *)
Definition with_req h (ch : option Z) w : world :=
  w_set_reqs (<[w_next w := received (w_next w) h ch]> (w_reqs w))
    (w_set_next (w_next w + 1) (w_set_nalloc (Datatypes.S (w_nalloc w)) w)).

(** Nobody uses the session, nothing lives at the next address. *)
Record sess_ok w l il : Prop := {
  so_lock : mutex_held (se_lock (w_se w)) = false;
  so_lists : lists_ok (w_reqs w) l il;
  so_fresh : forall x, is_Some (w_reqs w !! x) -> x < w_next w }.

Lemma sess_ok_fresh w l il :
  sess_ok w l il -> w_next w ∉ SE_LIST :: l /\ w_next w ∉ SE_INTERRUPTS :: il.
Proof.
  intros [_ [H1 H2 _] Hf]. split; intros Hin.
  - pose proof (Hf _ (dll_dom _ _ _ _ H1 Hin)). lia.
  - pose proof (Hf _ (dll_dom _ _ _ _ H2 Hin)). lia.
Qed.

Lemma with_req_live h ch w l il :
  sess_ok w l il -> live (with_req h ch w) (w_next w) l il.
Proof.
  intros Hs. destruct (sess_ok_fresh _ _ _ Hs) as [Hf1 Hf2]. destruct Hs as [H1 H2 H3].
  constructor; cbn; [done| | |].
  - by apply lists_ok_insert_fresh.
  - eexists. rewrite lookup_insert_eq. done.
  - right. split_and!; [done|done|]. by apply self_linked.
Qed.

(** The start of processing: up to the decision whether to reject. *)
Definition decided h (ch : option Z) (buf : fuse_buf) (b : Z) w : M unit :=
  let r := w_next w in
  err ← reject h;
  if truth err then reply_err r err;; fuse_ll_clear_pipe;; free_mbuf None
  else
    let op := in_header_opcode h in
    se ← get_se;
    when (negb (no_interrupt (se_conn se)) && negb (op =? FUSE_INTERRUPT)) (start_req r);;
    call_handler op r (in_header_nodeid h) (ptr_add (b, 0) (sizeof fuse_in_header)) buf;;
    free_mbuf None.

Lemma process_start w b size h payload ch :
  w_mem w !! b = Some (enc h ++ payload) -> wire_wf h -> alloc_ok (w_nalloc w) = true ->
  fuse_session_process_buf_internal (req_buf b size) ch w =
  decided h ch (req_buf b size) b w (with_req h ch w).
Proof.
  intros Hb Hwf Ha. unfold fuse_session_process_buf_internal.
  mstep by done. mstep by (by apply view_start_run). mstep by (by apply arg_of_enc).
  mstep by (by apply fuse_ll_alloc_req_run).
  mstep by (apply mod_req_run, lookup_insert_eq). mstep by done.
  mstep by (apply mod_req_run, lookup_insert_eq).
  mstep by (apply mod_req_run, lookup_insert_eq).
  unfold decided, with_req. cbn. rewrite !insert_insert_eq.
  unfold mbind, M_bind. done.
Qed.

(** Without memory for the request object the peer gets a message on the
    device; a UKFS client is not answered. *)
Lemma process_nomem w b size h payload ch :
  w_mem w !! b = Some (enc h ++ payload) -> wire_wf h -> alloc_ok (w_nalloc w) = false ->
  let w1 := w_set_nalloc (Datatypes.S (w_nalloc w)) w in
  fuse_session_process_buf_internal (req_buf b size) ch w =
  Ok tt (sent (dev_fd ch w1) (reply_msg (in_header_unique h) (- ENOMEM) []) w1).
Proof.
  intros Hb Hwf Ha w1. unfold fuse_session_process_buf_internal.
  mstep by done. mstep by (by apply view_start_run). mstep by (by apply arg_of_enc).
  mstep by (by apply fuse_ll_alloc_req_fail). unfold fuse_send_msg.
  mstep by (apply fuse_write_msg_dev_run). mstep by done. done.
Qed.

(** A rejected request is answered with the error and gone. *)
Lemma process_reject w b size h payload u k l il :
  w_mem w !! b = Some (enc h ++ payload) -> wire_wf h -> alloc_ok (w_nalloc w) = true ->
  sess_ok w l il -> w_uks w !! u = Some k -> reject_code (w_se w) h <> 0 ->
  exists hp, fuse_session_process_buf_internal (req_buf b size) (Some u) w =
    Ok tt (w_set_reqs hp (finish u (- reject_code (w_se w) h) None 0 (with_req h (Some u) w))) /\
    lists_ok hp l il /\ contents hp = delete (w_next w) (contents (w_reqs w)).
Proof.
  intros Hb Hwf Ha Hs Hu Hrej. rewrite (process_start _ _ _ h payload) by done.
  unfold decided. mstep by done.
  change (w_se (with_req h (Some u) w)) with (w_se w).
  unfold truth. rewrite (proj2 (Z.eqb_neq _ _) Hrej). cbn [negb].
  destruct (fuse_reply_err_run (with_req h (Some u) w) (w_next w) l il
    (received (w_next w) h (Some u)) u k (reject_code (w_se w) h)) as (hp & E & Hf1 & Hf2);
    [by apply with_req_live|apply lookup_insert_eq|done|done|].
  exists hp. unfold reply_err. rewrite bind_assoc. mstep by (apply E). mstep by done.
  mstep by done. split; [done|].
  rewrite drop_elem_notin in Hf1 by (destruct (sess_ok_fresh _ _ _ Hs); set_solver).
  split; [done|]. rewrite Hf2. unfold with_req. cbn [w_reqs w_set_reqs]. by rewrite contents_insert, delete_insert_eq.
Qed.

(** The requests in progress when the handler runs. *)
Definition in_progress w l : list Z := if no_interrupt (se_conn (w_se w)) then l else l ++ [w_next w].

(** An accepted request reaches its handler, entered in the list of requests
    in progress, with the memory behind its header. *)
Lemma process_accept w b size h payload u l f n :
  w_mem w !! b = Some (enc h ++ payload) -> wire_wf h -> alloc_ok (w_nalloc w) = true ->
  sess_ok w l [] -> reject_code (w_se w) h = 0 ->
  fuse_ll_ops (in_header_opcode h) = Some (Func f, n) ->
  in_header_opcode h <> FUSE_INTERRUPT -> in_header_opcode h <> FUSE_NOTIFY_REPLY ->
  in_header_opcode h <> FUSE_WRITE \/ op_write_buf se_op = None ->
  exists hp q,
    fuse_session_process_buf_internal (req_buf b size) (Some u) w =
    (f (w_next w) (in_header_nodeid h) payload;; mret tt)
      (w_set_reqs hp (with_req h (Some u) w)) /\
    live (w_set_reqs hp (with_req h (Some u) w)) (w_next w) (in_progress w l) [] /\
    hp !! w_next w = Some q /\ strip q = strip (received (w_next w) h (Some u)) /\
    contents hp = <[w_next w := strip q]> (contents (w_reqs w)).
Proof.
  intros Hb Hwf Ha Hs Hrej Hf Hi1 Hi2 Hi3. rewrite (process_start _ _ _ h payload) by done.
  pose proof (with_req_live h (Some u) w l [] Hs) as Hlive.
  destruct (sess_ok_fresh _ _ _ Hs) as [Hfr1 Hfr2].
  set (w1 := with_req h (Some u) w) in *. set (r := w_next w) in *.
  assert (w_reqs w1 !! r = Some (received r h (Some u))) as Hr by apply lookup_insert_eq.
  assert (forall hp, call_handler (in_header_opcode h) r (in_header_nodeid h)
            (ptr_add (b, 0) (sizeof fuse_in_header)) (req_buf b size) (w_set_reqs hp w1) =
          f r (in_header_nodeid h) payload (w_set_reqs hp w1)) as Hcall.
  { intros hp. unfold call_handler. rewrite (proj2 (Z.eqb_neq _ FUSE_NOTIFY_REPLY)) by done. rewrite Hf.
    rewrite <- (blen_enc h). destruct Hi3 as [Hi3| ->]; [rewrite (proj2 (Z.eqb_neq _ FUSE_WRITE)) by done|].
    - destruct (op_write_buf se_op); by (mstep by (by apply view_behind_run)).
    - by mstep by (by apply view_behind_run). }
  unfold decided. mstep by done. change (w_se w1) with (w_se w). rewrite Hrej.
  cbn [truth negb Z.eqb]. mstep by done. change (w_se w1) with (w_se w).
  rewrite (proj2 (Z.eqb_neq _ FUSE_INTERRUPT)) by done. unfold in_progress. fold r.
  destruct (no_interrupt (se_conn (w_se w))) eqn:Hni; cbn [negb andb when].
  - exists (w_reqs w1), (received r h (Some u)). rewrite w_set_reqs_id. split_and!; try done.
    + mstep by done. rewrite <- (w_set_reqs_id w1) at 1. unfold mbind, M_bind. by rewrite Hcall, w_set_reqs_id.
    + unfold w1, with_req. cbn [w_reqs w_set_reqs]. by rewrite contents_insert.
  - destruct (mutex_lock_free _ (so_lock _ _ _ Hs)) as (m & Hm & _ & Hum).
    assert (is_Some (w_reqs w1 !! r)) as Hsome by eauto.
    destruct (lists_ok_add _ _ _ r (lv_lists _ _ _ _ Hlive) Hsome Hfr1 Hfr2) as (hp & E & Hl & Hc).
    destruct (contents_lookup _ hp r _ Hc Hr) as (q & Hq & Hst).
    exists hp, q. split_and!; try done.
    + unfold start_req. erewrite bind_run.
      2:{ mstep by (by apply lock_se_run).
          mstep by (by eapply check_interrupt_none; [apply (lv_lists _ _ _ _ Hlive)|]).
          mstep by (by apply on_reqs_run). mstep by done. done. }
      cbv beta. cbn [w_se w_set_se w_set_reqs w_reqs]. rewrite se_set_lock_lock, se_set_lock_twice.
      change (w_se w1) with (w_se w). rewrite Hum, se_set_lock_id.
      rewrite (critical_section w1). unfold mbind, M_bind. by rewrite Hcall.
    + constructor; [apply Hs|done| |left; split; [set_solver|done]].
      exists q. split; [done|]. split.
      * by rewrite (strip_uring _ _ Hst).
      * by rewrite (strip_ref_cnt _ _ Hst).
    + rewrite Hc, Hst. unfold w1, with_req. cbn [w_reqs w_set_reqs]. by rewrite contents_insert.
Qed.
End session_spec.
