(* ===== verification/Calls.v ===== *)
(** * File system calls

    What the peer of the library asks for, independently of how the handlers are
    written: a [kcall] is an operation with its arguments, [call_message] how the
    FUSE protocol (from minor version 12 on) writes it, and [server_call] the
    operation of the server it means, with the arguments as the server's author
    knows them: names as strings, signed numbers, locks as [struct flock].
    [CallsProps] proves that the handlers of [Handlers] connect the two. *)

From S2P Require Import Prelude Wire Platform KernelAbi World Monad Buffer Request Reply.
From S2P Require Import Server Handlers.

(** ** Calls *)

Inductive kcall :=
| K_lookup (name : bytes)
| K_forget (nlookup : Z)
| K_forget_multi (forgets : list fuse_forget_one)
| K_getattr (fh : option Z)
| K_setattr (to_set : Z) (fh : option Z) (mode uid gid size : Z)
    (atime atime_nsec mtime mtime_nsec ctime ctime_nsec : Z)
| K_readlink
| K_symlink (name target : bytes)
| K_mknod (name : bytes) (mode rdev umask : Z)
| K_mkdir (name : bytes) (mode umask : Z)
| K_unlink (name : bytes)
| K_rmdir (name : bytes)
| K_rename (name : bytes) (newdir : Z) (newname : bytes)
| K_rename2 (name : bytes) (newdir : Z) (newname : bytes) (flags : Z)
| K_link (oldnode : Z) (name : bytes)
| K_open (flags : Z)
| K_read (fh off size flags owner : Z)
| K_write (fh off : Z) (data : bytes) (flags owner : Z) (cached : bool)
| K_statfs
| K_release (fh flags owner : Z) (flush unlock : bool)
| K_fsync (fh : Z) (datasync : bool)
| K_setxattr (name value : bytes) (flags : Z)
| K_getxattr (name : bytes) (size : Z)
| K_listxattr (size : Z)
| K_removexattr (name : bytes)
| K_flush (fh owner : Z)
| K_opendir (flags : Z)
| K_readdir (fh off size : Z)
| K_readdirplus (fh off size : Z)
| K_releasedir (fh flags : Z)
| K_fsyncdir (fh : Z) (datasync : bool)
| K_getlk (fh owner : Z) (lk : flock)
| K_setlk (fh owner : Z) (lk : flock) (sleep : bool)
| K_flock (fh owner type : Z) (sleep : bool)
| K_access (mask : Z)
| K_create (name : bytes) (mode flags umask : Z)
| K_tmpfile (mode flags umask : Z)
| K_bmap (blocksize block : Z)
| K_ioctl (fh flags cmd arg : Z) (data : bytes) (out_size : Z)
| K_poll (fh events : Z)
| K_fallocate (fh off len mode : Z)
| K_lseek (fh off whence : Z)
| K_copy_file_range (fh_in off_in node_out fh_out off_out len flags : Z).

Definition kernel_op (c : kcall) : fuse_opcode :=
  match c with
  | K_lookup _ => FUSE_LOOKUP | K_forget _ => FUSE_FORGET | K_forget_multi _ => FUSE_BATCH_FORGET
  | K_getattr _ => FUSE_GETATTR | K_setattr _ _ _ _ _ _ _ _ _ _ _ _ => FUSE_SETATTR
  | K_readlink => FUSE_READLINK | K_symlink _ _ => FUSE_SYMLINK | K_mknod _ _ _ _ => FUSE_MKNOD
  | K_mkdir _ _ _ => FUSE_MKDIR | K_unlink _ => FUSE_UNLINK | K_rmdir _ => FUSE_RMDIR
  | K_rename _ _ _ => FUSE_RENAME | K_rename2 _ _ _ _ => FUSE_RENAME2 | K_link _ _ => FUSE_LINK
  | K_open _ => FUSE_OPEN | K_read _ _ _ _ _ => FUSE_READ | K_write _ _ _ _ _ _ => FUSE_WRITE
  | K_statfs => FUSE_STATFS | K_release _ _ _ _ _ => FUSE_RELEASE | K_fsync _ _ => FUSE_FSYNC
  | K_setxattr _ _ _ => FUSE_SETXATTR | K_getxattr _ _ => FUSE_GETXATTR
  | K_listxattr _ => FUSE_LISTXATTR | K_removexattr _ => FUSE_REMOVEXATTR
  | K_flush _ _ => FUSE_FLUSH | K_opendir _ => FUSE_OPENDIR | K_readdir _ _ _ => FUSE_READDIR
  | K_readdirplus _ _ _ => FUSE_READDIRPLUS | K_releasedir _ _ => FUSE_RELEASEDIR
  | K_fsyncdir _ _ => FUSE_FSYNCDIR | K_getlk _ _ _ => FUSE_GETLK
  | K_setlk _ _ _ sleep | K_flock _ _ _ sleep => if sleep then FUSE_SETLKW else FUSE_SETLK
  | K_access _ => FUSE_ACCESS | K_create _ _ _ _ => FUSE_CREATE | K_tmpfile _ _ _ => FUSE_TMPFILE
  | K_bmap _ _ => FUSE_BMAP | K_ioctl _ _ _ _ _ _ => FUSE_IOCTL | K_poll _ _ => FUSE_POLL
  | K_fallocate _ _ _ _ => FUSE_FALLOCATE | K_lseek _ _ _ => FUSE_LSEEK
  | K_copy_file_range _ _ _ _ _ _ _ => FUSE_COPY_FILE_RANGE
  end.

(** ** The protocol *)

(** A string in a message, and what follows it. *)
Definition zstr (s rest : bytes) : bytes := s ++ 0 :: rest.

Definition bit_if (b : bool) (m : Z) : Z := if b then m else 0.
Definition opt_bit (x : option Z) (m : Z) : Z := match x with Some _ => m | None => 0 end.
Definition or_zero (x : option Z) : Z := match x with Some v => v | None => 0 end.

(** The protocol names the last byte of a range; a length of zero reaches to the
    end of the file. *)
Definition lock_range (lk : flock) : fuse_file_lock := {|
  file_lock_start := l_start lk;
  file_lock_end := if l_len lk =? 0 then OFFSET_MAX else l_start lk + l_len lk - 1;
  file_lock_type := l_type lk;
  file_lock_pid := 0 |}.

Definition lk_message (fh owner : Z) (lk : fuse_file_lock) (flags : Z) : bytes :=
  enc (Build_fuse_lk_in fh owner lk flags 0).

(** The fixed part of a SETXATTR: a session that has not negotiated
    [FUSE_CAP_SETXATTR_EXT] gets its first eight bytes. *)
Definition setxattr_message (ext : bool) (size flags : Z) : bytes :=
  let m := enc (Build_fuse_setxattr_in size flags 0 0) in
  if ext then m else take (Z.to_nat FUSE_COMPAT_SETXATTR_IN_SIZE) m.

(** The message of a call behind its header, followed by [rest]. *)
Definition call_message (ext : bool) (c : kcall) (rest : bytes) : bytes :=
  match c with
  | K_lookup name | K_unlink name | K_rmdir name | K_removexattr name => zstr name rest
  | K_forget n => enc (Build_fuse_forget_in n) ++ rest
  | K_forget_multi fs =>
      enc (Build_fuse_batch_forget_in (Z.of_nat (length fs)) 0) ++ concat (map enc fs) ++ rest
  | K_getattr fh => enc (Build_fuse_getattr_in (opt_bit fh FUSE_GETATTR_FH) 0 (or_zero fh)) ++ rest
  | K_setattr to_set fh mode uid gid size atime an mtime mn ctime cn =>
      enc (Build_fuse_setattr_in (Z.lor to_set (opt_bit fh FATTR_FH)) 0 (or_zero fh) (u64 size) 0
             (u64 atime) (u64 mtime) (u64 ctime) an mn cn mode 0 uid gid 0) ++ rest
  | K_readlink | K_statfs => rest
  | K_symlink name target => zstr name (zstr target rest)
  | K_mknod name mode rdev umask => enc (Build_fuse_mknod_in mode rdev umask 0) ++ zstr name rest
  | K_mkdir name mode umask => enc (Build_fuse_mkdir_in mode umask) ++ zstr name rest
  | K_rename name dir new => enc (Build_fuse_rename_in dir) ++ zstr name (zstr new rest)
  | K_rename2 name dir new flags =>
      enc (Build_fuse_rename2_in dir flags 0) ++ zstr name (zstr new rest)
  | K_link node name => enc (Build_fuse_link_in node) ++ zstr name rest
  | K_open flags | K_opendir flags => enc (Build_fuse_open_in (u32 flags) 0) ++ rest
  | K_read fh off size flags owner =>
      enc (Build_fuse_read_in fh (u64 off) size 0 owner (u32 flags) 0) ++ rest
  | K_write fh off data flags owner cached =>
      enc (Build_fuse_write_in fh (u64 off) (blen data) (bit_if cached FUSE_WRITE_CACHE) owner (u32 flags) 0) ++
      data ++ rest
  | K_release fh flags owner flush unlock =>
      enc (Build_fuse_release_in fh (u32 flags)
             (Z.lor (bit_if flush FUSE_RELEASE_FLUSH) (bit_if unlock FUSE_RELEASE_FLOCK_UNLOCK)) owner) ++ rest
  | K_releasedir fh flags => enc (Build_fuse_release_in fh (u32 flags) 0 0) ++ rest
  | K_fsync fh data | K_fsyncdir fh data => enc (Build_fuse_fsync_in fh (bit_if data 1) 0) ++ rest
  | K_setxattr name value flags =>
      setxattr_message ext (blen value) (u32 flags) ++ zstr name (value ++ rest)
  | K_getxattr name size => enc (Build_fuse_getxattr_in size 0) ++ zstr name rest
  | K_listxattr size => enc (Build_fuse_getxattr_in size 0) ++ rest
  | K_flush fh owner => enc (Build_fuse_flush_in fh 0 0 owner) ++ rest
  | K_readdir fh off size | K_readdirplus fh off size =>
      enc (Build_fuse_read_in fh (u64 off) size 0 0 0 0) ++ rest
  | K_getlk fh owner lk | K_setlk fh owner lk _ => lk_message fh owner (lock_range lk) 0 ++ rest
  | K_flock fh owner type _ =>
      lk_message fh owner (Build_fuse_file_lock 0 OFFSET_MAX type 0) FUSE_LK_FLOCK ++ rest
  | K_access mask => enc (Build_fuse_access_in (u32 mask) 0) ++ rest
  | K_create name mode flags umask =>
      enc (Build_fuse_create_in (u32 flags) mode umask 0) ++ zstr name rest
  | K_tmpfile mode flags umask => enc (Build_fuse_create_in (u32 flags) mode umask 0) ++ rest
  | K_bmap blocksize block => enc (Build_fuse_bmap_in block blocksize 0) ++ rest
  | K_ioctl fh flags cmd arg data out_size =>
      enc (Build_fuse_ioctl_in fh flags cmd arg (blen data) out_size) ++ data ++ rest
  | K_poll fh events => enc (Build_fuse_poll_in fh 0 0 events) ++ rest
  | K_fallocate fh off len mode =>
      enc (Build_fuse_fallocate_in fh (u64 off) (u64 len) (u32 mode) 0) ++ rest
  | K_lseek fh off whence => enc (Build_fuse_lseek_in fh (u64 off) (u32 whence) 0) ++ rest
  | K_copy_file_range fh_in off_in node_out fh_out off_out len flags =>
      enc (Build_fuse_copy_file_range_in fh_in (u64 off_in) node_out fh_out (u64 off_out) len (u64 flags)) ++ rest
  end.

(** ** Arguments within the ranges of their types *)

Definition lock_ok (lk : flock) : Prop :=
  is_u 15 (l_type lk) /\ l_whence lk = SEEK_SET /\ 0 <= l_start lk /\ 0 <= l_len lk /\
  l_start lk + l_len lk <= OFFSET_MAX.
Definition fh_ok (fh : option Z) : Prop := match fh with Some v => is_u 64 v | None => True end.

Definition kcall_ok (c : kcall) : Prop :=
  match c with
  | K_lookup name | K_unlink name | K_rmdir name | K_removexattr name => nonul name
  | K_forget n => is_u 64 n
  | K_forget_multi fs => Forall wire_wf fs /\ is_u 32 (Z.of_nat (length fs))
  | K_getattr fh => fh_ok fh
  | K_setattr to_set fh mode uid gid size atime an mtime mn ctime cn =>
      is_u 32 to_set /\ Z.land to_set setattr_mask = to_set /\ fh_ok fh /\ is_u 32 mode /\ is_u 32 uid /\
      is_u 32 gid /\ is_i 64 size /\ is_i 64 atime /\ is_u 32 an /\ is_i 64 mtime /\ is_u 32 mn /\
      is_i 64 ctime /\ is_u 32 cn
  | K_readlink | K_statfs => True
  | K_symlink name target => nonul name /\ nonul target
  | K_mknod name mode rdev umask => nonul name /\ is_u 32 mode /\ is_u 32 rdev /\ is_u 32 umask
  | K_mkdir name mode umask => nonul name /\ is_u 32 mode /\ is_u 32 umask
  | K_rename name dir new => nonul name /\ is_u 64 dir /\ nonul new
  | K_rename2 name dir new flags => nonul name /\ is_u 64 dir /\ nonul new /\ is_u 32 flags
  | K_link node name => is_u 64 node /\ nonul name
  | K_open flags | K_opendir flags => is_i 32 flags
  | K_read fh off size flags owner =>
      is_u 64 fh /\ is_i 64 off /\ is_u 32 size /\ is_i 32 flags /\ is_u 64 owner
  | K_write fh off data flags owner cached =>
      is_u 64 fh /\ is_i 64 off /\ is_u 32 (blen data) /\ is_i 32 flags /\ is_u 64 owner
  | K_release fh flags owner flush unlock => is_u 64 fh /\ is_i 32 flags /\ is_u 64 owner
  | K_releasedir fh flags => is_u 64 fh /\ is_i 32 flags
  | K_fsync fh _ | K_fsyncdir fh _ => is_u 64 fh
  | K_setxattr name value flags => nonul name /\ is_u 32 (blen value) /\ is_i 32 flags
  | K_getxattr name size => nonul name /\ is_u 32 size
  | K_listxattr size => is_u 32 size
  | K_flush fh owner => is_u 64 fh /\ is_u 64 owner
  | K_readdir fh off size | K_readdirplus fh off size => is_u 64 fh /\ is_i 64 off /\ is_u 32 size
  | K_getlk fh owner lk | K_setlk fh owner lk _ => is_u 64 fh /\ is_u 64 owner /\ lock_ok lk
  | K_flock fh owner type _ => is_u 64 fh /\ is_u 64 owner /\ is_u 32 type
  | K_access mask => is_i 32 mask
  | K_create name mode flags umask => nonul name /\ is_u 32 mode /\ is_i 32 flags /\ is_u 32 umask
  | K_tmpfile mode flags umask => is_u 32 mode /\ is_i 32 flags /\ is_u 32 umask
  | K_bmap blocksize block => is_u 32 blocksize /\ is_u 64 block
  | K_ioctl fh flags cmd arg data out_size =>
      is_u 64 fh /\ is_u 32 flags /\ flag flags FUSE_IOCTL_DIR = false /\ is_u 32 cmd /\ is_u 64 arg /\
      is_u 32 (blen data) /\ is_u 32 out_size
  | K_poll fh events => is_u 64 fh /\ is_u 32 events
  | K_fallocate fh off len mode => is_u 64 fh /\ is_i 64 off /\ is_i 64 len /\ is_i 32 mode
  | K_lseek fh off whence => is_u 64 fh /\ is_i 64 off /\ is_i 32 whence
  | K_copy_file_range fh_in off_in node_out fh_out off_out len flags =>
      is_u 64 fh_in /\ is_i 64 off_in /\ is_u 64 node_out /\ is_u 64 fh_out /\ is_i 64 off_out /\
      0 <= len <= COPY_MAX /\ is_i 32 flags
  end.

(** ** What the server is asked *)

(** The [struct fuse_file_info] of a call. *)
Definition file_info (fh flags owner events : Z) (writepage flush unlock : bool) : fuse_file_info := {|
  fi_flags := flags; fi_writepage := writepage; fi_direct_io := false; fi_keep_cache := false;
  fi_flush := flush; fi_nonseekable := false; fi_flock_release := unlock;
  fi_cache_readdir := false; fi_noflush := false; fi_parallel_direct_writes := false;
  fi_fh := fh; fi_lock_owner := owner; fi_poll_events := events; fi_backing_id := 0 |}.

(** An open file, and nothing more. *)
Definition fh_info (fh : Z) : fuse_file_info := file_info fh 0 0 0 false false false.

(** What a server sees of the attributes to set. *)
Definition new_attr (mode uid gid size atime an mtime mn ctime cn : Z) : stat := {|
  st_ino := 0; st_mode := mode; st_nlink := 0; st_uid := uid; st_gid := gid; st_rdev := 0;
  st_size := size; st_blksize := 0; st_blocks := 0; st_atime := atime; st_mtime := mtime;
  st_ctime := ctime; st_atim_nsec := an; st_mtim_nsec := mn; st_ctim_nsec := cn |}.

Section server.
Context {P : Platform} {S : Server}.

(** The operation a call means, on a request and a node; [None] when the server
    does not have it.  [rest] is the memory behind the message: a pointer to
    data is a pointer into the message. *)
Definition server_call (c : kcall) (rest : bytes) : option (Z -> Z -> M unit) :=
  match c with
  | K_lookup name => f ← op_lookup se_op; Some (fun r node => f r node name)
  | K_forget n => f ← op_forget se_op; Some (fun r node => f r node n)
  | K_forget_multi fs =>
      f ← op_forget_multi se_op;
      Some (fun r _ => f r (Z.of_nat (length fs)) (concat (map enc fs) ++ rest))
  | K_getattr fh => f ← op_getattr se_op; Some (fun r node => f r node (fh_info <$> fh))
  | K_setattr to_set fh mode uid gid size atime an mtime mn ctime cn =>
      f ← op_setattr se_op;
      Some (fun r node => f r node (new_attr mode uid gid size atime an mtime mn ctime cn) to_set
                            (fh_info <$> fh))
  | K_readlink => f ← op_readlink se_op; Some (fun r node => f r node)
  | K_symlink name target => f ← op_symlink se_op; Some (fun r node => f r target node name)
  | K_mknod name mode rdev umask =>
      f ← op_mknod se_op; Some (fun r node => set_umask r umask;; f r node name mode rdev)
  | K_mkdir name mode umask =>
      f ← op_mkdir se_op; Some (fun r node => set_umask r umask;; f r node name mode)
  | K_unlink name => f ← op_unlink se_op; Some (fun r node => f r node name)
  | K_rmdir name => f ← op_rmdir se_op; Some (fun r node => f r node name)
  | K_rename name dir new => f ← op_rename se_op; Some (fun r node => f r node name dir new 0)
  | K_rename2 name dir new flags =>
      f ← op_rename se_op; Some (fun r node => f r node name dir new flags)
  | K_link old name => f ← op_link se_op; Some (fun r node => f r old node name)
  | K_open flags =>
      f ← op_open se_op; Some (fun r node => f r node (file_info 0 flags 0 0 false false false))
  | K_read fh off size flags owner =>
      f ← op_read se_op;
      Some (fun r node => f r node size off (file_info fh flags owner 0 false false false))
  | K_write fh off data flags owner cached =>
      match op_write_buf se_op with
      | Some _ => None
      | None =>
          f ← op_write se_op;
          Some (fun r node => f r node (data ++ rest) (blen data) off
                                (file_info fh flags owner 0 cached false false))
      end
  | K_statfs => f ← op_statfs se_op; Some (fun r node => f r node)
  | K_release fh flags owner flush unlock =>
      f ← op_release se_op;
      Some (fun r node => f r node (file_info fh flags owner 0 false flush unlock))
  | K_fsync fh data =>
      f ← op_fsync se_op; Some (fun r node => f r node (if data then 1 else 0) (fh_info fh))
  | K_setxattr name value flags =>
      f ← op_setxattr se_op;
      Some (fun r node => f r node name (value ++ rest) (blen value) flags)
  | K_getxattr name size => f ← op_getxattr se_op; Some (fun r node => f r node name size)
  | K_listxattr size => f ← op_listxattr se_op; Some (fun r node => f r node size)
  | K_removexattr name => f ← op_removexattr se_op; Some (fun r node => f r node name)
  | K_flush fh owner =>
      f ← op_flush se_op; Some (fun r node => f r node (file_info fh 0 owner 0 false true false))
  | K_opendir flags =>
      f ← op_opendir se_op; Some (fun r node => f r node (file_info 0 flags 0 0 false false false))
  | K_readdir fh off size =>
      f ← op_readdir se_op; Some (fun r node => f r node size off (fh_info fh))
  | K_readdirplus fh off size =>
      f ← op_readdirplus se_op; Some (fun r node => f r node size off (fh_info fh))
  | K_releasedir fh flags =>
      f ← op_releasedir se_op; Some (fun r node => f r node (file_info fh flags 0 0 false false false))
  | K_fsyncdir fh data =>
      f ← op_fsyncdir se_op; Some (fun r node => f r node (if data then 1 else 0) (fh_info fh))
  | K_getlk fh owner lk =>
      f ← op_getlk se_op;
      Some (fun r node => f r node (file_info fh 0 owner 0 false false false) lk)
  | K_setlk fh owner lk sleep =>
      f ← op_setlk se_op;
      Some (fun r node => f r node (file_info fh 0 owner 0 false false false) lk (if sleep then 1 else 0))
  | K_flock fh owner type sleep =>
      f ← op_flock se_op;
      Some (fun r node => f r node (file_info fh 0 owner 0 false false false) (flock_op type sleep))
  | K_access mask => f ← op_access se_op; Some (fun r node => f r node mask)
  | K_create name mode flags umask =>
      f ← op_create se_op;
      Some (fun r node => set_umask r umask;;
                          f r node name mode (file_info 0 flags 0 0 false false false))
  | K_tmpfile mode flags umask =>
      f ← op_tmpfile se_op;
      Some (fun r node => set_umask r umask;; f r node mode (file_info 0 flags 0 0 false false false))
  | K_bmap blocksize block => f ← op_bmap se_op; Some (fun r node => f r node blocksize block)
  | K_ioctl fh flags cmd arg data out_size =>
      f ← op_ioctl se_op;
      Some (fun r node => f r node cmd arg (fh_info fh) flags
                            (if blen data =? 0 then None else Some (data ++ rest)) (blen data) out_size)
  | K_poll fh events =>
      f ← op_poll se_op; Some (fun r node => f r node (file_info fh 0 0 events false false false) None)
  | K_fallocate fh off len mode =>
      f ← op_fallocate se_op; Some (fun r node => f r node mode off len (fh_info fh))
  | K_lseek fh off whence => f ← op_lseek se_op; Some (fun r node => f r node off whence (fh_info fh))
  | K_copy_file_range fh_in off_in node_out fh_out off_out len flags =>
      f ← op_copy_file_range se_op;
      Some (fun r node => f r node off_in (fh_info fh_in) node_out off_out (fh_info fh_out) len flags)
  end.
End server.
