(* ===== verification/Groups.v ===== *)
(** * Supplementary groups

    [fuse_req_getgroups] of [fuse_lowlevel.c]: where [linux] is defined it reads
    the groups of the process behind a request from the [status] file of the
    process.  Reading that file is the parameter [open_read]; [strtoul], [strstr]
    and the decimal output of [sprintf] are those of the C library. *)

From S2P Require Import Prelude Platform World Monad Request Reply.

(** ** The C library *)

(** [isspace] of the C locale *)
Definition isspace (c : Z) : bool := (c =? 32) || ((9 <=? c) && (c <=? 13)).

(** Value of a digit, [36] for anything else. *)
Definition digit_val (c : Z) : Z :=
  if (48 <=? c) && (c <=? 57) then c - 48
  else if (97 <=? c) && (c <=? 122) then c - 87
  else if (65 <=? c) && (c <=? 90) then c - 55 else 36.

Fixpoint prefix_while (f : Z -> bool) (s : bytes) : bytes :=
  match s with
  | c :: s => if f c then c :: prefix_while f s else []
  | [] => []
  end.

Definition digits_value (base : Z) (ds : bytes) : Z :=
  fold_left (fun v c => v * base + digit_val c) ds 0.

(** The base of a number without sign, and the length of its prefix. *)
Definition number_base (s : bytes) : Z * nat :=
  match s with
  | 48 :: x :: d :: _ =>
      if ((x =? 120) || (x =? 88)) && (digit_val d <? 16) then (16, 2%nat) else (8, 0%nat)
  | 48 :: _ => (8, 0%nat)
  | _ => (10, 0%nat)
  end.

(** [strtoul(s, &end, 0)]: the value and [end - s]. *)
Definition strtoul (s : bytes) : Z * nat :=
  let sp := length (prefix_while isspace s) in
  let s1 := drop sp s in
  let '(neg, sg) := match s1 with
                    | 45 :: _ => (true, 1%nat)
                    | 43 :: _ => (false, 1%nat)
                    | _ => (false, 0%nat)
                    end in
  let s2 := drop sg s1 in
  let '(base, px) := number_base s2 in
  let ds := prefix_while (fun c => digit_val c <? base) (drop px s2) in
  match ds with
  | [] => (0, 0%nat)
  | _ =>
      let v := digits_value base ds in
      ((if ULONG_MAX <? v then ULONG_MAX else if (neg : bool) then u64 (- v) else v),
       (sp + sg + px + length ds)%nat)
  end.

(** [strstr(s, needle)]: the rest of [s] from the first occurrence. *)
Fixpoint strstr (s needle : bytes) : option bytes :=
  if bool_decide (take (length needle) s = needle) then Some s
  else match s with [] => None | _ :: s => strstr s needle end.

(** Decimal digits, for [%lu]. *)
Fixpoint decimal_digits (fuel : nat) (n : Z) (acc : bytes) : bytes :=
  match fuel with
  | O => acc
  | S fuel =>
      let acc := (48 + n mod 10) :: acc in
      if n <? 10 then acc else decimal_digits fuel (n / 10) acc
  end.
Definition decimal (n : Z) : bytes := decimal_digits 20 n [].

(** ** The function *)

(** [sprintf(path, "/proc/%lu/task/%lu/status", pid, pid)] *)
Definition status_path (pid : Z) : bytes :=
  [47; 112; 114; 111; 99; 47] ++ decimal pid ++ [47; 116; 97; 115; 107; 47] ++ decimal pid ++
  [47; 115; 116; 97; 116; 117; 115].

(** ["\nGroups:"] *)
Definition groups_marker : bytes := [10; 71; 114; 111; 117; 112; 115; 58].

(** The loop over the numbers of the line: their count, and what is written to
    the caller's array of [size] elements. *)
Fixpoint group_numbers (fuel : nat) (s : bytes) (size ret : Z) (gids : list Z)
    : option (Z * list Z) :=
  match fuel with
  | O => None
  | S fuel =>
      let '(val, n) := strtoul s in
      if (n =? 0)%nat then Some (ret, gids)
      else group_numbers fuel (drop n s) size (ret + 1)
             (if ret <? size then gids ++ [u32 val] else gids)
  end.

Section groups.
Context {P : Platform}.

(** [open], [read] of at most the given size and [close], the [k]-th time: [None]
    when the file cannot be opened, an errno, or the data. *)
Variable open_read : nat -> bytes -> Z -> option (Z + bytes).

(** From the label [retry]. *)
Fixpoint getgroups_retry (fuel : nat) (k : nat) (path : bytes) (bufsize size : Z) : M (Z * list Z) :=
  match fuel with
  | O => fault_ OutOfFuel
  | S fuel =>
      buf ← malloc bufsize;
      match buf with
      | None => mret (- ENOMEM, [])
      | Some a =>
          match open_read k path bufsize with
          | None | Some (inl _) => free (Some a);; mret (- EIO, [])
          | Some (inr bs) =>
              store a (B_bytes bs);;
              if blen bs =? bufsize then
                free (Some a);; getgroups_retry fuel (S k) path (u64 (bufsize * 4)) size
              else if bufsize <? blen bs then fault_ OutOfBounds
              else
                store a (B_bytes (bs ++ [0]));;
                text ← of_option OutOfBounds (cstr (bs ++ [0]));
                match strstr text groups_marker with
                | None => free (Some a);; mret (- EIO, [])
                | Some s =>
                    let s := drop (length groups_marker) s in
                    res ← of_option OutOfFuel (group_numbers (S (length s)) s size 0 []);
                    free (Some a);;
                    mret res
                end
          end
      end
  end.

(** [pid] is an [int] that is converted to [unsigned long]. *)
Definition fuse_req_getgroups (fuel : nat) (r size : Z) : M (Z * list Z) :=
  q ← get_req r;
  getgroups_retry fuel 0 (status_path (u64 (i32 (ctx_pid (rq_ctx q))))) 1024 size.
End groups.
