(* ===== verification/Uring.v ===== *)
(** * Requests from a ring

    The second dispatch table of [fuse_lowlevel.c], [fuse_ll_ops2], and
    [fuse_session_process_uring_cqe], for requests whose fixed part and payload
    come in two pieces of memory.  The port compiles both, but its io_uring
    support is a stub, so nothing calls them yet. *)

From S2P Require Import Prelude Wire Platform KernelAbi LinkedList World Monad Buffer Request.
From S2P Require Import Reply Server Handlers Interrupt Notify Init Session.

Section uring.
Context {P : Platform} {S : Server}.

(** An entry of the table: a function of the request, the node, the memory of the
    fixed part and that of the payload, or the marker [(void * ) 1]. *)
Inductive ll_func2 :=
| Func2 (f : Z -> Z -> bytes -> bytes -> M unit)
| Marker2.

Definition _cuse_lowlevel_init (r nodeid : Z) (inarg : bytes) : M unit := reply_err r ENOSYS.

Definition fuse_ll_table2 : list (fuse_opcode * ll_func2 * String.string) :=
  [ (FUSE_LOOKUP, Func2 _do_lookup, "LOOKUP"%string);
    (FUSE_FORGET, Func2 _do_forget, "FORGET"%string);
    (FUSE_GETATTR, Func2 _do_getattr, "GETATTR"%string);
    (FUSE_SETATTR, Func2 _do_setattr, "SETATTR"%string);
    (FUSE_READLINK, Func2 _do_readlink, "READLINK"%string);
    (FUSE_SYMLINK, Func2 _do_symlink, "SYMLINK"%string);
    (FUSE_MKNOD, Func2 _do_mknod, "MKNOD"%string);
    (FUSE_MKDIR, Func2 _do_mkdir, "MKDIR"%string);
    (FUSE_UNLINK, Func2 _do_unlink, "UNLINK"%string);
    (FUSE_RMDIR, Func2 _do_rmdir, "RMDIR"%string);
    (FUSE_RENAME, Func2 _do_rename, "RENAME"%string);
    (FUSE_LINK, Func2 _do_link, "LINK"%string);
    (FUSE_OPEN, Func2 _do_open, "OPEN"%string);
    (FUSE_READ, Func2 _do_read, "READ"%string);
    (FUSE_WRITE, Func2 _do_write, "WRITE"%string);
    (FUSE_STATFS, Func2 _do_statfs, "STATFS"%string);
    (FUSE_RELEASE, Func2 _do_release, "RELEASE"%string);
    (FUSE_FSYNC, Func2 _do_fsync, "FSYNC"%string);
    (FUSE_SETXATTR, Func2 _do_setxattr, "SETXATTR"%string);
    (FUSE_GETXATTR, Func2 _do_getxattr, "GETXATTR"%string);
    (FUSE_LISTXATTR, Func2 _do_listxattr, "LISTXATTR"%string);
    (FUSE_REMOVEXATTR, Func2 _do_removexattr, "REMOVEXATTR"%string);
    (FUSE_FLUSH, Func2 _do_flush, "FLUSH"%string);
    (FUSE_INIT, Func2 _do_init, "INIT"%string);
    (FUSE_OPENDIR, Func2 _do_opendir, "OPENDIR"%string);
    (FUSE_READDIR, Func2 _do_readdir, "READDIR"%string);
    (FUSE_RELEASEDIR, Func2 _do_releasedir, "RELEASEDIR"%string);
    (FUSE_FSYNCDIR, Func2 _do_fsyncdir, "FSYNCDIR"%string);
    (FUSE_GETLK, Func2 _do_getlk, "GETLK"%string);
    (FUSE_SETLK, Func2 _do_setlk, "SETLK"%string);
    (FUSE_SETLKW, Func2 _do_setlkw, "SETLKW"%string);
    (FUSE_ACCESS, Func2 _do_access, "ACCESS"%string);
    (FUSE_CREATE, Func2 _do_create, "CREATE"%string);
    (FUSE_TMPFILE, Func2 _do_tmpfile, "TMPFILE"%string);
    (FUSE_INTERRUPT, Func2 _do_interrupt, "INTERRUPT"%string);
    (FUSE_BMAP, Func2 _do_bmap, "BMAP"%string);
    (FUSE_IOCTL, Func2 (fun r nodeid op_in op_payload => _do_ioctl r nodeid op_in (Some op_payload)), "IOCTL"%string);
    (FUSE_POLL, Func2 _do_poll, "POLL"%string);
    (FUSE_FALLOCATE, Func2 _do_fallocate, "FALLOCATE"%string);
    (FUSE_DESTROY, Func2 _do_destroy, "DESTROY"%string);
    (FUSE_NOTIFY_REPLY, Marker2, "NOTIFY_REPLY"%string);
    (FUSE_BATCH_FORGET, Func2 _do_batch_forget, "BATCH_FORGET"%string);
    (FUSE_READDIRPLUS, Func2 _do_readdirplus, "READDIRPLUS"%string);
    (FUSE_RENAME2, Func2 _do_rename2, "RENAME2"%string);
    (FUSE_COPY_FILE_RANGE, Func2 _do_copy_file_range, "COPY_FILE_RANGE"%string);
    (FUSE_COPY_FILE_RANGE_64, Func2 _do_copy_file_range_64, "COPY_FILE_RANGE_64"%string);
    (FUSE_LSEEK, Func2 _do_lseek, "LSEEK"%string);
    (FUSE_STATX, Func2 _do_statx, "STATX"%string);
    (CUSE_INIT, Func2 (fun r nodeid op_in op_payload => _cuse_lowlevel_init r nodeid op_in), "CUSE_INIT"%string) ].

(** [fuse_ll_ops2[op]], for an index below [FUSE_MAXOP]. *)
Definition fuse_ll_ops2 (op : Z) : option (ll_func2 * String.string) :=
  (fun '(_, f, n) => (f, n)) <$>
    List.find (fun '(o, _, _) => opcode_val o =? op) fuse_ll_table2.

(** The reason to reject a request of the ring, [0] when it is processed. *)
Definition cqe_reject_code (se : fuse_session) (inh : fuse_in_header) : Z :=
  let op := in_header_opcode inh in
  let err := fuse_req_opcode_sanity_ok (se_got_init se) (se_cuse_data se) op in
  if truth err then err
  else
    let err := fuse_req_check_allow_root (se_deny_others se) (se_owner se) op (in_header_uid inh) in
    if truth err then err
    else if (FUSE_MAXOP <=? op) || negb (is_set (fuse_ll_ops op)) then ENOSYS else 0.

Definition payload_buf (p : ptr) (len : Z) : fuse_buf :=
  {| buf_size := len; buf_flags := 0; buf_mem := Some p; buf_fd := 0; buf_pos := 0;
     buf_mem_size := 0 |}.

Definition fuse_session_process_uring_cqe (r : Z) (inh : fuse_in_header) (op_in op_payload : ptr)
    (payload_len : Z) : M unit :=
  fuse_session_in2req r inh;;
  se ← get_se;
  let op := in_header_opcode inh in
  let nodeid := in_header_nodeid inh in
  let err := cqe_reject_code se inh in
  if truth err then reply_err r err
  else
    match op_write_buf se_op, op =? FUSE_WRITE with
    | Some f, true =>
        inmem ← view op_in;
        _do_write_buf f r nodeid inmem (bv_one (payload_buf op_payload payload_len));;
        mret tt
    | _, _ =>
        if op =? FUSE_NOTIFY_REPLY then
          do_notify_reply r nodeid op_in (payload_buf op_payload payload_len)
        else
          inmem ← view op_in;
          payload ← view op_payload;
          match fuse_ll_ops2 op with
          | Some (Func2 h, _) => h r nodeid inmem payload
          | _ => fault_ BadPointer
          end
    end.
End uring.
