(* ===== verification/Receive.v ===== *)
(** * Receiving requests

    The part of [fuse_lowlevel.c] that reads requests from the device
    ([_fuse_session_receive_buf] without [HAVE_SPLICE]) and the buffers it
    allocates for them.  In this port the daemon builds the requests itself, so
    only servers with an event loop of their own call it.

    A buffer of the library itself is laid out so that the data of a WRITE starts
    at a page: the pointer is [pagesize - write_header_size] bytes into its
    object.  [buf_alloc_room] is the exact condition under which such a buffer is
    large enough. *)

From S2P Require Import Prelude Wire Platform KernelAbi LinkedList World Monad Buffer Request.
From S2P Require Import Reply Server Handlers Interrupt Notify Init Session.

(** [pagesize], as [fuse_ll_init_pagesize] sets it. *)
Definition pagesize : Z := getpagesize.

(** [ROUND_UP(v, d)] on [size_t]. *)
Definition ROUND_UP (v d : Z) : Z :=
  Z.land (u64 (u64 (v + d) - 1)) (Z.lxor (2 ^ 64 - 1) (u64 (d - 1))).

Definition buf_set_mem (p : option ptr) (b : fuse_buf) : fuse_buf :=
  {| buf_size := buf_size b; buf_flags := buf_flags b; buf_mem := p; buf_fd := buf_fd b;
     buf_pos := buf_pos b; buf_mem_size := buf_mem_size b |}.
Definition buf_set_mem_size (n : Z) (b : fuse_buf) : fuse_buf :=
  {| buf_size := buf_size b; buf_flags := buf_flags b; buf_mem := buf_mem b; buf_fd := buf_fd b;
     buf_pos := buf_pos b; buf_mem_size := n |}.
Definition buf_set_size (n : Z) (b : fuse_buf) : fuse_buf :=
  {| buf_size := n; buf_flags := buf_flags b; buf_mem := buf_mem b; buf_fd := buf_fd b;
     buf_pos := buf_pos b; buf_mem_size := buf_mem_size b |}.

Section receive.
Context {P : Platform}.

(** [free(p)] of memory from [memalign]: the start of an object. *)
Definition free_ptr (p : ptr) : M unit := fun w =>
  match w_mem w !! p.1 with
  | Some _ => if p.2 =? 0 then Ok tt (w_set_mem (delete p.1 (w_mem w)) w) else Fault BadPointer
  | None => Fault BadPointer
  end.

Definition fuse_buf_free (buf : fuse_buf) : M fuse_buf :=
  match buf_mem buf with
  | None => mret buf
  | Some p =>
      free_ptr (ptr_add p (- pagesize + write_header_size));;
      mret (buf_set_mem None buf)
  end.

(** [aligned_alloc] of [fuse_posix_stub.c]; alignment is not part of the model
    of memory. *)
Definition aligned_alloc (alignment size : Z) : M (option Z) := memalign size.

Definition buf_alloc (size : Z) (internal : bool) : M (option ptr) :=
  if internal then
    let new_size := ROUND_UP (u64 (size + write_header_size)) pagesize in
    buf ← aligned_alloc pagesize new_size;
    mret ((fun a => (a, pagesize - write_header_size)) <$> buf)
  else
    buf ← memalign size;
    mret ((fun a => (a, 0)) <$> buf).

(** One [read]: an errno, or the bytes stored at [p]. *)
Definition read_into (fd : Z) (p : ptr) (n : Z) : M (Z + bytes) :=
  se ← get_se;
  res ← (fun w =>
    let '(r, s) := match se_io se with
                   | Some io => io_read io (w_io w) fd n
                   | None => sys_read (w_io w) fd None n
                   end in Ok r (w_set_io s w));
  match res with
  | inl err => mret (inl err)
  | inr bs => store_mem p bs;; mret (inr bs)
  end.

(** The loop of [_fuse_session_receive_buf], from the label [restart]. *)
Fixpoint receive_loop (fuel : nat) (buf : fuse_buf) (bufsize : Z) (ch : option Z)
    (internal : bool) : M (Z * fuse_buf) :=
  match fuel with
  | O => fault_ OutOfFuel
  | S fuel =>
      se ← get_se;
      p ← of_option BadPointer (buf_mem buf);
      res ← read_into (match ch with Some c => chan_fd_of_request c | None => se_fd se end) p bufsize;
      exited ← fuse_session_exited;
      if (exited : bool) then mret (0, buf)
      else
        match res with
        | inl err =>
            if (err =? EINVAL) && internal && (bufsize <? se_bufsize se) then
              let bufsize := se_bufsize se in
              newbuf ← buf_alloc bufsize internal;
              match newbuf with
              | None => mret (- ENOMEM, buf)
              | Some q =>
                  buf ← fuse_buf_free buf;
                  receive_loop fuel (buf_set_mem_size bufsize (buf_set_mem (Some q) buf))
                    bufsize ch internal
              end
            else if err =? ENOENT then receive_loop fuel buf bufsize ch internal
            else if err =? ENODEV then fuse_session_exit;; mret (0, buf)
            else mret (- err, buf)
        | inr bs =>
            if blen bs <? sizeof fuse_in_header then mret (- EIO, buf)
            else mret (i32 (blen bs), buf_set_size (blen bs) buf)
        end
  end.

(** The caller's buffer is updated in place; it comes back with the result. *)
Definition _fuse_session_receive_buf (fuel : nat) (buf : fuse_buf) (ch : option Z)
    (internal : bool) : M (Z * fuse_buf) :=
  se ← get_se;
  match buf_mem buf with
  | Some _ =>
      receive_loop fuel buf (if internal then buf_mem_size buf else se_bufsize se) ch internal
  | None =>
      let bufsize := se_bufsize se in
      mem ← buf_alloc bufsize internal;
      match mem with
      | None => mret (- ENOMEM, buf)
      | Some p =>
          let buf := buf_set_mem (Some p) buf in
          receive_loop fuel (if internal then buf_set_mem_size bufsize buf else buf) bufsize ch internal
      end
  end.

Definition fuse_session_receive_buf (fuel : nat) (buf : fuse_buf) : M (Z * fuse_buf) :=
  _fuse_session_receive_buf fuel buf None false.

Definition fuse_session_receive_buf_internal (fuel : nat) (buf : fuse_buf) (ch : option Z)
    : M (Z * fuse_buf) :=
  se ← get_se;
  when (negb (se_got_init se) && negb (se_buf_reallocable se)) (mod_se (se_set_buf_reallocable true));;
  _fuse_session_receive_buf fuel buf ch true.
End receive.
