(* ===== verification/Queue.v ===== *)
(** * The request queue

    [src/libs/ukfusefs/fuse_queue.c].  First the operations as their caller sees
    them when it runs alone; then any number of concurrent pushes and pops as a
    step relation over the single accesses to the lock, the queue and the
    semaphore, with its invariant: the lock is exclusive, the queue is first in
    first out, and the assertion of [fuse_ukfs_queue_pop] never fails. *)

From S2P Require Import Prelude Platform World Monad.

Section queue.
Context {P : Platform}.

(** ** The accesses *)

Definition q_set_lock (m : mutex) (q : fuse_ukfs_queue) : fuse_ukfs_queue :=
  {| q_head := q_head q; q_lock := m; q_count := q_count q |}.
Definition q_set_head (h : tailq) (q : fuse_ukfs_queue) : fuse_ukfs_queue :=
  {| q_head := h; q_lock := q_lock q; q_count := q_count q |}.
Definition q_set_count (s : sem) (q : fuse_ukfs_queue) : fuse_ukfs_queue :=
  {| q_head := q_head q; q_lock := q_lock q; q_count := s |}.

Definition q_acquire (q : fuse_ukfs_queue) : option fuse_ukfs_queue :=
  m ← uk_mutex_lock (q_lock q); Some (q_set_lock m q).
Definition q_release (q : fuse_ukfs_queue) : fuse_ukfs_queue :=
  q_set_lock (uk_mutex_unlock (q_lock q)) q.
Definition q_insert (u : Z) (q : fuse_ukfs_queue) : fuse_ukfs_queue :=
  q_set_head (UK_TAILQ_INSERT_TAIL (q_head q) u) q.
Definition q_up (q : fuse_ukfs_queue) : fuse_ukfs_queue :=
  q_set_count (uk_semaphore_up (q_count q)) q.
Definition q_down (q : fuse_ukfs_queue) : option fuse_ukfs_queue :=
  s ← uk_semaphore_down (q_count q); Some (q_set_count s q).

(** ** The operations *)

Definition on_queue {A} (f : fuse_ukfs_queue -> option (A * fuse_ukfs_queue)) (e : fault) : M A :=
  fun w => match f (w_queue w) with
           | Some (a, q) => Ok a (w_set_queue q w)
           | None => Fault e
           end.

Definition fuse_ukfs_queue_init : M unit :=
  modify (w_set_queue {| q_head := UK_TAILQ_INIT; q_lock := uk_mutex_init;
                         q_count := uk_semaphore_init 0 |}).

Definition fuse_ukfs_queue_push (u : Z) : M unit :=
  on_queue (fun q => q ← q_acquire q; Some (tt, q)) Deadlock;;
  on_queue (fun q => Some (tt, q_insert u q)) Deadlock;;
  on_queue (fun q => Some (tt, q_release q)) Deadlock;;
  on_queue (fun q => Some (tt, q_up q)) Deadlock.

Definition fuse_ukfs_queue_pop : M Z :=
  on_queue (fun q => q ← q_down q; Some (tt, q)) Deadlock;;
  on_queue (fun q => q ← q_acquire q; Some (tt, q)) Deadlock;;
  u ← on_queue (fun q => u ← UK_TAILQ_FIRST (q_head q);
                         Some (u, q_set_head (UK_TAILQ_REMOVE (q_head q) u) q)) AssertFailed;
  on_queue (fun q => Some (tt, q_release q)) Deadlock;;
  mret u.

(** ** Concurrent use *)

(** Where a thread is in a push of [u] or in a pop. *)
Inductive qpc :=
| Push0 (u : Z)      (* before uk_mutex_lock *)
| Push1 (u : Z)      (* before UK_TAILQ_INSERT_TAIL *)
| Push2 (u : Z)      (* before uk_mutex_unlock *)
| Push3 (u : Z)      (* before uk_semaphore_up *)
| PushDone (u : Z)
| Pop0               (* before uk_semaphore_down *)
| Pop1               (* before uk_mutex_lock *)
| Pop2               (* before UK_TAILQ_FIRST, UK_ASSERT, UK_TAILQ_REMOVE *)
| Pop3 (u : Z)       (* before uk_mutex_unlock *)
| PopDone (u : Z)
| Crashed.           (* UK_ASSERT failed *)

(** One access of a thread; [None] when it is blocked or has returned. *)
Definition pc_step (pc : qpc) (q : fuse_ukfs_queue) : option (qpc * fuse_ukfs_queue) :=
  match pc with
  | Push0 u => q ← q_acquire q; Some (Push1 u, q)
  | Push1 u => Some (Push2 u, q_insert u q)
  | Push2 u => Some (Push3 u, q_release q)
  | Push3 u => Some (PushDone u, q_up q)
  | Pop0 => q ← q_down q; Some (Pop1, q)
  | Pop1 => q ← q_acquire q; Some (Pop2, q)
  | Pop2 => match UK_TAILQ_FIRST (q_head q) with
            | Some u => Some (Pop3 u, q_set_head (UK_TAILQ_REMOVE (q_head q) u) q)
            | None => Some (Crashed, q)
            end
  | Pop3 u => Some (PopDone u, q_release q)
  | PushDone _ | PopDone _ | Crashed => None
  end.

(** The queue, its users, and the requests inserted and removed so far. *)
Record qstate := { qs_queue : fuse_ukfs_queue; qs_thr : list qpc; qs_in : list Z; qs_out : list Z }.

Definition log_in (pc : qpc) (l : list Z) : list Z :=
  match pc with Push1 u => l ++ [u] | _ => l end.
Definition log_out (pc : qpc) (l : list Z) : list Z :=
  match pc with Pop3 u => l ++ [u] | _ => l end.

Inductive qstep : qstate -> qstate -> Prop :=
| Qstep q thr li lo i pc pc' q' :
    thr !! i = Some pc ->
    pc_step pc q = Some (pc', q') ->
    qstep {| qs_queue := q; qs_thr := thr; qs_in := li; qs_out := lo |}
          {| qs_queue := q'; qs_thr := <[i := pc']> thr; qs_in := log_in pc li;
             qs_out := log_out pc' lo |}.

(** A fresh queue and threads that have not started. *)
Definition not_started (pc : qpc) : Prop := match pc with Push0 _ | Pop0 => True | _ => False end.
Definition req_of (pc : qpc) : list Z := match pc with Push0 u => [u] | _ => [] end.

Definition qinit (thr : list qpc) : qstate :=
  {| qs_queue := {| q_head := UK_TAILQ_INIT; q_lock := uk_mutex_init;
                    q_count := uk_semaphore_init 0 |};
     qs_thr := thr; qs_in := []; qs_out := [] |}.
End queue.

Section queue_spec.
Context {P : Platform} {PS : PlatformSpec P}.

(** ** Alone *)

Definition elems (q : fuse_ukfs_queue) : list Z := tq_elems (q_head q).

(** A queue nobody is using. *)
Record q_idle (q : fuse_ukfs_queue) : Prop := {
  qi_free : mutex_held (q_lock q) = false;
  qi_count : sem_value (q_count q) = length (elems q) }.

Lemma on_queue_run {A} f e w (a : A) q :
  f (w_queue w) = Some (a, q) -> on_queue f e w = Ok a (w_set_queue q w).
Proof. unfold on_queue. by intros ->. Qed.

Lemma queue_push_run w u :
  q_idle (w_queue w) -> u ∉ elems (w_queue w) ->
  exists q, fuse_ukfs_queue_push u w = Ok tt (w_set_queue q w) /\ q_idle q /\
            elems q = elems (w_queue w) ++ [u].
Proof.
  intros [Hf Hc] Hu. destruct (mutex_lock_free _ Hf) as (m & Hm & _ & Hum).
  exists (q_up (q_release (q_insert u (q_set_lock m (w_queue w))))). split.
  { unfold fuse_ukfs_queue_push. mstep by (apply on_queue_run; unfold q_acquire; by rewrite Hm).
    mstep by done. by mstep by done. }
  unfold elems in *. cbn. split; [constructor; cbn|].
  - apply mutex_unlock_free.
  - rewrite sem_up_value, Hc. unfold elems. cbn.
    rewrite tq_insert_elems, length_app by done. simpl. lia.
  - by apply tq_insert_elems.
Qed.

Lemma queue_pop_run w u l :
  q_idle (w_queue w) -> elems (w_queue w) = u :: l ->
  exists q, fuse_ukfs_queue_pop w = Ok u (w_set_queue q w) /\ q_idle q /\ elems q = l.
Proof.
  intros [Hf Hc] Hu. destruct (mutex_lock_free _ Hf) as (m & Hm & _ & Hum).
  rewrite Hu in Hc. simpl in Hc.
  destruct (uk_semaphore_down (q_count (w_queue w))) as [s|] eqn:Hs.
  2:{ apply sem_down_zero in Hs. lia. }
  exists (q_release (q_set_head (UK_TAILQ_REMOVE (q_head (w_queue w)) u)
            (q_set_lock m (q_set_count s (w_queue w))))). split.
  { unfold fuse_ukfs_queue_pop. mstep by (apply on_queue_run; unfold q_down; by rewrite Hs).
    mstep by (apply on_queue_run; unfold q_acquire; cbn; by rewrite Hm).
    mstep by (apply on_queue_run; cbn; rewrite tq_first_elems; unfold elems in Hu; by rewrite Hu).
    by mstep by done. }
  apply sem_down_value in Hs. unfold elems in *. split; [constructor; cbn|].
  - apply mutex_unlock_free.
  - unfold elems. cbn. rewrite (tq_remove_elems _ _ _ Hu). lia.
  - cbn. by apply tq_remove_elems.
Qed.

(** A pop from an empty queue blocks. *)
Lemma queue_pop_empty w :
  q_idle (w_queue w) -> elems (w_queue w) = [] -> fuse_ukfs_queue_pop w = Fault Deadlock.
Proof.
  intros [_ Hc] He. rewrite He in Hc. apply sem_down_zero in Hc.
  unfold fuse_ukfs_queue_pop. apply bind_fault. unfold on_queue, q_down. by rewrite Hc.
Qed.

Lemma queue_init_idle w :
  exists q, fuse_ukfs_queue_init w = Ok tt (w_set_queue q w) /\ q_idle q /\ elems q = [].
Proof.
  eexists. split; [done|]. unfold elems. cbn. rewrite tq_init_elems. split; [|done].
  constructor; [apply mutex_init_free|]. unfold elems. cbn.
  by rewrite tq_init_elems, sem_init_value.
Qed.

(** ** Concurrent *)

Definition locked (pc : qpc) : nat :=
  match pc with Push1 _ | Push2 _ | Pop2 | Pop3 _ => 1 | _ => 0 end.

(** Elements a thread has inserted or claimed without the counter showing it. *)
Definition pending (pc : qpc) : nat :=
  match pc with Push2 _ | Push3 _ | Pop1 | Pop2 => 1 | _ => 0 end.

Definition waiting (pc : qpc) : list Z :=
  match pc with Push0 u | Push1 u => [u] | _ => [] end.

Definition bool_nat (b : bool) : nat := if b then 1 else 0.

Record qinv (reqs : list Z) (s : qstate) : Prop := {
  qv_lock : sum_list_with locked (qs_thr s) = bool_nat (mutex_held (q_lock (qs_queue s)));
  qv_count : length (elems (qs_queue s)) =
             (sem_value (q_count (qs_queue s)) + sum_list_with pending (qs_thr s))%nat;
  qv_fifo : qs_in s = qs_out s ++ elems (qs_queue s);
  qv_reqs : qs_in s ++ concat (map waiting (qs_thr s)) ≡ₚ reqs;
  qv_ok : Crashed ∉ qs_thr s }.

Lemma thr_split (thr : list qpc) i pc pc' :
  thr !! i = Some pc -> exists l1 l2, thr = l1 ++ pc :: l2 /\ <[i := pc']> thr = l1 ++ pc' :: l2.
Proof.
  intros Hi. exists (take i thr), (drop (S i) thr). split.
  - symmetry. by apply take_drop_middle.
  - apply insert_take_drop. by eapply lookup_lt_Some.
Qed.

Lemma qinv_init thr :
  Forall not_started thr -> qinv (concat (map req_of thr)) (qinit thr).
Proof.
  intros Hthr. unfold qinit. constructor; cbn.
  - rewrite mutex_init_free. cbn. induction Hthr as [|[]]; cbn in *; by try lia.
  - unfold elems. cbn. rewrite tq_init_elems, sem_init_value by done. cbn.
    induction Hthr as [|[]]; cbn in *; by try lia.
  - unfold elems. cbn. by rewrite tq_init_elems.
  - induction Hthr as [|[]]; cbn in *; by try rewrite IHHthr.
  - rewrite Forall_forall in Hthr. intros Hc. by apply Hthr in Hc.
Qed.

Lemma lock_inv m m' : uk_mutex_lock m = Some m' -> mutex_held m = false /\ mutex_held m' = true.
Proof.
  intros Hm. destruct (mutex_held m) eqn:E.
  - apply mutex_lock_held in E. congruence.
  - destruct (mutex_lock_free _ E) as (? & ? & ? & _). split; [done|congruence].
Qed.

Ltac thr_norm := rewrite ?sum_list_with_app, ?map_app, ?concat_app, ?not_elem_of_app,
  ?not_elem_of_cons in *; cbn in *.

(** The invariant after a step, from equations on the new state. *)
Ltac qinv_solve :=
  constructor; cbn; unfold elems; thr_norm;
  [ try lia | try lia | try done | try done | try (split_and!; naive_solver) ].

Lemma qinv_step reqs s s' : NoDup reqs -> qinv reqs s -> qstep s s' -> qinv reqs s'.
Proof.
  intros Hnd [Hl Hc Hf Hr Hok] Hs. inversion Hs as [q thr li lo i pc pc' q' Hi Hpc]; subst.
  destruct (thr_split _ _ _ pc' Hi) as (l1 & l2 & -> & E2). cbn in Hl, Hc, Hf, Hr, Hok.
  rewrite E2. clear E2 Hi Hs. unfold elems in *.
  destruct pc as [u|u|u|u|u| | | |u|u|]; cbn in Hpc; try done.
  - (* a push takes the lock *)
    unfold q_acquire in Hpc. destruct (uk_mutex_lock (q_lock q)) as [m|] eqn:Em; [|done].
    apply lock_inv in Em as [Em1 Em2]. injection Hpc as <- <-. rewrite Em1 in Hl.
    qinv_solve. rewrite Em2. cbn. lia.
  - (* it inserts *)
    injection Hpc as <- <-. thr_norm.
    assert (u ∉ tq_elems (q_head q)) as Hu.
    { rewrite <- Hr, Hf in Hnd. apply NoDup_app in Hnd as (_ & Hd & _).
      intros Hu. apply (Hd u); set_solver. }
    qinv_solve; rewrite ?tq_insert_elems by done.
    + rewrite length_app. cbn. lia.
    + by rewrite Hf, app_assoc.
    + rewrite <- Hr. solve_Permutation.
  - (* it unlocks *)
    injection Hpc as <- <-. thr_norm.
    qinv_solve. rewrite mutex_unlock_free. destruct (mutex_held (q_lock q)); cbn in *; lia.
  - (* it signals *)
    injection Hpc as <- <-. qinv_solve. rewrite sem_up_value. lia.
  - (* a pop takes a token *)
    unfold q_down in Hpc. destruct (uk_semaphore_down (q_count q)) as [m|] eqn:Em; [|done].
    apply sem_down_value in Em. injection Hpc as <- <-. qinv_solve.
  - (* it takes the lock *)
    unfold q_acquire in Hpc. destruct (uk_mutex_lock (q_lock q)) as [m|] eqn:Em; [|done].
    apply lock_inv in Em as [Em1 Em2]. injection Hpc as <- <-. rewrite Em1 in Hl.
    qinv_solve. rewrite Em2. cbn. lia.
  - (* it removes the first element *)
    rewrite tq_first_elems in Hpc. destruct (tq_elems (q_head q)) as [|u r] eqn:Eq.
    { exfalso. thr_norm. lia. }
    cbn in Hpc. injection Hpc as <- <-. qinv_solve; rewrite ?(tq_remove_elems _ _ _ Eq).
    + lia.
    + by rewrite Hf, <- app_assoc.
  - (* it unlocks *)
    injection Hpc as <- <-. thr_norm.
    qinv_solve. rewrite mutex_unlock_free. destruct (mutex_held (q_lock q)); cbn in *; lia.
Qed.

Lemma qinv_reachable thr s :
  Forall not_started thr -> NoDup (concat (map req_of thr)) ->
  rtc qstep (qinit thr) s -> qinv (concat (map req_of thr)) s.
Proof.
  intros Hthr Hnd Hs. apply qinv_init in Hthr.
  remember (qinit thr) as s0 eqn:E. clear E.
  induction Hs as [|? s1 ? Hstep _ IH]; [done|]. apply IH. by eapply qinv_step.
Qed.

Definition finished (pc : qpc) : Prop := match pc with PushDone _ | PopDone _ => True | _ => False end.

(** Can a thread take its next step? *)
Definition can_step (q : fuse_ukfs_queue) (pc : qpc) : bool :=
  match pc_step pc q with Some _ => true | None => false end.

Lemma sum_list_zero (f : qpc -> nat) l pc : sum_list_with f l = O -> pc ∈ l -> f pc = O.
Proof. induction l as [|x l IH]; cbn; [set_solver|]. intros H [->|Hx]%elem_of_cons; [lia|]. apply IH; [lia|done]. Qed.

(** Threads get stuck only when they have finished or wait at an empty queue. *)
Lemma qinv_progress reqs s :
  qinv reqs s -> (forall s', ~ qstep s s') ->
  Forall (fun pc => finished pc \/ pc = Pop0 /\ elems (qs_queue s) = []) (qs_thr s).
Proof.
  intros [Hl Hc Hf Hr Hok] Hstuck. destruct s as [q thr li lo]. cbn in *.
  assert (forall pc, pc ∈ thr -> pc_step pc q = None) as Hno.
  { intros pc (i & Hi)%list_elem_of_lookup. destruct (pc_step pc q) as [[pc' q']|] eqn:E; [|done].
    exfalso. eapply Hstuck. by econstructor. }
  assert (sum_list_with locked thr = O) as Hl0.
  { destruct (sum_list_with locked thr) eqn:E; [done|]. exfalso.
    assert (exists pc, pc ∈ thr /\ locked pc <> O) as (pc & Hpc & Hlk).
    { clear -E. revert n E. induction thr as [|x l IH]; cbn; [lia|]. intros n E.
      destruct (locked x) eqn:Ex; [|exists x; set_solver by lia].
      destruct (IH n) as (pc & ? & ?); [done|]. exists pc. set_solver. }
    specialize (Hno _ Hpc). destruct pc; cbn in *; try done. by case_match. }
  rewrite Hl0 in Hl. destruct (mutex_held (q_lock q)) eqn:Hm; [done|].
  destruct (mutex_lock_free _ Hm) as (m & Em & _).
  assert (sum_list_with pending thr = O) as Hp0.
  { clear -Hno Em. induction thr as [|pc l IH]; [done|]. cbn.
    rewrite IH by (intros; apply Hno; set_solver). specialize (Hno pc).
    destruct pc; cbn in *; try done; exfalso.
    - by discriminate Hno; set_solver.
    - discriminate Hno; set_solver.
    - unfold q_acquire in Hno. rewrite Em in Hno. discriminate Hno; set_solver.
    - case_match; discriminate Hno; set_solver. }
  apply Forall_forall. intros pc Hpc. pose proof (Hno _ Hpc) as Hn.
  pose proof (sum_list_zero _ _ _ Hl0 Hpc) as Hlk.
  pose proof (sum_list_zero _ _ _ Hp0 Hpc) as Hpd.
  destruct pc; cbn in *; try done; try by left.
  - unfold q_acquire in Hn. by rewrite Em in Hn.
  - right. split; [done|]. unfold q_down in Hn.
    destruct (uk_semaphore_down (q_count q)) eqn:Es; [done|].
    apply sem_down_zero in Es. apply nil_length_inv. lia.
Qed.
End queue_spec.
