(* ===== verification/Dirent.v ===== *)
(** * Directory entries

    [fuse_add_direntry] of [fuse_lowlevel.c] packs the entries of a directory
    into a buffer; whoever reads the buffer decodes the fixed part and finds the
    name behind it.  The layout of an entry, and that reading returns what was
    packed. *)

From S2P Require Import Prelude Wire KernelAbi World Reply.

(** ** Alignment *)

Lemma land_shiftl y m n : 0 <= n -> Z.land y (Z.shiftl m n) = Z.shiftl (Z.land (Z.shiftr y n) m) n.
Proof.
  intros Hn. apply Z.bits_inj'. intros i Hi. rewrite Z.land_spec, !Z.shiftl_spec by done.
  destruct (Z.ltb_spec i n) as [Hlt|Hle].
  - rewrite !(Z.testbit_neg_r _ (i - n)) by lia. apply andb_false_r.
  - rewrite Z.land_spec, Z.shiftr_spec by lia. by replace (i - n + n) with i by lia.
Qed.

(** Sizes are rounded up to the next multiple of eight. *)
Lemma dirent_align_spec x : 0 <= x < 2 ^ 63 -> FUSE_DIRENT_ALIGN x = (x + 7) `div` 8 * 8.
Proof.
  intros Hx. unfold FUSE_DIRENT_ALIGN.
  assert (u64 (u64 (x + 8) - 1) = x + 7) as ->.
  { unfold u64. rewrite (wrapu_id 64 (x + 8)) by (unfold is_u; lia).
    rewrite wrapu_id by (unfold is_u; lia). lia. }
  change (Z.lxor (2 ^ 64 - 1) (8 - 1)) with (Z.shiftl (Z.ones 61) 3).
  rewrite land_shiftl by lia. rewrite Z.land_ones by lia.
  rewrite Z.shiftr_div_pow2, Z.shiftl_mul_pow2 by lia. change (2 ^ 3) with 8.
  rewrite Z.mod_small; [done|].
  split; [apply Z.div_pos; lia|]. apply Z.div_lt_upper_bound; lia.
Qed.

(** ** Packing *)

(** Room an entry takes. *)
Definition dirent_size (name : bytes) : Z := FUSE_DIRENT_ALIGN (u64 (FUSE_NAME_OFFSET + blen name)).

Definition name_ok (name : bytes) : Prop := blen name < 2 ^ 32.

Lemma dirent_size_spec name :
  name_ok name -> dirent_size name = (FUSE_NAME_OFFSET + blen name + 7) `div` 8 * 8.
Proof.
  unfold name_ok. intros Hn. assert (0 <= blen name) by (unfold blen; lia).
  change FUSE_NAME_OFFSET with 24. unfold dirent_size, u64. change FUSE_NAME_OFFSET with 24.
  rewrite wrapu_id by (unfold is_u; lia). by rewrite dirent_align_spec by lia.
Qed.

Lemma dirent_size_bounds name :
  name_ok name ->
  FUSE_NAME_OFFSET + blen name <= dirent_size name < FUSE_NAME_OFFSET + blen name + 8.
Proof.
  intros Hn. rewrite dirent_size_spec by done. set (x := FUSE_NAME_OFFSET + blen name + 7).
  pose proof (Z.div_mod x 8). pose proof (Z.mod_pos_bound x 8). unfold x in *. lia.
Qed.

(** The fixed part of an entry, and the entry. *)
Definition dirent_head (name : bytes) (st : stat) (off : Z) : fuse_dirent := {|
  dirent_ino := u64 (st_ino st); dirent_off := u64 off; dirent_namelen := u32 (blen name);
  dirent_type := Z.shiftr (Z.land (st_mode st) S_IFMT) 12 |}.

Definition direntry (name : bytes) (st : stat) (off : Z) : bytes :=
  enc (dirent_head name st off) ++ name ++
  repeat 0 (Z.to_nat (dirent_size name - (FUSE_NAME_OFFSET + blen name))).

Lemma dirent_head_wf name st off : wire_wf (dirent_head name st off).
Proof.
  assert (is_u 32 (dirent_type (dirent_head name st off))) as Ht.
  { cbn [dirent_type dirent_head]. rewrite Z.shiftr_land. change (Z.shiftr S_IFMT 12) with (Z.ones 4).
    rewrite Z.land_ones by lia. unfold is_u.
    pose proof (Z.mod_pos_bound (Z.shiftr (st_mode st) 12) (2 ^ 4)). lia. }
  split; [|done]. unfold fits. cbn [layout fuse_dirent_wire members].
  repeat (apply Forall2_cons; split); try done; apply wrapu_range; lia.
Qed.

Lemma blen_direntry name st off : name_ok name -> blen (direntry name st off) = dirent_size name.
Proof.
  intros Hn. pose proof (dirent_size_bounds name Hn) as Hb. unfold direntry.
  assert (blen (enc (dirent_head name st off)) = FUSE_NAME_OFFSET) as He by apply blen_enc.
  unfold blen in *. rewrite !length_app, repeat_length. lia.
Qed.

(** Without a buffer, or with one that is too small, only the size is returned. *)
Lemma add_direntry_size name st off : fuse_add_direntry None 0 name st off = Some (None, dirent_size name).
Proof. done. Qed.

Lemma add_direntry_small mem n name st off :
  n < dirent_size name -> fuse_add_direntry (Some mem) n name st off = Some (Some mem, dirent_size name).
Proof. intros Hn. unfold fuse_add_direntry. fold (dirent_size name). by rewrite (proj2 (Z.ltb_lt _ _)). Qed.

Lemma add_direntry_run mem n name st off :
  name_ok name -> dirent_size name <= n -> dirent_size name <= blen mem ->
  fuse_add_direntry (Some mem) n name st off =
  Some (Some (direntry name st off ++ drop (Z.to_nat (dirent_size name)) mem), dirent_size name).
Proof.
  intros Hok Hn Hm. pose proof (dirent_size_bounds name Hok) as Hb.
  unfold fuse_add_direntry. fold (dirent_size name). rewrite (proj2 (Z.ltb_ge _ _)) by done.
  fold (dirent_head name st off). set (h := dirent_head name st off).
  assert (blen (enc h) = FUSE_NAME_OFFSET) as He by apply blen_enc.
  assert (u64 (FUSE_NAME_OFFSET + blen name) = FUSE_NAME_OFFSET + blen name) as ->.
  { apply wrapu_id. unfold name_ok, is_u in *. change FUSE_NAME_OFFSET with 24.
    unfold blen in *. lia. }
  assert (u64 (dirent_size name - (FUSE_NAME_OFFSET + blen name)) =
          dirent_size name - (FUSE_NAME_OFFSET + blen name)) as ->.
  { apply wrapu_id. unfold is_u. lia. }
  set (pad := repeat 0 _).
  assert (blen pad = dirent_size name - (FUSE_NAME_OFFSET + blen name)) as Hpad
    by (unfold pad; unfold blen at 1; rewrite repeat_length; lia).
  assert (write_at 0 (enc h) mem = Some (enc h ++ drop (length (enc h)) mem)) as ->
    by (apply (write_at_pre []); unfold blen in *; lia). cbn [mbind option_bind].
  set (r1 := drop (length (enc h)) mem).
  assert (write_at FUSE_NAME_OFFSET name (enc h ++ r1) =
          Some ((enc h ++ name) ++ drop (length name) r1)) as ->.
  { rewrite <- He, <- app_assoc. apply write_at_pre. unfold r1, blen in *. rewrite length_drop. lia. }
  cbn [mbind option_bind].
  assert (write_at (FUSE_NAME_OFFSET + blen name) pad ((enc h ++ name) ++ drop (length name) r1) =
          Some ((enc h ++ name) ++ pad ++ drop (length pad) (drop (length name) r1))) as ->.
  { rewrite <- He. replace (blen (enc h) + blen name) with (Z.of_nat (length (enc h ++ name)))
      by (unfold blen; rewrite length_app; lia).
    apply write_at_pre. unfold r1, blen in *. rewrite !length_drop. lia. }
  cbn [mbind option_bind]. unfold r1. rewrite !drop_drop. unfold direntry. fold h pad.
  rewrite <- !app_assoc. do 7 f_equal. unfold blen in *. lia.
Qed.

(** ** Reading *)

(** The first entry of a buffer, and the name behind its fixed part. *)
Definition first_dirent (bs : bytes) : option (fuse_dirent * bytes) :=
  fd ← dec bs;
  if FUSE_NAME_OFFSET + dirent_namelen fd <=? blen bs
  then Some (fd, slice FUSE_NAME_OFFSET (dirent_namelen fd) bs)
  else None.

(** All entries of a buffer, at most [fuel] of them. *)
Fixpoint parse_dirents (fuel : nat) (bs : bytes) : option (list (fuse_dirent * bytes)) :=
  match fuel, bs with
  | _, [] => Some []
  | O, _ => None
  | S fuel, _ =>
      '(fd, name) ← first_dirent bs;
      rest ← parse_dirents fuel (drop (Z.to_nat (dirent_size name)) bs);
      Some ((fd, name) :: rest)
  end.

Lemma first_dirent_direntry name st off rest :
  name_ok name ->
  first_dirent (direntry name st off ++ rest) = Some (dirent_head name st off, name).
Proof.
  intros Hn. unfold first_dirent, direntry. rewrite <- !app_assoc.
  rewrite dec_enc by apply dirent_head_wf. cbn [mbind option_bind].
  assert (blen (enc (dirent_head name st off)) = FUSE_NAME_OFFSET) as He by apply blen_enc.
  assert (dirent_namelen (dirent_head name st off) = blen name) as ->.
  { apply wrapu_id. unfold name_ok, is_u, blen in *. lia. }
  rewrite (proj2 (Z.leb_le _ _)) by (unfold blen in *; rewrite !length_app; lia).
  rewrite <- He. unfold slice, blen. by rewrite !Nat2Z.id, drop_app_length, take_app_length.
Qed.

(** A directory is a list of names, attributes and cookies. *)
Definition dir_bytes (es : list (bytes * stat * Z)) : bytes :=
  concat (map (fun '(name, st, off) => direntry name st off) es).

Lemma parse_dir_bytes es fuel :
  Forall (fun '(name, _, _) => name_ok name) es -> (length es <= fuel)%nat ->
  parse_dirents fuel (dir_bytes es) =
  Some (map (fun '(name, st, off) => (dirent_head name st off, name)) es).
Proof.
  intros Hes. revert fuel. induction Hes as [|[[name st] off] es Hn _ IH]; intros fuel Hf.
  - by destruct fuel.
  - destruct fuel as [|fuel]; [cbn in Hf; lia|].
    unfold dir_bytes. cbn [map concat]. fold (dir_bytes es).
    assert (direntry name st off ++ dir_bytes es <> []) as Hne.
    { intros H%(f_equal blen). unfold blen in H. rewrite length_app in H.
      pose proof (blen_direntry name st off Hn) as Hl. pose proof (dirent_size_bounds name Hn).
      unfold blen in *. change FUSE_NAME_OFFSET with 24 in *. cbn in H. lia. }
    cbn [parse_dirents]. case_match; [done|]. rewrite <- H.
    rewrite first_dirent_direntry by done. cbn [mbind option_bind].
    rewrite <- (blen_direntry name st off) by done. unfold blen. rewrite Nat2Z.id, drop_app_length.
    rewrite IH by (cbn in Hf; lia). done.
Qed.
