(* ===== verification/DirentPlus.v ===== *)
(** * Directory entries with attributes

    [fuse_add_direntry_plus] of [fuse_lowlevel.c] packs an entry of a directory
    together with what a lookup of it would return, for READDIRPLUS.  What a
    buffer holds after any number of calls, and that reading it returns what was
    packed. *)

From S2P Require Import Prelude Wire KernelAbi World Reply Dirent.
From Stdlib Require Import SpecFloat.

(** [struct fuse_direntplus] is a [struct fuse_entry_out] and a [struct
    fuse_dirent]; [offsetof(struct fuse_direntplus, dirent.name)]. *)
Definition FUSE_NAME_OFFSET_DIRENTPLUS : Z := sizeof fuse_entry_out + sizeof fuse_dirent.

(** The memory at [buf] after the call, and the result; [None] when a timeout is
    not a number the conversion is defined for. *)
Definition fuse_add_direntry_plus (buf : option bytes) (bufsize : Z) (name : bytes)
    (e : fuse_entry_param) (off : Z) : option (option bytes * Z) :=
  let namelen := blen name in
  let entlen := u64 (FUSE_NAME_OFFSET_DIRENTPLUS + namelen) in
  let entlen_padded := FUSE_DIRENT_ALIGN entlen in
  match buf with
  | None => Some (None, entlen_padded)
  | Some mem =>
      if bufsize <? entlen_padded then Some (Some mem, entlen_padded)
      else
        mem ← write_at 0 (repeat 0 (Z.to_nat (sizeof fuse_entry_out))) mem;
        entry_out ← fill_entry e;
        mem ← write_at 0 (enc entry_out) mem;
        mem ← write_at (sizeof fuse_entry_out)
                (enc {| dirent_ino := u64 (st_ino (e_attr e));
                        dirent_off := u64 off;
                        dirent_namelen := u32 namelen;
                        dirent_type := Z.shiftr (Z.land (st_mode (e_attr e)) S_IFMT) 12 |}) mem;
        mem ← write_at FUSE_NAME_OFFSET_DIRENTPLUS name mem;
        mem ← write_at (FUSE_NAME_OFFSET_DIRENTPLUS + namelen)
                (repeat 0 (Z.to_nat (u64 (entlen_padded - entlen)))) mem;
        Some (Some mem, entlen_padded)
  end.

(** ** What is written *)

Definition direntplus_size (name : bytes) : Z :=
  FUSE_DIRENT_ALIGN (u64 (FUSE_NAME_OFFSET_DIRENTPLUS + blen name)).

Lemma direntplus_size_spec name :
  name_ok name ->
  direntplus_size name = (FUSE_NAME_OFFSET_DIRENTPLUS + blen name + 7) `div` 8 * 8.
Proof.
  unfold name_ok. intros Hn. assert (0 <= blen name) by (unfold blen; lia).
  unfold direntplus_size, u64. change FUSE_NAME_OFFSET_DIRENTPLUS with 152.
  rewrite wrapu_id by (unfold is_u; lia). by rewrite dirent_align_spec by lia.
Qed.

(** An entry takes the size of a lookup's reply more than without attributes. *)
Lemma direntplus_dirent_size name :
  name_ok name -> direntplus_size name = sizeof fuse_entry_out + dirent_size name.
Proof.
  intros Hn. rewrite direntplus_size_spec, dirent_size_spec by done.
  change FUSE_NAME_OFFSET_DIRENTPLUS with 152. change FUSE_NAME_OFFSET with 24.
  change (sizeof fuse_entry_out) with (16 * 8).
  replace (152 + blen name + 7) with (24 + blen name + 7 + 16 * 8) by lia.
  rewrite Z.div_add by lia. lia.
Qed.

(** The bytes of an entry. *)
Definition direntplus (name : bytes) (eo : fuse_entry_out) (st : stat) (off : Z) : bytes :=
  enc eo ++ direntry name st off.

Lemma blen_direntplus name eo st off :
  name_ok name -> blen (direntplus name eo st off) = direntplus_size name.
Proof.
  intros Hn. rewrite direntplus_dirent_size, <- (blen_direntry name st off) by done.
  rewrite <- (blen_enc eo). unfold direntplus, blen. rewrite length_app. lia.
Qed.

(** Writing behind a prefix is writing at the start of the rest. *)
Lemma write_at_behind pre src rest off :
  0 <= off ->
  write_at (blen pre + off) src (pre ++ rest) = (pre ++.) <$> write_at off src rest.
Proof.
  intros Ho. unfold write_at, blen. rewrite length_app.
  replace (0 <=? Z.of_nat (length pre) + off) with true by (symmetry; apply Z.leb_le; lia).
  replace (0 <=? off) with true by (symmetry; apply Z.leb_le; lia). cbn [andb].
  replace (Z.of_nat (length pre) + off + Z.of_nat (length src) <=? Z.of_nat (length pre + length rest))
    with (off + Z.of_nat (length src) <=? Z.of_nat (length rest)) by (rewrite Nat2Z.inj_add; lia).
  case_match; [|done]. cbn. f_equal.
  replace (Z.to_nat (Z.of_nat (length pre) + off)) with (length pre + Z.to_nat off)%nat by lia.
  rewrite take_app_add, <- app_assoc. by rewrite <- Nat.add_assoc, drop_app_add.
Qed.

Lemma write_at_start src old rest :
  blen src = blen old -> write_at 0 src (old ++ rest) = Some (src ++ rest).
Proof.
  intros Hl. change 0 with (Z.of_nat (length (@nil Z))). apply (write_at_app [] src old rest).
  unfold blen in Hl. lia.
Qed.

Lemma add_plus_run mem n name e eo off :
  name_ok name -> fill_entry e = Some eo -> direntplus_size name <= n ->
  direntplus_size name <= blen mem ->
  fuse_add_direntry_plus (Some mem) n name e off =
  Some (Some (direntplus name eo (e_attr e) off ++ drop (Z.to_nat (direntplus_size name)) mem),
        direntplus_size name).
Proof.
  intros Hok Heo Hn Hm. pose proof (direntplus_dirent_size name Hok) as Hsz.
  pose proof (dirent_size_bounds name Hok) as Hb. assert (0 <= blen name) as Hl by (unfold blen; lia).
  change (sizeof fuse_entry_out) with 128 in Hsz. change FUSE_NAME_OFFSET with 24 in Hb.
  unfold fuse_add_direntry_plus. fold (direntplus_size name). rewrite (proj2 (Z.ltb_ge _ _)) by done.
  change FUSE_NAME_OFFSET_DIRENTPLUS with (128 + 24). change (sizeof fuse_entry_out) with 128.
  set (old := take 128 mem). set (rest := drop 128 mem).
  assert (blen old = 128) as Hold by (unfold old, blen in *; rewrite length_take; lia).
  assert (blen (enc eo) = 128) as Henc by exact (blen_enc eo).
  pose proof (add_direntry_run rest (dirent_size name) name (e_attr e) off Hok (Z.le_refl _)) as Hrun.
  specialize (Hrun ltac:(unfold rest, blen in *; rewrite length_drop; lia)).
  unfold fuse_add_direntry in Hrun. fold (dirent_size name) in Hrun. fold (dirent_head name (e_attr e) off) in *.
  rewrite (proj2 (Z.ltb_ge _ _)) in Hrun by done. change FUSE_NAME_OFFSET with 24 in Hrun.
  replace (u64 (direntplus_size name - u64 (128 + 24 + blen name)))
    with (u64 (dirent_size name - u64 (24 + blen name))).
  2:{ unfold name_ok in Hok. unfold u64. rewrite !(wrapu_id 64 (_ + blen name)) by (unfold is_u; lia).
      f_equal. lia. }
  set (pad := repeat 0 (Z.to_nat (u64 (dirent_size name - _)))) in *.
  rewrite <- (take_drop 128 mem) at 1. fold old rest.
  rewrite write_at_start by (rewrite Hold; done). cbn [mbind option_bind].
  rewrite Heo. cbn [mbind option_bind].
  rewrite write_at_start by (rewrite Henc; done). cbn [mbind option_bind].
  assert (forall o src r, 0 <= o -> write_at (128 + o) src (enc eo ++ r) = (enc eo ++.) <$> write_at o src r)
    as Hw by (intros; rewrite <- Henc; by apply write_at_behind).
  assert (forall src r, write_at 128 src (enc eo ++ r) = (enc eo ++.) <$> write_at 0 src r) as Hw0
    by (intros; by apply (Hw 0)).
  rewrite Hw0. destruct (write_at 0 _ rest) as [m1|]; [|done]. cbn [mbind option_bind fmap option_fmap option_map] in *.
  rewrite Hw by lia. destruct (write_at 24 _ m1) as [m2|]; [|done]. cbn [mbind option_bind fmap option_fmap option_map] in *.
  rewrite <- Z.add_assoc, Hw by lia. destruct (write_at _ pad m2) as [m3|]; [|done].
  cbn [mbind option_bind fmap option_fmap option_map] in *.
  assert (m3 = direntry name (e_attr e) off ++ drop (Z.to_nat (dirent_size name)) rest) as -> by congruence.
  unfold direntplus. rewrite <- (app_assoc (enc eo)). do 5 f_equal.
  unfold rest. rewrite drop_drop. f_equal. lia.
Qed.

(** *** Timeouts fit their members *)

Lemma uint_of_double_u w t n : 0 < w -> uint_of_double w t = Some n -> is_u w n.
Proof.
  intros Hw. assert (0 < 2 ^ w) by (by apply Z.pow_pos_nonneg; lia). unfold is_u.
  destruct t as [s|s| |s m e]; cbn; [intros [= <-]; lia|done|done|].
  assert (0 <= Z.shiftl (Zpos m) e) by (apply Z.shiftl_nonneg; lia).
  destruct s; [case_match; intros; simplify_eq; lia|].
  case_match eqn:E; [|done]. apply Z.ltb_lt in E. intros [= <-]. lia.
Qed.

Lemma timeout_sec_u t n : calc_timeout_sec t = Some n -> is_u 64 n.
Proof.
  unfold calc_timeout_sec. destruct (SFltb _ _); [intros [= <-]; done|].
  destruct (SFltb _ _); [intros [= <-]; done|]. by apply uint_of_double_u.
Qed.

Lemma timeout_nsec_u t n : calc_timeout_nsec t = Some n -> is_u 32 n.
Proof.
  unfold calc_timeout_nsec. destruct (calc_timeout_sec t); [|done]. cbn [mbind option_bind].
  destruct (SFltb _ _); [intros [= <-]; done|].
  destruct (SFleb _ _); [intros [= <-]; done|]. by apply uint_of_double_u.
Qed.

(** What is sent about a node is always a well-formed message, whatever numbers
    the server fills in. *)
Lemma fill_entry_wf e eo : fill_entry e = Some eo -> wire_wf eo.
Proof.
  unfold fill_entry. intros H.
  destruct (calc_timeout_sec (e_entry_timeout e)) as [es|] eqn:E1; [|done].
  destruct (calc_timeout_nsec (e_entry_timeout e)) as [en|] eqn:E2; [|done].
  destruct (calc_timeout_sec (e_attr_timeout e)) as [as_|] eqn:E3; [|done].
  destruct (calc_timeout_nsec (e_attr_timeout e)) as [an|] eqn:E4; [|done].
  apply timeout_sec_u in E1, E3. apply timeout_nsec_u in E2, E4.
  cbn in H. injection H as <-. split; [|done].
  unfold fits. cbn. repeat (apply Forall2_cons; split); try done; by apply wrapu_range.
Qed.

(** ** Reading *)

(** What a reader finds in an entry: what a lookup would return, the fixed part
    and the name. *)
Definition plus_entry : Type := fuse_entry_out * fuse_dirent * bytes.

Definition first_direntplus (bs : bytes) : option plus_entry :=
  eo ← dec bs;
  '(fd, name) ← first_dirent (PARAM fuse_entry_out bs);
  Some (eo, fd, name).

(** [n] entries, one behind the other. *)
Fixpoint parse_direntplus (n : nat) (bs : bytes) : option (list plus_entry) :=
  match n with
  | O => Some []
  | S n =>
      x ← first_direntplus bs;
      rest ← parse_direntplus n (drop (Z.to_nat (direntplus_size x.2)) bs);
      Some (x :: rest)
  end.

Lemma first_direntplus_run name eo st off rest :
  name_ok name -> wire_wf eo ->
  first_direntplus (direntplus name eo st off ++ rest) = Some (eo, dirent_head name st off, name).
Proof.
  intros Hn Hw. unfold first_direntplus, direntplus. rewrite <- app_assoc, dec_enc by done.
  cbn [mbind option_bind]. rewrite PARAM_enc, first_dirent_direntry by done. done.
Qed.

(** ** Filling a buffer *)

Definition plus_item : Type := bytes * fuse_entry_param * Z.

(** Entries are added until one does not fit: the bytes written, the memory left,
    and the number of entries. *)
Fixpoint pack_plus (written mem : bytes) (es : list plus_item) : option (bytes * bytes * nat) :=
  match es with
  | [] => Some (written, mem, O)
  | (name, e, off) :: es =>
      '(m, n) ← fuse_add_direntry_plus (Some mem) (blen mem) name e off;
      if blen mem <? n then Some (written, mem, O)
      else
        m ← m;
        '(d, r, k) ← pack_plus (written ++ take (Z.to_nat n) m) (drop (Z.to_nat n) m) es;
        Some (d, r, S k)
  end.

Definition plus_view (x : plus_item) : option plus_entry :=
  let '(name, e, off) := x in
  eo ← fill_entry e; Some (eo, dirent_head name (e_attr e) off, name).

Definition plus_item_ok (x : plus_item) : Prop :=
  let '(name, e, _) := x in name_ok name /\ is_Some (fill_entry e).

Definition plus_size (x : plus_item) : Z := let '(name, _, _) := x in direntplus_size name.

Lemma direntplus_size_mod name : name_ok name -> direntplus_size name mod 8 = 0.
Proof. intros Hn. rewrite direntplus_size_spec by done. by apply Z.mod_mul. Qed.

Lemma pack_plus_run es written mem :
  Forall plus_item_ok es ->
  exists d k views, pack_plus written mem es = Some (written ++ d, drop (length d) mem, k) /\
    blen d <= blen mem /\ blen d mod 8 = 0 /\
    mapM plus_view (take k es) = Some views /\
    (forall rest, parse_direntplus k (d ++ rest) = Some views) /\
    (forall x, es !! k = Some x -> blen mem - blen d < plus_size x) /\ (k <= length es)%nat.
Proof.
  intros Hes. revert written mem. induction Hes as [|[[name e] off] es [Hn [eo He]] Hes IH]; intros written mem.
  - exists [], O, []. rewrite app_nil_r. split_and!; try done. by unfold blen; cbn; lia.
  - cbn [pack_plus]. destruct (decide (blen mem < direntplus_size name)) as [Hlt|Hge].
    + exists [], O, []. rewrite app_nil_r. unfold fuse_add_direntry_plus. fold (direntplus_size name).
      rewrite (proj2 (Z.ltb_lt _ _)) by done. cbn [mbind option_bind].
      rewrite (proj2 (Z.ltb_lt _ _)) by done.
      split_and!; try done; [unfold blen; cbn; lia| |cbn; lia]. intros x [= <-]. unfold blen in *. cbn. lia.
    + rewrite (add_plus_run _ _ _ _ eo) by (done || lia). cbn [mbind option_bind].
      rewrite (proj2 (Z.ltb_ge _ _)) by lia. cbn [mbind option_bind].
      set (x := direntplus name eo (e_attr e) off).
      assert (blen x = direntplus_size name) as Hx by (by apply blen_direntplus).
      assert (Z.to_nat (direntplus_size name) = length x) as Hlx by (rewrite <- Hx; unfold blen; lia).
      rewrite Hlx, take_app_length, drop_app_length.
      destruct (IH (written ++ x) (drop (length x) mem)) as (d & k & views & E & Hd & Hm & Hv & Hp & Hmax & Hk).
      rewrite E. cbn [mbind option_bind]. exists (x ++ d), (S k), ((eo, dirent_head name (e_attr e) off, name) :: views).
      assert (blen (x ++ d) = direntplus_size name + blen d) as Hxd
        by (rewrite <- Hx; unfold blen; rewrite length_app; lia).
      assert (blen (drop (length x) mem) = blen mem - direntplus_size name) as Hdm
        by (rewrite <- Hx; unfold blen in *; rewrite length_drop; lia).
      split_and!.
      * by rewrite app_assoc, drop_drop, length_app.
      * lia.
      * rewrite Hxd, Z.add_mod, Hm, direntplus_size_mod by (done || lia). done.
      * cbn. rewrite He. cbn. by rewrite Hv.
      * intros rest. rewrite <- app_assoc. cbn [parse_direntplus].
        assert (first_direntplus (x ++ d ++ rest) = Some (eo, dirent_head name (e_attr e) off, name)) as ->
          by (apply first_direntplus_run; [done|by eapply fill_entry_wf]).
        cbn [mbind option_bind snd].
        by rewrite Hlx, drop_app_length, Hp.
      * intros y Hy. apply Hmax in Hy. lia.
      * cbn. lia.
Qed.

(** C26. A buffer that a server fills with entries and their attributes, one call
    after the other until one does not fit, holds whole entries back to back, each
    on an eight-byte boundary; the memory behind them is untouched, the first entry
    left out does not fit there, and reading the buffer returns for every entry
    its name, its cookie and what a lookup of it would return, all of them
    well-formed messages whatever attributes the server gives. *)
Theorem direntplus_roundtrip es mem :
  Forall plus_item_ok es ->
  exists d k views, pack_plus [] mem es = Some (d, drop (length d) mem, k) /\
    blen d <= blen mem /\ blen d mod 8 = 0 /\
    mapM plus_view (take k es) = Some views /\
    (forall rest, parse_direntplus k (d ++ rest) = Some views) /\
    Forall (fun '(eo, fd, _) => wire_wf eo /\ wire_wf fd) views /\
    (forall x, es !! k = Some x -> blen mem - blen d < plus_size x).
Proof.
  intros Hes. destruct (pack_plus_run es [] mem Hes) as (d & k & views & E & H1 & H2 & H3 & H4 & H5 & _).
  exists d, k, views. split_and!; try done.
  apply mapM_Some_1 in H3. clear -H3. induction H3 as [|[[name e] off] v l vs Hv _ IH]; [done|].
  constructor; [|done]. cbn in Hv. destruct (fill_entry e) as [eo|] eqn:E; [|done].
  injection Hv as <-. split; [by eapply fill_entry_wf|apply dirent_head_wf].
Qed.

(** Two entries, and room for one of them. *)
Definition two_items : list plus_item :=
  [([46], Build_fuse_entry_param 1 0 stat_zero (double_of_Z 1) (double_of_Z 1), 1);
   ([104; 105], Build_fuse_entry_param 2 7 stat_zero (double_of_Z 0) (double_of_Z 3), 2)].

Lemma direntplus_roundtrip_witness : exists d views,
  pack_plus [] (repeat 9 200) two_items = Some (d, drop (length d) (repeat 9 200), 1%nat) /\
  parse_direntplus 1 d = Some views.
Proof.
  destruct (direntplus_roundtrip two_items (repeat 9 200)) as (d & k & views & E & _ & _ & _ & Hp & _).
  - repeat constructor; try done; by eexists.
  - assert (k = 1%nat) as -> by (vm_compute in E; congruence).
    exists d, views. split; [exact E|]. rewrite <- (app_nil_r d). apply Hp.
Defined.
