(* ===== verification/Daemon.v ===== *)
(** * The daemon

    [src/libs/ukfusefs/fuse_daemon.c]: the thread that takes UKFS requests off
    the queue, writes them as FUSE messages into its buffer and passes them to
    the library.  One turn of its endless loop is [fuse_daemon_iteration]. *)

From S2P Require Import Prelude Wire Platform KernelAbi LinkedList World Monad Buffer Request.
From S2P Require Import Reply Server Handlers Interrupt Notify Init Session Queue.

Definition FUSE_DAEMON_BUF_SIZE : Z := 8192.

(** [enum fuse_ukfs_opcode] *)
Inductive fuse_ukfs_opcode :=
| FUSE_UKFS_LOOKUP | FUSE_UKFS_GETATTR | FUSE_UKFS_OPEN | FUSE_UKFS_READ | FUSE_UKFS_READDIR.

Definition ukfs_opcode_val (o : fuse_ukfs_opcode) : Z :=
  match o with
  | FUSE_UKFS_LOOKUP => 1 | FUSE_UKFS_GETATTR => 2 | FUSE_UKFS_OPEN => 3
  | FUSE_UKFS_READ => 4 | FUSE_UKFS_READDIR => 5
  end.

(** ** Assignments to the header *)

Definition in_set_len (x : Z) (h : fuse_in_header) : fuse_in_header :=
  let '(Build_fuse_in_header _ b c d e f g i j) := h in Build_fuse_in_header x b c d e f g i j.
Definition in_set_opcode (x : Z) (h : fuse_in_header) : fuse_in_header :=
  let '(Build_fuse_in_header a _ c d e f g i j) := h in Build_fuse_in_header a x c d e f g i j.
Definition in_set_unique (x : Z) (h : fuse_in_header) : fuse_in_header :=
  let '(Build_fuse_in_header a b _ d e f g i j) := h in Build_fuse_in_header a b x d e f g i j.
Definition in_set_nodeid (x : Z) (h : fuse_in_header) : fuse_in_header :=
  let '(Build_fuse_in_header a b c _ e f g i j) := h in Build_fuse_in_header a b c x e f g i j.
Definition in_set_ids (uid gid pid : Z) (h : fuse_in_header) : fuse_in_header :=
  let '(Build_fuse_in_header a b c d _ _ _ i j) := h in Build_fuse_in_header a b c d uid gid pid i j.

Section daemon.
Context {P : Platform} {S : Server}.

(** [in->...], where [in] is the start of the buffer [b]. *)
Definition get_hdr (b : Z) : M fuse_in_header := mem ← view (b, 0); arg_of fuse_in_header mem.
Definition mod_hdr (b : Z) (f : fuse_in_header -> fuse_in_header) : M unit :=
  h ← get_hdr b; store_mem (b, 0) (enc (f h)).

(** [memcpy(buf + in->len, src, n); in->len += n] *)
Definition append (b : Z) (src : bytes) : M unit :=
  h ← get_hdr b;
  store_mem (b, in_header_len h) src;;
  mod_hdr b (fun h => in_set_len (u32 (in_header_len h + blen src)) h).

Definition fill_lookup (b u : Z) : M unit :=
  k ← get_uk u;
  match uq_in k with
  | In_lookup parent_ino name =>
      mod_hdr b (in_set_nodeid parent_ino);;
      blob ← load name;
      match blob with
      | B_bytes mem => s ← c_string mem; append b (s ++ [0])
      | _ => fault_ TypeConfusion
      end
  | _ => fault_ TypeConfusion
  end.

Definition fill_getattr (b u : Z) : M unit :=
  k ← get_uk u;
  match uq_in k with
  | In_getattr ino =>
      mod_hdr b (in_set_nodeid ino);;
      append b (enc {| getattr_in_getattr_flags := 0; getattr_in_dummy := 0; getattr_in_fh := 0 |})
  | _ => fault_ TypeConfusion
  end.

Definition fill_open (b u : Z) : M unit :=
  k ← get_uk u;
  match uq_in k with
  | In_open ino flags =>
      mod_hdr b (in_set_nodeid ino);;
      append b (enc {| open_in_flags := flags; open_in_open_flags := 0 |})
  | _ => fault_ TypeConfusion
  end.

(** A [fuse_read_in] whose other members are zero. *)
Definition read_in (fh offset size : Z) : fuse_read_in :=
  {| read_in_fh := fh; read_in_offset := offset; read_in_size := size;
     read_in_read_flags := 0; read_in_lock_owner := 0; read_in_flags := 0;
     read_in_padding := 0 |}.

Definition fill_read (b u : Z) : M unit :=
  k ← get_uk u;
  match uq_in k with
  | In_read ino fh offset size =>
      mod_hdr b (in_set_nodeid ino);;
      append b (enc (read_in fh offset size))
  | _ => fault_ TypeConfusion
  end.

Definition fill_readdir (b u : Z) : M unit :=
  k ← get_uk u;
  match uq_in k with
  | In_readdir ino fh offset size =>
      mod_hdr b (in_set_nodeid ino);;
      append b (enc (read_in fh offset size))
  | _ => fault_ TypeConfusion
  end.

Definition dispatch_table : list (fuse_ukfs_opcode * fuse_opcode * (Z -> Z -> M unit)) :=
  [ (FUSE_UKFS_LOOKUP, FUSE_LOOKUP, fill_lookup);
    (FUSE_UKFS_GETATTR, FUSE_GETATTR, fill_getattr);
    (FUSE_UKFS_OPEN, FUSE_OPEN, fill_open);
    (FUSE_UKFS_READ, FUSE_READ, fill_read);
    (FUSE_UKFS_READDIR, FUSE_READDIR, fill_readdir) ].

Definition find_dispatch (opcode : Z) : option (fuse_ukfs_opcode * fuse_opcode * (Z -> Z -> M unit)) :=
  List.find (fun '(o, _, _) => ukfs_opcode_val o =? opcode) dispatch_table.

(** Building the message of [u] in the buffer; [false] for an opcode that is
    not in the table. *)
Definition build_message (b u : Z) : M bool :=
  k ← get_uk u;
  store_mem (b, 0) (repeat 0 (Z.to_nat (sizeof fuse_in_header)));;
  mod_hdr b (fun h => in_set_len (sizeof fuse_in_header)
              (in_set_ids 0 0 1 (in_set_unique (uq_unique k) h)));;
  match find_dispatch (uq_opcode k) with
  | None => mret false
  | Some (_, op, fill) => mod_hdr b (in_set_opcode op);; fill b u;; mret true
  end.

Definition fuse_daemon_iteration (b : Z) : M unit :=
  u ← fuse_ukfs_queue_pop;
  known ← build_message b u;
  if (known : bool) then
    h ← get_hdr b;
    fuse_session_process_buf_internal
      {| buf_size := in_header_len h; buf_flags := 0; buf_mem := Some (b, 0); buf_fd := 0;
         buf_pos := 0; buf_mem_size := 0 |} (Some u)
  else
    mod_uk u (uq_set_error (- ENOSYS));;
    mod_uk u (uq_set_reply_data None);;
    mod_uk u (uq_set_reply_len 0);;
    up_done u.

(** The start of [fuse_daemon_thread]: the buffer, or an early return. *)
Definition fuse_daemon_begin : M (option Z) := memalign FUSE_DAEMON_BUF_SIZE.

Definition fuse_daemon_start : M Z :=
  if negb uk_alloc_get_default then mret (- ENOMEM)
  else
    da ← malloc 16;
    match da with
    | None => mret (- ENOMEM)
    | Some da =>
        store da (B_bytes []);;
        n ← gets w_nio;
        modify (w_set_nio (Datatypes.S n));;
        if uk_thread_create_ok n then emit Ev_thread;; mret 0
        else free (Some da);; mret (- ENOMEM)
    end.
End daemon.

(** ** Specification of the messages *)

Section daemon_spec.
Context {P : Platform} {S : Server}.
Implicit Types (w : world) (k : fuse_ukfs_request).

Lemma view_run b mem w : w_mem w !! b = Some mem -> view (b, 0) w = Ok mem w.
Proof.
  intros H. unfold view. cbn. rewrite H.
  by rewrite (proj2 (Z.leb_le 0 (blen mem))) by (unfold blen; lia).
Qed.

(** A view behind the first [n] bytes. *)
Lemma view_drop_run b pre rest w :
  w_mem w !! b = Some (pre ++ rest) -> view (ptr_add (b, 0) (blen pre)) w = Ok rest w.
Proof.
  intros H. unfold view, ptr_add. cbn. rewrite H. unfold blen.
  rewrite (proj2 (Z.leb_le 0 _)) by lia.
  rewrite (proj2 (Z.leb_le _ _)) by (rewrite length_app; lia). cbn.
  by rewrite Z.add_0_l, Nat2Z.id, drop_app_length.
Qed.

Lemma store_mem_run b pre old rest src w :
  w_mem w !! b = Some (pre ++ old ++ rest) -> length old = length src ->
  store_mem (b, blen pre) src w = Ok tt (w_set_mem (<[b := pre ++ src ++ rest]> (w_mem w)) w).
Proof.
  intros H Hl. unfold store_mem. cbn. rewrite H. unfold blen. by rewrite write_at_app.
Qed.

(** Writing over the start of an object, and past its end. *)
Lemma store_mem_start b mem src w :
  w_mem w !! b = Some mem -> (length src <= length mem)%nat ->
  store_mem (b, 0) src w = Ok tt (w_set_mem (<[b := src ++ drop (length src) mem]> (w_mem w)) w).
Proof.
  intros H Hl. apply (store_mem_run b [] (take (length src) mem)); [|rewrite length_take; lia].
  by rewrite app_nil_l, take_drop.
Qed.

Lemma store_mem_overflow b mem off src w :
  w_mem w !! b = Some mem -> blen mem < off + blen src ->
  store_mem (b, off) src w = Fault OutOfBounds.
Proof.
  intros H Hl. unfold store_mem, write_at. cbn. rewrite H. unfold blen in Hl.
  rewrite (proj2 (Z.leb_gt (off + Z.of_nat (length src)) _)) by lia. by rewrite andb_false_r.
Qed.

Lemma arg_of_run {A} `{WireOk A} (a : A) rest w :
  wire_wf a -> arg_of A (enc a ++ rest) w = Ok a w.
Proof. intros Hwf. unfold arg_of. apply of_option_run. by apply dec_enc. Qed.

Lemma get_hdr_run b h rest w :
  w_mem w !! b = Some (enc h ++ rest) -> wire_wf h -> get_hdr b w = Ok h w.
Proof.
  intros H Hwf. unfold get_hdr. mstep by (by apply view_run). by apply arg_of_run.
Qed.

Lemma mod_hdr_run b f h rest w :
  w_mem w !! b = Some (enc h ++ rest) -> wire_wf h ->
  mod_hdr b f w = Ok tt (w_set_mem (<[b := enc (f h) ++ rest]> (w_mem w)) w).
Proof.
  intros H Hwf. unfold mod_hdr. mstep by (by eapply get_hdr_run).
  apply (store_mem_run b [] (enc h)); [done|]. by rewrite !length_enc.
Qed.

Lemma append_run b src h rest w :
  w_mem w !! b = Some (enc h ++ rest) -> wire_wf h -> in_header_len h = sizeof fuse_in_header ->
  (length src <= length rest)%nat ->
  append b src w = Ok tt (w_set_mem
    (<[b := enc (in_set_len (u32 (sizeof fuse_in_header + blen src)) h) ++ src ++
            drop (length src) rest]> (w_mem w)) w).
Proof.
  intros H Hwf Hlen Hl. unfold append. mstep by (by eapply get_hdr_run).
  assert (store_mem (b, in_header_len h) src w = Ok tt (w_set_mem
    (<[b := enc h ++ src ++ drop (length src) rest]> (w_mem w)) w)) as E.
  { rewrite Hlen, <- (blen_enc h).
    apply (store_mem_run b (enc h) (take (length src) rest) (drop (length src) rest));
      [by rewrite take_drop|rewrite length_take; lia]. }
  mstep by (apply E). erewrite mod_hdr_run; [|apply lookup_insert_eq|done].
  cbn [w_mem w_set_mem]. by rewrite insert_insert_eq, Hlen.
Qed.

Lemma append_overflow b src h rest w :
  w_mem w !! b = Some (enc h ++ rest) -> wire_wf h -> in_header_len h = sizeof fuse_in_header ->
  (length rest < length src)%nat -> append b src w = Fault OutOfBounds.
Proof.
  intros H Hwf Hlen Hl. unfold append. mstep by (by eapply get_hdr_run).
  apply bind_fault. rewrite Hlen. eapply store_mem_overflow; [done|].
  rewrite <- (blen_enc h). unfold blen. rewrite length_app. lia.
Qed.

(** The operation, node and payload of the message for a request. *)
Definition ukfs_message w (inp : ukfs_in) : option (fuse_ukfs_opcode * fuse_opcode * Z * bytes) :=
  match inp with
  | In_none => None
  | In_lookup parent name =>
      match w_blobs w !! name with
      | Some (B_bytes mem) =>
          s ← cstr mem; Some (FUSE_UKFS_LOOKUP, FUSE_LOOKUP, parent, s ++ [0])
      | _ => None
      end
  | In_getattr ino => Some (FUSE_UKFS_GETATTR, FUSE_GETATTR, ino, enc (Build_fuse_getattr_in 0 0 0))
  | In_open ino flags => Some (FUSE_UKFS_OPEN, FUSE_OPEN, ino, enc (Build_fuse_open_in flags 0))
  | In_read ino fh offset size =>
      Some (FUSE_UKFS_READ, FUSE_READ, ino, enc (read_in fh offset size))
  | In_readdir ino fh offset size =>
      Some (FUSE_UKFS_READDIR, FUSE_READDIR, ino, enc (read_in fh offset size))
  end.

(** The header the daemon writes. *)
Definition daemon_header (op unique nodeid len : Z) : fuse_in_header :=
  Build_fuse_in_header len op unique nodeid 0 0 1 0 0.

Lemma daemon_header_wf op unique nodeid len :
  is_u 32 op -> is_u 64 unique -> is_u 64 nodeid -> is_u 32 len ->
  wire_wf (daemon_header op unique nodeid len).
Proof. intros. solve_wire_wf. Qed.

Definition in_header_zero : fuse_in_header := Build_fuse_in_header 0 0 0 0 0 0 0 0 0.

(** The header of a message before its handler-specific part. *)
Lemma message_start b mem w :
  w_mem w !! b = Some mem -> blen mem = FUSE_DAEMON_BUF_SIZE ->
  exists rest, mem = take 40 mem ++ rest /\ rest = drop 40 mem /\ blen rest = 8152 /\
    store_mem (b, 0) (repeat 0 (Z.to_nat (sizeof fuse_in_header))) w =
    Ok tt (w_set_mem (<[b := enc in_header_zero ++ rest]> (w_mem w)) w).
Proof.
  unfold blen, FUSE_DAEMON_BUF_SIZE. intros H Hl. exists (drop 40 mem). split_and!; try done.
  - by rewrite take_drop.
  - unfold blen. rewrite length_drop. lia.
  - erewrite store_mem_start; [|done|rewrite repeat_length; change (Z.to_nat (sizeof fuse_in_header)) with 40%nat; lia].
    rewrite repeat_length. reflexivity.
Qed.

Definition message_mem (op : Z) (unique nodeid : Z) (payload mem : bytes) : bytes :=
  enc (daemon_header op unique nodeid (sizeof fuse_in_header + blen payload)) ++
  payload ++ drop (40 + length payload) mem.

(** The last step of the [fill_*] functions. *)
Lemma append_message b op unique nodeid payload rest w :
  w_mem w !! b = Some (enc (daemon_header op unique nodeid (sizeof fuse_in_header)) ++ rest) ->
  is_u 32 op -> is_u 64 unique -> is_u 64 nodeid -> (length payload <= length rest)%nat ->
  blen rest = 8152 ->
  append b payload w =
  Ok tt (w_set_mem (<[b := enc (daemon_header op unique nodeid (sizeof fuse_in_header + blen payload)) ++
                           payload ++ drop (length payload) rest]> (w_mem w)) w).
Proof.
  intros H Hop Hun Hno Hl Hr.
  erewrite append_run; [|done|by apply daemon_header_wf|done|done].
  unfold daemon_header. cbn [in_set_len]. unfold u32. rewrite wrapu_id; [done|].
  unfold is_u, blen in *. change (sizeof fuse_in_header) with 40. lia.
Qed.

Lemma opcode_u32 (op : fuse_opcode) : is_u 32 op.
Proof. unfold is_u. by destruct op. Qed.

(** The rows of the table. *)
Definition fuse_op_of (uop : fuse_ukfs_opcode) : fuse_opcode :=
  match uop with
  | FUSE_UKFS_LOOKUP => FUSE_LOOKUP | FUSE_UKFS_GETATTR => FUSE_GETATTR
  | FUSE_UKFS_OPEN => FUSE_OPEN | FUSE_UKFS_READ => FUSE_READ
  | FUSE_UKFS_READDIR => FUSE_READDIR
  end.
Definition fill_of (uop : fuse_ukfs_opcode) : Z -> Z -> M unit :=
  match uop with
  | FUSE_UKFS_LOOKUP => fill_lookup | FUSE_UKFS_GETATTR => fill_getattr
  | FUSE_UKFS_OPEN => fill_open | FUSE_UKFS_READ => fill_read
  | FUSE_UKFS_READDIR => fill_readdir
  end.

Lemma find_dispatch_spec uop :
  find_dispatch (ukfs_opcode_val uop) = Some (uop, fuse_op_of uop, fill_of uop).
Proof. by destruct uop. Qed.

Lemma find_dispatch_unknown op : op < 1 \/ 5 < op -> find_dispatch op = None.
Proof.
  intros H. unfold find_dispatch, dispatch_table. cbn [List.find ukfs_opcode_val].
  by rewrite !(proj2 (Z.eqb_neq _ op)) by lia.
Qed.

Lemma ukfs_message_op w inp uop op nodeid payload :
  ukfs_message w inp = Some (uop, op, nodeid, payload) -> op = fuse_op_of uop.
Proof.
  destruct inp as [|parent name| | | |]; cbn; try (by intros [= <- <- _ _]).
  destruct (w_blobs w !! name) as [[]|]; try done.
  by intros (s & _ & [= <- <- _ _])%bind_Some.
Qed.

Lemma fill_run b u k uop op unique nodeid payload rest w :
  w_uks w !! u = Some k -> ukfs_message w (uq_in k) = Some (uop, op, nodeid, payload) ->
  is_u 64 unique -> is_u 64 nodeid ->
  w_mem w !! b = Some (enc (daemon_header op unique 0 (sizeof fuse_in_header)) ++ rest) ->
  blen rest = 8152 -> (length payload <= length rest)%nat ->
  fill_of uop b u w =
  Ok tt (w_set_mem (<[b := enc (daemon_header op unique nodeid (sizeof fuse_in_header + blen payload)) ++
                           payload ++ drop (length payload) rest]> (w_mem w)) w).
Proof.
  intros Hu Hm Hun Hno Hb Hr Hl. pose proof (opcode_u32 op) as Hop.
  assert (mod_hdr b (in_set_nodeid nodeid) w = Ok tt (w_set_mem
    (<[b := enc (daemon_header op unique nodeid (sizeof fuse_in_header)) ++ rest]> (w_mem w)) w)) as E.
  { apply (mod_hdr_run b (in_set_nodeid nodeid) (daemon_header op unique 0 (sizeof fuse_in_header)));
      [done|by apply daemon_header_wf]. }
  assert (forall w', w' = w_set_mem
    (<[b := enc (daemon_header op unique nodeid (sizeof fuse_in_header)) ++ rest]> (w_mem w)) w ->
    append b payload w' =
    Ok tt (w_set_mem (<[b := enc (daemon_header op unique nodeid (sizeof fuse_in_header + blen payload)) ++
                             payload ++ drop (length payload) rest]> (w_mem w)) w)) as Ea.
  { intros w' ->. erewrite append_message; [|apply lookup_insert_eq|done..].
    cbn [w_mem w_set_mem]. by rewrite insert_insert_eq. }
  destruct (uq_in k) as [|parent name|ino|ino flags|ino fh off size|ino fh off size] eqn:Hin;
    cbn [ukfs_message] in Hm; try done.
  2-5: injection Hm as <- <- <- <-; cbn [fill_of];
    unfold fill_getattr, fill_open, fill_read, fill_readdir;
    mstep; rewrite Hin; mstep by (apply E); by apply Ea.
  destruct (w_blobs w !! name) as [[|bs| | | |]|] eqn:Hname; try done.
  apply bind_Some in Hm as (s & Hs & [= <- <- <- <-]). cbn [fill_of]. unfold fill_lookup.
  mstep. rewrite Hin. mstep by (apply E). mstep by (apply load_run; exact Hname).
  mstep by (apply of_option_run; exact Hs). by apply Ea.
Qed.

(** The daemon's message, for each kind of request. *)
Lemma build_message_run b u k uop op nodeid payload mem w :
  w_uks w !! u = Some k -> ukfs_message w (uq_in k) = Some (uop, op, nodeid, payload) ->
  uq_opcode k = ukfs_opcode_val uop -> is_u 64 (uq_unique k) -> is_u 64 nodeid ->
  w_mem w !! b = Some mem -> blen mem = FUSE_DAEMON_BUF_SIZE -> blen payload <= 8152 ->
  build_message b u w =
  Ok true (w_set_mem (<[b := message_mem op (uq_unique k) nodeid payload mem]> (w_mem w)) w).
Proof.
  intros Hu Hm Hop Hun Hno Hb Hbl Hp. unfold build_message. mstep.
  destruct (message_start _ _ _ Hb Hbl) as (rest & Hsplit & Hrest & Hlr & E).
  mstep by (apply E).
  mstep by (eapply mod_hdr_run; [apply lookup_insert_eq|solve_wire_wf]).
  rewrite Hop, find_dispatch_spec, <- (ukfs_message_op _ _ _ _ _ _ Hm).
  pose proof (opcode_u32 op) as Hopw.
  mstep by (eapply mod_hdr_run; [apply lookup_insert_eq|by apply (daemon_header_wf 0)]).
  mstep by (eapply (fill_run b u k uop op (uq_unique k)); [done|done|done|done|apply lookup_insert_eq
    |done|unfold blen in *; lia]).
  cbn [w_mem w_set_mem]. rewrite !insert_insert_eq. unfold message_mem.
  assert (drop (length payload) rest = drop (40 + length payload) mem) as <-
    by (by rewrite Hrest, drop_drop). done.
Qed.

(** A name that does not fit overruns the buffer. *)
Lemma build_message_overflow b u k parent name bs s mem w :
  w_uks w !! u = Some k -> uq_in k = In_lookup parent name ->
  w_blobs w !! name = Some (B_bytes bs) -> cstr bs = Some s ->
  uq_opcode k = ukfs_opcode_val FUSE_UKFS_LOOKUP -> is_u 64 (uq_unique k) -> is_u 64 parent ->
  w_mem w !! b = Some mem -> blen mem = FUSE_DAEMON_BUF_SIZE -> 8152 <= blen s ->
  build_message b u w = Fault OutOfBounds.
Proof.
  intros Hu Hin Hname Hs Hop Hun Hno Hb Hbl Hlong. unfold build_message. mstep.
  destruct (message_start _ _ _ Hb Hbl) as (rest & Hsplit & Hrest & Hlr & E).
  mstep by (apply E).
  mstep by (eapply mod_hdr_run; [apply lookup_insert_eq|solve_wire_wf]).
  rewrite Hop, find_dispatch_spec.
  mstep by (eapply mod_hdr_run; [apply lookup_insert_eq|by apply (daemon_header_wf 0)]).
  apply bind_fault. cbn [fill_of]. unfold fill_lookup. mstep. rewrite Hin.
  mstep by (eapply mod_hdr_run; [apply lookup_insert_eq|by apply daemon_header_wf]).
  mstep by (apply load_run; exact Hname). mstep by (apply of_option_run; exact Hs).
  eapply append_overflow; [apply lookup_insert_eq|by apply daemon_header_wf|done|].
  unfold blen in *. rewrite length_app. cbn. lia.
Qed.
End daemon_spec.
