(* ===== verification/UkFs.v ===== *)
(** * The UKFS driver

    [src/libs/ukfusefs/ukfs-fuse.c]: the file operations the virtual file system
    calls.  Each of them that needs the server queues a request and sleeps until
    it is answered; what the other threads do in the meantime is the parameter
    [while_waiting] of the class [Scheduler]. *)

From S2P Require Import Prelude Wire Platform KernelAbi World Monad Request Reply Server.
From S2P Require Import Handlers Buffer Init Session Queue Daemon.

(** [(uint64_t)-1]: the file has not been opened yet. *)
Definition FH_NONE : Z := 2 ^ 64 - 1.

Definition FUSE_ROOT_ID : Z := 1.

(** [fusefs_fs_ops], the only operation table of the driver. *)
Definition fusefs_fs_ops : Z := 1.

(** What the threads other than the calling one do while it sleeps. *)
Class Scheduler {P : Platform} := { while_waiting : M unit }.

(** [struct uk_statx], the members the driver sets. *)
Record uk_statx := {
  stx_mask : Z; stx_mode : Z; stx_size : Z; stx_ino : Z; stx_nlink : Z; stx_uid : Z; stx_gid : Z }.

(** [struct uk_fs_dirent] *)
Record uk_fs_dirent := {
  d_ino : Z; d_off : Z; d_reclen : Z; d_type : Z; d_name : bytes }.

(** [strndup(path, len)]: the bytes before the first zero byte, at most [len];
    [None] when that reads past the end of the object. *)
Fixpoint strndup_bytes (path : bytes) (len : nat) : option bytes :=
  match len, path with
  | O, _ => Some []
  | S _, [] => None
  | S len, b :: path => if b =? 0 then Some [] else (b ::.) <$> strndup_bytes path len
  end.

Section ukfs.
Context {P : Platform} {S : Server} {T : Scheduler}.

(** ** Requests on the caller's stack *)

Definition new_ukfs_request (opcode : fuse_ukfs_opcode) (inp : ukfs_in) : M Z :=
  u ← gets w_next;
  unique ← gets w_unique;
  modify (fun w => w_set_next (u + 1) (w_set_unique (u64 (unique + 1))
    (w_set_uks (<[u := {| uq_opcode := ukfs_opcode_val opcode; uq_unique := unique;
                          uq_in := inp; uq_error := 0; uq_reply_data := None;
                          uq_reply_len := 0; uq_done := uk_semaphore_init 0 |}]> (w_uks w)) w)));;
  mret u.

(** [uk_semaphore_down(&req.done)] *)
Definition down_done (u : Z) : M unit :=
  k ← get_uk u;
  s ← of_option Deadlock (uk_semaphore_down (uq_done k));
  mod_uk u (uq_set_done s).

(** Queue the request, sleep, and read it after the wake-up; its storage ends
    with the function that called. *)
Definition submit (opcode : fuse_ukfs_opcode) (inp : ukfs_in) : M fuse_ukfs_request :=
  u ← new_ukfs_request opcode inp;
  fuse_ukfs_queue_push u;;
  while_waiting;;
  down_done u;;
  k ← get_uk u;
  modify (fun w => w_set_uks (delete u (w_uks w)) w);;
  mret k.

(** ** Files *)

Definition get_file (f : Z) : M fusefs_file := fun w =>
  match w_files w !! f with Some ff => Ok ff w | None => Fault BadPointer end.
Definition mod_file (f : Z) (g : fusefs_file -> fusefs_file) : M unit := fun w =>
  match w_files w !! f with
  | Some ff => Ok tt (w_set_files (<[f := g ff]> (w_files w)) w)
  | None => Fault BadPointer
  end.

Definition ff_set_fh (x : Z) (ff : fusefs_file) : fusefs_file :=
  {| ff_nodeid := ff_nodeid ff; ff_fh := x; ff_upref := ff_upref ff; ff_vol := ff_vol ff;
     ff_fsops := ff_fsops ff |}.
Definition ff_set_upref (x : option Z) (ff : fusefs_file) : fusefs_file :=
  {| ff_nodeid := ff_nodeid ff; ff_fh := ff_fh ff; ff_upref := x; ff_vol := ff_vol ff;
     ff_fsops := ff_fsops ff |}.

Definition fusefs_release (f what : Z) : M unit :=
  when (flag what UK_FILE_RELEASE_OBJ)
    (ff ← get_file f;
     match ff_upref ff with Some up => emit (Ev_release up) | None => mret tt end;;
     modify (fun w => w_set_files (delete f (w_files w)) w)).

Definition fusefs_do_open (f : Z) : M Z :=
  ff ← get_file f;
  req ← submit FUSE_UKFS_OPEN (In_open (ff_nodeid ff) 0);
  if truth (uq_error req) then mret (uq_error req)
  else
    match uq_reply_data req with
    | None => mret (- EIO)
    | Some out =>
        b ← load out;
        match b with
        | B_open_out o =>
            mod_file f (ff_set_fh (open_out_fh o));;
            free (Some out);;
            mret 0
        | _ => fault_ TypeConfusion
        end
    end.

(** The loop that spreads [remaining] bytes of [src] over the buffers: what is
    written to each of them, and the number of bytes copied. *)
Fixpoint scatter (iov : list Z) (src : bytes) (remaining : Z) : option (list bytes * Z) :=
  match iov with
  | [] => Some ([], 0)
  | len :: iov =>
      if 0 <? remaining then
        let n := if len <? remaining then len else remaining in
        if n <=? blen src then
          '(chunks, copied) ← scatter iov (drop (Z.to_nat n) src) (remaining - n);
          Some (slice 0 n src :: chunks, n + copied)
        else None
      else Some ([], 0)
  end.

Definition iov_total (iov : list Z) : Z := fold_left (fun total len => u64 (total + len)) iov 0.

(** [iov] holds the lengths of the caller's buffers; with the result comes what
    is written to each of them. *)
Definition fusefs_read (f : Z) (iov : list Z) (off : Z) : M (Z * list bytes) :=
  ff ← get_file f;
  err ← (if ff_fh ff =? FH_NONE then fusefs_do_open f else mret 0);
  if truth err then mret (err, [])
  else
    let total := iov_total iov in
    if total =? 0 then mret (0, [])
    else
      ff ← get_file f;
      req ← submit FUSE_UKFS_READ (In_read (ff_nodeid ff) (ff_fh ff) (u64 off) (u32 total));
      if truth (uq_error req) then mret (uq_error req, [])
      else
        match uq_reply_data req with
        | None => mret (0, [])
        | Some p =>
            b ← load p;
            '(chunks, copied) ← match b with
              | B_bytes src => of_option OutOfBounds (scatter iov src (uq_reply_len req))
              | B_undef _ => if 0 <? uq_reply_len req then fault_ Uninitialized else mret ([], 0)
              | _ => fault_ TypeConfusion
              end;
            free (Some p);;
            mret (copied, chunks)
        end.

Definition fusefs_getstat (f : Z) : M (Z * option uk_statx) :=
  ff ← get_file f;
  req ← submit FUSE_UKFS_GETATTR (In_getattr (ff_nodeid ff));
  if truth (uq_error req) then mret (uq_error req, None)
  else
    match uq_reply_data req with
    | None => mret (- EIO, None)
    | Some out =>
        b ← load out;
        match b with
        | B_stat st =>
            free (Some out);;
            mret (0, Some {|
              stx_mask := Z.lor (Z.lor (Z.lor UK_STATX_MODE UK_STATX_SIZE) UK_STATX_INO) UK_STATX_NLINK;
              stx_mode := st_mode st; stx_size := st_size st; stx_ino := st_ino st;
              stx_nlink := st_nlink st; stx_uid := st_uid st; stx_gid := st_gid st |})
        | _ => fault_ TypeConfusion
        end
    end.

Definition fusefs_file_alloc (nodeid vol fsops : Z) : M (option Z) :=
  p ← alloc;
  match p with
  | None => mret None
  | Some f =>
      modify (fun w => w_set_files (<[f := {| ff_nodeid := nodeid; ff_fh := FH_NONE;
        ff_upref := None; ff_vol := vol; ff_fsops := fsops |}]> (w_files w)) w);;
      mret (Some f)
  end.

Definition fusefs_statfs (f : Z) : M Z := mret (- ENOSYS).

(** [strndup]: a new block, or [NULL]. *)
Definition strndup (path : bytes) (len : Z) : M (option Z) :=
  s ← of_option OutOfBounds (strndup_bytes path (Z.to_nat len));
  p ← malloc (blen s + 1);
  match p with
  | None => mret None
  | Some a => store a (B_bytes (s ++ [0]));; mret (Some a)
  end.

(** Result, [out->target] and [*nout] when they are set. *)
Record lookup_result := { lk_ret : Z; lk_target : option Z; lk_nout : option Z }.

(** [path] is the memory from the path on. *)
Definition path_is (path name : bytes) : bool := bool_decide (take (length name) path = name).

Definition fusefs_lookup (f : Z) (path : bytes) (len : Z) : M lookup_result :=
  ff ← get_file f;
  if (len =? 0) || ((len =? 1) && path_is path (str "."%string)) then
    emit (Ev_acquire f);;
    mret {| lk_ret := UKFS_STOP_FILE; lk_target := Some f; lk_nout := Some len |}
  else if (len =? 2) && path_is path (str ".."%string) then
    let target := match ff_upref ff with Some up => up | None => f end in
    emit (Ev_acquire target);;
    mret {| lk_ret := UKFS_STOP_MNT; lk_target := Some target; lk_nout := Some len |}
  else
    let fail err := mret {| lk_ret := err; lk_target := None; lk_nout := None |} in
    name ← strndup path len;
    match name with
    | None => fail (- ENOMEM)
    | Some name =>
        req ← submit FUSE_UKFS_LOOKUP (In_lookup (ff_nodeid ff) name);
        free (Some name);;
        if truth (uq_error req) then fail (uq_error req)
        else
          match uq_reply_data req with
          | None => fail (- EIO)
          | Some p =>
              b ← load p;
              match b with
              | B_entry e =>
                  child ← fusefs_file_alloc (e_ino e) (ff_vol ff) (ff_fsops ff);
                  free (Some p);;
                  match child with
                  | None => fail (- ENOMEM)
                  | Some c => mret {| lk_ret := UKFS_STOP_FILE; lk_target := Some c;
                                      lk_nout := Some len |}
                  end
              | _ => fault_ TypeConfusion
              end
          end
    end.

Definition fusefs_graft (f ref : Z) : M Z :=
  ff ← get_file f;
  assert_ (negb (is_set (ff_upref ff)));;
  emit (Ev_acquire ref);;
  mod_file f (ff_set_upref (Some ref));;
  mret 0.

(** Result, the record written to the caller's buffer of [len] bytes, and the
    new cursor. *)
Definition fusefs_listdir (f cur len : Z) : M (Z * option (uk_fs_dirent * Z)) :=
  ff ← get_file f;
  req ← submit FUSE_UKFS_READDIR (In_readdir (ff_nodeid ff) 0 cur 4096);
  if truth (uq_error req) then mret (uq_error req, None)
  else
    match uq_reply_data req with
    | None => mret (0, None)
    | Some p =>
        if uq_reply_len req =? 0 then free (Some p);; mret (0, None)
        else
          b ← load p;
          match b with
          | B_bytes mem =>
              fd ← of_option OutOfBounds (dec mem);
              let namelen := dirent_namelen fd in
              let reclen := UKFS_DIRENT_RECLEN namelen in
              if len <? reclen then free (Some p);; mret (- EINVAL, None)
              else
                let name := slice FUSE_NAME_OFFSET namelen mem in
                if (FUSE_NAME_OFFSET + namelen <=? blen mem) &&
                   (UKFS_DIRENT_NAME_OFF + namelen + 1 <=? reclen) then
                  free (Some p);;
                  mret (reclen,
                    Some ({| d_ino := dirent_ino fd; d_off := i64 (dirent_off fd);
                             d_reclen := u16 reclen; d_type := wrapu 8 (dirent_type fd);
                             d_name := name ++ repeat 0 (Z.to_nat (reclen - UKFS_DIRENT_NAME_OFF - namelen)) |},
                          dirent_off fd))
                else fault_ OutOfBounds
          | B_undef _ => fault_ Uninitialized
          | _ => fault_ TypeConfusion
          end
    end.

(** The root file, or [NULL] with [ENOMEM]. *)
Definition fusefs_vopen : M (option Z) :=
  n ← fusefs_file_alloc FUSE_ROOT_ID 0 fusefs_fs_ops;
  match n with
  | None => mret None
  | Some n =>
      fuse_ukfs_queue_init;;
      se ← fuse_session_get_registered;
      when se (fuse_daemon_start;; mret tt);;
      mret (Some n)
  end.
End ukfs.
