(* ===== verification/System.v ===== *)
(** * The system

    Driver, queue, daemon, library and server together.  [FileServer] is what
    the driver relies on: every operation it can request is answered once, with
    an error or with data.  [submit_run] follows a request from a file operation
    through the daemon's buffer and the library to the server and back. *)

From S2P Require Import Prelude Wire Platform KernelAbi LinkedList World Monad Buffer Request.
From S2P Require Import Reply Server Handlers Interrupt Notify Init Session Queue Dirent.
From S2P Require Import Daemon UkFs.

(** ** Answers *)

(** What a client is told: an error number, an object, or bytes.  [lfail] is the
    length it is told when there is no memory for the object. *)
Inductive answer :=
| A_err (err : Z)
| A_obj (b : blob) (len lfail : Z)
| A_buf (bs : bytes).

Section answers.
Context {P : Platform} {PS : PlatformSpec P}.
Implicit Types (w : world) (l il : list Z).

Definition apply_answer (a : answer) (u : Z) w : world :=
  match a with
  | A_err err => finish u (- err) None 0 w
  | A_obj b len lfail => deliver u b len lfail w
  | A_buf bs => deliver_buf u (Some bs) (blen bs) w
  end.

(** Error, object and length the client sees; [ok] tells whether there is
    memory for the object. *)
Definition result_of (a : answer) (ok : bool) : Z * option blob * Z :=
  match a with
  | A_err err => (- err, None, 0)
  | A_obj b len lfail => if ok then (0, Some b, len) else (- ENOMEM, None, lfail)
  | A_buf bs =>
      if ok then (0, Some (buf_blob (Some bs) (blen bs)), blen bs)
      else (if 0 <? blen bs then - ENOMEM else 0, None, blen bs)
  end.

(** Allocations of the reply itself. *)
Definition answer_allocs (a : answer) : nat := match a with A_err _ => 0 | _ => 1 end.

Definition add_blob (p : Z) (d : option blob) (m : gmap Z blob) : gmap Z blob :=
  match d with Some b => <[p := b]> m | None => m end.

(** [n] calls of the allocator that leave nothing behind. *)
Definition bump (n : nat) w : world := w_set_nalloc (n + w_nalloc w)%nat w.

Lemma bump_0 w : bump 0 w = w.
Proof. by destruct w. Qed.

(** An answer as one update of the world. *)
Lemma apply_answer_eq a u k w :
  w_uks w !! u = Some k ->
  let '(e, d, n) := result_of a (alloc_ok (w_nalloc w)) in
  apply_answer a u w =
  w_set_uks (<[u := answered k e ((fun _ => w_next w) <$> d) n]> (w_uks w))
    (w_set_blobs (add_blob (w_next w) d (w_blobs w))
      (w_set_next (w_next w + (if d then 1 else 0)) (bump (answer_allocs a) w))).
Proof.
  intros Hk. unfold apply_answer, deliver_buf, deliver, finish, result_of, bump.
  destruct a as [err|b len lfail|bs]; cbn [answer_allocs Nat.add].
  - rewrite Hk. cbn. rewrite Z.add_0_r. by destruct w.
  - destruct (alloc_ok (w_nalloc w)); cbn; rewrite Hk; [done|].
    rewrite Z.add_0_r. by destruct w.
  - destruct (alloc_ok (w_nalloc w)); cbn [orb]; [cbn; by rewrite Hk|].
    destruct (0 <? blen bs); cbn; rewrite Hk, Z.add_0_r; by destruct w.
Qed.

(** [m] is a handler that answers [a] after [n] allocations. *)
Definition answers (m : Z -> M unit) (n : nat) (a : answer) : Prop :=
  forall w r l il q u k,
    live w r l il -> w_reqs w !! r = Some q -> rq_ukfs_req q = Some u -> w_uks w !! u = Some k ->
    (forall i, (i < n)%nat -> alloc_ok (w_nalloc w + i)%nat = true) ->
    4 <= proto_minor (se_conn (w_se w)) ->
    exists h, m r w = Ok tt (w_set_reqs h (apply_answer a u (bump n w))) /\ freed w r l il h.

Lemma replies_answers (m : Z -> M Z) a :
  (forall w r l il q u k,
     live w r l il -> w_reqs w !! r = Some q -> rq_ukfs_req q = Some u -> w_uks w !! u = Some k ->
     4 <= proto_minor (se_conn (w_se w)) ->
     replies (m r) w r l il (apply_answer a u w)) ->
  answers (fun r => m r;; mret tt) 0 a.
Proof.
  intros Hm w r l il q u k Hl Hq Hu Hk _ Hp.
  destruct (Hm w r l il q u k) as (h & E & Hf); [done..|].
  exists h. rewrite bump_0. split; [|done]. by mstep by (apply E).
Qed.

Lemma reply_err_answers err : answers (fun r => reply_err r err) 0 (A_err err).
Proof. apply replies_answers. intros. by eapply fuse_reply_err_run. Qed.

Lemma reply_entry_answers e :
  answers (fun r => fuse_reply_entry r e;; mret tt) 0
    (A_obj (B_entry e) sizeof_entry_param sizeof_entry_param).
Proof. apply replies_answers. intros. eapply fuse_reply_entry_run; by eauto. Qed.

Lemma reply_attr_answers st t :
  answers (fun r => fuse_reply_attr r st t;; mret tt) 0 (A_obj (B_stat st) sizeof_stat sizeof_stat).
Proof. apply replies_answers. intros. by eapply fuse_reply_attr_run. Qed.

Lemma reply_open_answers fi :
  answers (fun r => fuse_reply_open r fi;; mret tt) 0
    (A_obj (B_open_out (Reply.fill_open open_out_zero fi)) (sizeof fuse_open_out) 0).
Proof. apply replies_answers. intros. by eapply fuse_reply_open_run. Qed.

Lemma buf_blob_slice mem n :
  0 <= n <= blen mem -> buf_blob (Some (slice 0 n mem)) n = buf_blob (Some mem) n.
Proof.
  intros Hn. unfold buf_blob, slice. change (Z.to_nat 0) with O. rewrite !drop_0.
  destruct (0 <? n); [|done]. by rewrite take_take, Nat.min_id.
Qed.

Lemma blen_slice n mem : 0 <= n <= blen mem -> blen (slice 0 n mem) = n.
Proof. unfold blen, slice. intros Hn. change (Z.to_nat 0) with O. rewrite drop_0, length_take. lia. Qed.

(** A buffer reply answers with the bytes it hands over. *)
Lemma reply_buf_answers mem n :
  0 <= n <= blen mem ->
  answers (fun r => fuse_reply_buf r (Some mem) n;; mret tt) 0 (A_buf (slice 0 n mem)).
Proof.
  intros Hn. apply replies_answers. intros w r l il q u k Hl Hq Hu Hk Hp. cbn [apply_answer].
  rewrite blen_slice by done. eapply replies_eq; [|eapply fuse_reply_buf_run; try done].
  - unfold deliver_buf. by rewrite buf_blob_slice.
  - intros ? [= <-]. lia.
Qed.

Lemma reply_nobuf_answers : answers (fun r => fuse_reply_buf r None 0;; mret tt) 0 (A_buf []).
Proof.
  apply replies_answers. intros w r l il q u k Hl Hq Hu Hk Hp.
  eapply replies_eq; [|by eapply (fuse_reply_buf_run _ _ _ _ _ _ _ None)]. done.
Qed.
End answers.

(** ** The interface between driver and server *)

(** A result of the server: an error number or a value. *)
Definition err_or {A} (f : A -> answer) (x : Z + A) : answer :=
  match x with inl err => A_err err | inr a => f a end.

(** What [fusefs_listdir] asks for at once. *)
Definition LISTDIR_SIZE : Z := 4096.

Class FileServer {P : Platform} {PS : PlatformSpec P} (S : Server) := {
  (* allocations of an operation on a node, at an offset, before its reply *)
  fs_allocs : fuse_ukfs_opcode -> Z -> Z -> nat;
  (* the result of each operation on a node *)
  fs_lookup : Z -> bytes -> Z + fuse_entry_param;
  fs_getattr : Z -> Z + stat;
  fs_open : Z -> Z -> Z + fuse_open_out;
  fs_read : Z -> Z -> Z -> Z -> Z + bytes;       (* node, handle, offset, size *)
  fs_readdir : Z -> Z -> Z -> Z -> Z + bytes;
  (* nodes that may be read, and offsets a node may be listed from *)
  fs_readable : Z -> bool;
  fs_listable : Z -> Z -> bool;
  fs_lookup_ok : forall parent name, exists f, op_lookup se_op = Some f /\
    answers (fun r => f r parent name) (fs_allocs FUSE_UKFS_LOOKUP parent 0)
      (err_or (fun e => A_obj (B_entry e) sizeof_entry_param sizeof_entry_param) (fs_lookup parent name));
  fs_getattr_ok : forall ino, exists f, op_getattr se_op = Some f /\
    answers (fun r => f r ino None) (fs_allocs FUSE_UKFS_GETATTR ino 0)
      (err_or (fun st => A_obj (B_stat st) sizeof_stat sizeof_stat) (fs_getattr ino));
  fs_open_ok : forall ino flags, exists f, op_open se_op = Some f /\
    answers (fun r => f r ino (fi_set_flags flags fi_zero)) (fs_allocs FUSE_UKFS_OPEN ino 0)
      (err_or (fun o => A_obj (B_open_out o) (sizeof fuse_open_out) 0) (fs_open ino flags));
  fs_read_ok : forall ino fh off size, fs_readable ino = true -> 0 <= off < 2 ^ 63 -> is_u 32 size ->
    exists f, op_read se_op = Some f /\
    answers (fun r => f r ino size off (fi_fh_only fh)) (fs_allocs FUSE_UKFS_READ ino off)
      (err_or A_buf (fs_read ino fh off size));
  fs_readdir_ok : forall ino fh off size, fs_listable ino off = true -> 0 <= off < 2 ^ 63 -> is_u 32 size ->
    exists f, op_readdir se_op = Some f /\
    answers (fun r => f r ino size off (fi_fh_only fh)) (fs_allocs FUSE_UKFS_READDIR ino off)
      (err_or A_buf (fs_readdir ino fh off size));
  (* nodes and handles are 64-bit numbers; the driver keeps one handle for itself *)
  fs_lookup_ino : forall parent name e, fs_lookup parent name = inr e -> is_u 64 (e_ino e);
  fs_open_fh : forall ino flags o, fs_open ino flags = inr o ->
    is_u 64 (open_out_fh o) /\ open_out_fh o <> FH_NONE;
  (* a node that can be opened can be read, at most as much as asked for *)
  fs_open_readable : forall ino flags o, fs_open ino flags = inr o -> fs_readable ino = true;
  fs_read_size : forall ino fh off size bs, is_u 32 size -> fs_read ino fh off size = inr bs -> blen bs <= size;
  (* from a cursor, a directory has a whole entry with the next cursor, or ends *)
  fs_cursor : Z -> Z -> bool;
  fs_cursor_0 : forall ino, fs_cursor ino 0 = true;
  fs_cursor_listable : forall ino off, fs_cursor ino off = true -> fs_listable ino off = true;
  fs_readdir_entry : forall ino fh off bs, fs_cursor ino off = true ->
    fs_readdir ino fh off LISTDIR_SIZE = inr bs -> bs = [] \/
    exists fd name, first_dirent bs = Some (fd, name) /\ dirent_namelen fd = blen name /\
      is_u 63 (dirent_off fd) /\ fs_cursor ino (dirent_off fd) = true }.
Arguments FileServer {P PS} S.

(** ** A request from the driver to the server and back *)

Section system.
Context {P : Platform} {PS : PlatformSpec P} {S : Server} {F : FileServer S}.
Implicit Types (w : world) (l : list Z).

(** The server's answer to a request, and the requests it is defined for.
    [name] is the name a lookup asks for. *)
Definition request_answer (inp : ukfs_in) (name : bytes) : answer :=
  match inp with
  | In_none => A_err ENOSYS
  | In_lookup parent _ =>
      err_or (fun e => A_obj (B_entry e) sizeof_entry_param sizeof_entry_param) (fs_lookup parent name)
  | In_getattr ino => err_or (fun st => A_obj (B_stat st) sizeof_stat sizeof_stat) (fs_getattr ino)
  | In_open ino flags =>
      err_or (fun o => A_obj (B_open_out o) (sizeof fuse_open_out) 0) (fs_open ino flags)
  | In_read ino fh off size => err_or A_buf (fs_read ino fh off size)
  | In_readdir ino fh off size => err_or A_buf (fs_readdir ino fh off size)
  end.

Definition opcode_of (inp : ukfs_in) : fuse_ukfs_opcode :=
  match inp with
  | In_none | In_lookup _ _ => FUSE_UKFS_LOOKUP
  | In_getattr _ => FUSE_UKFS_GETATTR
  | In_open _ _ => FUSE_UKFS_OPEN
  | In_read _ _ _ _ => FUSE_UKFS_READ
  | In_readdir _ _ _ _ => FUSE_UKFS_READDIR
  end.

(** The blob of a name holds the string. *)
Definition names (bl : gmap Z blob) (inp : ukfs_in) (name : bytes) : Prop :=
  match inp with
  | In_lookup _ a => exists mem, bl !! a = Some (B_bytes mem) /\ cstr mem = Some name /\
                                 blen name + 1 <= 8152
  | _ => True
  end.

Definition inp_ok (inp : ukfs_in) : Prop :=
  match inp with
  | In_none => False
  | In_lookup parent _ => is_u 64 parent
  | In_getattr ino => is_u 64 ino
  | In_open ino flags => is_u 64 ino /\ is_u 31 flags
  | In_read ino fh off size =>
      is_u 64 ino /\ is_u 64 fh /\ is_u 63 off /\ is_u 32 size /\ fs_readable ino = true
  | In_readdir ino fh off size =>
      is_u 64 ino /\ is_u 64 fh /\ is_u 63 off /\ is_u 32 size /\ fs_listable ino off = true
  end.

Lemma i32_small z : is_u 31 z -> i32 z = z.
Proof. unfold is_u. intros. apply wraps_id; lia. Qed.
Lemma i64_small z : is_u 63 z -> i64 z = z.
Proof. unfold is_u. intros. apply wraps_id; lia. Qed.

(** The message of a request, and the handler it reaches. *)
Definition inp_node (inp : ukfs_in) : Z :=
  match inp with
  | In_none => 0
  | In_lookup ino _ | In_getattr ino | In_open ino _ | In_read ino _ _ _
  | In_readdir ino _ _ _ => ino
  end.
Definition inp_off (inp : ukfs_in) : Z :=
  match inp with In_read _ _ off _ | In_readdir _ _ off _ => off | _ => 0 end.
Definition inp_payload (inp : ukfs_in) (name : bytes) : bytes :=
  match inp with
  | In_none => []
  | In_lookup _ _ => name ++ [0]
  | In_getattr _ => enc (Build_fuse_getattr_in 0 0 0)
  | In_open _ flags => enc (Build_fuse_open_in flags 0)
  | In_read _ fh off size | In_readdir _ fh off size => enc (read_in fh off size)
  end.
Definition handler_of (uop : fuse_ukfs_opcode) : Z -> Z -> bytes -> M unit :=
  match uop with
  | FUSE_UKFS_LOOKUP => do_lookup | FUSE_UKFS_GETATTR => do_getattr
  | FUSE_UKFS_OPEN => do_open | FUSE_UKFS_READ => do_read | FUSE_UKFS_READDIR => do_readdir
  end.

Lemma inp_message w inp name :
  inp_ok inp -> names (w_blobs w) inp name ->
  ukfs_message w inp =
  Some (opcode_of inp, fuse_op_of (opcode_of inp), inp_node inp, inp_payload inp name).
Proof.
  intros Hi Hn. destruct inp as [|parent a| | | |]; try done.
  destruct Hn as (mem & E1 & E2 & _). cbn. by rewrite E1, E2.
Qed.

Lemma inp_node_ok inp : inp_ok inp -> is_u 64 (inp_node inp).
Proof. destruct inp; cbn; tauto. Qed.

Lemma inp_payload_size bl inp name :
  inp_ok inp -> names bl inp name -> blen (inp_payload inp name) <= 8152.
Proof.
  destruct inp as [|parent a| | | |]; cbn [inp_payload]; rewrite ?blen_enc; try done.
  intros _ (mem & _ & _ & H). unfold blen in *. rewrite length_app. cbn. lia.
Qed.

(** The library's handler passes the request on as it was made. *)
Lemma handler_answers bl inp name rest :
  inp_ok inp -> names bl inp name ->
  answers (fun r => handler_of (opcode_of inp) r (inp_node inp) (inp_payload inp name ++ rest))
    (fs_allocs (opcode_of inp) (inp_node inp) (inp_off inp)) (request_answer inp name).
Proof.
  intros Hi Hn w r l il q u k Hl Hq Hu Hk Ha Hp.
  assert (exists f, (forall w, handler_of (opcode_of inp) r (inp_node inp) (inp_payload inp name ++ rest) w = f r w)
    /\ answers f (fs_allocs (opcode_of inp) (inp_node inp) (inp_off inp)) (request_answer inp name)) as (f & E & Hf).
  2:{ rewrite E. by eapply Hf. }
  clear -Hi Hn. destruct inp as [|parent a|ino|ino flags|ino fh off size|ino fh off size]; cbn in Hi; try done.
  - destruct (fs_lookup_ok parent name) as (f & E & Hf). eexists. split; [|exact Hf].
    intros w. cbn [handler_of opcode_of inp_payload inp_node]. unfold do_lookup, _do_lookup.
    rewrite E. destruct Hn as (mem & _ & Hs%cstr_nonul & _). rewrite <- app_assoc.
    by mstep by (by apply of_option_run, cstr_app).
  - destruct (fs_getattr_ok ino) as (f & E & Hf). eexists. split; [|exact Hf].
    intros w. cbn [handler_of opcode_of inp_payload inp_node]. unfold do_getattr, _do_getattr.
    mstep by done. erewrite bind_run.
    2:{ instantiate (1 := w). instantiate (1 := None). destruct (9 <=? _); [|done].
        by mstep by (apply arg_of_run; solve_wire_wf). }
    by rewrite E.
  - destruct Hi as [Hi Hf1]. destruct (fs_open_ok ino flags) as (f & E & Hf). eexists. split; [|exact Hf].
    intros w. cbn [handler_of opcode_of inp_payload inp_node]. unfold do_open, _do_open.
    mstep by (apply arg_of_run; solve_wire_wf). rewrite E. cbn [open_in_flags].
    by rewrite i32_small.
  - destruct Hi as (Hi & Hfh & Hoff & Hsz & Hr).
    destruct (fs_read_ok ino fh off size) as (f & E & Hf); [done..|]. eexists. split; [|exact Hf].
    intros w. cbn [handler_of opcode_of inp_payload inp_node]. unfold do_read, _do_read.
    rewrite E. mstep by (apply arg_of_run; solve_wire_wf).
    mstep by done. cbn [read_in_size read_in_offset read_in_fh read_in_flags read_in_lock_owner read_in].
    rewrite i64_small by done. by destruct (9 <=? _).
  - destruct Hi as (Hi & Hfh & Hoff & Hsz & Hl).
    destruct (fs_readdir_ok ino fh off size) as (f & E & Hf); [done..|]. eexists. split; [|exact Hf].
    intros w. cbn [handler_of opcode_of inp_payload inp_node]. unfold do_readdir, _do_readdir.
    mstep by (apply arg_of_run; solve_wire_wf). rewrite E.
    cbn [read_in_size read_in_offset read_in_fh read_in].
    by rewrite i64_small.
Qed.

(** The system between two file operations: the session was set up, the queue
    is empty, the daemon waits with its buffer [b], and addresses from
    [w_next] on are unused.  [l] are requests servers still hold. *)
Record sys_ok (b : Z) l w : Prop := {
  sy_sess : sess_ok w l [];
  sy_init : se_got_init (w_se w) = true;
  sy_deny : se_deny_others (w_se w) = false;
  sy_minor : 4 <= proto_minor (se_conn (w_se w));
  sy_queue : q_idle (w_queue w);
  sy_empty : elems (w_queue w) = [];
  sy_buf : exists mem, w_mem w !! b = Some mem /\ blen mem = FUSE_DAEMON_BUF_SIZE;
  sy_uks : forall u, is_Some (w_uks w !! u) -> u < w_next w;
  sy_blobs : forall p, is_Some (w_blobs w !! p) -> p < w_next w;
  sy_files : forall f, is_Some (w_files w !! f) -> f < w_next w;
  sy_unique : is_u 64 (w_unique w) }.

Lemma ukfs_not_rejected w uop unique nodeid len :
  se_got_init (w_se w) = true -> se_deny_others (w_se w) = false ->
  reject_code (w_se w) (daemon_header (fuse_op_of uop) unique nodeid len) = 0.
Proof.
  intros Hi Hd. unfold reject_code, fuse_req_opcode_sanity_ok, fuse_req_check_allow_root.
  rewrite Hi, Hd. cbn [negb andb]. destruct uop; cbn; by rewrite andb_false_r.
Qed.

Lemma dispatch_handler uop : exists n, fuse_ll_ops (fuse_op_of uop) = Some (Func (handler_of uop), n).
Proof. destruct uop; eexists; reflexivity. Qed.


(** Allocations of a request before the one for its result. *)
Definition result_alloc w (inp : ukfs_in) : nat :=
  (fs_allocs (opcode_of inp) (inp_node inp) (inp_off inp) + Datatypes.S (w_nalloc w))%nat.

(** There is memory for the library's request and the server's work. *)
Definition memory_for w (inp : ukfs_in) : Prop :=
  forall i, (i <= fs_allocs (opcode_of inp) (inp_node inp) (inp_off inp))%nat -> alloc_ok (w_nalloc w + i)%nat = true.

Lemma contents_is_Some (h : gmap Z fuse_req) x : is_Some (h !! x) <-> is_Some (contents h !! x).
Proof. unfold contents. rewrite lookup_fmap. symmetry. apply fmap_is_Some. Qed.

Lemma in_progress_freed w l h :
  sess_ok w l [] -> lists_ok h (drop_elem (w_next w) (in_progress w l)) [] -> lists_ok h l [].
Proof.
  intros Hs. pose proof (so_lists _ _ _ Hs) as [[[_ Hnd]%NoDup_cons _] _ _].
  assert (w_next w ∉ l) as Hnl by (destruct (sess_ok_fresh _ _ _ Hs); set_solver).
  unfold in_progress. destruct (no_interrupt _); [by rewrite drop_elem_notin|].
  rewrite drop_elem_middle, app_nil_r; [done|].
  apply NoDup_app. split_and!; [done|set_solver|apply NoDup_singleton].
Qed.

(** The daemon's turn up to the library: the message for [k] is in the buffer. *)
Definition message_header (k : fuse_ukfs_request) (name : bytes) : fuse_in_header :=
  daemon_header (fuse_op_of (opcode_of (uq_in k))) (uq_unique k) (inp_node (uq_in k))
    (sizeof fuse_in_header + blen (inp_payload (uq_in k) name)).

(** Request [u] is the first of the queue, [us] are behind it, and the daemon has
    its buffer [b]. *)
Record queued (b : Z) w (u : Z) (us : list Z) (k : fuse_ukfs_request) (name : bytes) : Prop := {
  qd_idle : q_idle (w_queue w);
  qd_elems : elems (w_queue w) = u :: us;
  qd_buf : exists mem, w_mem w !! b = Some mem /\ blen mem = FUSE_DAEMON_BUF_SIZE;
  qd_req : w_uks w !! u = Some k;
  qd_op : uq_opcode k = ukfs_opcode_val (opcode_of (uq_in k));
  qd_unique : is_u 64 (uq_unique k);
  qd_inp : inp_ok (uq_in k);
  qd_name : names (w_blobs w) (uq_in k) name }.

Lemma daemon_to_library b w u us k name :
  queued b w u us k name ->
  exists q mem rest, q_idle q /\ elems q = us /\ blen mem = FUSE_DAEMON_BUF_SIZE /\
    mem = enc (message_header k name) ++ (inp_payload (uq_in k) name ++ rest) /\
    wire_wf (message_header k name) /\
    fuse_daemon_iteration b w =
    fuse_session_process_buf_internal (req_buf b (in_header_len (message_header k name))) (Some u)
      (w_set_mem (<[b := mem]> (w_mem w)) (w_set_queue q w)).
Proof.
  intros [Hq He (mem & Hmem & Hbl) Hu Hop Hun Hin Hna].
  destruct (queue_pop_run _ _ _ Hq He) as (q & Epop & Hq' & He').
  pose proof (inp_payload_size _ _ _ Hin Hna) as Hpl.
  pose proof (inp_node_ok _ Hin) as Hno.
  set (payload := inp_payload (uq_in k) name) in *.
  assert (wire_wf (message_header k name)) as Hwf.
  { apply daemon_header_wf; [apply opcode_u32|done..|].
    unfold is_u. change (sizeof fuse_in_header) with 40. unfold blen in *. fold payload. lia. }
  exists q, (message_mem (fuse_op_of (opcode_of (uq_in k))) (uq_unique k) (inp_node (uq_in k)) payload mem),
    (drop (40 + length payload) mem).
  split_and!; try done.
  - unfold message_mem, blen. rewrite !length_app, length_drop, length_enc.
    change (layout_size (layout fuse_in_header)) with 40%nat.
    unfold blen, FUSE_DAEMON_BUF_SIZE in *. lia.
  - unfold fuse_daemon_iteration. mstep by (exact Epop).
    mstep by (eapply build_message_run; [exact Hu|by apply inp_message|done..]).
    mstep by (by eapply get_hdr_run; [apply lookup_insert_eq|]). done.
Qed.

(** One turn of the daemon's loop, for the first queued request. *)
Lemma daemon_run b l w u us k name :
  sess_ok w l [] -> se_got_init (w_se w) = true -> se_deny_others (w_se w) = false ->
  4 <= proto_minor (se_conn (w_se w)) -> queued b w u us k name -> memory_for w (uq_in k) ->
  let a := request_answer (uq_in k) name in
  let na := result_alloc w (uq_in k) in
  let '(e, d, n) := result_of a (alloc_ok na) in
  exists h q mem, fuse_daemon_iteration b w =
    Ok tt (w_set_reqs h (w_set_uks (<[u := answered k e ((fun _ => w_next w + 1) <$> d) n]> (w_uks w))
      (w_set_blobs (add_blob (w_next w + 1) d (w_blobs w))
        (w_set_next (w_next w + 1 + (if d then 1 else 0)) (w_set_nalloc (answer_allocs a + na)
          (w_set_mem (<[b := mem]> (w_mem w)) (w_set_queue q w))))))) /\
    lists_ok h l [] /\ (forall x, is_Some (h !! x) -> is_Some (w_reqs w !! x)) /\
    q_idle q /\ elems q = us /\ blen mem = FUSE_DAEMON_BUF_SIZE.
Proof.
  intros Hs Hi Hd Hm Hqd Hal a na.
  destruct (daemon_to_library b w u us k name Hqd) as (q & mem & rest & Hq' & He' & Hbl & Hmem & Hwf & Eit).
  destruct Hqd as [_ _ _ Hu _ _ Hin Hna]. set (hdr := message_header k name) in *.
  set (inp := uq_in k) in *. set (uop := opcode_of inp) in *.
  set (w1 := w_set_mem (<[b := mem]> (w_mem w)) (w_set_queue q w)) in *.
  assert (w_mem w1 !! b = Some (enc hdr ++ (inp_payload inp name ++ rest))) as Hb
    by (rewrite <- Hmem; apply lookup_insert_eq).
  destruct (dispatch_handler uop) as (nm & Hdisp).
  assert (sess_ok w1 l []) as Hs1 by (destruct Hs; by constructor).
  destruct (process_accept w1 b (in_header_len hdr) hdr (inp_payload inp name ++ rest)
    u l (handler_of uop) nm) as (hp & rq & Eproc & Hlive & Hrq & Hst & Hc).
  1-3: try done.
  { cbn. rewrite <- (Nat.add_0_r (w_nalloc w)). apply Hal. lia. }
  { done. }
  { exact (ukfs_not_rejected w uop _ _ _ Hi Hd). }
  { done. }
  3: left.
  1-3: by (change (in_header_opcode hdr) with (opcode_val (fuse_op_of uop)); destruct uop).
  set (w2 := w_set_reqs hp (with_req hdr (Some u) w1)) in *.
  destruct (strip_update _ _ Hst) as (_ & Hru & _).
  destruct (handler_answers (w_blobs w) inp name rest Hin Hna
    w2 (w_next w1) (in_progress w1 l) [] rq u k) as (h & Eh & Hfr & Hfc); [done..| |done|].
  { intros i Hlt. change (w_nalloc w2) with (Datatypes.S (w_nalloc w)).
    rewrite Nat.add_succ_l, <- Nat.add_succ_r. apply Hal. lia. }
  pose proof (apply_answer_eq a u k (bump (fs_allocs uop (inp_node inp) (inp_off inp)) w2) Hu) as Ea.
  change (w_nalloc (bump (fs_allocs uop (inp_node inp) (inp_off inp)) w2)) with na in Ea.
  destruct (result_of a (alloc_ok na)) as [[e d] n].
  exists h, q, mem. split_and!; try done.
  - rewrite Eit, Eproc. mstep by (exact Eh). change (request_answer inp name) with a.
    change (opcode_of inp) with uop. rewrite Ea. done.
  - by eapply in_progress_freed.
  - intros x Hx. apply (contents_is_Some h) in Hx. rewrite Hfc in Hx.
    apply contents_is_Some. cbn [w_reqs w_set_reqs w2] in Hx. rewrite Hc in Hx.
    destruct (decide (x = w_next w1)) as [->|Hne]; [by rewrite lookup_delete_eq in Hx; destruct Hx|].
    by rewrite lookup_delete_ne, lookup_insert_ne in Hx.
Qed.
End system.

(** The daemon is the only other thread: while a client sleeps, it makes one turn
    of its loop with the buffer [b]. *)
Definition daemon_scheduler {P : Platform} {S : Server} (b : Z) : Scheduler :=
  {| while_waiting := fuse_daemon_iteration b |}.

Section submit.
Context {P : Platform} {PS : PlatformSpec P} {S : Server} {F : FileServer S} (b : Z).
#[local] Instance sched : Scheduler := daemon_scheduler b.
Implicit Types (w : world) (l : list Z).

(** What a round trip changes: the blob of the result appears. *)
Record round_trip l w w' (a : answer) (na : nat) (p : Z) (d : option blob) : Prop := {
  rt_sys : sys_ok b l w';
  rt_blobs : w_blobs w' = add_blob p d (w_blobs w);
  rt_fresh : w_blobs w !! p = None;
  rt_files : w_files w' = w_files w;
  rt_uks : w_uks w' = w_uks w;
  rt_se : w_se w' = w_se w;
  rt_trace : w_trace w' = w_trace w;
  rt_nalloc : w_nalloc w' = (answer_allocs a + na)%nat;
  rt_next : w_next w < w_next w' }.

Lemma down_done_run u k w :
  w_uks w !! u = Some k -> sem_value (uq_done k) = 1%nat ->
  exists s, down_done u w = Ok tt (w_set_uks (<[u := uq_set_done s k]> (w_uks w)) w).
Proof.
  intros Hu Hs. destruct (uk_semaphore_down (uq_done k)) as [s|] eqn:E.
  - exists s. unfold down_done. mstep. rewrite E. mstep by done. by apply mod_uk_run.
  - apply sem_down_zero in E. lia.
Qed.

Lemma add_blob_dom p d (m : gmap Z blob) x :
  is_Some (add_blob p d m !! x) -> (x = p /\ is_Some d) \/ is_Some (m !! x).
Proof.
  destruct d as [bl|]; cbn; [|by right]. destruct (decide (x = p)) as [->|Hne]; [by left; eauto|].
  rewrite lookup_insert_ne by done. by right.
Qed.

(** The request as the client makes it, and the world it is queued in. *)
Definition new_request w (inp : ukfs_in) : fuse_ukfs_request :=
  {| uq_opcode := ukfs_opcode_val (opcode_of inp); uq_unique := w_unique w;
     uq_in := inp; uq_error := 0; uq_reply_data := None;
     uq_reply_len := 0; uq_done := uk_semaphore_init 0 |}.
Definition with_request w (inp : ukfs_in) : world :=
  w_set_next (w_next w + 1) (w_set_unique (u64 (w_unique w + 1))
    (w_set_uks (<[w_next w := new_request w inp]> (w_uks w)) w)).

(** Up to the point where the client sleeps. *)
Lemma submit_queued l w inp :
  sys_ok b l w ->
  exists q, q_idle q /\ elems q = [w_next w] /\
    submit (opcode_of inp) inp w =
    (while_waiting;; down_done (w_next w);; k ← get_uk (w_next w);
     modify (fun w1 => w_set_uks (delete (w_next w) (w_uks w1)) w1);; mret k)
      (w_set_queue q (with_request w inp)).
Proof.
  intros Hsy. destruct (queue_push_run (with_request w inp) (w_next w)) as (q & E & Hq & He).
  { apply Hsy. }
  { change (elems (w_queue (with_request w inp))) with (elems (w_queue w)).
    rewrite (sy_empty _ _ _ Hsy). set_solver. }
  change (elems (w_queue (with_request w inp))) with (elems (w_queue w)) in He.
  rewrite (sy_empty _ _ _ Hsy) in He. exists q. split_and!; [done|done|].
  unfold submit. mstep by (unfold new_ukfs_request; by mstep by done). by mstep by (exact E).
Qed.

Lemma submit_run l w inp name :
  sys_ok b l w -> inp_ok inp -> names (w_blobs w) inp name -> memory_for w inp ->
  let a := request_answer inp name in
  let na := result_alloc w inp in
  let '(e, d, n) := result_of a (alloc_ok na) in
  exists k w', submit (opcode_of inp) inp w = Ok k w' /\
    uq_error k = e /\ uq_reply_data k = (fun _ => w_next w + 2) <$> d /\ uq_reply_len k = n /\
    round_trip l w w' a na (w_next w + 2) d.
Proof.
  intros Hsy Hin Hna Hal a na. set (u := w_next w).
  set (k := new_request w inp). set (w1 := with_request w inp).
  destruct (submit_queued l w inp Hsy) as (q1 & Hq1 & He1 & Esub). fold u w1 in Esub.
  change (elems q1 = [u]) in He1. set (w2 := w_set_queue q1 w1) in *.
  assert (w_uks w2 !! u = Some k) as Hk by (apply lookup_insert_eq).
  assert (w_uks w !! u = None) as Hfr.
  { apply eq_None_not_Some. intros H%(sy_uks _ _ _ Hsy). unfold u in H. lia. }
  pose proof (daemon_run b l w2 u [] k name) as Hrun. cbv zeta in Hrun.
  change (uq_in k) with inp in Hrun. change (result_alloc w2 inp) with na in Hrun. fold a in Hrun.
  destruct (result_of a (alloc_ok na)) as [[e d] n].
  destruct Hrun as (h & q & mem & Eit & Hl & Hfx & Hq & He & Hbl); try done.
  { destruct Hsy as [[H1 H2 H3] _ _ _ _ _ _ _ _ _ _]. constructor; [done..|].
    intros x Hx%H3. cbn. unfold u. lia. }
  1-3: apply Hsy.
  { constructor; try done; apply Hsy. }
  set (w3 := w_set_reqs h _) in Eit.
  destruct (down_done_run u (answered k e ((fun _ => w_next w2 + 1) <$> d) n) w3) as (s & Edown).
  { apply lookup_insert_eq. }
  { cbn. by rewrite sem_up_value, sem_init_value. }
  eexists _, _. split.
  { rewrite Esub. mstep by (exact Eit). mstep by (exact Edown).
    mstep by (apply get_uk_run, lookup_insert_eq). by mstep by done. }
  assert (w_next w2 + 1 = u + 2) as Hu2 by (cbn; unfold u; lia).
  split_and!; [done|by rewrite <- Hu2|done|].
  assert (delete u (<[u := uq_set_done s (answered k e ((fun _ => w_next w2 + 1) <$> d) n)]> (w_uks w3)) =
          w_uks w) as Eu.
  { unfold w3. cbn. rewrite !delete_insert_eq. by apply delete_id. }
  constructor; try done.
  - destruct Hsy as [[H1 H2 H3] ? ? ? ? ? _ H4 H5 H6 ?]. constructor; try done.
    + constructor; [done..|]. intros x Hx%Hfx%H3. cbn. destruct d; unfold u; lia.
    + exists mem. split; [|done]. apply lookup_insert_eq.
    + intros x. match goal with |- is_Some (?m !! x) -> _ => replace m with (w_uks w) by exact (eq_sym Eu) end.
      intros Hx%H4. cbn. destruct d; unfold u; lia.
    + intros x Hx. cbn in *. apply add_blob_dom in Hx as [[-> [? ->]]|Hx%H5];
        [unfold u; lia|destruct d; unfold u; lia].
    + intros x Hx. apply H6 in Hx. cbn. destruct d; unfold u; lia.
    + by apply wrapu_range.
  - by rewrite <- Hu2.
  - apply eq_None_not_Some. intros H%(sy_blobs _ _ _ Hsy). unfold u in H. lia.
  - cbn. destruct d; lia.
Qed.

(** The request in the queue is what the daemon works on. *)
Lemma queued_new l w inp name q :
  sys_ok b l w -> inp_ok inp -> names (w_blobs w) inp name -> q_idle q -> elems q = [w_next w] ->
  queued b (w_set_queue q (with_request w inp)) (w_next w) [] (new_request w inp) name.
Proof.
  intros Hs Hi Hn Hq He. constructor; try done; try apply Hs. apply lookup_insert_eq.
Qed.

(** Without memory for its request object the library answers nobody. *)
Lemma submit_nomem l w inp name :
  sys_ok b l w -> inp_ok inp -> names (w_blobs w) inp name -> alloc_ok (w_nalloc w) = false ->
  submit (opcode_of inp) inp w = Fault Deadlock.
Proof.
  intros Hs Hi Hn Ha. destruct (submit_queued l w inp Hs) as (q & Hq & He & ->).
  destruct (daemon_to_library b _ _ _ _ name (queued_new l w inp name q Hs Hi Hn Hq He))
    as (q' & mem & rest & _ & _ & _ & Hmem & Hwf & Eit).
  set (w1 := w_set_queue q (with_request w inp)) in *. set (k := new_request w inp) in *.
  mstep by (cbn [while_waiting sched daemon_scheduler]; rewrite Eit;
            apply (process_nomem _ _ _ (message_header k name) (inp_payload inp name ++ rest));
            [etrans; [apply lookup_insert_eq|exact (f_equal Some Hmem)]|done|done]).
  apply bind_fault. unfold down_done. mstep by (apply get_uk_run, lookup_insert_eq).
  assert (uk_semaphore_down (uk_semaphore_init 0) = None) as Hd
    by (apply sem_down_zero; by rewrite sem_init_value).
  cbn [uq_done k new_request]. by rewrite Hd.
Qed.

(** A name that does not fit into the daemon's buffer overruns it. *)
Lemma submit_long_name l w parent a mem s :
  sys_ok b l w -> is_u 64 parent -> w_blobs w !! a = Some (B_bytes mem) -> cstr mem = Some s ->
  8152 <= blen s ->
  submit FUSE_UKFS_LOOKUP (In_lookup parent a) w = Fault OutOfBounds.
Proof.
  intros Hs Hp Ha Hc Hlen. set (inp := In_lookup parent a).
  destruct (submit_queued l w inp Hs) as (q & Hq & He & E). cbn [opcode_of inp] in E. rewrite E. clear E.
  apply bind_fault. cbn [while_waiting sched daemon_scheduler]. unfold fuse_daemon_iteration.
  destruct (queue_pop_run (w_set_queue q (with_request w inp)) (w_next w) [] Hq He) as (q' & Epop & _).
  mstep by (exact Epop). destruct (sy_buf _ _ _ Hs) as (m & Hm & Hl).
  apply bind_fault. eapply (build_message_overflow _ _ (new_request w inp)); try done.
  - apply lookup_insert_eq.
  - apply (sy_unique _ _ _ Hs).
Qed.
End submit.
