(* ===== verification/FileOps.v ===== *)
(** * File operations, end to end

    What the operations of [ukfs-fuse.c] return when the daemon serves the
    request queue and the server keeps the [FileServer] interface: the server's
    result on every branch, with the memory of both sides released. *)

From S2P Require Import Prelude Wire Platform KernelAbi LinkedList World Monad Buffer Request.
From S2P Require Import Reply Server Handlers Interrupt Notify Init Session Queue Dirent.
From S2P Require Import Daemon UkFs System.

Section file_ops.
Context {P : Platform} {PS : PlatformSpec P} {S : Server} {F : FileServer S} (b : Z).
#[local] Instance op_sched : Scheduler := daemon_scheduler b.
Implicit Types (w : world) (l : list Z).

(** An operation that leaves the system as it was, apart from the files. *)
Record quiet l w w' : Prop := {
  qt_sys : sys_ok b l w';
  qt_blobs : w_blobs w' = w_blobs w;
  qt_uks : w_uks w' = w_uks w;
  qt_se : w_se w' = w_se w;
  qt_trace : w_trace w' = w_trace w;
  qt_next : w_next w <= w_next w';
  qt_nalloc : (w_nalloc w <= w_nalloc w')%nat }.

Lemma quiet_trans l w1 w2 w3 : quiet l w1 w2 -> quiet l w2 w3 -> quiet l w1 w3.
Proof. intros [] []. constructor; try done; try congruence; lia. Qed.

Lemma sys_ok_blobs l w m :
  sys_ok b l w -> (forall p, is_Some (m !! p) -> p < w_next w) -> sys_ok b l (w_set_blobs m w).
Proof. intros [[] ? ? ? ? ? ? ? ? ? ?] Hm. constructor; try done. Qed.

Lemma sys_ok_files l w m :
  sys_ok b l w -> (forall f, is_Some (m !! f) -> f < w_next w) -> sys_ok b l (w_set_files m w).
Proof. intros [[] ? ? ? ? ? ? ? ? ? ?] Hm. constructor; try done. Qed.

Lemma free_insert p bl w m :
  w_blobs w = <[p := bl]> m -> m !! p = None -> free (Some p) w = Ok tt (w_set_blobs m w).
Proof.
  intros Hw Hp. erewrite free_run by (rewrite Hw; apply lookup_insert_eq).
  by rewrite Hw, delete_insert_id.
Qed.

(** A request ends with the blob of its result, or with nothing to free. *)
Lemma submit_cases l w inp name :
  sys_ok b l w -> inp_ok inp -> names (w_blobs w) inp name -> memory_for w inp ->
  let a := request_answer inp name in
  let na := result_alloc w inp in
  let '(e, d, n) := result_of a (alloc_ok na) in
  exists k w', submit (opcode_of inp) inp w = Ok k w' /\ uq_error k = e /\ uq_reply_len k = n /\
    w_files w' = w_files w /\ w_nalloc w' = (answer_allocs a + na)%nat /\
    match d with
    | Some bl => exists p, uq_reply_data k = Some p /\ w_blobs w' = <[p := bl]> (w_blobs w) /\
                   w_blobs w !! p = None /\ quiet l w (w_set_blobs (w_blobs w) w') /\ p < w_next w'
    | None => uq_reply_data k = None /\ quiet l w w'
    end.
Proof.
  intros Hs Hin Hna Hm a na. pose proof (submit_run b l w inp name Hs Hin Hna Hm) as H.
  cbv zeta in H. fold a na in H. destruct (result_of a (alloc_ok na)) as [[e d] n].
  destruct H as (k & w' & E & He & Hd & Hn & [R1 R2 R3 R4 R5 R6 R7 R8 R9]).
  assert (w_nalloc w <= w_nalloc w')%nat as Hal by (rewrite R8; unfold na, result_alloc; lia).
  exists k, w'. split_and!; try done. destruct d as [bl|]; cbn in Hd.
  - exists (w_next w + 2). split_and!; try done.
    + constructor; try done; [|cbn; lia]. apply sys_ok_blobs; [done|].
      intros p Hp%(sy_blobs _ _ _ Hs). lia.
    + apply (sy_blobs _ _ _ R1). rewrite R2. cbn. rewrite lookup_insert_eq. by eexists.
  - split; [done|]. constructor; try done. lia.
Qed.

(** The result code of an operation whose server reported [err]; without an
    error number the driver finds no data. *)
Definition err_code (err : Z) : Z := if truth err then - err else - EIO.

Lemma truth_opp x : truth (- x) = truth x.
Proof. unfold truth. f_equal. destruct (Z.eqb_spec x 0), (Z.eqb_spec (- x) 0); lia || done. Qed.

(** [get_file] and [mod_file] *)
Lemma get_file_run f ff w : w_files w !! f = Some ff -> get_file f w = Ok ff w.
Proof. unfold get_file. by intros ->. Qed.
Lemma mod_file_run f g ff w : w_files w !! f = Some ff ->
  mod_file f g w = Ok tt (w_set_files (<[f := g ff]> (w_files w)) w).
Proof. unfold mod_file. by intros ->. Qed.

(** What [fusefs_getstat] makes of the server's attributes. *)
Definition statx_of (st : stat) : uk_statx := {|
  stx_mask := Z.lor (Z.lor (Z.lor UK_STATX_MODE UK_STATX_SIZE) UK_STATX_INO) UK_STATX_NLINK;
  stx_mode := st_mode st; stx_size := st_size st; stx_ino := st_ino st;
  stx_nlink := st_nlink st; stx_uid := st_uid st; stx_gid := st_gid st |}.

Definition getstat_result ino (ok : bool) : Z * option uk_statx :=
  match fs_getattr ino with
  | inl err => (err_code err, None)
  | inr st => if ok then (0, Some (statx_of st)) else (- ENOMEM, None)
  end.

Lemma fusefs_getstat_run l w f ff :
  sys_ok b l w -> w_files w !! f = Some ff -> is_u 64 (ff_nodeid ff) ->
  memory_for w (In_getattr (ff_nodeid ff)) ->
  exists w', fusefs_getstat f w =
    Ok (getstat_result (ff_nodeid ff) (alloc_ok (result_alloc w (In_getattr (ff_nodeid ff))))) w' /\
    quiet l w w' /\ w_files w' = w_files w.
Proof.
  intros Hs Hf Hi Hm. pose proof (submit_cases l w (In_getattr (ff_nodeid ff)) [] Hs Hi I Hm) as H.
  cbv zeta in H. unfold getstat_result. cbn [request_answer] in H.
  set (na := result_alloc w (In_getattr (ff_nodeid ff))) in *.
  unfold fusefs_getstat. destruct (fs_getattr (ff_nodeid ff)) as [err|st]; cbn [err_or result_of] in H.
  - destruct H as (k & w' & E & He & Hn & Hfi & _ & Hd & Hq). exists w'. split_and!; try done.
    mstep by (by apply get_file_run). mstep by (exact E). rewrite He, Hd, truth_opp. unfold err_code.
    by destruct (truth err).
  - destruct (alloc_ok na).
    + destruct H as (k & w' & E & He & Hn & Hfi & _ & p & Hd & Hbl & Hp & Hq & _).
      eexists. split_and!; [|exact Hq|done]. mstep by (by apply get_file_run). mstep by (exact E).
      rewrite He, Hd. cbn [truth negb Z.eqb].
      mstep by (apply load_run; rewrite Hbl; apply lookup_insert_eq).
      by mstep by (by eapply free_insert).
    + destruct H as (k & w' & E & He & Hn & Hfi & _ & Hd & Hq). exists w'. split_and!; try done.
      mstep by (by apply get_file_run). mstep by (exact E). by rewrite He.
Qed.

(** ** Opening *)

Definition open_result ino (ok : bool) : Z + fuse_open_out :=
  match fs_open ino 0 with
  | inl err => inl (err_code err)
  | inr o => if ok then inr o else inl (- ENOMEM)
  end.

(** The file after the call: the handle is set when it succeeds. *)
Definition opened (ff : fusefs_file) (x : Z + fuse_open_out) : fusefs_file :=
  match x with inl _ => ff | inr o => ff_set_fh (open_out_fh o) ff end.
Definition open_code (x : Z + fuse_open_out) : Z := match x with inl e => e | inr _ => 0 end.

Lemma quiet_files l w w' m :
  quiet l w w' -> (forall f, is_Some (m !! f) -> f < w_next w') -> quiet l w (w_set_files m w').
Proof. intros [H1 H2 H3 H4 H5 H6] Hm. constructor; try done. by apply sys_ok_files. Qed.

Lemma is_u_0 n : 0 < n -> is_u n 0.
Proof. intros. split; [done|]. apply Z.pow_pos_nonneg; lia. Qed.

Lemma quiet_nalloc l w w' n :
  quiet l w w' -> (w_nalloc w <= n)%nat -> quiet l w (w_set_nalloc n w').
Proof.
  intros [[[] ? ? ? ? ? ? ? ? ? ?] ? ? ? ? ?]. by repeat (constructor; try done).
Qed.

Lemma quiet_next l w w' n : quiet l w w' -> w_next w' <= n -> quiet l w (w_set_next n w').
Proof.
  intros [[[H1 H2 H3] ? ? ? ? ? ? ? Hu Hb Hf] ? ? ? ? ?] Hn. constructor; try done; [|cbn; lia].
  constructor; try done.
  - constructor; [done..|]. intros x Hx%H3. cbn. lia.
  - intros x Hx. cbn. eapply Z.lt_le_trans; [by eauto|done].
  - intros x Hx. cbn. eapply Z.lt_le_trans; [by eauto|done].
  - intros x Hx. cbn. eapply Z.lt_le_trans; [by eauto|done].
Qed.

Lemma fusefs_do_open_run l w f ff :
  sys_ok b l w -> w_files w !! f = Some ff -> is_u 64 (ff_nodeid ff) ->
  memory_for w (In_open (ff_nodeid ff) 0) ->
  let na := result_alloc w (In_open (ff_nodeid ff) 0) in
  let x := open_result (ff_nodeid ff) (alloc_ok na) in
  exists w', fusefs_do_open f w = Ok (open_code x) w' /\ quiet l w w' /\
    w_files w' = <[f := opened ff x]> (w_files w) /\
    w_nalloc w' = (if fs_open (ff_nodeid ff) 0 then na else Datatypes.S na).
Proof.
  intros Hs Hf Hi Hm na x.
  pose proof (submit_cases l w (In_open (ff_nodeid ff) 0) [] Hs (conj Hi (is_u_0 31 eq_refl)) I Hm) as H.
  cbv zeta in H. cbn [request_answer] in H. fold na in H. unfold x, open_result. clear x.
  unfold fusefs_do_open. destruct (fs_open (ff_nodeid ff) 0) as [err|o]; cbn [err_or result_of] in H.
  - destruct H as (k & w' & E & He & Hn & Hfi & Hnal & Hd & Hq). exists w'. split_and!; try done.
    + mstep by (by apply get_file_run). mstep by (exact E). rewrite He, Hd, truth_opp.
      unfold err_code. cbn. by destruct (truth err).
    + cbn. by rewrite insert_id, Hfi.
  - destruct (alloc_ok na).
    + destruct H as (k & w' & E & He & Hn & Hfi & Hnal & p & Hd & Hbl & Hp & Hq & _).
      exists (w_set_blobs (w_blobs w) (w_set_files (<[f := ff_set_fh (open_out_fh o) ff]> (w_files w)) w')).
      split_and!; [| |done|done].
      * mstep by (by apply get_file_run). mstep by (exact E). rewrite He, Hd.
        cbn [truth negb Z.eqb]. mstep by (apply load_run; rewrite Hbl; apply lookup_insert_eq).
        mstep by (apply mod_file_run; by rewrite Hfi). rewrite Hfi.
        by mstep by (by eapply free_insert).
      * apply (quiet_files l w (w_set_blobs (w_blobs w) w') (<[f := ff_set_fh (open_out_fh o) ff]> (w_files w)));
          [done|]. intros f' Hf'. apply Z.lt_le_trans with (w_next w); [|apply (qt_next _ _ _ Hq)].
        apply (sy_files _ _ _ Hs). destruct (decide (f' = f)) as [->|Hne]; [done|].
        by rewrite lookup_insert_ne in Hf'.
    + destruct H as (k & w' & E & He & Hn & Hfi & Hnal & Hd & Hq). exists w'. split_and!; try done.
      * mstep by (by apply get_file_run). mstep by (exact E). by rewrite He.
      * cbn. by rewrite insert_id, Hfi.
Qed.

(** ** Reading *)

Definition buffers_ok (iov : list Z) : Prop := Forall (fun n => 0 <= n) iov.

(** The buffers receive the data in order, each at most what fits. *)
Lemma scatter_spec iov src n :
  buffers_ok iov -> 0 <= n <= blen src ->
  exists chunks copied, scatter iov src n = Some (chunks, copied) /\
    copied = Z.min n (fold_right Z.add 0 iov) /\
    concat chunks = slice 0 copied src /\
    Forall2 (fun c len => blen c <= len) chunks (take (length chunks) iov).
Proof.
  revert src n. induction iov as [|len iov IH]; intros src n Hi Hn.
  - exists [], 0. split_and!; [done|cbn; lia|done|constructor].
  - inversion Hi as [|? ? Hlen Hi']; subst. cbn [scatter fold_right].
    assert (0 <= fold_right Z.add 0 iov) as Hsum.
    { clear -Hi'. induction Hi'; cbn; lia. }
    destruct (Z.ltb_spec 0 n) as [Hpos|Hz].
    2:{ exists [], 0. split_and!; [done|lia|done|constructor]. }
    set (m := if len <? n then len else n).
    assert (0 <= m <= n /\ m = Z.min n len) as [Hm Hm'] by (subst m; case_match; zify_bool; lia).
    rewrite (proj2 (Z.leb_le m _)) by lia.
    destruct (IH (drop (Z.to_nat m) src) (n - m)) as (chunks & copied & E & Hc & Hcat & Hf); [done| |].
    { unfold blen in *. rewrite length_drop. lia. }
    rewrite E. exists (slice 0 m src :: chunks), (m + copied). split_and!; [done|lia| |].
    + cbn [concat]. rewrite Hcat. unfold slice. change (Z.to_nat 0) with O. rewrite !drop_0.
      rewrite Z2Nat.inj_add by lia. by rewrite <- take_take_drop.
    + cbn. constructor; [|done]. rewrite blen_slice by lia. lia.
Qed.

Definition iov_sum (iov : list Z) : Z := fold_right Z.add 0 iov.

Lemma iov_sum_nonneg iov : buffers_ok iov -> 0 <= iov_sum iov.
Proof. unfold iov_sum. induction 1; cbn; lia. Qed.

Lemma iov_total_sum iov : buffers_ok iov -> iov_sum iov < 2 ^ 64 -> iov_total iov = iov_sum iov.
Proof.
  intros Hi Hs. unfold iov_total.
  assert (forall acc, 0 <= acc -> acc + iov_sum iov < 2 ^ 64 ->
            fold_left (fun total len => u64 (total + len)) iov acc = acc + iov_sum iov) as H.
  2:{ rewrite H; [lia|lia|lia]. }
  clear Hs. induction Hi as [|len iov Hlen Hi IH]; intros acc Ha Hlt; cbn in *; [lia|].
  pose proof (iov_sum_nonneg iov Hi). fold (iov_sum iov) in *. unfold u64.
  rewrite wrapu_id by (unfold is_u; lia). rewrite IH; lia.
Qed.

(** What a read of an open file finds out. *)
Definition read_data ino fh off size (ok : bool) : Z + bytes :=
  match fs_read ino fh off size with
  | inl err => inl (- err)
  | inr bs => if ok then inr bs else inl (if 0 <? blen bs then - ENOMEM else 0)
  end.

(** The result of the call: an error, or the data spread over the buffers. *)
Definition read_returns (iov : list Z) (x : Z + bytes) (res : Z * list bytes) : Prop :=
  match x with
  | inl e => res = (e, [])
  | inr bs => fst res = blen bs /\ concat (snd res) = bs /\
              Forall2 (fun c len => blen c <= len) (snd res) (take (length (snd res)) iov)
  end.

(** The bytes of a successful read, from its blob to the buffers. *)
Lemma scatter_blob bs iov w :
  buffers_ok iov -> blen bs <= iov_sum iov ->
  exists res, read_returns iov (inr bs) res /\
    match buf_blob (Some bs) (blen bs) with
    | B_bytes src => of_option OutOfBounds (scatter iov src (blen bs))
    | B_undef _ => if 0 <? blen bs then fault_ Uninitialized else mret ([], 0)
    | _ => fault_ TypeConfusion
    end w = Ok (snd res, fst res) w.
Proof.
  intros Hi Hsum. assert (0 <= blen bs) as Hnn by (unfold blen; lia).
  unfold buf_blob. destruct (Z.ltb_spec 0 (blen bs)) as [Hpos|Hz].
  - destruct (scatter_spec iov bs (blen bs) Hi) as (chunks & copied & E & Hc & Hcat & Hf); [lia|].
    assert (slice 0 (blen bs) bs = bs) as Hid
      by (unfold slice, blen; cbn; by rewrite Nat2Z.id, firstn_all).
    rewrite Hid. fold (iov_sum iov) in Hc. rewrite Z.min_l in Hc by lia. subst copied.
    exists (blen bs, chunks). split; [split_and!; [done|by rewrite <- Hid at 2|done]|].
    by apply of_option_run.
  - exists (0, []). assert (bs = []) as -> by (apply nil_length_inv; unfold blen in Hz; lia).
    split; [split_and!; [done..|constructor]|]. done.
Qed.

(** A read of an open file up to the answer. *)
Lemma read_to_submit w w' f ff iov off k :
  w_files w !! f = Some ff -> ff_fh ff <> FH_NONE ->
  buffers_ok iov -> 0 < iov_sum iov < 2 ^ 64 -> is_u 63 off ->
  submit FUSE_UKFS_READ (In_read (ff_nodeid ff) (ff_fh ff) off (u32 (iov_sum iov))) w = Ok k w' ->
  fusefs_read f iov off w =
  (if truth (uq_error k) then mret (uq_error k, [])
   else match uq_reply_data k with
        | None => mret (0, [])
        | Some p =>
            bl ← load p;
            '(chunks, copied) ← match bl with
              | B_bytes src => of_option OutOfBounds (scatter iov src (uq_reply_len k))
              | B_undef _ => if 0 <? uq_reply_len k then fault_ Uninitialized else mret ([], 0)
              | _ => fault_ TypeConfusion
              end;
            free (Some p);;
            mret (copied, chunks)
        end) w'.
Proof.
  intros Hf Hne Hi Hsum Hoff E. unfold fusefs_read. rewrite (iov_total_sum iov) by (done || lia).
  assert (u64 off = off) as -> by (apply wrapu_id; unfold is_u in *; lia).
  mstep by (by apply get_file_run). rewrite (proj2 (Z.eqb_neq _ _) Hne). mstep by done.
  cbn [truth negb Z.eqb]. rewrite (proj2 (Z.eqb_neq _ 0)) by lia.
  mstep by (by apply get_file_run). by mstep by (exact E).
Qed.

Lemma fusefs_read_open_run l w f ff iov off :
  sys_ok b l w -> w_files w !! f = Some ff -> is_u 64 (ff_nodeid ff) -> is_u 64 (ff_fh ff) ->
  ff_fh ff <> FH_NONE -> fs_readable (ff_nodeid ff) = true ->
  buffers_ok iov -> 0 < iov_sum iov < 2 ^ 64 -> is_u 63 off ->
  let inp := In_read (ff_nodeid ff) (ff_fh ff) off (u32 (iov_sum iov)) in
  memory_for w inp ->
  exists res w', fusefs_read f iov off w = Ok res w' /\ quiet l w w' /\ w_files w' = w_files w /\
    read_returns iov (read_data (ff_nodeid ff) (ff_fh ff) off (u32 (iov_sum iov))
                        (alloc_ok (result_alloc w inp))) res.
Proof.
  intros Hs Hf Hi Hfh Hne Hrd Hiov Hsum Hoff inp Hm.
  assert (inp_ok inp) as Hin by (split_and!; try done; apply wrapu_range; lia).
  assert (u32 (iov_sum iov) <= iov_sum iov) as Hle by (apply Z.mod_le; lia).
  pose proof (submit_cases l w inp [] Hs Hin I Hm) as H.
  cbv zeta in H. cbn [request_answer inp] in H. fold inp in H.
  set (na := result_alloc w inp) in *. unfold read_data.
  pose proof (fs_read_size (ff_nodeid ff) (ff_fh ff) off (u32 (iov_sum iov))) as Hrs.
  destruct (fs_read (ff_nodeid ff) (ff_fh ff) off (u32 (iov_sum iov))) as [err|bs];
    cbn [err_or result_of] in H; [|destruct (alloc_ok na)].
  2:{ destruct H as (k & w' & E & He & Hn & Hfi & _ & p & Hd & Hbl & Hp & Hq & _).
      destruct (scatter_blob bs iov w' Hiov) as (res & Hres & Esc); [specialize (Hrs bs ltac:(apply wrapu_range; lia) eq_refl); lia|].
      exists res, (w_set_blobs (w_blobs w) w'). split_and!; [|done..].
      erewrite read_to_submit by done. rewrite He, Hd, Hn. cbn [truth negb Z.eqb].
      mstep by (apply load_run; rewrite Hbl; apply lookup_insert_eq). mstep by (exact Esc).
      mstep by (by eapply free_insert). by destruct res. }
  - destruct H as (k & w' & E & He & Hn & Hfi & _ & Hd & Hq). exists (- err, []), w'. split_and!; try done.
    erewrite read_to_submit by done. rewrite He, Hd.
    unfold truth. destruct (Z.eqb_spec (- err) 0) as [Hz|]; [by rewrite Hz|done].
  - destruct H as (k & w' & E & He & Hn & Hfi & _ & Hd & Hq). eexists (_, []), w'. split_and!; [|done..].
    erewrite read_to_submit by done. rewrite He, Hd. by destruct (0 <? blen bs).
Qed.

(** The first read of a file opens it, and then reads as from an open file. *)
Lemma fusefs_read_opens w w1 f ff ff1 iov off :
  w_files w !! f = Some ff -> ff_fh ff = FH_NONE -> fusefs_do_open f w = Ok 0 w1 ->
  w_files w1 !! f = Some ff1 -> ff_fh ff1 <> FH_NONE ->
  fusefs_read f iov off w = fusefs_read f iov off w1.
Proof.
  intros Hf Hno Eo Hf1 Hne. unfold fusefs_read.
  erewrite bind_run by (by apply get_file_run). cbv beta iota.
  rewrite (proj2 (Z.eqb_eq _ _) Hno). erewrite bind_run by (exact Eo). cbv beta iota.
  symmetry. erewrite bind_run by (by apply get_file_run). cbv beta iota.
  rewrite (proj2 (Z.eqb_neq _ _) Hne). by erewrite bind_run by done.
Qed.

(** A file that cannot be opened is not read. *)
Lemma fusefs_read_unopened w w1 f ff iov off e :
  w_files w !! f = Some ff -> ff_fh ff = FH_NONE -> fusefs_do_open f w = Ok e w1 -> e <> 0 ->
  fusefs_read f iov off w = Ok (e, []) w1.
Proof.
  intros Hf Hno Eo He. unfold fusefs_read. mstep by (by apply get_file_run).
  rewrite (proj2 (Z.eqb_eq _ _) Hno). mstep by (exact Eo). unfold truth.
  by rewrite (proj2 (Z.eqb_neq _ _) He).
Qed.

(** ** Lookup *)

(** A copy of a path component. *)
Lemma strndup_run path len s w :
  strndup_bytes path (Z.to_nat len) = Some s -> alloc_ok (w_nalloc w) = true ->
  strndup path len w = Ok (Some (w_next w))
    (w_set_blobs (<[w_next w := B_bytes (s ++ [0])]> (w_blobs w))
      (w_set_next (w_next w + 1) (w_set_nalloc (Datatypes.S (w_nalloc w)) w))).
Proof.
  intros Hs Ha. unfold strndup. mstep by (by apply of_option_run). mstep by (by apply malloc_run).
  mstep by (eapply store_run, lookup_insert_eq). cbn. by rewrite insert_insert_eq.
Qed.

Lemma strndup_nomem path len s w :
  strndup_bytes path (Z.to_nat len) = Some s -> alloc_ok (w_nalloc w) = false ->
  strndup path len w = Ok None (w_set_nalloc (Datatypes.S (w_nalloc w)) w).
Proof.
  intros Hs Ha. unfold strndup. mstep by (by apply of_option_run). by mstep by (by apply malloc_fail).
Qed.

Lemma strndup_bytes_nonul path n s : strndup_bytes path n = Some s -> nonul s.
Proof.
  revert path s. induction n as [|n IH]; intros path s; cbn [strndup_bytes].
  - destruct path; intros [= <-]; constructor.
  - destruct path as [|c path]; [done|]. cbn [strndup_bytes].
    destruct (c =? 0) eqn:Ec.
    { intros [= <-]. constructor. }
    apply Z.eqb_neq in Ec. intros (s' & Hs' & ->)%fmap_Some. constructor; [done|by eapply IH].
Qed.

(** A component without NUL is copied as it is. *)
Lemma strndup_bytes_take path n :
  nonul (take n path) -> (n <= length path)%nat -> strndup_bytes path n = Some (take n path).
Proof.
  revert path. induction n as [|n IH]; intros [|c path] Hn Hl; cbn [strndup_bytes take length] in *; try done; try lia.
  inversion Hn; subst. rewrite (proj2 (Z.eqb_neq _ _)) by done. by rewrite IH by (done || lia).
Qed.

(** The new file of a successful lookup. *)
Definition child_of (ff : fusefs_file) (e : fuse_entry_param) : fusefs_file :=
  {| ff_nodeid := e_ino e; ff_fh := FH_NONE; ff_upref := None; ff_vol := ff_vol ff;
     ff_fsops := ff_fsops ff |}.

Definition is_special (path : bytes) (len : Z) : bool :=
  (len =? 0) || ((len =? 1) && path_is path (str "."%string)) ||
  ((len =? 2) && path_is path (str ".."%string)).

(** The world after the name was copied. *)
Definition with_name s w : world :=
  w_set_blobs (<[w_next w := B_bytes (s ++ [0])]> (w_blobs w))
    (w_set_next (w_next w + 1) (w_set_nalloc (Datatypes.S (w_nalloc w)) w)).

Lemma with_name_ok l s w : sys_ok b l w -> sys_ok b l (with_name s w).
Proof.
  intros [[] ? ? ? ? ? ? Hu Hb Hf ?]. constructor; try done.
  - constructor; [done..|]. intros x Hx. cbn. specialize (so_fresh x Hx). lia.
  - intros x Hx. cbn. specialize (Hu x Hx). lia.
  - intros x. cbn. destruct (decide (x = w_next w)) as [->|Hne]; [lia|].
    rewrite lookup_insert_ne by done. intros Hx%Hb. lia.
  - intros x Hx. cbn. specialize (Hf x Hx). lia.
Qed.

(** Up to the answer of a lookup, and what follows it. *)
Definition lookup_tail (ff : fusefs_file) (name len : Z) (k : fuse_ukfs_request) : M lookup_result :=
  let fail err := mret {| lk_ret := err; lk_target := None; lk_nout := None |} in
  free (Some name);;
  if truth (uq_error k) then fail (uq_error k)
  else
    match uq_reply_data k with
    | None => fail (- EIO)
    | Some p =>
        bl ← load p;
        match bl with
        | B_entry e =>
            child ← fusefs_file_alloc (e_ino e) (ff_vol ff) (ff_fsops ff);
            free (Some p);;
            match child with
            | None => fail (- ENOMEM)
            | Some c => mret {| lk_ret := UKFS_STOP_FILE; lk_target := Some c; lk_nout := Some len |}
            end
        | _ => fault_ TypeConfusion
        end
    end.

Lemma lookup_to_submit w w' f ff path len s k :
  w_files w !! f = Some ff -> is_special path len = false ->
  strndup_bytes path (Z.to_nat len) = Some s -> alloc_ok (w_nalloc w) = true ->
  submit FUSE_UKFS_LOOKUP (In_lookup (ff_nodeid ff) (w_next w)) (with_name s w) = Ok k w' ->
  fusefs_lookup f path len w = lookup_tail ff (w_next w) len k w'.
Proof.
  unfold is_special. intros Hf [H1 H2]%orb_false_iff Hs Ha E. unfold fusefs_lookup.
  mstep by (by apply get_file_run). rewrite H1, H2. mstep by (by apply strndup_run).
  by mstep by (exact E).
Qed.

(** The new file a lookup ends with, if any, and its result code. *)
Definition lookup_data ino s (ok_data ok_file : bool) : Z + fuse_entry_param :=
  match fs_lookup ino s with
  | inl err => inl (err_code err)
  | inr e => if ok_data && ok_file then inr e else inl (- ENOMEM)
  end.

Definition lookup_returns (ff : fusefs_file) (len : Z) (x : Z + fuse_entry_param) w (res : lookup_result) w' : Prop :=
  match x with
  | inl err => res = {| lk_ret := err; lk_target := None; lk_nout := None |} /\ w_files w' = w_files w
  | inr e => exists c, w_files w !! c = None /\
      res = {| lk_ret := UKFS_STOP_FILE; lk_target := Some c; lk_nout := Some len |} /\
      w_files w' = <[c := child_of ff e]> (w_files w)
  end.

Lemma fusefs_file_alloc_run nodeid vol fsops w :
  alloc_ok (w_nalloc w) = true ->
  fusefs_file_alloc nodeid vol fsops w = Ok (Some (w_next w))
    (w_set_files (<[w_next w := Build_fusefs_file nodeid FH_NONE None vol fsops]> (w_files w))
      (w_set_next (w_next w + 1) (w_set_nalloc (Datatypes.S (w_nalloc w)) w))).
Proof. intros Ha. unfold fusefs_file_alloc. mstep by (by apply alloc_run). by mstep by done. Qed.

Lemma fusefs_file_alloc_fail nodeid vol fsops w :
  alloc_ok (w_nalloc w) = false ->
  fusefs_file_alloc nodeid vol fsops w = Ok None (w_set_nalloc (Datatypes.S (w_nalloc w)) w).
Proof. intros Ha. unfold fusefs_file_alloc. by mstep by (by apply alloc_fail). Qed.

(** Freeing the name of a lookup. *)
Lemma free_name l s w w1 p d :
  sys_ok b l w -> quiet l (with_name s w) (w_set_blobs (w_blobs (with_name s w)) w1) ->
  w_blobs w1 = add_blob p d (w_blobs (with_name s w)) -> w_blobs (with_name s w) !! p = None ->
  free (Some (w_next w)) w1 = Ok tt (w_set_blobs (add_blob p d (w_blobs w)) w1) /\
  w_blobs w !! p = None /\ quiet l w (w_set_blobs (w_blobs w) w1).
Proof.
  intros Hs [Q1 Q2 Q3 Q4 Q5 Q6] Hb Hp. cbn in Hp.
  assert (w_next w <> p) as Hne by (intros <-; by rewrite lookup_insert_eq in Hp).
  assert (w_blobs w !! w_next w = None) as Hn.
  { apply eq_None_not_Some. intros H%(sy_blobs _ _ _ Hs). lia. }
  rewrite lookup_insert_ne in Hp by done. split_and!; [|done|].
  - apply (free_insert _ (B_bytes (s ++ [0]))).
    + rewrite Hb. destruct d as [bl|]; cbn; [|done]. by apply insert_insert_ne.
    + destruct d as [bl|]; cbn; [|done]. by rewrite lookup_insert_ne.
  - constructor; try done; [|cbn in *; lia..].
    apply (sys_ok_blobs l (w_set_blobs (w_blobs (with_name s w)) w1)); [done|].
    intros x Hx%(sy_blobs _ _ _ Hs). cbn in *. lia.
Qed.

Lemma free_name_none l s w w1 :
  sys_ok b l w -> quiet l (with_name s w) w1 ->
  free (Some (w_next w)) w1 = Ok tt (w_set_blobs (w_blobs w) w1) /\
  quiet l w (w_set_blobs (w_blobs w) w1).
Proof.
  intros Hs Hq. pose proof (qt_blobs _ _ _ Hq) as Hb.
  destruct (free_name l s w w1 (w_next w + 1) None Hs) as (E & _ & Hq'); [|done| |done].
  - rewrite <- Hb. by destruct w1.
  - cbn. rewrite lookup_insert_ne by lia. apply eq_None_not_Some. intros H%(sy_blobs _ _ _ Hs). lia.
Qed.

Lemma fusefs_lookup_run l w f ff path len s :
  sys_ok b l w -> w_files w !! f = Some ff -> is_u 64 (ff_nodeid ff) ->
  is_special path len = false -> strndup_bytes path (Z.to_nat len) = Some s -> blen s < 8152 ->
  alloc_ok (w_nalloc w) = true ->
  let inp := In_lookup (ff_nodeid ff) (w_next w) in
  let na := result_alloc (with_name s w) inp in
  memory_for (with_name s w) inp ->
  exists res w', fusefs_lookup f path len w = Ok res w' /\ quiet l w w' /\
    lookup_returns ff len (lookup_data (ff_nodeid ff) s (alloc_ok na) (alloc_ok (Datatypes.S na))) w res w'.
Proof.
  intros Hs Hf Hi Hsp Hdup Hlen Ha inp na Hm.
  assert (names (w_blobs (with_name s w)) inp s) as Hna.
  { exists (s ++ [0]). split_and!; [apply lookup_insert_eq| |lia].
    by eapply cstr_app, strndup_bytes_nonul. }
  pose proof (submit_cases l _ inp s (with_name_ok l s w Hs) Hi Hna Hm) as H.
  cbv zeta in H. cbn [request_answer inp] in H. fold inp na in H. unfold lookup_data.
  destruct (fs_lookup (ff_nodeid ff) s) as [err|e]; cbn [err_or result_of] in H.
  - destruct H as (k & w1 & E & He & Hn & Hfi & _ & Hd & Hq).
    destruct (free_name_none _ _ _ _ Hs Hq) as [Efree Hq'].
    eexists _, _. split_and!; [|exact Hq'|by split].
    erewrite lookup_to_submit by done. unfold lookup_tail. mstep by (exact Efree).
    rewrite He, Hd, truth_opp. unfold err_code. by destruct (truth err).
  - destruct (alloc_ok na); cbn [andb].
    2:{ destruct H as (k & w1 & E & He & Hn & Hfi & _ & Hd & Hq).
        destruct (free_name_none _ _ _ _ Hs Hq) as [Efree Hq'].
        eexists _, _. split_and!; [|exact Hq'|by split].
        erewrite lookup_to_submit by done. unfold lookup_tail. mstep by (exact Efree).
        by rewrite He. }
    destruct H as (k & w1 & E & He & Hn & Hfi & Hnal & p & Hd & Hbl & Hp & Hq & Hlt).
    destruct (free_name _ _ _ _ p (Some (B_entry e)) Hs Hq Hbl Hp) as (Efree & Hp' & Hq').
    cbn [add_blob] in Efree. set (w2 := w_set_blobs (<[p := B_entry e]> (w_blobs w)) w1) in *.
    assert (w_nalloc w2 = Datatypes.S na) as Hnal2 by (cbn; by rewrite Hnal).
    pose proof (qt_nalloc _ _ _ Hq' : (w_nalloc w <= w_nalloc w2)%nat) as Hle2.
    destruct (alloc_ok (Datatypes.S na)) eqn:Hal2.
    + assert (forall x, is_Some (w_files w !! x) -> x < w_next w1) as Hfn.
      { intros x Hx%(sy_files _ _ _ Hs). pose proof (qt_next _ _ _ Hq') as Hle. cbn in Hle. lia. }
      eexists _, _. split_and!.
      * erewrite lookup_to_submit by done. unfold lookup_tail. mstep by (exact Efree).
        rewrite He, Hd. cbn [truth negb Z.eqb]. mstep by (apply load_run, lookup_insert_eq).
        mstep by (apply fusefs_file_alloc_run; by rewrite Hnal2).
        mstep by (by eapply free_insert). done.
      * apply (quiet_files l w (w_set_next (w_next w1 + 1) (w_set_nalloc (Datatypes.S (w_nalloc w2))
          (w_set_blobs (w_blobs w) w1)))); [apply quiet_next; [apply quiet_nalloc; [done|lia]|cbn; lia]|].
        intros x Hx. cbn in Hx |- *. rewrite Hfi in Hx. cbn in Hx.
        destruct (decide (x = w_next w1)) as [->|Hne]; [lia|].
        rewrite lookup_insert_ne in Hx by done. specialize (Hfn x Hx). lia.
      * exists (w_next w1). split_and!; [|done|cbn; by rewrite Hfi].
        apply eq_None_not_Some. intros Hx%Hfn. lia.
    + eexists _, _. split_and!.
      * erewrite lookup_to_submit by done. unfold lookup_tail. mstep by (exact Efree).
        rewrite He, Hd. cbn [truth negb Z.eqb]. mstep by (apply load_run, lookup_insert_eq).
        mstep by (apply fusefs_file_alloc_fail; by rewrite Hnal2).
        mstep by (by eapply free_insert). done.
      * apply (quiet_nalloc l w (w_set_blobs (w_blobs w) w1)); [done|exact (Nat.le_le_succ_r _ _ Hle2)].
      * by split.
Qed.

(** ** Directories *)

(** The record written for a directory entry. *)
Definition record_of (fd : fuse_dirent) (name : bytes) : uk_fs_dirent :=
  let reclen := UKFS_DIRENT_RECLEN (blen name) in
  {| d_ino := dirent_ino fd; d_off := dirent_off fd; d_reclen := u16 reclen;
     d_type := wrapu 8 (dirent_type fd);
     d_name := name ++ repeat 0 (Z.to_nat (reclen - UKFS_DIRENT_NAME_OFF - blen name)) |}.

Definition listdir_returns ino cur len (ok : bool) (res : Z * option (uk_fs_dirent * Z)) : Prop :=
  match fs_readdir ino 0 cur LISTDIR_SIZE with
  | inl err => res = (- err, None)
  | inr [] => res = (0, None)
  | inr bs =>
      if ok then
        match first_dirent bs with
        | Some (fd, name) =>
            let reclen := UKFS_DIRENT_RECLEN (blen name) in
            res = if len <? reclen then (- EINVAL, None)
                  else (reclen, Some (record_of fd name, dirent_off fd))
        | None => False
        end
      else res = (- ENOMEM, None)
  end.

Lemma slice_all bs : slice 0 (blen bs) bs = bs.
Proof. unfold slice, blen. change (Z.to_nat 0) with O. by rewrite drop_0, Nat2Z.id, firstn_all. Qed.

Lemma buf_blob_nonempty c bs : buf_blob (Some (c :: bs)) (blen (c :: bs)) = B_bytes (c :: bs).
Proof.
  unfold buf_blob. rewrite (proj2 (Z.ltb_lt 0 _)) by (unfold blen; cbn; lia). by rewrite slice_all.
Qed.

(** The part of [fusefs_listdir] that reads the entry. *)
Lemma listdir_decode p bs fd name len w :
  first_dirent bs = Some (fd, name) -> dirent_namelen fd = blen name -> is_u 63 (dirent_off fd) ->
  let m := w_blobs w in
  forall w', w_blobs w' = <[p := B_bytes bs]> m -> m !! p = None ->
  let reclen := UKFS_DIRENT_RECLEN (blen name) in
  (bl ← load p;
   match bl with
   | B_bytes mem =>
       fd ← of_option OutOfBounds (dec mem);
       let namelen := dirent_namelen fd in
       let reclen := UKFS_DIRENT_RECLEN namelen in
       if len <? reclen then free (Some p);; mret (- EINVAL, None)
       else
         let name := slice FUSE_NAME_OFFSET namelen mem in
         if (FUSE_NAME_OFFSET + namelen <=? blen mem) &&
            (UKFS_DIRENT_NAME_OFF + namelen + 1 <=? reclen) then
           free (Some p);;
           mret (reclen,
             Some ({| d_ino := dirent_ino fd; d_off := i64 (dirent_off fd);
                      d_reclen := u16 reclen; d_type := wrapu 8 (dirent_type fd);
                      d_name := name ++ repeat 0 (Z.to_nat (reclen - UKFS_DIRENT_NAME_OFF - namelen)) |},
                   dirent_off fd))
         else fault_ OutOfBounds
   | B_undef _ => fault_ Uninitialized
   | _ => fault_ TypeConfusion
   end) w' =
  Ok (if len <? reclen then (- EINVAL, None) else (reclen, Some (record_of fd name, dirent_off fd)))
    (w_set_blobs m w').
Proof.
  intros Hfd Hnl Hoff m w' Hb Hp reclen. unfold first_dirent in Hfd.
  apply bind_Some in Hfd as (fd' & Hdec & Hfd). case_match eqn:Hle; [|done]. injection Hfd as -> <-.
  mstep by (apply load_run; rewrite Hb; apply lookup_insert_eq).
  mstep by (by apply of_option_run). cbv zeta. rewrite Hle.
  set (name := slice _ _ _) in *. rewrite Hnl. fold reclen.
  destruct (len <? reclen); [by mstep by (by eapply free_insert)|].
  rewrite (proj2 (Z.leb_le _ _)) by (apply reclen_room; unfold blen; lia). cbn [andb].
  mstep by (by eapply free_insert). unfold record_of. by rewrite i64_small.
Qed.

Lemma fusefs_listdir_run l w f ff cur len :
  sys_ok b l w -> w_files w !! f = Some ff -> is_u 64 (ff_nodeid ff) -> is_u 63 cur ->
  fs_cursor (ff_nodeid ff) cur = true ->
  let inp := In_readdir (ff_nodeid ff) 0 cur LISTDIR_SIZE in
  memory_for w inp ->
  exists res w', fusefs_listdir f cur len w = Ok res w' /\ quiet l w w' /\ w_files w' = w_files w /\
    listdir_returns (ff_nodeid ff) cur len (alloc_ok (result_alloc w inp)) res.
Proof.
  intros Hs Hf Hi Hcur Hc inp Hm.
  assert (inp_ok inp) as Hin by (split_and!; [done..|by apply fs_cursor_listable]).
  pose proof (submit_cases l w inp [] Hs Hin I Hm) as H.
  cbv zeta in H. cbn [request_answer inp] in H. fold inp in H. set (na := result_alloc w inp) in *.
  pose proof (fs_readdir_entry (ff_nodeid ff) 0 cur) as Hent. unfold listdir_returns, fusefs_listdir.
  destruct (fs_readdir (ff_nodeid ff) 0 cur LISTDIR_SIZE) as [err|bs]; cbn [err_or result_of] in H.
  { destruct H as (k & w' & E & He & Hn & Hfi & _ & Hd & Hq). exists (- err, None), w'. split_and!; try done.
    mstep by (by apply get_file_run). mstep by (exact E). rewrite He, Hd.
    unfold truth. destruct (Z.eqb_spec (- err) 0) as [Hz|]; [by rewrite Hz|done]. }
  destruct (alloc_ok na).
  2:{ destruct H as (k & w' & E & He & Hn & Hfi & _ & Hd & Hq). eexists _, w'. split_and!; [|done..|].
      - mstep by (by apply get_file_run). mstep by (exact E). rewrite He, Hd.
        instantiate (1 := (if 0 <? blen bs then - ENOMEM else 0, None)). by destruct (0 <? blen bs).
      - by destruct bs. }
  destruct H as (k & w' & E & He & Hn & Hfi & _ & p & Hd & Hbl & Hp & Hq & _).
  destruct bs as [|c bs0].
  - exists (0, None), (w_set_blobs (w_blobs w) w'). split_and!; [|done..].
    mstep by (by apply get_file_run). mstep by (exact E). rewrite He, Hd, Hn. change (truth 0) with false.
    change (blen [] =? 0) with true. cbv beta iota. by mstep by (by eapply free_insert).
  - destruct (Hent (c :: bs0) Hc eq_refl) as [|(fd & name & Hfd & Hnl & Hoff & _)]; [done|].
    rewrite buf_blob_nonempty in Hbl.
    eexists _, (w_set_blobs (w_blobs w) w'). split_and!; [|done..|].
    + mstep by (by apply get_file_run). mstep by (exact E). rewrite He, Hd, Hn. change (truth 0) with false.
      rewrite (proj2 (Z.eqb_neq _ 0)) by (unfold blen; cbn; lia). by eapply listdir_decode.
    + by rewrite Hfd.
Qed.

(** ** All operations together *)

Inductive fs_op :=
| Op_getstat (f : Z)
| Op_read (f : Z) (iov : list Z) (off : Z)
| Op_lookup (f : Z) (path : bytes) (len : Z)
| Op_listdir (f cur len : Z)
| Op_graft (f ref : Z)
| Op_release (f what : Z)
| Op_statfs (f : Z).

(** An operation, its result ignored. *)
Definition run_op (op : fs_op) : M unit :=
  match op with
  | Op_getstat f => fusefs_getstat f;; mret tt
  | Op_read f iov off => fusefs_read f iov off;; mret tt
  | Op_lookup f path len => fusefs_lookup f path len;; mret tt
  | Op_listdir f cur len => fusefs_listdir f cur len;; mret tt
  | Op_graft f ref => fusefs_graft f ref;; mret tt
  | Op_release f what => fusefs_release f what
  | Op_statfs f => fusefs_statfs f;; mret tt
  end.

Definition op_file (op : fs_op) : Z :=
  match op with
  | Op_getstat f | Op_read f _ _ | Op_lookup f _ _ | Op_listdir f _ _ | Op_graft f _
  | Op_release f _ | Op_statfs f => f
  end.

(** The arguments are in range for the file, and it is there. *)
Definition op_args (ff : fusefs_file) (op : fs_op) : Prop :=
  match op with
  | Op_read _ iov off => buffers_ok iov /\ iov_sum iov < 2 ^ 64 /\ is_u 63 off
  | Op_lookup _ path len =>
      exists s, strndup_bytes path (Z.to_nat len) = Some s /\ blen s < 8152
  | Op_listdir _ cur _ => is_u 63 cur /\ fs_cursor (ff_nodeid ff) cur = true
  | Op_graft _ _ => ff_upref ff = None
  | _ => True
  end.
Definition op_pre w (op : fs_op) : Prop :=
  exists ff, w_files w !! op_file op = Some ff /\ op_args ff op.

(** An open file is one the server lets read. *)
Definition file_ok (ff : fusefs_file) : Prop :=
  is_u 64 (ff_nodeid ff) /\ is_u 64 (ff_fh ff) /\ (ff_fh ff <> FH_NONE -> fs_readable (ff_nodeid ff) = true).
Definition files_ok w : Prop := map_Forall (fun _ => file_ok) (w_files w).

(** Enough memory for everything to come. *)
Definition memory_ok w : Prop := forall i, (w_nalloc w <= i)%nat -> alloc_ok i = true.

Lemma memory_ok_for w inp : memory_ok w -> memory_for w inp.
Proof. intros Hm i _. apply Hm. lia. Qed.

Lemma file_ok_opened ff ok :
  file_ok ff -> file_ok (opened ff (open_result (ff_nodeid ff) ok)).
Proof.
  intros (H1 & H2 & H3). unfold open_result. destruct (fs_open (ff_nodeid ff) 0) as [err|o] eqn:E; [done|].
  destruct ok; [|done]. split_and!; [done|by eapply fs_open_fh|]. intros _. by eapply fs_open_readable.
Qed.

(** What an operation leaves behind. *)
Record op_post l w w' : Prop := {
  op_sys : sys_ok b l w';
  op_files : files_ok w';
  op_blobs : w_blobs w' = w_blobs w;
  op_uks : w_uks w' = w_uks w;
  op_se : w_se w' = w_se w;
  op_memory : memory_ok w -> memory_ok w' }.

Lemma quiet_memory l w w' : quiet l w w' -> memory_ok w -> memory_ok w'.
Proof. intros Hq Hm i Hi. apply Hm. pose proof (qt_nalloc _ _ _ Hq). lia. Qed.

Lemma quiet_post l w w' : quiet l w w' -> files_ok w' -> op_post l w w'.
Proof. intros Hq Hf. pose proof (quiet_memory _ _ _ Hq). destruct Hq. by constructor. Qed.

Lemma quiet_post_same l w w' : files_ok w -> quiet l w w' -> w_files w' = w_files w -> op_post l w w'.
Proof. intros Hf Hq Hs. apply quiet_post; [done|]. unfold files_ok. by rewrite Hs. Qed.

Lemma op_post_trans l w1 w2 w3 : op_post l w1 w2 -> op_post l w2 w3 -> op_post l w1 w3.
Proof. intros [] []. constructor; try done; try congruence. by auto. Qed.

Lemma op_post_refl l w : sys_ok b l w -> files_ok w -> op_post l w w.
Proof. by constructor. Qed.

Lemma read_safe l w f ff iov off :
  sys_ok b l w -> files_ok w -> memory_ok w -> w_files w !! f = Some ff ->
  ff_fh ff <> FH_NONE -> buffers_ok iov -> iov_sum iov < 2 ^ 64 -> is_u 63 off ->
  exists res w', fusefs_read f iov off w = Ok res w' /\ op_post l w w'.
Proof.
  intros Hs Hfo Hm Hf Hfh Hi Hsum Hoff. destruct (Hfo f ff Hf) as (Hno & Hfh64 & Hrd).
  destruct (decide (iov_sum iov = 0)) as [Hz|Hz].
  - exists (0, []), w. split; [|by apply op_post_refl]. unfold fusefs_read.
    mstep by (by apply get_file_run). rewrite (proj2 (Z.eqb_neq _ _) Hfh). mstep by done.
    cbn [truth negb Z.eqb]. rewrite iov_total_sum by (done || lia). by rewrite Hz.
  - pose proof (iov_sum_nonneg iov Hi).
    destruct (fusefs_read_open_run l w f ff iov off) as (res & w' & E & Hq & Hsame & _);
      [done..|by apply Hrd|done|lia|done|by apply memory_ok_for|].
    exists res, w'. split; [done|]. by apply quiet_post_same.
Qed.

Lemma open_safe l w f ff :
  sys_ok b l w -> files_ok w -> memory_ok w -> w_files w !! f = Some ff ->
  exists e w' ff', fusefs_do_open f w = Ok e w' /\ op_post l w w' /\ w_files w' !! f = Some ff' /\
    (e = 0 -> ff_fh ff' <> FH_NONE).
Proof.
  intros Hs Hfo Hm Hf. destruct (Hfo f ff Hf) as (Hno & Hfh64 & Hrd).
  destruct (fusefs_do_open_run l w f ff) as (w' & E & Hq & Hfi & _); [done..|by apply memory_ok_for|].
  set (x := open_result _ _) in *. exists (open_code x), w', (opened ff x). split_and!; [done| | |].
  - apply quiet_post; [done|]. unfold files_ok. rewrite Hfi. apply map_Forall_insert_2; [|done].
    by apply file_ok_opened, (Hfo f).
  - rewrite Hfi. apply lookup_insert_eq.
  - unfold x, open_result. destruct (fs_open (ff_nodeid ff) 0) as [err|o] eqn:Eo.
    + cbn. unfold err_code, truth. destruct (Z.eqb_spec err 0); cbn; unfold EIO; lia.
    + case_match; [|done]. intros _. by apply (fs_open_fh _ _ _ Eo).
Qed.

Lemma op_read_safe l w f ff iov off :
  sys_ok b l w -> files_ok w -> memory_ok w -> w_files w !! f = Some ff ->
  buffers_ok iov -> iov_sum iov < 2 ^ 64 -> is_u 63 off ->
  exists res w', fusefs_read f iov off w = Ok res w' /\ op_post l w w'.
Proof.
  intros Hs Hfo Hm Hf Hi Hsum Hoff. destruct (decide (ff_fh ff = FH_NONE)) as [Hn|Hn];
    [|by eapply read_safe].
  destruct (open_safe l w f ff) as (e & w1 & ff1 & Eo & Hp & Hf1 & Hfh); [done..|].
  destruct (decide (e = 0)) as [->|He].
  - destruct (read_safe l w1 f ff1 iov off) as (res & w' & E & Hp'); try done;
      [apply Hp|apply Hp|by apply Hp|by apply Hfh|].
    exists res, w'. split; [|by eapply op_post_trans]. rewrite <- E. by eapply fusefs_read_opens, Hfh.
  - exists (e, []), w1. split; [|done]. by eapply fusefs_read_unopened.
Qed.

(** The first read of a file, when there is memory. *)
Lemma fusefs_read_first_run l w f ff iov off :
  sys_ok b l w -> w_files w !! f = Some ff -> is_u 64 (ff_nodeid ff) -> ff_fh ff = FH_NONE ->
  buffers_ok iov -> 0 < iov_sum iov < 2 ^ 64 -> is_u 63 off -> memory_ok w ->
  exists res w', fusefs_read f iov off w = Ok res w' /\ quiet l w w' /\
    match fs_open (ff_nodeid ff) 0 with
    | inl err => res = (if truth err then - err else - EIO, []) /\ w_files w' = w_files w
    | inr o =>
        w_files w' = <[f := ff_set_fh (open_out_fh o) ff]> (w_files w) /\
        match fs_read (ff_nodeid ff) (open_out_fh o) off (u32 (iov_sum iov)) with
        | inl err => res = (- err, [])
        | inr bs => fst res = blen bs /\ concat (snd res) = bs /\
                    Forall2 (fun c len => blen c <= len) (snd res) (take (length (snd res)) iov)
        end
    end.
Proof.
  intros Hs Hf Hi Hfh Hiov Hsum Hoff Hm.
  destruct (fusefs_do_open_run l w f ff) as (w1 & Eo & Hq & Hfi & _); [done..|by apply memory_ok_for|].
  rewrite (Hm (result_alloc w (In_open (ff_nodeid ff) 0))) in * by (unfold result_alloc; lia).
  unfold open_result in *. destruct (fs_open (ff_nodeid ff) 0) as [err|o] eqn:Eop; cbn [open_code opened] in *.
  - exists (err_code err, []), w1. split_and!; [|done|done|by rewrite Hfi, insert_id].
    eapply fusefs_read_unopened; try done. unfold err_code, truth, EIO. destruct (Z.eqb_spec err 0); cbn; lia.
  - destruct (fs_open_fh _ _ _ Eop) as [Hfh1 Hfh2]. set (ff1 := ff_set_fh (open_out_fh o) ff) in *.
    assert (w_files w1 !! f = Some ff1) as Hf1 by (rewrite Hfi; apply lookup_insert_eq).
    pose proof (quiet_memory _ _ _ Hq Hm) as Hm1.
    destruct (fusefs_read_open_run l w1 f ff1 iov off) as (res & w2 & E & Hq2 & Hsame & Hres);
      try done; [apply Hq|by eapply fs_open_readable|by apply memory_ok_for|].
    exists res, w2. split_and!; [|by eapply quiet_trans|by rewrite Hsame|].
    + rewrite <- E. by eapply fusefs_read_opens.
    + cbn [ff_nodeid ff_fh ff1 ff_set_fh] in Hres. unfold read_data in Hres.
      rewrite (Hm1 (result_alloc w1 _)) in Hres by (unfold result_alloc; lia).
      by destruct (fs_read _ _ _ _).
Qed.

(** Counting a reference of a file. *)
Lemma sys_ok_trace l w t : sys_ok b l w -> sys_ok b l (w_set_trace t w).
Proof. intros [[] ? ? ? ? ? ? ? ? ? ?]. constructor; try done. Qed.

Lemma post_trace l w t : sys_ok b l w -> files_ok w -> op_post l w (w_set_trace t w).
Proof. intros Hs Hf. constructor; try done. by apply sys_ok_trace. Qed.

Lemma post_files l w m :
  sys_ok b l w -> map_Forall (fun _ => file_ok) m -> (forall f, is_Some (m !! f) -> f < w_next w) ->
  op_post l w (w_set_files m w).
Proof. intros Hs Hf Hm. constructor; try done. by apply sys_ok_files. Qed.

Lemma op_lookup_safe l w f ff path len s :
  sys_ok b l w -> files_ok w -> memory_ok w -> w_files w !! f = Some ff ->
  strndup_bytes path (Z.to_nat len) = Some s -> blen s < 8152 ->
  exists res w', fusefs_lookup f path len w = Ok res w' /\ op_post l w w'.
Proof.
  intros Hs Hfo Hm Hf Hdup Hlen. destruct (is_special path len) eqn:Hsp.
  - unfold is_special in Hsp. unfold fusefs_lookup. erewrite bind_run by (by apply get_file_run).
    destruct ((len =? 0) || _).
    + eexists _, _. split; [by mstep by done|]. by apply post_trace.
    + cbn [orb] in Hsp. rewrite Hsp. eexists _, _. split; [by mstep by done|]. by apply post_trace.
  - destruct (Hfo f ff Hf) as (Hno & _).
    destruct (fusefs_lookup_run l w f ff path len s) as (res & w' & E & Hq & Hres);
      [done..|apply Hm; lia|apply memory_ok_for; intros i Hi; apply Hm; cbn in Hi; lia|].
    exists res, w'. split; [done|]. apply quiet_post; [done|]. unfold lookup_returns, lookup_data in Hres.
    destruct (fs_lookup (ff_nodeid ff) s) as [err|e] eqn:Ee.
    { destruct Hres as [_ Hsame]. unfold files_ok. by rewrite Hsame. }
    destruct (_ && _); [|destruct Hres as [_ Hsame]; unfold files_ok; by rewrite Hsame].
    destruct Hres as (c & _ & _ & Hfi). unfold files_ok. rewrite Hfi. apply map_Forall_insert_2; [|done].
    split_and!; [by eapply fs_lookup_ino|cbn; unfold is_u, FH_NONE; lia|done].
Qed.

(** Every operation returns, and leaves a system that is ready for the next. *)
Lemma op_runs l w op :
  sys_ok b l w -> files_ok w -> memory_ok w -> op_pre w op ->
  exists w', run_op op w = Ok tt w' /\ op_post l w w'.
Proof.
  intros Hs Hfo Hm (ff & Hf & Hargs). pose proof (Hfo _ ff Hf) as (Hno & _).
  assert (forall m f', is_Some (<[op_file op := m]> (w_files w) !! f') -> f' < w_next w) as Hdom.
  { intros m f' Hf'. destruct (decide (f' = op_file op)) as [->|Hne]; [by apply (sy_files _ _ _ Hs)|].
    rewrite lookup_insert_ne in Hf' by done. by apply (sy_files _ _ _ Hs). }
  destruct op as [f|f iov off|f path len|f cur len|f ref|f what|f]; cbn [op_file op_args run_op] in *.
  - destruct (fusefs_getstat_run l w f ff) as (w' & E & Hq & Hsame); [done..|by apply memory_ok_for|].
    exists w'. split; [by mstep by (exact E)|]. by apply quiet_post_same.
  - destruct Hargs as (Hi & Hsum & Hoff).
    destruct (op_read_safe l w f ff iov off) as (res & w' & E & Hp); [done..|].
    exists w'. split; [by mstep by (exact E)|done].
  - destruct Hargs as (s & Hdup & Hlen).
    destruct (op_lookup_safe l w f ff path len s) as (res & w' & E & Hp); [done..|].
    exists w'. split; [by mstep by (exact E)|done].
  - destruct Hargs as (Hcur & Hc).
    destruct (fusefs_listdir_run l w f ff cur len) as (res & w' & E & Hq & Hsame & _);
      [done..|by apply memory_ok_for|].
    exists w'. split; [by mstep by (exact E)|]. by apply quiet_post_same.
  - eexists. split.
    { unfold fusefs_graft. erewrite bind_run; [done|]. mstep by (by apply get_file_run).
      rewrite Hargs. mstep by done. mstep by done. mstep by (by apply mod_file_run). done. }
    eapply op_post_trans; [by apply post_trace|]. apply post_files; [by apply sys_ok_trace| |].
    + apply map_Forall_insert_2; [exact (Hfo f ff Hf)|done].
    + intros f'. apply Hdom.
  - unfold fusefs_release. destruct (flag what UK_FILE_RELEASE_OBJ); cbn [when];
      [|exists w; split; [done|by apply op_post_refl]].
    eexists. split.
    { mstep by (by apply get_file_run). erewrite bind_run; [done|].
      instantiate (1 := w_set_trace (w_trace w ++ match ff_upref ff with Some up => [Ev_release up] | None => [] end) w).
      instantiate (1 := tt). destruct (ff_upref ff); [done|]. rewrite app_nil_r. by destruct w. }
    eapply op_post_trans; [by apply post_trace|]. apply post_files; [by apply sys_ok_trace| |].
    + by apply map_Forall_delete.
    + intros f' Hf'. apply (sy_files _ _ _ Hs). cbn in Hf'.
      by apply lookup_delete_is_Some in Hf' as [_ ?].
  - exists w. split; [done|by apply op_post_refl].
Qed.
End file_ops.
