(* ===== verification/Boot.v ===== *)
(** * Start-up

    From an empty program to the state the file operations run in: the server
    creates its session and mounts it ([main] of [hello_ll.c]), the file system
    driver is opened, and the daemon thread gets its buffer. *)

From S2P Require Import Prelude Wire Platform KernelAbi LinkedList World Monad Buffer Request.
From S2P Require Import Reply Server Handlers Interrupt Notify Init Session Queue Daemon UkFs.
From S2P Require Import System FileOps.

Section boot.
Context {P : Platform} {PS : PlatformSpec P} {S : Server}.

(** The program's static data, before [main]; addresses up to 3 stand for the
    list heads embedded in the session. *)
Definition start_world (io : iostate) : world := {|
  w_next := 4; w_nalloc := 0; w_nio := 0; w_reqs := ∅; w_nreqs := ∅; w_blobs := ∅; w_mem := ∅;
  w_io := io; w_uks := ∅; w_files := ∅; w_se := session_zero; w_registered := false;
  w_unique := 1;
  w_queue := {| q_head := UK_TAILQ_INIT; q_lock := uk_mutex_init; q_count := uk_semaphore_init 0 |};
  w_trace := [] |}.

(** Root file and buffer address, as far as start-up got. *)
Definition boot : M (option Z * option Z) :=
  ok ← fuse_session_new_30 true sizeof_lowlevel_ops;
  if (ok : bool) then
    fuse_session_mount;;
    n ← fusefs_vopen;
    b ← fuse_daemon_begin;
    mret (n, b)
  else mret (None, None).

(** The session as [fuse_session_new] leaves it. *)
Definition booted_session : fuse_session :=
  se_set_lock uk_mutex_init (se_set_notify_ctr 1
    (se_set_conn (conn_set_max_write 131072 (conn_set_max_read 131072
       (conn_set_proto_minor 31 (conn_set_proto_major 7 conn_zero))))
      (se_set_got_init true session_zero))).

Definition list_head (x : Z) : fuse_req := set_prev x (set_next x req_zero).

(** After [k] allocations of the program itself. *)
Lemma new_session_at k io :
  alloc_ok k = true ->
  fuse_session_new_30 true sizeof_lowlevel_ops (w_set_nalloc k (start_world io)) =
  Ok true (w_set_reqs (<[SE_LIST := list_head SE_LIST]> (<[SE_INTERRUPTS := list_head SE_INTERRUPTS]> ∅))
    (w_set_nreqs {[SE_NOTIFY := Build_fuse_notify_req 0 0 SE_NOTIFY SE_NOTIFY]}
      (w_set_se booted_session (w_set_next 5 (w_set_nalloc (Datatypes.S k) (start_world io)))))).
Proof.
  intros Ha. unfold fuse_session_new_30, fuse_session_new_versioned. cbn [negb orb].
  change (sizeof_lowlevel_ops =? 0) with false. cbv beta iota.
  mstep by (by apply alloc_run). do 6 mstep by done.
  mstep by (apply on_reqs_run; cbn [w_reqs w_set_reqs]; reflexivity).
  mstep by (apply on_reqs_run; cbn [w_reqs w_set_reqs]; reflexivity).
  mstep by (unfold list_init_nreq, on_nreqs; cbn [w_nreqs w_set_nreqs]; reflexivity).
  do 2 mstep by done. reflexivity.
Qed.

Lemma new_session_run io :
  alloc_ok 0 = true ->
  fuse_session_new_30 true sizeof_lowlevel_ops (start_world io) =
  Ok true (w_set_reqs (<[SE_LIST := list_head SE_LIST]> (<[SE_INTERRUPTS := list_head SE_INTERRUPTS]> ∅))
    (w_set_nreqs {[SE_NOTIFY := Build_fuse_notify_req 0 0 SE_NOTIFY SE_NOTIFY]}
      (w_set_se booted_session (w_set_next 5 (w_set_nalloc 1 (start_world io)))))).
Proof. apply (new_session_at 0). Qed.

Lemma list_heads_ok :
  lists_ok (<[SE_LIST := list_head SE_LIST]> (<[SE_INTERRUPTS := list_head SE_INTERRUPTS]> ∅)) [] [].
Proof.
  constructor; [| |intros x; set_solver].
  - by apply self_linked.
  - apply dll_insert_fresh; [set_solver|]. by apply self_linked.
Qed.

(** What the rest of start-up needs: four allocations and a thread. *)
Definition boot_resources : Prop :=
  (forall i, (i < 4)%nat -> alloc_ok i = true) /\ uk_alloc_get_default = true /\ uk_thread_create_ok 0 = true.

Lemma booted_queue_ok :
  let q := {| q_head := UK_TAILQ_INIT; q_lock := uk_mutex_init; q_count := uk_semaphore_init 0 |} in
  q_idle q /\ elems q = [].
Proof.
  unfold elems. cbn. split; [|apply tq_init_elems]. constructor; [apply mutex_init_free|].
  unfold elems. cbn. by rewrite tq_init_elems, sem_init_value.
Qed.

(** A daemon thread gets an argument block of its own. *)
Lemma fuse_daemon_start_run w :
  uk_alloc_get_default = true -> alloc_ok (w_nalloc w) = true -> uk_thread_create_ok (w_nio w) = true ->
  fuse_daemon_start w = Ok 0
    (w_set_trace (w_trace w ++ [Ev_thread]) (w_set_nio (Datatypes.S (w_nio w))
      (w_set_blobs (<[w_next w := B_bytes []]> (w_blobs w))
        (w_set_next (w_next w + 1) (w_set_nalloc (Datatypes.S (w_nalloc w)) w))))).
Proof.
  intros Hd Ha Ht. unfold fuse_daemon_start. rewrite Hd. cbn [negb].
  mstep by (by apply malloc_run). mstep by (eapply store_run, lookup_insert_eq).
  mstep by done. mstep by done. cbn. rewrite Ht. mstep by done. cbn. by rewrite insert_insert_eq.
Qed.

Definition root_file : fusefs_file := Build_fusefs_file FUSE_ROOT_ID FH_NONE None 0 fusefs_fs_ops.
Definition fresh_queue : fuse_ukfs_queue :=
  {| q_head := UK_TAILQ_INIT; q_lock := uk_mutex_init; q_count := uk_semaphore_init 0 |}.

(** With a registered session, opening the volume starts the daemon. *)
Lemma fusefs_vopen_run w :
  uk_alloc_get_default = true -> uk_thread_create_ok (w_nio w) = true -> w_registered w = true ->
  alloc_ok (w_nalloc w) = true -> alloc_ok (Datatypes.S (w_nalloc w)) = true ->
  fusefs_vopen w = Ok (Some (w_next w))
    (w_set_trace (w_trace w ++ [Ev_thread]) (w_set_nio (Datatypes.S (w_nio w))
      (w_set_blobs (<[w_next w + 1 := B_bytes []]> (w_blobs w))
        (w_set_next (w_next w + 1 + 1) (w_set_nalloc (Datatypes.S (Datatypes.S (w_nalloc w)))
          (w_set_queue fresh_queue (w_set_files (<[w_next w := root_file]> (w_files w)) w))))))).
Proof.
  intros Hd Ht Hr Ha1 Ha2. unfold fusefs_vopen. mstep by (by apply fusefs_file_alloc_run).
  mstep by done. mstep by done. cbn [w_registered w_set_queue w_set_files w_set_next w_set_nalloc].
  rewrite Hr. cbn [when]. erewrite bind_run; [|by mstep by (by apply fuse_daemon_start_run)]. done.
Qed.

(** Without one it does not, and every file operation that asks the server blocks. *)
Lemma fusefs_vopen_unregistered w :
  w_registered w = false -> alloc_ok (w_nalloc w) = true ->
  fusefs_vopen w = Ok (Some (w_next w))
    (w_set_queue fresh_queue (w_set_files (<[w_next w := root_file]> (w_files w))
      (w_set_next (w_next w + 1) (w_set_nalloc (Datatypes.S (w_nalloc w)) w)))).
Proof.
  intros Hr Ha. unfold fusefs_vopen. mstep by (by apply fusefs_file_alloc_run).
  mstep by done. mstep by done. cbn [w_registered w_set_queue w_set_files w_set_next w_set_nalloc].
  rewrite Hr. cbn [when]. by mstep by done.
Qed.

(** The program after start-up, with [k] allocations before it: the root file
    is 5, the daemon's buffer 7. *)
Definition ROOT_FILE : Z := 5.
Definition DAEMON_BUF : Z := 7.
Definition booted_at (k : nat) (io : iostate) : world := {|
  w_next := 8; w_nalloc := 4 + k; w_nio := 1;
  w_reqs := <[SE_LIST := list_head SE_LIST]> (<[SE_INTERRUPTS := list_head SE_INTERRUPTS]> ∅);
  w_nreqs := {[SE_NOTIFY := Build_fuse_notify_req 0 0 SE_NOTIFY SE_NOTIFY]};
  w_blobs := {[6 := B_bytes []]};
  w_mem := {[DAEMON_BUF := map (junk (3 + k)) (seq 0 (Z.to_nat FUSE_DAEMON_BUF_SIZE))]};
  w_io := io; w_uks := ∅; w_files := {[ROOT_FILE := root_file]}; w_se := booted_session;
  w_registered := true; w_unique := 1; w_queue := fresh_queue; w_trace := [Ev_thread] |}.

Definition booted_world (io : iostate) : world := booted_at 0 io.

Lemma boot_run io :
  boot_resources -> boot (start_world io) = Ok (Some ROOT_FILE, Some DAEMON_BUF) (booted_world io).
Proof.
  intros (Ha & Hd & Ht).
  unfold boot. mstep by (apply new_session_run, Ha; lia). mstep by done.
  mstep by (apply fusefs_vopen_run; try done; apply Ha; cbn; lia).
  mstep by (unfold fuse_daemon_begin, memalign; mstep by done;
            mstep by (apply alloc_run, Ha; cbn; lia); by mstep by done). done.
Qed.

Lemma booted_at_ok k io : sys_ok DAEMON_BUF [] (booted_at k io).
Proof.
  constructor; try done.
  - constructor; [apply mutex_init_free|apply list_heads_ok|].
    intros x. cbn. destruct (decide (x = 1)) as [->|]; [lia|]. destruct (decide (x = 2)) as [->|]; [lia|].
    unfold SE_LIST, SE_INTERRUPTS. rewrite !lookup_insert_ne by done. by intros [].
  - apply booted_queue_ok.
  - apply booted_queue_ok.
  - eexists. split; [apply lookup_singleton_eq|]. unfold blen. by rewrite length_map, length_seq.
  - intros u [? Hx]. done.
  - intros x. cbn. intros [y [<- _]%lookup_singleton_Some]. lia.
  - intros x. cbn. intros [y [<- _]%lookup_singleton_Some]. unfold ROOT_FILE. lia.
Qed.

Lemma booted_mem k io a : is_Some (w_mem (booted_at k io) !! a) -> a = DAEMON_BUF.
Proof. cbn [w_mem booted_at]. by intros [mem [<- _]%lookup_singleton_Some]. Qed.

Lemma booted_ok io : sys_ok DAEMON_BUF [] (booted_world io).
Proof. apply booted_at_ok. Qed.
End boot.

Section boot_files.
Context {P : Platform} {PS : PlatformSpec P} {S : Server} {F : FileServer S}.

Lemma booted_files_at k io : files_ok (booted_at k io).
Proof.
  apply map_Forall_singleton. split_and!; [|by unfold is_u, FH_NONE|done]. done.
Qed.

Lemma booted_files_ok io : files_ok (booted_world io).
Proof. apply booted_files_at. Qed.
End boot_files.
