(* ===== verification/Posix.v ===== *)
(** * The POSIX interface

    The tests use the file system through the system calls of Unikraft and its
    C library ([stat], [open], [read], [readdir], ...), which are not part of the
    repository.  They are a parameter: [Posix] lists the calls, and [PosixSpec]
    the documented behaviour the theorems rely on.  A call reports what the
    driver's operations ([fusefs_*]) find out about the file that the path or
    the descriptor stands for; when they are made, how often, and what is cached
    in between is left open. *)

From S2P Require Import Prelude Wire Platform KernelAbi LinkedList World Monad Buffer Request.
From S2P Require Import Reply Server Handlers Interrupt Notify Init Session Queue Daemon UkFs.
From S2P Require Import System FileOps Boot.

(** A call on the state of the virtual file system and the program: an error
    number or a result; [None] when it does not return. *)
Definition syscall {P : Platform} (V A : Type) : Type := V -> world -> option ((Z + A) * V * world).

Class Posix {P : Platform} := {
  vfs : Type;
  vfs_start : vfs;
  px_mount : bytes -> bytes -> bytes -> syscall vfs unit;      (* source, target, type *)
  px_stat : bytes -> syscall vfs stat;
  px_open : bytes -> Z -> syscall vfs Z;
  px_fstat : Z -> syscall vfs stat;
  px_lseek : Z -> Z -> Z -> syscall vfs Z;
  px_read : Z -> Z -> syscall vfs bytes;
  px_pread : Z -> Z -> Z -> syscall vfs bytes;
  px_close : Z -> syscall vfs unit;
  px_opendir : bytes -> syscall vfs Z;
  px_readdir : Z -> syscall vfs (option (Z * bytes));          (* d_ino, d_name *)
  px_closedir : Z -> syscall vfs unit;
  px_access : bytes -> Z -> syscall vfs unit }.

(** [unistd.h], besides [SEEK_SET] *)
Definition SEEK_CUR : Z := 1.
Definition SEEK_END : Z := 2.
Definition F_OK : Z := 0.
Definition R_OK : Z := 4.

Definition SLASH : bytes := str "/"%string.

(** A path component: no separator, no NUL, not "." or "..", and not too long. *)
Definition component (name : bytes) : Prop :=
  name <> [] /\ nonul name /\ 47 ∉ name /\ name <> str "."%string /\ name <> str ".."%string /\
  blen name <= 255.

(** What [mount] sets off: the driver opens the volume, the daemon starts. *)
Definition open_volume {P : Platform} {S : Server} : M (option Z * option Z) :=
  n ← fusefs_vopen; b ← fuse_daemon_begin; mret (n, b).

Section driver.
Context {P : Platform} {PS : PlatformSpec P} {S : Server} {F : FileServer S}.
#[local] Instance driver_sched : Scheduler := daemon_scheduler DAEMON_BUF.
Implicit Types (w : world) (n f : Z).

(** A state in which the driver serves file operations. *)
Definition usable w : Prop := sys_ok DAEMON_BUF [] w /\ files_ok w /\ memory_ok w.

(** The file [f] stands for the node [n]. *)
Definition file_of w n f : Prop := exists ff, w_files w !! f = Some ff /\ ff_nodeid ff = n.

(** What the driver's operations say about a node. *)
Definition driver_stat n (x : Z * option uk_statx) : Prop :=
  exists w f w', usable w /\ file_of w n f /\ fusefs_getstat f w = Ok x w'.

Inductive driver_lookup n (name : bytes) : Z + Z -> Prop :=
| lookup_found w f tl res w' c m :
    usable w -> file_of w n f -> fusefs_lookup f (name ++ tl) (blen name) w = Ok res w' ->
    lk_target res = Some c -> file_of w' m c -> driver_lookup n name (inr m)
| lookup_failed w f tl res w' :
    usable w -> file_of w n f -> fusefs_lookup f (name ++ tl) (blen name) w = Ok res w' ->
    lk_target res = None -> driver_lookup n name (inl (- lk_ret res)).

Definition result_or {A} (ret : Z) (a : A) : Z + A := if ret <? 0 then inl (- ret) else inr a.

Definition driver_read n size off (x : Z + bytes) : Prop :=
  exists w f iov ret chunks w', usable w /\ file_of w n f /\ buffers_ok iov /\ iov_sum iov = size /\
    fusefs_read f iov off w = Ok (ret, chunks) w' /\ x = result_or ret (concat chunks).

(** The entry at a cursor and the next cursor; the buffer has room for a name of
    any length. *)
Definition driver_listdir n cur (x : Z + option (uk_fs_dirent * Z)) : Prop :=
  exists w f len ret out w', usable w /\ file_of w n f /\
    (forall k, 0 <= k <= 255 -> UKFS_DIRENT_RECLEN k <= len) /\
    fusefs_listdir f cur len w = Ok (ret, out) w' /\ x = result_or ret out.
End driver.

(** The attributes a program gets are those the driver reports. *)
Definition stat_result (x : Z * option uk_statx) (r : Z + stat) : Prop :=
  match snd x with
  | Some s => exists st, r = inr st /\ st_mode st = stx_mode s /\ st_ino st = stx_ino s /\
                         st_nlink st = stx_nlink s /\ st_size st = stx_size s
  | None => r = inl (- fst x)
  end.

(** What a path names, in the file system whose root is node [root]. *)
Inductive names_node {P : Platform} {PS : PlatformSpec P} {S : Server} {F : FileServer S} (root : Z) :
  bytes -> Z + Z -> Prop :=
| names_root : names_node root SLASH (inr root)
| names_entry name x : component name -> driver_lookup root name x -> names_node root (SLASH ++ name) x.

Section posix.
Context {P : Platform} {PS : PlatformSpec P} {S : Server} {F : FileServer S}.
#[local] Instance posix_sched : Scheduler := daemon_scheduler DAEMON_BUF.

(** Type of the node, according to the driver. *)
Definition node_type (n type : Z) : Prop :=
  exists s, driver_stat n (0, Some s) /\ Z.land (stx_mode s) S_IFMT = type.

(** ** The promises *)

Section promises.
Context (X : Posix).
(** The mounted file system is in order; the node of its root; the open
    descriptors and directory streams, each with its node and the position in it. *)
Context (ok : vfs -> world -> Prop) (root : vfs -> Z) (fds dirs : vfs -> gmap Z (Z * Z)).
Implicit Types (v : vfs) (w : world).

(** The call returns, with the file system in order. *)
Definition returns {A} (c : syscall vfs A) v w (Q : Z + A -> vfs -> Prop) : Prop :=
  exists r v' w', c v w = Some (r, v', w') /\ ok v' w' /\ root v' = root v /\ Q r v'.

Definition same v v' : Prop := fds v' = fds v /\ dirs v' = dirs v.
Definition moved v v' fd n pos : Prop := fds v' = <[fd := (n, pos)]> (fds v) /\ dirs v' = dirs v.
Definition turned v v' d n cur : Prop := dirs v' = <[d := (n, cur)]> (dirs v) /\ fds v' = fds v.

Definition simple_path (path : bytes) : Prop :=
  path = SLASH \/ exists name, component name /\ path = SLASH ++ name.

(** Descriptors are few. *)
Definition few v : Prop := (size (fds v) + size (dirs v) < 16)%nat.

(** A volume that opens is mounted, with nothing open on it. *)
Definition mounts : Prop := forall src w f w' n,
  open_volume w = Ok (Some f, Some DAEMON_BUF) w' -> usable w' -> file_of w' n f ->
  exists v w2, px_mount src SLASH (str "fuse"%string) vfs_start w = Some (inr tt, v, w2) /\
    ok v w2 /\ root v = n /\ fds v = ∅ /\ dirs v = ∅.

Definition stats : Prop := forall path v w, ok v w -> simple_path path ->
  returns (px_stat path) v w (fun r v' => same v v' /\
    exists t, names_node (root v) path t /\
    match t with inl e => r = inl e | inr n => exists x, driver_stat n x /\ stat_result x r end).

Definition opens : Prop := forall path v w, ok v w -> simple_path path -> few v ->
  returns (px_open path O_RDONLY) v w (fun r v' =>
    exists t, names_node (root v) path t /\
    match t with
    | inl e => r = inl e /\ same v v'
    | inr n => exists fd, r = inr fd /\ 0 <= fd /\ fds v !! fd = None /\ moved v v' fd n 0
    end).

Definition fstats : Prop := forall fd v w n pos, ok v w -> fds v !! fd = Some (n, pos) ->
  returns (px_fstat fd) v w (fun r v' => same v v' /\ exists x, driver_stat n x /\ stat_result x r).

Definition seeks_set : Prop := forall fd off v w n pos,
  ok v w -> fds v !! fd = Some (n, pos) -> is_u 63 off ->
  returns (px_lseek fd off SEEK_SET) v w (fun r v' => r = inr off /\ moved v v' fd n off).

Definition seeks_cur : Prop := forall fd off v w n pos,
  ok v w -> fds v !! fd = Some (n, pos) -> is_u 63 (pos + off) ->
  returns (px_lseek fd off SEEK_CUR) v w (fun r v' => r = inr (pos + off) /\ moved v v' fd n (pos + off)).

Definition seeks_end : Prop := forall fd off v w n pos,
  ok v w -> fds v !! fd = Some (n, pos) -> node_type n S_IFREG ->
  (forall s, driver_stat n (0, Some s) -> is_u 63 (stx_size s + off)) ->
  returns (px_lseek fd off SEEK_END) v w (fun r v' =>
    exists x, driver_stat n x /\
    match snd x with
    | Some s => r = inr (stx_size s + off) /\ moved v v' fd n (stx_size s + off)
    | None => r = inl (- fst x) /\ same v v'
    end).

(** A read starts at the position and moves it; [pread] leaves it alone. *)
Definition reads : Prop := forall fd count v w n pos,
  ok v w -> fds v !! fd = Some (n, pos) -> node_type n S_IFREG -> 0 < count < 2 ^ 31 -> is_u 63 pos ->
  returns (px_read fd count) v w (fun r v' => driver_read n count pos r /\
    match r with inl _ => same v v' | inr bs => moved v v' fd n (pos + blen bs) end).

Definition preads : Prop := forall fd count off v w n pos,
  ok v w -> fds v !! fd = Some (n, pos) -> node_type n S_IFREG -> 0 < count < 2 ^ 31 -> is_u 63 off ->
  returns (px_pread fd count off) v w (fun r v' => driver_read n count off r /\ same v v').

Definition closes : Prop := forall fd v w n pos, ok v w -> fds v !! fd = Some (n, pos) ->
  returns (px_close fd) v w (fun r v' => r = inr tt /\ fds v' = delete fd (fds v) /\ dirs v' = dirs v).

Definition opens_dir : Prop := forall path v w, ok v w -> simple_path path ->
  (forall n, names_node (root v) path (inr n) -> node_type n S_IFDIR) -> few v ->
  returns (px_opendir path) v w (fun r v' =>
    exists t, names_node (root v) path t /\
    match t with
    | inl e => r = inl e /\ same v v'
    | inr n => exists d, r = inr d /\ dirs v !! d = None /\ turned v v' d n 0
    end).

(** The driver's entries one after the other, the end, or an error. *)
Definition reads_dir : Prop := forall d v w n cur,
  ok v w -> dirs v !! d = Some (n, cur) -> is_u 63 cur -> fs_cursor n cur = true ->
  returns (px_readdir d) v w (fun r v' =>
    exists x, driver_listdir n cur x /\
    match x with
    | inl e => r = inl e /\ same v v'
    | inr None => r = inr None /\ same v v'
    | inr (Some (rec, next)) =>
        exists name, cstr (d_name rec) = Some name /\ r = inr (Some (d_ino rec, name)) /\ turned v v' d n next
    end).

Definition closes_dir : Prop := forall d v w n cur, ok v w -> dirs v !! d = Some (n, cur) ->
  returns (px_closedir d) v w (fun r v' => r = inr tt /\ dirs v' = delete d (dirs v) /\ fds v' = fds v).

(** The program runs as root: what is there may be read. *)
Definition grants : Prop := forall path mode v w, ok v w -> simple_path path -> mode = F_OK \/ mode = R_OK ->
  returns (px_access path mode) v w (fun r v' => same v v' /\
    exists t, names_node (root v) path t /\
    match t with
    | inl e => r = inl e
    | inr n => exists x, driver_stat n x /\ match snd x with Some _ => r = inr tt | None => r = inl (- fst x) end
    end).
End promises.

Class PosixSpec (X : Posix) := {
  px_ok : vfs -> world -> Prop;
  px_root : vfs -> Z;
  px_fds : vfs -> gmap Z (Z * Z);
  px_dirs : vfs -> gmap Z (Z * Z);
  px_mount_ok : mounts X px_ok px_root px_fds px_dirs;
  px_stat_ok : stats X px_ok px_root px_fds px_dirs;
  px_open_ok : opens X px_ok px_root px_fds px_dirs;
  px_fstat_ok : fstats X px_ok px_root px_fds px_dirs;
  px_seek_set_ok : seeks_set X px_ok px_root px_fds px_dirs;
  px_seek_cur_ok : seeks_cur X px_ok px_root px_fds px_dirs;
  px_seek_end_ok : seeks_end X px_ok px_root px_fds px_dirs;
  px_read_ok : reads X px_ok px_root px_fds px_dirs;
  px_pread_ok : preads X px_ok px_root px_fds px_dirs;
  px_close_ok : closes X px_ok px_root px_fds px_dirs;
  px_opendir_ok : opens_dir X px_ok px_root px_fds px_dirs;
  px_readdir_ok : reads_dir X px_ok px_root px_fds px_dirs;
  px_closedir_ok : closes_dir X px_ok px_root px_fds px_dirs;
  px_access_ok : grants X px_ok px_root px_fds px_dirs }.
End posix.
