(* ===== verification/PosixProps.v ===== *)
(** * What the driver says about a node

    In every state in which the driver serves file operations, they say the same
    about a node: what the server says.  This makes the weak promises of
    [PosixSpec] determine what a program sees. *)

From S2P Require Import Prelude Wire Platform KernelAbi LinkedList World Monad Buffer Request.
From S2P Require Import Reply Server Handlers Interrupt Notify Init Session Queue Dirent Daemon UkFs.
From S2P Require Import System FileOps Boot Posix.

Section driver_props.
Context {P : Platform} {PS : PlatformSpec P} {S : Server} {F : FileServer S}.
#[local] Existing Instance driver_sched.
Implicit Types (w : world) (n f : Z).

Lemma usable_file w n f : usable w -> file_of w n f ->
  exists ff, w_files w !! f = Some ff /\ ff_nodeid ff = n /\ file_ok ff.
Proof. intros (_ & Hf & _) (ff & E & Hn). exists ff. split_and!; [done|done|by apply (Hf f)]. Qed.

Lemma usable_quiet w w' : quiet DAEMON_BUF [] w w' -> files_ok w' -> memory_ok w -> usable w'.
Proof. intros Hq Hf Hm. split_and!; [apply Hq|done|by eapply quiet_memory]. Qed.

Lemma usable_same w w' : usable w -> quiet DAEMON_BUF [] w w' -> w_files w' = w_files w -> usable w'.
Proof. intros (_ & Hf & Hm) Hq E. apply (usable_quiet w); [done| |done]. unfold files_ok. by rewrite E. Qed.

(** Files stay the files of their nodes. *)
Definition kept w w' : Prop := forall n f, file_of w n f -> file_of w' n f.

Lemma kept_same w w' : w_files w' = w_files w -> kept w w'.
Proof. intros E n f. unfold file_of. by rewrite E. Qed.

Lemma getstat_usable w n f :
  usable w -> file_of w n f ->
  exists w', fusefs_getstat f w = Ok (getstat_result n true) w' /\ usable w' /\ kept w w'.
Proof.
  intros Hu Hf. destruct (usable_file w n f Hu Hf) as (ff & E & <- & Hi & _). pose proof Hu as (Hs & _ & Hm).
  destruct (fusefs_getstat_run DAEMON_BUF [] w f ff Hs E Hi) as (w' & Er & Hq & Hsame); [by apply memory_ok_for|].
  rewrite Hm in Er by (unfold result_alloc; lia). exists w'. split; [done|].
  split; [by eapply usable_same|by apply kept_same].
Qed.

Lemma driver_stat_eq n x : driver_stat n x -> x = getstat_result n true.
Proof.
  intros (w & f & w' & Hu & Hf & E). destruct (getstat_usable w n f Hu Hf) as (w1 & E1 & _). congruence.
Qed.

(** ** Names *)

Lemma component_special name tl : component name -> is_special (name ++ tl) (blen name) = false.
Proof.
  intros (Hne & _ & _ & Hd & Hdd & _). unfold is_special, path_is.
  assert (forall nm : bytes, blen name = blen nm -> name <> nm -> bool_decide (take (length nm) (name ++ tl) = nm) = false) as H.
  { intros nm Hl Hn. apply bool_decide_eq_false. intros Ht. apply Hn. etrans; [|exact Ht].
    symmetry. apply take_app_length'. unfold blen in Hl. lia. }
  destruct (Z.eqb_spec (blen name) 0) as [H0|_]; [by destruct name|].
  destruct (Z.eqb_spec (blen name) 1) as [H1|_]; [by rewrite (H (str "."%string) H1 Hd), H1|].
  destruct (Z.eqb_spec (blen name) 2) as [H2|_]; [by rewrite (H (str ".."%string) H2 Hdd)|]. done.
Qed.

Lemma component_dup name tl : nonul name -> strndup_bytes (name ++ tl) (Z.to_nat (blen name)) = Some name.
Proof.
  intros Hn. unfold blen. rewrite Nat2Z.id. induction Hn as [|c name Hc Hn IH]; [by destruct tl|].
  cbn in *. rewrite (proj2 (Z.eqb_neq c 0) Hc). by rewrite IH.
Qed.

(** What a lookup yields, the negated error number turned round. *)
Definition looked_up n (name : bytes) : Z + Z :=
  match fs_lookup n name with inr e => inr (e_ino e) | inl err => inl (- err_code err) end.

Lemma lookup_usable w n f name tl :
  usable w -> file_of w n f -> component name ->
  exists res w', fusefs_lookup f (name ++ tl) (blen name) w = Ok res w' /\ usable w' /\ kept w w' /\
    match looked_up n name with
    | inr m => exists c, lk_target res = Some c /\ file_of w' m c /\ forall k, ~ file_of w k c
    | inl e => lk_target res = None /\ lk_ret res = - e
    end.
Proof.
  intros Hu Hf Hc. destruct (usable_file w n f Hu Hf) as (ff & E & <- & Hok). pose proof Hu as (Hs & Hfo & Hm).
  pose proof Hc as (_ & Hnn & _ & _ & _ & Hlen).
  destruct (fusefs_lookup_run DAEMON_BUF [] w f ff (name ++ tl) (blen name) name Hs E (proj1 Hok))
    as (res & w' & Er & Hq & Hr);
    [by apply component_special|by apply component_dup|lia|apply Hm; lia|
     apply memory_ok_for; intros i Hi; apply Hm; cbn in Hi; lia|].
  rewrite !Hm in Hr by (unfold result_alloc; cbn; lia). unfold lookup_data in Hr.
  exists res, w'. split; [done|]. unfold looked_up.
  destruct (fs_lookup (ff_nodeid ff) name) as [err|e] eqn:El; cbn [andb lookup_returns] in Hr.
  - destruct Hr as [-> Hsame]. split_and!; [by eapply usable_same|by apply kept_same|done|cbn; lia].
  - destruct Hr as (c & Hcn & -> & Hfi).
    assert (files_ok w') as Hfo'.
    { unfold files_ok. rewrite Hfi. apply map_Forall_insert_2; [|done].
      split_and!; [by eapply fs_lookup_ino|cbn; unfold is_u, FH_NONE; lia|done]. }
    split_and!; [by eapply usable_quiet| |].
    + intros k g (fg & Eg & Hk). exists fg. split; [|done]. rewrite Hfi, lookup_insert_ne; [done|congruence].
    + exists c. split_and!; [done| |intros k (fg & Eg & _); congruence].
      exists (child_of ff e). split; [by rewrite Hfi, lookup_insert_eq|done].
Qed.

Lemma driver_lookup_eq n name x : component name -> driver_lookup n name x -> x = looked_up n name.
Proof.
  intros Hc H. destruct H as [w f tl res w' c m Hu Hf E Ht Hm|w f tl res w' Hu Hf E Ht];
    destruct (lookup_usable w n f name tl Hu Hf Hc) as (res1 & w1 & E1 & _ & _ & H1);
    assert (res1 = res) as -> by congruence; assert (w1 = w') as -> by congruence;
    destruct (looked_up n name) as [e|m']; try (destruct H1; congruence).
  - destruct H1 as (c' & Hc' & (ff & Ef & <-) & _). destruct Hm as (ff' & Ef' & <-). congruence.
  - destruct H1 as [_ ->]. f_equal. lia.
  - destruct H1 as (c' & Hc' & _). congruence.
Qed.

(** ** Data *)

Lemma read_returns_data iov bs res :
  read_returns iov (inr bs) res -> result_or (fst res) (concat (snd res)) = inr bs.
Proof. intros (-> & -> & _). unfold result_or. by rewrite (proj2 (Z.ltb_ge _ _)) by (unfold blen; lia). Qed.

(** Reading a node the server lets open, where the data do not depend on the
    handle. *)
Lemma read_usable w n f iov off o bs :
  usable w -> file_of w n f -> buffers_ok iov -> 0 < iov_sum iov < 2 ^ 31 -> is_u 63 off ->
  fs_open n 0 = inr o -> (forall fh, fs_read n fh off (iov_sum iov) = inr bs) ->
  exists res w', fusefs_read f iov off w = Ok res w' /\ usable w' /\ kept w w' /\
    result_or (fst res) (concat (snd res)) = inr bs.
Proof.
  intros Hu Hf Hi Hsum Hoff Ho Hr. destruct (usable_file w n f Hu Hf) as (ff & E & <- & Hno & Hfh & Hrd).
  pose proof Hu as (Hs & Hfo & Hm).
  assert (u32 (iov_sum iov) = iov_sum iov) as Hsz by (apply wrapu_id; unfold is_u; lia).
  destruct (decide (ff_fh ff = FH_NONE)) as [Hn|Hn].
  - destruct (fusefs_read_first_run DAEMON_BUF [] w f ff iov off) as (res & w' & Er & Hq & Hres); try done; [lia|].
    rewrite Ho, Hsz, Hr in Hres. destruct Hres as (Hfi & Hres).
    assert (files_ok w') as Hfo'.
    { unfold files_ok. rewrite Hfi. apply map_Forall_insert_2; [|done].
      split_and!; [done|by eapply fs_open_fh|]. intros _. by eapply fs_open_readable. }
    exists res, w'. split_and!; [done|by eapply usable_quiet| |by apply (read_returns_data iov)].
    intros k g (fg & Eg & Hk). unfold file_of. rewrite Hfi. destruct (decide (g = f)) as [->|Hne].
    + exists (ff_set_fh (open_out_fh o) ff). split; [apply lookup_insert_eq|]. cbn. congruence.
    + exists fg. by rewrite lookup_insert_ne.
  - destruct (fusefs_read_open_run DAEMON_BUF [] w f ff iov off) as (res & w' & Er & Hq & Hsame & Hres);
      try done; [by apply Hrd|lia|by apply memory_ok_for|].
    unfold read_data in Hres. rewrite Hsz, Hr in Hres. rewrite Hm in Hres by (unfold result_alloc; lia).
    exists res, w'. split_and!; [done|by eapply usable_same|by apply kept_same|by apply (read_returns_data iov)].
Qed.

Lemma driver_read_eq n size off x o bs :
  driver_read n size off x -> 0 < size < 2 ^ 31 -> is_u 63 off ->
  fs_open n 0 = inr o -> (forall fh, fs_read n fh off size = inr bs) -> x = inr bs.
Proof.
  intros (w & f & iov & ret & chunks & w' & Hu & Hf & Hi & <- & E & ->) Hsz Hoff Ho Hr.
  destruct (read_usable w n f iov off o bs) as (res & w1 & E1 & _ & _ & H1); [done..|].
  rewrite E in E1. injection E1 as <- <-. exact H1.
Qed.

(** ** Directories *)

(** The entry at a cursor: nothing at the end. *)
Definition listed n cur (x : Z + option (uk_fs_dirent * Z)) : Prop :=
  match fs_readdir n 0 cur LISTDIR_SIZE with
  | inl err => 0 < err -> x = inl err
  | inr [] => x = inr None
  | inr bs => match first_dirent bs with
              | Some (fd, name) => blen name <= 255 -> x = inr (Some (record_of fd name, dirent_off fd))
              | None => True
              end
  end.

Lemma listdir_usable w n f cur len :
  usable w -> file_of w n f -> is_u 63 cur -> fs_cursor n cur = true ->
  (forall k, 0 <= k <= 255 -> UKFS_DIRENT_RECLEN k <= len) ->
  exists res w', fusefs_listdir f cur len w = Ok res w' /\ usable w' /\ kept w w' /\
    listed n cur (result_or (fst res) (snd res)).
Proof.
  intros Hu Hf Hcur Hc Hl. destruct (usable_file w n f Hu Hf) as (ff & E & <- & Hno & _).
  pose proof Hu as (Hs & Hfo & Hm).
  destruct (fusefs_listdir_run DAEMON_BUF [] w f ff cur len) as (res & w' & Er & Hq & Hsame & Hres);
    [done..|by apply memory_ok_for|].
  exists res, w'. split_and!; [done|by eapply usable_same|by apply kept_same|].
  unfold listdir_returns in Hres. rewrite Hm in Hres by (unfold result_alloc; lia). unfold listed.
  destruct (fs_readdir _ _ _ _) as [err|[|c bs]].
  - subst res. intros He. cbn. unfold result_or. rewrite (proj2 (Z.ltb_lt _ _)) by lia. f_equal. lia.
  - subst res. done.
  - destruct (first_dirent (c :: bs)) as [[fd name]|]; [|done]. cbv zeta in Hres. intros Hb.
    assert (0 <= blen name) as Hnn by (unfold blen; lia).
    rewrite (proj2 (Z.ltb_ge _ _)) in Hres by (apply Hl; lia). subst res. cbn. unfold result_or.
    pose proof (reclen_room (blen name) Hnn) as Hroom. pose proof name_off_nonneg.
    rewrite (proj2 (Z.ltb_ge _ _)); [done|]. lia.
Qed.

Lemma driver_listdir_eq n cur x :
  driver_listdir n cur x -> is_u 63 cur -> fs_cursor n cur = true -> listed n cur x.
Proof.
  intros (w & f & len & ret & out & w' & Hu & Hf & Hl & E & ->) Hcur Hc.
  destruct (listdir_usable w n f cur len) as (res & w1 & E1 & _ & _ & H1); [done..|].
  rewrite E in E1. injection E1 as <- <-. exact H1.
Qed.

(** A server whose regular files can be read from anywhere, the same through
    every handle, and whose directories hold names of ordinary length. *)
Class PlainServer := {
  plain_file : forall n st, fs_getattr n = inr st -> Z.land (st_mode st) S_IFMT = S_IFREG ->
    exists o, fs_open n 0 = inr o /\ forall off size, exists bs, forall fh, fs_read n fh off size = inr bs;
  plain_dir : forall n cur, fs_cursor n cur = true ->
    match fs_readdir n 0 cur LISTDIR_SIZE with
    | inl err => 0 < err
    | inr bs => bs = [] \/ exists fd name, first_dirent bs = Some (fd, name) /\ blen name <= 255 /\ nonul name
    end }.
End driver_props.
