(* ===== verification/Opt.v ===== *)
(** * Option parsing

    [src/libs/libfuse/lib/fuse_opt.c]: argument vectors, option strings with
    escapes, templates, and the parser that runs a table of templates over an
    argument vector.  A C string is the list of its bytes before the zero byte;
    lengths are assumed to fit the [int] and [unsigned] variables that hold
    them.  The structure a table writes to maps the offset of each field to its
    value.  Allocation is the only effect besides: [AM] counts the calls. *)

From S2P Require Import Prelude Platform World.

(** ** Strings *)

Definition COMMA : Z := 44.
Definition BACKSLASH : Z := 92.
Definition DASH : Z := 45.
Definition EQUALS : Z := 61.
Definition SPACE : Z := 32.
Definition PERCENT : Z := 37.
Definition ZERO : Z := 48.

(** [s[i]] of a string, [i] up to its terminator. *)
Definition byte_at (s : bytes) (i : nat) : Z := default 0 (s !! i).

Definition strchr (s : bytes) (c : Z) : option nat := fst <$> list_find (fun b => b = c) s.

Definition streq (s t : bytes) : bool := bool_decide (s = t).

(** [sscanf(param, "%u", var)]: [None] when nothing was converted; a number that
    does not fit the variable is undefined behaviour. *)
Definition is_space (c : Z) : bool := (c =? 32) || ((9 <=? c) && (c <=? 13)).
Definition is_digit (c : Z) : bool := (48 <=? c) && (c <=? 57).

Fixpoint skip_space (s : bytes) : bytes :=
  match s with c :: r => if is_space c then skip_space r else s | [] => [] end.
Fixpoint digits (s : bytes) : bytes :=
  match s with c :: r => if is_digit c then c :: digits r else [] | [] => [] end.
Definition number (ds : bytes) : Z := fold_left (fun n c => 10 * n + (c - 48)) ds 0.

Definition scan_unsigned (param : bytes) : fault + option Z :=
  let s := skip_space param in
  let '(neg, s) := match s with
    | c :: r => if c =? 45 then (true, r) else if c =? 43 then (false, r) else (false, s)
    | [] => (false, [])
    end in
  match digits s with
  | [] => inr None
  | ds => if number ds <? 2 ^ 32 then inr (Some (u32 (if neg : bool then - number ds else number ds)))
          else inl Overflow
  end.

(** ** Data *)

(** A field of the structure that is filled: an [int] or [unsigned], or a [char *]. *)
Inductive optval := V_int (z : Z) | V_str (s : option bytes).
Definition optdata : Type := gmap Z optval.

(** [struct fuse_opt]; a table is a list, [FUSE_OPT_END] its end. *)
Record fuse_opt := { opt_templ : bytes; opt_offset : Z; opt_value : Z }.

(** [-1U] as an [unsigned long] *)
Definition OFFSET_NONE : Z := 2 ^ 32 - 1.
Definition FUSE_OPT_KEY (templ : bytes) (key : Z) : fuse_opt :=
  {| opt_templ := templ; opt_offset := OFFSET_NONE; opt_value := key |}.

Definition FUSE_OPT_KEY_OPT : Z := -1.
Definition FUSE_OPT_KEY_NONOPT : Z := -2.
Definition FUSE_OPT_KEY_KEEP : Z := -3.
Definition FUSE_OPT_KEY_DISCARD : Z := -4.

(** [struct fuse_args] *)
Record fuse_args := { args_argc : Z; args_argv : option (list bytes); args_allocated : bool }.
Definition FUSE_ARGS_INIT (argc : Z) (argv : list bytes) : fuse_args :=
  {| args_argc := argc; args_argv := Some argv; args_allocated := false |}.
Definition args_none : fuse_args := {| args_argc := 0; args_argv := None; args_allocated := false |}.

Definition fuse_opt_free_args (args : fuse_args) : fuse_args := args_none.

Section opt.
Context {P : Platform}.

(** ** Allocation and faults *)

Definition AM (A : Type) : Type := nat -> fault + A * nat.
#[export] Instance AM_ret : MRet AM := fun A a n => inr (a, n).
#[export] Instance AM_bind : MBind AM := fun A B f m n =>
  match m n with inr (a, n') => f a n' | inl e => inl e end.

Definition am_fault {A} (e : fault) : AM A := fun _ => inl e.
Definition am_assert (b : bool) : AM unit := if b then mret tt else am_fault AssertFailed.
Definition am_option {A} (e : fault) (o : option A) : AM A :=
  match o with Some a => mret a | None => am_fault e end.
Definition am_sum {A} (r : fault + A) : AM A := match r with inr a => mret a | inl e => am_fault e end.

(** Does this call of an allocation function succeed? *)
Definition try_alloc : AM bool := fun n => inr (alloc_ok n, Datatypes.S n).

Definition alloc_failed : Z := -1.

(** ** Argument vectors *)

(** Two allocations: the string and the vector. *)
Definition fuse_opt_add_arg (args : fuse_args) (arg : bytes) : AM (Z * fuse_args) :=
  am_assert (match args_argv args with None => true | Some _ => args_allocated args end);;
  newarg ← try_alloc;
  if negb newarg then mret (alloc_failed, args)
  else
    newargv ← try_alloc;
    if negb newargv then mret (alloc_failed, args)
    else
      let old := take (Z.to_nat (args_argc args)) (default [] (args_argv args)) in
      mret (0, {| args_argc := args_argc args + 1; args_argv := Some (old ++ [arg]); args_allocated := true |}).

Definition fuse_opt_insert_arg_common (args : fuse_args) (pos : Z) (arg : bytes) : AM (Z * fuse_args) :=
  am_assert (pos <=? args_argc args);;
  '(res, args) ← fuse_opt_add_arg args arg;
  if res =? -1 then mret (-1, args)
  else if negb (pos =? args_argc args - 1) then
    argv ← am_option BadPointer (args_argv args);
    newarg ← am_option OutOfBounds (argv !! Z.to_nat (args_argc args - 1));
    if pos <? 0 then am_fault OutOfBounds
    else
      let moved := take (Z.to_nat (args_argc args - pos - 1)) (drop (Z.to_nat pos) argv) in
      mret (0, {| args_argc := args_argc args; args_argv := Some (take (Z.to_nat pos) argv ++ newarg :: moved);
                  args_allocated := args_allocated args |})
  else mret (0, args).

Definition fuse_opt_insert_arg (args : fuse_args) (pos : Z) (arg : bytes) : AM (Z * fuse_args) :=
  fuse_opt_insert_arg_common args pos arg.

(** ** Option strings *)

Fixpoint escape (esc : bool) (opt : bytes) : bytes :=
  match opt with
  | [] => []
  | c :: opt => (if esc && ((c =? COMMA) || (c =? BACKSLASH)) then [BACKSLASH; c] else [c]) ++ escape esc opt
  end.

Definition add_opt_common (opts : option bytes) (opt : bytes) (esc : bool) : AM (Z * option bytes) :=
  let old := default [] opts in
  d ← try_alloc;
  if negb d then mret (alloc_failed, opts)
  else mret (0, Some ((if 0 <? blen old then old ++ [COMMA] else []) ++ escape esc opt)).

Definition fuse_opt_add_opt (opts : option bytes) (opt : bytes) := add_opt_common opts opt false.
Definition fuse_opt_add_opt_escaped (opts : option bytes) (opt : bytes) := add_opt_common opts opt true.

(** ** Templates *)

(** [Some sep] when the template matches. *)
Definition match_template (t arg : bytes) : option nat :=
  let exact_match := if streq t arg then Some O else None in
  let sep := match strchr t EQUALS with Some i => Some i | None => strchr t SPACE end in
  match sep with
  | Some i =>
      if (byte_at t (Datatypes.S i) =? 0) || (byte_at t (Datatypes.S i) =? PERCENT) then
        let tlen := if byte_at t i =? EQUALS then Datatypes.S i else i in
        if (Z.of_nat tlen <=? blen arg) && streq (take tlen arg) (take tlen t) then Some i
        else exact_match
      else exact_match
  | None => exact_match
  end.

(** The first template that matches, [sep], and the rest of the table. *)
Fixpoint find_opt (opts : list fuse_opt) (arg : bytes) : option (fuse_opt * nat * list fuse_opt) :=
  match opts with
  | [] => None
  | o :: opts =>
      match match_template (opt_templ o) arg with
      | Some sep => Some (o, sep, opts)
      | None => find_opt opts arg
      end
  end.

Definition fuse_opt_match (opts : list fuse_opt) (opt : bytes) : Z :=
  match find_opt opts opt with Some _ => 1 | None => 0 end.

(** ** The parser *)

(** [fuse_opt_proc_t]: result, data and output arguments after the call. *)
Definition fuse_opt_proc_t : Type := optdata -> bytes -> Z -> fuse_args -> AM (Z * optdata * fuse_args).

Record fuse_opt_context := {
  ctx_data : optdata; ctx_opt : list fuse_opt; ctx_proc : option fuse_opt_proc_t; ctx_argctr : Z;
  ctx_argc : Z; ctx_argv : list bytes; ctx_outargs : fuse_args; ctx_opts : option bytes; ctx_nonopt : Z }.

Definition ctx_set_data (x : optdata) (c : fuse_opt_context) := Build_fuse_opt_context x (ctx_opt c)
  (ctx_proc c) (ctx_argctr c) (ctx_argc c) (ctx_argv c) (ctx_outargs c) (ctx_opts c) (ctx_nonopt c).
Definition ctx_set_argctr (x : Z) (c : fuse_opt_context) := Build_fuse_opt_context (ctx_data c) (ctx_opt c)
  (ctx_proc c) x (ctx_argc c) (ctx_argv c) (ctx_outargs c) (ctx_opts c) (ctx_nonopt c).
Definition ctx_set_outargs (x : fuse_args) (c : fuse_opt_context) := Build_fuse_opt_context (ctx_data c) (ctx_opt c)
  (ctx_proc c) (ctx_argctr c) (ctx_argc c) (ctx_argv c) x (ctx_opts c) (ctx_nonopt c).
Definition ctx_set_opts (x : option bytes) (c : fuse_opt_context) := Build_fuse_opt_context (ctx_data c) (ctx_opt c)
  (ctx_proc c) (ctx_argctr c) (ctx_argc c) (ctx_argv c) (ctx_outargs c) x (ctx_nonopt c).
Definition ctx_set_nonopt (x : Z) (c : fuse_opt_context) := Build_fuse_opt_context (ctx_data c) (ctx_opt c)
  (ctx_proc c) (ctx_argctr c) (ctx_argc c) (ctx_argv c) (ctx_outargs c) (ctx_opts c) x.

(** [ctx->argv[ctx->argctr]] *)
Definition cur_arg (ctx : fuse_opt_context) : AM bytes :=
  am_option OutOfBounds (ctx_argv ctx !! Z.to_nat (ctx_argctr ctx)).

Definition next_arg (ctx : fuse_opt_context) : Z * fuse_opt_context :=
  if ctx_argc ctx <=? ctx_argctr ctx + 1 then (-1, ctx)
  else (0, ctx_set_argctr (ctx_argctr ctx + 1) ctx).

Definition add_arg (ctx : fuse_opt_context) (arg : bytes) : AM (Z * fuse_opt_context) :=
  '(res, args) ← fuse_opt_add_arg (ctx_outargs ctx) arg; mret (res, ctx_set_outargs args ctx).

Definition add_opt (ctx : fuse_opt_context) (opt : bytes) : AM (Z * fuse_opt_context) :=
  '(res, opts) ← add_opt_common (ctx_opts ctx) opt true; mret (res, ctx_set_opts opts ctx).

Definition call_proc (ctx : fuse_opt_context) (arg : bytes) (key : Z) (iso : bool) : AM (Z * fuse_opt_context) :=
  let keep ctx := if iso then add_opt ctx arg else add_arg ctx arg in
  if key =? FUSE_OPT_KEY_DISCARD then mret (0, ctx)
  else
    match ctx_proc ctx with
    | Some proc =>
        if negb (key =? FUSE_OPT_KEY_KEEP) then
          '(res, data, outargs) ← proc (ctx_data ctx) arg key (ctx_outargs ctx);
          let ctx := ctx_set_outargs outargs (ctx_set_data data ctx) in
          if (res =? -1) || (res =? 0) then mret (res, ctx) else keep ctx
        else keep ctx
    | None => keep ctx
    end.

(** Stores to a field of [data]. *)
Definition set_int (off z : Z) (data : optdata) : AM optdata :=
  match data !! off with
  | Some (V_int _) => mret (<[off := V_int z]> data)
  | Some (V_str _) => am_fault TypeConfusion
  | None => am_fault OutOfBounds
  end.
Definition set_str (off : Z) (s : bytes) (data : optdata) : AM optdata :=
  match data !! off with
  | Some (V_str _) => mret (<[off := V_str (Some s)]> data)
  | Some (V_int _) => am_fault TypeConfusion
  | None => am_fault OutOfBounds
  end.

(** Besides ["%s"] the option tables of the library use the one format ["%u"]. *)
Definition process_opt_param (ctx : fuse_opt_context) (off : Z) (format param : bytes)
    : AM (Z * fuse_opt_context) :=
  am_assert (byte_at format 0 =? PERCENT);;
  if byte_at format 1 =? 115 then
    copy ← try_alloc;
    if negb copy then mret (alloc_failed, ctx)
    else data ← set_str off param (ctx_data ctx); mret (0, ctx_set_data data ctx)
  else if streq format [PERCENT; 117] then
    v ← am_sum (scan_unsigned param);
    match v with
    | None => mret (-1, ctx)
    | Some v => data ← set_int off v (ctx_data ctx); mret (0, ctx_set_data data ctx)
    end
  else am_fault TypeConfusion.

Definition process_opt (ctx : fuse_opt_context) (opt : fuse_opt) (sep : nat) (arg : bytes) (iso : bool)
    : AM (Z * fuse_opt_context) :=
  if opt_offset opt =? OFFSET_NONE then
    '(res, ctx) ← call_proc ctx arg (opt_value opt) iso;
    if res =? -1 then mret (-1, ctx) else mret (0, ctx)
  else if negb (Nat.eqb sep 0) && negb (byte_at (opt_templ opt) (Datatypes.S sep) =? 0) then
    let param := drop (if byte_at (opt_templ opt) sep =? EQUALS then Datatypes.S sep else sep) arg in
    '(res, ctx) ← process_opt_param ctx (opt_offset opt) (drop (Datatypes.S sep) (opt_templ opt)) param;
    if res =? -1 then mret (-1, ctx) else mret (0, ctx)
  else
    data ← set_int (opt_offset opt) (opt_value opt) (ctx_data ctx);
    mret (0, ctx_set_data data ctx).

Definition process_opt_sep_arg (ctx : fuse_opt_context) (opt : fuse_opt) (sep : nat) (arg : bytes) (iso : bool)
    : AM (Z * fuse_opt_context) :=
  let '(res, ctx) := next_arg ctx in
  if res =? -1 then mret (-1, ctx)
  else
    param ← cur_arg ctx;
    newarg ← try_alloc;
    if negb newarg then mret (alloc_failed, ctx)
    else process_opt ctx opt sep (take sep arg ++ param) iso.

(** The loop of [process_gopt], from a match on. *)
Fixpoint gopt_loop (fuel : nat) (ctx : fuse_opt_context) (found : option (fuse_opt * nat * list fuse_opt))
    (arg : bytes) (iso : bool) : AM (Z * fuse_opt_context) :=
  match fuel with
  | O => am_fault OutOfFuel
  | Datatypes.S fuel =>
      match found with
      | None => mret (0, ctx)
      | Some (opt, sep, rest) =>
          '(res, ctx) ← (if negb (Nat.eqb sep 0) && (byte_at (opt_templ opt) sep =? SPACE) && (byte_at arg sep =? 0)
                         then process_opt_sep_arg ctx opt sep arg iso
                         else process_opt ctx opt sep arg iso);
          if res =? -1 then mret (-1, ctx)
          else gopt_loop fuel ctx (find_opt rest arg) arg iso
      end
  end.

Definition process_gopt (ctx : fuse_opt_context) (arg : bytes) (iso : bool) : AM (Z * fuse_opt_context) :=
  match find_opt (ctx_opt ctx) arg with
  | Some m => gopt_loop (Datatypes.S (length (ctx_opt ctx))) ctx (Some m) arg iso
  | None => call_proc ctx arg FUSE_OPT_KEY_OPT iso
  end.

(** Accesses to the copy of an option string. *)
Definition rd (mem : bytes) (i : nat) : AM Z := am_option OutOfBounds (mem !! i).
Definition wr (mem : bytes) (i : nat) (c : Z) : AM bytes :=
  if decide (i < length mem)%nat then mret (<[i := c]> mem) else am_fault OutOfBounds.

Definition in_range (lo hi c : Z) : bool := (lo <=? c) && (c <=? hi).

(** Are the three bytes at [s] an octal number?  Left to right, stopping at the
    first that is not. *)
Definition octal_at (mem : bytes) (s : nat) : AM (option Z) :=
  a ← rd mem s;
  if negb (in_range 48 51 a) then mret None
  else
    b ← rd mem (Datatypes.S s);
    if negb (in_range 48 55 b) then mret None
    else
      c ← rd mem (Datatypes.S (Datatypes.S s));
      if negb (in_range 48 55 c) then mret None
      else mret (Some ((a - ZERO) * 64 + (b - ZERO) * 8 + (c - ZERO))).

(** The loop of [process_real_option_group]: [s] reads and [d] writes in the
    same copy [mem] of the string. *)
Fixpoint group_loop (fuel : nat) (ctx : fuse_opt_context) (mem : bytes) (s d : nat) (finished : bool)
    : AM (Z * fuse_opt_context) :=
  match fuel with
  | O => am_fault OutOfFuel
  | Datatypes.S fuel =>
      if finished then mret (0, ctx)
      else
        c ← rd mem s;
        let finished := c =? 0 in
        if (c =? COMMA) || finished then
          mem ← wr mem d 0;
          opt ← am_option OutOfBounds (cstr mem);
          '(res, ctx) ← process_gopt ctx opt true;
          if res =? -1 then mret (-1, ctx)
          else group_loop fuel ctx mem (Datatypes.S s) O finished
        else
          next ← (if c =? BACKSLASH then rd mem (Datatypes.S s) else mret 0);
          if negb (next =? 0) then
            let s := Datatypes.S s in
            oct ← octal_at mem s;
            match oct with
            | Some v => mem ← wr mem d v; group_loop fuel ctx mem (s + 3) (Datatypes.S d) finished
            | None => mem ← wr mem d next; group_loop fuel ctx mem (Datatypes.S s) (Datatypes.S d) finished
            end
          else
            mem ← wr mem d c; group_loop fuel ctx mem (Datatypes.S s) (Datatypes.S d) finished
  end.

Definition process_real_option_group (ctx : fuse_opt_context) (mem : bytes) : AM (Z * fuse_opt_context) :=
  group_loop (Datatypes.S (length mem)) ctx mem O O false.

Definition process_option_group (ctx : fuse_opt_context) (opts : bytes) : AM (Z * fuse_opt_context) :=
  copy ← try_alloc;
  if negb copy then mret (-1, ctx) else process_real_option_group ctx (opts ++ [0]).

Definition process_one (ctx : fuse_opt_context) (arg : bytes) : AM (Z * fuse_opt_context) :=
  if truth (ctx_nonopt ctx) || negb (byte_at arg 0 =? DASH) then call_proc ctx arg FUSE_OPT_KEY_NONOPT false
  else if byte_at arg 1 =? 111 then
    if negb (byte_at arg 2 =? 0) then process_option_group ctx (drop 2 arg)
    else
      let '(res, ctx) := next_arg ctx in
      if res =? -1 then mret (-1, ctx)
      else opts ← cur_arg ctx; process_option_group ctx opts
  else if (byte_at arg 1 =? DASH) && (byte_at arg 2 =? 0) then
    '(res, ctx) ← add_arg ctx arg;
    if res =? -1 then mret (-1, ctx)
    else mret (0, ctx_set_nonopt (args_argc (ctx_outargs ctx)) ctx)
  else process_gopt ctx arg false.

(** The loop of [opt_parse]. *)
Fixpoint parse_loop (fuel : nat) (ctx : fuse_opt_context) : AM (Z * fuse_opt_context) :=
  match fuel with
  | O => am_fault OutOfFuel
  | Datatypes.S fuel =>
      if ctx_argctr ctx <? ctx_argc ctx then
        arg ← cur_arg ctx;
        '(res, ctx) ← process_one ctx arg;
        if res =? -1 then mret (-1, ctx)
        else parse_loop fuel (ctx_set_argctr (ctx_argctr ctx + 1) ctx)
      else mret (0, ctx)
  end.

(** [opt_parse] after its loop. *)
Definition insert_opts (ctx : fuse_opt_context) : AM (Z * fuse_opt_context) :=
  match ctx_opts ctx with
  | None => mret (0, ctx)
  | Some opts =>
      '(res, args) ← fuse_opt_insert_arg (ctx_outargs ctx) 1 (str "-o"%string);
      if res =? -1 then mret (-1, ctx_set_outargs args ctx)
      else
        '(res, args) ← fuse_opt_insert_arg args 2 opts;
        mret (if res =? -1 then -1 else 0, ctx_set_outargs args ctx)
  end.

Definition drop_separator (ctx : fuse_opt_context) : AM fuse_opt_context :=
  let out := ctx_outargs ctx in
  if truth (ctx_nonopt ctx) && (ctx_nonopt ctx =? args_argc out) then
    argv ← am_option BadPointer (args_argv out);
    last ← am_option OutOfBounds (argv !! Z.to_nat (args_argc out - 1));
    if streq last (str "--"%string) then
      mret (ctx_set_outargs {| args_argc := args_argc out - 1;
        args_argv := Some (take (Z.to_nat (args_argc out - 1)) argv); args_allocated := args_allocated out |} ctx)
    else mret ctx
  else mret ctx.

Definition opt_parse (ctx : fuse_opt_context) : AM (Z * fuse_opt_context) :=
  '(res, ctx) ← (if truth (ctx_argc ctx) then
                   arg ← am_option OutOfBounds (head (ctx_argv ctx)); add_arg ctx arg
                 else mret (0, ctx));
  if res =? -1 then mret (-1, ctx)
  else
    '(res, ctx) ← parse_loop (Datatypes.S (Z.to_nat (ctx_argc ctx))) (ctx_set_argctr 1 ctx);
    if res =? -1 then mret (-1, ctx)
    else
      '(res, ctx) ← insert_opts ctx;
      if res =? -1 then mret (-1, ctx)
      else ctx ← drop_separator ctx; mret (0, ctx).

(** Result, [*args] and [*data] after the call. *)
Definition fuse_opt_parse (args : fuse_args) (data : optdata) (opts : list fuse_opt)
    (proc : option fuse_opt_proc_t) : AM (Z * fuse_args * optdata) :=
  match args_argv args with
  | None => mret (0, args, data)
  | Some argv =>
      if args_argc args =? 0 then mret (0, args, data)
      else
        let ctx := {| ctx_data := data; ctx_opt := opts; ctx_proc := proc; ctx_argctr := 0;
                      ctx_argc := args_argc args; ctx_argv := argv; ctx_outargs := args_none;
                      ctx_opts := None; ctx_nonopt := 0 |} in
        '(res, ctx) ← opt_parse ctx;
        mret (res, if negb (res =? -1) then ctx_outargs ctx else args, ctx_data ctx)
  end.
End opt.
