(* ===== verification/Helper.v ===== *)
(** * Command line helper

    [src/libs/libfuse/lib/helper.c] with the stubs of [fuse_compat_stub.c] and
    [fuse_posix_stub.c] it calls: the options of a server program, its mount
    point and default subtype, the options that override a connection, and the
    program [fuse_main] runs.  Options are read by the parser of [Opt]; a field
    of an option structure is known by its offset. *)

From S2P Require Import Prelude Wire Platform KernelAbi LinkedList World Monad Buffer Request.
From S2P Require Import Reply Server Handlers Interrupt Notify Init Opt.

(** ** Stubs *)

Definition fuse_mnt_parse_fuse_fd (mountpoint : bytes) : Z := -1.

(** [PATH_MAX] of the C library, the size of the buffer [realpath] fills. *)
Definition PATH_MAX : Z := 4096.

(** [strcpy(resolved_path, path)] into a buffer of [PATH_MAX] bytes. *)
Definition realpath (path : bytes) : fault + bytes :=
  if blen path + 1 <=? PATH_MAX then inr path else inl OutOfBounds.

Definition fork : Z := -1.
Definition parse_mount_opts (args : fuse_args) : option Z := None.
Definition fuse_kern_mount (mountpoint : bytes) (mo : option Z) : Z := -1.
Definition _fuse_new_31 (args : fuse_args) : option Z := None.
Definition fuse_mount (f : Z) (mountpoint : bytes) : Z := -1.
Definition fuse_loop (f : Z) : Z := -1.
Definition fuse_loop_mt_312 (f : Z) (config : option Z) : Z := -1.
Definition fuse_loop_cfg_create : option Z := None.
Definition fuse_set_signal_handlers : Z := 0.

(** ** Options of a program *)

(** [struct fuse_cmdline_opts] *)
Definition singlethread : Z := 0.
Definition foreground : Z := 4.
Definition debug : Z := 8.
Definition nodefault_subtype : Z := 12.
Definition mountpoint : Z := 16.
Definition show_version : Z := 24.
Definition show_help : Z := 28.
Definition clone_fd : Z := 32.
Definition max_idle_threads : Z := 36.
Definition max_threads : Z := 40.

Definition FUSE_HELPER_OPT (t : String.string) (p : Z) : fuse_opt :=
  {| opt_templ := str t; opt_offset := p; opt_value := 1 |}.

Definition fuse_helper_opts : list fuse_opt := [
  FUSE_HELPER_OPT "-h" show_help;
  FUSE_HELPER_OPT "--help" show_help;
  FUSE_HELPER_OPT "-V" show_version;
  FUSE_HELPER_OPT "--version" show_version;
  FUSE_HELPER_OPT "-d" debug;
  FUSE_HELPER_OPT "debug" debug;
  FUSE_HELPER_OPT "-d" foreground;
  FUSE_HELPER_OPT "debug" foreground;
  FUSE_OPT_KEY (str "-d") FUSE_OPT_KEY_KEEP;
  FUSE_OPT_KEY (str "debug") FUSE_OPT_KEY_KEEP;
  FUSE_HELPER_OPT "-f" foreground;
  FUSE_HELPER_OPT "-s" singlethread;
  FUSE_HELPER_OPT "fsname=" nodefault_subtype;
  FUSE_OPT_KEY (str "fsname=") FUSE_OPT_KEY_KEEP;
  FUSE_HELPER_OPT "subtype=" nodefault_subtype;
  FUSE_OPT_KEY (str "subtype=") FUSE_OPT_KEY_KEEP;
  FUSE_HELPER_OPT "clone_fd" clone_fd;
  FUSE_HELPER_OPT "max_idle_threads=%u" max_idle_threads;
  FUSE_HELPER_OPT "max_threads=%u" max_threads]%string.

(** After [memset] and the defaults. *)
Definition cmdline_defaults : optdata := list_to_map [
  (singlethread, V_int 0); (foreground, V_int 0); (debug, V_int 0); (nodefault_subtype, V_int 0);
  (mountpoint, V_str None); (show_version, V_int 0); (show_help, V_int 0); (clone_fd, V_int 0);
  (max_idle_threads, V_int UINT_MAX); (max_threads, V_int 10)].

(** The place behind the last ['/'] of a name. *)
Fixpoint strrchr (s : bytes) (c : Z) : option bytes :=
  match s with
  | [] => None
  | b :: r =>
      match strrchr r c with
      | Some t => Some t
      | None => if b =? c then Some s else None
      end
  end.

Definition basename_of (progname : bytes) : bytes :=
  match strrchr progname 47 with
  | None => progname
  | Some t => if negb (byte_at t 1 =? 0) then drop 1 t else t
  end.

(** ** Options of a connection *)

(** [struct fuse_conn_info_opts]: the offsets of its members. *)
Definition ci_fields : list String.string := [
  "atomic_o_trunc"; "no_remote_posix_lock"; "no_remote_flock"; "splice_write"; "splice_move";
  "splice_read"; "no_splice_write"; "no_splice_move"; "no_splice_read"; "auto_inval_data";
  "no_auto_inval_data"; "no_readdirplus"; "no_readdirplus_auto"; "async_dio"; "no_async_dio";
  "writeback_cache"; "no_writeback_cache"; "async_read"; "sync_read"; "max_write";
  "max_readahead"; "max_background"; "congestion_threshold"; "time_gran"; "set_max_write";
  "set_max_readahead"; "set_max_background"; "set_congestion_threshold"; "set_time_gran"]%string.

Definition offset_of (field : String.string) : Z :=
  match list_find (fun f => f = field) ci_fields with Some (i, _) => 4 * Z.of_nat i | None => OFFSET_NONE end.

Definition CONN_OPTION (t p : String.string) (v : Z) : fuse_opt :=
  {| opt_templ := str t; opt_offset := offset_of p; opt_value := v |}.

Definition conn_info_opt_spec : list fuse_opt := [
  CONN_OPTION "max_write=%u" "max_write" 0;
  CONN_OPTION "max_write=" "set_max_write" 1;
  CONN_OPTION "max_readahead=%u" "max_readahead" 0;
  CONN_OPTION "max_readahead=" "set_max_readahead" 1;
  CONN_OPTION "max_background=%u" "max_background" 0;
  CONN_OPTION "max_background=" "set_max_background" 1;
  CONN_OPTION "congestion_threshold=%u" "congestion_threshold" 0;
  CONN_OPTION "congestion_threshold=" "set_congestion_threshold" 1;
  CONN_OPTION "sync_read" "sync_read" 1;
  CONN_OPTION "async_read" "async_read" 1;
  CONN_OPTION "atomic_o_trunc" "atomic_o_trunc" 1;
  CONN_OPTION "no_remote_lock" "no_remote_posix_lock" 1;
  CONN_OPTION "no_remote_lock" "no_remote_flock" 1;
  CONN_OPTION "no_remote_flock" "no_remote_flock" 1;
  CONN_OPTION "no_remote_posix_lock" "no_remote_posix_lock" 1;
  CONN_OPTION "splice_write" "splice_write" 1;
  CONN_OPTION "no_splice_write" "no_splice_write" 1;
  CONN_OPTION "splice_move" "splice_move" 1;
  CONN_OPTION "no_splice_move" "no_splice_move" 1;
  CONN_OPTION "splice_read" "splice_read" 1;
  CONN_OPTION "no_splice_read" "no_splice_read" 1;
  CONN_OPTION "auto_inval_data" "auto_inval_data" 1;
  CONN_OPTION "no_auto_inval_data" "no_auto_inval_data" 1;
  CONN_OPTION "readdirplus=no" "no_readdirplus" 1;
  CONN_OPTION "readdirplus=yes" "no_readdirplus" 0;
  CONN_OPTION "readdirplus=yes" "no_readdirplus_auto" 1;
  CONN_OPTION "readdirplus=auto" "no_readdirplus" 0;
  CONN_OPTION "readdirplus=auto" "no_readdirplus_auto" 0;
  CONN_OPTION "async_dio" "async_dio" 1;
  CONN_OPTION "no_async_dio" "no_async_dio" 1;
  CONN_OPTION "writeback_cache" "writeback_cache" 1;
  CONN_OPTION "no_writeback_cache" "no_writeback_cache" 1;
  CONN_OPTION "time_gran=%u" "time_gran" 0;
  CONN_OPTION "time_gran=" "set_time_gran" 1]%string.

(** After [calloc]. *)
Definition conn_info_opts_zero : optdata :=
  list_to_map (map (fun i => (4 * Z.of_nat i, V_int 0)) (seq 0 (length ci_fields))).

(** Fields of an option structure that is read: [None] when the field was never
    written. *)
Definition opt_int (data : optdata) (off : Z) : option Z :=
  match data !! off with Some (V_int z) => Some z | _ => None end.
Definition opt_str (data : optdata) (off : Z) : option (option bytes) :=
  match data !! off with Some (V_str s) => Some s | _ => None end.

Section helper.
Context {P : Platform}.

Definition read_int (data : optdata) (off : Z) : AM Z := am_option Uninitialized (opt_int data off).
Definition read_str (data : optdata) (off : Z) : AM (option bytes) := am_option Uninitialized (opt_str data off).

Definition fuse_helper_opt_proc : fuse_opt_proc_t := fun data arg key outargs =>
  if key =? FUSE_OPT_KEY_NONOPT then
    mp ← read_str data mountpoint;
    match mp with
    | None =>
        if negb (fuse_mnt_parse_fuse_fd arg =? -1) then
          '(res, mp) ← fuse_opt_add_opt mp arg;
          mret (res, <[mountpoint := V_str mp]> data, outargs)
        else
          path ← am_sum (realpath arg);
          '(res, mp) ← fuse_opt_add_opt mp path;
          mret (res, <[mountpoint := V_str mp]> data, outargs)
    | Some _ => mret (-1, data, outargs)
    end
  else mret (1, data, outargs).

Definition add_default_subtype (progname : bytes) (args : fuse_args) : AM (Z * fuse_args) :=
  let basename := basename_of progname in
  subtype_opt ← try_alloc;
  if negb subtype_opt then mret (-1, args)
  else fuse_opt_add_arg args (str "-osubtype="%string ++ basename).

(** Result, [*args] and [*opts] after the call. *)
Definition fuse_parse_cmdline_312 (args : fuse_args) : AM (Z * fuse_args * optdata) :=
  '(res, args, opts) ← fuse_opt_parse args cmdline_defaults fuse_helper_opts (Some fuse_helper_opt_proc);
  if res =? -1 then mret (-1, args, opts)
  else
    no ← read_int opts nodefault_subtype;
    if negb (truth no) then
      argv ← am_option BadPointer (args_argv args);
      progname ← am_option BadPointer (head argv);
      '(res, args) ← add_default_subtype progname args;
      if res =? -1 then mret (-1, args, opts) else mret (0, args, opts)
    else mret (0, args, opts).

(** The structure of the old interface ends behind [max_idle_threads]. *)
Definition old_fields (opts : optdata) : optdata := filter (fun kv => kv.1 <= max_idle_threads) opts.

Definition fuse_parse_cmdline_30 (args : fuse_args) (out_opts : optdata) : AM (Z * fuse_args * optdata) :=
  '(rc, args, opts) ← fuse_parse_cmdline_312 args;
  mret (rc, args, if rc =? 0 then old_fields opts ∪ out_opts else out_opts).

(** [None]: the process is gone.  The results of [pipe] and [setsid] are
    arguments; what the child does to its descriptors is left out. *)
Definition fuse_daemonize (pipe_fails setsid_fails : bool) (foreground : Z) : option Z :=
  if foreground =? 0 then
    if pipe_fails then Some (-1)
    else if fork =? -1 then Some (-1)
    else if fork =? 0 then (if setsid_fails then Some (-1) else Some 0)
    else None
  else Some 0.

(** The program [fuse_main] runs: its exit code. *)
Definition fuse_main_real_versioned (pipe_fails setsid_fails : bool) (argc : Z) (argv : list bytes) : AM (option Z) :=
  '(res, args, opts) ← fuse_parse_cmdline_30 (FUSE_ARGS_INIT argc argv) ∅;
  if negb (res =? 0) then mret (Some 1)
  else
    version ← read_int opts show_version;
    if truth version then mret (Some 0)
    else
      help ← read_int opts show_help;
      if truth help then
        argv ← am_option BadPointer (args_argv args);
        _ ← am_option BadPointer (head argv);
        mret (Some 0)
      else
        mp ← read_str opts mountpoint;
        match mp with
        | None => mret (Some 2)
        | Some mp =>
            match _fuse_new_31 args with
            | None => mret (Some 3)
            | Some fuse =>
                if negb (fuse_mount fuse mp =? 0) then mret (Some 4)
                else
                  fg ← read_int opts foreground;
                  match fuse_daemonize pipe_fails setsid_fails fg with
                  | None => mret None
                  | Some r =>
                      if negb (r =? 0) then mret (Some 5)
                      else if negb (fuse_set_signal_handlers =? 0) then mret (Some 6)
                      else
                        single ← read_int opts singlethread;
                        if truth single then
                          mret (Some (if truth (fuse_loop fuse) then 8 else 0))
                        else
                          match fuse_loop_cfg_create with
                          | None => mret (Some 7)
                          | Some config =>
                              _ ← read_int opts clone_fd;
                              _ ← read_int opts max_idle_threads;
                              _ ← read_int opts max_threads;
                              mret (Some (if truth (fuse_loop_mt_312 fuse (Some config)) then 8 else 0))
                          end
                  end
            end
        end.

Definition fuse_main_real_30 (pipe_fails setsid_fails : bool) (argc : Z) (argv : list bytes) : AM (option Z) :=
  fuse_main_real_versioned pipe_fails setsid_fails argc argv.

(** The options, or [NULL], and [*args] after the call. *)
Definition fuse_parse_conn_info_opts (args : fuse_args) : AM (option optdata * fuse_args) :=
  opts ← try_alloc;
  if negb opts then mret (None, args)
  else
    '(res, args, data) ← fuse_opt_parse args conn_info_opts_zero conn_info_opt_spec None;
    if res =? -1 then mret (None, args) else mret (Some data, args).

Definition fuse_open_channel (mnt options : bytes) : Z :=
  match parse_mount_opts (FUSE_ARGS_INIT 3 [[]; str "-o"%string; options]) with
  | None => -1
  | Some opts => fuse_kern_mount mnt (Some opts)
  end.

(** *** Overriding a connection *)

Definition ci_opt (opts : optdata) (field : String.string) : M bool :=
  z ← of_option Uninitialized (opt_int opts (offset_of field)); mret (truth z).
Definition ci_value (opts : optdata) (field : String.string) : M Z :=
  of_option Uninitialized (opt_int opts (offset_of field)).

(** [if (opts->set_x) conn->x = opts->x;] *)
Definition ci_override (opts : optdata) (set_field field : String.string)
    (assign : Z -> fuse_conn_info -> fuse_conn_info) : M unit :=
  c ← ci_opt opts set_field;
  when c (v ← ci_value opts field; mod_conn (assign v)).

Definition LL_ENABLE (opts : optdata) (field : String.string) (cap : Z) : M unit :=
  c ← ci_opt opts field; when c (fuse_set_feature_flag cap;; mret tt).
Definition LL_DISABLE (opts : optdata) (field : String.string) (cap : Z) : M unit :=
  c ← ci_opt opts field; when c (fuse_unset_feature_flag cap).

Definition fuse_apply_conn_info_opts (opts : optdata) : M unit :=
  ci_override opts "set_max_write" "max_write" conn_set_max_write;;
  ci_override opts "set_max_background" "max_background" conn_set_max_background;;
  ci_override opts "set_congestion_threshold" "congestion_threshold" conn_set_congestion_threshold;;
  ci_override opts "set_time_gran" "time_gran" conn_set_time_gran;;
  ci_override opts "set_max_readahead" "max_readahead" conn_set_max_readahead;;
  LL_ENABLE opts "splice_read" FUSE_CAP_SPLICE_READ;;
  LL_DISABLE opts "no_splice_read" FUSE_CAP_SPLICE_READ;;
  LL_ENABLE opts "splice_write" FUSE_CAP_SPLICE_WRITE;;
  LL_DISABLE opts "no_splice_write" FUSE_CAP_SPLICE_WRITE;;
  LL_ENABLE opts "splice_move" FUSE_CAP_SPLICE_MOVE;;
  LL_DISABLE opts "no_splice_move" FUSE_CAP_SPLICE_MOVE;;
  LL_ENABLE opts "auto_inval_data" FUSE_CAP_AUTO_INVAL_DATA;;
  LL_DISABLE opts "no_auto_inval_data" FUSE_CAP_AUTO_INVAL_DATA;;
  LL_DISABLE opts "no_readdirplus" FUSE_CAP_READDIRPLUS;;
  LL_DISABLE opts "no_readdirplus_auto" FUSE_CAP_READDIRPLUS_AUTO;;
  LL_ENABLE opts "async_dio" FUSE_CAP_ASYNC_DIO;;
  LL_DISABLE opts "no_async_dio" FUSE_CAP_ASYNC_DIO;;
  LL_ENABLE opts "writeback_cache" FUSE_CAP_WRITEBACK_CACHE;;
  LL_DISABLE opts "no_writeback_cache" FUSE_CAP_WRITEBACK_CACHE;;
  LL_ENABLE opts "async_read" FUSE_CAP_ASYNC_READ;;
  LL_DISABLE opts "sync_read" FUSE_CAP_ASYNC_READ;;
  LL_DISABLE opts "no_remote_posix_lock" FUSE_CAP_POSIX_LOCKS;;
  LL_DISABLE opts "no_remote_flock" FUSE_CAP_FLOCK_LOCKS.
End helper.
