(* ===== verification/Examples.v ===== *)
(** * Concrete states

    States of the program on the platform where every allocation succeeds, on
    which the theorems are evaluated: after start-up, with a client's request in
    the queue's hands, and with the library's request for it. *)

From S2P Require Import Prelude Wire Platform KernelAbi LinkedList World Monad Buffer Request.
From S2P Require Import Reply Server Handlers Interrupt Notify Init Session Queue Daemon UkFs.
From S2P Require Import System FileOps Boot.

Definition good_world : @world good := @booted_world good (@nil Z).

(** The client's request is object 8, the library's request object 9. *)
Definition client_world : @world good := with_request good_world (In_getattr 1).
Definition example_header : fuse_in_header := daemon_header FUSE_GETATTR 1 1 56.
Definition serving_world : @world good := with_req example_header (Some 8) client_world.

Lemma client_sess_ok : sess_ok client_world [] [].
Proof.
  destruct (sy_sess _ _ _ (booted_ok (P := good) (@nil Z : @iostate good))) as [H1 H2 H3].
  constructor; [exact H1|exact H2|]. intros x Hx. pose proof (H3 x Hx) as H. cbn in *. lia.
Qed.

Lemma serving_live : live serving_world 9 [] [].
Proof. apply (with_req_live example_header (Some 8) client_world), client_sess_ok. Qed.

Lemma serving_request : w_reqs serving_world !! 9 = Some (received 9 example_header (Some 8)).
Proof. apply lookup_insert_eq. Qed.

Lemma serving_client : w_uks serving_world !! 8 = Some (new_request good_world (In_getattr 1)).
Proof. apply lookup_insert_eq. Qed.
