(* ===== verification/HelloLl.v ===== *)
(** * The example server

    [src/apps/fuse-test/hello_ll.c] (the same file as in
    [src/apps/fuse-correctness-test]): a directory with one file.  Its handlers
    are an instance of the library's server interface. *)

From S2P Require Import Prelude Wire Platform KernelAbi World Monad Buffer Request Reply.
From S2P Require Import Server Handlers Init.
From Stdlib Require Import SpecFloat.

Definition hello_str : bytes := str "Hello World!"%string ++ [10].
Definition hello_name : bytes := str "hello"%string.

(** [hello_stat]: [None] stands for the result [-1]. *)
Definition hello_stat (ino : Z) (st : stat) : option stat :=
  let mk mode nlink size := {|
    st_ino := ino; st_mode := mode; st_nlink := nlink; st_uid := st_uid st; st_gid := st_gid st;
    st_rdev := st_rdev st; st_size := size; st_blksize := st_blksize st;
    st_blocks := st_blocks st; st_atime := st_atime st; st_mtime := st_mtime st;
    st_ctime := st_ctime st; st_atim_nsec := st_atim_nsec st; st_mtim_nsec := st_mtim_nsec st;
    st_ctim_nsec := st_ctim_nsec st |} in
  if ino =? 1 then Some (mk (Z.lor S_IFDIR 493) 2 (st_size st))
  else if ino =? 2 then Some (mk (Z.lor S_IFREG 292) 1 (blen hello_str))
  else None.

(** [1.0] *)
Definition one : double := double_of_Z 1.

(** [struct dirbuf]: the memory at [p], and [size]. *)
Record dirbuf := { db_p : option bytes; db_size : Z }.

(** [strncmp(a, b, n) == 0]; [None] when it reads past the end of an object. *)
Fixpoint strncmp_eq (a b : bytes) (n : nat) : option bool :=
  match n with
  | O => Some true
  | Datatypes.S n =>
      match a, b with
      | x :: a, y :: b => if x =? y then (if x =? 0 then Some true else strncmp_eq a b n) else Some false
      | _, _ => None
      end
  end.

Section hello.
Context {P : Platform}.

Definition hello_ll_init : M unit :=
  mod_conn (fun c => conn_set_want (Z.land FUSE_CAP_ASYNC_READ (u32 (not64 FUSE_CAP_ASYNC_READ)))
                       (conn_set_no_interrupt true c)).

Definition hello_ll_getattr (r ino : Z) (fi : option fuse_file_info) : M unit :=
  match hello_stat ino stat_zero with
  | None => reply_err r ENOENT
  | Some st => fuse_reply_attr r st one;; mret tt
  end.

Definition hello_ll_lookup (r parent : Z) (name : bytes) : M unit :=
  if negb (parent =? 1) || negb (bool_decide (name = hello_name)) then reply_err r ENOENT
  else
    let attr := default stat_zero (hello_stat 2 stat_zero) in
    fuse_reply_entry r {| e_ino := 2; e_generation := 0; e_attr := attr;
                          e_attr_timeout := one; e_entry_timeout := one |};;
    mret tt.

(** [b->p + oldsize], where an allocation that failed left [NULL]. *)
Definition dirbuf_add (b : dirbuf) (name : bytes) (ino : Z) : M dirbuf :=
  let oldsize := db_size b in
  '(_, entlen) ← of_option OutOfBounds (fuse_add_direntry None 0 name stat_zero 0);
  let size := u64 (oldsize + entlen) in
  n ← gets w_nalloc;
  modify (w_set_nalloc (Datatypes.S n));;
  if alloc_ok n then
    let old := default (map (junk n) (seq 0 (Z.to_nat oldsize))) (db_p b) in
    let mem := old ++ map (junk n) (seq (Z.to_nat oldsize) (Z.to_nat entlen)) in
    let stbuf := Build_stat ino 0 0 0 0 0 0 0 0 0 0 0 0 0 0 in
    '(tail, _) ← of_option OutOfBounds
      (fuse_add_direntry (Some (drop (Z.to_nat oldsize) mem)) (u64 (size - oldsize)) name stbuf size);
    mret {| db_p := Some (take (Z.to_nat oldsize) mem ++ default [] tail); db_size := size |}
  else if oldsize =? 0 then mret {| db_p := None; db_size := size |}
  else fault_ BadPointer.

Definition reply_buf_limited (r : Z) (buf : option bytes) (bufsize off maxsize : Z) : M Z :=
  if off <? bufsize then
    let n := u64 (bufsize - off) in
    match buf with
    | Some mem =>
        if 0 <=? off then
          fuse_reply_buf r (Some (drop (Z.to_nat off) mem)) (if n <? maxsize then n else maxsize)
        else fault_ OutOfBounds
    | None =>
        if off =? 0 then fuse_reply_buf r None (if n <? maxsize then n else maxsize)
        else fault_ BadPointer
    end
  else fuse_reply_buf r None 0.

Definition hello_ll_readdir (r ino size off : Z) (fi : fuse_file_info) : M unit :=
  if negb (ino =? 1) then reply_err r ENOTDIR
  else
    b ← dirbuf_add {| db_p := None; db_size := 0 |} (str "."%string) 1;
    b ← dirbuf_add b (str ".."%string) 1;
    b ← dirbuf_add b hello_name 2;
    reply_buf_limited r (db_p b) (db_size b) off size;;
    mret tt.

Definition hello_ll_open (r ino : Z) (fi : fuse_file_info) : M unit :=
  if negb (ino =? 2) then reply_err r EISDIR
  else if negb (Z.land (fi_flags fi) O_ACCMODE =? O_RDONLY) then reply_err r EACCES
  else fuse_reply_open r fi;; mret tt.

Definition hello_ll_read (r ino size off : Z) (fi : fuse_file_info) : M unit :=
  assert_ (ino =? 2);;
  reply_buf_limited r (Some (hello_str ++ [0])) (blen hello_str) off size;;
  mret tt.

Definition hello_ll_getxattr (r ino : Z) (name : bytes) (size : Z) : M unit :=
  assert_ ((ino =? 1) || (ino =? 2));;
  if bool_decide (name = str "hello_ll_getxattr_name"%string) then
    let buf := str "hello_ll_getxattr_value"%string in
    fuse_reply_buf r (Some (buf ++ [0])) (blen buf);; mret tt
  else reply_err r ENOTSUP.

Definition hello_ll_setxattr (r ino : Z) (name value : bytes) (size flags : Z) : M unit :=
  assert_ ((ino =? 1) || (ino =? 2));;
  let exp_val := str "hello_ll_setxattr_value"%string in
  if bool_decide (name = str "hello_ll_setxattr_name"%string) && (blen exp_val =? size) then
    eq ← of_option OutOfBounds (strncmp_eq value (exp_val ++ [0]) (Z.to_nat size));
    reply_err r (if (eq : bool) then 0 else ENOTSUP)
  else reply_err r ENOTSUP.

Definition hello_ll_removexattr (r ino : Z) (name : bytes) : M unit :=
  assert_ ((ino =? 1) || (ino =? 2));;
  if bool_decide (name = str "hello_ll_removexattr_name"%string) then reply_err r 0
  else reply_err r ENOTSUP.

Definition hello_ll_oper : fuse_lowlevel_ops := {|
  op_init := Some hello_ll_init; op_destroy := None; op_lookup := Some hello_ll_lookup;
  op_forget := None; op_getattr := Some hello_ll_getattr; op_setattr := None;
  op_readlink := None; op_mknod := None; op_mkdir := None; op_unlink := None; op_rmdir := None;
  op_symlink := None; op_rename := None; op_link := None; op_open := Some hello_ll_open;
  op_read := Some hello_ll_read; op_write := None; op_flush := None; op_release := None;
  op_fsync := None; op_opendir := None; op_readdir := Some hello_ll_readdir;
  op_releasedir := None; op_fsyncdir := None; op_statfs := None;
  op_setxattr := Some hello_ll_setxattr; op_getxattr := Some hello_ll_getxattr;
  op_listxattr := None; op_removexattr := Some hello_ll_removexattr; op_access := None;
  op_create := None; op_getlk := None; op_setlk := None; op_bmap := None; op_ioctl := None;
  op_poll := None; op_write_buf := None; op_retrieve_reply := None; op_forget_multi := None;
  op_flock := None; op_fallocate := None; op_readdirplus := None; op_copy_file_range := None;
  op_lseek := None; op_tmpfile := None |}.

(** The example as a server; it installs no interrupt callbacks. *)
#[export] Instance hello_server : Server := {|
  se_op := hello_ll_oper;
  interrupt_func := fun _ _ _ => fault_ BadPointer |}.
End hello.
