(* ===== verification/PerfLl.v ===== *)
(** * The benchmark server

    [src/apps/fuse-perf-test/hello_ll.c]: the example server with a second file
    of 100 MB, made up as it is read.  [min], [struct dirbuf], [dirbuf_add] and
    [reply_buf_limited] are the same text as in the example server. *)

From S2P Require Import Prelude Wire Platform KernelAbi World Monad Buffer Request Reply.
From S2P Require Import Server Handlers HelloLl.

Definition bigfile_name : bytes := str "bigfile"%string.
Definition BIGFILE_SIZE : Z := 100 * 1024 * 1024.

(** [None] stands for the result [-1]. *)
Definition hello_stat (ino : Z) (st : stat) : option stat :=
  let mk mode nlink size := {|
    st_ino := ino; st_mode := mode; st_nlink := nlink; st_uid := st_uid st; st_gid := st_gid st;
    st_rdev := st_rdev st; st_size := size; st_blksize := st_blksize st;
    st_blocks := st_blocks st; st_atime := st_atime st; st_mtime := st_mtime st;
    st_ctime := st_ctime st; st_atim_nsec := st_atim_nsec st; st_mtim_nsec := st_mtim_nsec st;
    st_ctim_nsec := st_ctim_nsec st |} in
  if ino =? 1 then Some (mk (Z.lor S_IFDIR 493) 2 (st_size st))
  else if ino =? 2 then Some (mk (Z.lor S_IFREG 292) 1 (blen hello_str))
  else if ino =? 3 then Some (mk (Z.lor S_IFREG 292) 1 BIGFILE_SIZE)
  else None.

Section perf.
Context {P : Platform}.

Definition hello_ll_getattr (r ino : Z) (fi : option fuse_file_info) : M unit :=
  match hello_stat ino stat_zero with
  | None => reply_err r ENOENT
  | Some st => fuse_reply_attr r st one;; mret tt
  end.

Definition hello_ll_lookup (r parent : Z) (name : bytes) : M unit :=
  if negb (parent =? 1) then reply_err r ENOENT
  else
    let found ino :=
      let attr := default stat_zero (hello_stat ino stat_zero) in
      fuse_reply_entry r {| e_ino := ino; e_generation := 0; e_attr := attr;
                            e_attr_timeout := one; e_entry_timeout := one |};;
      mret tt in
    if bool_decide (name = hello_name) then found 2
    else if bool_decide (name = bigfile_name) then found 3
    else reply_err r ENOENT.

Definition hello_ll_readdir (r ino size off : Z) (fi : fuse_file_info) : M unit :=
  if negb (ino =? 1) then reply_err r ENOTDIR
  else
    b ← dirbuf_add {| db_p := None; db_size := 0 |} (str "."%string) 1;
    b ← dirbuf_add b (str ".."%string) 1;
    b ← dirbuf_add b hello_name 2;
    b ← dirbuf_add b bigfile_name 3;
    reply_buf_limited r (db_p b) (db_size b) off size;;
    mret tt.

Definition hello_ll_open (r ino : Z) (fi : fuse_file_info) : M unit :=
  if ino =? 1 then reply_err r EISDIR
  else if negb (Z.land (fi_flags fi) O_ACCMODE =? O_RDONLY) then reply_err r EACCES
  else fuse_reply_open r fi;; mret tt.

(** The buffer [tmp] lives as long as the call: only the decision of [malloc]
    is seen from outside. *)
Definition hello_ll_read (r ino size off : Z) (fi : fuse_file_info) : M unit :=
  if ino =? 2 then
    reply_buf_limited r (Some (hello_str ++ [0])) (blen hello_str) off size;; mret tt
  else if ino =? 3 then
    if BIGFILE_SIZE <=? off then fuse_reply_buf r None 0;; mret tt
    else
      let to_read := u64 (BIGFILE_SIZE - u64 off) in
      let to_read := if size <? to_read then size else to_read in
      n ← gets w_nalloc;
      modify (w_set_nalloc (Datatypes.S n));;
      if alloc_ok n then
        fuse_reply_buf r (Some (replicate (Z.to_nat to_read) 65)) to_read;; mret tt
      else reply_err r ENOMEM
  else reply_err r EISDIR.

Definition hello_ll_oper : fuse_lowlevel_ops := {|
  op_init := None; op_destroy := None; op_lookup := Some hello_ll_lookup;
  op_forget := None; op_getattr := Some hello_ll_getattr; op_setattr := None;
  op_readlink := None; op_mknod := None; op_mkdir := None; op_unlink := None; op_rmdir := None;
  op_symlink := None; op_rename := None; op_link := None; op_open := Some hello_ll_open;
  op_read := Some hello_ll_read; op_write := None; op_flush := None; op_release := None;
  op_fsync := None; op_opendir := None; op_readdir := Some hello_ll_readdir;
  op_releasedir := None; op_fsyncdir := None; op_statfs := None;
  op_setxattr := None; op_getxattr := None; op_listxattr := None; op_removexattr := None;
  op_access := None; op_create := None; op_getlk := None; op_setlk := None; op_bmap := None;
  op_ioctl := None; op_poll := None; op_write_buf := None; op_retrieve_reply := None;
  op_forget_multi := None; op_flock := None; op_fallocate := None; op_readdirplus := None;
  op_copy_file_range := None; op_lseek := None; op_tmpfile := None |}.

(** The benchmark server; it installs no interrupt callbacks. *)
Definition perf_server : Server := {|
  se_op := hello_ll_oper;
  interrupt_func := fun _ _ _ => fault_ BadPointer |}.
End perf.
