(* ===== verification/HelloSpec.v ===== *)
(** * The example server keeps its promise

    [hello_ll.c] against the interface the driver relies on: its operations
    answer each request once, and its directory buffer is the packed list of its
    three entries. *)

From S2P Require Import Prelude Wire Platform KernelAbi LinkedList World Monad Buffer Request.
From S2P Require Import Reply Server Handlers Init Dirent Daemon UkFs System HelloLl.

(** ** The directory *)

Definition ino_stat (ino : Z) : stat := Build_stat ino 0 0 0 0 0 0 0 0 0 0 0 0 0 0.

(** Names, attributes and cookies of the entries. *)
Definition hello_entries : list (bytes * stat * Z) :=
  [ (str "."%string, ino_stat 1, 32); (str ".."%string, ino_stat 1, 64); (hello_name, ino_stat 2, 96) ].

Definition hello_dir : bytes := dir_bytes hello_entries.

Lemma blen_app x y : blen (x ++ y) = blen x + blen y.
Proof. unfold blen. rewrite length_app. lia. Qed.

Section hello_spec.
Context {P : Platform} {PS : PlatformSpec P}.
Implicit Types (w : world).

(** The bytes of a buffer between offset and limit. *)
Definition window (buf : bytes) (off size : Z) : bytes :=
  slice off (Z.min size (blen buf - off)) buf.

(** ** Growing the buffer *)

(** A [dirbuf] that holds [old]. *)
Definition dirbuf_of (old : bytes) (db : dirbuf) : Prop :=
  db_size db = blen old /\ match db_p db with Some mem => mem = old | None => old = [] end.

Definition full (mem : bytes) : dirbuf := {| db_p := Some mem; db_size := blen mem |}.

Lemma full_of mem : dirbuf_of mem (full mem).
Proof. done. Qed.

Lemma dirbuf_add_run old db name ino w :
  dirbuf_of old db -> name_ok name -> blen old < 2 ^ 32 -> alloc_ok (w_nalloc w) = true ->
  dirbuf_add db name ino w =
  Ok (full (old ++ direntry name (ino_stat ino) (blen old + dirent_size name))) (bump 1 w).
Proof.
  intros [Hsz Hp] Hn Ho Ha. pose proof (dirent_size_bounds name Hn) as Hb.
  change FUSE_NAME_OFFSET with 24 in Hb. unfold name_ok in Hn.
  assert (0 <= blen name /\ 0 <= blen old) as [Hnn Hon] by (unfold blen; lia).
  assert (u64 (blen old + dirent_size name) = blen old + dirent_size name) as Hu
    by (apply wrapu_id; unfold is_u; lia).
  unfold dirbuf_add. rewrite Hsz.
  mstep by (apply of_option_run, add_direntry_size). rewrite Hu.
  mstep by done. mstep by done. rewrite Ha.
  set (j1 := map (junk (w_nalloc w)) (seq 0 (Z.to_nat (blen old)))).
  set (j2 := map (junk (w_nalloc w)) (seq (Z.to_nat (blen old)) (Z.to_nat (dirent_size name)))).
  assert (default j1 (db_p db) = old) as ->.
  { destruct (db_p db); [done|]. subst old. done. }
  assert (Z.to_nat (blen old) = length old) as Hlo by (unfold blen; lia).
  rewrite Hlo, drop_app_length, take_app_length.
  assert (u64 (blen old + dirent_size name - blen old) = dirent_size name) as ->
    by (rewrite <- (wrapu_id 64 (dirent_size name)) at 2 by (unfold is_u; lia); unfold u64; f_equal; lia).
  assert (length j2 = Z.to_nat (dirent_size name)) as Hj2 by (unfold j2; by rewrite length_map, length_seq).
  mstep by (apply of_option_run, add_direntry_run; [done|done|unfold blen in *; lia]).
  rewrite <- Hj2, drop_all, app_nil_r. unfold full. by rewrite blen_app, blen_direntry.
Qed.

(** The buffer of a directory listing. *)
Lemma hello_dirbuf_run {A} (f : dirbuf -> M A) w :
  (forall i, (i < 3)%nat -> alloc_ok (w_nalloc w + i)%nat = true) ->
  (b ← dirbuf_add {| db_p := None; db_size := 0 |} (str "."%string) 1;
   b ← dirbuf_add b (str ".."%string) 1;
   b ← dirbuf_add b hello_name 2;
   f b) w = f (full hello_dir) (bump 3 w).
Proof.
  intros Ha.
  mstep by (apply (dirbuf_add_run []); [done|done|done|rewrite <- (Nat.add_0_r (w_nalloc w)); apply Ha; lia]).
  mstep by (apply dirbuf_add_run; [apply full_of|done|done|
    change (w_nalloc (bump 1 w)) with (1 + w_nalloc w)%nat; rewrite Nat.add_comm; apply Ha; lia]).
  mstep by (apply dirbuf_add_run; [apply full_of|done|done|
    change (w_nalloc (bump 1 (bump 1 w))) with (2 + w_nalloc w)%nat; rewrite Nat.add_comm; apply Ha; lia]).
  done.
Qed.

(** ** The operations *)

Lemma answers_ext m m' n a : (forall r w, m' r w = m r w) -> answers m n a -> answers m' n a.
Proof.
  intros He Hm w r l il q u k H1 H2 H3 H4 H5 H6. rewrite He. by apply (Hm w r l il q u k).
Qed.

(** After [n] more allocations. *)
Lemma answers_bump m m' n a :
  (forall r w, (forall i, (i < n)%nat -> alloc_ok (w_nalloc w + i)%nat = true) -> m' r w = m r (bump n w)) ->
  answers m 0 a -> answers m' n a.
Proof.
  intros He Hm w r l il q u k H1 H2 H3 H4 H5 H6. rewrite He by done.
  destruct (Hm (bump n w) r l il q u k) as (h & E & Hf); try done.
  - by apply (live_ext w).
  - intros i Hi. lia.
  - rewrite bump_0 in E. by exists h.
Qed.

Lemma window_past buf off size : blen buf <= off -> window buf off size = [].
Proof. intros H. unfold window, slice. by replace (Z.to_nat (Z.min size (blen buf - off))) with O by lia. Qed.

Lemma slice_drop off n buf : slice 0 n (drop (Z.to_nat off) buf) = slice off n buf.
Proof. unfold slice. change (Z.to_nat 0) with O. by rewrite drop_0. Qed.

Lemma slice_app off n buf tl : 0 <= off -> off + n <= blen buf -> slice off n (buf ++ tl) = slice off n buf.
Proof.
  intros H1 H2. unfold slice, blen in *.
  destruct (decide (0 <= n)); [|by replace (Z.to_nat n) with O by lia].
  rewrite drop_app_le by lia. apply take_app_le. rewrite length_drop. lia.
Qed.

Lemma reply_limited_answers buf tl off size :
  0 <= off -> 0 <= size -> blen buf < 2 ^ 63 ->
  answers (fun r => reply_buf_limited r (Some (buf ++ tl)) (blen buf) off size;; mret tt) 0
    (A_buf (window buf off size)).
Proof.
  intros Ho Hs Hb. destruct (Z.ltb_spec off (blen buf)) as [Hlt|Hge].
  - assert (u64 (blen buf - off) = blen buf - off) as Hu by (apply wrapu_id; unfold is_u; lia).
    set (n := Z.min size (blen buf - off)).
    assert (A_buf (window buf off size) = A_buf (slice 0 n (drop (Z.to_nat off) (buf ++ tl)))) as ->.
    { rewrite slice_drop. unfold window. fold n. by rewrite slice_app by lia. }
    eapply answers_ext; [|apply reply_buf_answers].
    + intros r w. unfold reply_buf_limited. rewrite (proj2 (Z.ltb_lt _ _) Hlt), Hu.
      rewrite (proj2 (Z.leb_le _ _) Ho).
      assert ((if blen buf - off <? size then blen buf - off else size) = n) as -> by (case_match; zify_bool; lia).
      done.
    + unfold n. unfold blen in *. rewrite length_drop, length_app. lia.
  - rewrite window_past by done. eapply answers_ext; [|apply reply_nobuf_answers].
    intros r w. unfold reply_buf_limited. by rewrite (proj2 (Z.ltb_ge _ _) Hge).
Qed.

Lemma window_size buf off size : blen (window buf off size) <= Z.max 0 size.
Proof. unfold window, slice, blen. rewrite length_take. lia. Qed.

(** ** Results *)

Definition hello_entry : fuse_entry_param := {|
  e_ino := 2; e_generation := 0; e_attr := default stat_zero (hello_stat 2 stat_zero);
  e_attr_timeout := one; e_entry_timeout := one |}.

Definition hello_lookup_result (parent : Z) (name : bytes) : Z + fuse_entry_param :=
  if negb (parent =? 1) || negb (bool_decide (name = hello_name)) then inl ENOENT else inr hello_entry.
Definition hello_getattr_result (ino : Z) : Z + stat :=
  match hello_stat ino stat_zero with None => inl ENOENT | Some st => inr st end.
Definition hello_open_result (ino flags : Z) : Z + fuse_open_out :=
  if negb (ino =? 2) then inl EISDIR
  else if negb (Z.land flags O_ACCMODE =? O_RDONLY) then inl EACCES
  else inr open_out_zero.
Definition hello_readdir_result (ino off size : Z) : Z + bytes :=
  if negb (ino =? 1) then inl ENOTDIR else inr (window hello_dir off size).
Definition hello_cursor (ino off : Z) : bool :=
  negb (ino =? 1) || (off =? 0) || (off =? 32) || (off =? 64) || (off =? 96).

Lemma hello_lookup_answers parent name :
  answers (fun r => hello_ll_lookup r parent name) 0
    (err_or (fun e => A_obj (B_entry e) sizeof_entry_param sizeof_entry_param)
      (hello_lookup_result parent name)).
Proof.
  unfold hello_lookup_result, hello_ll_lookup.
  destruct (negb (parent =? 1) || _); [apply reply_err_answers|apply reply_entry_answers].
Qed.

Lemma hello_getattr_answers ino :
  answers (fun r => hello_ll_getattr r ino None) 0
    (err_or (fun st => A_obj (B_stat st) sizeof_stat sizeof_stat) (hello_getattr_result ino)).
Proof.
  unfold hello_getattr_result, hello_ll_getattr.
  destruct (hello_stat ino stat_zero); [apply reply_attr_answers|apply reply_err_answers].
Qed.

Lemma hello_open_answers ino flags :
  answers (fun r => hello_ll_open r ino (fi_set_flags flags fi_zero)) 0
    (err_or (fun o => A_obj (B_open_out o) (sizeof fuse_open_out) 0) (hello_open_result ino flags)).
Proof.
  unfold hello_open_result, hello_ll_open. destruct (ino =? 2); [|apply reply_err_answers].
  cbn [negb fi_flags fi_set_flags fi_zero].
  destruct (Z.land flags O_ACCMODE =? O_RDONLY); [apply reply_open_answers|apply reply_err_answers].
Qed.

Lemma hello_read_answers ino fh off size :
  (ino =? 2) = true -> 0 <= off -> 0 <= size ->
  answers (fun r => hello_ll_read r ino size off (fi_fh_only fh)) 0 (A_buf (window hello_str off size)).
Proof.
  intros Hi Ho Hs. eapply answers_ext; [|by apply (reply_limited_answers hello_str [0])].
  intros r w. unfold hello_ll_read. by rewrite Hi.
Qed.

Lemma hello_readdir_answers ino fh off size :
  0 <= off -> 0 <= size ->
  answers (fun r => hello_ll_readdir r ino size off (fi_fh_only fh)) (if ino =? 1 then 3 else 0)
    (err_or A_buf (hello_readdir_result ino off size)).
Proof.
  intros Ho Hs. unfold hello_readdir_result, hello_ll_readdir.
  destruct (ino =? 1); [|apply reply_err_answers]. cbn [negb err_or].
  eapply answers_bump; [|by apply (reply_limited_answers hello_dir [])].
  intros r w Ha. rewrite (hello_dirbuf_run _ w Ha). cbn [full db_p db_size]. by rewrite app_nil_r.
Qed.

(** From each cookie the listing goes on with the next whole entry. *)
Lemma hello_readdir_entry ino off bs :
  hello_cursor ino off = true -> hello_readdir_result ino off LISTDIR_SIZE = inr bs -> bs = [] \/
  exists fd name, first_dirent bs = Some (fd, name) /\ dirent_namelen fd = blen name /\
    is_u 63 (dirent_off fd) /\ hello_cursor ino (dirent_off fd) = true.
Proof.
  unfold hello_readdir_result, hello_cursor. destruct (Z.eqb_spec ino 1) as [->|]; [|done].
  cbn [negb orb]. intros Hc [= <-].
  repeat (apply orb_true_iff in Hc as [Hc|Hc]); apply Z.eqb_eq in Hc; subst off; [right..|left].
  - exists (dirent_head (str "."%string) (ino_stat 1) 32), (str "."%string). by vm_compute.
  - exists (dirent_head (str ".."%string) (ino_stat 1) 64), (str ".."%string). by vm_compute.
  - exists (dirent_head hello_name (ino_stat 2) 96), hello_name. by vm_compute.
  - by vm_compute.
Qed.

#[refine, export] Instance hello_file_server : FileServer hello_server := {|
  fs_allocs uop ino off := match uop with FUSE_UKFS_READDIR => if ino =? 1 then 3%nat else O | _ => O end;
  fs_lookup := hello_lookup_result;
  fs_getattr := hello_getattr_result;
  fs_open := hello_open_result;
  fs_read ino fh off size := inr (window hello_str off size);
  fs_readdir ino fh off size := hello_readdir_result ino off size;
  fs_readable ino := ino =? 2;
  fs_listable ino off := true;
  fs_cursor := hello_cursor |}.
Proof.
  - intros. eexists. split; [done|]. apply hello_lookup_answers.
  - intros. eexists. split; [done|]. apply hello_getattr_answers.
  - intros. eexists. split; [done|]. apply hello_open_answers.
  - intros ino fh off size Hi Ho Hs. eexists. split; [done|].
    apply hello_read_answers; [done|lia|apply Hs].
  - intros ino fh off size _ Ho Hs. eexists. split; [done|].
    apply hello_readdir_answers; [lia|apply Hs].
  - unfold hello_lookup_result. intros parent name e. case_match; [done|]. by intros [= <-].
  - unfold hello_open_result. intros ino flags o. repeat case_match; try done. by intros [= <-].
  - unfold hello_open_result. intros ino flags o. by destruct (ino =? 2).
  - intros ino fh off size bs Hs [= <-]. pose proof (window_size hello_str off size).
    unfold is_u in Hs. lia.
  - intros ino. unfold hello_cursor. by rewrite orb_true_r.
  - done.
  - intros ino fh off bs. apply hello_readdir_entry.
Defined.
End hello_spec.
