(* ===== verification/PosixRef.v ===== *)
(** * A reference implementation of the POSIX interface

    The simplest virtual file system over the driver, for a plain server:
    nothing is cached, every descriptor has a file of its own, which it keeps.
    It shows that the promises of [PosixSpec] can be kept. *)

From S2P Require Import Prelude Wire Platform KernelAbi LinkedList World Monad Buffer Request.
From S2P Require Import Reply Server Handlers Interrupt Notify Init Session Queue Dirent Daemon UkFs.
From S2P Require Import System FileOps Boot Posix PosixProps.

Section ref.
Context {P : Platform} {S : Server}.
#[local] Existing Instance driver_sched.

(** File, node and position of what is open; the next number to hand out. *)
Record ref_vfs := {
  rv_root : Z; rv_root_node : Z; rv_next : Z;
  rv_fds : gmap Z (Z * Z * Z); rv_dirs : gmap Z (Z * Z * Z) }.

Definition rv_set_fds m v := {| rv_root := rv_root v; rv_root_node := rv_root_node v;
  rv_next := rv_next v; rv_fds := m; rv_dirs := rv_dirs v |}.
Definition rv_set_dirs m v := {| rv_root := rv_root v; rv_root_node := rv_root_node v;
  rv_next := rv_next v; rv_fds := rv_fds v; rv_dirs := m |}.
Definition rv_set_next n v := {| rv_root := rv_root v; rv_root_node := rv_root_node v;
  rv_next := n; rv_fds := rv_fds v; rv_dirs := rv_dirs v |}.

(** A call of the driver from the virtual file system. *)
Definition calls {A B} (m : M A) (k : A -> world -> option ((Z + B) * ref_vfs * world)) w :=
  match m w with Ok a w' => k a w' | Fault _ => None end.

Definition node_in w f : Z := match w_files w !! f with Some ff => ff_nodeid ff | None => 0 end.

Definition with_file {B} (path : bytes) (k : Z -> syscall ref_vfs B) : syscall ref_vfs B := fun v w =>
  match path with
  | [] => Some (inl ENOENT, v, w)
  | [_] => k (rv_root v) v w
  | _ :: name =>
      calls (fusefs_lookup (rv_root v) (name ++ [0]) (blen name))
        (fun res w => match lk_target res with
                      | Some c => k c v w
                      | None => Some (inl (- lk_ret res), v, w)
                      end) w
  end.

Definition posix_stat (s : uk_statx) : stat :=
  Build_stat (stx_ino s) (stx_mode s) (stx_nlink s) 0 0 0 (stx_size s) 0 0 0 0 0 0 0 0.

Definition stat_file (f : Z) : syscall ref_vfs stat := fun v w =>
  calls (fusefs_getstat f) (fun x w =>
    Some (match snd x with Some s => inr (posix_stat s) | None => inl (- fst x) end, v, w)) w.

Definition open_file (f : Z) : syscall ref_vfs Z := fun v w =>
  let fd := rv_next v in
  Some (inr fd, rv_set_next (fd + 1) (rv_set_fds (<[fd := (f, node_in w f, 0)]> (rv_fds v)) v), w).

Definition open_stream (f : Z) : syscall ref_vfs Z := fun v w =>
  let d := rv_next v in
  Some (inr d, rv_set_next (d + 1) (rv_set_dirs (<[d := (f, node_in w f, 0)]> (rv_dirs v)) v), w).

Definition on_fd {B} (fd : Z) (k : Z -> Z -> Z -> syscall ref_vfs B) : syscall ref_vfs B := fun v w =>
  match rv_fds v !! fd with Some (f, n, pos) => k f n pos v w | None => Some (inl EBADF, v, w) end.
Definition on_dir {B} (d : Z) (k : Z -> Z -> Z -> syscall ref_vfs B) : syscall ref_vfs B := fun v w =>
  match rv_dirs v !! d with Some (f, n, cur) => k f n cur v w | None => Some (inl EBADF, v, w) end.

Definition move (fd f n pos : Z) (v : ref_vfs) : ref_vfs := rv_set_fds (<[fd := (f, n, pos)]> (rv_fds v)) v.

Definition ref_lseek (fd off whence : Z) : syscall ref_vfs Z :=
  on_fd fd (fun f n pos v w =>
    if whence =? SEEK_SET then Some (inr off, move fd f n off v, w)
    else if whence =? SEEK_CUR then Some (inr (pos + off), move fd f n (pos + off) v, w)
    else calls (fusefs_getstat f) (fun x w =>
      match snd x with
      | Some s => Some (inr (stx_size s + off), move fd f n (stx_size s + off) v, w)
      | None => Some (inl (- fst x), v, w)
      end) w).

Definition ref_read (fd count : Z) : syscall ref_vfs bytes :=
  on_fd fd (fun f n pos v w =>
    calls (fusefs_read f [count] pos) (fun res w =>
      let r := result_or (fst res) (concat (snd res)) in
      Some (r, match r with inl _ => v | inr bs => move fd f n (pos + blen bs) v end, w)) w).

Definition ref_pread (fd count off : Z) : syscall ref_vfs bytes :=
  on_fd fd (fun f n pos v w =>
    calls (fusefs_read f [count] off) (fun res w =>
      Some (result_or (fst res) (concat (snd res)), v, w)) w).

(** Room for the longest name, on every platform. *)
Definition longest : Z := fold_right Z.max 0 (map (fun k => UKFS_DIRENT_RECLEN (Z.of_nat k)) (seq 0 256)).

Definition ref_readdir (d : Z) : syscall ref_vfs (option (Z * bytes)) :=
  on_dir d (fun f n cur v w =>
    calls (fusefs_listdir f cur longest) (fun res w =>
      match result_or (fst res) (snd res) with
      | inl e => Some (inl e, v, w)
      | inr None => Some (inr None, v, w)
      | inr (Some (rec, next)) =>
          match cstr (d_name rec) with
          | Some name => Some (inr (Some (d_ino rec, name)),
                               rv_set_dirs (<[d := (f, n, next)]> (rv_dirs v)) v, w)
          | None => None
          end
      end) w).

Definition ref_posix : Posix := {|
  vfs := ref_vfs;
  vfs_start := Build_ref_vfs 0 0 0 ∅ ∅;
  px_mount source target type := fun v w =>
    calls open_volume (fun x w =>
      match x with
      | (Some f, Some _) => Some (inr tt, Build_ref_vfs f (node_in w f) 0 ∅ ∅, w)
      | _ => Some (inl ENOMEM, v, w)
      end) w;
  px_stat path := with_file path stat_file;
  px_open path flags := with_file path open_file;
  px_fstat fd := on_fd fd (fun f n pos => stat_file f);
  px_lseek := ref_lseek;
  px_read := ref_read;
  px_pread := ref_pread;
  px_close fd := fun v w => Some (inr tt, rv_set_fds (delete fd (rv_fds v)) v, w);
  px_opendir path := with_file path open_stream;
  px_readdir := ref_readdir;
  px_closedir d := fun v w => Some (inr tt, rv_set_dirs (delete d (rv_dirs v)) v, w);
  px_access path mode := with_file path (fun f v w =>
    calls (fusefs_getstat f) (fun x w =>
      Some (match snd x with Some _ => inr tt | None => inl (- fst x) end, v, w)) w) |}.
End ref.

(** ** It keeps the promises *)

Section ref_spec.
Context {P : Platform} {PS : PlatformSpec P} {S : Server} {F : FileServer S} {PL : PlainServer}.
#[local] Existing Instance driver_sched.
#[local] Existing Instance ref_posix.
Implicit Types (v : ref_vfs) (w : world).

(** What is open stands for the nodes the table says. *)
Definition entries_ok v w (m : gmap Z (Z * Z * Z)) : Prop :=
  map_Forall (fun d x => file_of w x.1.2 x.1.1 /\ d < rv_next v) m.

Record ref_ok v w : Prop := {
  ro_usable : usable w;
  ro_root : file_of w (rv_root_node v) (rv_root v);
  ro_fds : entries_ok v w (rv_fds v);
  ro_dirs : entries_ok v w (rv_dirs v);
  ro_next : 0 <= rv_next v }.

(** The node and the position of an entry. *)
Definition node_pos (x : Z * Z * Z) : Z * Z := (x.1.2, x.2).

Definition ref_fds v : gmap Z (Z * Z) := node_pos <$> rv_fds v.
Definition ref_dirs v : gmap Z (Z * Z) := node_pos <$> rv_dirs v.

Lemma ref_ok_kept v w w' : ref_ok v w -> usable w' -> kept w w' -> ref_ok v w'.
Proof.
  intros [H1 H2 H3 H4 H5] Hu Hk. split; [done|by apply Hk| | |done];
    eapply map_Forall_impl; try done; cbn; intros d x [Hf Hd]; (split; [by apply Hk|done]).
Qed.

Lemma node_pos_lookup (m : gmap Z (Z * Z * Z)) d n pos :
  (node_pos <$> m) !! d = Some (n, pos) -> exists f, m !! d = Some (f, n, pos).
Proof. rewrite lookup_fmap, fmap_Some. intros ([[f k] p] & E & H). injection H as -> ->. by exists f. Qed.

Lemma ref_fd v w fd n pos :
  ref_ok v w -> ref_fds v !! fd = Some (n, pos) ->
  exists f, rv_fds v !! fd = Some (f, n, pos) /\ file_of w n f.
Proof.
  intros Hok (f & E)%node_pos_lookup. exists f. split; [done|]. apply (ro_fds _ _ Hok fd _ E).
Qed.

Lemma ref_dir v w d n cur :
  ref_ok v w -> ref_dirs v !! d = Some (n, cur) ->
  exists f, rv_dirs v !! d = Some (f, n, cur) /\ file_of w n f.
Proof.
  intros Hok (f & E)%node_pos_lookup. exists f. split; [done|]. apply (ro_dirs _ _ Hok d _ E).
Qed.

Lemma entries_insert v v' w m d f n pos :
  entries_ok v w m -> rv_next v' = rv_next v -> file_of w n f -> d < rv_next v ->
  entries_ok v' w (<[d := (f, n, pos)]> m).
Proof. intros Hm E Hf Hd. apply map_Forall_insert_2; [by rewrite E|]. unfold entries_ok in Hm. by rewrite <- E in Hm. Qed.

(** Another position. *)
Lemma ref_ok_move v w fd f n pos pos' :
  ref_ok v w -> rv_fds v !! fd = Some (f, n, pos) -> ref_ok (move fd f n pos' v) w.
Proof.
  intros Hok E. destruct (ro_fds _ _ Hok fd _ E) as [Hf Hd]. destruct Hok as [H1 H2 H3 H4 H5].
  split; try done. by eapply entries_insert.
Qed.

Lemma ref_ok_turn v w d f n cur cur' :
  ref_ok v w -> rv_dirs v !! d = Some (f, n, cur) ->
  ref_ok (rv_set_dirs (<[d := (f, n, cur')]> (rv_dirs v)) v) w.
Proof.
  intros Hok E. destruct (ro_dirs _ _ Hok d _ E) as [Hf Hd]. destruct Hok as [H1 H2 H3 H4 H5].
  split; try done. by eapply entries_insert.
Qed.

Lemma node_in_file w n f : file_of w n f -> node_in w f = n.
Proof. intros (ff & E & <-). unfold node_in. by rewrite E. Qed.

Lemma entries_new v v' w m d f n pos :
  entries_ok v w m -> rv_next v <= rv_next v' -> file_of w n f -> d < rv_next v' ->
  entries_ok v' w (<[d := (f, n, pos)]> m).
Proof.
  intros Hm E Hf Hd. apply map_Forall_insert_2; [done|].
  eapply map_Forall_impl; [exact Hm|]. cbn. intros k x [? ?]. split; [done|lia].
Qed.

Lemma entries_next v v' w m : entries_ok v w m -> rv_next v <= rv_next v' -> entries_ok v' w m.
Proof. intros Hm E. eapply map_Forall_impl; [exact Hm|]. cbn. intros k x [? ?]. split; [done|lia]. Qed.

Lemma next_fresh v w m : entries_ok v w m -> (node_pos <$> m) !! rv_next v = None.
Proof.
  intros Hm. rewrite lookup_fmap. destruct (m !! rv_next v) as [x|] eqn:E; [|done].
  destruct (Hm _ _ E). lia.
Qed.

(** ** Paths *)

Lemma with_file_run {B} path (k : Z -> syscall ref_vfs B) v w :
  ref_ok v w -> simple_path path ->
  exists t w', names_node (rv_root_node v) path t /\ ref_ok v w' /\
    match t with
    | inl e => with_file path k v w = Some (inl e, v, w')
    | inr n => exists f, file_of w' n f /\ with_file path k v w = k f v w'
    end.
Proof.
  intros Hok [->|(name & Hc & ->)].
  - exists (inr (rv_root_node v)), w. split; [constructor|]. split; [done|].
    exists (rv_root v). split; [apply Hok|done].
  - destruct (lookup_usable w (rv_root_node v) (rv_root v) name [0] (ro_usable _ _ Hok) (ro_root _ _ Hok) Hc)
      as (res & w' & E & Hu & Hk & H).
    assert (with_file (SLASH ++ name) k v w =
      match lk_target res with Some c => k c v w' | None => Some (inl (- lk_ret res), v, w') end) as Hw.
    { unfold with_file. destruct Hc as (Hne & _). destruct name as [|c name]; [done|].
      change (SLASH ++ c :: name) with (47 :: c :: name). unfold calls. by rewrite E. }
    exists (looked_up (rv_root_node v) name), w'.
    destruct (looked_up (rv_root_node v) name) as [e|n] eqn:El.
    + destruct H as [Ht Hr]. split; [|split; [by eapply ref_ok_kept|]].
      * constructor; [done|]. replace e with (- lk_ret res) by lia.
        eapply (lookup_failed _ _ w (rv_root v) [0] res w'); [apply Hok|apply Hok|done|done].
      * rewrite Hw, Ht, Hr. do 4 f_equal. lia.
    + destruct H as (c & Ht & Hf & _). split; [|split; [by eapply ref_ok_kept|]].
      * constructor; [done|]. eapply (lookup_found _ _ w (rv_root v) [0] res w' c); [apply Hok|apply Hok|done|done|done].
      * exists c. split; [done|]. by rewrite Hw, Ht.
Qed.

Lemma stat_file_run v w n f :
  ref_ok v w -> file_of w n f ->
  exists w', driver_stat n (getstat_result n true) /\ fusefs_getstat f w = Ok (getstat_result n true) w' /\ ref_ok v w'.
Proof.
  intros Hok Hf. destruct (getstat_usable w n f (ro_usable _ _ Hok) Hf) as (w' & E & Hu & Hk).
  exists w'. split; [exists w, f, w'; split_and!; [apply Hok|done|done]|]. split; [done|by eapply ref_ok_kept].
Qed.

Lemma stat_result_posix x : stat_result x (match snd x with Some s => inr (posix_stat s) | None => inl (- fst x) end).
Proof. unfold stat_result. destruct (snd x) as [s|]; [|done]. by exists (posix_stat s). Qed.

(** ** Files and directories *)

Lemma regular_node n : node_type n S_IFREG ->
  exists o, fs_open n 0 = inr o /\ forall off size, exists bs, forall fh, fs_read n fh off size = inr bs.
Proof.
  intros (s & Hs%driver_stat_eq & Ht). unfold getstat_result in Hs.
  destruct (fs_getattr n) as [err|st] eqn:E; [done|]. injection Hs as ->. by eapply plain_file.
Qed.

Lemma longest_room k : 0 <= k <= 255 -> UKFS_DIRENT_RECLEN k <= longest.
Proof.
  intros Hk. unfold longest.
  assert (forall l, In (UKFS_DIRENT_RECLEN k) l -> UKFS_DIRENT_RECLEN k <= fold_right Z.max 0 l) as H.
  { induction l as [|x l IH]; intros Hin; [done|]. cbn. destruct Hin as [->|Hin%IH]; lia. }
  apply H, in_map_iff. exists (Z.to_nat k). split; [f_equal; lia|]. apply in_seq. lia.
Qed.

Lemma record_name fd name : 0 <= blen name <= 255 -> nonul name -> cstr (d_name (record_of fd name)) = Some name.
Proof.
  intros Hb Hn. unfold record_of. cbn [d_name].
  pose proof (reclen_room (blen name)) as Hr.
  destruct (Z.to_nat (UKFS_DIRENT_RECLEN (blen name) - UKFS_DIRENT_NAME_OFF - blen name)) as [|k] eqn:E; [lia|].
  by apply cstr_app.
Qed.

Lemma listed_entry n cur bs fd name x :
  fs_readdir n 0 cur LISTDIR_SIZE = inr bs -> first_dirent bs = Some (fd, name) -> blen name <= 255 ->
  listed n cur x -> x = inr (Some (record_of fd name, dirent_off fd)).
Proof.
  unfold listed. intros -> Hfd Hb H. destruct bs as [|c bs]; [by vm_compute in Hfd|].
  rewrite Hfd in H. by apply H.
Qed.

Lemma listed_end n cur x : fs_readdir n 0 cur LISTDIR_SIZE = inr [] -> listed n cur x -> x = inr None.
Proof. unfold listed. by intros ->. Qed.

Lemma plain_listed n cur x :
  fs_cursor n cur = true -> listed n cur x ->
  (exists e, x = inl e) \/ x = inr None \/
  exists fd name, x = inr (Some (record_of fd name, dirent_off fd)) /\ blen name <= 255 /\ nonul name.
Proof.
  intros Hc H. pose proof (plain_dir n cur Hc) as Hp. destruct (fs_readdir n 0 cur LISTDIR_SIZE) as [e|bs] eqn:E.
  - left. exists e. unfold listed in H. rewrite E in H. by apply H.
  - right. destruct Hp as [->|(fd & name & Hfd & Hb & Hn)]; [left; by eapply listed_end|].
    right. exists fd, name. split; [by eapply listed_entry|done].
Qed.

Lemma plain_reads w n f iov off :
  usable w -> file_of w n f -> node_type n S_IFREG -> buffers_ok iov -> 0 < iov_sum iov < 2 ^ 31 -> is_u 63 off ->
  exists res w', fusefs_read f iov off w = Ok res w' /\ usable w' /\ kept w w' /\
    driver_read n (iov_sum iov) off (result_or (fst res) (concat (snd res))).
Proof.
  intros Hu Hf Ht Hi Hs Ho. destruct (regular_node n Ht) as (o & Hop & Hr).
  destruct (Hr off (iov_sum iov)) as (bs & Hbs).
  destruct (read_usable w n f iov off o bs) as (res & w' & E & Hu' & Hk & _); [done..|].
  exists res, w'. split_and!; [done..|]. exists w, f, iov, (fst res), (snd res), w'.
  split_and!; try done. by destruct res.
Qed.

Lemma plain_lists w n f cur :
  usable w -> file_of w n f -> is_u 63 cur -> fs_cursor n cur = true ->
  exists res w', fusefs_listdir f cur longest w = Ok res w' /\ usable w' /\ kept w w' /\
    driver_listdir n cur (result_or (fst res) (snd res)) /\ listed n cur (result_or (fst res) (snd res)).
Proof.
  intros Hu Hf Hcur Hc. destruct (listdir_usable w n f cur longest) as (res & w' & E & Hu' & Hk & Hl);
    [done..|apply longest_room|].
  exists res, w'. split_and!; [done..| |done]. exists w, f, longest, (fst res), (snd res), w'.
  split_and!; try done; [apply longest_room|by destruct res].
Qed.

Lemma iov_sum_one count : iov_sum [count] = count.
Proof. unfold iov_sum. cbn. lia. Qed.


(** ** The promises, one by one *)

Ltac ref_split := unfold same, moved, turned; split_and!.
Ltac ref_tab := unfold ref_fds, ref_dirs; cbn; rewrite ?fmap_insert, ?fmap_delete; done.

Lemma ref_mounts : mounts ref_posix ref_ok rv_root_node ref_fds ref_dirs.
Proof.
  intros src w f w' n E Hu Hf.
  eexists (Build_ref_vfs f (node_in w' f) 0 ∅ ∅), w'. ref_split.
  - cbn. unfold calls. by rewrite E.
  - split; cbn; [done|by rewrite (node_in_file _ n)|apply map_Forall_empty..|done].
  - by apply node_in_file.
  - apply fmap_empty.
  - apply fmap_empty.
Qed.

Lemma ref_stats : stats ref_posix ref_ok rv_root_node ref_fds ref_dirs.
Proof.
  intros path v w Hok Hp. destruct (with_file_run path stat_file v w Hok Hp) as (t & w' & Hn & Hok' & H).
  destruct t as [e|n].
  - exists (inl e), v, w'. ref_split; try done. by exists (inl e).
  - destruct H as (f & Hf & E). destruct (stat_file_run v w' n f Hok' Hf) as (w2 & Hd & Es & Hok2).
    eexists _, v, w2. ref_split; [cbn; rewrite E; unfold stat_file, calls; rewrite Es; reflexivity|done|done|done..|].
    exists (inr n). split; [done|]. eexists. split; [exact Hd|]. apply stat_result_posix.
Qed.

Lemma ref_opens : opens ref_posix ref_ok rv_root_node ref_fds ref_dirs.
Proof.
  intros path v w Hok Hp _. destruct (with_file_run path open_file v w Hok Hp) as (t & w' & Hn & Hok' & H).
  destruct t as [e|n].
  - exists (inl e), v, w'. ref_split; try done. by exists (inl e).
  - destruct H as (f & Hf & E). eexists _, _, w'. split; [cbn; rewrite E; reflexivity|]. ref_split.
    + pose proof (ro_next _ _ Hok'). rewrite (node_in_file _ n) by done.
      split; cbn; [apply Hok'|apply Hok'| | |lia].
      { eapply entries_new; [apply Hok'|cbn; lia|done|cbn; lia]. }
      { eapply entries_next; [apply Hok'|cbn; lia]. }
    + done.
    + exists (inr n). split; [done|]. exists (rv_next v).
      rewrite (node_in_file _ n) by done.
      ref_split; [done|apply Hok'|eapply next_fresh, Hok'|ref_tab|ref_tab].
Qed.

Lemma ref_fstats : fstats ref_posix ref_ok rv_root_node ref_fds ref_dirs.
Proof.
  intros fd v w n pos Hok Hfd. destruct (ref_fd _ _ _ _ _ Hok Hfd) as (f & Ef & Hf).
  destruct (stat_file_run v w n f Hok Hf) as (w2 & Hd & Es & Hok2).
  eexists _, v, w2. ref_split; [cbn; unfold on_fd; rewrite Ef; unfold stat_file, calls; rewrite Es; reflexivity|done|done|done..|].
  eexists. split; [exact Hd|]. apply stat_result_posix.
Qed.

Lemma ref_seeks_set : seeks_set ref_posix ref_ok rv_root_node ref_fds ref_dirs.
Proof.
  intros fd off v w n pos Hok Hfd _. destruct (ref_fd _ _ _ _ _ Hok Hfd) as (f & Ef & Hf).
  eexists _, _, w. split; [cbn; unfold ref_lseek, on_fd; rewrite Ef; reflexivity|].
  ref_split; [by eapply ref_ok_move|done|done|ref_tab|done].
Qed.

Lemma ref_seeks_cur : seeks_cur ref_posix ref_ok rv_root_node ref_fds ref_dirs.
Proof.
  intros fd off v w n pos Hok Hfd _. destruct (ref_fd _ _ _ _ _ Hok Hfd) as (f & Ef & Hf).
  eexists _, _, w. split; [cbn; unfold ref_lseek, on_fd; rewrite Ef; reflexivity|].
  ref_split; [by eapply ref_ok_move|done|done|ref_tab|done].
Qed.

Lemma ref_seeks_end : seeks_end ref_posix ref_ok rv_root_node ref_fds ref_dirs.
Proof.
  intros fd off v w n pos Hok Hfd _ _. destruct (ref_fd _ _ _ _ _ Hok Hfd) as (f & Ef & Hf).
  destruct (stat_file_run v w n f Hok Hf) as (w2 & Hd & Es & Hok2).
  destruct (snd (getstat_result n true)) as [s|] eqn:Ex.
  - eexists _, _, w2. split; [cbn; unfold ref_lseek, on_fd; rewrite Ef; cbn; unfold calls; rewrite Es, Ex; reflexivity|].
    ref_split; [by eapply ref_ok_move|done|]. eexists. split; [exact Hd|]. rewrite Ex.
    split; [done|]. split; [ref_tab|done].
  - eexists _, _, w2. split; [cbn; unfold ref_lseek, on_fd; rewrite Ef; cbn; unfold calls; rewrite Es, Ex; reflexivity|].
    ref_split; [done|done|]. eexists. split; [exact Hd|]. by rewrite Ex.
Qed.

Lemma ref_reads : reads ref_posix ref_ok rv_root_node ref_fds ref_dirs.
Proof.
  intros fd count v w n pos Hok Hfd Ht Hc Hpos. destruct (ref_fd _ _ _ _ _ Hok Hfd) as (f & Ef & Hf).
  destruct (plain_reads w n f [count] pos) as (res & w' & E & Hu & Hk & Hd);
    [apply Hok|done|done|by repeat constructor; lia|by rewrite iov_sum_one|done|]. rewrite iov_sum_one in Hd.
  eexists _, _, w'. split; [cbn; unfold ref_read, on_fd; rewrite Ef; unfold calls; rewrite E; reflexivity|].
  assert (ref_ok v w') as Hok' by (by eapply ref_ok_kept).
  destruct (result_or (fst res) (concat (snd res))) as [e|bs]; (ref_split; [|done|done|..]); try done.
  - by eapply ref_ok_move.
  - ref_tab.
Qed.

Lemma ref_preads : preads ref_posix ref_ok rv_root_node ref_fds ref_dirs.
Proof.
  intros fd count off v w n pos Hok Hfd Ht Hc Hoff. destruct (ref_fd _ _ _ _ _ Hok Hfd) as (f & Ef & Hf).
  destruct (plain_reads w n f [count] off) as (res & w' & E & Hu & Hk & Hd);
    [apply Hok|done|done|by repeat constructor; lia|by rewrite iov_sum_one|done|]. rewrite iov_sum_one in Hd.
  eexists _, v, w'. split; [cbn; unfold ref_pread, on_fd; rewrite Ef; unfold calls; rewrite E; reflexivity|].
  ref_split; try done. by eapply ref_ok_kept.
Qed.

Lemma ref_closes : closes ref_posix ref_ok rv_root_node ref_fds ref_dirs.
Proof.
  intros fd v w n pos Hok Hfd. eexists _, _, w. split; [reflexivity|].
  ref_split; [|done|done|ref_tab|done].
  destruct Hok as [H1 H2 H3 H4 H5]. split; try done. cbn. by apply map_Forall_delete.
Qed.

Lemma ref_opens_dir : opens_dir ref_posix ref_ok rv_root_node ref_fds ref_dirs.
Proof.
  intros path v w Hok Hp _ _. destruct (with_file_run path open_stream v w Hok Hp) as (t & w' & Hn & Hok' & H).
  destruct t as [e|n].
  - exists (inl e), v, w'. ref_split; try done. by exists (inl e).
  - destruct H as (f & Hf & E). eexists _, _, w'. split; [cbn; rewrite E; reflexivity|]. ref_split.
    + pose proof (ro_next _ _ Hok'). rewrite (node_in_file _ n) by done.
      split; cbn; [apply Hok'|apply Hok'| | |lia].
      { eapply entries_next; [apply Hok'|cbn; lia]. }
      { eapply entries_new; [apply Hok'|cbn; lia|done|cbn; lia]. }
    + done.
    + exists (inr n). split; [done|]. exists (rv_next v).
      rewrite (node_in_file _ n) by done.
      ref_split; [done|eapply next_fresh, Hok'|ref_tab|ref_tab].
Qed.

Lemma ref_reads_dir : reads_dir ref_posix ref_ok rv_root_node ref_fds ref_dirs.
Proof.
  intros d v w n cur Hok Hd Hcur Hc. destruct (ref_dir _ _ _ _ _ Hok Hd) as (f & Ef & Hf).
  destruct (plain_lists w n f cur) as (res & w' & E & Hu & Hk & Hl & Hls); [apply Hok|done..|].
  assert (ref_ok v w') as Hok' by (by eapply ref_ok_kept).
  assert (px_readdir d v w = match result_or (fst res) (snd res) with
    | inl e => Some (inl e, v, w')
    | inr None => Some (inr None, v, w')
    | inr (Some (rec, next)) => match cstr (d_name rec) with
        | Some name => Some (inr (Some (d_ino rec, name)), rv_set_dirs (<[d := (f, n, next)]> (rv_dirs v)) v, w')
        | None => None end end) as Er
    by (cbn; unfold ref_readdir, on_dir; rewrite Ef; unfold calls; by rewrite E).
  destruct (plain_listed n cur _ Hc Hls) as [[e Hx]|[Hx|(fd & name & Hx & Hb & Hn)]]; rewrite Hx in Er, Hl.
  - exists (inl e), v, w'. ref_split; try done. by exists (inl e).
  - exists (inr None), v, w'. ref_split; try done. by exists (inr None).
  - rewrite record_name in Er by (done || unfold blen in *; lia).
    eexists _, _, w'. split; [exact Er|]. ref_split; [by eapply ref_ok_turn|done|].
    eexists. split; [exact Hl|]. cbv beta iota. exists name. ref_split; [|done|ref_tab|done].
    apply record_name; [unfold blen in *; lia|done].
Qed.

Lemma ref_closes_dir : closes_dir ref_posix ref_ok rv_root_node ref_fds ref_dirs.
Proof.
  intros d v w n cur Hok Hd. eexists _, _, w. split; [reflexivity|].
  ref_split; [|done|done|ref_tab|done].
  destruct Hok as [H1 H2 H3 H4 H5]. split; try done. cbn. by apply map_Forall_delete.
Qed.

Lemma ref_grants : grants ref_posix ref_ok rv_root_node ref_fds ref_dirs.
Proof.
  intros path mode v w Hok Hp _.
  destruct (with_file_run path (fun f v w => calls (fusefs_getstat f) (fun x w =>
    Some (match snd x with Some _ => inr tt | None => inl (- fst x) end, v, w)) w) v w Hok Hp)
    as (t & w' & Hn & Hok' & H).
  destruct t as [e|n].
  - exists (inl e), v, w'. ref_split; try done. by exists (inl e).
  - destruct H as (f & Hf & E). destruct (stat_file_run v w' n f Hok' Hf) as (w2 & Hd & Es & Hok2).
    eexists _, v, w2. ref_split; [cbn; rewrite E; unfold calls; rewrite Es; reflexivity|done|done|done..|].
    exists (inr n). split; [done|]. eexists. split; [exact Hd|]. by destruct (snd _).
Qed.

#[export] Instance ref_posix_spec : PosixSpec ref_posix := {|
  px_ok := ref_ok; px_root := rv_root_node; px_fds := ref_fds; px_dirs := ref_dirs;
  px_mount_ok := ref_mounts;
  px_stat_ok := ref_stats;
  px_open_ok := ref_opens;
  px_fstat_ok := ref_fstats;
  px_seek_set_ok := ref_seeks_set;
  px_seek_cur_ok := ref_seeks_cur;
  px_seek_end_ok := ref_seeks_end;
  px_read_ok := ref_reads;
  px_pread_ok := ref_preads;
  px_close_ok := ref_closes;
  px_opendir_ok := ref_opens_dir;
  px_readdir_ok := ref_reads_dir;
  px_closedir_ok := ref_closes_dir;
  px_access_ok := ref_grants |}.
End ref_spec.
