(* ===== verification/Concurrent.v ===== *)
(** * Concurrent clients

    Any number of application threads call into the driver while the daemon
    serves the queue.  A thread issues requests one after the other: it queues
    the request on its stack ([enqueue]), sleeps, and reads it after the wake-up
    ([wake]); the two halves are those of [UkFs.submit].  Unikraft's scheduler is
    cooperative, so a thread runs from one blocking call to the next: the steps
    of the system are the halves of the clients and the turns of the daemon's
    loop, in any order.  (The queue's own accesses are interleaved in
    [QueueProps].) *)

From S2P Require Import Prelude Wire Platform KernelAbi LinkedList World Monad Buffer Request.
From S2P Require Import Reply Server Handlers Interrupt Notify Init Session Queue Dirent.
From S2P Require Import Daemon UkFs System Boot Examples HelloLl HelloSpec.

Section threads.
Context {P : Platform} {PS : PlatformSpec P} {S : Server} {F : FileServer S} (b : Z).

(** ** Threads *)

(** A request as a file operation makes it, with the name behind its pointer. *)
Record call := { c_in : ukfs_in; c_name : bytes }.

Definition enqueue (c : call) : M Z :=
  u ← new_ukfs_request (opcode_of (c_in c)) (c_in c);
  fuse_ukfs_queue_push u;;
  mret u.

Definition wake (u : Z) : M fuse_ukfs_request :=
  down_done u;;
  k ← get_uk u;
  modify (fun w => w_set_uks (delete u (w_uks w)) w);;
  mret k.

(** A thread: the calls it still has to make, the one it waits for with the
    address of its request, and what it got. *)
Record thread := {
  th_todo : list call;
  th_now : option (call * Z);
  th_got : list (call * fuse_ukfs_request) }.

Definition new_thread (cs : list call) : thread :=
  {| th_todo := cs; th_now := None; th_got := [] |}.

(** What a thread does when it runs; [None] when it has finished. *)
Definition thread_next (t : thread) : option (M thread) :=
  match th_now t, th_todo t with
  | Some (c, u), cs =>
      Some (k ← wake u;
            mret {| th_todo := cs; th_now := None; th_got := th_got t ++ [(c, k)] |})
  | None, c :: cs =>
      Some (u ← enqueue c;
            mret {| th_todo := cs; th_now := Some (c, u); th_got := th_got t |})
  | None, [] => None
  end.

Definition finished (t : thread) : Prop := th_now t = None /\ th_todo t = [].

(** The system: the world and the application's threads. *)
Inductive cstep : world * list thread -> world * list thread -> Prop :=
| client_step w ts1 t ts2 m t' w' :
    thread_next t = Some m -> m w = Ok t' w' -> cstep (w, ts1 ++ t :: ts2) (w', ts1 ++ t' :: ts2)
| daemon_step w ts w' : fuse_daemon_iteration b w = Ok tt w' -> cstep (w, ts) (w', ts).

(** Somebody's next action has undefined behaviour or fails an assertion.
    ([Deadlock] is how the model says that the action blocks.) *)
Definition goes_wrong (s : world * list thread) : Prop :=
  exists e, e <> Deadlock /\
    (fuse_daemon_iteration b s.1 = Fault e \/
     exists t m, t ∈ s.2 /\ thread_next t = Some m /\ m s.1 = Fault e).

(** ** What a client is promised *)

Definition result_ok (bl : gmap Z blob) (c : call) (k : fuse_ukfs_request) : Prop :=
  let '(e, d, n) := result_of (request_answer (c_in c) (c_name c)) true in
  uq_error k = e /\ uq_reply_len k = n /\
  match d with
  | Some bb => exists p, uq_reply_data k = Some p /\ bl !! p = Some bb
  | None => uq_reply_data k = None
  end.

Definition call_ok (bl : gmap Z blob) (c : call) : Prop :=
  inp_ok (c_in c) /\ names bl (c_in c) (c_name c).

(** Steps until everybody has finished: each request is queued, served and
    read. *)
Definition thread_work (t : thread) : nat :=
  3 * length (th_todo t) + (if th_now t then 1 else 0).
Definition work (s : world * list thread) : nat :=
  sum_list_with thread_work s.2 + length (elems (w_queue s.1)).

(** ** Invariant *)

Definition waits_for (t : thread) : list Z :=
  match th_now t with Some (_, u) => [u] | None => [] end.
Definition waiting (ts : list thread) : list Z := concat (map waits_for ts).

(** The request a thread waits for is still in the queue, or answered. *)
Definition pending_ok w (c : call) (u : Z) : Prop :=
  exists k, w_uks w !! u = Some k /\ uq_in k = c_in c /\
    ((u ∈ elems (w_queue w) /\ uq_opcode k = ukfs_opcode_val (opcode_of (c_in c)) /\
      is_u 64 (uq_unique k) /\ sem_value (uq_done k) = 0%nat) \/
     (u ∉ elems (w_queue w) /\ result_ok (w_blobs w) c k /\ sem_value (uq_done k) = 1%nat)).

Definition thread_ok w (t : thread) : Prop :=
  (forall c, c ∈ th_todo t -> call_ok (w_blobs w) c) /\
  (forall c u, th_now t = Some (c, u) -> call_ok (w_blobs w) c /\ pending_ok w c u) /\
  (forall c k, (c, k) ∈ th_got t -> result_ok (w_blobs w) c k).

Record cinv l (s : world * list thread) : Prop := {
  ci_sess : sess_ok s.1 l [];
  ci_init : se_got_init (w_se s.1) = true;
  ci_deny : se_deny_others (w_se s.1) = false;
  ci_minor : 4 <= proto_minor (se_conn (w_se s.1));
  ci_queue : q_idle (w_queue s.1);
  ci_buf : exists mem, w_mem s.1 !! b = Some mem /\ blen mem = FUSE_DAEMON_BUF_SIZE;
  ci_uks : forall u, is_Some (w_uks s.1 !! u) -> u < w_next s.1;
  ci_blobs : forall p, is_Some (w_blobs s.1 !! p) -> p < w_next s.1;
  ci_unique : is_u 64 (w_unique s.1);
  ci_waiting : NoDup (waiting s.2);
  ci_elems : NoDup (elems (w_queue s.1));
  ci_queued : forall u, u ∈ elems (w_queue s.1) -> u ∈ waiting s.2;
  ci_threads : Forall (thread_ok s.1) s.2 }.

Implicit Types (w : world) (ts : list thread) (bl : gmap Z blob) (l : list Z).

(** A file operation is one half after the other. *)
Lemma submit_halves `{!Scheduler} c w :
  submit (opcode_of (c_in c)) (c_in c) w = (u ← enqueue c; while_waiting;; wake u) w.
Proof.
  unfold submit, enqueue, wake, mbind, M_bind.
  destruct (new_ukfs_request _ _ w) as [u w1|]; [|done].
  destruct (fuse_ukfs_queue_push u w1) as [[] w2|]; [|done]. cbn.
  by destruct (while_waiting w2) as [[] w3|].
Qed.

(** *** New memory changes nothing for the requests and results there are *)

Lemma call_ok_mono bl bl' c : bl ⊆ bl' -> call_ok bl c -> call_ok bl' c.
Proof.
  intros Hs [Hi Hn]. split; [done|]. destruct (c_in c); try done.
  destruct Hn as (mem & Hm & Hr). exists mem. split; [by eapply lookup_weaken|done].
Qed.

Lemma result_ok_mono bl bl' c k : bl ⊆ bl' -> result_ok bl c k -> result_ok bl' c k.
Proof.
  unfold result_ok. intros Hs. destruct (result_of _ _) as [[e [d|]] n]; [|done].
  intros (-> & -> & p & Hp & Hb). split_and!; [done..|]. exists p. split; [done|by eapply lookup_weaken].
Qed.

(** *** Threads that wait for different requests *)

Lemma waiting_app ts1 ts2 : waiting (ts1 ++ ts2) = waiting ts1 ++ waiting ts2.
Proof. unfold waiting. by rewrite map_app, concat_app. Qed.

Lemma elem_of_waiting ts u : u ∈ waiting ts <-> exists t, t ∈ ts /\ u ∈ waits_for t.
Proof.
  induction ts as [|t ts IH]; [split; [by intros ?%elem_of_nil|by intros (? & ?%elem_of_nil & _)]|].
  change (waiting (t :: ts)) with (waits_for t ++ waiting ts). rewrite elem_of_app, IH.
  setoid_rewrite elem_of_cons. naive_solver.
Qed.

Lemma waits_for_now t u : u ∈ waits_for t <-> exists c, th_now t = Some (c, u).
Proof.
  unfold waits_for. destruct (th_now t) as [[c u']|].
  - rewrite list_elem_of_singleton. split; [intros ->; by eexists|by intros (? & [= -> ->])].
  - split; [by intros ?%elem_of_nil|by intros (? & ?)].
Qed.

Lemma waiting_inj ts t1 t2 c1 c2 u :
  NoDup (waiting ts) -> t1 ∈ ts -> t2 ∈ ts -> th_now t1 = Some (c1, u) -> th_now t2 = Some (c2, u) ->
  c1 = c2.
Proof.
  intros Hnd H1 H2 E1 E2.
  assert (u ∈ waits_for t1) as W1 by (rewrite waits_for_now; eauto).
  assert (u ∈ waits_for t2) as W2 by (rewrite waits_for_now; eauto).
  induction ts as [|t ts IH]; [by apply elem_of_nil in H1|].
  change (waiting (t :: ts)) with (waits_for t ++ waiting ts) in Hnd.
  apply NoDup_app in Hnd as (_ & Hd & Hnd).
  apply elem_of_cons in H1 as [ -> |H1]; apply elem_of_cons in H2 as [ -> |H2]; [congruence|..|by apply IH].
  - destruct (Hd _ W1). apply elem_of_waiting. eauto.
  - destruct (Hd _ W2). apply elem_of_waiting. eauto.
Qed.

(** *** Each action keeps the invariant *)

Lemma thread_ok_frame w w' t :
  thread_ok w t -> w_blobs w ⊆ w_blobs w' ->
  (forall u, u ∈ waits_for t -> w_uks w' !! u = w_uks w !! u /\
     (u ∈ elems (w_queue w') <-> u ∈ elems (w_queue w))) ->
  thread_ok w' t.
Proof.
  intros (Ht & Hn & Hg) Hb Hu. split_and!.
  - intros c Hc. by eapply call_ok_mono, Ht.
  - intros c u E. destruct (Hn c u E) as [Hc (k & Hk & Hi & Hp)]. split; [by eapply call_ok_mono|].
    destruct (Hu u) as [Hu1 Hu2]; [rewrite waits_for_now; eauto|].
    exists k. rewrite Hu1, Hu2. split_and!; [done..|].
    destruct Hp as [Hp|(? & ? & ?)]; [by left|right]. split_and!; [done|by eapply result_ok_mono|done].
  - intros c k Hc. by eapply result_ok_mono, Hg.
Qed.

Lemma waiting_split ts1 t ts2 : waiting (ts1 ++ t :: ts2) = waiting ts1 ++ waits_for t ++ waiting ts2.
Proof. by rewrite waiting_app. Qed.

(** The others wait for other requests. *)
Lemma others_wait ts1 t ts2 u x :
  NoDup (waiting (ts1 ++ t :: ts2)) -> u ∈ waits_for t -> x ∈ ts1 ++ ts2 -> u ∉ waits_for x.
Proof.
  rewrite waiting_split. intros Hnd Hu Hx Hux.
  assert (NoDup (waits_for t ++ waiting (ts1 ++ ts2))) as Hnd'.
  { rewrite waiting_app. eapply NoDup_Permutation_proper; [|exact Hnd]. solve_Permutation. }
  apply NoDup_app in Hnd' as (_ & Hd & _). apply (Hd u Hu), elem_of_waiting. eauto.
Qed.

Lemma pending_live l w ts u : cinv l (w, ts) -> u ∈ waiting ts -> u < w_next w.
Proof.
  intros Hi (t & Ht & Hu)%elem_of_waiting. apply waits_for_now in Hu as (c & E).
  pose proof (proj1 (Forall_forall _ _) (ci_threads _ _ Hi) t Ht) as (_ & Hn & _).
  destruct (Hn c u E) as [_ (k & Hk & _)]. apply (ci_uks _ _ Hi). by exists k.
Qed.

Lemma work_split w ts1 t ts2 :
  work (w, ts1 ++ t :: ts2) =
  (sum_list_with thread_work (ts1 ++ ts2) + thread_work t + length (elems (w_queue w)))%nat.
Proof. unfold work. cbn. rewrite !sum_list_with_app. cbn. lia. Qed.

Lemma sess_ok_same l w w' :
  sess_ok w l [] -> w_reqs w' = w_reqs w -> w_se w' = w_se w -> w_next w <= w_next w' -> sess_ok w' l [].
Proof.
  intros [H1 H2 H3] Er Es Hn. constructor; rewrite ?Er, ?Es; [done|done|].
  intros x Hx%H3. lia.
Qed.

Lemma enqueue_ok l w ts1 t ts2 c cs :
  cinv l (w, ts1 ++ t :: ts2) -> th_now t = None -> th_todo t = c :: cs ->
  exists w', enqueue c w = Ok (w_next w) w' /\
    let t' := {| th_todo := cs; th_now := Some (c, w_next w); th_got := th_got t |} in
    cinv l (w', ts1 ++ t' :: ts2) /\
    work (w, ts1 ++ t :: ts2) = Datatypes.S (work (w', ts1 ++ t' :: ts2)).
Proof.
  intros Hi En Et. set (w1 := with_request w (c_in c)).
  assert (w_next w ∉ elems (w_queue w)) as Hf.
  { intros H%(ci_queued _ _ Hi)%(pending_live _ _ _ _ Hi). lia. }
  destruct (queue_push_run w1 (w_next w) (ci_queue _ _ Hi) Hf) as (q & E & Hq & He).
  change (elems (w_queue w1)) with (elems (w_queue w)) in He.
  exists (w_set_queue q w1). split.
  { unfold enqueue. mstep by done. by mstep by (exact E). }
  intros t'. split.
  2:{ rewrite !work_split. unfold thread_work, t'. rewrite Et, En. cbn. rewrite He, length_app. cbn. lia. }
  pose proof (ci_waiting _ _ Hi) as Hw. cbn [snd] in Hw.
  rewrite waiting_split in Hw. unfold waits_for in Hw. rewrite En in Hw. cbn [app] in Hw.
  assert (w_next w ∉ waiting (ts1 ++ t :: ts2)) as Hfw by (intros H%(pending_live _ _ _ _ Hi); lia).
  rewrite waiting_split in Hfw. unfold waits_for in Hfw. rewrite En in Hfw. cbn [app] in Hfw.
  pose proof (ci_threads _ _ Hi) as Hts. cbn [fst snd] in Hts.
  apply Forall_app in Hts as [Ht1 [Htt Ht2]%Forall_cons]. 
  assert (forall x, thread_ok w x -> thread_ok (w_set_queue q w1) x) as Hfr.
  { intros x Hx. eapply thread_ok_frame; [done..|]. intros u (c' & Ec)%waits_for_now.
    destruct Hx as (_ & Hn & _). destruct (Hn _ _ Ec) as [_ (k & Hk & _)].
    assert (u < w_next w) by (apply (ci_uks _ _ Hi); by exists k).
    split; [cbn; rewrite lookup_insert_ne by lia; done|]. cbn. rewrite He, elem_of_app, list_elem_of_singleton.
    intuition lia. }
  constructor; cbn [fst snd]; try apply Hi; try done.
  - eapply sess_ok_same; [apply Hi|done..|cbn; lia].
  - intros u. cbn. intros Hu. destruct (decide (u = w_next w)) as [->|]; [lia|].
    rewrite lookup_insert_ne in Hu by done. apply (ci_uks _ _ Hi) in Hu. cbn in Hu. lia.
  - intros p Hp%(ci_blobs _ _ Hi). cbn in *. lia.
  - by apply wrapu_range.
  - rewrite waiting_split. unfold waits_for at 1. cbn [th_now t' app]. apply (NoDup_Permutation_proper _ (w_next w :: waiting ts1 ++ waiting ts2)).
    { solve_Permutation. }
    by apply NoDup_cons.
  - cbn. rewrite He. apply NoDup_app. split_and!; [apply Hi|set_solver|apply NoDup_singleton].
  - intros u. change (w_queue (w_set_queue q w1)) with q.
    rewrite He, elem_of_app, list_elem_of_singleton, waiting_split. unfold waits_for at 1. cbn [th_now t' app].
    rewrite !elem_of_app, elem_of_cons. intros [Hu%(ci_queued _ _ Hi)| ->]; [|tauto].
    cbn [snd] in Hu. rewrite waiting_split in Hu. unfold waits_for in Hu. rewrite En in Hu. cbn [app] in Hu.
    apply elem_of_app in Hu. tauto.
  - apply Forall_app. split; [by eapply Forall_impl|]. apply Forall_cons.
    split; [|by eapply Forall_impl]. apply Hfr in Htt as Ht'. destruct Ht' as (Ht' & _ & Hg).
    destruct (Ht' c) as [Hci Hcn]; [rewrite Et; set_solver|]. split_and!; cbn.
    + intros c' Hc'. apply Ht'. rewrite Et. set_solver.
    + intros c' u [= <- <-]. split; [done|].
      eexists. split_and!; [apply lookup_insert_eq|done|]. left. cbn. rewrite He.
      split_and!; [set_solver|done|apply Hi|by rewrite sem_init_value].
    + done.
Qed.

Lemma wake_blocks w u k :
  w_uks w !! u = Some k -> sem_value (uq_done k) = 0%nat -> wake u w = Fault Deadlock.
Proof.
  intros Hk Hs%sem_down_zero. unfold wake. apply bind_fault. unfold down_done.
  mstep. by rewrite Hs.
Qed.

Lemma wake_ok l w ts1 t ts2 c u k :
  cinv l (w, ts1 ++ t :: ts2) -> th_now t = Some (c, u) -> w_uks w !! u = Some k ->
  u ∉ elems (w_queue w) -> result_ok (w_blobs w) c k -> sem_value (uq_done k) = 1%nat ->
  exists k' w', wake u w = Ok k' w' /\
    let t' := {| th_todo := th_todo t; th_now := None; th_got := th_got t ++ [(c, k')] |} in
    cinv l (w', ts1 ++ t' :: ts2) /\
    work (w, ts1 ++ t :: ts2) = Datatypes.S (work (w', ts1 ++ t' :: ts2)).
Proof.
  intros Hi En Hk Hu Hr Hs. destruct (down_done_run u k w Hk Hs) as (s & Ed).
  set (k' := uq_set_done s k) in *.
  exists k', (w_set_uks (delete u (<[u := k']> (w_uks w))) w). split.
  { unfold wake. mstep by (exact Ed). mstep by (apply get_uk_run, lookup_insert_eq). by mstep by done. }
  intros t'. split.
  2:{ rewrite !work_split. unfold thread_work, t'. rewrite En. cbn. lia. }
  set (w' := w_set_uks _ w).
  assert (result_ok (w_blobs w) c k') as Hr' by (by destruct k).
  assert (waiting (ts1 ++ t :: ts2) ≡ₚ u :: waiting (ts1 ++ t' :: ts2)) as Hp.
  { rewrite !waiting_split. unfold waits_for at 1 2. rewrite En. cbn [th_now t' app]. solve_Permutation. }
  pose proof (ci_waiting _ _ Hi) as Hw. cbn [snd] in Hw.
  assert (u ∈ waits_for t) as Hut by (rewrite waits_for_now; eauto).
  assert (forall x, x ∈ ts1 ++ ts2 -> thread_ok w x -> thread_ok w' x) as Hfr.
  { intros x Hx Hx'. eapply thread_ok_frame; [done..|]. intros u' Hu'. split; [|done].
    assert (u <> u') by (intros ->; by destruct (others_wait _ _ _ _ _ Hw Hut Hx)).
    cbn. by rewrite lookup_delete_ne, lookup_insert_ne. }
  pose proof (ci_threads _ _ Hi) as Hts. cbn [fst snd] in Hts.
  apply Forall_app in Hts as [Ht1 [Htt Ht2]%Forall_cons].
  rewrite Forall_forall in Ht1. rewrite Forall_forall in Ht2.
  constructor; cbn [fst snd]; try apply Hi.
  - eapply sess_ok_same; [apply Hi|done..].
  - intros x. cbn. rewrite delete_insert_eq. intros [? [_ Hx]%lookup_delete_Some].
    apply (ci_uks _ _ Hi). by eexists.
  - rewrite Hp in Hw. by apply NoDup_cons in Hw as [_ Hw].
  - intros x Hx. change (w_queue w') with (w_queue w) in Hx. pose proof (ci_queued _ _ Hi x Hx) as Hx'.
    cbn [snd] in Hx'. rewrite Hp in Hx'. by apply elem_of_cons in Hx' as [->|Hx'].
  - apply Forall_app. split; [|apply Forall_cons; split].
    + apply Forall_forall. intros x Hx. apply Hfr; [set_solver|by apply Ht1].
    + destruct Htt as (Htd & _ & Hg). split_and!; [done|done|]. cbn. intros c' k2.
      rewrite elem_of_app, list_elem_of_singleton. intros [H|[= -> ->]]; [by apply Hg|done].
    + apply Forall_forall. intros x Hx. apply Hfr; [set_solver|by apply Ht2].
Qed.

(** What the turn of the daemon leaves in a request. *)
Lemma answered_ok bl p c k e d n :
  result_of (request_answer (c_in c) (c_name c)) true = (e, d, n) ->
  (forall bb, d = Some bb -> bl !! p = Some bb) -> sem_value (uq_done k) = 0%nat ->
  result_ok bl c (answered k e ((fun _ => p) <$> d) n) /\
  sem_value (uq_done (answered k e ((fun _ => p) <$> d) n)) = 1%nat /\
  uq_in (answered k e ((fun _ => p) <$> d) n) = uq_in k.
Proof.
  intros E Hd Hs. destruct k. unfold result_ok. rewrite E. cbn in *.
  split_and!; [done|done| |by rewrite sem_up_value, Hs|done]. destruct d as [bb|]; [|done]. cbn. eauto.
Qed.

Lemma add_blob_subseteq p d (m : gmap Z blob) : m !! p = None -> m ⊆ add_blob p d m.
Proof. intros Hp. destruct d; [by apply insert_subseteq|done]. Qed.

Lemma add_blob_new p d bb (m : gmap Z blob) : d = Some bb -> add_blob p d m !! p = Some bb.
Proof. intros ->. apply lookup_insert_eq. Qed.

(** The first request of the queue is as its client made it. *)
Lemma first_queued l w ts u us :
  cinv l (w, ts) -> elems (w_queue w) = u :: us ->
  exists t c k, t ∈ ts /\ th_now t = Some (c, u) /\ uq_in k = c_in c /\
    sem_value (uq_done k) = 0%nat /\ queued b w u us k (c_name c).
Proof.
  intros Hi He. destruct (proj1 (elem_of_waiting ts u)) as (t & Ht & Hu).
  { apply (ci_queued _ _ Hi). cbn. rewrite He. set_solver. }
  apply waits_for_now in Hu as (c & En).
  pose proof (proj1 (Forall_forall _ _) (ci_threads _ _ Hi) t Ht) as (_ & Hn & _).
  destruct (Hn _ _ En) as [[Hci Hcn] (k & Hk & Hin & [(_ & Hop & Hun & Hs)|(Hq & _)])].
  2:{ destruct Hq. cbn. rewrite He. set_solver. }
  exists t, c, k. split_and!; [done..|]. constructor; rewrite ?Hin; try done; try apply Hi.
Qed.

Lemma daemon_ok l w ts :
  (forall n, alloc_ok n = true) -> cinv l (w, ts) ->
  match elems (w_queue w) with
  | [] => fuse_daemon_iteration b w = Fault Deadlock
  | u :: us => exists w', fuse_daemon_iteration b w = Ok tt w' /\ cinv l (w', ts) /\
                 work (w, ts) = Datatypes.S (work (w', ts))
  end.
Proof.
  intros Hmem Hi. destruct (elems (w_queue w)) as [|u us] eqn:He.
  { unfold fuse_daemon_iteration. apply bind_fault, queue_pop_empty; [apply Hi|done]. }
  destruct (first_queued _ _ _ _ _ Hi He) as (t & c & k & Ht & En & Hin & Hs & Hqd).
  pose proof (ci_elems _ _ Hi) as Hnd. cbn [fst] in Hnd. rewrite He in Hnd.
  apply NoDup_cons in Hnd as [Huus Hnd].
  pose proof (daemon_run b l w u us k (c_name c) (ci_sess _ _ Hi) (ci_init _ _ Hi) (ci_deny _ _ Hi)
    (ci_minor _ _ Hi) Hqd) as Hrun. cbv zeta in Hrun. rewrite Hmem, Hin in Hrun.
  destruct (result_of (request_answer (c_in c) (c_name c)) true) as [[e d] n] eqn:Er.
  destruct Hrun as (h & q & mem & Eit & Hl & Hfx & Hq & Heq & Hbl); [intros ? _; apply Hmem|].
  assert (w_blobs w !! (w_next w + 1) = None) as Hfb.
  { apply eq_None_not_Some. intros H%(ci_blobs _ _ Hi). cbn in H. lia. }
  eexists. split; [exact Eit|]. set (w' := w_set_reqs h _).
  assert (elems (w_queue w') = us) as He' by exact Heq.
  assert (w_blobs w ⊆ w_blobs w') as Hsub by (by apply add_blob_subseteq).
  assert (w_next w <= w_next w') as Hnx by (cbn; destruct d; lia).
  split.
  2:{ unfold work. cbn [fst snd]. rewrite He, He'. cbn. lia. }
  constructor; cbn [fst snd]; try apply Hi; try done.
  - destruct (ci_sess _ _ Hi) as [H1 H2 H3]. constructor; [done..|].
    intros x Hx%Hfx%H3. cbn [fst] in Hx. lia.
  - exists mem. split; [apply lookup_insert_eq|done].
  - intros x Hx. enough (x < w_next w) by lia. destruct (decide (x = u)) as [->|Hne].
    + apply (ci_uks _ _ Hi). exists k. apply Hqd.
    + apply (ci_uks _ _ Hi). revert Hx. cbn. by rewrite lookup_insert_ne.
  - intros p Hp. apply add_blob_dom in Hp as [[-> [? ->]]|Hp%(ci_blobs _ _ Hi)]; [cbn; lia|].
    cbn [fst] in Hp. lia.
  - by rewrite He'.
  - rewrite He'. intros x Hx. apply (ci_queued _ _ Hi). cbn. rewrite He. set_solver.
  - pose proof (ci_threads _ _ Hi) as Hts. cbn [fst snd] in Hts. rewrite Forall_forall in *.
    intros x Hx. pose proof (Hts x Hx) as (Htd & Hn & Hg). split_and!.
    + intros c' Hc'. by eapply call_ok_mono, Htd.
    + intros c' u' E'. destruct (Hn _ _ E') as [Hc' (k' & Hk' & Hin' & Hp')].
      split; [by eapply call_ok_mono|]. destruct (decide (u' = u)) as [->|Hne].
      * assert (c' = c) as -> by (eapply (waiting_inj ts x t); try done; apply Hi).
        destruct (answered_ok (w_blobs w') (w_next w + 1) c k e d n Er) as (Hr & Hs' & Hi').
        { intros bb Hbb. by apply add_blob_new. }
        { done. }
        eexists. split_and!; [apply lookup_insert_eq|by rewrite Hi'|]. right. by rewrite He'.
      * exists k'. split_and!; [by etrans; [apply lookup_insert_ne|]|done|].
        rewrite He in Hp'. rewrite He'. destruct Hp' as [(H & ?)|(H & ? & ?)].
        -- left. split; [|done]. set_solver.
        -- right. split_and!; [set_solver|by eapply result_ok_mono|done].
    + intros c' k' Hc'. by eapply result_ok_mono, Hg.
Qed.

(** *** The system *)

(** What a thread does is either possible or waits for the daemon. *)
Lemma thread_runs l w ts1 t ts2 m :
  cinv l (w, ts1 ++ t :: ts2) -> thread_next t = Some m ->
  (m w = Fault Deadlock /\ elems (w_queue w) <> []) \/
  exists t' w', m w = Ok t' w' /\ cinv l (w', ts1 ++ t' :: ts2) /\
    work (w, ts1 ++ t :: ts2) = Datatypes.S (work (w', ts1 ++ t' :: ts2)).
Proof.
  intros Hi. unfold thread_next. destruct (th_now t) as [[c u]|] eqn:En.
  - intros [= <-]. pose proof (ci_threads _ _ Hi) as Hts. cbn [fst snd] in Hts.
    apply Forall_app in Hts as [_ [(_ & Hn & _) _]%Forall_cons].
    destruct (Hn _ _ En) as [_ (k & Hk & _ & [(Hu & _ & _ & Hs)|(Hu & Hr & Hs)])].
    + left. split; [|intros H; rewrite H in Hu; by apply elem_of_nil in Hu].
      by eapply bind_fault, wake_blocks.
    + right. destruct (wake_ok l w ts1 t ts2 c u k Hi En Hk Hu Hr Hs) as (k' & w' & E & Hi' & Hw).
      eexists _, w'. split; [by mstep by (exact E)|done].
  - destruct (th_todo t) as [|c cs] eqn:Et; [done|]. intros [= <-]. right.
    destruct (enqueue_ok l w ts1 t ts2 c cs Hi En Et) as (w' & E & Hi' & Hw).
    eexists _, w'. split; [by mstep by (exact E)|done].
Qed.

Lemma cstep_inv l s s' :
  (forall n, alloc_ok n = true) -> cinv l s -> cstep s s' -> cinv l s' /\ work s = Datatypes.S (work s').
Proof.
  intros Hmem Hi Hst. revert Hi. destruct Hst as [w ts1 t ts2 m t' w' Em E|w ts w' E]; intros Hi.
  - destruct (thread_runs _ _ _ _ _ _ Hi Em) as [[E' _]|(t2 & w2 & E' & H)]; rewrite E' in E; [done|].
    injection E as <- <-. done.
  - pose proof (daemon_ok l w ts Hmem Hi) as H. destruct (elems _); [by rewrite E in H|].
    destruct H as (w2 & E' & H). rewrite E' in E. injection E as <-. done.
Qed.

Lemma cinv_not_wrong l s : (forall n, alloc_ok n = true) -> cinv l s -> ~ goes_wrong s.
Proof.
  intros Hmem Hi (e & He & H). destruct s as [w ts]. cbn in H. destruct H as [H|(t & m & Ht & Em & H)].
  - pose proof (daemon_ok l w ts Hmem Hi) as Hd. destruct (elems _); [congruence|].
    destruct Hd as (? & ? & _). congruence.
  - apply list_elem_of_split in Ht as (ts1 & ts2 & ->).
    destruct (thread_runs _ _ _ _ _ _ Hi Em) as [[E _]|(? & ? & E & _)]; congruence.
Qed.

Lemma cinv_progress l s :
  (forall n, alloc_ok n = true) -> cinv l s -> (0 < work s)%nat -> exists s', cstep s s'.
Proof.
  intros Hmem Hi Hw. destruct s as [w ts].
  pose proof (daemon_ok l w ts Hmem Hi) as Hd. destruct (elems (w_queue w)) eqn:He.
  2:{ destruct Hd as (w' & E & _). eexists. by apply daemon_step. }
  assert (exists t, t ∈ ts /\ (0 < thread_work t)%nat) as (t & Ht & Htw).
  { unfold work in Hw. cbn [fst snd] in Hw. rewrite He in Hw. cbn [length] in Hw. clear -Hw.
    induction ts as [|t ts IH]; cbn [sum_list_with] in Hw; [lia|]. destruct (thread_work t) eqn:E.
    - destruct IH as (t' & Ht' & ?); [lia|]. exists t'. split; [set_solver|done].
    - exists t. split; [set_solver|lia]. }
  apply list_elem_of_split in Ht as (ts1 & ts2 & ->).
  assert (exists m, thread_next t = Some m) as (m & Em).
  { unfold thread_work in Htw. unfold thread_next. destruct (th_now t) as [[? ?]|]; [eauto|].
    destruct (th_todo t); [cbn in Htw; lia|eauto]. }
  destruct (thread_runs _ _ _ _ _ _ Hi Em) as [[_ H]|(t' & w' & E & _)]; [done|].
  eexists. by eapply client_step.
Qed.

Lemma cinv_init l w css :
  sys_ok b l w -> Forall (Forall (call_ok (w_blobs w))) css -> cinv l (w, map new_thread css).
Proof.
  intros Hs Hc. assert (waiting (map new_thread css) = []) as Hwt.
  { clear Hc. induction css as [|cs css IH]; [done|]. exact IH. }
  constructor; cbn [fst snd]; try apply Hs.
  - rewrite Hwt. apply NoDup_nil_2.
  - rewrite (sy_empty _ _ _ Hs). apply NoDup_nil_2.
  - rewrite (sy_empty _ _ _ Hs). by intros u Hu%elem_of_nil.
  - apply Forall_forall. intros t (cs & -> & Hcs)%list_elem_of_fmap.
    rewrite Forall_forall in Hc. specialize (Hc cs Hcs). rewrite Forall_forall in Hc.
    split_and!; [done|done|]. intros c k Hk%elem_of_nil. done.
Qed.

(** The calls of a thread, in the order it makes them. *)
Definition history (t : thread) : list call :=
  map fst (th_got t) ++ (match th_now t with Some (c, _) => [c] | None => [] end) ++ th_todo t.

Lemma cstep_history s s' : cstep s s' -> map history s'.2 = map history s.2.
Proof.
  intros [w ts1 t ts2 m t' w' Em E|]; [|done]. cbn [snd]. rewrite !map_app. f_equal. cbn [map]. f_equal.
  unfold thread_next in Em. unfold history. destruct (th_now t) as [[c u]|].
  - injection Em as <-. apply bind_inv in E as (k & w1 & _ & [= <- <-]). cbn.
    by rewrite map_app, <- app_assoc.
  - destruct (th_todo t); [done|]. injection Em as <-. apply bind_inv in E as (u & w1 & _ & [= <- <-]).
    by cbn.
Qed.

Lemma cstep_run l s s' n :
  (forall n, alloc_ok n = true) -> cinv l s -> nsteps cstep n s s' ->
  cinv l s' /\ work s = (n + work s')%nat /\ map history s'.2 = map history s.2.
Proof.
  intros Hmem Hi Hr. revert Hi. induction Hr as [s|n s1 s2 s3 Hst _ IH]; intros Hi; [done|].
  destruct (cstep_inv _ _ _ Hmem Hi Hst) as [Hi2 Hw]. destruct (IH Hi2) as (Hi3 & Hw3 & Hh).
  split_and!; [done|lia|]. by rewrite Hh, (cstep_history _ _ Hst).
Qed.

Lemma work_init w css :
  elems (w_queue w) = [] -> work (w, map new_thread css) = (3 * sum_list_with length css)%nat.
Proof.
  intros He. unfold work. cbn [fst snd]. rewrite He. cbn [length]. induction css as [|cs css IH]; [done|].
  cbn [map sum_list_with]. unfold thread_work at 1. cbn [th_todo th_now new_thread]. lia.
Qed.

Lemma no_work s : work s = 0%nat -> Forall finished s.2.
Proof.
  unfold work. intros H. assert (sum_list_with thread_work s.2 = 0)%nat as Hs by lia. clear H.
  induction s.2 as [|t ts IH]; [constructor|]. cbn [sum_list_with] in Hs. constructor; [|apply IH; lia].
  unfold thread_work in Hs. split; [by destruct (th_now t); [lia|]|by destruct (th_todo t); [|cbn in Hs; lia]].
Qed.

(** There is a run to the end. *)
Lemma run_exists l s :
  (forall n, alloc_ok n = true) -> cinv l s -> exists s', nsteps cstep (work s) s s'.
Proof.
  intros Hmem. remember (work s) as n eqn:Hn. revert s Hn. induction n as [|n IH]; intros s Hn Hi.
  - exists s. constructor.
  - destruct (cinv_progress l s Hmem Hi) as (s1 & Hst); [lia|].
    destruct (cstep_inv _ _ _ Hmem Hi Hst) as [Hi1 Hw1]. destruct (IH s1) as (s' & Hr); [lia|done|].
    exists s'. by econstructor.
Qed.

(** C3. However the steps of the threads and of the daemon are interleaved,
    nobody runs into undefined behaviour or a failed assertion; every thread gets
    for each of its requests, in the order it made them, exactly the answer the
    server gives to that request; as long as a request is not finished somebody
    can run, and after three steps per request everybody has finished. *)
Theorem clients_served l w css n s :
  (forall i, alloc_ok i = true) -> sys_ok b l w -> Forall (Forall (call_ok (w_blobs w))) css ->
  nsteps cstep n (w, map new_thread css) s ->
  let total := (3 * sum_list_with length css)%nat in
  ~ goes_wrong s /\
  (n <= total)%nat /\
  ((n < total)%nat -> exists s', cstep s s') /\
  (n = total -> Forall finished s.2) /\
  map history s.2 = css /\
  Forall (fun t => forall c k, (c, k) ∈ th_got t -> result_ok (w_blobs s.1) c k) s.2.
Proof.
  intros Hmem Hs Hc Hr total. pose proof (cinv_init l w css Hs Hc) as Hi.
  destruct (cstep_run _ _ _ _ Hmem Hi Hr) as (Hi' & Hw & Hh).
  rewrite work_init in Hw by apply Hs. fold total in Hw. split_and!.
  - by eapply cinv_not_wrong.
  - lia.
  - intros Hlt. eapply cinv_progress; [done..|lia].
  - intros ->. apply no_work. lia.
  - rewrite Hh. cbn [snd]. clear. induction css as [|cs css IH]; [done|]. cbn [map]. by rewrite IH.
  - eapply Forall_impl; [apply Hi'|]. intros t (_ & _ & Hg). exact Hg.
Qed.

End threads.
Arguments thread {P}.
Arguments call : clear implicits.

(** ** Two threads *)

Definition two_threads : list (list call) :=
  [[{| c_in := In_getattr 1; c_name := [] |}; {| c_in := In_getattr 7; c_name := [] |}];
   [{| c_in := In_open 2 0; c_name := [] |}]].

Lemma two_threads_ok :
  Forall (Forall (call_ok (P := good) (PS := good_spec) (S := hello_server) (w_blobs good_world))) two_threads.
Proof. repeat constructor; cbn; unfold is_u; lia. Qed.

Lemma clients_served_witness : exists s : @world good * list thread,
  nsteps (cstep (P := good) (S := hello_server) DAEMON_BUF) 9 (good_world, map new_thread two_threads) s /\
  Forall finished s.2 /\ map history s.2 = two_threads.
Proof.
  assert (sys_ok (P := good) (PS := good_spec) DAEMON_BUF [] good_world) as Hs by exact (booted_ok (P := good) []).
  destruct (run_exists (P := good) (PS := good_spec) (S := hello_server) DAEMON_BUF [] (good_world, map new_thread two_threads))
    as (s & Hr); [done|by apply cinv_init, two_threads_ok|].
  rewrite work_init in Hr by apply Hs. exists s. split; [exact Hr|].
  destruct (clients_served (P := good) (PS := good_spec) (S := hello_server) DAEMON_BUF [] good_world two_threads 9 s (fun _ => eq_refl) Hs
    two_threads_ok Hr) as (_ & _ & _ & Hf & Hh & _).
  split; [by apply Hf|exact Hh].
Defined.
