(* ===== verification/EndToEnd.v ===== *)
(** * The whole stack

    Theorems about file operations as the virtual file system sees them, for
    every platform and for every server that keeps the [FileServer] interface,
    and their instances for the example server. *)

From S2P Require Import Prelude Wire Platform KernelAbi LinkedList World Monad Buffer Request.
From S2P Require Import Reply Server Handlers Interrupt Notify Init Session Queue Dirent.
From S2P Require Import Daemon UkFs System FileOps Boot Examples HelloLl HelloSpec.

(** ** Runs of the system *)

Section runs.
Context {P : Platform} {PS : PlatformSpec P} {S : Server} {F : FileServer S} (b : Z).
Implicit Types (w : world) (l : list Z).




End runs.

(** ** The state after start-up on the platform where every allocation succeeds *)

Lemma good_memory (w : @world good) : memory_ok w.
Proof. by intros i _. Qed.
Lemma good_memory_for (w : @world good) inp : memory_for w inp.
Proof. by intros i _. Qed.
Lemma good_resources : @boot_resources good.
Proof. done. Qed.


Section theorems.
Context {P : Platform} {PS : PlatformSpec P} {S : Server} {F : FileServer S}.

End theorems.

Section operations.
Context {P : Platform} {PS : PlatformSpec P} {S : Server} {F : FileServer S} (b : Z).
#[local] Instance e2e_sched : Scheduler := daemon_scheduler b.
Implicit Types (w : world) (l : list Z).

(** C4. [fusefs_getstat] returns the server's attributes, the negated error
    number of the server, or [-ENOMEM] when there is no memory for the answer;
    a server that reports "no error" without data is [-EIO].  The request and
    the answer are gone afterwards. *)
Theorem getstat_refines_server l w f ff :
  sys_ok b l w -> w_files w !! f = Some ff -> is_u 64 (ff_nodeid ff) ->
  memory_for w (In_getattr (ff_nodeid ff)) ->
  exists w', fusefs_getstat f w =
    Ok (match fs_getattr (ff_nodeid ff) with
        | inl err => (if truth err then - err else - EIO, None)
        | inr st => if alloc_ok (result_alloc w (In_getattr (ff_nodeid ff))) then (0, Some (statx_of st))
                    else (- ENOMEM, None)
        end) w' /\
    quiet b l w w' /\ w_files w' = w_files w.
Proof. apply fusefs_getstat_run. Qed.

(** C5. Reading a file nobody has opened asks the server to open it first.  An
    error of the open is the result of the read; otherwise the server's data,
    or its error, is what the read returns, the data spread over the caller's
    buffers in order, and the handle the server chose is kept in the file. *)
Theorem first_read_opens_then_reads l w f ff iov off :
  sys_ok b l w -> w_files w !! f = Some ff -> is_u 64 (ff_nodeid ff) -> ff_fh ff = FH_NONE ->
  buffers_ok iov -> 0 < iov_sum iov < 2 ^ 64 -> is_u 63 off -> memory_ok w ->
  exists res w', fusefs_read f iov off w = Ok res w' /\ quiet b l w w' /\
    match fs_open (ff_nodeid ff) 0 with
    | inl err => res = (if truth err then - err else - EIO, []) /\ w_files w' = w_files w
    | inr o =>
        w_files w' = <[f := ff_set_fh (open_out_fh o) ff]> (w_files w) /\
        match fs_read (ff_nodeid ff) (open_out_fh o) off (u32 (iov_sum iov)) with
        | inl err => res = (- err, [])
        | inr bs => fst res = blen bs /\ concat (snd res) = bs /\
                    Forall2 (fun c len => blen c <= len) (snd res) (take (length (snd res)) iov)
        end
    end.
Proof. apply fusefs_read_first_run. Qed.


(** C7. [fusefs_listdir] at a cursor of the directory returns the entry there
    as a record with its node, type, name (NUL-padded) and the cursor of the
    next entry; [-EINVAL] when the record does not fit the caller's buffer, 0
    at the end of the directory, and the server's error otherwise. *)
Theorem listdir_refines_server l w f ff cur len :
  sys_ok b l w -> w_files w !! f = Some ff -> is_u 64 (ff_nodeid ff) -> is_u 63 cur ->
  fs_cursor (ff_nodeid ff) cur = true -> memory_ok w ->
  exists res w', fusefs_listdir f cur len w = Ok res w' /\ quiet b l w w' /\ w_files w' = w_files w /\
    match fs_readdir (ff_nodeid ff) 0 cur LISTDIR_SIZE with
    | inl err => res = (- err, None)
    | inr [] => res = (0, None)
    | inr bs =>
        match first_dirent bs with
        | Some (fd, name) =>
            let reclen := UKFS_DIRENT_RECLEN (blen name) in
            res = if len <? reclen then (- EINVAL, None)
                  else (reclen, Some (record_of fd name, dirent_off fd))
        | None => False
        end
    end.
Proof.
  intros Hs Hf Hi Hcur Hc Hm.
  destruct (fusefs_listdir_run b l w f ff cur len) as (res & w' & E & Hq & Hfi & Hr);
    [done..|by apply memory_ok_for|].
  exists res, w'. split_and!; [done..|]. unfold listdir_returns in Hr.
  rewrite (Hm (result_alloc w _)) in Hr by (unfold result_alloc; lia). done.
Qed.

(** A request is answered exactly once: it returns with the server's
    answer, its semaphore is consumed, its storage is gone, and the only thing
    left of it is the block that holds the answer, at an address not in use
    before. *)
Lemma request_answered_once l w inp name :
  sys_ok b l w -> inp_ok inp -> names (w_blobs w) inp name -> memory_for w inp ->
  exists k w', submit (opcode_of inp) inp w = Ok k w' /\ sys_ok b l w' /\
    w_uks w' = w_uks w /\ w_files w' = w_files w /\ w_trace w' = w_trace w /\
    let '(e, d, n) := result_of (request_answer inp name) (alloc_ok (result_alloc w inp)) in
    uq_error k = e /\ uq_reply_len k = n /\
    match d with
    | None => uq_reply_data k = None /\ w_blobs w' = w_blobs w
    | Some bl => exists p, uq_reply_data k = Some p /\ w_blobs w !! p = None /\
                   w_blobs w' = <[p := bl]> (w_blobs w)
    end.
Proof.
  intros Hs Hi Hn Hm. pose proof (submit_run b l w inp name Hs Hi Hn Hm) as H. cbv zeta in H.
  destruct (result_of _ _) as [[e d] n].
  destruct H as (k & w' & E & He & Hd & Hl & [R1 R2 R3 R4 R5 R6 R7 R8 R9]).
  exists k, w'. split_and!; try done. destruct d as [bl|]; cbn in *; [|done].
  exists (w_next w + 2). done.
Qed.

(** C38. When the library has no memory for its request object, the client of
    the UKFS request is never woken up. *)
Theorem client_blocks_without_memory l w inp name :
  sys_ok b l w -> inp_ok inp -> names (w_blobs w) inp name -> alloc_ok (w_nalloc w) = false ->
  submit (opcode_of inp) inp w = Fault Deadlock.
Proof. apply submit_nomem. Qed.

(** C39. A path component of 8152 bytes or more makes the daemon write behind
    the end of its message buffer. *)
Theorem long_name_overruns_buffer l w f ff path len s :
  sys_ok b l w -> w_files w !! f = Some ff -> is_u 64 (ff_nodeid ff) ->
  is_special path len = false -> strndup_bytes path (Z.to_nat len) = Some s -> 8152 <= blen s ->
  alloc_ok (w_nalloc w) = true ->
  fusefs_lookup f path len w = Fault OutOfBounds.
Proof.
  intros Hs Hf Hi Hsp Hdup Hlen Ha. unfold is_special in Hsp. apply orb_false_iff in Hsp as [H1 H2].
  unfold fusefs_lookup. mstep by (by apply get_file_run). rewrite H1, H2.
  mstep by (by apply strndup_run). apply bind_fault.
  assert (cstr (s ++ [0]) = Some s) as Hc by (by eapply cstr_app, strndup_bytes_nonul).
  assert (w_blobs (with_name s w) !! w_next w = Some (B_bytes (s ++ [0]))) as Hn by apply lookup_insert_eq.
  pose proof (submit_long_name b l (with_name s w) (ff_nodeid ff) (w_next w) (s ++ [0]) s
    (with_name_ok b l s w Hs) Hi Hn Hc Hlen) as H.
  exact H.
Qed.
End operations.

(** ** Opening a file by its name *)

Section by_name.
Context {P : Platform} {PS : PlatformSpec P} {S : Server} {F : FileServer S}.
#[local] Instance name_sched : Scheduler := daemon_scheduler DAEMON_BUF.

(** Looking up a file from the root directory. *)
Definition open_name (name : bytes) : M (option Z) :=
  res ← fusefs_lookup ROOT_FILE name (blen name);
  mret (lk_target res).

(** After start-up, a file the server knows and lets open is read. *)
Lemma named_read io name e o iov off :
  boot_resources -> memory_ok (booted_world io) ->
  is_special name (blen name) = false -> strndup_bytes name (Z.to_nat (blen name)) = Some name ->
  blen name < 8152 -> fs_lookup 1 name = inr e -> fs_open (e_ino e) 0 = inr o ->
  buffers_ok iov -> 0 < iov_sum iov < 2 ^ 32 -> is_u 63 off ->
  exists c res w1 w2,
    open_name name (booted_world io) = Ok (Some c) w1 /\ fusefs_read c iov off w1 = Ok res w2 /\
    match fs_read (e_ino e) (open_out_fh o) off (iov_sum iov) with
    | inl err => res = (- err, [])
    | inr bs => concat (snd res) = bs /\ fst res = blen bs
    end.
Proof.
  intros Hb Hm Hsp Hdup Hlen He Ho Hiov Hsum Hoff.
  destruct (fusefs_lookup_run DAEMON_BUF [] (booted_world io) ROOT_FILE root_file name (blen name) name)
    as (res & w1 & E1 & Hq1 & Hr1); [by apply booted_ok|apply lookup_singleton_eq|done|done|done|done|
     by apply Hm; cbn|by intros i _; apply Hm; cbn; lia|].
  unfold lookup_returns, lookup_data in Hr1. change (ff_nodeid root_file) with 1 in Hr1. rewrite He in Hr1.
  rewrite !Hm in Hr1 by (unfold result_alloc; cbn; lia).
  destruct Hr1 as (c & Hc & -> & Hfi1).
  set (ff := child_of root_file e) in *.
  assert (w_files w1 !! c = Some ff) as Hf1 by (rewrite Hfi1; apply lookup_insert_eq).
  pose proof (quiet_memory _ _ _ _ Hq1 Hm) as Hm1.
  destruct (fusefs_read_first_run DAEMON_BUF [] w1 c ff iov off)
    as (res & w2 & E2 & Hq2 & Hr2); try done; [apply Hq1|by apply (fs_lookup_ino 1 name)|lia|].
  change (ff_nodeid ff) with (e_ino e) in Hr2. rewrite Ho in Hr2. destruct Hr2 as [_ Hr2].
  assert (u32 (iov_sum iov) = iov_sum iov) as Hu by (apply wrapu_id; unfold is_u; lia).
  rewrite Hu in Hr2.
  exists c, res, w1, w2. split_and!; [unfold open_name; by mstep by (exact E1)|done|].
  destruct (fs_read _ _ _ _) as [err|bs]; [done|]. by destruct Hr2 as (-> & -> & _).
Qed.
End by_name.

(** ** The example server *)

Section hello.
Context {P : Platform} {PS : PlatformSpec P}.
#[local] Instance hello_sched : Scheduler := daemon_scheduler DAEMON_BUF.

(** [n] steps of a listing: the records, from cursor [cur]. *)
Fixpoint list_dir (n : nat) (f cur : Z) : M (list (Z * bytes)) :=
  match n with
  | O => mret []
  | Datatypes.S n =>
      res ← fusefs_listdir f cur 4096;
      match snd res with
      | Some (rec, next) => rest ← list_dir n f next; mret ((d_ino rec, d_name rec) :: rest)
      | None => mret []
      end
  end.

(** With the example server, looking up "hello" and reading from offset
    [off] delivers the bytes of "Hello World!\n" from there on, as many as the
    buffers hold, for every way to split the buffers. *)
Theorem hello_world io iov off :
  boot_resources -> memory_ok (booted_world io) ->
  buffers_ok iov -> 0 < iov_sum iov < 2 ^ 32 -> is_u 63 off ->
  exists c res w1 w2,
    open_name hello_name (booted_world io) = Ok (Some c) w1 /\
    fusefs_read c iov off w1 = Ok res w2 /\
    concat (snd res) = slice off (Z.min (iov_sum iov) (blen hello_str - off)) hello_str /\
    fst res = blen (concat (snd res)).
Proof.
  intros Hb Hm Hiov Hsum Hoff.
  destruct (named_read io hello_name hello_entry open_out_zero iov off)
    as (c & res & w1 & w2 & E1 & E2 & Hcat & Hlen); [done..|].
  exists c, res, w1, w2. split_and!; [done|done|exact Hcat|by rewrite Hcat].
Qed.

(** One step of the listing. *)
Lemma list_step w cur n e next rest :
  sys_ok DAEMON_BUF [] w -> w_files w !! ROOT_FILE = Some root_file -> memory_ok w ->
  is_u 63 cur -> hello_cursor 1 cur = true -> (forall n, 0 <= n <= 5 -> UKFS_DIRENT_RECLEN n <= 4096) ->
  window hello_dir cur LISTDIR_SIZE = direntry n (ino_stat e) next ++ rest ->
  blen n <= 5 -> is_u 64 e -> is_u 64 next ->
  exists pad w', (0 < pad)%nat /\ sys_ok DAEMON_BUF [] w' /\ w_files w' = w_files w /\ memory_ok w' /\
    forall k, list_dir (Datatypes.S k) ROOT_FILE cur w =
      (l ← list_dir k ROOT_FILE next; mret ((e, n ++ repeat 0 pad) :: l)) w'.
Proof.
  intros Hs Hf Hm Hcur Hc Hrl Hw Hn He Hne.
  destruct (fusefs_listdir_run DAEMON_BUF [] w ROOT_FILE root_file cur 4096) as (res & w' & E & Hq & Hfi & Hr);
    [done..|by apply memory_ok_for|].
  assert (name_ok n) as Hok by (unfold name_ok; lia).
  unfold listdir_returns in Hr. change (ff_nodeid root_file) with 1 in Hr.
  cbn [fs_readdir hello_file_server] in Hr. change (hello_readdir_result 1 cur LISTDIR_SIZE) with
    (inr (A := Z) (window hello_dir cur LISTDIR_SIZE)) in Hr.
  rewrite (Hm (result_alloc w _)) in Hr by (unfold result_alloc; lia).
  pose proof (first_dirent_direntry n (ino_stat e) next rest Hok) as Hfd. rewrite <- Hw in Hfd.
  pose proof (blen_direntry n (ino_stat e) next Hok) as Hbl.
  pose proof (dirent_size_bounds n Hok) as Hsz. change FUSE_NAME_OFFSET with 24 in Hsz.
  pose proof (reclen_room (blen n)) as Hroom.
  destruct (window hello_dir cur LISTDIR_SIZE) as [|c bs] eqn:Ew; [destruct (direntry n (ino_stat e) next); [cbn in Hbl; unfold blen in *; cbn in *; lia|done]|].
  rewrite Hfd in Hr. cbv zeta in Hr.
  rewrite (proj2 (Z.ltb_ge _ _)) in Hr by (apply Hrl; unfold blen in *; lia).
  set (reclen := UKFS_DIRENT_RECLEN (blen n)) in *.
  exists (Z.to_nat (reclen - UKFS_DIRENT_NAME_OFF - blen n)), w'. split_and!; [| |done| |].
  - unfold blen in *. lia.
  - apply Hq.
  - by eapply quiet_memory.
  - intros k. cbn [list_dir]. mstep by (exact E). rewrite Hr. cbn [snd].
    cbn [record_of d_ino d_name dirent_head dirent_ino dirent_off st_ino ino_stat].
    by rewrite (wrapu_id 64 e He : u64 e = e), (wrapu_id 64 next Hne : u64 next = next).
Qed.

(** Listing the root directory of the example server from cursor 0 yields
    exactly ".", ".." and "hello", each with its node number, and ends. *)
Theorem hello_directory io :
  boot_resources -> memory_ok (booted_world io) ->
  (forall n, 0 <= n <= 5 -> UKFS_DIRENT_RECLEN n <= 4096) ->
  exists l w, list_dir 4 ROOT_FILE 0 (booted_world io) = Ok l w /\
    map fst l = [1; 1; 2] /\
    map (fun '(_, n) => cstr n) l = [Some (str "."%string); Some (str ".."%string); Some hello_name].
Proof.
  intros Hb Hm Hrl. pose proof (booted_ok io) as Hs0.
  destruct (list_step (booted_world io) 0 (str "."%string) 1 32 (dir_bytes (drop 1 hello_entries)))
    as (p1 & w1 & Hp1 & Hs1 & Hf1 & Hm1 & E1); try done.
  destruct (list_step w1 32 (str ".."%string) 1 64 (dir_bytes (drop 2 hello_entries)))
    as (p2 & w2 & Hp2 & Hs2 & Hf2 & Hm2 & E2); try done; [by rewrite Hf1|].
  destruct (list_step w2 64 hello_name 2 96 [])
    as (p3 & w3 & Hp3 & Hs3 & Hf3 & Hm3 & E3); try done; [by rewrite Hf2, Hf1|].
  destruct (fusefs_listdir_run DAEMON_BUF [] w3 ROOT_FILE root_file 96 4096) as (res & w4 & E4 & _ & _ & Hr);
    try done; [by rewrite Hf3, Hf2, Hf1|by apply memory_ok_for|].
  eexists _, w4. split_and!.
  - rewrite E1. mstep by (rewrite E2; mstep by (rewrite E3; mstep by (cbn [list_dir];
      mstep by (exact E4); vm_compute in Hr; rewrite Hr; done); done); done). done.
  - done.
  - cbn [map]. destruct p1, p2, p3; try lia. done.
Qed.
End hello.

(** ** The theorems at concrete states *)


Lemma getstat_refines_server_witness : exists w',
  @fusefs_getstat good (daemon_scheduler DAEMON_BUF) ROOT_FILE good_world =
  Ok (0, Some {| stx_mask := 774; stx_mode := 16877; stx_size := 0; stx_ino := 1; stx_nlink := 2;
                 stx_uid := 0; stx_gid := 0 |}) w'.
Proof.
  destruct (@getstat_refines_server good good_spec hello_server hello_file_server DAEMON_BUF [] good_world
    ROOT_FILE root_file) as (w' & E & _).
  - apply booted_ok.
  - reflexivity.
  - by vm_compute.
  - apply good_memory_for.
  - exists w'. exact E.
Defined.

(** A file with the node of "hello" in place of the root file. *)
Definition hello_file_world : @world good :=
  w_set_files {[ROOT_FILE := Build_fusefs_file 2 FH_NONE None 0 fusefs_fs_ops]} good_world.

Lemma hello_file_world_ok : sys_ok DAEMON_BUF [] hello_file_world.
Proof.
  apply sys_ok_files; [apply booted_ok|]. intros x [y [<- _]%lookup_singleton_Some]. by vm_compute.
Qed.

Lemma first_read_opens_then_reads_witness : exists res w',
  @fusefs_read good (daemon_scheduler DAEMON_BUF) ROOT_FILE [4; 100] 6 hello_file_world =
  Ok res w' /\ concat (snd res) = str "World!"%string ++ [10].
Proof.
  destruct (@first_read_opens_then_reads good good_spec hello_server hello_file_server DAEMON_BUF []
    hello_file_world ROOT_FILE (Build_fusefs_file 2 FH_NONE None 0 fusefs_fs_ops) [4; 100] 6)
    as (res & w' & E & _ & _ & _ & Hcat & _).
  - apply hello_file_world_ok.
  - reflexivity.
  - by vm_compute.
  - reflexivity.
  - by repeat constructor.
  - by vm_compute.
  - by vm_compute.
  - apply good_memory.
  - exists res, w'. split; [exact E|]. rewrite Hcat. reflexivity.
Defined.


Lemma listdir_refines_server_witness : exists res w',
  @fusefs_listdir good (daemon_scheduler DAEMON_BUF) ROOT_FILE 64 4096 good_world =
  Ok res w' /\ (fun '(rec, next) => (d_ino rec, cstr (d_name rec), next)) <$> snd res =
               Some (2, Some hello_name, 96).
Proof.
  destruct (@listdir_refines_server good good_spec hello_server hello_file_server DAEMON_BUF [] good_world
    ROOT_FILE root_file 64 4096) as (res & w' & E & _ & _ & H).
  - apply booted_ok.
  - reflexivity.
  - by vm_compute.
  - by vm_compute.
  - reflexivity.
  - apply good_memory.
  - exists res, w'. split; [exact E|]. vm_compute in H. rewrite H. reflexivity.
Defined.

Lemma request_answered_once_witness : exists k w',
  @submit good (daemon_scheduler DAEMON_BUF) FUSE_UKFS_GETATTR (In_getattr 3) good_world =
  Ok k w' /\ uq_error k = - ENOENT /\ w_uks w' = ∅.
Proof.
  destruct (@request_answered_once good good_spec hello_server hello_file_server DAEMON_BUF [] good_world
    (In_getattr 3) []) as (k & w' & E & _ & Hu & _ & _ & He & _).
  - apply booted_ok.
  - by vm_compute.
  - exact I.
  - apply good_memory_for.
  - exists k, w'. split; [exact E|]. split; [exact He|exact Hu].
Defined.

(** A platform on which the first allocation after start-up fails. *)
Definition scarce : Platform := ref_platform (fun n => Nat.eqb n 4).
#[export] Instance scarce_spec : PlatformSpec scarce := ref_platform_spec (fun n => Nat.eqb n 4).
Definition scarce_world : @world scarce := @booted_world scarce (@nil Z).

Lemma client_blocks_without_memory_witness :
  @submit scarce (daemon_scheduler DAEMON_BUF) FUSE_UKFS_GETATTR (In_getattr 1) scarce_world =
  Fault Deadlock.
Proof.
  apply (@client_blocks_without_memory scarce scarce_spec hello_server hello_file_server DAEMON_BUF []
    scarce_world (In_getattr 1) []).
  - apply booted_ok.
  - by vm_compute.
  - exact I.
  - reflexivity.
Defined.

Definition long_name : bytes := repeat 97 (Z.to_nat 8152).

Lemma long_name_overruns_buffer_witness :
  @fusefs_lookup good (daemon_scheduler DAEMON_BUF) ROOT_FILE long_name 8152 good_world =
  Fault OutOfBounds.
Proof.
  apply (@long_name_overruns_buffer good good_spec hello_server DAEMON_BUF [] good_world
    ROOT_FILE root_file long_name 8152 long_name).
  - apply booted_ok.
  - reflexivity.
  - by vm_compute.
  - reflexivity.
  - by vm_compute.
  - by vm_compute.
  - reflexivity.
Defined.

Lemma hello_world_witness : exists c res w1 w2,
  open_name hello_name good_world = Ok (Some c) w1 /\
  @fusefs_read good (daemon_scheduler DAEMON_BUF) c [5; 5; 5] 0 w1 = Ok res w2 /\
  concat (snd res) = hello_str.
Proof.
  destruct (@hello_world good good_spec [] [5; 5; 5] 0 good_resources (good_memory _))
    as (c & res & w1 & w2 & E1 & E2 & E3 & _).
  - by repeat constructor.
  - by vm_compute.
  - by vm_compute.
  - exists c, res, w1, w2. split; [exact E1|]. split; [exact E2|]. rewrite E3. reflexivity.
Defined.

Lemma hello_directory_witness : exists l w,
  list_dir 4 ROOT_FILE 0 good_world = Ok l w /\ map fst l = [1; 1; 2].
Proof.
  destruct (@hello_directory good good_spec [] good_resources (good_memory _)) as (l & w & E & H & _).
  - intros n Hn. cbn. apply Z.le_trans with (32 `div` 8 * 8); [|by vm_compute].
    apply Z.mul_le_mono_nonneg_r; [done|]. apply Z.div_le_mono; lia.
  - exists l, w. split; [exact E|exact H].
Defined.
