(* ===== verification/PerfSpec.v ===== *)
(** * The benchmark server keeps its promise

    The benchmark's [hello_ll.c] against the same interface as the example
    server, and its big file as the virtual file system sees it. *)

From S2P Require Import Prelude Wire Platform KernelAbi LinkedList World Monad Buffer Request.
From S2P Require Import Reply Server Handlers Init Dirent Daemon UkFs System FileOps Boot Examples.
From S2P Require Import HelloLl HelloSpec EndToEnd PerfLl.

Definition perf_entries : list (bytes * stat * Z) := hello_entries ++ [(bigfile_name, ino_stat 3, 128)].
Definition perf_dir : bytes := dir_bytes perf_entries.

(** The bytes [off] to [off + size] of a file of [n] letters A. *)
Definition letters (n off size : Z) : bytes := replicate (Z.to_nat (Z.min size (n - off))) 65.

Lemma blen_letters n off size : 0 <= size -> off <= n -> blen (letters n off size) = Z.min size (n - off).
Proof. intros. unfold letters, blen. rewrite length_replicate. lia. Qed.

(** The file itself, of which [letters] is a window. *)
Lemma letters_window n off size :
  0 <= off -> letters n off size = window (replicate (Z.to_nat n) 65) off size.
Proof.
  intros Ho. unfold letters, window, slice, blen. rewrite length_replicate.
  rewrite drop_replicate, take_replicate. f_equal. lia.
Qed.

Section perf_spec.
Context {P : Platform} {PS : PlatformSpec P}.
Implicit Types (w : world).

Lemma perf_dirbuf_run {A} (f : dirbuf -> M A) w :
  (forall i, (i < 4)%nat -> alloc_ok (w_nalloc w + i)%nat = true) ->
  (b ← dirbuf_add {| db_p := None; db_size := 0 |} (str "."%string) 1;
   b ← dirbuf_add b (str ".."%string) 1;
   b ← dirbuf_add b hello_name 2;
   b ← dirbuf_add b bigfile_name 3;
   f b) w = f (full perf_dir) (bump 4 w).
Proof.
  intros Ha. rewrite (hello_dirbuf_run (fun b => b ← dirbuf_add b bigfile_name 3; f b)) by (intros i Hi; apply Ha; lia).
  mstep by (apply dirbuf_add_run; [apply full_of|done|done|
    change (w_nalloc (bump 3 w)) with (3 + w_nalloc w)%nat; rewrite Nat.add_comm; apply Ha; lia]).
  done.
Qed.

(** ** Results *)

Definition perf_entry (ino : Z) : fuse_entry_param := {|
  e_ino := ino; e_generation := 0; e_attr := default stat_zero (hello_stat ino stat_zero);
  e_attr_timeout := one; e_entry_timeout := one |}.

Definition perf_lookup_result (parent : Z) (name : bytes) : Z + fuse_entry_param :=
  if negb (parent =? 1) then inl ENOENT
  else if bool_decide (name = hello_name) then inr (perf_entry 2)
  else if bool_decide (name = bigfile_name) then inr (perf_entry 3)
  else inl ENOENT.
Definition perf_getattr_result (ino : Z) : Z + stat :=
  match hello_stat ino stat_zero with None => inl ENOENT | Some st => inr st end.
Definition perf_open_result (ino flags : Z) : Z + fuse_open_out :=
  if ino =? 1 then inl EISDIR
  else if negb (Z.land flags O_ACCMODE =? O_RDONLY) then inl EACCES
  else inr open_out_zero.
Definition perf_read_result (ino off size : Z) : Z + bytes :=
  if ino =? 2 then inr (window hello_str off size)
  else if ino =? 3 then inr (letters BIGFILE_SIZE off size)
  else inl EISDIR.
Definition perf_readdir_result (ino off size : Z) : Z + bytes :=
  if negb (ino =? 1) then inl ENOTDIR else inr (window perf_dir off size).
Definition perf_cursor (ino off : Z) : bool :=
  negb (ino =? 1) || (off =? 0) || (off =? 32) || (off =? 64) || (off =? 96) || (off =? 128).

(** ** The operations *)

Lemma perf_lookup_answers parent name :
  answers (fun r => hello_ll_lookup r parent name) 0
    (err_or (fun e => A_obj (B_entry e) sizeof_entry_param sizeof_entry_param)
      (perf_lookup_result parent name)).
Proof.
  unfold perf_lookup_result, hello_ll_lookup.
  repeat case_match; first [apply reply_err_answers|apply reply_entry_answers].
Qed.

Lemma perf_getattr_answers ino :
  answers (fun r => hello_ll_getattr r ino None) 0
    (err_or (fun st => A_obj (B_stat st) sizeof_stat sizeof_stat) (perf_getattr_result ino)).
Proof.
  unfold perf_getattr_result, hello_ll_getattr.
  destruct (hello_stat ino stat_zero); [apply reply_attr_answers|apply reply_err_answers].
Qed.

Lemma perf_open_answers ino flags :
  answers (fun r => hello_ll_open r ino (fi_set_flags flags fi_zero)) 0
    (err_or (fun o => A_obj (B_open_out o) (sizeof fuse_open_out) 0) (perf_open_result ino flags)).
Proof.
  unfold perf_open_result, hello_ll_open. destruct (ino =? 1); [apply reply_err_answers|].
  cbn [fi_flags fi_set_flags fi_zero].
  destruct (Z.land flags O_ACCMODE =? O_RDONLY); [apply reply_open_answers|apply reply_err_answers].
Qed.

(** A read of the big file needs memory unless it starts behind its end. *)
Definition perf_read_allocs (ino off : Z) : nat :=
  if (ino =? 3) && (off <? BIGFILE_SIZE) then 1 else 0.

Lemma bigfile_read_run r size off fi w :
  0 <= off < BIGFILE_SIZE -> 0 <= size ->
  hello_ll_read r 3 size off fi w =
  (if alloc_ok (w_nalloc w)
   then (fuse_reply_buf r (Some (letters BIGFILE_SIZE off size)) (blen (letters BIGFILE_SIZE off size));; mret tt)
   else reply_err r ENOMEM) (bump 1 w).
Proof.
  intros Ho Hs. rewrite blen_letters by lia. unfold hello_ll_read. cbn [Z.eqb Pos.eqb].
  rewrite (proj2 (Z.leb_gt _ _)) by lia.
  assert (u64 (BIGFILE_SIZE - u64 off) = BIGFILE_SIZE - off) as ->.
  { unfold BIGFILE_SIZE in *. assert (u64 off = off) as -> by (apply wrapu_id; unfold is_u; lia).
    apply wrapu_id. unfold is_u. lia. }
  mstep by done. mstep by done. change (w_set_nalloc _ w) with (bump 1 w).
  assert ((if size <? BIGFILE_SIZE - off then size else BIGFILE_SIZE - off) =
          Z.min size (BIGFILE_SIZE - off)) as -> by (case_match; zify_bool; lia).
  by destruct (alloc_ok (w_nalloc w)).
Qed.

Lemma perf_read_answers ino fh off size :
  0 <= off -> 0 <= size ->
  answers (fun r => hello_ll_read r ino size off (fi_fh_only fh)) (perf_read_allocs ino off)
    (err_or A_buf (perf_read_result ino off size)).
Proof.
  intros Ho Hs. unfold perf_read_result, perf_read_allocs.
  destruct (Z.eqb_spec ino 2) as [->|H2].
  { eapply answers_ext; [|by apply (reply_limited_answers hello_str [0])]. done. }
  destruct (Z.eqb_spec ino 3) as [->|H3]; cbn [andb err_or].
  - destruct (Z.ltb_spec off BIGFILE_SIZE) as [Hlt|Hge].
    + set (bs := letters BIGFILE_SIZE off size).
      assert (A_buf bs = A_buf (slice 0 (blen bs) bs)) as -> by (by rewrite slice_all).
      eapply answers_bump; [|apply (reply_buf_answers bs (blen bs)); unfold blen; lia].
      intros r w Ha. rewrite bigfile_read_run by lia.
      rewrite <- (Nat.add_0_r (w_nalloc w)), (Ha O) by lia. done.
    + assert (letters BIGFILE_SIZE off size = []) as ->
        by (unfold letters; by replace (Z.to_nat _) with O by lia).
      eapply answers_ext; [|apply reply_nobuf_answers].
      intros r w. unfold hello_ll_read. cbn [Z.eqb Pos.eqb]. by rewrite (proj2 (Z.leb_le _ _)) by lia.
  - eapply answers_ext; [|apply (reply_err_answers EISDIR)]. intros r w. unfold hello_ll_read.
    by rewrite (proj2 (Z.eqb_neq _ _) H2), (proj2 (Z.eqb_neq _ _) H3).
Qed.

Lemma perf_readdir_answers ino fh off size :
  0 <= off -> 0 <= size ->
  answers (fun r => hello_ll_readdir r ino size off (fi_fh_only fh)) (if ino =? 1 then 4 else 0)
    (err_or A_buf (perf_readdir_result ino off size)).
Proof.
  intros Ho Hs. unfold perf_readdir_result, hello_ll_readdir.
  destruct (ino =? 1); [|apply reply_err_answers]. cbn [negb err_or].
  eapply answers_bump; [|by apply (reply_limited_answers perf_dir [])].
  intros r w Ha. rewrite (perf_dirbuf_run _ w Ha). cbn [full db_p db_size]. by rewrite app_nil_r.
Qed.

Lemma perf_readdir_entry ino off bs :
  perf_cursor ino off = true -> perf_readdir_result ino off LISTDIR_SIZE = inr bs -> bs = [] \/
  exists fd name, first_dirent bs = Some (fd, name) /\ dirent_namelen fd = blen name /\
    is_u 63 (dirent_off fd) /\ perf_cursor ino (dirent_off fd) = true.
Proof.
  unfold perf_readdir_result, perf_cursor. destruct (Z.eqb_spec ino 1) as [->|]; [|done].
  cbn [negb orb]. intros Hc [= <-].
  repeat (apply orb_true_iff in Hc as [Hc|Hc]); apply Z.eqb_eq in Hc; subst off; [right..|left].
  - exists (dirent_head (str "."%string) (ino_stat 1) 32), (str "."%string). by vm_compute.
  - exists (dirent_head (str ".."%string) (ino_stat 1) 64), (str ".."%string). by vm_compute.
  - exists (dirent_head hello_name (ino_stat 2) 96), hello_name. by vm_compute.
  - exists (dirent_head bigfile_name (ino_stat 3) 128), bigfile_name. by vm_compute.
  - by vm_compute.
Qed.

Lemma perf_read_size ino off size bs : 0 <= size -> perf_read_result ino off size = inr bs -> blen bs <= size.
Proof.
  unfold perf_read_result. intros Hs. repeat case_match; try done.
  - intros [= <-]. pose proof (window_size hello_str off size). lia.
  - intros [= <-]. unfold letters, blen. rewrite length_replicate. lia.
Qed.

#[refine] Definition perf_file_server : FileServer perf_server := {|
  fs_allocs uop ino off := match uop with
    | FUSE_UKFS_READDIR => if ino =? 1 then 4%nat else O
    | FUSE_UKFS_READ => perf_read_allocs ino off
    | _ => O end;
  fs_lookup := perf_lookup_result;
  fs_getattr := perf_getattr_result;
  fs_open := perf_open_result;
  fs_read ino fh off size := perf_read_result ino off size;
  fs_readdir ino fh off size := perf_readdir_result ino off size;
  fs_readable ino := true;
  fs_listable ino off := true;
  fs_cursor := perf_cursor |}.
Proof.
  - intros. eexists. split; [done|]. apply perf_lookup_answers.
  - intros. eexists. split; [done|]. apply perf_getattr_answers.
  - intros. eexists. split; [done|]. apply perf_open_answers.
  - intros ino fh off size _ Ho Hs. eexists. split; [done|]. apply perf_read_answers; [lia|apply Hs].
  - intros ino fh off size _ Ho Hs. eexists. split; [done|]. apply perf_readdir_answers; [lia|apply Hs].
  - unfold perf_lookup_result. intros parent name e. repeat case_match; try done; by intros [= <-].
  - unfold perf_open_result. intros ino flags o. repeat case_match; try done. by intros [= <-].
  - done.
  - intros ino fh off size bs Hs. apply perf_read_size, Hs.
  - intros ino. unfold perf_cursor. by rewrite !orb_true_r.
  - done.
  - intros ino fh off bs. apply perf_readdir_entry.
Defined.
End perf_spec.

(** ** The big file *)

Section bigfile.
Context {P : Platform} {PS : PlatformSpec P}.
#[local] Existing Instance perf_server.
#[local] Existing Instance perf_file_server.
#[local] Instance perf_sched : Scheduler := daemon_scheduler DAEMON_BUF.

(** C13. With the benchmark server, looking up "bigfile" and reading from offset
    [off] delivers the bytes [off], [off + 1], ... of a file of 100 MB of letters
    A: as many as the buffers hold, fewer at the end of the file, and none behind
    it, for every way to split the buffers. *)
Theorem bigfile_read io iov off :
  boot_resources -> memory_ok (booted_world io) ->
  buffers_ok iov -> 0 < iov_sum iov < 2 ^ 32 -> is_u 63 off ->
  exists c res w1 w2,
    open_name bigfile_name (booted_world io) = Ok (Some c) w1 /\
    fusefs_read c iov off w1 = Ok res w2 /\
    concat (snd res) = window (replicate (Z.to_nat BIGFILE_SIZE) 65) off (iov_sum iov) /\
    fst res = Z.max 0 (Z.min (iov_sum iov) (BIGFILE_SIZE - off)).
Proof.
  intros Hb Hm Hiov Hsum Hoff.
  destruct (named_read io bigfile_name (perf_entry 3) open_out_zero iov off)
    as (c & res & w1 & w2 & E1 & E2 & Hcat & Hlen); [done..|].
  exists c, res, w1, w2. split_and!; [done|done| |].
  - rewrite Hcat. apply letters_window, Hoff.
  - rewrite Hlen. unfold letters, blen. rewrite length_replicate. lia.
Qed.
End bigfile.

Lemma bigfile_read_witness : exists c res w1 w2,
  @open_name good (@perf_server good) bigfile_name good_world = Ok (Some c) w1 /\
  @fusefs_read good (@daemon_scheduler good (@perf_server good) DAEMON_BUF) c [2; 5] (BIGFILE_SIZE - 3) w1 = Ok res w2 /\
  fst res = 3.
Proof.
  destruct (@bigfile_read good good_spec [] [2; 5] (BIGFILE_SIZE - 3) good_resources (good_memory _))
    as (c & res & w1 & w2 & E1 & E2 & _ & E3).
  - by repeat constructor.
  - by vm_compute.
  - by vm_compute.
  - exists c, res, w1, w2. split; [exact E1|]. split; [exact E2|]. exact E3.
Defined.
