(* ===== verification/LinuxLl.v ===== *)
(** * The server of the Linux baseline

    [src/apps/fuse-perf-test/linux_hello_ll.c]: the server the measurements on
    Linux are compared with.  It has the files of the benchmark server, but
    nothing may be cached, and it lists its directory by the index of an entry. *)

From S2P Require Import Prelude Wire Platform KernelAbi World Monad Buffer Request Reply.
From S2P Require Import Server Handlers HelloLl.

Definition bigfile_name : bytes := str "bigfile"%string.
Definition BIGFILE_SIZE : Z := 100 * 1024 * 1024.

(** [0.0] *)
Definition zero : double := double_of_Z 0.

(** The attributes of a node, over a structure of zeros. *)
Definition node_stat (ino mode nlink size : Z) : stat :=
  Build_stat ino mode nlink 0 0 0 size 0 0 0 0 0 0 0 0.

Definition hello_stat : stat := node_stat 2 (Z.lor S_IFREG 292) 1 (blen hello_str).
Definition bigfile_stat : stat := node_stat 3 (Z.lor S_IFREG 292) 1 BIGFILE_SIZE.

(** [entries] of [hello_ll_readdir]: name, node and mode. *)
Definition entries : list (bytes * Z * Z) :=
  [ (str "."%string, 1, S_IFDIR); (str ".."%string, 1, S_IFDIR);
    (hello_name, 2, S_IFREG); (bigfile_name, 3, S_IFREG) ].
Definition nentries : Z := 4.

(** [sizeof(buf)] *)
Definition DIR_BUF_SIZE : Z := 4096.

Definition fi_set_direct_io (x : bool) (f : fuse_file_info) : fuse_file_info :=
  let '(Build_fuse_file_info z a _ c d e g h i j k l m n) := f in
  Build_fuse_file_info z a x c d e g h i j k l m n.

Section linux.
Context {P : Platform}.

Definition hello_ll_getattr (r ino : Z) (fi : option fuse_file_info) : M unit :=
  let found st := fuse_reply_attr r st zero;; mret tt in
  if ino =? 1 then found (node_stat ino (Z.lor S_IFDIR 493) 2 0)
  else if ino =? 2 then found hello_stat
  else if ino =? 3 then found bigfile_stat
  else reply_err r ENOENT.

Definition hello_ll_lookup (r parent : Z) (name : bytes) : M unit :=
  let found ino attr :=
    fuse_reply_entry r {| e_ino := ino; e_generation := 0; e_attr := attr;
                          e_attr_timeout := zero; e_entry_timeout := zero |};;
    mret tt in
  if (parent =? 1) && bool_decide (name = hello_name) then found 2 hello_stat
  else if (parent =? 1) && bool_decide (name = bigfile_name) then found 3 bigfile_stat
  else reply_err r ENOENT.

(** What is read behind a start: [len - (size_t)off] bytes, at most [size]. *)
Definition to_read (len size off : Z) : Z :=
  let n := u64 (len - u64 off) in if size <? n then size else n.

(** As in the benchmark server, of [tmp] only the decision of [malloc] is seen. *)
Definition hello_ll_read (r ino size off : Z) (fi : fuse_file_info) : M unit :=
  if ino =? 2 then
    let len := blen hello_str in
    if len <=? off then fuse_reply_buf r None 0;; mret tt
    else if 0 <=? off then
      fuse_reply_buf r (Some (drop (Z.to_nat off) (hello_str ++ [0]))) (to_read len size off);; mret tt
    else fault_ OutOfBounds
  else if ino =? 3 then
    if BIGFILE_SIZE <=? off then fuse_reply_buf r None 0;; mret tt
    else
      let to_read := to_read BIGFILE_SIZE size off in
      n ← gets w_nalloc;
      modify (w_set_nalloc (Datatypes.S n));;
      if alloc_ok n then
        fuse_reply_buf r (Some (replicate (Z.to_nat to_read) 65)) to_read;; mret tt
      else reply_err r ENOMEM
  else reply_err r EISDIR.

(** The loop of [hello_ll_readdir] from entry [i] on, with [pos] bytes in [buf]:
    an entry that no longer fits into [size] is packed but not counted. *)
Fixpoint pack_entries (fuel : nat) (i : Z) (buf : bytes) (pos size : Z) : M (bytes * Z) :=
  match fuel with
  | O => fault_ OutOfFuel
  | Datatypes.S fuel =>
      if i <? nentries then
        '(name, ino, mode) ← of_option OutOfBounds (if 0 <=? i then entries !! Z.to_nat i else None);
        '(tail, entsize) ← of_option OutOfBounds
          (fuse_add_direntry (Some (drop (Z.to_nat pos) buf)) (u64 (DIR_BUF_SIZE - pos)) name
             (node_stat ino mode 0 0) (i + 1));
        let buf := take (Z.to_nat pos) buf ++ default [] tail in
        if size <? u64 (pos + entsize) then mret (buf, pos)
        else pack_entries fuel (i + 1) buf (u64 (pos + entsize)) size
      else mret (buf, pos)
  end.

(** [buf] is on the stack and holds anything.  One turn more than entries is
    enough, since a negative index faults at once. *)
Definition hello_ll_readdir (r ino size off : Z) (fi : fuse_file_info) : M unit :=
  if negb (ino =? 1) then reply_err r ENOTDIR
  else
    n ← gets w_nalloc;
    let buf := map (junk n) (seq 0 (Z.to_nat DIR_BUF_SIZE)) in
    '(buf, pos) ← pack_entries 5 (i32 off) buf 0 size;
    fuse_reply_buf r (Some buf) pos;;
    mret tt.

Definition hello_ll_open (r ino : Z) (fi : fuse_file_info) : M unit :=
  if negb (ino =? 2) && negb (ino =? 3) then reply_err r EISDIR
  else fuse_reply_open r (fi_set_direct_io true fi);; mret tt.

Definition hello_ll_oper : fuse_lowlevel_ops := {|
  op_init := None; op_destroy := None; op_lookup := Some hello_ll_lookup;
  op_forget := None; op_getattr := Some hello_ll_getattr; op_setattr := None;
  op_readlink := None; op_mknod := None; op_mkdir := None; op_unlink := None; op_rmdir := None;
  op_symlink := None; op_rename := None; op_link := None; op_open := Some hello_ll_open;
  op_read := Some hello_ll_read; op_write := None; op_flush := None; op_release := None;
  op_fsync := None; op_opendir := None; op_readdir := Some hello_ll_readdir;
  op_releasedir := None; op_fsyncdir := None; op_statfs := None;
  op_setxattr := None; op_getxattr := None; op_listxattr := None; op_removexattr := None;
  op_access := None; op_create := None; op_getlk := None; op_setlk := None; op_bmap := None;
  op_ioctl := None; op_poll := None; op_write_buf := None; op_retrieve_reply := None;
  op_forget_multi := None; op_flock := None; op_fallocate := None; op_readdirplus := None;
  op_copy_file_range := None; op_lseek := None; op_tmpfile := None |}.

(** The server; it installs no interrupt callbacks. *)
Definition linux_server : Server := {|
  se_op := hello_ll_oper;
  interrupt_func := fun _ _ _ => fault_ BadPointer |}.
End linux.
