(* ===== verification/LinuxSpec.v ===== *)
(** * The server of the Linux baseline keeps its promise

    [linux_hello_ll.c] against the interface the driver relies on, and that it
    presents the same file system as the benchmark server. *)

From S2P Require Import Prelude Wire Platform KernelAbi LinkedList World Monad Buffer Request.
From S2P Require Import Reply Server Handlers Init Dirent Daemon UkFs System HelloLl HelloSpec.
From S2P Require Import PerfLl PerfSpec LinuxLl.

(** ** The directory *)

(** Names, attributes and cookies of the entries. *)
Definition linux_entries : list (bytes * stat * Z) :=
  [ (str "."%string, node_stat 1 S_IFDIR 0 0, 1); (str ".."%string, node_stat 1 S_IFDIR 0 0, 2);
    (hello_name, node_stat 2 S_IFREG 0 0, 3); (LinuxLl.bigfile_name, node_stat 3 S_IFREG 0 0, 4) ].

(** As many entries from [i] on as [size] bytes hold: each takes 32. *)
Definition entries_from (i size : Z) : bytes :=
  dir_bytes (take (Z.to_nat (size / 32)) (drop (Z.to_nat i) linux_entries)).


Lemma entry_facts n : (n < 4)%nat -> exists name ino mode,
  LinuxLl.entries !! n = Some (name, ino, mode) /\
  linux_entries !! n = Some (name, node_stat ino mode 0 0, Z.of_nat n + 1) /\
  name_ok name /\ dirent_size name = 32 /\ blen name <= 255 /\ nonul name.
Proof.
  intros H. do 4 (destruct n as [|n]; [eexists _, _, _; split_and!; try done; by repeat constructor|]). lia.
Qed.

Lemma entries_from_next n name st off size :
  linux_entries !! n = Some (name, st, off) -> 32 <= size ->
  entries_from (Z.of_nat n) size = direntry name st off ++ entries_from (Z.of_nat (Datatypes.S n)) (size - 32).
Proof.
  intros Hn Hs. unfold entries_from. rewrite !Nat2Z.id, (drop_S _ _ _ Hn).
  replace (Z.to_nat (size / 32)) with (Datatypes.S (Z.to_nat ((size - 32) / 32))); [done|].
  replace (size - 32) with (size + (-1) * 32) by lia. rewrite Z.div_add by lia.
  assert (1 <= size / 32) by (apply Z.div_le_lower_bound; lia). lia.
Qed.

Lemma entries_from_none i size : size < 32 -> entries_from i size = [].
Proof.
  intros Hs. unfold entries_from. assert (size / 32 < 1) by (apply Z.div_lt_upper_bound; lia).
  by replace (Z.to_nat (size / 32)) with O by lia.
Qed.

Lemma entries_from_end i size : 4 <= i -> entries_from i size = [].
Proof. intros Hi. unfold entries_from. rewrite drop_ge by (cbn [length linux_entries]; lia). by rewrite take_nil. Qed.

Section linux_spec.
Context {P : Platform} {PS : PlatformSpec P}.
Implicit Types (w : world).

(** Packing goes on behind what is [packed] already. *)
Lemma pack_entries_run k fuel n packed rest size w :
  (4 <= n + k)%nat -> (k < fuel)%nat -> blen (packed ++ rest) = DIR_BUF_SIZE -> blen packed <= 32 * Z.of_nat n ->
  blen packed <= size ->
  exists rest', let out := packed ++ entries_from (Z.of_nat n) (size - blen packed) in
    pack_entries fuel (Z.of_nat n) (packed ++ rest) (blen packed) size w = Ok (out ++ rest', blen out) w.
Proof.
  revert fuel n packed rest. induction k as [|k IH]; intros [|fuel] n packed rest Hk Hf Hb Hp Hs; try lia; cbn zeta;
    (destruct (le_lt_dec 4 n) as [H4|H4]; [exists rest; rewrite entries_from_end, app_nil_r by lia;
       cbn [pack_entries]; by rewrite (proj2 (Z.ltb_ge (Z.of_nat n) nentries)) by (unfold nentries; lia)|]); [lia|].
    destruct (entry_facts n) as (name & ino & mode & E1 & E2 & Hok & Hsz & _); [lia|].
    set (st := node_stat ino mode 0 0) in *. set (c := Z.of_nat n + 1) in *.
    rewrite blen_app in Hb. unfold DIR_BUF_SIZE in Hb. assert (0 <= blen packed) as H0 by (unfold blen; lia).
    set (rest1 := direntry name st c ++ drop 32 rest).
    assert (pack_entries (Datatypes.S fuel) (Z.of_nat n) (packed ++ rest) (blen packed) size w =
      (if size <? blen packed + 32 then mret (packed ++ rest1, blen packed)
       else pack_entries fuel (Z.of_nat n + 1) (packed ++ rest1) (blen packed + 32) size) w) as ->.
    { cbn [pack_entries]. rewrite (proj2 (Z.ltb_lt (Z.of_nat n) nentries)) by (unfold nentries; lia).
      rewrite (proj2 (Z.leb_le 0 (Z.of_nat n))) by lia. rewrite Nat2Z.id.
      mstep by (apply of_option_run; exact E1). fold st. fold c.
      assert (Z.to_nat (blen packed) = length packed) as Hl by (unfold blen; lia).
      rewrite Hl, drop_app_length, take_app_length.
      assert (u64 (DIR_BUF_SIZE - blen packed) = DIR_BUF_SIZE - blen packed) as ->
        by (apply wrapu_id; unfold is_u, DIR_BUF_SIZE; lia).
      mstep by (apply of_option_run, add_direntry_run; [done|rewrite Hsz; unfold DIR_BUF_SIZE; lia|rewrite Hsz; lia]).
      rewrite Hsz. change (Z.to_nat 32) with 32%nat. cbn [default]. fold rest1.
      assert (u64 (blen packed + 32) = blen packed + 32) as -> by (apply wrapu_id; unfold is_u; lia). done. }
    assert (blen (direntry name st c) = 32) as Hd by (by rewrite blen_direntry).
    destruct (Z.ltb_spec size (blen packed + 32)) as [Hlt|Hge].
    + exists rest1. by rewrite entries_from_none, app_nil_r by lia.
    + rewrite (entries_from_next _ _ _ _ _ E2) by lia. fold st c.
      destruct (IH fuel (Datatypes.S n) (packed ++ direntry name st c) (drop 32 rest)) as (rest' & E); [lia|lia| | | |].
      * rewrite !blen_app, Hd. unfold DIR_BUF_SIZE, blen in *. rewrite length_drop. lia.
      * rewrite blen_app. lia.
      * rewrite blen_app. lia.
      * exists rest'. cbv zeta in E. rewrite (blen_app packed (direntry _ _ _)), Hd in E. rewrite <- !app_assoc in *.
        replace (size - (blen packed + 32)) with (size - blen packed - 32) in * by lia.
        rewrite <- E. unfold rest1. by rewrite Nat2Z.inj_succ.
Qed.

(** ** Results *)

Definition linux_entry (ino : Z) (attr : stat) : fuse_entry_param := {|
  e_ino := ino; e_generation := 0; e_attr := attr; e_attr_timeout := zero; e_entry_timeout := zero |}.

Definition linux_lookup_result (parent : Z) (name : bytes) : Z + fuse_entry_param :=
  if (parent =? 1) && bool_decide (name = hello_name) then inr (linux_entry 2 LinuxLl.hello_stat)
  else if (parent =? 1) && bool_decide (name = LinuxLl.bigfile_name) then inr (linux_entry 3 bigfile_stat)
  else inl ENOENT.
Definition linux_getattr_result (ino : Z) : Z + stat :=
  if ino =? 1 then inr (node_stat ino (Z.lor S_IFDIR 493) 2 0)
  else if ino =? 2 then inr LinuxLl.hello_stat
  else if ino =? 3 then inr bigfile_stat
  else inl ENOENT.
Definition direct_open : fuse_open_out := Build_fuse_open_out 0 FOPEN_DIRECT_IO 0.
Definition linux_open_result (ino : Z) : Z + fuse_open_out :=
  if negb (ino =? 2) && negb (ino =? 3) then inl EISDIR else inr direct_open.
Definition linux_readdir_result (ino off size : Z) : Z + bytes :=
  if negb (ino =? 1) then inl ENOTDIR else inr (entries_from off size).

(** An offset is converted to an [int]. *)
Definition linux_listable (ino off : Z) : bool := negb (ino =? 1) || (off <? 2 ^ 31).
Definition linux_cursor (ino off : Z) : bool := negb (ino =? 1) || (0 <=? off) && (off <=? 4).

(** ** The operations *)

Lemma linux_lookup_answers parent name :
  answers (fun r => LinuxLl.hello_ll_lookup r parent name) 0
    (err_or (fun e => A_obj (B_entry e) sizeof_entry_param sizeof_entry_param)
      (linux_lookup_result parent name)).
Proof.
  unfold linux_lookup_result, LinuxLl.hello_ll_lookup.
  repeat case_match; first [apply reply_err_answers|apply reply_entry_answers].
Qed.

Lemma linux_getattr_answers ino :
  answers (fun r => LinuxLl.hello_ll_getattr r ino None) 0
    (err_or (fun st => A_obj (B_stat st) sizeof_stat sizeof_stat) (linux_getattr_result ino)).
Proof.
  unfold linux_getattr_result, LinuxLl.hello_ll_getattr.
  repeat case_match; first [apply reply_err_answers|apply reply_attr_answers].
Qed.

Lemma linux_open_answers ino flags :
  answers (fun r => LinuxLl.hello_ll_open r ino (fi_set_flags flags fi_zero)) 0
    (err_or (fun o => A_obj (B_open_out o) (sizeof fuse_open_out) 0) (linux_open_result ino)).
Proof.
  unfold linux_open_result, LinuxLl.hello_ll_open.
  case_match; [apply reply_err_answers|]. exact (reply_open_answers (fi_set_direct_io true (fi_set_flags flags fi_zero))).
Qed.

(** Reading is as in the benchmark server. *)
Lemma linux_read_same r ino size off fi w :
  0 <= off < 2 ^ 63 -> LinuxLl.hello_ll_read r ino size off fi w = PerfLl.hello_ll_read r ino size off fi w.
Proof.
  intros Ho. unfold LinuxLl.hello_ll_read, PerfLl.hello_ll_read, reply_buf_limited, to_read.
  change LinuxLl.BIGFILE_SIZE with PerfLl.BIGFILE_SIZE.
  assert (u64 off = off) as -> by (apply wrapu_id; unfold is_u; lia). rewrite (proj2 (Z.leb_le 0 off)) by lia.
  destruct (ino =? 2); [|done]. rewrite Z.leb_antisym. destruct (off <? blen hello_str); [|done]. cbn [negb].
  set (n := u64 (blen hello_str - off)).
  by assert ((if size <? n then size else n) = (if n <? size then n else size)) as -> by (case_match; case_match; zify_bool; lia).
Qed.

Lemma linux_read_answers ino fh off size :
  0 <= off < 2 ^ 63 -> 0 <= size ->
  answers (fun r => LinuxLl.hello_ll_read r ino size off (fi_fh_only fh)) (perf_read_allocs ino off)
    (err_or A_buf (perf_read_result ino off size)).
Proof.
  intros Ho Hs. eapply answers_ext; [|by apply perf_read_answers; [lia|]].
  intros r w. by apply linux_read_same.
Qed.

Lemma linux_readdir_answers ino fh off size :
  linux_listable ino off = true -> 0 <= off -> 0 <= size ->
  answers (fun r => LinuxLl.hello_ll_readdir r ino size off (fi_fh_only fh)) 0
    (err_or A_buf (linux_readdir_result ino off size)).
Proof.
  intros Hl Ho Hs. unfold linux_readdir_result, LinuxLl.hello_ll_readdir, linux_listable in *.
  destruct (ino =? 1); [|apply reply_err_answers]. cbn [negb err_or orb] in *. apply Z.ltb_lt in Hl.
  intros w r l il q u k H1 H2 H3 H4 H5 H6.
  set (b0 := map (junk (w_nalloc w)) (seq 0 (Z.to_nat DIR_BUF_SIZE))).
  assert (blen b0 = DIR_BUF_SIZE) as Hb by (unfold b0, blen; by rewrite length_map, length_seq).
  destruct (pack_entries_run 4 5 (Z.to_nat off) [] b0 size w) as (tl & E); [lia|lia|done|unfold blen; cbn; lia|done|].
  cbv zeta in E. rewrite Z2Nat.id, !app_nil_l, Z.sub_0_r in E by done.
  set (out := entries_from off size) in *.
  destruct (reply_buf_answers (out ++ tl) (blen out)) with (w := w) (r := r) (l := l) (il := il) (q := q) (u := u) (k := k)
    as (h & E2 & Hh); try done; [rewrite blen_app; unfold blen; lia|].
  exists h. split; [|done]. rewrite (i32_small off) by (unfold is_u; lia).
  mstep by done. fold b0. mstep by (exact E). rewrite E2. do 3 f_equal.
  unfold slice, blen. change (Z.to_nat 0) with O. by rewrite drop_0, Nat2Z.id, take_app_length.
Qed.

(** An offset of 2^31 becomes a negative index, which is not caught. *)
Lemma linux_readdir_overruns r size fi w :
  LinuxLl.hello_ll_readdir r 1 size (2 ^ 31) fi w = Fault OutOfBounds.
Proof. reflexivity. Qed.

(** From each index the listing goes on with the next whole entry. *)
Lemma linux_first_entry off : linux_cursor 1 off = true ->
  entries_from off LISTDIR_SIZE = [] \/
  exists fd name, first_dirent (entries_from off LISTDIR_SIZE) = Some (fd, name) /\ dirent_namelen fd = blen name /\
    is_u 63 (dirent_off fd) /\ linux_cursor 1 (dirent_off fd) = true /\ blen name <= 255 /\ nonul name.
Proof.
  intros (H0 & H4)%andb_true_iff. apply Z.leb_le in H0, H4.
  destruct (Z.leb_spec 4 off); [left; by apply entries_from_end|right].
  destruct (entry_facts (Z.to_nat off)) as (name & ino & mode & E1 & E2 & Hok & Hsz & Hb & Hn); [lia|].
  rewrite Z2Nat.id in E2 by done. set (st := LinuxLl.node_stat ino mode 0 0) in *.
  exists (dirent_head name st (off + 1)), name.
  rewrite <- (Z2Nat.id off) at 1 by done. rewrite (entries_from_next _ _ _ _ _ E2) by done.
  rewrite first_dirent_direntry by done. cbn [dirent_namelen dirent_off dirent_head].
  assert (u64 (off + 1) = off + 1) as -> by (apply wrapu_id; unfold is_u; lia).
  split_and!; try done; [apply wrapu_id; unfold is_u, blen in *; lia|unfold is_u; lia..|].
  unfold linux_cursor. apply orb_true_iff. right. apply andb_true_iff. split; apply Z.leb_le; lia.
Qed.

Lemma linux_readdir_entry ino off bs :
  linux_cursor ino off = true -> linux_readdir_result ino off LISTDIR_SIZE = inr bs -> bs = [] \/
  exists fd name, first_dirent bs = Some (fd, name) /\ dirent_namelen fd = blen name /\
    is_u 63 (dirent_off fd) /\ linux_cursor ino (dirent_off fd) = true.
Proof.
  unfold linux_readdir_result. destruct (Z.eqb_spec ino 1) as [->|]; [|done].
  intros [H|(fd & name & H)]%linux_first_entry [= <-]; [by left|right]. exists fd, name. tauto.
Qed.

#[refine] Definition linux_file_server : FileServer linux_server := {|
  fs_allocs uop ino off := match uop with FUSE_UKFS_READ => perf_read_allocs ino off | _ => O end;
  fs_lookup := linux_lookup_result;
  fs_getattr := linux_getattr_result;
  fs_open ino flags := linux_open_result ino;
  fs_read ino fh off size := perf_read_result ino off size;
  fs_readdir ino fh off size := linux_readdir_result ino off size;
  fs_readable ino := true;
  fs_listable := linux_listable;
  fs_cursor := linux_cursor |}.
Proof.
  - intros. eexists. split; [done|]. apply linux_lookup_answers.
  - intros. eexists. split; [done|]. apply linux_getattr_answers.
  - intros. eexists. split; [done|]. apply linux_open_answers.
  - intros ino fh off size _ Ho Hs. eexists. split; [done|]. apply linux_read_answers; [lia|apply Hs].
  - intros ino fh off size Hl Ho Hs. eexists. split; [done|]. apply linux_readdir_answers; [done|lia|apply Hs].
  - unfold linux_lookup_result. intros parent name e. repeat case_match; try done; by intros [= <-].
  - unfold linux_open_result. intros ino flags o. repeat case_match; try done. by intros [= <-].
  - done.
  - intros ino fh off size bs Hs. apply perf_read_size, Hs.
  - intros ino. unfold linux_cursor. by rewrite orb_true_r.
  - unfold linux_cursor, linux_listable. intros ino off. destruct (ino =? 1); [|done]. cbn [negb orb].
    intros (_ & H4)%andb_true_iff. apply Z.leb_le in H4. apply Z.ltb_lt. lia.
  - intros ino fh off bs. apply linux_readdir_entry.
Defined.
End linux_spec.
