(* ===== verification/QueueProps.v ===== *)
(** * Properties of the request queue

    Any number of threads push and pop concurrently: what the queue guarantees
    for every interleaving of their accesses, and that nobody waits in vain. *)

From S2P Require Import Prelude Platform World Monad Queue.

(** ** Who holds which request *)

(** The request a pop has taken off the queue. *)
Definition taken (pc : qpc) : list Z := match pc with Pop3 u | PopDone u => [u] | _ => [] end.

(** Is the thread a consumer? *)
Definition is_pop (pc : qpc) : nat :=
  match pc with Pop0 | Pop1 | Pop2 | Pop3 _ | PopDone _ | Crashed => 1 | _ => 0 end.

(** Accesses a thread still has to make. *)
Definition accesses_left (pc : qpc) : nat :=
  match pc with
  | Push0 _ | Pop0 => 4 | Push1 _ | Pop1 => 3 | Push2 _ | Pop2 => 2
  | Push3 _ | Pop3 _ => 1 | PushDone _ | PopDone _ | Crashed => 0
  end.

Definition stuck {P : Platform} (s : qstate) : Prop := forall s', ~ qstep s s'.

Section queue_props.
Context {P : Platform} {PS : PlatformSpec P}.

(** The access of one thread. *)
Lemma pc_step_facts pc q pc' q' l :
  pc_step pc q = Some (pc', q') ->
  is_pop pc' = is_pop pc /\ (accesses_left pc' < accesses_left pc)%nat /\
  log_out pc' l ++ taken pc ≡ₚ l ++ taken pc'.
Proof.
  intros H. destruct pc; cbn in *; try done; repeat case_match; simplify_option_eq; cbn;
    rewrite ?app_nil_r; split_and!; done || lia.
Qed.

(** A step keeps the number of consumers, uses up accesses, and what is out of
    the queue is what the consumers hold. *)
Lemma qstep_facts s s' :
  qstep s s' ->
  sum_list_with is_pop (qs_thr s') = sum_list_with is_pop (qs_thr s) /\
  length (qs_thr s') = length (qs_thr s) /\
  (sum_list_with accesses_left (qs_thr s') < sum_list_with accesses_left (qs_thr s))%nat /\
  (qs_out s ≡ₚ concat (map taken (qs_thr s)) -> qs_out s' ≡ₚ concat (map taken (qs_thr s'))).
Proof.
  intros Hst. inversion Hst as [q thr li lo i pc pc' q' Hi Hpc]; subst. cbn.
  destruct (pc_step_facts _ _ _ _ lo Hpc) as (Hp & Ha & Ht). rewrite length_insert.
  destruct (thr_split _ _ _ pc' Hi) as (l1 & l2 & -> & ->).
  rewrite !sum_list_with_app, !map_app, !concat_app. cbn. split_and!; [lia|done|lia|].
  intros H. apply (Permutation_app_inv_r (taken pc)). rewrite Ht, H. solve_Permutation.
Qed.

Lemma reachable_facts s s' :
  rtc qstep s s' ->
  sum_list_with is_pop (qs_thr s') = sum_list_with is_pop (qs_thr s) /\
  length (qs_thr s') = length (qs_thr s) /\
  (qs_out s ≡ₚ concat (map taken (qs_thr s)) -> qs_out s' ≡ₚ concat (map taken (qs_thr s'))).
Proof.
  induction 1 as [s|s s1 s' Hst _ (I1 & I2 & I3)]; [done|].
  destruct (qstep_facts _ _ Hst) as (H1 & H2 & _ & H3). split_and!; [lia|lia|auto].
Qed.

(** Runs are finite. *)
Lemma run_length n s s' :
  nsteps qstep n s s' ->
  (n + sum_list_with accesses_left (qs_thr s') <= sum_list_with accesses_left (qs_thr s))%nat.
Proof.
  induction 1 as [s|n s s1 s' Hst _ IH]; [lia|].
  destruct (qstep_facts _ _ Hst) as (_ & _ & H & _). lia.
Qed.

Lemma accesses_bound thr : (sum_list_with accesses_left thr <= 4 * length thr)%nat.
Proof. induction thr as [|[] thr IH]; cbn in *; lia. Qed.

Lemma taken_init thr : Forall not_started thr -> concat (map taken thr) = [].
Proof. by induction 1 as [|[]]. Qed.

(** C8. The queue under concurrent use, in every reachable state: the assertion
    of [fuse_ukfs_queue_pop] has not failed, at most one thread is between lock
    and unlock, requests leave in the order in which they were inserted, none is
    lost or invented, and each request taken off is held by exactly one
    consumer. *)
Theorem queue_safe thr s :
  Forall not_started thr -> NoDup (concat (map req_of thr)) -> rtc qstep (qinit thr) s ->
  Crashed ∉ qs_thr s /\
  (sum_list_with locked (qs_thr s) <= 1)%nat /\
  qs_in s = qs_out s ++ elems (qs_queue s) /\
  qs_in s ++ concat (map waiting (qs_thr s)) ≡ₚ concat (map req_of thr) /\
  concat (map taken (qs_thr s)) ≡ₚ qs_out s /\ NoDup (qs_out s).
Proof.
  intros Hthr Hnd Hr. pose proof (qinv_reachable _ _ Hthr Hnd Hr) as [Hl _ Hf Hq Hok].
  destruct (reachable_facts _ _ Hr) as (_ & _ & Ht).
  assert (NoDup (qs_out s)) as Hno.
  { rewrite <- Hq, Hf in Hnd. by apply NoDup_app in Hnd as [[? _]%NoDup_app _]. }
  split_and!; try done.
  - rewrite Hl. destruct (mutex_held _); cbn; lia.
  - rewrite Ht; [done|]. cbn. by rewrite taken_init.
Qed.

Lemma taken_bound l : (length (concat (map taken l)) <= sum_list_with is_pop l)%nat.
Proof. induction l as [|[] l IH]; cbn; rewrite ?length_app; cbn; lia. Qed.

(** A waiting consumer holds nothing. *)
Lemma taken_waiting l : Pop0 ∈ l -> (length (concat (map taken l)) < sum_list_with is_pop l)%nat.
Proof.
  intros (l1 & l2 & ->)%list_elem_of_split. pose proof (taken_bound l1). pose proof (taken_bound l2).
  rewrite map_app, concat_app, sum_list_with_app, length_app. cbn. lia.
Qed.

(** In a final state everything inserted has come out, or no consumer is left. *)
Lemma stuck_counts thr s :
  Forall not_started thr -> NoDup (concat (map req_of thr)) -> rtc qstep (qinit thr) s -> stuck s ->
  (sum_list_with is_pop thr <= length (concat (map req_of thr)))%nat -> Forall finished (qs_thr s).
Proof.
  intros Hthr Hnd Hr Hst Hle. pose proof (qinv_reachable _ _ Hthr Hnd Hr) as Hinv.
  pose proof (qinv_progress _ _ Hinv Hst) as Hp. destruct Hinv as [_ _ Hf Hq _].
  destruct (reachable_facts _ _ Hr) as (Hn & _ & Ht).
  rewrite Forall_forall in Hp. apply Forall_forall. intros pc Hpc.
  destruct (Hp pc Hpc) as [?|[-> He]]; [done|exfalso].
  assert (concat (map waiting (qs_thr s)) = []) as Hw.
  { clear -Hp. induction (qs_thr s) as [|x l IH]; [done|]. cbn. rewrite IH by (intros; apply Hp; set_solver).
    destruct (Hp x) as [?|[-> _]]; [set_solver| |done]. by destruct x. }
  rewrite Hw, app_nil_r, Hf, He, app_nil_r in Hq.
  apply Permutation_length in Hq. rewrite Ht in Hq by (cbn; by rewrite taken_init).
  pose proof (taken_waiting _ Hpc). cbn in Hn. lia.
Qed.

(** Whether a thread can move is decidable. *)
Lemma step_dec s : (exists s', qstep s s') \/ stuck s.
Proof.
  destruct s as [q thr li lo].
  destruct (decide (Exists (fun pc => can_step q pc = true) thr)) as [He|Hn].
  - left. apply Exists_exists in He as (pc & (i & Hi)%list_elem_of_lookup & Hc).
    unfold can_step in Hc. destruct (pc_step pc q) as [[pc' q']|] eqn:E; [|done].
    eexists. by econstructor.
  - right. intros s' Hst. inversion Hst as [? ? ? ? i pc pc' q' Hi Hpc]; subst. apply Hn, Exists_exists.
    exists pc. split; [by eapply list_elem_of_lookup_2|]. unfold can_step. by rewrite Hpc.
Qed.

(** C21. Nobody waits in vain.  Every run of the queue's users is finite (at most
    four accesses per thread) and can be continued to a final state; when the
    requests suffice for the consumers, every push and pop has returned there. *)
Theorem queue_completes thr s :
  Forall not_started thr -> NoDup (concat (map req_of thr)) -> rtc qstep (qinit thr) s ->
  (sum_list_with is_pop thr <= length (concat (map req_of thr)))%nat ->
  (forall n s', nsteps qstep n (qinit thr) s' -> n <= 4 * length thr)%nat /\
  exists s', rtc qstep s s' /\ stuck s' /\ Forall finished (qs_thr s').
Proof.
  intros Hthr Hnd Hr Hle. split.
  { intros n s' Hn. apply run_length in Hn. pose proof (accesses_bound thr). cbn in Hn. lia. }
  assert (exists s', rtc qstep s s' /\ stuck s') as (s' & Hr' & Hst).
  2:{ exists s'. split_and!; [done..|]. eapply stuck_counts; [done..|by etrans|done|done]. }
  clear -PS. remember (sum_list_with accesses_left (qs_thr s)) as n eqn:E.
  revert s E. induction (lt_wf n) as [n _ IH]. intros s ->.
  destruct (step_dec s) as [[s1 Hst]|Hno]; [|by exists s].
  destruct (qstep_facts _ _ Hst) as (_ & _ & Hlt & _).
  destruct (IH _ Hlt s1 eq_refl) as (s' & H1 & H2). exists s'. split; [by econstructor|done].
Qed.
End queue_props.

(** ** A producer and a consumer *)

Definition two : list qpc := [Push0 7; Pop0].

Lemma queue_safe_witness : exists s, rtc (@qstep good) (qinit two) s /\ qs_in s = [7] /\
  qs_out s ++ elems (qs_queue s) = [7].
Proof.
  assert (rtc (@qstep good) (qinit two)
    {| qs_queue := {| q_head := [7] : @tailq good; q_lock := true : @mutex good; q_count := O : @sem good |};
       qs_thr := [Push2 7; Pop0]; qs_in := [7]; qs_out := [] |}) as Hr.
  { eapply rtc_l; [apply (Qstep _ _ _ _ 0 (Push0 7)); reflexivity|].
    eapply rtc_l; [apply (Qstep _ _ _ _ 0 (Push1 7)); reflexivity|]. apply rtc_refl. }
  destruct (@queue_safe good good_spec two _ ltac:(by repeat constructor)
    ltac:(by apply NoDup_singleton) Hr) as (_ & _ & Hf & _).
  eexists. split; [exact Hr|]. split; [reflexivity|]. rewrite <- Hf. reflexivity.
Defined.

Lemma queue_completes_witness : exists s', rtc (@qstep good) (qinit two) s' /\ Forall finished (qs_thr s').
Proof.
  destruct (@queue_completes good good_spec two (qinit two) ltac:(by repeat constructor)
    ltac:(by apply NoDup_singleton) (rtc_refl _ _) ltac:(reflexivity)) as (_ & s' & Hr & _ & Hf).
  exists s'. split; [exact Hr|exact Hf].
Defined.
