(* ===== verification/DaemonProps.v ===== *)
(** * Properties of the daemon

    The message the daemon writes says exactly what the client asked for: it can
    be read back.  Requests the daemon does not know are refused without
    involving the library. *)

From S2P Require Import Prelude Wire Platform KernelAbi LinkedList World Monad Buffer Request.
From S2P Require Import Reply Server Handlers Interrupt Notify Init Session Queue Daemon UkFs.
From S2P Require Import System FileOps Boot HelloLl Examples.

(** ** Reading a message *)

(** What a message asks for besides its node. *)
Inductive asked :=
| Ask_lookup (name : bytes)
| Ask_getattr
| Ask_open (flags : Z)
| Ask_read (fh offset size : Z)
| Ask_readdir (fh offset size : Z).

Record message := { msg_unique : Z; msg_node : Z; msg_pid : Z; msg_asked : asked }.

(** The request in the buffer [mem], read as the kernel's protocol says. *)
Definition decode_message (mem : bytes) : option message :=
  h ← dec (A := fuse_in_header) mem;
  let body := slice 40 (in_header_len h - 40) mem in
  let op := in_header_opcode h in
  args ← (if op =? FUSE_LOOKUP then Ask_lookup <$> cstr body
          else if op =? FUSE_GETATTR then _ ← dec (A := fuse_getattr_in) body; Some Ask_getattr
          else if op =? FUSE_OPEN then a ← dec (A := fuse_open_in) body; Some (Ask_open (open_in_flags a))
          else if op =? FUSE_READ then
            a ← dec (A := fuse_read_in) body;
            Some (Ask_read (read_in_fh a) (read_in_offset a) (read_in_size a))
          else if op =? FUSE_READDIR then
            a ← dec (A := fuse_read_in) body;
            Some (Ask_readdir (read_in_fh a) (read_in_offset a) (read_in_size a))
          else None);
  Some {| msg_unique := in_header_unique h; msg_node := in_header_nodeid h;
          msg_pid := in_header_pid h; msg_asked := args |}.

(** What a client asks for, where [name] is the string of a lookup. *)
Definition asks (inp : ukfs_in) (name : bytes) : option asked :=
  match inp with
  | In_none => None
  | In_lookup _ _ => Some (Ask_lookup name)
  | In_getattr _ => Some Ask_getattr
  | In_open _ flags => Some (Ask_open flags)
  | In_read _ fh off size => Some (Ask_read fh off size)
  | In_readdir _ fh off size => Some (Ask_readdir fh off size)
  end.

(** Members are values of their types; the name is a string that fits. *)
Definition request_wf (bl : gmap Z blob) (inp : ukfs_in) (name : bytes) : Prop :=
  is_u 64 (inp_node inp) /\
  match inp with
  | In_none => False
  | In_lookup _ a => names bl inp name
  | In_getattr _ => True
  | In_open _ flags => is_u 32 flags
  | In_read _ fh off size | In_readdir _ fh off size => is_u 64 fh /\ is_u 64 off /\ is_u 32 size
  end.

Section daemon_props.
Context {P : Platform} {PS : PlatformSpec P} {S : Server}.
Implicit Types (w : world) (k : fuse_ukfs_request).

Lemma request_message w inp name :
  request_wf (w_blobs w) inp name ->
  ukfs_message w inp = Some (opcode_of inp, fuse_op_of (opcode_of inp), inp_node inp, inp_payload inp name) /\
  blen (inp_payload inp name) <= 8152.
Proof.
  intros [Hn Hw]. destruct inp as [|parent a| | | |]; try done.
  destruct Hw as (mem & E1 & E2 & Hl). cbn. rewrite E1, E2. split; [done|].
  unfold blen in *. rewrite length_app. cbn. lia.
Qed.

(** The payload is what its header says, followed by older bytes. *)
Lemma message_body op unique node payload mem :
  blen payload <= 8152 -> is_u 32 op -> is_u 64 unique -> is_u 64 node ->
  let m := message_mem op unique node payload mem in
  dec m = Some (daemon_header op unique node (40 + blen payload)) /\
  slice 40 (blen payload) m = payload.
Proof.
  intros Hp Ho Hu Hn m. unfold m, message_mem. change (sizeof fuse_in_header) with 40.
  assert (wire_wf (daemon_header op unique node (40 + blen payload))) as Hwf.
  { apply daemon_header_wf; [done..|]. unfold is_u, blen in *. lia. }
  split; [by apply dec_enc|].
  set (h := daemon_header _ _ _ _) in *.
  assert (length (enc h) = 40%nat) as Hh by (rewrite length_enc; reflexivity).
  unfold slice. change (Z.to_nat 40) with 40%nat. rewrite drop_app_length' by done.
  unfold blen. by rewrite Nat2Z.id, take_app_length.
Qed.

(** C11. Whatever a client asks for, the message the daemon leaves in its buffer
    reads back as the same request: the client's node, its id, its operation and
    every argument, and the pid of the daemon. *)
Theorem message_roundtrip b u k name mem a w :
  w_uks w !! u = Some k -> uq_opcode k = ukfs_opcode_val (opcode_of (uq_in k)) ->
  request_wf (w_blobs w) (uq_in k) name -> asks (uq_in k) name = Some a -> is_u 64 (uq_unique k) ->
  w_mem w !! b = Some mem -> blen mem = FUSE_DAEMON_BUF_SIZE ->
  exists mem', build_message b u w = Ok true (w_set_mem (<[b := mem']> (w_mem w)) w) /\
    blen mem' = FUSE_DAEMON_BUF_SIZE /\
    decode_message mem' = Some {| msg_unique := uq_unique k; msg_node := inp_node (uq_in k);
                                  msg_pid := 1; msg_asked := a |}.
Proof.
  intros Hk Hop Hwf Ha Hun Hb Hbl.
  destruct (request_message _ _ _ Hwf) as [Hm Hp]. destruct Hwf as [Hn Hw].
  pose proof (opcode_u32 (fuse_op_of (opcode_of (uq_in k)))) as Ho.
  exists (message_mem (fuse_op_of (opcode_of (uq_in k))) (uq_unique k) (inp_node (uq_in k))
            (inp_payload (uq_in k) name) mem).
  destruct (message_body _ (uq_unique k) (inp_node (uq_in k)) _ mem Hp Ho Hun Hn) as [Hd Hs].
  split; [by eapply build_message_run|]. split.
  - unfold message_mem, blen in *. rewrite !length_app, length_enc, length_drop.
    change (layout_size (layout fuse_in_header)) with 40%nat.
    change FUSE_DAEMON_BUF_SIZE with 8192 in *. lia.
  - unfold decode_message. rewrite Hd. cbn [mbind option_bind daemon_header in_header_len
      in_header_opcode in_header_unique in_header_nodeid in_header_pid].
    replace (40 + blen (inp_payload (uq_in k) name) - 40) with (blen (inp_payload (uq_in k) name)) by lia.
    rewrite Hs. clear Hd Hs Hm.
    destruct (uq_in k) as [|parent nm|ino|ino flags|ino fh off size|ino fh off size];
      cbn [asks opcode_of fuse_op_of inp_payload inp_node] in *; try done; injection Ha as <-;
      unfold opcode_val; cbn [Z.eqb Pos.eqb].
    + destruct Hw as (bs & _ & Hs%cstr_nonul & _). by rewrite cstr_app.
    + done.
    + rewrite <- (app_nil_r (enc _)), dec_enc by solve_wire_wf. done.
    + destruct Hw as (H1 & H2 & H3).
      rewrite <- (app_nil_r (enc _)), dec_enc by solve_wire_wf. done.
    + destruct Hw as (H1 & H2 & H3).
      rewrite <- (app_nil_r (enc _)), dec_enc by solve_wire_wf. done.
Qed.
(** A request whose opcode is not in the daemon's table is answered with
    [-ENOSYS] and no data, once, by the daemon alone: the library, its requests
    and the allocator are not touched, and the rest of the queue stays. *)
Lemma unknown_opcode_refused b u k us mem w :
  q_idle (w_queue w) -> elems (w_queue w) = u :: us ->
  w_uks w !! u = Some k -> uq_opcode k < 1 \/ 5 < uq_opcode k -> is_u 64 (uq_unique k) ->
  w_mem w !! b = Some mem -> blen mem = FUSE_DAEMON_BUF_SIZE ->
  exists w', fuse_daemon_iteration b w = Ok tt w' /\
    w_uks w' = <[u := answered k (- ENOSYS) None 0]> (w_uks w) /\
    sem_value (uq_done (answered k (- ENOSYS) None 0)) = Datatypes.S (sem_value (uq_done k)) /\
    q_idle (w_queue w') /\ elems (w_queue w') = us /\
    w_reqs w' = w_reqs w /\ w_se w' = w_se w /\ w_nalloc w' = w_nalloc w /\ w_trace w' = w_trace w.
Proof.
  intros Hq He Hk Hop Hun Hb Hbl.
  destruct (queue_pop_run w u us Hq He) as (q & Epop & Hq' & He').
  destruct (message_start b mem (w_set_queue q w) Hb Hbl) as (rest & _ & _ & _ & Est).
  eexists. split.
  - unfold fuse_daemon_iteration. mstep by (apply Epop).
    erewrite bind_run.
    2:{ unfold build_message. mstep by (by apply get_uk_run). mstep by (apply Est).
        mstep by (eapply mod_hdr_run; [apply lookup_insert_eq|solve_wire_wf]).
        rewrite find_dispatch_unknown by done. apply ret_run. }
    cbv beta iota. eapply finish_run. exact Hk.
  - unfold finish. cbn [w_uks w_set_mem w_set_queue]. rewrite Hk. split_and!; try done.
    destruct k. cbn. apply sem_up_value.
Qed.
End daemon_props.

(** ** The message of the example, and a request from outside the table *)

Lemma message_roundtrip_witness : exists mem',
  build_message DAEMON_BUF 8 client_world =
    Ok true (w_set_mem (<[DAEMON_BUF := mem']> (w_mem client_world)) client_world) /\
  decode_message mem' = Some {| msg_unique := 1; msg_node := 1; msg_pid := 1; msg_asked := Ask_getattr |}.
Proof.
  destruct (@message_roundtrip good DAEMON_BUF 8 (new_request good_world (In_getattr 1)) []
    (map (junk (Platform := good) 3) (seq 0 (Z.to_nat FUSE_DAEMON_BUF_SIZE))) Ask_getattr client_world)
    as (mem' & E & _ & H).
  - exact serving_client.
  - reflexivity.
  - by vm_compute.
  - reflexivity.
  - by vm_compute.
  - reflexivity.
  - unfold blen. rewrite length_map, length_seq. reflexivity.
  - exists mem'. split; [exact E|exact H].
Defined.

(** The client's request with an opcode of its own, in the queue. *)
Definition odd_world : @world good :=
  w_set_queue {| q_head := [8] : @tailq good; q_lock := false : @mutex good; q_count := 1%nat : @sem good |}
    (w_set_uks {[8 := @Build_fuse_ukfs_request good 9 1 In_none 0 None 0 (0%nat : @sem good)]} client_world).

Lemma unknown_opcode_refused_witness : exists w',
  @fuse_daemon_iteration good hello_server DAEMON_BUF odd_world = Ok tt w' /\
  @uq_error good <$> (w_uks w' !! 8) = Some (- ENOSYS).
Proof.
  destruct (@unknown_opcode_refused good good_spec hello_server DAEMON_BUF 8
    (@Build_fuse_ukfs_request good 9 1 In_none 0 None 0 (0%nat : @sem good)) []
    (map (junk (Platform := good) 3) (seq 0 (Z.to_nat FUSE_DAEMON_BUF_SIZE))) odd_world)
    as (w' & E & Hu & _).
  - constructor; reflexivity.
  - reflexivity.
  - apply lookup_singleton_eq.
  - right. reflexivity.
  - by vm_compute.
  - reflexivity.
  - unfold blen. rewrite length_map, length_seq. reflexivity.
  - exists w'. split; [exact E|]. rewrite Hu, lookup_insert_eq. reflexivity.
Defined.
