(* ===== verification/SessionProps.v ===== *)
(** * Properties of the dispatch

    Which requests a session admits and why it refuses the others, that an
    admitted request reaches the handler of its opcode, and that an operation
    the server leaves out is answered with [-ENOSYS]. *)

From S2P Require Import Prelude Wire Platform KernelAbi LinkedList World Monad Buffer Request.
From S2P Require Import Reply Server Handlers Interrupt Notify Init Session Queue Daemon UkFs.
From S2P Require Import System FileOps Boot HelloLl Examples.

(** ** The gate *)

(** Opcodes of the protocol the library does not serve. *)
Definition unserved (o : fuse_opcode) : bool :=
  match o with
  | FUSE_SETUPMAPPING | FUSE_REMOVEMAPPING | FUSE_SYNCFS | CUSE_INIT_BSWAP_RESERVED
  | FUSE_INIT_BSWAP_RESERVED => true
  | _ => false
  end.

(** Operations on open files and the first message are free for everybody. *)
Definition free_for_all (o : fuse_opcode) : bool :=
  match o with
  | FUSE_INIT | FUSE_READ | FUSE_WRITE | FUSE_FSYNC | FUSE_RELEASE | FUSE_READDIR
  | FUSE_FSYNCDIR | FUSE_RELEASEDIR | FUSE_NOTIFY_REPLY | FUSE_READDIRPLUS => true
  | _ => false
  end.

(** The first message of a session. *)
Definition first_opcode (cuse : bool) : fuse_opcode := if cuse then CUSE_INIT else FUSE_INIT.

Section gate.
Context {P : Platform} {S : Server}.

(** A request the session admits, and its opcode. *)
Record admitted (se : fuse_session) (h : fuse_in_header) (o : fuse_opcode) : Prop := {
  ad_opcode : in_header_opcode h = o;
  ad_served : unserved o = false;
  ad_init : if se_got_init se then o <> FUSE_INIT /\ o <> CUSE_INIT
            else o = first_opcode (se_cuse_data se);
  ad_user : se_deny_others se = true ->
            in_header_uid h = se_owner se \/ in_header_uid h = 0 \/ free_for_all o = true;
  ad_interrupt : no_interrupt (se_conn se) = true -> o <> FUSE_INTERRUPT }.

Lemma served_opcode op : is_set (fuse_ll_ops op) = true <-> exists o : fuse_opcode, op = o /\ unserved o = false.
Proof.
  split.
  - unfold fuse_ll_ops. destruct (List.find _ _) as [[[o f] n]|] eqn:E; [|done]. intros _.
    apply List.find_some in E as [Hin Ho%Z.eqb_eq]. exists o. split; [done|].
    assert (Forall (fun x => unserved x.1.1 = false) fuse_ll_table) as Hall by (repeat constructor).
    rewrite Forall_forall in Hall. apply (Hall (o, f, n)). by apply list_elem_of_In.
  - intros (o & -> & Ho). by destruct o.
Qed.

Lemma opcode_eqb (o o' : fuse_opcode) : (opcode_val o =? opcode_val o') = true <-> o = o'.
Proof. rewrite Z.eqb_eq. split; [apply opcode_val_inj|by intros ->]. Qed.

Lemma init_gate got cuse (o : fuse_opcode) :
  fuse_req_opcode_sanity_ok got cuse o = 0 <->
  (if got then o <> FUSE_INIT /\ o <> CUSE_INIT else o = first_opcode cuse).
Proof.
  unfold fuse_req_opcode_sanity_ok, first_opcode, EIO. destruct got; cbn [negb].
  - destruct (opcode_val o =? FUSE_INIT) eqn:E1; cbn [orb].
    + apply opcode_eqb in E1 as ->. split; [done|]. by intros [].
    + destruct (opcode_val o =? CUSE_INIT) eqn:E2.
      * apply opcode_eqb in E2 as ->. split; [done|]. by intros [].
      * split; [|done]. intros _. split; intros ->; done.
  - destruct cuse;
      match goal with |- context [negb (?a =? ?b)] => destruct (a =? b) eqn:E end; cbn [negb];
      rewrite <- opcode_eqb; rewrite E; split; congruence.
Qed.

Lemma user_gate deny owner uid (o : fuse_opcode) :
  fuse_req_check_allow_root deny owner o uid = 0 <->
  (deny = true -> uid = owner \/ uid = 0 \/ free_for_all o = true).
Proof.
  unfold fuse_req_check_allow_root. destruct deny; cbn [andb]; [|split; [intros _; done|done]].
  destruct (Z.eqb_spec uid owner) as [->|Hu]; cbn [negb andb]; [split; [|done]; by left|].
  destruct (Z.eqb_spec uid 0) as [->|Hr]; cbn [negb andb]; [split; [|done]; by right; left|].
  destruct o; cbn; split; intros H; try done; try (by right; right);
    specialize (H eq_refl); destruct H as [?|[?|?]]; done.
Qed.

Lemma admitted_code se h o : admitted se h o -> reject_code se h = 0.
Proof.
  intros [Ho Hs Hi Hu Hn]. unfold reject_code. rewrite Ho.
  rewrite (proj2 (init_gate _ _ _) Hi), (proj2 (user_gate _ _ _ _) Hu). cbn [truth negb Z.eqb].
  assert ((FUSE_MAXOP <=? o) = false) as -> by (by destruct o).
  assert (is_set (fuse_ll_ops o) = true) as -> by (apply served_opcode; eauto). cbn [negb orb].
  destruct (no_interrupt (se_conn se)) eqn:En; [|done]. cbn [andb].
  destruct (opcode_val o =? FUSE_INTERRUPT) eqn:E; [|done].
  apply opcode_eqb in E. by destruct (Hn eq_refl).
Qed.

Lemma gate_admits se h : reject_code se h = 0 <-> exists o, admitted se h o.
Proof.
  split.
  - unfold reject_code. intros H.
    destruct (truth (fuse_req_opcode_sanity_ok _ _ _)) eqn:E1; [unfold truth in E1; zify_bool; lia|].
    destruct (truth (fuse_req_check_allow_root _ _ _ _)) eqn:E2; [unfold truth in E2; zify_bool; lia|].
    unfold truth in E1, E2. zify_bool.
    destruct (FUSE_MAXOP <=? in_header_opcode h) eqn:Em; cbn [orb] in H; [done|].
    destruct (is_set (fuse_ll_ops (in_header_opcode h))) eqn:Es; [|done]. cbn [negb] in H.
    apply served_opcode in Es as (o & Ho & Hs). exists o. rewrite Ho in *.
    constructor; [done|done|by apply init_gate|by apply user_gate|].
    intros Hn ->. by rewrite Hn in H.
  - intros (o & Ha). by eapply admitted_code.
Qed.

(** C20. The gate of a session.  A request passes it exactly when its opcode is one
    the library serves, it is the first message of a session before the
    handshake and any other after it, its user is the owner, root or allowed
    without being one, and it is no interrupt on a connection without them.
    All others are refused with one of three errors. *)
Theorem request_gate se h :
  (reject_code se h = 0 <-> exists o, admitted se h o) /\
  (reject_code se h <> 0 -> reject_code se h = EIO \/ reject_code se h = EACCES \/ reject_code se h = ENOSYS).
Proof.
  split; [apply gate_admits|].
  unfold reject_code, fuse_req_opcode_sanity_ok, fuse_req_check_allow_root. intros H.
  repeat (case_match; try done; auto); cbn in *; try done; repeat case_match; auto.
Qed.
End gate.

(** ** Operations a server leaves out *)

(** The server has no function for an opcode; opcodes that are served by the
    library itself or in another way are not among them. *)
Definition lacks {P : Platform} (ops : fuse_lowlevel_ops) (o : fuse_opcode) : bool :=
  match o with
  | FUSE_LOOKUP => negb (is_set (op_lookup ops))
  | FUSE_GETATTR => negb (is_set (op_getattr ops))
  | FUSE_SETATTR => negb (is_set (op_setattr ops))
  | FUSE_READLINK => negb (is_set (op_readlink ops))
  | FUSE_SYMLINK => negb (is_set (op_symlink ops))
  | FUSE_MKNOD => negb (is_set (op_mknod ops))
  | FUSE_MKDIR => negb (is_set (op_mkdir ops))
  | FUSE_UNLINK => negb (is_set (op_unlink ops))
  | FUSE_RMDIR => negb (is_set (op_rmdir ops))
  | FUSE_RENAME | FUSE_RENAME2 => negb (is_set (op_rename ops))
  | FUSE_LINK => negb (is_set (op_link ops))
  | FUSE_READ => negb (is_set (op_read ops))
  | FUSE_FSYNC => negb (is_set (op_fsync ops))
  | FUSE_SETXATTR => negb (is_set (op_setxattr ops))
  | FUSE_GETXATTR => negb (is_set (op_getxattr ops))
  | FUSE_LISTXATTR => negb (is_set (op_listxattr ops))
  | FUSE_REMOVEXATTR => negb (is_set (op_removexattr ops))
  | FUSE_FLUSH => negb (is_set (op_flush ops))
  | FUSE_READDIR => negb (is_set (op_readdir ops))
  | FUSE_READDIRPLUS => negb (is_set (op_readdirplus ops))
  | FUSE_FSYNCDIR => negb (is_set (op_fsyncdir ops))
  | FUSE_GETLK => negb (is_set (op_getlk ops))
  | FUSE_SETLK | FUSE_SETLKW => negb (is_set (op_setlk ops)) && negb (is_set (op_flock ops))
  | FUSE_ACCESS => negb (is_set (op_access ops))
  | FUSE_CREATE => negb (is_set (op_create ops))
  | FUSE_TMPFILE => negb (is_set (op_tmpfile ops))
  | FUSE_BMAP => negb (is_set (op_bmap ops))
  | FUSE_POLL => negb (is_set (op_poll ops))
  | FUSE_FALLOCATE => negb (is_set (op_fallocate ops))
  | FUSE_COPY_FILE_RANGE | FUSE_COPY_FILE_RANGE_64 => negb (is_set (op_copy_file_range ops))
  | FUSE_LSEEK => negb (is_set (op_lseek ops))
  | _ => false
  end.

(** Memory in which every fixed part and every string of a request ends. *)
Definition roomy (p : bytes) : Prop := 128 <= blen p /\ last p = Some 0.

Section missing.
Context {P : Platform} {PS : PlatformSpec P} {S : Server}.
Implicit Types (w : world) (l il : list Z).

Lemma cstr_last p : last p = Some 0 -> exists s, cstr p = Some s.
Proof.
  induction p as [|b p IH]; [done|]. cbn [cstr]. intros H. destruct (Z.eqb_spec b 0) as [->|Hb]; [eauto|].
  destruct p as [|c p]; [by injection H as ->|]. destruct IH as (s & ->); [done|]. eauto.
Qed.

Lemma roomy_string p n : roomy p -> (n < 128)%nat -> exists s, cstr (drop n p) = Some s.
Proof.
  intros [Hl Hz] Hn. apply cstr_last. rewrite <- Hz, !last_lookup, lookup_drop, length_drop.
  f_equal. unfold blen in Hl. lia.
Qed.

Lemma roomy_after p n w : roomy p -> (n < 128)%nat -> exists q, after_string (drop n p) w = Ok q w.
Proof.
  intros Hr Hn. destruct (roomy_string p n Hr Hn) as (s & Hs). unfold after_string.
  eexists. mstep by (by apply of_option_run). done.
Qed.

(** A step of a handler that changes nothing. *)
Lemma answers_step {A} (m : Z -> M A) (f : A -> Z -> M unit) a :
  (forall r w, exists x, m r w = Ok x w) -> (forall x, answers (f x) 0 a) ->
  answers (fun r => x ← m r; f x r) 0 a.
Proof.
  intros Hm Hf w r l il q u k Hl Hq Hu Hk Ha Hp. destruct (Hm r w) as (x & E).
  destruct (Hf x w r l il q u k) as (h & E' & Hfr); [done..|]. exists h. split; [|done].
  by mstep by (apply E).
Qed.

Lemma answers_assoc {A B} (m : Z -> M A) (f : Z -> A -> M B) (g : Z -> B -> M unit) n a :
  answers (fun r => m r ≫= (fun x => f r x ≫= g r)) n a -> answers (fun r => (m r ≫= f r) ≫= g r) n a.
Proof.
  intros Hm w r l il q u k Hl Hq Hu Hk Ha Hp.
  destruct (Hm w r l il q u k) as (h & E & Hf); [done..|]. exists h. by rewrite bind_assoc.
Qed.

(** An update of the request that keeps what the library relies on. *)
Definition harmless (f : fuse_req -> fuse_req) : Prop :=
  keeps_links f /\ forall q, rq_is_uring (f q) = rq_is_uring q /\ rq_ref_cnt (f q) = rq_ref_cnt q /\
                             rq_ukfs_req (f q) = rq_ukfs_req q.

Lemma answers_mod_req f (m : Z -> M unit) err :
  harmless f -> answers m 0 (A_err err) -> answers (fun r => mod_req r f;; m r) 0 (A_err err).
Proof.
  intros [Hk Hh] Hm w r l il q u k [L1 L2 (q' & Hq' & L3 & L4) L5] Hq Hu Huk Ha Hp.
  assert (q' = q) as -> by congruence. destruct (Hh q) as (Hf1 & Hf2 & Hf3).
  destruct (Hm (w_set_reqs (<[r := f q]> (w_reqs w)) w) r l il (f q) u k) as (h & E & F1 & F2); try done.
  - constructor; [done|by apply lists_ok_update| |].
    + exists (f q). cbn. rewrite lookup_insert_eq. split_and!; [done|congruence|congruence].
    + destruct L5 as [?|(?&?&?)]; [by left|right]. split_and!; [done..|]. by apply self_update.
  - apply lookup_insert_eq.
  - congruence.
  - exists h. split.
    + mstep by (by apply mod_req_run). rewrite E. rewrite !bump_0. unfold apply_answer, finish.
      cbn [w_uks w_set_reqs]. by rewrite Huk.
    + split; [done|]. rewrite F2. cbn [w_reqs w_set_reqs]. by rewrite contents_insert, delete_insert_eq.
Qed.

Lemma answers_enosys : answers (fun r => reply_err r ENOSYS) 0 (A_err ENOSYS).
Proof. apply reply_err_answers. Qed.

Lemma answers_umask umask (m : Z -> M unit) err :
  answers m 0 (A_err err) -> answers (fun r => set_umask r umask;; m r) 0 (A_err err).
Proof. apply answers_mod_req. split; intros q; by destruct q. Qed.

(** Reading a struct from memory that is large enough. *)
Lemma arg_of_room A `{Wire A} p w :
  sizeof A <= blen p -> (forall l, length l = length (layout A) -> is_Some (build l)) ->
  exists x, arg_of A p w = Ok x w.
Proof.
  intros Hs Hb. unfold arg_of, dec. rewrite (proj2 (Z.leb_le _ _)) by done.
  destruct (Hb (unpack (layout A) p)) as (x & ->); [apply length_unpack|]. by exists x.
Qed.

Ltac build_total :=
  let l := fresh in let Hl := fresh in
  intros l Hl; repeat (destruct l as [|? l]; [discriminate Hl|]);
  destruct l; [eexists; reflexivity|discriminate Hl].

(** One step of a handler that is about to fail with [ENOSYS]. *)
Ltac lack_step :=
  cbv beta zeta;
  lazymatch goal with
  | |- answers (fun r => reply_err r _) _ _ => apply answers_enosys
  | |- answers (fun r => minor ≫= _) _ _ =>
      apply (answers_step (fun r => minor)); [by intros ? ?w; eexists|intros ?x]
  | |- answers (fun r => gets _ ≫= _) _ _ =>
      apply (answers_step (fun r => gets _)); [by intros ? ?w; eexists|intros ?x]
  | |- answers (fun r => mret _ ≫= _) _ _ =>
      apply (answers_step (fun r => mret _)); [by intros ? ?w; eexists|intros ?x]
  | |- answers (fun r => arg_of _ _ ≫= _) _ _ =>
      apply (answers_step (fun r => arg_of _ _));
      [intros ? ?w; apply arg_of_room; [eapply Z.le_trans; [|eassumption]; by vm_compute|build_total]|intros ?x]
  | |- answers (fun r => after_string (if ?c then _ else _) ≫= _) _ _ => destruct c
  | |- answers (fun r => after_string _ ≫= _) _ _ =>
      apply (answers_step (fun r => after_string _));
      [intros ? ?w; unfold PARAM;
       lazymatch goal with
       | |- exists _, after_string (drop _ _) _ = _ => idtac
       | |- exists _, after_string ?q _ = _ => rewrite <- (drop_0 q)
       end; apply roomy_after; [done|by apply Nat.ltb_lt]
      |intros ?x]
  | |- answers (fun r => set_umask r _ ≫= _) _ _ => apply answers_umask
  | |- answers (fun r => mod_req r _ ≫= _) _ _ =>
      apply answers_mod_req; [split; intros ?q; by destruct q|]
  | |- answers (fun r => (_ ≫= _) ≫= _) _ _ => apply answers_assoc
  | |- answers (fun r => when ?c _ ≫= _) _ _ => destruct c; cbn [when]
  | |- _ => case_bool
  end.

(** An opcode the server has no function for ends in [ENOSYS]. *)
Lemma handler_lacks o node p :
  lacks se_op o = true -> roomy p ->
  exists f n, fuse_ll_ops o = Some (Func f, n) /\ answers (fun r => f r node p) 0 (A_err ENOSYS).
Proof.
  intros Hl Hr. pose proof Hr as [Hp _].
  destruct o; try done; eexists _, _; (split; [reflexivity|]); cbn [lacks] in Hl.
  - unfold do_lookup, _do_lookup. destruct (op_lookup se_op); [done|]. repeat lack_step.
  - unfold do_getattr, _do_getattr. destruct (op_getattr se_op); [done|]. repeat lack_step.
  - unfold do_setattr, _do_setattr. destruct (op_setattr se_op); [done|]. repeat lack_step.
  - unfold do_readlink, _do_readlink. destruct (op_readlink se_op); [done|]. repeat lack_step.
  - unfold do_symlink, _do_symlink. destruct (op_symlink se_op); [done|]. repeat lack_step.
  - unfold do_mknod, _do_mknod. destruct (op_mknod se_op); [done|]. repeat lack_step.
  - unfold do_mkdir, _do_mkdir. destruct (op_mkdir se_op); [done|]. repeat lack_step.
  - unfold do_unlink, _do_unlink. destruct (op_unlink se_op); [done|]. repeat lack_step.
  - unfold do_rmdir, _do_rmdir. destruct (op_rmdir se_op); [done|]. repeat lack_step.
  - unfold do_rename, _do_rename. destruct (op_rename se_op); [done|]. repeat lack_step.
  - unfold do_link, _do_link. destruct (op_link se_op); [done|]. repeat lack_step.
  - unfold do_read, _do_read. destruct (op_read se_op); [done|]. repeat lack_step.
  - unfold do_fsync, _do_fsync. destruct (op_fsync se_op); [done|]. repeat lack_step.
  - unfold do_setxattr, _do_setxattr. destruct (op_setxattr se_op); [done|]. repeat lack_step.
  - unfold do_getxattr, _do_getxattr. destruct (op_getxattr se_op); [done|]. repeat lack_step.
  - unfold do_listxattr, _do_listxattr. destruct (op_listxattr se_op); [done|]. repeat lack_step.
  - unfold do_removexattr, _do_removexattr. destruct (op_removexattr se_op); [done|]. repeat lack_step.
  - unfold do_flush, _do_flush. destruct (op_flush se_op); [done|]. repeat lack_step.
  - unfold do_readdir, _do_readdir. destruct (op_readdir se_op); [done|]. repeat lack_step.
  - unfold do_fsyncdir, _do_fsyncdir. destruct (op_fsyncdir se_op); [done|]. repeat lack_step.
  - unfold do_getlk, _do_getlk. destruct (op_getlk se_op); [done|]. repeat lack_step.
  - unfold do_setlk, _do_setlk, do_setlk_common. apply andb_true_iff in Hl as [Hl1 Hl2].
    destruct (op_setlk se_op), (op_flock se_op); try done. repeat lack_step.
  - unfold do_setlkw, _do_setlkw, do_setlk_common. apply andb_true_iff in Hl as [Hl1 Hl2].
    destruct (op_setlk se_op), (op_flock se_op); try done. repeat lack_step.
  - unfold do_access, _do_access. destruct (op_access se_op); [done|]. repeat lack_step.
  - unfold do_create, _do_create. destruct (op_create se_op); [done|]. repeat lack_step.
  - unfold do_bmap, _do_bmap. destruct (op_bmap se_op); [done|]. repeat lack_step.
  - unfold do_poll, _do_poll. destruct (op_poll se_op); [done|]. repeat lack_step.
  - unfold do_fallocate, _do_fallocate. destruct (op_fallocate se_op); [done|]. repeat lack_step.
  - unfold do_readdirplus, _do_readdirplus. destruct (op_readdirplus se_op); [done|]. repeat lack_step.
  - unfold do_rename2, _do_rename2. destruct (op_rename se_op); [done|]. repeat lack_step.
  - unfold do_lseek, _do_lseek. destruct (op_lseek se_op); [done|]. repeat lack_step.
  - unfold do_copy_file_range, _do_copy_file_range, copy_file_range_common. destruct (op_copy_file_range se_op); [done|]. repeat lack_step.
  - unfold do_tmpfile, _do_tmpfile. destruct (op_tmpfile se_op); [done|]. repeat lack_step.
  - unfold do_copy_file_range_64, _do_copy_file_range_64, copy_file_range_common. destruct (op_copy_file_range se_op); [done|]. repeat lack_step.
Qed.
End missing.

Section dispatch.
Context {P : Platform} {PS : PlatformSpec P} {S : Server}.
Implicit Types (w : world) (l il : list Z).

(** What every answered request leaves behind: its client woken up with [err]
    and no data, its object gone, everything else as before. *)
Record refused (u : Z) (k : fuse_ukfs_request) (err : Z) l il w w' : Prop := {
  rf_client : w_uks w' = <[u := answered k (- err) None 0]> (w_uks w);
  rf_once : sem_value (uq_done (answered k (- err) None 0)) = Datatypes.S (sem_value (uq_done k));
  rf_lists : lists_ok (w_reqs w') l il;
  rf_reqs : contents (w_reqs w') = contents (w_reqs w);
  rf_blobs : w_blobs w' = w_blobs w;
  rf_mem : w_mem w' = w_mem w;
  rf_se : w_se w' = w_se w;
  rf_trace : w_trace w' = w_trace w }.

Lemma fresh_contents w l il :
  sess_ok w l il -> delete (w_next w) (contents (w_reqs w)) = contents (w_reqs w).
Proof.
  intros [_ _ Hf]. apply delete_id. unfold contents. rewrite lookup_fmap.
  destruct (w_reqs w !! w_next w) eqn:E; [|done].
  pose proof (Hf (w_next w)) as H. rewrite E in H. specialize (H (ltac:(eauto))). lia.
Qed.

(** C33. A request the gate refuses is answered: its client is woken up once with
    the reason and no data, the library's object for it is gone, and the
    requests in progress, the session, its memory and the device are as
    before.  No function of the server runs. *)
Theorem refused_request_answered w b size h payload u k l il :
  w_mem w !! b = Some (enc h ++ payload) -> wire_wf h -> alloc_ok (w_nalloc w) = true ->
  sess_ok w l il -> w_uks w !! u = Some k -> (forall o, ~ admitted (w_se w) h o) ->
  exists w', fuse_session_process_buf_internal (req_buf b size) (Some u) w = Ok tt w' /\
    refused u k (reject_code (w_se w) h) l il w w'.
Proof.
  intros Hb Hwf Ha Hs Hu Hno.
  assert (reject_code (w_se w) h <> 0) as Hrej.
  { intros [o Ho]%(proj1 (gate_admits _ _)). by apply (Hno o). }
  destruct (process_reject w b size h payload u k l il Hb Hwf Ha Hs Hu Hrej) as (hp & E & Hl & Hc).
  eexists. split; [exact E|]. unfold finish. cbn [w_uks with_req w_set_reqs w_set_next w_set_nalloc].
  rewrite Hu. constructor; try done; [destruct k; apply sem_up_value|].
  cbn [w_reqs w_set_reqs]. by rewrite Hc, (fresh_contents _ _ _ Hs).
Qed.

(** An operation the server leaves out.  A request that passes the gate, for
    an opcode whose function the server does not have, is entered among the
    requests in progress, answered once with [-ENOSYS] and no data, and gone. *)
Theorem missing_operation_answered w b size h o payload u k l :
  w_mem w !! b = Some (enc h ++ payload) -> wire_wf h -> alloc_ok (w_nalloc w) = true ->
  sess_ok w l [] -> w_uks w !! u = Some k -> 4 <= proto_minor (se_conn (w_se w)) ->
  admitted (w_se w) h o -> lacks se_op o = true -> roomy payload ->
  exists w', fuse_session_process_buf_internal (req_buf b size) (Some u) w = Ok tt w' /\
    refused u k ENOSYS l [] w w'.
Proof.
  intros Hb Hwf Ha Hs Hu Hm Hadm Hl Hr.
  pose proof (admitted_code _ _ _ Hadm) as Hrej. destruct Hadm as [Ho _ _ _ _].
  destruct (handler_lacks o (in_header_nodeid h) payload Hl Hr) as (f & n & Hf & Hans).
  destruct (process_accept w b size h payload u l f n Hb Hwf Ha Hs Hrej) as (hp & q & E & Hlive & Hq & Hst & Hc);
    [by rewrite Ho|rewrite Ho; by destruct o..|left; rewrite Ho; by destruct o|].
  set (w1 := w_set_reqs hp (with_req h (Some u) w)) in *.
  destruct (Hans w1 (w_next w) (in_progress w l) [] q u k) as (hp' & E' & F1 & F2); try done.
  { by destruct (strip_update _ _ Hst) as (_ & -> & _). }
  { intros i Hi. lia. }
  eexists. split; [rewrite E; by mstep by (apply E')|].
  rewrite bump_0. unfold apply_answer, finish. change (w_uks w1) with (w_uks w). rewrite Hu.
  constructor; try done.
  - destruct k. apply sem_up_value.
  - by eapply in_progress_freed.
  - cbn [w_reqs w_set_reqs w_set_uks]. change (w_reqs w1) with hp in F2.
    by rewrite F2, Hc, delete_insert_eq, (fresh_contents _ _ _ Hs).
Qed.
End dispatch.

(** ** A refused handshake, and a file that cannot be removed *)

Definition message_world (h : fuse_in_header) (payload : bytes) : @world good :=
  w_set_mem {[DAEMON_BUF := enc h ++ payload]} client_world.
Definition init_header : fuse_in_header := daemon_header FUSE_INIT 1 1 40.
Definition unlink_header : fuse_in_header := daemon_header FUSE_UNLINK 1 1 168.

Lemma message_sess_ok h payload : sess_ok (message_world h payload) [] [].
Proof. destruct client_sess_ok as [H1 H2 H3]. by constructor. Qed.

Lemma refused_request_answered_witness : exists w' : @world good,
  @fuse_session_process_buf_internal good hello_server (req_buf DAEMON_BUF 40) (Some 8)
    (message_world init_header []) = Ok tt w' /\
  @uq_error good <$> (w_uks w' !! 8) = Some (- EIO).
Proof.
  destruct (@refused_request_answered good good_spec hello_server (message_world init_header [])
    DAEMON_BUF 40 init_header [] 8 (new_request good_world (In_getattr 1)) [] []) as (w' & E & [Hu _ _ _ _ _ _ _]).
  - apply lookup_singleton_eq.
  - apply daemon_header_wf; by vm_compute.
  - reflexivity.
  - apply message_sess_ok.
  - exact serving_client.
  - intros o Ho. apply admitted_code in Ho. by vm_compute in Ho.
  - exists w'. split; [exact E|]. rewrite Hu, lookup_insert_eq. reflexivity.
Defined.

Lemma missing_operation_answered_witness : exists w' : @world good,
  @fuse_session_process_buf_internal good hello_server (req_buf DAEMON_BUF 168) (Some 8)
    (message_world unlink_header (repeat 0 128)) = Ok tt w' /\
  @uq_error good <$> (w_uks w' !! 8) = Some (- ENOSYS).
Proof.
  destruct (@missing_operation_answered good good_spec hello_server (message_world unlink_header (repeat 0 128))
    DAEMON_BUF 168 unlink_header FUSE_UNLINK (repeat 0 128) 8 (new_request good_world (In_getattr 1)) [])
    as (w' & E & [Hu _ _ _ _ _ _ _]).
  - apply lookup_singleton_eq.
  - apply daemon_header_wf; by vm_compute.
  - reflexivity.
  - apply message_sess_ok.
  - exact serving_client.
  - by vm_compute.
  - constructor; try reflexivity; [by split|done|done].
  - reflexivity.
  - split; [by vm_compute|reflexivity].
  - exists w'. split; [exact E|]. rewrite Hu, lookup_insert_eq. reflexivity.
Defined.
