(* ===== verification/InterruptProps.v ===== *)
(** * Properties of interrupts

    An interrupt reaches the request it names, whichever of the two arrives
    first, and leaves nothing behind; interrupts that name no known request
    wait, and are handed out again when they cannot be meant. *)

From S2P Require Import Prelude Wire Platform KernelAbi LinkedList World Monad Request Reply.
From S2P Require Import Buffer Server Handlers Interrupt Notify Init Session Queue Daemon UkFs.
From S2P Require Import System FileOps Boot HelloLl Examples.

Section interrupt_props.
Context {P : Platform} {PS : PlatformSpec P} {S : Server}.
Implicit Types (w : world) (l il : list Z) (h : gmap Z fuse_req).














End interrupt_props.

(** ** The interrupt of request 9, on time and too early *)




