(* ===== verification/InitProps.v ===== *)
(** * Properties of the negotiation

    What the feature flag functions maintain, what the conversion of the old
    flag word to the new one does, and that the negotiation itself cannot
    succeed with the sessions the library creates. *)

From S2P Require Import Prelude Wire Platform KernelAbi LinkedList World Monad Request Reply.
From S2P Require Import Buffer Server Handlers Interrupt Notify Init Session Queue Daemon UkFs.
From S2P Require Import System FileOps Boot HelloLl Examples.

(** ** Feature flags *)

(** A call of a feature flag function for the flag of bit [k]. *)
Inductive flag_call := Set_flag (k : Z) | Unset_flag (k : Z) | Get_flag (k : Z).

Definition bit_flag (k : Z) : Z := Z.shiftl 1 k.

Definition flag_call_ok (c : flag_call) : Prop :=
  match c with Set_flag k | Unset_flag k | Get_flag k => 0 <= k < 64 end.

(** Bit [i] of [want_ext] after a call; [cap] are the capabilities. *)
Definition track (cap i : Z) (old : bool) (c : flag_call) : bool :=
  match c with
  | Set_flag k => if i =? k then Z.testbit cap k || old else old
  | Unset_flag k => if i =? k then false else old
  | Get_flag _ => old
  end.

Section flags.
Context {P : Platform}.
Implicit Types (w : world).

Definition run_flag_call (c : flag_call) : M unit :=
  match c with
  | Set_flag k => fuse_set_feature_flag (bit_flag k);; mret tt
  | Unset_flag k => fuse_unset_feature_flag (bit_flag k)
  | Get_flag k => fuse_get_feature_flag (bit_flag k);; mret tt
  end.

Fixpoint run_flag_calls (cs : list flag_call) : M unit :=
  match cs with [] => mret tt | c :: cs => run_flag_call c;; run_flag_calls cs end.

(** The capabilities, what is wanted, and the old flag word. *)
Definition caps w : Z := capable_ext (se_conn (w_se w)).
Definition wanted w : Z := want_ext (se_conn (w_se w)).
Definition old_wanted w : Z := want (se_conn (w_se w)).

Lemma flag_bit x k : 0 <= k -> flag x (bit_flag k) = Z.testbit x k.
Proof.
  intros Hk. unfold flag, bit_flag. rewrite Z.shiftl_1_l.
  destruct (Z.testbit x k) eqn:E.
  - apply negb_true_iff, Z.eqb_neq. intros H.
    assert (Z.testbit (Z.land x (2 ^ k)) k = true) as Ht by (by rewrite Z.land_spec, E, Z.pow2_bits_true).
    by rewrite H, Z.bits_0 in Ht.
  - apply negb_false_iff, Z.eqb_eq, Z.bits_inj'. intros i Hi. rewrite Z.land_spec, Z.bits_0.
    destruct (decide (i = k)) as [->|Hne]; [by rewrite E|].
    rewrite Z.pow2_bits_false by lia. apply andb_false_r.
Qed.

Lemma lor_bit x k i : 0 <= k -> 0 <= i ->
  Z.testbit (Z.lor x (bit_flag k)) i = (if i =? k then true else Z.testbit x i).
Proof.
  intros Hk Hi. unfold bit_flag. rewrite Z.lor_spec, Z.shiftl_1_l.
  destruct (Z.eqb_spec i k) as [->|Hne]; [by rewrite Z.pow2_bits_true, orb_true_r|].
  by rewrite Z.pow2_bits_false, orb_false_r by lia.
Qed.

Lemma clear_bit x k i : 0 <= k -> 0 <= i < 64 ->
  Z.testbit (Z.land x (not64 (bit_flag k))) i = (if i =? k then false else Z.testbit x i).
Proof.
  intros Hk Hi. unfold not64, bit_flag. rewrite Z.land_spec, Z.lxor_spec, Z.shiftl_1_l.
  assert (Z.testbit (2 ^ 64 - 1) i = true) as ->.
  { change (2 ^ 64 - 1) with (Z.ones 64). by apply Z.ones_spec_low. }
  destruct (Z.eqb_spec i k) as [->|Hne]; [by rewrite Z.pow2_bits_true, andb_false_r|].
  by rewrite Z.pow2_bits_false, andb_true_r by lia.
Qed.

(** [u32] takes the low half, bit by bit. *)
Lemma u32_lor x y : u32 (Z.lor (u32 x) y) = u32 (Z.lor x y).
Proof.
  apply Z.bits_inj'. intros i Hi. rewrite !u32_bit, !Z.lor_spec, u32_bit by done.
  by destruct (i <? 32).
Qed.

Lemma u32_land x y : u32 (Z.land (u32 x) y) = u32 (Z.land x y).
Proof.
  apply Z.bits_inj'. intros i Hi. rewrite !u32_bit, !Z.land_spec, u32_bit by done.
  by destruct (i <? 32).
Qed.

(** One call: capabilities stay, the wanted bits follow [track], and the old
    flag word stays the low half of the new one. *)
Lemma run_flag_call_spec c w :
  flag_call_ok c -> old_wanted w = u32 (wanted w) ->
  exists se, run_flag_call c w = Ok tt (w_set_se se w) /\
    let w' := w_set_se se w in
    caps w' = caps w /\ old_wanted w' = u32 (wanted w') /\
    (forall i, 0 <= i < 64 -> Z.testbit (wanted w') i = track (caps w) i (Z.testbit (wanted w) i) c).
Proof.
  intros Hc Hs. destruct c as [k|k|k]; cbn [flag_call_ok track] in *.
  - unfold run_flag_call, fuse_set_feature_flag. rewrite bind_assoc. mstep by done.
    rewrite flag_bit by lia. destruct (Z.testbit (capable_ext (se_conn (w_se w))) k) eqn:E.
    + rewrite !bind_assoc. do 4 (rewrite ?bind_assoc; mstep by done). eexists. split.
      { rewrite ?bind_assoc. mstep by done. destruct w as [? ? ? ? ? ? ? ? ? ? se ? ? ? ?], se as [? ? ? ? ? ? ? conn], conn. reflexivity. }
      cbn. destruct w as [? ? ? ? ? ? ? ? ? ? se ? ? ? ?], se as [? ? ? ? ? ? ? conn], conn.
      unfold caps, wanted, old_wanted in *. cbn in *. split_and!; [done| |].
      * rewrite Hs. apply u32_lor.
      * intros i Hi. rewrite lor_bit by lia. rewrite E. by destruct (Z.eqb_spec i k) as [->|].
    + mstep by done. exists (w_se w). rewrite w_set_se_id. split; [done|]. split_and!; [done|done|].
      intros i Hi. unfold caps. rewrite E. by destruct (Z.eqb_spec i k) as [->|].
  - unfold run_flag_call, fuse_unset_feature_flag. do 3 mstep by done. eexists. split.
    { destruct w as [? ? ? ? ? ? ? ? ? ? se ? ? ? ?], se as [? ? ? ? ? ? ? conn], conn. reflexivity. }
    destruct w as [? ? ? ? ? ? ? ? ? ? se ? ? ? ?], se as [? ? ? ? ? ? ? conn], conn.
    unfold caps, wanted, old_wanted in *. cbn in *. split_and!; [done| |].
    + rewrite Hs. apply u32_land.
    + intros i Hi. by rewrite clear_bit by lia.
  - unfold run_flag_call, fuse_get_feature_flag. rewrite bind_assoc. do 2 mstep by done.
    exists (w_se w). rewrite w_set_se_id. done.
Qed.

Lemma valid_bits cap x :
  is_u 64 cap -> want_flags_valid cap x = true <->
  (forall i, 0 <= i < 64 -> Z.testbit x i = true -> Z.testbit cap i = true).
Proof.
  intros Hc. unfold want_flags_valid, not64. rewrite Z.eqb_eq. change (2 ^ 64 - 1) with (Z.ones 64).
  split.
  - intros H i Hi Hx. assert (Z.testbit (Z.land x (Z.lxor (Z.ones 64) cap)) i = false) as Hb by (by rewrite H, Z.bits_0).
    rewrite Z.land_spec, Z.lxor_spec, Hx, Z.ones_spec_low in Hb by done. by destruct (Z.testbit cap i).
  - intros H. apply Z.bits_inj'. intros i Hi. rewrite Z.land_spec, Z.lxor_spec, Z.bits_0.
    destruct (decide (i < 64)) as [Hlt|Hge].
    + rewrite Z.ones_spec_low by lia. specialize (H i (ltac:(lia))).
      destruct (Z.testbit x i); [by rewrite H|done].
    + rewrite Z.ones_spec_high by lia.
      assert (Z.testbit cap i = false) as ->; [|by rewrite andb_false_r].
      rewrite <- (Z.mod_small cap (2 ^ 64)) by done. by rewrite Z.mod_pow2_bits_high by lia.
Qed.

Lemma track_valid cap i old c : flag_call_ok c -> (old = true -> Z.testbit cap i = true) ->
  track cap i old c = true -> Z.testbit cap i = true.
Proof.
  intros Hc Ho. destruct c as [k|k|k]; cbn; [|by destruct (i =? k); auto|done].
  destruct (Z.eqb_spec i k) as [->|]; [|done]. destruct (Z.testbit cap k); [done|]. cbn. auto.
Qed.

Lemma run_flag_calls_spec cs w :
  Forall flag_call_ok cs -> is_u 64 (caps w) -> old_wanted w = u32 (wanted w) ->
  exists w', run_flag_calls cs w = Ok tt w' /\
    (forall i, 0 <= i < 64 ->
       Z.testbit (wanted w') i = fold_left (track (caps w) i) cs (Z.testbit (wanted w) i)) /\
    caps w' = caps w /\ old_wanted w' = u32 (wanted w') /\
    (want_flags_valid (caps w) (wanted w) = true -> want_flags_valid (caps w') (wanted w') = true).
Proof.
  intros Hcs. revert w. induction Hcs as [|c cs Hc _ IH]; intros w Hcap Hold; [by exists w|].
  destruct (run_flag_call_spec c w Hc Hold) as (se & E & Hc1 & Hc2 & Hc3).
  set (w1 := w_set_se se w) in *. destruct (IH w1) as (w' & E' & H1 & H2 & H3 & H4); [congruence|done|].
  exists w'. split; [cbn; by mstep by (apply E)|]. split_and!.
  - intros i Hi. cbn. rewrite H1, Hc3, Hc1 by done. done.
  - congruence.
  - done.
  - intros Hv. apply H4. rewrite Hc1. apply (valid_bits _ _ Hcap). intros i Hi. rewrite Hc3 by done.
    apply track_valid; [done|]. by apply (valid_bits _ _ Hcap).
Qed.

(** C32. The feature flag functions, called in any order.  A bit of the wanted
    features is what the last call for it made it: set when the peer offers the
    feature, cleared by an unset, untouched by everything else.  The offer never
    changes, what is wanted stays within the offer, and the 32-bit flag word
    older servers use stays the low half of the wanted features. *)
Theorem feature_flags_tracked cs w :
  Forall flag_call_ok cs -> is_u 64 (caps w) -> old_wanted w = u32 (wanted w) ->
  exists w', run_flag_calls cs w = Ok tt w' /\
    (forall i, 0 <= i < 64 ->
       Z.testbit (wanted w') i = fold_left (track (caps w) i) cs (Z.testbit (wanted w) i)) /\
    caps w' = caps w /\ old_wanted w' = u32 (wanted w') /\
    (want_flags_valid (caps w) (wanted w) = true -> want_flags_valid (caps w') (wanted w') = true).
Proof. apply run_flag_calls_spec. Qed.
End flags.

(** ** The old flag word *)

Section conversion.
Context {P : Platform}.
Implicit Types (w : world).

(** The server changed the old flag word, and not to what the new one says. *)
Definition word_changed w : bool :=
  negb (old_wanted w =? se_conn_want (w_se w)) && negb (u32 (wanted w) =? old_wanted w).

(** High bits from the new flags, low bits from the old word: what the comment
    in the source asks for. *)
Definition merged (new old : Z) : Z := Z.lor (Z.shiftl (Z.shiftr new 32) 32) old.

Lemma shiftr_small x : 0 <= x -> Z.shiftr x 32 = 0 <-> x < 2 ^ 32.
Proof.
  intros Hx. rewrite Z.shiftr_div_pow2 by lia. split; intros H.
  - pose proof (Z.div_mod x (2 ^ 32)). pose proof (Z.mod_pos_bound x (2 ^ 32)). lia.
  - by apply Z.div_small.
Qed.

(** [fuse_convert_to_conn_want_ext].  When the server set both flag words the
    call fails and changes nothing; when it set the old one, the new one takes
    it over; otherwise the new one stays.  On success the old word is the low
    half of the new one.  The take-over keeps the high bits, as it means to,
    only when there are none: any feature above bit 31 is lost. *)
Theorem old_flag_word_conversion w :
  is_u 32 (old_wanted w) -> is_u 64 (wanted w) ->
  exists res c', fuse_convert_to_conn_want_ext w = Ok res (w_set_se (se_set_conn c' (w_se w)) w) /\
    (if word_changed w then
       if wanted w =? se_conn_want_ext (w_se w) then
         res = 0 /\ want c' = u32 (want_ext c') /\ is_u 32 (want_ext c') /\
         (want_ext c' = merged (wanted w) (old_wanted w) <-> wanted w < 2 ^ 32)
       else res = - EINVAL /\ c' = se_conn (w_se w)
     else res = 0 /\ want_ext c' = wanted w /\ want c' = u32 (wanted w)).
Proof.
  intros Ho Hn. unfold fuse_convert_to_conn_want_ext.
  mstep by done. fold (old_wanted w) (wanted w). change (fuse_lower_32_bits (wanted w)) with (u32 (wanted w)).
  fold (word_changed w). destruct (word_changed w) eqn:Ech; cbn [andb].
  - destruct (Z.eqb_spec (wanted w) (se_conn_want_ext (w_se w))) as [E|E]; cbn [negb].
    + assert (is_u 32 (Z.shiftr (wanted w) 32)) as Hsr.
      { rewrite Z.shiftr_div_pow2 by lia. unfold is_u in *. split; [apply Z.div_pos; lia|].
        apply Z.div_lt_upper_bound; lia. }
      eexists 0, (conn_set_want _ (conn_set_want_ext _ (se_conn (w_se w)))). split.
      { cbn [when]. mstep by done. mstep by done.
        destruct w as [? ? ? ? ? ? ? ? ? ? se ? ? ? ?], se as [? ? ? ? ? ? ? conn], conn. reflexivity. }
      destruct (se_conn (w_se w)) as [? ? ? ? ? ? wo ? ? ? ? ? ? wn ?] eqn:Ec.
      unfold wanted, old_wanted in *. rewrite Ec in *. cbn in *.
      unfold fuse_higher_32_bits. rewrite (wrapu_id 32 _ Hsr : u32 _ = _).
      split_and!; [done|by destruct (w_se w)|by apply lor_u32|].
      rewrite <- (shiftr_small wn) by apply Hn. unfold merged. split; [|intros ->; done].
      intros Hm. destruct (decide (Z.shiftr wn 32 = 0)) as [|Hne]; [done|exfalso].
      assert (Z.shiftr (Z.lor (Z.shiftl (Z.shiftr wn 32) 32) wo) 32 = Z.shiftr wn 32) as Hs.
      { rewrite Z.shiftr_lor, Z.shiftr_shiftl_l by lia. rewrite Z.sub_diag, Z.shiftl_0_r.
        rewrite (proj2 (shiftr_small wo (proj1 Ho)) (proj2 Ho)). apply Z.lor_0_r. }
      rewrite <- Hm in Hs. pose proof (lor_u32 _ _ Hsr Ho) as Hl.
      rewrite (proj2 (shiftr_small _ (proj1 Hl)) (proj2 Hl)) in Hs. by rewrite <- Hs in Hne.
    + exists (- EINVAL), (se_conn (w_se w)). split; [|done].
      destruct w as [? ? ? ? ? ? ? ? ? ? se ? ? ? ?], se as [? ? ? ? ? ? ? conn]. reflexivity.
  - eexists 0, (conn_set_want _ (se_conn (w_se w))). split.
    { cbn [when]. mstep by done. mstep by done.
      destruct w as [? ? ? ? ? ? ? ? ? ? se ? ? ? ?], se as [? ? ? ? ? ? ? conn], conn. reflexivity. }
    unfold wanted. by destruct (se_conn (w_se w)).
Qed.
End conversion.

(** ** The handshake *)

Section handshake.
Context {P : Platform} {PS : PlatformSpec P} {S : Server}.
Implicit Types (w : world) (l il : list Z).

(** Only parts of the session that the handshake does not depend on change. *)
Record negotiating w w' : Prop := {
  ng_world : w' = w_set_se (w_se w') w;
  ng_lock : se_lock (w_se w') = se_lock (w_se w);
  ng_finish : se_mt_finish (w_se w') = se_mt_finish (w_se w);
  ng_max_read : max_read (se_conn (w_se w')) = max_read (se_conn (w_se w));
  ng_no_interrupt : no_interrupt (se_conn (w_se w')) = no_interrupt (se_conn (w_se w)) }.

Lemma negotiating_refl w : negotiating w w.
Proof. constructor; try done. by rewrite w_set_se_id. Qed.

Lemma negotiating_trans w1 w2 w3 : negotiating w1 w2 -> negotiating w2 w3 -> negotiating w1 w3.
Proof.
  intros [H1 H2 H3 H4 H5] [G1 G2 G3 G4 G5]. constructor; try congruence.
  rewrite G1. rewrite H1 at 1. by destruct w1.
Qed.

(** A step of the negotiation. *)
Definition negotiates (m : M unit) : Prop := forall w, exists w', m w = Ok tt w' /\ negotiating w w'.

Lemma negotiates_ret : negotiates (mret tt).
Proof. intros w. exists w. split; [done|apply negotiating_refl]. Qed.

Lemma negotiates_seq m1 m2 : negotiates m1 -> negotiates m2 -> negotiates (m1;; m2).
Proof.
  intros H1 H2 w. destruct (H1 w) as (w1 & E1 & N1). destruct (H2 w1) as (w2 & E2 & N2).
  exists w2. split; [by mstep by (exact E1)|by eapply negotiating_trans].
Qed.

Lemma negotiates_when c m : negotiates m -> negotiates (when c m).
Proof. intros H. destruct c; [done|apply negotiates_ret]. Qed.

Lemma negotiates_conn f :
  (forall c, max_read (f c) = max_read c /\ no_interrupt (f c) = no_interrupt c) -> negotiates (mod_conn f).
Proof.
  intros Hf w. eexists. split; [done|].
  destruct w as [? ? ? ? ? ? ? ? ? ? se ? ? ? ?], se as [? ? ? ? ? ? ? conn]. destruct (Hf conn) as [H1 H2].
  constructor; done.
Qed.

Lemma negotiates_flag k : 0 <= k < 64 -> negotiates (fuse_set_feature_flag (bit_flag k);; mret tt).
Proof.
  intros Hk w. unfold fuse_set_feature_flag. rewrite bind_assoc. mstep by done.
  case_bool.
  - rewrite !bind_assoc. do 4 (rewrite ?bind_assoc; mstep by done). eexists. split; [done|].
    destruct w as [? ? ? ? ? ? ? ? ? ? se ? ? ? ?], se as [? ? ? ? ? ? ? conn], conn. constructor; done.
  - exists w. split; [done|apply negotiating_refl].
Qed.

Lemma negotiates_default c k : 0 <= k < 64 -> negotiates (ll_set_default c (bit_flag k)).
Proof. intros Hk. by apply negotiates_when, negotiates_flag. Qed.

Lemma negotiates_defaults : negotiates ll_set_defaults.
Proof.
  unfold ll_set_defaults.
  repeat apply negotiates_seq; [by apply (negotiates_default _ 0)|by apply (negotiates_default _ 12)
   |by apply (negotiates_default _ 15)|by apply (negotiates_default _ 11)|by apply (negotiates_default _ 3)
   |by apply (negotiates_default _ 9)|by apply (negotiates_default _ 1)|by apply (negotiates_default _ 10)
   |by apply (negotiates_default _ 13)|by apply (negotiates_default _ 14)|by apply (negotiates_default _ 31)].
Qed.

Lemma live_negotiating w w' r l il : negotiating w w' -> live w r l il -> live w' r l il.
Proof.
  intros [H1 H2 _ _ H5] [L1 L2 L3 L4].
  assert (w_reqs w' = w_reqs w) as Hr by (rewrite H1; by destruct w).
  constructor; rewrite ?Hr, ?H2, ?H5; done.
Qed.

(** A failed negotiation answers and then uses a semaphore nobody set up. *)
Lemma init_fail_run w r l il q u k :
  live w r l il -> w_reqs w !! r = Some q -> rq_ukfs_req q = Some u -> w_uks w !! u = Some k ->
  se_mt_finish (w_se w) = None -> init_fail r w = Fault Uninitialized.
Proof.
  intros Hl Hq Hu Hk Hf. unfold init_fail, reply_err. rewrite bind_assoc.
  destruct (fuse_reply_err_run w r l il q u k EPROTO Hl Hq Hu Hk) as (h & E & _).
  mstep by (apply E). mstep by done. mstep by done. unfold fuse_session_exit.
  mstep by done. mstep by done. apply bind_fault.
  destruct (finish_frame u (- EPROTO) None 0 w) as [_ Hs].
  unfold of_option. cbn [w_se w_set_se w_set_reqs]. rewrite Hs. destruct (w_se w). cbn in *. by rewrite Hf.
Qed.

(** C40. The handshake cannot complete.  A session as [fuse_session_new] leaves it
    refuses INIT at the gate; and for every session with the read size set
    there, a server without an [init] function and a peer of the supported
    major version, the negotiation itself fails on the read size and then
    posts the semaphore [mt_finish], which was never initialised. *)
Theorem init_never_completes w r l il q u k arg rest node payload h :
  live w r l il -> w_reqs w !! r = Some q -> rq_ukfs_req q = Some u -> w_uks w !! u = Some k ->
  op_init se_op = None -> se_mt_finish (w_se w) = None ->
  max_read (se_conn (w_se w)) = max_read (se_conn booted_session) ->
  wire_wf arg -> init_in_major arg = 7 -> in_header_opcode h = FUSE_INIT ->
  reject_code booted_session h = EIO /\
  _do_init r node (enc arg ++ rest) payload w = Fault Uninitialized.
Proof.
  intros Hl Hq Hu Hk Hop Hfin Hmr Hwf Hmaj Hh. split.
  { unfold reject_code. by rewrite Hh. }
  unfold _do_init. mstep by (by apply arg_of_run). mstep by done. rewrite Hmaj.
  assert (forall m, negotiates m -> forall (f : unit -> M unit) w0, negotiating w w0 ->
    (forall w1, negotiating w w1 -> f tt w1 = Fault Uninitialized) -> (m ≫= f) w0 = Fault Uninitialized) as Hstep.
  { intros m Hm f w0 H0 Hf. destruct (Hm w0) as (w1 & E & N). mstep by (exact E).
    apply Hf. by eapply negotiating_trans. }
  apply Hstep; [by apply negotiates_conn; intros []|apply negotiating_refl|]. intros w1 N1.
  cbn [Z.ltb Z.compare Pos.compare Pos.compare_cont].
  apply Hstep; [|done|].
  { destruct (6 <=? init_in_minor arg); [|by apply negotiates_conn; intros []].
    intros w0. destruct (negotiates_seq
      (when (init_in_max_readahead arg <? max_readahead (se_conn (w_se w0)))
         (mod_conn (conn_set_max_readahead (init_in_max_readahead arg))))
      (mod_conn (conn_set_capable_ext (init_caps arg (init_inargflags arg))))) with (w := w0) as (w2 & E2 & N2).
    - apply negotiates_when, negotiates_conn. by intros [].
    - apply negotiates_conn. by intros [].
    - exists w2. split; [|done]. mstep by done. exact E2. }
  intros w2 N2. apply Hstep; [by apply negotiates_when, negotiates_conn; intros []|done|]. intros w3 N3.
  apply Hstep; [apply negotiates_defaults|done|]. intros w4 N4.
  apply Hstep; [by apply negotiates_conn; intros []|done|]. intros w5 N5. rewrite Hop.
  mstep by done. mstep by done.
  assert (init_fail r w5 = Fault Uninitialized) as Hfail.
  { pose proof N5 as [G1 G2 G3 G4 G5]. apply (init_fail_run w5 r l il q u k).
    - by eapply live_negotiating.
    - rewrite G1. by destruct w.
    - done.
    - rewrite G1. by destruct w.
    - congruence. }
  destruct (want_flags_valid _ _); cbn [negb]; [|exact Hfail].
  destruct N5 as [_ _ _ Hm5 _]. rewrite Hm5, Hmr. exact Hfail.
Qed.
End handshake.

(** ** Flags, flag words and a handshake *)

(** The state after start-up with a connection of its own. *)
Definition conn_world (capable_ext want_ext want : Z) : @world good :=
  w_set_se (se_set_conn_want_ext want_ext
    (se_set_conn (conn_set_capable_ext capable_ext (conn_set_want_ext want_ext (conn_set_want want conn_zero)))
      (w_se good_world))) good_world.

Lemma feature_flags_tracked_witness : exists w',
  @run_flag_calls good [Set_flag 0; Set_flag 1; Set_flag 2; Unset_flag 2] (conn_world 5 0 0) = Ok tt w' /\
  map (Z.testbit (wanted w')) [0; 1; 2] = [true; false; false].
Proof.
  destruct (@feature_flags_tracked good [Set_flag 0; Set_flag 1; Set_flag 2; Unset_flag 2] (conn_world 5 0 0))
    as (w' & E & Hb & _).
  - by repeat constructor.
  - by vm_compute.
  - reflexivity.
  - exists w'. split; [exact E|]. cbn [map]. rewrite !Hb by lia. reflexivity.
Defined.

(** The take-over loses a feature above bit 31. *)
Lemma old_flag_word_conversion_witness : exists w',
  @fuse_convert_to_conn_want_ext good (conn_world 0 (2 ^ 32) 4) = Ok 0 w' /\
  wanted w' <> merged (2 ^ 32) 4.
Proof.
  destruct (@old_flag_word_conversion good (conn_world 0 (2 ^ 32) 4)) as (res & c' & E & H).
  - by vm_compute.
  - by vm_compute.
  - change (word_changed (conn_world 0 (2 ^ 32) 4)) with true in H. cbv iota in H.
    change (wanted (conn_world 0 (2 ^ 32) 4) =? _) with true in H. cbv iota in H.
    destruct H as (-> & _ & _ & Hm).
    eexists. split; [exact E|]. intros Heq. by apply Hm in Heq.
Defined.

(** A server without functions. *)
Definition bare_server : @Server good := {| se_op := no_ops; interrupt_func := fun _ _ _ => fault_ BadPointer |}.

Lemma init_never_completes_witness :
  @_do_init good bare_server 9 1 (enc (Build_fuse_init_in 7 31 4096 0 0 0 0 0 0 0 0 0 0 0 0 0) ++ []) []
    serving_world = Fault Uninitialized.
Proof.
  apply (@init_never_completes good good_spec bare_server serving_world 9 [] [] _ 8 _
    (Build_fuse_init_in 7 31 4096 0 0 0 0 0 0 0 0 0 0 0 0 0) [] 1 [] (daemon_header FUSE_INIT 1 1 104)
    serving_live serving_request eq_refl serving_client); try reflexivity.
  solve_wire_wf.
Defined.
