(* ===== verification/BufferProps.v ===== *)
(** * Properties of buffer copies

    [fuse_buf_copy] between vectors of memory buffers moves exactly the common
    prefix of what the two vectors have left, whatever the sizes of the single
    buffers, and touches nothing else. *)

From S2P Require Import Prelude Platform World Monad Request Reply Buffer Examples.

(** ** Regions of memory *)

(** Object, offset and length. *)
Record region := { rg_obj : Z; rg_off : Z; rg_len : Z }.

(** The region without its first [n] bytes. *)
Definition rg_drop (n : Z) (r : region) : region :=
  {| rg_obj := rg_obj r; rg_off := rg_off r + n; rg_len := rg_len r - n |}.

Definition region_of (b : fuse_buf) : region :=
  match buf_mem b with
  | Some p => {| rg_obj := p.1; rg_off := p.2; rg_len := buf_size b |}
  | None => {| rg_obj := 0; rg_off := 0; rg_len := 0 |}
  end.

(** What a vector has left, from its current position on. *)
Definition regions (v : fuse_bufvec) : list region :=
  match map region_of (drop (Z.to_nat (bv_idx v)) (bv_buf v)) with
  | [] => []
  | r :: rs => rg_drop (bv_off v) r :: rs
  end.

Definition total (rs : list region) : Z := fold_right (fun r n => rg_len r + n) 0 rs.

(** Memory as a map of objects: reading and writing regions. *)
Definition read_region (m : gmap Z bytes) (r : region) : bytes :=
  slice (rg_off r) (rg_len r) (default [] (m !! rg_obj r)).
Definition read_regions (m : gmap Z bytes) (rs : list region) : bytes := concat (map (read_region m) rs).

Definition put_bytes (o off : Z) (bs : bytes) (m : gmap Z bytes) : gmap Z bytes :=
  match m !! o with
  | Some mem => <[o := default mem (write_at off bs mem)]> m
  | None => m
  end.

(** The bytes [bs] spread over the regions in order. *)
Fixpoint put_regions (rs : list region) (bs : bytes) (m : gmap Z bytes) : gmap Z bytes :=
  match rs with
  | [] => m
  | r :: rs => put_regions rs (drop (Z.to_nat (rg_len r)) bs)
                 (put_bytes (rg_obj r) (rg_off r) (take (Z.to_nat (rg_len r)) bs) m)
  end.

(** The region lies in an object. *)
Definition rg_in (m : gmap Z bytes) (r : region) : Prop :=
  0 <= rg_off r /\ 0 <= rg_len r /\ exists mem, m !! rg_obj r = Some mem /\ rg_off r + rg_len r <= blen mem.

Lemma write_at_run off bs mem :
  0 <= off -> off + blen bs <= blen mem ->
  write_at off bs mem = Some (take (Z.to_nat off) mem ++ bs ++ drop (Z.to_nat off + length bs) mem).
Proof.
  intros H1 H2. unfold write_at, blen in *.
  by rewrite (proj2 (Z.leb_le 0 off)), (proj2 (Z.leb_le _ _)) by lia.
Qed.

(** Two adjacent writes are one. *)
Lemma write_at_twice off a b mem :
  0 <= off -> off + blen a + blen b <= blen mem ->
  (write_at off a mem ≫= write_at (off + blen a) b) = write_at off (a ++ b) mem.
Proof.
  intros H1 H2. assert (0 <= blen b) by (unfold blen; lia).
  assert (blen (a ++ b) = blen a + blen b) as Hab by (unfold blen; rewrite length_app; lia).
  rewrite (write_at_run off a), (write_at_run off (a ++ b)) by lia. cbn [mbind option_bind].
  set (pre := take (Z.to_nat off) mem). set (n := (Z.to_nat off + length a)%nat).
  assert (Z.of_nat (length (pre ++ a)) = off + blen a) as Hl.
  { unfold pre, blen in *. rewrite length_app, length_take. lia. }
  rewrite (app_assoc pre a), <- Hl, write_at_pre.
  - rewrite drop_drop, <- !app_assoc. unfold n. rewrite length_app. do 5 f_equal. lia.
  - rewrite length_drop. unfold n, blen in *. lia.
Qed.

Lemma put_bytes_twice o off a b m mem :
  m !! o = Some mem -> 0 <= off -> off + blen a + blen b <= blen mem ->
  put_bytes o (off + blen a) b (put_bytes o off a m) = put_bytes o off (a ++ b) m.
Proof.
  intros Hm H1 H2. unfold put_bytes at 2 3. rewrite Hm. unfold put_bytes. rewrite lookup_insert_eq, insert_insert_eq.
  f_equal. assert (0 <= blen b) by (unfold blen; lia).
  rewrite (write_at_run off a) by lia. cbn [from_option id]. rewrite <- (write_at_twice off a b) by lia.
  rewrite (write_at_run off a) by lia. cbn [mbind option_bind].
  set (mem1 := take _ _ ++ _). destruct (write_at (off + blen a) b mem1) eqn:E; [done|].
  exfalso. revert E. rewrite write_at_run; [done|unfold blen; lia|].
  unfold mem1, blen in *. rewrite !length_app, length_take, length_drop. lia.
Qed.

Lemma put_bytes_nil o off m mem :
  m !! o = Some mem -> 0 <= off <= blen mem -> put_bytes o off [] m = m.
Proof.
  intros Hm Ho. unfold put_bytes. rewrite Hm, write_at_run by (unfold blen in *; cbn; lia). cbn [from_option id].
  rewrite app_nil_l, Nat.add_0_r, take_drop. by apply insert_id.
Qed.

Lemma put_bytes_other o o' off bs m : o' <> o -> put_bytes o off bs m !! o' = m !! o'.
Proof. intros Hne. unfold put_bytes. destruct (m !! o); [|done]. by rewrite lookup_insert_ne. Qed.

Lemma put_regions_other rs bs m o : o ∉ map rg_obj rs -> put_regions rs bs m !! o = m !! o.
Proof.
  revert bs m. induction rs as [|r rs IH]; intros bs m Ho; [done|]. cbn in *.
  rewrite IH by set_solver. apply put_bytes_other. set_solver.
Qed.

Lemma put_bytes_in o off bs m r : rg_in m r -> rg_in (put_bytes o off bs m) r.
Proof.
  intros (H1 & H2 & mem & Hm & H3). unfold put_bytes. destruct (m !! o) as [x|] eqn:Ho; [|by split_and!; eauto].
  split_and!; [done..|]. destruct (decide (o = rg_obj r)) as [->|Hne].
  - rewrite lookup_insert_eq. eexists. split; [done|]. rewrite Hm in Ho. injection Ho as <-.
    destruct (write_at off bs mem) eqn:E; [|done]. cbn. apply length_write_at in E. unfold blen in *. lia.
  - rewrite lookup_insert_ne by done. eauto.
Qed.

Lemma length_read_region m r : rg_in m r -> blen (read_region m r) = rg_len r.
Proof.
  intros (H1 & H2 & mem & Hm & H3). unfold read_region, slice. rewrite Hm. cbn [from_option id].
  unfold blen in *. rewrite length_take, length_drop. lia.
Qed.

Lemma read_put_same m r bs :
  rg_in m r -> blen bs <= rg_len r ->
  read_region (put_bytes (rg_obj r) (rg_off r) bs m) r = bs ++ drop (length bs) (read_region m r).
Proof.
  intros (H1 & H2 & mem & Hm & H3) Hb. unfold read_region, put_bytes. rewrite Hm, lookup_insert_eq.
  rewrite write_at_run by (unfold blen in *; lia). cbn [from_option id]. unfold slice.
  rewrite drop_app_length' by (rewrite length_take; unfold blen in *; lia).
  rewrite take_app, firstn_all2 by (unfold blen in *; lia). f_equal.
  by rewrite skipn_firstn_comm, drop_drop.
Qed.

Lemma read_region_other m o off bs r : o <> rg_obj r -> read_region (put_bytes o off bs m) r = read_region m r.
Proof. intros Hne. unfold read_region. by rewrite put_bytes_other. Qed.

Lemma read_regions_other m o off bs rs :
  o ∉ map rg_obj rs -> read_regions (put_bytes o off bs m) rs = read_regions m rs.
Proof.
  unfold read_regions. induction rs as [|r rs IH]; [done|]. cbn. intros Ho.
  rewrite IH by set_solver. by rewrite read_region_other by set_solver.
Qed.

Lemma total_nonneg m rs : Forall (rg_in m) rs -> 0 <= total rs.
Proof.
  induction 1 as [|r rs (_ & H & _) _ IH]; [done|].
  change (total (r :: rs)) with (rg_len r + total rs). lia.
Qed.

(** Writing to regions in different objects, then reading them back. *)
Lemma read_put_regions m rs bs :
  Forall (rg_in m) rs -> NoDup (map rg_obj rs) -> blen bs <= total rs ->
  read_regions (put_regions rs bs m) rs = bs ++ drop (length bs) (read_regions m rs).
Proof.
  intros Hin. revert m bs Hin. induction rs as [|r rs IH]; intros m bs Hin Hnd Hb.
  - cbn in Hb. destruct bs; [done|]. unfold blen in Hb. cbn in Hb. lia.
  - apply Forall_cons in Hin as [Hr Hrs]. cbn [map] in Hnd. apply NoDup_cons in Hnd as [Hno Hnd].
    pose proof (length_read_region m r Hr) as Hlr. pose proof (total_nonneg _ _ Hrs) as Ht.
    set (n := Z.to_nat (rg_len r)). set (m1 := put_bytes (rg_obj r) (rg_off r) (take n bs) m).
    change (put_regions (r :: rs) bs m) with (put_regions rs (drop n bs) m1).
    assert (Forall (rg_in m1) rs) as Hrs1 by (eapply Forall_impl; [exact Hrs|intros; by apply put_bytes_in]).
    assert (0 <= rg_len r) as Hl0 by apply Hr.
    unfold read_regions at 1. cbn [map concat]. fold (read_regions (put_regions rs (drop n bs) m1) rs).
    rewrite (IH m1 (drop n bs) Hrs1 Hnd).
    2:{ change (total (r :: rs)) with (rg_len r + total rs) in Hb. unfold blen in *. rewrite length_drop. lia. }
    unfold m1 at 2. rewrite read_regions_other by done.
    assert (read_region (put_regions rs (drop n bs) m1) r = read_region m1 r) as ->
      by (unfold read_region; by rewrite put_regions_other).
    unfold m1. rewrite read_put_same by (try done; unfold blen; rewrite length_take; lia).
    unfold read_regions at 2. cbn [map concat]. fold (read_regions m rs).
    rewrite length_take, length_drop.
    destruct (decide (length bs <= n)%nat) as [Hle|Hgt].
    + rewrite (firstn_all2 bs) by done. rewrite (skipn_all2 bs) by done. rewrite app_nil_l.
      replace (length bs - n)%nat with O by lia. rewrite drop_0, Nat.min_r by done.
      rewrite <- app_assoc. f_equal. rewrite drop_app. f_equal.
      replace (length bs - length (read_region m r))%nat with O by (unfold blen in *; lia). by rewrite drop_0.
    + rewrite Nat.min_l by lia. rewrite (skipn_all2 (read_region m r)) by (unfold blen in *; lia).
      rewrite app_nil_r, app_assoc, take_drop. f_equal. rewrite drop_app.
      rewrite (skipn_all2 (read_region m r)) by (unfold blen in *; lia). rewrite app_nil_l. f_equal.
      unfold blen in *. lia.
Qed.

(** ** Vectors of memory buffers *)

(** A vector whose buffers are memory, and whose position is in one of them or
    behind the last. *)
Record vec_ok (m : gmap Z bytes) (v : fuse_bufvec) : Prop := {
  vo_count : bv_count v = Z.of_nat (length (bv_buf v));
  vo_idx : 0 <= bv_idx v <= bv_count v;
  vo_bufs : Forall (fun b => flag (buf_flags b) FUSE_BUF_IS_FD = false /\ is_Some (buf_mem b) /\
                             rg_in m (region_of b)) (bv_buf v);
  vo_pos : forall b, bv_buf v !! Z.to_nat (bv_idx v) = Some b -> 0 <= bv_off v <= buf_size b }.

(** The current buffer of a vector, and the vector behind it. *)
Definition vec_next (v : fuse_bufvec) (n : Z) (b : fuse_buf) : fuse_bufvec :=
  let off := bv_off v + n in
  if off =? buf_size b then
    let i := bv_idx v + 1 in
    {| bv_count := bv_count v; bv_idx := i; bv_off := if i =? bv_count v then off else 0; bv_buf := bv_buf v |}
  else {| bv_count := bv_count v; bv_idx := bv_idx v; bv_off := off; bv_buf := bv_buf v |}.

Section copy.
Context {P : Platform}.
Implicit Types (w : world).

Lemma regions_nil m v : vec_ok m v -> regions v = [] <-> bv_idx v = bv_count v.
Proof.
  intros [H1 H2 _ _]. unfold regions. rewrite <- skipn_map.
  destruct (drop (Z.to_nat (bv_idx v)) (map region_of (bv_buf v))) eqn:E.
  - apply (f_equal length) in E. rewrite length_drop, length_map in E. cbn in E. split; [lia|done].
  - apply (f_equal length) in E. rewrite length_drop, length_map in E. cbn in E. split; [done|lia].
Qed.

Lemma regions_cons m v r rs :
  vec_ok m v -> regions v = r :: rs ->
  exists b p, bv_buf v !! Z.to_nat (bv_idx v) = Some b /\ fuse_bufvec_current v = Some (Some b) /\
    bv_idx v < bv_count v /\ buf_mem b = Some p /\ flag (buf_flags b) FUSE_BUF_IS_FD = false /\
    r = {| rg_obj := p.1; rg_off := p.2 + bv_off v; rg_len := buf_size b - bv_off v |} /\
    0 <= bv_off v <= buf_size b /\
    rs = map region_of (drop (S (Z.to_nat (bv_idx v))) (bv_buf v)) /\ rg_in m r /\ Forall (rg_in m) rs.
Proof.
  intros Hv Hr. pose proof Hv as [H1 H2 H3 H4].
  assert (bv_idx v < bv_count v) as Hlt.
  { destruct (decide (bv_idx v = bv_count v)) as [E|]; [|lia].
    apply (regions_nil _ _ Hv) in E. congruence. }
  destruct (lookup_lt_is_Some_2 (bv_buf v) (Z.to_nat (bv_idx v))) as [b Hb]; [lia|].
  pose proof (H4 b Hb) as Hpos. pose proof (proj1 (Forall_lookup _ _) H3 _ _ Hb) as (Hfl & [p Hp] & Hin).
  exists b, p. unfold regions in Hr. rewrite (drop_S _ _ _ Hb) in Hr. cbn [map] in Hr. injection Hr as <- <-.
  unfold region_of in Hin |- *. rewrite Hp in Hin |- *.
  split_and!; try done; [|lia|lia| |].
  - unfold fuse_bufvec_current, bv_at. rewrite (proj2 (Z.ltb_lt _ _) Hlt).
    rewrite (proj2 (Z.leb_le 0 _)) by lia. by rewrite Hb.
  - destruct Hin as (G1 & G2 & mem & G3 & G4). cbn in *. split; [cbn; lia|]. split; [cbn; lia|].
    exists mem. cbn. split; [done|lia].
  - apply Forall_map. apply Forall_drop. eapply Forall_impl; [exact H3|]. by intros x (_ & _ & ?).
Qed.

Lemma rg_drop_0 r : rg_drop 0 r = r.
Proof. destruct r. unfold rg_drop. cbn. by rewrite Z.add_0_r, Z.sub_0_r. Qed.

Lemma advance_run v n b w :
  fuse_bufvec_current v = Some (Some b) -> bv_idx v < bv_count v -> bv_off v + n <= buf_size b ->
  fuse_bufvec_advance v n w =
  Ok (vec_next v n b, if (bv_off v + n =? buf_size b) && (bv_idx v + 1 =? bv_count v) then 0 else 1) w.
Proof.
  intros Hc Hi Hn. unfold fuse_bufvec_advance, vec_next. mstep by (by apply of_option_run).
  rewrite (proj2 (Z.leb_le _ _) Hn). mstep by done.
  destruct (bv_off v + n =? buf_size b); [|done]. rewrite (proj2 (Z.ltb_lt _ _) Hi). mstep by done.
  by destruct (bv_idx v + 1 =? bv_count v).
Qed.

(** Advancing a vector drops the bytes from its regions. *)
Lemma vec_next_regions m v n b r rs :
  vec_ok m v -> regions v = r :: rs -> bv_buf v !! Z.to_nat (bv_idx v) = Some b ->
  0 <= n <= rg_len r -> rg_len r = buf_size b - bv_off v ->
  vec_ok m (vec_next v n b) /\
  regions (vec_next v n b) = (if n =? rg_len r then rs else rg_drop n r :: rs) /\
  (bufs_left (vec_next v n b) + (if (n =? rg_len r)%Z then 1 else 0) = bufs_left v)%nat.
Proof.
  intros Hv Hr Hb Hn Hl. destruct (regions_cons _ _ _ _ Hv Hr) as (b' & p & Hb' & _ & Hi & Hp & _ & -> & Hpos & Hrs & Hin & Hrs').
  assert (b' = b) as -> by congruence. pose proof Hv as [H1 H2 H3 H4]. cbn in Hn.
  unfold vec_next. cbn [rg_len].
  destruct (Z.eqb_spec (bv_off v + n) (buf_size b)) as [He|He];
    destruct (Z.eqb_spec n (buf_size b - bv_off v)) as [He'|He']; try lia.
  - assert (Z.to_nat (bv_idx v + 1) = S (Z.to_nat (bv_idx v))) as Hs by lia. split_and!.
    + constructor; cbn; [done|lia|done|]. rewrite Hs. intros c Hc.
      rewrite (proj2 (Z.eqb_neq (bv_idx v + 1) _)) by (apply lookup_lt_Some in Hc; lia).
      pose proof (proj1 (Forall_lookup _ _) H3 _ _ Hc) as (_ & [pc Hpc] & (_ & G & _)).
      unfold region_of in G. rewrite Hpc in G. cbn in G. lia.
    + unfold regions. cbn. rewrite Hs, <- Hrs. destruct rs as [|r' rs']; [done|].
      rewrite (proj2 (Z.eqb_neq (bv_idx v + 1) _)); [by rewrite rg_drop_0|].
      intros Hend. apply (f_equal length) in Hrs. rewrite length_map, length_drop in Hrs. cbn in Hrs. lia.
    + unfold bufs_left. cbn. lia.
  - split_and!.
    + constructor; cbn; [done|done|done|]. rewrite Hb. intros c [= <-]. lia.
    + unfold regions in Hr |- *. cbn. rewrite (drop_S _ _ _ Hb) in Hr |- *. cbn [map] in Hr |- *.
      injection Hr as Hr1 Hr2. unfold region_of, rg_drop. rewrite Hp. cbn. subst rs.
      f_equal. f_equal; lia.
    + unfold bufs_left. cbn. lia.
Qed.

(** One copy between memory buffers of different objects. *)
Lemma copy_one_run dst src doff soff n flags rd rs pd ps w :
  flag (buf_flags dst) FUSE_BUF_IS_FD = false -> flag (buf_flags src) FUSE_BUF_IS_FD = false ->
  buf_mem dst = Some pd -> buf_mem src = Some ps ->
  rd = {| rg_obj := pd.1; rg_off := pd.2 + doff; rg_len := n |} ->
  rs = {| rg_obj := ps.1; rg_off := ps.2 + soff; rg_len := n |} ->
  rg_in (w_mem w) rd -> rg_in (w_mem w) rs -> rg_obj rd <> rg_obj rs ->
  fuse_buf_copy_one dst doff src soff n flags w =
  Ok n (w_set_mem (put_bytes (rg_obj rd) (rg_off rd) (read_region (w_mem w) rs) (w_mem w)) w).
Proof.
  intros Hfd Hfs Hpd Hps -> -> Hd Hs Hne. pose proof (length_read_region _ _ Hs) as Hlen.
  destruct Hd as (D1 & D2 & dm & Dm & D3), Hs as (S1 & S2 & sm & Sm & S3). cbn in *.
  unfold fuse_buf_copy_one. rewrite Hfd, Hfs. cbn [negb andb]. unfold buf_ptr.
  rewrite bind_assoc. mstep by (by apply of_option_run). mstep by done.
  rewrite bind_assoc. mstep by (by apply of_option_run). mstep by done.
  rewrite bool_decide_eq_false_2 by (intros [= E _]; done). cbn [negb when].
  rewrite bind_assoc. unfold load_mem, ptr_add. cbn [fst snd].
  mstep by (cbn; rewrite Sm, (proj2 (Z.leb_le 0 _)), (proj2 (Z.leb_le 0 n)), (proj2 (Z.leb_le _ (blen sm))) by lia; done).
  unfold read_region in Hlen |- *. cbn [rg_obj rg_off rg_len] in *. rewrite Sm in Hlen |- *. cbn [from_option id] in *.
  erewrite bind_run; [done|]. unfold store_mem, put_bytes. cbn [fst snd]. rewrite Dm.
  by rewrite write_at_run by lia.
Qed.

Lemma put_regions_nil m rs : Forall (rg_in m) rs -> put_regions rs [] m = m.
Proof.
  induction 1 as [|r rs (H1 & H2 & mem & Hm & H3) _ IH]; [done|]. cbn [put_regions].
  rewrite take_nil, drop_nil, (put_bytes_nil _ _ _ mem) by (try done; lia). done.
Qed.

(** The first [n] bytes of a region. *)
Definition rg_take (n : Z) (r : region) : region :=
  {| rg_obj := rg_obj r; rg_off := rg_off r; rg_len := n |}.

Lemma rg_take_in m n r : rg_in m r -> 0 <= n <= rg_len r -> rg_in m (rg_take n r).
Proof. intros (H1 & H2 & mem & Hm & H3) Hn. split; [done|]. split; [cbn; lia|]. exists mem. cbn. split; [done|lia]. Qed.

Lemma rg_drop_in m n r : rg_in m r -> 0 <= n <= rg_len r -> rg_in m (rg_drop n r).
Proof. intros (H1 & H2 & mem & Hm & H3) Hn. split; [cbn; lia|]. split; [cbn; lia|]. exists mem. cbn. split; [done|lia]. Qed.

Lemma read_region_split m n r :
  0 <= rg_off r -> 0 <= n <= rg_len r -> read_region m r = read_region m (rg_take n r) ++ read_region m (rg_drop n r).
Proof.
  intros Ho Hn. unfold read_region, slice. cbn.
  replace (Z.to_nat (rg_off r + n)) with (Z.to_nat (rg_off r) + Z.to_nat n)%nat by lia.
  rewrite <- drop_drop. rewrite Z2Nat.inj_sub by lia.
  replace (Z.to_nat (rg_len r)) with (Z.to_nat n + (Z.to_nat (rg_len r) - Z.to_nat n))%nat at 1 by lia.
  by rewrite take_take_drop.
Qed.

(** What is left of a list of regions without its first [n] bytes. *)
Definition rest_after (n : Z) (r : region) (rs : list region) : list region :=
  if n =? rg_len r then rs else rg_drop n r :: rs.

Lemma read_rest m n r rs :
  0 <= rg_off r -> 0 <= n <= rg_len r ->
  read_regions m (r :: rs) = read_region m (rg_take n r) ++ read_regions m (rest_after n r rs).
Proof.
  intros Ho Hn. unfold read_regions, rest_after. cbn [map concat].
  rewrite (read_region_split m n r) by done. destruct (Z.eqb_spec n (rg_len r)) as [->|].
  - unfold read_region at 2, slice. cbn. rewrite Z.sub_diag. cbn. by rewrite app_nil_r.
  - cbn. by rewrite app_assoc.
Qed.

Lemma total_rest n r rs : total (r :: rs) = n + total (rest_after n r rs).
Proof.
  change (total (r :: rs)) with (rg_len r + total rs). unfold rest_after.
  destruct (Z.eqb_spec n (rg_len r)) as [->|]; [done|].
  change (total (rg_drop n r :: rs)) with (rg_len r - n + total rs). lia.
Qed.

(** Writing a first piece and the rest is writing both. *)
Lemma put_rest m r rs x y :
  rg_in m r -> blen x <= rg_len r ->
  put_regions (rest_after (blen x) r rs) y (put_bytes (rg_obj r) (rg_off r) x m) = put_regions (r :: rs) (x ++ y) m.
Proof.
  intros (H1 & H2 & mem & Hm & H3) Hx. unfold rest_after. destruct (Z.eqb_spec (blen x) (rg_len r)) as [E|E].
  - cbn [put_regions]. assert (length x = Z.to_nat (rg_len r)) as Hl by (unfold blen in E; lia).
    by rewrite (take_app_length' x), (drop_app_length' x) by done.
  - cbn [put_regions rg_drop rg_obj rg_off rg_len].
    assert (Z.to_nat (rg_len r) = length x + Z.to_nat (rg_len r - blen x))%nat as -> by (unfold blen in *; lia).
    rewrite take_app_add, drop_app_add.
    rewrite (put_bytes_twice _ _ _ _ _ mem); [done|done|done|].
    unfold blen in *. rewrite length_take. lia.
Qed.

Lemma rest_after_in m n r rs : rg_in m r -> Forall (rg_in m) rs -> 0 <= n <= rg_len r -> Forall (rg_in m) (rest_after n r rs).
Proof. intros Hr Hrs Hn. unfold rest_after. case_bool; [done|]. constructor; [by apply rg_drop_in|done]. Qed.

Lemma rest_after_objs n r rs x : x ∈ map rg_obj (rest_after n r rs) -> x ∈ map rg_obj (r :: rs).
Proof. unfold rest_after. case_bool; cbn; set_solver. Qed.

Lemma rest_after_nodup n r rs : NoDup (map rg_obj (r :: rs)) -> NoDup (map rg_obj (rest_after n r rs)).
Proof. unfold rest_after. case_bool; cbn; [by intros [_ ?]%NoDup_cons|done]. Qed.

Lemma current_none m v : vec_ok m v -> regions v = [] -> fuse_bufvec_current v = Some None.
Proof.
  intros Hv Hr%(regions_nil _ _ Hv). unfold fuse_bufvec_current. by rewrite Hr, Z.ltb_irrefl.
Qed.

Lemma vec_ok_put m v o off bs : vec_ok m v -> vec_ok (put_bytes o off bs m) v.
Proof.
  intros [H1 H2 H3 H4]. constructor; try done. eapply Forall_impl; [exact H3|].
  intros b (G1 & G2 & G3). split_and!; [done..|]. by apply put_bytes_in.
Qed.

(** The outcome of a copy, given what the vectors have left. *)
Definition copied_by (m : gmap Z bytes) (ds ss : list region) : gmap Z bytes :=
  put_regions ds (take (Z.to_nat (Z.min (total ds) (total ss))) (read_regions m ss)) m.

Lemma copied_by_nil m ds ss :
  Forall (rg_in m) ds -> Forall (rg_in m) ss -> ds = [] \/ ss = [] -> copied_by m ds ss = m.
Proof.
  intros Hd Hs He. unfold copied_by. pose proof (total_nonneg _ _ Hd). pose proof (total_nonneg _ _ Hs).
  destruct He as [-> | ->]; [done|]. change (read_regions m []) with (@nil Z). rewrite take_nil.
  by apply put_regions_nil.
Qed.

(** One turn of the loop does the first piece of the copy. *)
Lemma copied_by_step m d ds s ss n :
  rg_in m d -> rg_in m s -> Forall (rg_in m) ds -> Forall (rg_in m) ss ->
  rg_obj d ∉ map rg_obj (s :: ss) -> n = Z.min (rg_len d) (rg_len s) ->
  let m1 := put_bytes (rg_obj d) (rg_off d) (read_region m (rg_take n s)) m in
  copied_by m (d :: ds) (s :: ss) = copied_by m1 (rest_after n d ds) (rest_after n s ss).
Proof.
  intros Hd Hs Hds Hss Hne Hn m1.
  assert (0 <= rg_len d /\ 0 <= rg_len s) as [Hld Hls] by (split; [apply Hd|apply Hs]).
  set (x := read_region m (rg_take n s)).
  assert (blen x = n) as Hx by (apply (length_read_region m (rg_take n s)), rg_take_in; [done|lia]).
  unfold copied_by. rewrite (total_rest n d), (total_rest n s).
  set (ds1 := rest_after n d ds). set (ss1 := rest_after n s ss).
  assert (0 <= total ds1) as Ht1 by (eapply total_nonneg, rest_after_in; [done..|lia]).
  assert (0 <= total ss1) as Ht2 by (eapply total_nonneg, rest_after_in; [done..|lia]).
  rewrite (read_rest m n s) by (try (apply Hs); lia). fold x ss1.
  replace (Z.to_nat (Z.min (n + total ds1) (n + total ss1)))
    with (length x + Z.to_nat (Z.min (total ds1) (total ss1)))%nat by (unfold blen in Hx; lia).
  rewrite take_app_add. rewrite <- put_rest by (try done; lia). rewrite Hx. fold ds1 m1.
  do 2 f_equal. unfold m1. rewrite read_regions_other; [done|].
  intros Hin%rest_after_objs. by apply Hne.
Qed.

Lemma vec_regions_in m v : vec_ok m v -> Forall (rg_in m) (regions v).
Proof.
  intros Hv. destruct (regions v) as [|r rs] eqn:E; [done|].
  destruct (regions_cons _ _ _ _ Hv E) as (? & ? & _ & _ & _ & _ & _ & _ & _ & _ & ? & ?). by constructor.
Qed.

Lemma length_read_regions m rs : Forall (rg_in m) rs -> blen (read_regions m rs) = total rs.
Proof.
  unfold read_regions. induction 1 as [|r rs Hr _ IH]; [done|]. cbn [map concat].
  change (total (r :: rs)) with (rg_len r + total rs). rewrite <- IH, <- (length_read_region m r Hr).
  unfold blen. rewrite length_app. lia.
Qed.

(** When a side is used up nothing more is copied. *)
Lemma copied_stops m ds ss copied (dv sv : fuse_bufvec) w :
  Forall (rg_in m) ds -> Forall (rg_in m) ss -> ds = [] \/ ss = [] ->
  Ok (copied, dv, sv) (w_set_mem m w) =
  Ok (copied + Z.min (total ds) (total ss), dv, sv) (w_set_mem (copied_by m ds ss) w).
Proof.
  intros Hd Hs He. rewrite copied_by_nil by done.
  pose proof (total_nonneg _ _ Hd). pose proof (total_nonneg _ _ Hs).
  replace (Z.min _ _) with 0; [by rewrite Z.add_0_r|].
  destruct He as [-> | ->]; change (total []) with 0 in *; lia.
Qed.

Lemma vec_next_end m v n b :
  vec_ok m (vec_next v n b) ->
  (bv_off v + n =? buf_size b) && (bv_idx v + 1 =? bv_count v) = true -> regions (vec_next v n b) = [].
Proof.
  intros Hv [E1 E2]%andb_true_iff. apply (regions_nil _ _ Hv). unfold vec_next.
  rewrite E1. cbn. by apply Z.eqb_eq in E2.
Qed.

Lemma copy_loop_stops fuel dstv srcv flags copied w :
  vec_ok (w_mem w) dstv -> vec_ok (w_mem w) srcv -> regions dstv = [] \/ regions srcv = [] ->
  copy_loop (S fuel) dstv srcv flags copied w = Ok (copied, dstv, srcv) w.
Proof.
  intros Hd Hs He. cbn [copy_loop]. destruct (regions srcv) as [|rs ss] eqn:Es.
  { mstep by (by eapply of_option_run, current_none).
    destruct (regions dstv) as [|rd ds] eqn:Ed; [by mstep by (by eapply of_option_run, current_none)|].
    destruct (regions_cons _ _ _ _ Hd Ed) as (b & p & _ & Hcur & _). by mstep by (by apply of_option_run). }
  destruct He as [He|]; [|done]. destruct (regions_cons _ _ _ _ Hs Es) as (b & p & _ & Hcur & _).
  mstep by (by apply of_option_run). by mstep by (by eapply of_option_run, current_none).
Qed.

(** A turn of the loop while both sides have something left. *)
Lemma copy_loop_turn fuel dstv srcv flags copied w rd ds rs ss :
  vec_ok (w_mem w) dstv -> vec_ok (w_mem w) srcv -> regions dstv = rd :: ds -> regions srcv = rs :: ss ->
  rg_obj rd <> rg_obj rs ->
  let n := Z.min (rg_len rd) (rg_len rs) in
  let m1 := put_bytes (rg_obj rd) (rg_off rd) (read_region (w_mem w) (rg_take n rs)) (w_mem w) in
  exists dv sv, vec_ok (w_mem w) dv /\ vec_ok (w_mem w) sv /\
    regions dv = rest_after n rd ds /\ regions sv = rest_after n rs ss /\
    (bufs_left dv + bufs_left sv < bufs_left dstv + bufs_left srcv)%nat /\
    (copy_loop (S fuel) dstv srcv flags copied w = copy_loop fuel dv sv flags (copied + n) (w_set_mem m1 w) \/
     (regions dv = [] \/ regions sv = []) /\
     exists dv' sv', copy_loop (S fuel) dstv srcv flags copied w = Ok (copied + n, dv', sv') (w_set_mem m1 w)).
Proof.
  intros Hd Hs Ed Es Hobj n m1.
  destruct (regions_cons _ _ _ _ Hs Es) as (sb & sp & Hsb & Hscur & Hsi & Hsp & Hsf & Hsr & Hspos & Hss & Hsin & Hssin).
  destruct (regions_cons _ _ _ _ Hd Ed) as (db & dp & Hdb & Hdcur & Hdi & Hdp & Hdf & Hdr & Hdpos & Hds & Hdin & Hdsin).
  assert (rg_len rd = buf_size db - bv_off dstv) as Hld by (by rewrite Hdr).
  assert (rg_len rs = buf_size sb - bv_off srcv) as Hls by (by rewrite Hsr).
  destruct (vec_next_regions (w_mem w) srcv n sb rs ss) as (Hs1 & Es1 & Ls1); [done..|lia|done|].
  destruct (vec_next_regions (w_mem w) dstv n db rd ds) as (Hd1 & Ed1 & Ld1); [done..|lia|done|].
  exists (vec_next dstv n db), (vec_next srcv n sb). split_and!; try done.
  { revert Ls1 Ld1. unfold n. destruct (Z.eqb_spec (Z.min (rg_len rd) (rg_len rs)) (rg_len rd)),
      (Z.eqb_spec (Z.min (rg_len rd) (rg_len rs)) (rg_len rs)); lia. }
  cbn [copy_loop]. mstep by (by apply of_option_run). mstep by (by apply of_option_run).
  assert (min_size (buf_size sb - bv_off srcv) (buf_size db - bv_off dstv) = n) as ->.
  { unfold min_size. case_bool; zify_bool; lia. }
  mstep by (eapply (copy_one_run db sb _ _ n flags (rg_take n rd) (rg_take n rs)); try done;
    [by rewrite Hdr|by rewrite Hsr|apply rg_take_in; [done|lia]|apply rg_take_in; [done|lia]]).
  rewrite (proj2 (Z.ltb_ge n 0)) by lia. cbn [rg_take rg_obj rg_off]. fold (rg_take n rs) m1.
  mstep by (apply advance_run; [done|done|lia]).
  destruct ((bv_off srcv + n =? buf_size sb) && (bv_idx srcv + 1 =? bv_count srcv)) eqn:Esm; cbn [Z.eqb].
  { right. split; [right; by eapply vec_next_end|by eexists _, _]. }
  mstep by (apply advance_run; [done|done|lia]).
  destruct ((bv_off dstv + n =? buf_size db) && (bv_idx dstv + 1 =? bv_count dstv)) eqn:Edm; cbn [Z.eqb].
  { right. split; [left; by eapply vec_next_end|by eexists _, _]. }
  left. by rewrite Z.ltb_irrefl.
Qed.

Lemma copy_loop_run fuel dstv srcv flags copied w :
  vec_ok (w_mem w) dstv -> vec_ok (w_mem w) srcv -> NoDup (map rg_obj (regions dstv)) ->
  (forall o, o ∈ map rg_obj (regions dstv) -> o ∉ map rg_obj (regions srcv)) ->
  (bufs_left dstv + bufs_left srcv < fuel)%nat -> 0 <= copied ->
  exists dv sv, copy_loop fuel dstv srcv flags copied w =
    Ok (copied + Z.min (total (regions dstv)) (total (regions srcv)), dv, sv)
      (w_set_mem (copied_by (w_mem w) (regions dstv) (regions srcv)) w).
Proof.
  revert dstv srcv copied w. induction fuel as [|fuel IH]; intros dstv srcv copied w Hd Hs Hnd Hdis Hf Hc; [lia|].
  pose proof (vec_regions_in _ _ Hd) as Hdin. pose proof (vec_regions_in _ _ Hs) as Hsin.
  destruct (decide (regions dstv = [] \/ regions srcv = [])) as [He|He].
  { exists dstv, srcv. rewrite copy_loop_stops by done. rewrite <- copied_stops by done. by destruct w. }
  destruct (regions dstv) as [|rd ds] eqn:Ed, (regions srcv) as [|rs ss] eqn:Es; try tauto.
  apply Forall_cons in Hdin as [Hrd Hds], Hsin as [Hrs Hss].
  assert (rg_obj rd ∉ map rg_obj (rs :: ss)) as Hobj by (apply Hdis; cbn; set_solver).
  destruct (copy_loop_turn fuel dstv srcv flags copied w rd ds rs ss)
    as (dv & sv & Hd1 & Hs1 & Ed1 & Es1 & Hl & Hrun); [done..|cbn in Hobj; set_solver|].
  set (n := Z.min (rg_len rd) (rg_len rs)) in *.
  assert (0 <= rg_len rd /\ 0 <= rg_len rs) as [Hld Hls] by (split; [apply Hrd|apply Hrs]).
  set (m1 := put_bytes _ _ _ _) in Hrun.
  rewrite (copied_by_step (w_mem w) rd ds rs ss n) by done. fold m1.
  rewrite (total_rest n rd), (total_rest n rs), Z.add_min_distr_l, Z.add_assoc, <- Ed1, <- Es1.
  apply (vec_ok_put _ _ (rg_obj rd) (rg_off rd) (read_region (w_mem w) (rg_take n rs))) in Hd1, Hs1.
  destruct Hrun as [->|[He' (dv' & sv' & ->)]].
  - apply (IH dv sv (copied + n) (w_set_mem m1 w)); [done|done| | |lia|lia].
    + rewrite Ed1. by apply rest_after_nodup.
    + rewrite Ed1, Es1. intros o Ho%rest_after_objs Hso%rest_after_objs. by apply (Hdis o).
  - exists dv', sv'. rewrite <- copied_stops; [done|by apply vec_regions_in..|done].
Qed.

(** C17. A copy between memory vectors whose buffers are in different objects
    moves exactly as many bytes as both vectors have left: the destination
    starts with these bytes of the source, the rest of it and all other memory
    is unchanged, and the result is their number. *)
Theorem memory_copied dstv srcv flags w :
  vec_ok (w_mem w) dstv -> vec_ok (w_mem w) srcv -> NoDup (map rg_obj (regions dstv)) ->
  (forall o, o ∈ map rg_obj (regions dstv) -> o ∉ map rg_obj (regions srcv)) ->
  let n := Z.min (total (regions dstv)) (total (regions srcv)) in
  exists dv sv mem', fuse_buf_copy dstv srcv flags w = Ok (n, dv, sv) (w_set_mem mem' w) /\
    read_regions mem' (regions dstv) =
      take (Z.to_nat n) (read_regions (w_mem w) (regions srcv)) ++
      drop (Z.to_nat n) (read_regions (w_mem w) (regions dstv)) /\
    (forall o, o ∉ map rg_obj (regions dstv) -> mem' !! o = w_mem w !! o).
Proof.
  intros Hd Hs Hnd Hdis n.
  destruct (copy_loop_run (S (bufs_left dstv + bufs_left srcv)) dstv srcv flags 0 w) as (dv & sv & E);
    [done..|lia|done|].
  assert (forall v, vec_ok (w_mem w) v -> Forall (rg_in (w_mem w)) (regions v)) as Hall by apply vec_regions_in.
  exists dv, sv, (copied_by (w_mem w) (regions dstv) (regions srcv)). split; [exact E|]. split.
  - unfold copied_by. fold n. pose proof (total_nonneg _ _ (Hall _ Hd)). pose proof (total_nonneg _ _ (Hall _ Hs)).
    assert (blen (take (Z.to_nat n) (read_regions (w_mem w) (regions srcv))) = n) as Hl.
    { pose proof (length_read_regions _ _ (Hall _ Hs)). unfold blen in *. rewrite length_take. lia. }
    rewrite read_put_regions; [|by apply Hall|done|lia].
    do 2 f_equal. unfold blen in Hl. lia.
  - intros o Ho. by apply put_regions_other.
Qed.
End copy.

(** ** Copies that involve descriptors

    What a descriptor delivers is up to the system; the copy still ends. *)

(** Objects keep their places and sizes; nothing lives behind [w_next]. *)
Definition same_shape (m m' : gmap Z bytes) : Prop := forall o, blen <$> m !! o = blen <$> m' !! o.

Record mem_step {P : Platform} (w w' : world) : Prop := {
  ms_shape : same_shape (w_mem w) (w_mem w');
  ms_next : w_next w <= w_next w' }.

Definition mem_fresh {P : Platform} (w : world) : Prop := forall o, is_Some (w_mem w !! o) -> o < w_next w.

(** A buffer a copy may use: a descriptor, or memory within its object. *)
Definition buf_ok (m : gmap Z bytes) (b : fuse_buf) : Prop :=
  0 <= buf_size b /\
  (flag (buf_flags b) FUSE_BUF_IS_FD = false -> exists p, buf_mem b = Some p /\
     rg_in m {| rg_obj := p.1; rg_off := p.2; rg_len := buf_size b |}).

Record any_vec_ok (m : gmap Z bytes) (v : fuse_bufvec) : Prop := {
  av_count : bv_count v = Z.of_nat (length (bv_buf v));
  av_idx : 0 <= bv_idx v <= bv_count v;
  av_bufs : Forall (buf_ok m) (bv_buf v);
  av_pos : forall b, bv_buf v !! Z.to_nat (bv_idx v) = Some b -> 0 <= bv_off v <= buf_size b }.

Section transfers.
Context {P : Platform} {PS : PlatformSpec P}.
Implicit Types (w : world).

Lemma same_shape_in m m' r : same_shape m m' -> rg_in m r -> rg_in m' r.
Proof.
  intros Hs (H1 & H2 & mem & Hm & H3). specialize (Hs (rg_obj r)). rewrite Hm in Hs.
  destruct (m' !! rg_obj r) as [mem'|] eqn:E; [|done]. injection Hs as Hs.
  split_and!; [done..|]. exists mem'. split; [done|lia].
Qed.

Lemma mem_step_refl w : mem_step w w.
Proof. by constructor. Qed.
Lemma mem_step_trans w1 w2 w3 : mem_step w1 w2 -> mem_step w2 w3 -> mem_step w1 w3.
Proof. intros [H1 H2] [G1 G2]. constructor; [intros o; by rewrite H1|lia]. Qed.

Lemma mem_step_fresh w w' : mem_step w w' -> mem_fresh w -> mem_fresh w'.
Proof.
  intros [H1 H2] Hf o [mem Ho]. enough (o < w_next w) by lia. apply Hf. specialize (H1 o). rewrite Ho in H1.
  destruct (w_mem w !! o); [eauto|done].
Qed.

Lemma mem_step_put w o off bs : mem_step w (w_set_mem (put_bytes o off bs (w_mem w)) w).
Proof.
  constructor; [|done]. intros x. cbn. unfold put_bytes. destruct (w_mem w !! o) as [mem|] eqn:E; [|done].
  destruct (decide (o = x)) as [->|]; [|by rewrite lookup_insert_ne].
  rewrite lookup_insert_eq, E. cbn. destruct (write_at off bs mem) eqn:Ew; [|done].
  apply length_write_at in Ew. cbn. unfold blen. by rewrite Ew.
Qed.

(** The outcome of a transfer of at most [len] bytes: an errno, or a number of
    bytes on top of those already [copied]. *)
Definition transferred (m : M Z) w (len copied : Z) : Prop :=
  exists res w', m w = Ok res w' /\ (res < 0 \/ copied <= res <= copied + len) /\ mem_step w w'.

Lemma transferred_end w len copied : 0 <= len -> transferred (mret copied) w len copied.
Proof. intros Hl. exists copied, w. split; [done|]. split; [lia|apply mem_step_refl]. Qed.

Lemma load_mem_run p n w :
  rg_in (w_mem w) {| rg_obj := p.1; rg_off := p.2; rg_len := n |} ->
  exists bs, load_mem p n w = Ok bs w /\ blen bs = n.
Proof.
  intros Hr. pose proof (length_read_region _ _ Hr) as Hl. destruct Hr as (H1 & H2 & mem & Hm & H3). cbn in *.
  unfold read_region in Hl. cbn in Hl. rewrite Hm in Hl. eexists. split; [|exact Hl].
  unfold load_mem. by rewrite Hm, (proj2 (Z.leb_le 0 _)), (proj2 (Z.leb_le 0 n)), (proj2 (Z.leb_le _ _)) by lia.
Qed.

Lemma store_mem_put p bs w :
  rg_in (w_mem w) {| rg_obj := p.1; rg_off := p.2; rg_len := blen bs |} ->
  store_mem p bs w = Ok tt (w_set_mem (put_bytes p.1 p.2 bs (w_mem w)) w).
Proof.
  intros (H1 & H2 & mem & Hm & H3). cbn in *. unfold store_mem, put_bytes. rewrite Hm.
  by rewrite write_at_run by lia.
Qed.

Lemma rg_in_sub m o off len off' len' :
  rg_in m {| rg_obj := o; rg_off := off; rg_len := len |} -> off <= off' -> 0 <= len' ->
  off' + len' <= off + len -> rg_in m {| rg_obj := o; rg_off := off'; rg_len := len' |}.
Proof. intros (H1 & H2 & mem & Hm & H3) ???. cbn in *. split_and!; cbn; [lia|lia|]. exists mem. split; [done|lia]. Qed.

(** From memory to a descriptor. *)
Lemma buf_write_run fuel dst doff src soff len copied p w :
  buf_mem src = Some p -> rg_in (w_mem w) {| rg_obj := p.1; rg_off := p.2 + soff; rg_len := len |} ->
  (Z.to_nat len < fuel)%nat -> 0 <= copied ->
  transferred (fuse_buf_write fuel dst doff src soff len copied) w len copied.
Proof.
  intros Hp. revert doff soff len copied w. induction fuel as [|fuel IH]; intros doff soff len copied w Hin Hf Hc; [lia|].
  assert (0 <= len) as Hl0 by apply Hin. cbn [fuse_buf_write].
  destruct (Z.eqb_spec len 0) as [->|Hl]; [by apply transferred_end|].
  destruct (load_mem_run (ptr_add p soff) len w Hin) as (bs & E & Hbs).
  destruct (sys_write (w_io w) (buf_fd dst) (buf_seek dst doff) bs) as [r s] eqn:Es.
  assert (forall (k : Z + Z -> M Z), transferred (k r) (w_set_io s w) len copied ->
    transferred (p0 ← buf_ptr src soff; bs ← load_mem p0 len; res ← do_write (buf_fd dst) (buf_seek dst doff) bs; k res)
      w len copied) as Hk.
  { intros k (res & w' & Ek & Hres & Hst). exists res, w'. split; [|split; [done|]].
    - unfold buf_ptr. rewrite bind_assoc. mstep by (by apply of_option_run). mstep by done.
      mstep by (exact E). mstep by (unfold do_write; by rewrite Es). exact Ek.
    - destruct Hst as [G1 G2]. by constructor. }
  apply Hk. clear Hk. destruct r as [errno|res].
  - apply sys_write_errno in Es. destruct (Z.eqb_spec copied 0) as [->|]; [|by apply transferred_end].
    exists (- errno), (w_set_io s w). split; [done|]. split; [lia|apply mem_step_refl].
  - apply sys_write_len in Es. rewrite Hbs in Es. destruct (Z.eqb_spec res 0); [by apply transferred_end|].
    destruct (negb (flag (buf_flags dst) FUSE_BUF_FD_RETRY)).
    { exists (copied + res), (w_set_io s w). split; [done|]. split; [lia|apply mem_step_refl]. }
    destruct (IH (doff + res) (soff + res) (len - res) (copied + res) (w_set_io s w)) as (res' & w' & E' & Hr' & Hs').
    + eapply rg_in_sub; [exact Hin|lia..].
    + lia.
    + lia.
    + exists res', w'. split; [exact E'|]. split; [lia|done].
Qed.

(** From a descriptor to memory. *)
Lemma buf_read_run fuel dst doff src soff len copied p w :
  buf_mem dst = Some p -> rg_in (w_mem w) {| rg_obj := p.1; rg_off := p.2 + doff; rg_len := len |} ->
  (Z.to_nat len < fuel)%nat -> 0 <= copied ->
  transferred (fuse_buf_read fuel dst doff src soff len copied) w len copied.
Proof.
  intros Hp. revert doff soff len copied w. induction fuel as [|fuel IH]; intros doff soff len copied w Hin Hf Hc; [lia|].
  assert (0 <= len) as Hl0 by apply Hin. cbn [fuse_buf_read].
  destruct (Z.eqb_spec len 0) as [->|Hl]; [by apply transferred_end|].
  destruct (sys_read (w_io w) (buf_fd src) (buf_seek src soff) len) as [r s] eqn:Es.
  assert (forall (k : ptr -> Z + bytes -> M Z), transferred (k (ptr_add p doff) r) (w_set_io s w) len copied ->
    transferred (p0 ← buf_ptr dst doff; res ← do_read (buf_fd src) (buf_seek src soff) len; k p0 res)
      w len copied) as Hk.
  { intros k (res & w' & Ek & Hres & Hst). exists res, w'. split; [|split; [done|]].
    - unfold buf_ptr. rewrite bind_assoc. mstep by (by apply of_option_run). mstep by done.
      mstep by (unfold do_read; by rewrite Es). exact Ek.
    - destruct Hst as [G1 G2]. by constructor. }
  apply Hk. clear Hk. destruct r as [errno|bs].
  - apply sys_read_errno in Es. destruct (Z.eqb_spec copied 0) as [->|]; [|by apply transferred_end].
    exists (- errno), (w_set_io s w). split; [done|]. split; [lia|apply mem_step_refl].
  - apply sys_read_len in Es; [|done]. destruct (Z.eqb_spec (blen bs) 0); [by apply transferred_end|].
    assert (0 <= blen bs) as Hb0 by (unfold blen; lia).
    set (w1 := w_set_mem (put_bytes p.1 (p.2 + doff) bs (w_mem w)) (w_set_io s w)).
    assert (mem_step (w_set_io s w) w1) as Hw1 by exact (mem_step_put (w_set_io s w) p.1 (p.2 + doff) bs).
    assert (store_mem (ptr_add p doff) bs (w_set_io s w) = Ok tt w1) as Est.
    { apply store_mem_put. cbn. eapply rg_in_sub; [exact Hin|lia..]. }
    unfold transferred. erewrite bind_run by exact Est. cbv beta.
    destruct (negb (flag (buf_flags src) FUSE_BUF_FD_RETRY)).
    { exists (copied + blen bs), w1. split; [done|]. split; [lia|done]. }
    destruct (IH (doff + blen bs) (soff + blen bs) (len - blen bs) (copied + blen bs) w1) as (res' & w' & E' & Hr' & Hs').
    + apply (same_shape_in (w_mem (w_set_io s w))); [apply Hw1|]. eapply rg_in_sub; [exact Hin|lia..].
    + lia.
    + lia.
    + exists res', w'. split; [exact E'|]. split; [lia|by eapply mem_step_trans].
Qed.

(** Between descriptors, through the buffer on the stack. *)
Lemma fd_to_fd_loop_run fuel tmp a dst doff src soff len copied w :
  buf_mem tmp = Some (a, 0) -> buf_size tmp = 4096 ->
  rg_in (w_mem w) {| rg_obj := a; rg_off := 0; rg_len := 4096 |} ->
  0 <= len -> (Z.to_nat len < fuel)%nat -> 0 <= copied ->
  transferred (fd_to_fd_loop fuel tmp dst doff src soff len copied) w len copied.
Proof.
  intros Hp Hsz. revert doff soff len copied w.
  induction fuel as [|fuel IH]; intros doff soff len copied w Hin Hl0 Hf Hc; [lia|]. cbn [fd_to_fd_loop].
  destruct (Z.eqb_spec len 0) as [->|Hl]; [by apply transferred_end|]. rewrite Hsz.
  set (n := min_size 4096 len).
  assert (0 < n <= len /\ n <= 4096) as Hn by (unfold n, min_size; case_bool; zify_bool; lia).
  destruct (buf_read_run (len_fuel n) tmp 0 src soff n 0 (a, 0) w Hp) as (res & w1 & E1 & Hr1 & Hs1);
    [eapply rg_in_sub; [exact Hin|cbn; lia..]|unfold len_fuel; lia|done|].
  assert (transferred (if copied =? 0 then mret res else mret copied) w1 len copied \/ 0 <= res) as Herr.
  { destruct (Z.eqb_spec copied 0) as [->|]; [|by left; apply transferred_end].
    destruct (Z.ltb_spec res 0); [|by right]. left. exists res, w1. split; [done|]. split; [by left|apply mem_step_refl]. }
  assert (forall m, transferred m w1 len copied ->
    exists res' w', m w1 = Ok res' w' /\ (res' < 0 \/ copied <= res' <= copied + len) /\ mem_step w w') as Hk.
  { intros m (r' & w' & Em & Hr' & Hs'). exists r', w'. split; [done|]. split; [done|by eapply mem_step_trans]. }
  unfold transferred at 1. erewrite bind_run by exact E1. cbv beta. apply Hk.
  destruct (Z.ltb_spec res 0) as [Hneg|Hpos]; [destruct Herr; [done|lia]|]. clear Herr.
  destruct (Z.eqb_spec res 0) as [->|Hres]; [by apply transferred_end|].
  destruct (buf_write_run (len_fuel res) dst doff tmp 0 res 0 (a, 0) w1 Hp) as (out & w2 & E2 & Hr2 & Hs2).
  { eapply same_shape_in; [apply Hs1|]. eapply rg_in_sub; [exact Hin|cbn; lia..]. }
  { unfold len_fuel. lia. }
  { done. }
  assert (forall m, transferred m w2 len copied ->
    exists res' w', m w2 = Ok res' w' /\ (res' < 0 \/ copied <= res' <= copied + len) /\ mem_step w1 w') as Hk2.
  { intros m (r' & w' & Em & Hr' & Hs'). exists r', w'. split; [done|]. split; [done|by eapply mem_step_trans]. }
  unfold transferred at 1. erewrite bind_run by exact E2. cbv beta. apply Hk2.
  destruct (Z.ltb_spec out 0) as [Hneg|Hpos2].
  { destruct (Z.eqb_spec copied 0) as [->|]; [|by apply transferred_end].
    exists out, w2. split; [done|]. split; [by left|apply mem_step_refl]. }
  destruct (Z.eqb_spec out 0) as [->|Hout]; [by apply transferred_end|].
  destruct (Z.ltb_spec out n) as [Hlt|Hge].
  { exists (copied + out), w2. split; [done|]. split; [lia|apply mem_step_refl]. }
  destruct (IH (doff + out) (soff + out) (len - out) (copied + out) w2) as (r' & w' & E' & Hr' & Hs').
  - eapply same_shape_in; [apply Hs2|]. eapply same_shape_in; [apply Hs1|done].
  - lia.
  - lia.
  - lia.
  - exists r', w'. split; [exact E'|]. split; [lia|done].
Qed.

(** The buffer on the stack of [fuse_buf_fd_to_fd]. *)
Definition stack_buf (a : Z) : fuse_buf :=
  {| buf_size := 4096; buf_flags := 0; buf_mem := Some (a, 0); buf_fd := 0; buf_pos := 0; buf_mem_size := 0 |}.

Definition with_stack_buf (stk : bytes) w : world :=
  w_set_mem (<[w_next w := stk]> (w_mem w)) (w_set_next (w_next w + 1) w).

Lemma fd_to_fd_scope dst doff src soff len w : exists stk, blen stk = 4096 /\
  forall res w2, fd_to_fd_loop (len_fuel len) (stack_buf (w_next w)) dst doff src soff len 0 (with_stack_buf stk w) = Ok res w2 ->
    fuse_buf_fd_to_fd dst doff src soff len w = Ok res (w_set_mem (delete (w_next w) (w_mem w2)) w2).
Proof.
  exists (map (junk (w_nalloc w)) (seq 0 4096)). split; [unfold blen; by rewrite length_map, length_seq|].
  intros res w2 E. unfold fuse_buf_fd_to_fd. mstep by done. mstep by done. mstep by done.
  mstep by (exact E). by mstep by done.
Qed.

Lemma fd_to_fd_run dst doff src soff len w :
  0 <= len -> mem_fresh w -> transferred (fuse_buf_fd_to_fd dst doff src soff len) w len 0.
Proof.
  intros Hl Hf. destruct (fd_to_fd_scope dst doff src soff len w) as (stk & Hz & Hrun).
  destruct (fd_to_fd_loop_run (len_fuel len) (stack_buf (w_next w)) (w_next w) dst doff src soff len 0
              (with_stack_buf stk w)) as (res & w2 & E & Hr & [S1 S2]);
    [done|done| |done|unfold len_fuel; lia|done|].
  { split_and!; [done|done|]. exists stk. cbn. rewrite lookup_insert_eq. split; [done|]. lia. }
  exists res, (w_set_mem (delete (w_next w) (w_mem w2)) w2). split; [by apply Hrun|split; [done|]].
  cbn in S2. constructor; [|cbn; lia]. intros o. cbn. specialize (S1 o). cbn in S1.
  destruct (decide (w_next w = o)) as [<-|Hne].
  - rewrite lookup_delete_eq. destruct (w_mem w !! w_next w) eqn:Ea; [|done].
    pose proof (Hf (w_next w) (ltac:(eauto))). lia.
  - rewrite lookup_delete_ne by done. by rewrite lookup_insert_ne in S1.
Qed.

(** One piece of a copy, of any two kinds. *)
Lemma copy_one_any dst src doff soff len flags w :
  buf_ok (w_mem w) dst -> buf_ok (w_mem w) src -> 0 <= doff -> 0 <= soff -> 0 <= len ->
  doff + len <= buf_size dst -> soff + len <= buf_size src -> mem_fresh w ->
  transferred (fuse_buf_copy_one dst doff src soff len flags) w len 0.
Proof.
  intros [_ Hd] [_ Hs] Hdo Hso Hl Hdl Hsl Hf. unfold fuse_buf_copy_one.
  destruct (flag (buf_flags src) FUSE_BUF_IS_FD); destruct (flag (buf_flags dst) FUSE_BUF_IS_FD); cbn [negb andb].
  - unfold fuse_buf_splice. destruct (flag flags _); by apply fd_to_fd_run.
  - destruct (Hd eq_refl) as (p & Hp & Hin). eapply buf_read_run; [exact Hp| |unfold len_fuel; lia|done].
    eapply rg_in_sub; [exact Hin|cbn; lia..].
  - destruct (Hs eq_refl) as (p & Hp & Hin). eapply buf_write_run; [exact Hp| |unfold len_fuel; lia|done].
    eapply rg_in_sub; [exact Hin|cbn; lia..].
  - destruct (Hd eq_refl) as (pd & Hpd & Hdin), (Hs eq_refl) as (ps & Hps & Hsin).
    assert (rg_in (w_mem w) {| rg_obj := pd.1; rg_off := pd.2 + doff; rg_len := len |}) as Hdin' by (eapply rg_in_sub; [exact Hdin|cbn; lia..]).
    destruct (load_mem_run (ptr_add ps soff) len w) as (bs & E & Hbs); [eapply rg_in_sub; [exact Hsin|cbn; lia..]|].
    exists len.
    exists (if bool_decide (ptr_add pd doff = ptr_add ps soff) then w
            else w_set_mem (put_bytes pd.1 (pd.2 + doff) bs (w_mem w)) w).
    split; [|split; [lia|case_bool; [apply mem_step_refl|apply mem_step_put]]].
    unfold buf_ptr. rewrite bind_assoc. mstep by (by apply of_option_run). mstep by done.
    rewrite bind_assoc. mstep by (by apply of_option_run). mstep by done.
    destruct (bool_decide _); cbn [negb when]; [by mstep by done|].
    rewrite bind_assoc. mstep by (exact E). mstep by (apply store_mem_put; cbn; by rewrite Hbs). done.
Qed.
(** What a vector of any buffers has left. *)
Definition sizes (bs : list fuse_buf) : Z := fold_right (fun b n => buf_size b + n) 0 bs.
Definition bytes_left (v : fuse_bufvec) : Z :=
  match drop (Z.to_nat (bv_idx v)) (bv_buf v) with [] => 0 | bs => sizes bs - bv_off v end.

Lemma sizes_nonneg m bs : Forall (buf_ok m) bs -> 0 <= sizes bs.
Proof.
  induction 1 as [|b bs [H _] _ IH]; [done|]. change (sizes (b :: bs)) with (buf_size b + sizes bs). lia.
Qed.

Lemma bytes_left_nonneg m v : any_vec_ok m v -> 0 <= bytes_left v.
Proof.
  intros [H1 H2 H3 H4]. unfold bytes_left. destruct (bv_buf v !! Z.to_nat (bv_idx v)) as [b|] eqn:E.
  - rewrite (drop_S _ _ _ E). specialize (H4 b eq_refl).
    pose proof (sizes_nonneg m (drop (S (Z.to_nat (bv_idx v))) (bv_buf v)) (Forall_drop _ _ _ H3)).
    change (sizes (b :: ?bs)) with (buf_size b + sizes bs). cbn [sizes fold_right].
    fold (sizes (drop (S (Z.to_nat (bv_idx v))) (bv_buf v))). lia.
  - apply lookup_ge_None in E. by rewrite drop_ge by done.
Qed.

(** The position of a vector: at its end, or in a buffer. *)
Lemma any_current m v :
  any_vec_ok m v -> fuse_bufvec_current v = Some None /\ bytes_left v = 0 \/
  exists b, fuse_bufvec_current v = Some (Some b) /\ bv_buf v !! Z.to_nat (bv_idx v) = Some b /\
    bv_idx v < bv_count v /\ buf_ok m b /\ 0 <= bv_off v <= buf_size b /\ buf_size b - bv_off v <= bytes_left v.
Proof.
  intros [H1 H2 H3 H4]. unfold fuse_bufvec_current, bv_at. destruct (Z.ltb_spec (bv_idx v) (bv_count v)) as [Hi|Hi].
  - right. destruct (lookup_lt_is_Some_2 (bv_buf v) (Z.to_nat (bv_idx v))) as [b Hb]; [lia|]. exists b.
    rewrite (proj2 (Z.leb_le 0 _)) by lia. rewrite Hb. pose proof (H4 b Hb) as Hpos. pose proof (proj1 (Forall_lookup _ _) H3 _ _ Hb) as Hok.
    repeat (split; [done|]). unfold bytes_left. rewrite (drop_S _ _ _ Hb).
      pose proof (sizes_nonneg m (drop (S (Z.to_nat (bv_idx v))) (bv_buf v)) (Forall_drop _ _ _ H3)) as Hn.
      cbn [sizes fold_right]. fold (sizes (drop (S (Z.to_nat (bv_idx v))) (bv_buf v))). lia.
  - left. split; [done|]. unfold bytes_left. by rewrite drop_ge by lia.
Qed.

Lemma any_next m v n b :
  any_vec_ok m v -> bv_buf v !! Z.to_nat (bv_idx v) = Some b -> bv_idx v < bv_count v ->
  0 <= n -> bv_off v + n <= buf_size b ->
  any_vec_ok m (vec_next v n b) /\ bytes_left (vec_next v n b) = bytes_left v - n /\
  (bufs_left (vec_next v n b) + (if (bv_off v + n =? buf_size b)%Z then 1 else 0) = bufs_left v)%nat.
Proof.
  intros [H1 H2 H3 H4] Hb Hi Hn Hle. pose proof (H4 b Hb) as Ho. unfold vec_next.
  destruct (Z.eqb_spec (bv_off v + n) (buf_size b)) as [He|He].
  - assert (Z.to_nat (bv_idx v + 1) = S (Z.to_nat (bv_idx v))) as Hs by lia. split_and!.
    + constructor; cbn; [done|lia|done|]. rewrite Hs. intros c Hc.
      rewrite (proj2 (Z.eqb_neq (bv_idx v + 1) _)) by (apply lookup_lt_Some in Hc; lia).
      pose proof (proj1 (Forall_lookup _ _) H3 _ _ Hc) as [G _]. lia.
    + unfold bytes_left. cbn. rewrite Hs, (drop_S _ _ _ Hb). cbn [sizes fold_right].
      destruct (drop (S (Z.to_nat (bv_idx v))) (bv_buf v)) as [|c cs] eqn:E; [cbn; lia|].
      rewrite (proj2 (Z.eqb_neq (bv_idx v + 1) _)); [cbn; unfold sizes; lia|].
      intros Hend. apply (f_equal length) in E. rewrite length_drop in E. cbn in E. lia.
    + unfold bufs_left. cbn. lia.
  - split_and!.
    + constructor; cbn; [done|done|done|]. rewrite Hb. intros c [= <-]. lia.
    + unfold bytes_left. cbn. rewrite (drop_S _ _ _ Hb). lia.
    + unfold bufs_left. cbn. lia.
Qed.

Lemma any_vec_shape m m' v : same_shape m m' -> any_vec_ok m v -> any_vec_ok m' v.
Proof.
  intros Hs [H1 H2 H3 H4]. constructor; try done. eapply Forall_impl; [exact H3|].
  intros b [Hz Hb]. split; [done|]. intros Hf. destruct (Hb Hf) as (p & Hp & Hin). exists p. split; [done|].
  by eapply same_shape_in.
Qed.

Lemma copy_loop_returns fuel dstv srcv flags copied w :
  any_vec_ok (w_mem w) dstv -> any_vec_ok (w_mem w) srcv -> mem_fresh w ->
  (bufs_left dstv + bufs_left srcv < fuel)%nat -> 0 <= copied ->
  exists res dv sv w', copy_loop fuel dstv srcv flags copied w = Ok (res, dv, sv) w' /\
    (res < 0 /\ copied = 0 \/ copied <= res <= copied + Z.min (bytes_left dstv) (bytes_left srcv)) /\ mem_step w w'.
Proof.
  revert dstv srcv copied w. induction fuel as [|fuel IH]; intros dstv srcv copied w Hd Hs Hf Hfu Hc; [lia|].
  pose proof (bytes_left_nonneg _ _ Hd) as Hdn. pose proof (bytes_left_nonneg _ _ Hs) as Hsn.
  assert (forall (dv sv : fuse_bufvec) w', mem_step w w' ->
    exists res dv' sv' w'', Ok (copied, dv, sv) w' = Ok (res, dv', sv') w'' /\
      (res < 0 /\ copied = 0 \/ copied <= res <= copied + Z.min (bytes_left dstv) (bytes_left srcv)) /\ mem_step w w'') as Hstop.
  { intros dv sv w' Hw. exists copied, dv, sv, w'. split; [done|]. split; [lia|done]. }
  cbn [copy_loop].
  destruct (any_current _ _ Hs) as [[Ec _]|(sb & Ec & Hsb & Hsi & Hsok & Hspos & Hsl)];
    destruct (any_current _ _ Hd) as [[Ed _]|(db & Ed & Hdb & Hdi & Hdok & Hdpos & Hdl)];
    erewrite bind_run by (apply of_option_run; exact Ec); cbv beta;
    erewrite bind_run by (apply of_option_run; exact Ed); cbv beta; [by apply Hstop, mem_step_refl..|].
  set (n := min_size (buf_size sb - bv_off srcv) (buf_size db - bv_off dstv)).
  assert (n = Z.min (buf_size sb - bv_off srcv) (buf_size db - bv_off dstv)) as Hn
    by (unfold n, min_size; case_bool; zify_bool; lia).
  destruct (copy_one_any db sb (bv_off dstv) (bv_off srcv) n flags w) as (res & w1 & E1 & Hr1 & Hs1); [done|done|lia..|done|].
  erewrite bind_run by exact E1. cbv beta.
  destruct (Z.ltb_spec res 0) as [Hneg|Hpos].
  { destruct (Z.eqb_spec copied 0) as [->|]; [|by apply Hstop].
    exists res, dstv, srcv, w1. split; [done|]. split; [lia|done]. }
  destruct (any_next (w_mem w) srcv res sb) as (Hs2 & Ls2 & Bs2); [done|done|done|lia|lia|].
  destruct (any_next (w_mem w) dstv res db) as (Hd2 & Ld2 & Bd2); [done|done|done|lia|lia|].
  assert (forall (dv sv : fuse_bufvec), exists res' dv' sv' w'', Ok (copied + res, dv, sv) w1 = Ok (res', dv', sv') w'' /\
      (res' < 0 /\ copied = 0 \/ copied <= res' <= copied + Z.min (bytes_left dstv) (bytes_left srcv)) /\ mem_step w w'') as Hstop1.
  { intros dv sv. exists (copied + res), dv, sv, w1. split; [done|]. split; [lia|done]. }
  erewrite bind_run by (apply advance_run; [exact Ec|done|lia]). cbv beta iota.
  match goal with |- context [if ?c =? 0 then _ else _] => destruct (Z.eqb_spec c 0) end; [by apply Hstop1|].
  erewrite bind_run by (apply advance_run; [exact Ed|done|lia]). cbv beta iota.
  match goal with |- context [if ?c =? 0 then _ else _] => destruct (Z.eqb_spec c 0) end; [by apply Hstop1|].
  fold n. destruct (Z.ltb_spec res n) as [Hlt|Hge]; [by apply Hstop1|].
  destruct (IH (vec_next dstv res db) (vec_next srcv res sb) (copied + res) w1) as (r & dv & sv & w2 & E2 & Hr2 & Hs3).
  - eapply any_vec_shape; [apply Hs1|done].
  - eapply any_vec_shape; [apply Hs1|done].
  - by eapply mem_step_fresh.
  - destruct (Z.eqb_spec (bv_off srcv + res) (buf_size sb)), (Z.eqb_spec (bv_off dstv + res) (buf_size db)); lia.
  - lia.
  - exists r, dv, sv, w2. split; [exact E2|]. split; [lia|by eapply mem_step_trans].
Qed.

(** C18. A copy between vectors of descriptors and memory buffers always comes
    to an end, with no assertion failing and no access outside a buffer,
    whatever the descriptors deliver: it returns an error, or a number of bytes
    that both vectors have, and no object of the caller goes away or changes
    its size. *)
Theorem copy_returns dstv srcv flags w :
  any_vec_ok (w_mem w) dstv -> any_vec_ok (w_mem w) srcv -> mem_fresh w ->
  exists res dv sv w', fuse_buf_copy dstv srcv flags w = Ok (res, dv, sv) w' /\
    (res < 0 \/ 0 <= res <= Z.min (bytes_left dstv) (bytes_left srcv)) /\
    (forall o, blen <$> w_mem w' !! o = blen <$> w_mem w !! o).
Proof.
  intros Hd Hs Hf.
  destruct (copy_loop_returns (S (bufs_left dstv + bufs_left srcv)) dstv srcv flags 0 w)
    as (res & dv & sv & w' & E & Hr & [Hw _]); [done..|lia|done|].
  exists res, dv, sv, w'. split; [exact E|]. split; [lia|]. intros o. by rewrite Hw.
Qed.
End transfers.

(** ** Examples

    Objects 1 and 2 hold six bytes each; a pipe holds two bytes. *)
Definition copy_world : @world good :=
  w_set_io (P := good) [7; 8] (w_set_mem {[1 := [10; 11; 12; 13; 14; 15]; 2 := [0; 0; 0; 0; 0; 0]]} (w_set_next 10 good_world)).

Definition mem_buf (o off n : Z) : fuse_buf :=
  {| buf_size := n; buf_flags := 0; buf_mem := Some (o, off); buf_fd := 0; buf_pos := 0; buf_mem_size := 0 |}.
Definition pipe_buf (n : Z) : fuse_buf :=
  {| buf_size := n; buf_flags := FUSE_BUF_IS_FD; buf_mem := None; buf_fd := 5; buf_pos := 0; buf_mem_size := 0 |}.
Definition vec (bs : list fuse_buf) : fuse_bufvec :=
  {| bv_count := Z.of_nat (length bs); bv_idx := 0; bv_off := 0; bv_buf := bs |}.

Ltac in_copy_world := split; [cbn; lia|split; [cbn; lia|eexists; split; [reflexivity|vm_compute; congruence]]].

Lemma mem_bufs_ok : Forall (fun b => buf_ok (w_mem copy_world) b /\ flag (buf_flags b) FUSE_BUF_IS_FD = false /\
  is_Some (buf_mem b) /\ rg_in (w_mem copy_world) (region_of b)) [mem_buf 2 1 4; mem_buf 1 4 2; mem_buf 1 0 3].
Proof.
  repeat apply Forall_cons_2; [..|apply Forall_nil_2];
    (split; [split; [cbn; lia|intros _; eexists; split; [reflexivity|in_copy_world]]|]);
    (split; [done|split; [eauto|in_copy_world]]).
Qed.

Lemma vec_mem_ok bs :
  (forall b, b ∈ bs -> b ∈ [mem_buf 2 1 4; mem_buf 1 4 2; mem_buf 1 0 3]) -> vec_ok (w_mem copy_world) (vec bs).
Proof.
  intros H. pose proof (proj1 (Forall_forall _ _) mem_bufs_ok) as Hok. constructor; [done|cbn; lia| |].
  - apply Forall_forall. intros b Hb%H%Hok. apply Hb.
  - intros b Hb. apply list_elem_of_lookup_2, H, Hok in Hb as ([Hz _] & _). cbn. lia.
Qed.

Lemma vec_any_ok bs :
  (forall b, b ∈ bs -> b ∈ [pipe_buf 3; mem_buf 2 1 4; mem_buf 1 4 2; mem_buf 1 0 3]) ->
  any_vec_ok (w_mem copy_world) (vec bs).
Proof.
  intros H. assert (forall b, b ∈ bs -> buf_ok (w_mem copy_world) b) as Hok.
  { intros b [->|Hb]%H%elem_of_cons; [split; [cbn; lia|done]|].
    pose proof (proj1 (Forall_forall _ _) mem_bufs_ok) as G. by apply G. }
  constructor; [done|cbn; lia|by apply Forall_forall|].
  intros b Hb. apply list_elem_of_lookup_2, Hok in Hb as [Hz _]. cbn. lia.
Qed.

Lemma memory_copied_witness :
  exists dv sv mem', @fuse_buf_copy good (vec [mem_buf 2 1 4]) (vec [mem_buf 1 4 2; mem_buf 1 0 3]) 0 copy_world =
    Ok (4, dv, sv) (w_set_mem mem' copy_world) /\
  read_regions mem' (regions (vec [mem_buf 2 1 4])) = [14; 15; 10; 11].
Proof.
  destruct (@memory_copied good (vec [mem_buf 2 1 4]) (vec [mem_buf 1 4 2; mem_buf 1 0 3]) 0 copy_world)
    as (dv & sv & mem' & E & Hr & _).
  - apply vec_mem_ok. set_solver.
  - apply vec_mem_ok. set_solver.
  - cbn. repeat constructor. set_solver.
  - cbn. set_solver.
  - exists dv, sv, mem'. split; [exact E|]. rewrite Hr. reflexivity.
Defined.

Lemma copy_returns_witness :
  exists dv sv w', @fuse_buf_copy good (vec [mem_buf 2 1 4]) (vec [pipe_buf 3; mem_buf 1 0 3]) 0 copy_world =
    Ok (2, dv, sv) w' /\ blen <$> w_mem w' !! 2 = Some 6.
Proof.
  destruct (@copy_returns good good_spec (vec [mem_buf 2 1 4]) (vec [pipe_buf 3; mem_buf 1 0 3]) 0 copy_world)
    as (res & dv & sv & w' & E & Hr & Hs).
  - apply vec_any_ok. set_solver.
  - apply vec_any_ok. set_solver.
  - intros o [x Ho]. cbn in *. destruct (decide (o = 1)) as [->|]; [lia|]. destruct (decide (o = 2)) as [->|]; [lia|].
    by rewrite lookup_insert_ne, lookup_singleton_ne in Ho by done.
  - exists dv, sv, w'. split; [|by rewrite Hs]. clear Hr Hs. revert E. vm_compute. intros [= <- <- <- <-]. reflexivity.
Defined.
