(* ===== verification/OptProps.v ===== *)
(** * Properties of the option parser

    Option strings split at their unescaped commas, whatever the in-place
    rewriting of the source does to its copy; what [fuse_opt_add_opt_escaped]
    joins comes back; every matching template of a table is applied, in order;
    and a parse without a table normalises an argument vector. *)

From S2P Require Import Prelude Platform World Opt.

(** ** What an option string stands for *)

Definition octal_digits (a b c : Z) : bool := in_range 48 51 a && in_range 48 55 b && in_range 48 55 c.
Definition octal_value (a b c : Z) : Z := (a - ZERO) * 64 + (b - ZERO) * 8 + (c - ZERO).

(** The options of a string, with [acc] the start of the first. *)
Fixpoint group_split (acc s : bytes) : list bytes :=
  match s with
  | [] => [acc]
  | c :: s1 =>
      if c =? COMMA then acc :: group_split [] s1
      else if c =? BACKSLASH then
        match s1 with
        | [] => group_split (acc ++ [c]) s1
        | e :: s2 =>
            match s2 with
            | f :: s3 =>
                match s3 with
                | g :: s4 =>
                    if octal_digits e f g then group_split (acc ++ [octal_value e f g]) s4
                    else group_split (acc ++ [e]) s2
                | [] => group_split (acc ++ [e]) s2
                end
            | [] => group_split (acc ++ [e]) s2
            end
        end
      else group_split (acc ++ [c]) s1
  end.

(** A C string ends at the first zero byte, which an octal escape may be. *)
Definition c_prefix (s : bytes) : bytes := default [] (cstr (s ++ [0])).

Definition group_opts (s : bytes) : list bytes := c_prefix <$> group_split [] s.

Section props.
Context {P : Platform}.

(** Process options one after the other, up to the first error. *)
Fixpoint run_opts (ctx : fuse_opt_context) (os : list bytes) : AM (Z * fuse_opt_context) :=
  match os with
  | [] => mret (0, ctx)
  | o :: os =>
      '(res, ctx) ← process_gopt ctx o true;
      if res =? -1 then mret (-1, ctx) else run_opts ctx os
  end.

Lemma am_bind_run {A B} (m : AM A) (k : A -> AM B) n a n' : m n = inr (a, n') -> (m ≫= k) n = k a n'.
Proof. intros H. unfold mbind, AM_bind. by rewrite H. Qed.

Lemma am_bind_ext {A B} (m : AM A) (k k' : A -> AM B) n :
  (forall a n', k a n' = k' a n') -> (m ≫= k) n = (m ≫= k') n.
Proof. intros H. unfold mbind, AM_bind. destruct (m n) as [|[a n']]; [done|apply H]. Qed.

Lemma rd_run (mem : bytes) i c r n : drop i mem = c :: r -> rd mem i n = inr (c, n).
Proof.
  intros H. unfold rd. assert (mem !! i = Some c) as ->; [|done].
  rewrite <- (Nat.add_0_r i), <- lookup_drop, H. done.
Qed.

Lemma wr_run mem i v n : (i < length mem)%nat -> wr mem i v n = inr (<[i := v]> mem, n).
Proof. intros H. unfold wr. by rewrite decide_True. Qed.

Lemma take_write (mem : bytes) d v : (d < length mem)%nat -> take (S d) (<[d := v]> mem) = take d mem ++ [v].
Proof.
  intros H. rewrite insert_take_drop by done. rewrite take_app, length_take, Nat.min_l by lia.
  replace (S d - d)%nat with 1%nat by lia. rewrite take_take, Nat.min_r by lia. done.
Qed.

Lemma drop_write (mem : bytes) d v i : (d < i)%nat -> drop i (<[d := v]> mem) = drop i mem.
Proof. intros H. by apply drop_insert_lt. Qed.

Lemma drop_more {A} (l : list A) i c r : drop i l = c :: r -> drop (S i) l = r.
Proof. intros H. replace (S i) with (i + 1)%nat by lia. by rewrite <- drop_drop, H. Qed.

Lemma drop_lt {A} (l : list A) i c r : drop i l = c :: r -> (i < length l)%nat.
Proof.
  intros H. apply (f_equal length) in H. rewrite length_drop in H. cbn in H. lia.
Qed.

Lemma cstr_prefix (acc r : bytes) : cstr (acc ++ 0 :: r) = Some (c_prefix acc).
Proof.
  unfold c_prefix. enough (cstr (acc ++ 0 :: r) = cstr (acc ++ [0]) /\ is_Some (cstr (acc ++ [0]))) as [-> [x ->]] by done.
  induction acc as [|a acc [IH1 [x IH2]]]; [by eauto|]. cbn. destruct (a =? 0); [by eauto|]. rewrite IH1, IH2. by eauto.
Qed.

Lemma cstr_write (mem : bytes) d : (d < length mem)%nat -> cstr (<[d := 0]> mem) = Some (c_prefix (take d mem)).
Proof. intros H. rewrite insert_take_drop by done. apply cstr_prefix. Qed.

(** The octal test, on a string that ends with its zero byte. *)
Lemma octal_run mem s e r n :
  drop s mem = e :: r ++ [0] -> nonul (e :: r) ->
  octal_at mem s n = inr (match r with
    | f :: g :: _ => if octal_digits e f g then Some (octal_value e f g) else None
    | _ => None end, n).
Proof.
  intros H Hn. unfold octal_at. rewrite (am_bind_run _ _ _ _ _ (rd_run _ _ _ _ n H)). cbv beta.
  pose proof (drop_more _ _ _ _ H) as H1. unfold octal_digits.
  destruct (in_range 48 51 e) eqn:Ee; cbn [negb andb]; [|by destruct r as [|f [|g r]]].
  destruct r as [|f r]; cbn [app] in H1; rewrite (am_bind_run _ _ _ _ _ (rd_run _ _ _ _ n H1)); cbv beta; [done|].
  pose proof (drop_more _ _ _ _ H1) as H2.
  destruct (in_range 48 55 f) eqn:Ef; cbn [negb andb]; [|by destruct r as [|g r]].
  destruct r as [|g r]; cbn [app] in H2; rewrite (am_bind_run _ _ _ _ _ (rd_run _ _ _ _ n H2)); cbv beta; [done|].
  by destruct (in_range 48 55 g) eqn:Eg; cbn [negb andb].
Qed.

Lemma group_loop_run fuel ctx mem s d rest n :
  (d <= s)%nat -> drop s mem = rest ++ [0] -> nonul rest -> (S (length rest) < fuel)%nat ->
  group_loop fuel ctx mem s d false n = run_opts ctx (c_prefix <$> group_split (take d mem) rest) n.
Proof.
  revert ctx mem s d rest n. induction fuel as [|fuel IH]; intros ctx mem s d rest n Hds Hs Hn Hf; [lia|].
  assert (forall s' v rest', (d < s')%nat -> drop s' mem = rest' ++ [0] -> nonul rest' ->
    (S (length rest') < fuel)%nat -> (d < length mem)%nat ->
    (mem0 ← wr mem d v; group_loop fuel ctx mem0 s' (S d) false) n =
    run_opts ctx (c_prefix <$> group_split (take d mem ++ [v]) rest') n) as Hput.
  { intros s' v rest' H1 H2 H3 H4 H5. rewrite (am_bind_run _ _ _ _ _ (wr_run _ _ v n H5)).
    rewrite (IH ctx _ s' (S d) rest' n); [by rewrite take_write|lia|by rewrite drop_write|done|done]. }
  assert (forall finished s' tl, (d < s')%nat -> (d < length mem)%nat ->
    (forall ctx n', group_loop fuel ctx (<[d := 0]> mem) s' 0 finished n' = run_opts ctx tl n') ->
    (mem0 ← wr mem d 0; opt ← am_option OutOfBounds (cstr mem0); '(res, ctx) ← process_gopt ctx opt true;
     if res =? -1 then mret (-1, ctx) else group_loop fuel ctx mem0 s' 0 finished) n =
    run_opts ctx (c_prefix (take d mem) :: tl) n) as Hone.
  { intros finished s' tl H1 H2 H3. rewrite (am_bind_run _ _ _ _ _ (wr_run _ _ 0 n H2)). rewrite cstr_write by done.
    cbn [am_option run_opts]. rewrite (am_bind_run (mret _) _ n (c_prefix (take d mem)) n) by done. cbv beta.
    apply am_bind_ext. intros [res ctx'] n'. destruct (res =? -1); [done|]. apply H3. }
  destruct rest as [|c rest]; cbn [app] in Hs; pose proof (drop_lt _ _ _ _ Hs) as Hlen;
    cbn [group_loop]; rewrite (am_bind_run _ _ _ _ _ (rd_run _ _ _ _ n Hs)); cbv beta zeta.
  - cbn [Z.eqb Z.eq_dec orb]. rewrite orb_true_r. rewrite (Hone true (S s) []); [done|lia|lia|].
    intros ctx' n'. destruct fuel; [cbn in Hf; lia|done].
  - apply Forall_cons in Hn as [Hc Hn]. rewrite (proj2 (Z.eqb_neq c 0)) by done. rewrite orb_false_r.
    pose proof (drop_more _ _ _ _ Hs) as Hs1. cbn [length] in Hf. cbn [group_split].
    destruct (Z.eqb_spec c COMMA) as [->|Hcomma].
    { cbn [fmap list_fmap]. apply (Hone false (S s) (c_prefix <$> group_split [] rest)); [lia|lia|].
      intros ctx' n'. rewrite (IH ctx' _ (S s) 0%nat rest n'); [done|lia| |done|lia]. by rewrite drop_write by lia. }
    destruct (Z.eqb_spec c BACKSLASH) as [->|Hback].
    + destruct rest as [|e rest]; cbn [app] in Hs1; rewrite (am_bind_run _ _ _ _ _ (rd_run _ _ _ _ n Hs1)); cbv beta.
      { cbn [Z.eqb negb]. apply Hput; [lia|done|done|cbn; lia|lia]. }
      pose proof (Forall_inv Hn) as He. rewrite (proj2 (Z.eqb_neq e 0)) by done. cbn [negb].
      rewrite (am_bind_run _ _ _ _ _ (octal_run _ _ _ _ n Hs1 Hn)). cbv beta. clear He.
      apply Forall_cons in Hn as [He Hn]. pose proof (drop_more _ _ _ _ Hs1) as Hs2. cbn [length] in Hf.
      assert ((mem0 ← wr mem d e; group_loop fuel ctx mem0 (S (S s)) (S d) false) n =
              run_opts ctx (c_prefix <$> group_split (take d mem ++ [e]) rest) n) as Hlit by (apply Hput; (lia || done)).
      destruct rest as [|f [|g rest]]; [exact Hlit..|].
      destruct (octal_digits e f g); [|exact Hlit]. cbn [app] in Hs2. cbn [length] in Hf.
      pose proof (drop_more _ _ _ _ Hs2) as Hs3. pose proof (drop_more _ _ _ _ Hs3) as Hs4.
      apply Forall_cons in Hn as [_ Hn]. apply Forall_cons in Hn as [_ Hn].
      replace (S s + 3)%nat with (S (S (S (S s)))) by lia. apply Hput; (lia || done).
    + rewrite (am_bind_run (mret 0) _ n 0 n) by done. cbn [Z.eqb negb]. apply Hput; (lia || done).
Qed.

Lemma option_group_run ctx s n :
  nonul s -> alloc_ok n = true -> process_option_group ctx s n = run_opts ctx (group_opts s) (S n).
Proof.
  intros Hn Ha. unfold process_option_group, try_alloc. rewrite (am_bind_run _ _ n true (S n)) by (by rewrite Ha).
  cbn [negb]. unfold process_real_option_group. rewrite (group_loop_run _ _ _ 0 0 s); [done|done|done|done|].
  rewrite length_app. cbn. lia.
Qed.

(** C22. The options of an option string.  The loop that unescapes the string in
    its own copy processes exactly the pieces between the unescaped commas, with
    their escapes resolved, from left to right up to the first error; it never
    reads or writes outside the copy. *)
Theorem option_group_split ctx s n :
  nonul s -> alloc_ok n = true -> process_option_group ctx s n = run_opts ctx (group_opts s) (S n).
Proof. apply option_group_run. Qed.
(** ** Joining options *)

Lemma am_bind_inr {A B} (m : AM A) (k : A -> AM B) n b n' :
  (m ≫= k) n = inr (b, n') -> exists a n1, m n = inr (a, n1) /\ k a n1 = inr (b, n').
Proof. unfold mbind, AM_bind. destruct (m n) as [|[a n1]]; [done|]. eauto. Qed.


Definition add_one (s o : bytes) : bytes := (if 0 <? blen s then s ++ [COMMA] else []) ++ escape true o.
Definition joined (os : list bytes) : bytes := foldl add_one [] os.

Lemma add_opt_run opts o n :
  alloc_ok n = true -> fuse_opt_add_opt_escaped opts o n = inr ((0, Some (add_one (default [] opts) o)), S n).
Proof. intros Ha. unfold fuse_opt_add_opt_escaped, add_opt_common, try_alloc, mbind, AM_bind. by rewrite Ha. Qed.


Lemma escape_nonul o : nonul o -> nonul (escape true o).
Proof.
  induction 1 as [|c o Hc Ho IH]; [constructor|]. cbn. destruct (_ || _); repeat (constructor; try done).
Qed.

(** Escaped bytes mean themselves, whatever follows the option. *)
Lemma split_escape acc o rest :
  head rest = Some COMMA \/ rest = [] -> group_split acc (escape true o ++ rest) = group_split (acc ++ o) rest.
Proof.
  intros Hr. revert acc. induction o as [|c o IH]; intros acc; [cbn; by rewrite app_nil_r|].
  assert (acc ++ c :: o = (acc ++ [c]) ++ o) as -> by by rewrite <- app_assoc.
  rewrite <- IH. cbn [escape]. set (t := escape true o ++ rest).
  destruct (Z.eqb_spec c COMMA) as [->|H1]; [|destruct (Z.eqb_spec c BACKSLASH) as [->|H2]].
  - cbn [andb orb app]. fold t. by destruct t as [|f [|g t']].
  - cbn [andb orb app]. fold t. by destruct t as [|f [|g t']].
  - cbn [andb orb app]. fold t. cbn [group_split].
    by rewrite (proj2 (Z.eqb_neq c COMMA)), (proj2 (Z.eqb_neq c BACKSLASH)) by done.
Qed.

(** The escaped options with commas between them. *)
Fixpoint joined_with (s : bytes) (os : list bytes) : bytes :=
  match os with [] => s | o :: os => joined_with (s ++ COMMA :: escape true o) os end.

Lemma add_one_nonempty s o : s <> [] -> add_one s o = s ++ COMMA :: escape true o.
Proof.
  intros Hs. unfold add_one. rewrite (proj2 (Z.ltb_lt _ _)); [by rewrite <- app_assoc|].
  destruct s; [done|]. unfold blen. cbn. lia.
Qed.

Lemma foldl_joined s os : s <> [] -> foldl add_one s os = joined_with s os.
Proof.
  revert s. induction os as [|o os IH]; intros s Hs; [done|]. cbn. rewrite <- IH by by destruct s.
  by rewrite add_one_nonempty.
Qed.

Lemma joined_with_app s os : joined_with s os = s ++ joined_with [] os.
Proof.
  revert s. induction os as [|o os IH]; intros s; [cbn; by rewrite app_nil_r|]. cbn.
  rewrite (IH (s ++ _)), (IH (COMMA :: _)). by rewrite <- app_assoc.
Qed.

Lemma split_joined acc os : group_split acc (joined_with [] os) = acc :: os.
Proof.
  revert acc. induction os as [|o os IH]; intros acc; [done|]. cbn [joined_with app].
  rewrite joined_with_app. cbn [app group_split]. rewrite Z.eqb_refl. f_equal.
  rewrite split_escape; [by rewrite app_nil_l|]. destruct os as [|o' os]; [by right|left].
  cbn. by rewrite joined_with_app.
Qed.

Lemma joined_cons o os : o <> [] -> joined (o :: os) = escape true o ++ joined_with [] os.
Proof.
  intros Ho. unfold joined. cbn [foldl]. assert (add_one [] o = escape true o) as -> by done.
  rewrite foldl_joined, joined_with_app; [done|]. destruct o as [|c o]; [done|]. cbn. by destruct (_ || _).
Qed.

Lemma c_prefix_id o : nonul o -> c_prefix o = o.
Proof. intros Ho. unfold c_prefix. by rewrite cstr_app. Qed.

Lemma group_opts_joined os :
  Forall nonul os -> head os <> Some [] -> os <> [] -> group_opts (joined os) = os.
Proof.
  intros Hn Hh Hne. destruct os as [|o os]; [done|]. unfold group_opts. rewrite joined_cons by (intros ->; done).
  rewrite split_escape; [|destruct os as [|o' os]; [by right|left; cbn; by rewrite joined_with_app]].
  rewrite app_nil_l, split_joined. cbn [fmap list_fmap].
  inversion Hn as [|? ? Ho Hos]; subst. rewrite c_prefix_id by done. f_equal.
  clear -Hos. induction Hos as [|o os Ho _ IH]; [done|]. cbn. by rewrite c_prefix_id, IH.
Qed.

Lemma joined_nonul os : Forall nonul os -> nonul (joined os).
Proof.
  intros Hn. unfold joined. assert (nonul []) as H0 by constructor. revert H0. generalize (@nil Z) as s.
  induction Hn as [|o os Ho _ IH]; intros s Hs; [done|]. cbn. apply IH. unfold add_one.
  apply Forall_app; split; [|by apply escape_nonul]. case_bool; [|constructor].
  apply Forall_app; split; [done|]. by repeat constructor.
Qed.


(** ** Templates *)

(** All templates of a table that match, with their separators. *)
Definition matches (opts : list fuse_opt) (arg : bytes) : list (fuse_opt * nat) :=
  omap (fun o => pair o <$> match_template (opt_templ o) arg) opts.

(** Does the option take its parameter from the next argument? *)
Definition wants_arg (opt : fuse_opt) (sep : nat) (arg : bytes) : bool :=
  negb (Nat.eqb sep 0) && (byte_at (opt_templ opt) sep =? SPACE) && (byte_at arg sep =? 0).

Definition run_match (ctx : fuse_opt_context) (m : fuse_opt * nat) (arg : bytes) (iso : bool) :=
  (if wants_arg m.1 m.2 arg then process_opt_sep_arg ctx m.1 m.2 arg iso else process_opt ctx m.1 m.2 arg iso).

Fixpoint run_matches (ctx : fuse_opt_context) (ms : list (fuse_opt * nat)) (arg : bytes) (iso : bool)
    : AM (Z * fuse_opt_context) :=
  match ms with
  | [] => mret (0, ctx)
  | m :: ms =>
      '(res, ctx) ← run_match ctx m arg iso;
      if res =? -1 then mret (-1, ctx) else run_matches ctx ms arg iso
  end.

Lemma find_opt_matches opts arg :
  match find_opt opts arg with
  | None => matches opts arg = []
  | Some (o, sep, rest) => matches opts arg = (o, sep) :: matches rest arg /\ (length rest < length opts)%nat
  end.
Proof.
  induction opts as [|o opts IH]; [done|]. cbn [find_opt matches omap list_omap].
  destruct (match_template (opt_templ o) arg) as [sep|] eqn:E; cbn; [split; [done|lia]|].
  destruct (find_opt opts arg) as [[[o' sep'] rest]|]; [|done]. destruct IH as [IH1 IH2].
  split; [exact IH1|lia].
Qed.

Lemma gopt_loop_run fuel ctx opts arg iso n :
  (length opts < fuel)%nat ->
  gopt_loop fuel ctx (find_opt opts arg) arg iso n = run_matches ctx (matches opts arg) arg iso n.
Proof.
  revert ctx opts n. induction fuel as [|fuel IH]; intros ctx opts n Hf; [lia|].
  pose proof (find_opt_matches opts arg) as Hm. cbn [gopt_loop].
  destruct (find_opt opts arg) as [[[o sep] rest]|]; [|by rewrite Hm]. destruct Hm as [-> Hl].
  cbn [run_matches]. unfold run_match, wants_arg. cbn [fst snd]. apply am_bind_ext. intros [res ctx'] n'.
  destruct (res =? -1); [done|]. apply IH. lia.
Qed.

Lemma process_gopt_run ctx arg iso n :
  process_gopt ctx arg iso n =
  match matches (ctx_opt ctx) arg with
  | [] => call_proc ctx arg FUSE_OPT_KEY_OPT iso n
  | ms => run_matches ctx ms arg iso n
  end.
Proof.
  unfold process_gopt. pose proof (find_opt_matches (ctx_opt ctx) arg) as Hm.
  destruct (find_opt (ctx_opt ctx) arg) as [[[o sep] rest]|] eqn:E; [|by rewrite Hm].
  rewrite <- E, gopt_loop_run by lia. destruct Hm as [-> _]. done.
Qed.

(** An option is put to every template of the table: all those that match are
    applied, in the order of the table, up to the first error; an option that
    none matches goes to the processing function. *)
Lemma all_templates_applied ctx arg iso n :
  process_gopt ctx arg iso n =
  match matches (ctx_opt ctx) arg with
  | [] => call_proc ctx arg FUSE_OPT_KEY_OPT iso n
  | ms => run_matches ctx ms arg iso n
  end.
Proof. apply process_gopt_run. Qed.
(** ** Parsing without a table *)

Definition separator : bytes := str "--"%string.

(** The arguments that stay, the options of the [-o] arguments, and the place of
    the separator among the arguments that stay; [None] when the argument of a
    last [-o] is missing. *)
Definition keep (a : bytes) (r : list bytes * list bytes * option nat) : list bytes * list bytes * option nat :=
  let '(kept, os, sep) := r in (a :: kept, os, S <$> sep).
Definition with_opts (new : list bytes) (r : list bytes * list bytes * option nat) : list bytes * list bytes * option nat :=
  let '(kept, os, sep) := r in (kept, new ++ os, sep).
Definition separated (a : bytes) (r : list bytes * list bytes * option nat) : list bytes * list bytes * option nat :=
  let '(kept, os, sep) := r in (a :: kept, os, Some O).

Fixpoint scan (nonopt : bool) (l : list bytes) : option (list bytes * list bytes * option nat) :=
  match l with
  | [] => Some ([], [], None)
  | a :: r =>
      if nonopt || negb (byte_at a 0 =? DASH) then keep a <$> scan nonopt r
      else if byte_at a 1 =? 111 then
        if negb (byte_at a 2 =? 0) then with_opts (group_opts (drop 2 a)) <$> scan nonopt r
        else match r with [] => None | g :: r => with_opts (group_opts g) <$> scan nonopt r end
      else if (byte_at a 1 =? DASH) && (byte_at a 2 =? 0) then separated a <$> scan true r
      else keep a <$> scan nonopt r
  end.

(** The argument vector a parse produces. *)
Definition normal_form (r : list bytes * list bytes * option nat) : list bytes :=
  let '(kept, os, sep) := r in
  if decide (os = []) then
    if decide (S <$> sep = Some (length kept)) then take (pred (length kept)) kept else kept
  else str "-o"%string :: joined os :: kept.

Definition out_of (l : list bytes) : fuse_args :=
  {| args_argc := Z.of_nat (length l); args_argv := Some l; args_allocated := true |}.

(** Adding and inserting, with the two allocations they make. *)
Lemma add_arg_gen args l a n :
  args = out_of l \/ args = args_none /\ l = [] ->
  fuse_opt_add_arg args a n =
  (if alloc_ok n then if alloc_ok (S n) then inr ((0, out_of (l ++ [a])), S (S n)) else inr ((-1, args), S (S n))
   else inr ((-1, args), S n)).
Proof.
  intros H. assert (take (Z.to_nat (args_argc args)) (default [] (args_argv args)) = l /\
    args_argc args + 1 = Z.of_nat (length (l ++ [a])) /\
    (match args_argv args with None => true | Some _ => args_allocated args end) = true) as (H1 & H2 & H3).
  { destruct H as [-> | [-> ->]]; cbn; [|done]. rewrite Nat2Z.id, firstn_all, length_app. cbn. split; [done|]. split; [lia|done]. }
  unfold fuse_opt_add_arg. rewrite H3. unfold try_alloc. rewrite (am_bind_run _ _ n tt n) by done.
  destruct (alloc_ok n) eqn:E1; [|by rewrite (am_bind_run _ _ n false (S n)) by (by rewrite E1)].
  rewrite (am_bind_run _ _ n true (S n)) by (by rewrite E1). cbn [negb].
  destruct (alloc_ok (S n)) eqn:E2; [|by rewrite (am_bind_run _ _ (S n) false (S (S n))) by (by rewrite E2)].
  rewrite (am_bind_run _ _ (S n) true (S (S n))) by (by rewrite E2). cbn [negb]. by rewrite H1, H2.
Qed.

Lemma insert_arg_gen l1 l2 a n :
  fuse_opt_insert_arg (out_of (l1 ++ l2)) (Z.of_nat (length l1)) a n =
  (if alloc_ok n then if alloc_ok (S n) then inr ((0, out_of (l1 ++ a :: l2)), S (S n))
                      else inr ((-1, out_of (l1 ++ l2)), S (S n))
   else inr ((-1, out_of (l1 ++ l2)), S n)).
Proof.
  unfold fuse_opt_insert_arg, fuse_opt_insert_arg_common. cbn [args_argc out_of].
  rewrite (proj2 (Z.leb_le _ _)) by (rewrite length_app; lia). rewrite (am_bind_run _ _ n tt n) by done.
  pose proof (add_arg_gen _ (l1 ++ l2) a n (or_introl eq_refl)) as E.
  destruct (alloc_ok n); [|by rewrite (am_bind_run _ _ _ _ _ E)].
  destruct (alloc_ok (S n)); [|by rewrite (am_bind_run _ _ _ _ _ E)].
  rewrite (am_bind_run _ _ _ _ _ E). cbv beta iota. cbn [Z.eqb].
  cbn [args_argc args_argv args_allocated out_of]. set (l := (l1 ++ l2) ++ [a]).
  assert (length l = length l1 + S (length l2))%nat as Hl by (unfold l; rewrite !length_app; cbn; lia).
  replace (Z.of_nat (length l) - 1) with (Z.of_nat (length (l1 ++ l2))) by (rewrite Hl, length_app; lia).
  destruct (Z.eqb_spec (Z.of_nat (length l1)) (Z.of_nat (length (l1 ++ l2)))) as [Eq|Eq]; cbn [negb].
  { rewrite length_app in Eq. destruct l2; [|cbn in Eq; lia]. unfold l. by rewrite app_nil_r. }
  rewrite (am_bind_run _ _ (S (S n)) l (S (S n))) by done. rewrite (am_bind_run _ _ (S (S n)) a (S (S n))).
  2:{ unfold l. rewrite Nat2Z.id, lookup_app_r, Nat.sub_diag by done. done. }
  rewrite (proj2 (Z.ltb_ge _ _)) by lia. rewrite Nat2Z.id. unfold l. rewrite <- !app_assoc.
  rewrite take_app_length, drop_app_length.
  replace (Z.to_nat _) with (length l2) by (rewrite !length_app; cbn; lia). rewrite take_app_length.
  unfold mret, AM_ret, out_of. do 4 f_equal. rewrite !length_app. cbn. lia.
Qed.

Section normal_forms.
Context (data : optdata) (argc : Z) (argv : list bytes).
Context (Halloc : forall i, alloc_ok i = true).

(** The parser between two arguments. *)
Definition at_arg (ctr : Z) (out : list bytes) (opts : option bytes) (nonopt : Z) : fuse_opt_context :=
  {| ctx_data := data; ctx_opt := []; ctx_proc := None; ctx_argctr := ctr; ctx_argc := argc; ctx_argv := argv;
     ctx_outargs := out_of out; ctx_opts := opts; ctx_nonopt := nonopt |}.

Lemma add_arg_run_gen args l a n :
  args = out_of l \/ args = args_none /\ l = [] -> fuse_opt_add_arg args a n = inr ((0, out_of (l ++ [a])), S (S n)).
Proof. intros H. by rewrite (add_arg_gen args l), !Halloc. Qed.

Lemma add_arg_run ctr out opts nonopt a n :
  add_arg (at_arg ctr out opts nonopt) a n = inr ((0, at_arg ctr (out ++ [a]) opts nonopt), S (S n)).
Proof.
  unfold add_arg. rewrite (am_bind_run _ _ _ _ _ (add_arg_run_gen _ out a n (or_introl eq_refl))). done.
Qed.

Definition opts_after (opts : option bytes) (os : list bytes) : option bytes :=
  match os with [] => opts | _ => Some (foldl add_one (default [] opts) os) end.

Lemma opts_after_app opts os os' : opts_after (opts_after opts os) os' = opts_after opts (os ++ os').
Proof. destruct os as [|o os], os' as [|o' os']; cbn; [done..|by rewrite app_nil_r|]. by rewrite foldl_app. Qed.

Lemma run_opts_keep ctr out opts nonopt os n :
  run_opts (at_arg ctr out opts nonopt) os n =
  inr ((0, at_arg ctr out (opts_after opts os) nonopt), (n + length os)%nat).
Proof.
  revert opts n. induction os as [|o os IH]; intros opts n; [cbn; by rewrite Nat.add_0_r|]. cbn [run_opts].
  assert (process_gopt (at_arg ctr out opts nonopt) o true n =
    inr ((0, at_arg ctr out (Some (add_one (default [] opts) o)) nonopt), S n)) as E.
  { unfold process_gopt. cbn. unfold call_proc. cbn. unfold add_opt. cbn [ctx_opts at_arg].
    rewrite (am_bind_run _ _ _ _ _ (add_opt_run opts o n (Halloc n))). done. }
  rewrite (am_bind_run _ _ _ _ _ E). cbn [Z.eqb]. rewrite IH. cbn [length]. rewrite Nat.add_succ_r.
  change (at_arg ctr out (Some (add_one (default [] opts) o)) nonopt) with (at_arg ctr out (opts_after opts [o]) nonopt).
  by destruct os.
Qed.

Lemma group_run ctr out opts nonopt s n :
  nonul s -> process_option_group (at_arg ctr out opts nonopt) s n =
  inr ((0, at_arg ctr out (opts_after opts (group_opts s)) nonopt), (S n + length (group_opts s))%nat).
Proof. intros Hs. rewrite option_group_run by done. apply run_opts_keep. Qed.

(** The separator's count after the arguments [kept] were added to [out]. *)
Definition nonopt_after (nonopt : Z) (out : list bytes) (sep : option nat) : Z :=
  match sep with Some i => Z.of_nat (length out + S i) | None => nonopt end.

(** What is left of a parse that scans [r] behind [out]. *)
Definition parse_result (out : list bytes) (opts : option bytes) (nonopt : Z)
    (r : option (list bytes * list bytes * option nat)) (res : fault + (Z * fuse_opt_context) * nat) : Prop :=
  match r with
  | Some (kept, os, sep) => exists ctr n, res = inr ((0, at_arg ctr (out ++ kept) (opts_after opts os)
                                                 (nonopt_after nonopt out sep)), n)
  | None => exists ctx n, res = inr ((-1, ctx), n) /\ ctx_data ctx = data
  end.

Lemma parse_result_keep out opts nonopt a r res :
  parse_result (out ++ [a]) opts nonopt r res -> parse_result out opts nonopt (keep a <$> r) res.
Proof.
  destruct r as [[[kept os] sep]|]; [|done]. intros (ctr & n & ->). exists ctr, n. rewrite <- app_assoc. cbn.
  do 4 f_equal. destruct sep; [|done]. unfold nonopt_after. cbn. rewrite length_app. cbn. lia.
Qed.

Lemma parse_result_opts out opts nonopt new r res :
  parse_result out (opts_after opts new) nonopt r res -> parse_result out opts nonopt (with_opts new <$> r) res.
Proof.
  destruct r as [[[kept os] sep]|]; [|done]. intros (ctr & n & ->). exists ctr, n. by rewrite opts_after_app.
Qed.

Lemma scan_true_sep l kept os sep : scan true l = Some (kept, os, sep) -> sep = None.
Proof.
  revert kept os sep. induction l as [|a l IH]; intros kept os sep; cbn; [by intros [= <- <- <-]|].
  destruct (scan true l) as [[[k o] s]|]; [|done]. cbn. rewrite (IH k o s eq_refl). by intros [= <- <- <-].
Qed.

Lemma parse_result_sep out opts nonopt a l res :
  parse_result (out ++ [a]) opts (Z.of_nat (length (out ++ [a]))) (scan true l) res ->
  parse_result out opts nonopt (separated a <$> scan true l) res.
Proof.
  destruct (scan true l) as [[[kept os] sep]|] eqn:E; [|done]. rewrite (scan_true_sep _ _ _ _ E).
  intros (ctr & n & ->). exists ctr, n. rewrite <- app_assoc. cbn. rewrite length_app. done.
Qed.

Lemma nonul_drop n s : nonul s -> nonul (drop n s).
Proof. apply Forall_drop. Qed.

(** One argument. *)
Lemma parse_loop_run fuel ctr out opts nonopt l n :
  0 <= ctr -> argc = Z.of_nat (length argv) -> drop (Z.to_nat ctr) argv = l -> Forall nonul l ->
  (length l < fuel)%nat ->
  parse_result out opts nonopt (scan (truth nonopt) l) (parse_loop fuel (at_arg ctr out opts nonopt) n).
Proof.
  intros Hctr Hargc. revert ctr out opts nonopt l n Hctr.
  induction fuel as [|fuel IH]; intros ctr out opts nonopt l n Hctr Hl Hn Hf; [lia|]. cbn [parse_loop].
  change (ctx_argctr (at_arg ctr out opts nonopt)) with ctr. change (ctx_argc (at_arg ctr out opts nonopt)) with argc.
  destruct l as [|a l].
  { apply (f_equal length) in Hl. rewrite length_drop in Hl. cbn in Hl. rewrite (proj2 (Z.ltb_ge _ _)) by lia.
    exists ctr, n. by rewrite app_nil_r. }
  pose proof (drop_lt _ _ _ _ Hl) as Hlt. rewrite (proj2 (Z.ltb_lt _ _)) by lia.
  assert (forall c b r i m, drop (Z.to_nat c) argv = b :: r -> cur_arg (at_arg c out opts i) m = inr (b, m)) as Hcur.
  { intros c b r i m Hd. unfold cur_arg. cbn. rewrite <- (Nat.add_0_r (Z.to_nat c)), <- lookup_drop, Hd. done. }
  rewrite (am_bind_run _ _ _ _ _ (Hcur _ _ _ _ n Hl)). cbv beta. pose proof (drop_more _ _ _ _ Hl) as Hl1.
  apply Forall_cons in Hn as [Ha Hn]. cbn [length] in Hf.
  assert (forall out' opts' nonopt' n', parse_result out' opts' nonopt' (scan (truth nonopt') l)
    (parse_loop fuel (at_arg (ctr + 1) out' opts' nonopt') n')) as Hnext.
  { intros out' opts' nonopt' n'. apply IH; [lia| |done|lia]. by replace (Z.to_nat (ctr + 1)) with (S (Z.to_nat ctr)) by lia. }
  assert (forall m out' opts' nonopt' n' r', m n = inr ((0, at_arg ctr out' opts' nonopt'), n') ->
    (forall res, parse_result out' opts' nonopt' (scan (truth nonopt') l) res -> parse_result out opts nonopt r' res) ->
    parse_result out opts nonopt r' (('(res, ctx) ← m; if res =? -1 then mret (-1, ctx)
      else parse_loop fuel (ctx_set_argctr (ctx_argctr ctx + 1) ctx)) n)) as Hstep.
  { intros m out' opts' nonopt' n' r' Em Hr. rewrite (am_bind_run _ _ _ _ _ Em). cbn [Z.eqb]. apply Hr, Hnext. }
  unfold process_one. change (ctx_nonopt (at_arg ctr out opts nonopt)) with nonopt. cbn [scan].
  destruct (truth nonopt || negb (byte_at a 0 =? DASH)) eqn:Eno.
  { eapply Hstep; [apply add_arg_run|]. intros res. apply parse_result_keep. }
    destruct (byte_at a 1 =? 111).
  - destruct (negb (byte_at a 2 =? 0)).
    + eapply Hstep; [by apply group_run, nonul_drop|]. intros res. apply parse_result_opts.
    + unfold next_arg. change (ctx_argctr (at_arg ctr out opts nonopt)) with ctr.
      change (ctx_argc (at_arg ctr out opts nonopt)) with argc. destruct l as [|g l].
      { apply (f_equal length) in Hl1. rewrite length_drop in Hl1. cbn in Hl1. rewrite (proj2 (Z.leb_le _ _)) by lia.
        cbn [Z.eqb]. by eexists _, _. }
      pose proof (drop_lt _ _ _ _ Hl1) as Hlt1. rewrite (proj2 (Z.leb_gt _ _)) by lia. cbn [Z.eqb].
      change (ctx_set_argctr (ctr + 1) (at_arg ctr out opts nonopt)) with (at_arg (ctr + 1) out opts nonopt).
      apply Forall_cons in Hn as [Hg Hn]. cbn [length] in Hf.
      assert (drop (Z.to_nat (ctr + 1)) argv = g :: l) as Hl2 by (by replace (Z.to_nat (ctr + 1)) with (S (Z.to_nat ctr)) by lia).
      erewrite am_bind_run; [|rewrite (am_bind_run _ _ _ _ _ (Hcur _ _ _ _ n Hl2)); cbv beta; by apply group_run].
      cbn [Z.eqb]. apply parse_result_opts. apply IH; [cbn; lia| |done|lia].
      cbn. replace (Z.to_nat (ctr + 1 + 1)) with (S (Z.to_nat (ctr + 1))) by lia. by eapply drop_more.
  - destruct ((byte_at a 1 =? DASH) && (byte_at a 2 =? 0)).
    + eapply Hstep; [rewrite (am_bind_run _ _ _ _ _ (add_arg_run ctr out opts nonopt a n)); reflexivity|].
      intros res. cbn [args_argc ctx_outargs at_arg out_of].
      assert (truth (Z.of_nat (length (out ++ [a]))) = true) as ->; [|apply parse_result_sep].
      unfold truth. rewrite length_app. cbn. destruct (Z.eqb_spec (Z.of_nat (length out + 1)) 0); [lia|done].
    + eapply Hstep; [|intros res; apply parse_result_keep].
      unfold process_gopt. cbn. apply add_arg_run.
Qed.
Lemma insert_arg_run l1 l2 a n :
  fuse_opt_insert_arg (out_of (l1 ++ l2)) (Z.of_nat (length l1)) a n = inr ((0, out_of (l1 ++ a :: l2)), S (S n)).
Proof. by rewrite insert_arg_gen, !Halloc. Qed.

Lemma dashes a : nonul a -> byte_at a 0 = DASH -> byte_at a 1 = DASH -> byte_at a 2 = 0 -> a = separator.
Proof.
  unfold byte_at. intros Hn H0 H1 H2. destruct a as [|x [|y [|z a]]]; cbn in *; try done; subst; [done|].
  apply Forall_cons in Hn as [_ Hn]. apply Forall_cons in Hn as [_ Hn]. apply Forall_inv in Hn. done.
Qed.

(** Where the separator is among the arguments that stay. *)
Lemma scan_sep l kept os i :
  Forall nonul l -> scan false l = Some (kept, os, Some i) -> kept !! i = Some separator.
Proof.
  remember (length l) as k eqn:Hk. revert l kept os i Hk. induction k as [k IH] using lt_wf_ind.
  intros l kept os i -> Hn. destruct l as [|a l]; [done|]. apply Forall_cons in Hn as [Ha Hn]. cbn [scan orb].
  destruct (byte_at a 0 =? DASH) eqn:E0; cbn [negb].
  2:{ destruct (scan false l) as [[[k o] [j|]]|] eqn:E; try done. intros [= <- <- <-]. cbn. eapply (IH (length l)); [cbn; lia|done|done|exact E]. }
  destruct (byte_at a 1 =? 111).
  - destruct (negb (byte_at a 2 =? 0)).
    + destruct (scan false l) as [[[k o] s]|] eqn:E; [|done]. intros [= <- <- ->]. eapply (IH (length l)); [cbn; lia|done|done|exact E].
    + destruct l as [|g l]; [done|]. apply Forall_cons in Hn as [_ Hn].
      destruct (scan false l) as [[[k o] s]|] eqn:E; [|done]. intros [= <- <- ->].
      eapply (IH (length l)); [cbn; lia|done|done|exact E].
  - destruct (byte_at a 1 =? DASH) eqn:E1; cbn [andb]; [destruct (byte_at a 2 =? 0) eqn:E2|].
    + destruct (scan true l) as [[[k o] s]|]; [|done]. intros [= <- <- <-]. cbn. zify_bool. by rewrite (dashes a).
    + destruct (scan false l) as [[[k o] [j|]]|] eqn:E; try done. intros [= <- <- <-]. cbn. eapply (IH (length l)); [cbn; lia|done|done|exact E].
    + destruct (scan false l) as [[[k o] [j|]]|] eqn:E; try done. intros [= <- <- <-]. cbn. eapply (IH (length l)); [cbn; lia|done|done|exact E].
Qed.

Lemma parse_end_run ctr a0 kept os sep n :
  (forall i, sep = Some i -> kept !! i = Some separator) ->
  exists ctx n', (('(res, ctx) ← insert_opts (at_arg ctr (a0 :: kept) (opts_after None os) (nonopt_after 0 [a0] sep));
     if res =? -1 then mret (-1, ctx) else ctx ← drop_separator ctx; mret (0, ctx)) : AM _) n =
    inr ((0, ctx), n') /\ ctx_outargs ctx = out_of (a0 :: normal_form (kept, os, sep)) /\ ctx_data ctx = data.
Proof.
  intros Hsep. set (no := nonopt_after 0 [a0] sep). unfold normal_form.
  assert (forall i, sep = Some i -> (i < length kept)%nat) as Hlt by (intros i Hi; by eapply lookup_lt_Some, Hsep).
  assert (forall out opts m, (forall i, sep = Some i -> length out <> S (S i)) -> (1 <= length out)%nat ->
    drop_separator (at_arg ctr out opts no) m = inr (at_arg ctr out opts no, m)) as Hkeep.
  { intros out opts m Hne Hl. unfold drop_separator. cbn [ctx_outargs ctx_nonopt at_arg out_of args_argc].
    destruct sep as [i|]; [|done]. specialize (Hne i eq_refl). unfold no. cbn [nonopt_after length].
    rewrite (proj2 (Z.eqb_neq _ _)) by (cbn; lia). by rewrite andb_false_r. }
  destruct os as [|o os]; cbn [opts_after].
  - rewrite (decide_True _ _ eq_refl). unfold insert_opts. cbn [ctx_opts at_arg].
    rewrite (am_bind_run _ _ n _ n eq_refl). cbn [Z.eqb].
    destruct (decide (S <$> sep = Some (length kept))) as [E|E].
    + destruct sep as [i|]; [|done]. injection E as E. specialize (Hsep i eq_refl). specialize (Hlt i eq_refl).
      eexists _, n. split; [|split].
      * erewrite am_bind_run; [reflexivity|]. unfold drop_separator. cbn [ctx_outargs ctx_nonopt at_arg out_of args_argc args_argv].
        unfold no, truth. cbn [nonopt_after length]. rewrite (proj2 (Z.eqb_neq _ 0)) by (cbn; lia).
        rewrite (proj2 (Z.eqb_eq _ _)) by (cbn; lia). cbn [negb andb].
        rewrite (am_bind_run _ _ n (a0 :: kept) n) by done. rewrite (am_bind_run _ _ n separator n).
        { unfold streq. by rewrite bool_decide_eq_true_2. }
        replace (Z.to_nat _) with (S i) by lia. change ((a0 :: kept) !! S i) with (kept !! i). by rewrite Hsep.
      * cbn [ctx_outargs ctx_set_outargs]. unfold out_of. cbn [length at_arg ctx_outargs args_allocated].
        assert (length (take (pred (length kept)) kept) = pred (length kept)) as Ht by (rewrite length_take; lia).
        replace (Z.to_nat _) with (S (pred (length kept))) by lia. cbn [take]. rewrite Ht. f_equal; lia.
      * reflexivity.
    + eexists _, n. split; [|split].
      * erewrite am_bind_run; [reflexivity|]. apply Hkeep; [|cbn; lia]. intros i -> Hi. apply E. cbn in *. f_equal. lia.
      * reflexivity.
      * reflexivity.
  - rewrite decide_False by done. unfold insert_opts. cbn [ctx_opts ctx_outargs at_arg].
    set (j := foldl add_one (default [] None) (o :: os)).
    pose proof (insert_arg_run [a0] kept (str "-o"%string) n) as E1.
    pose proof (insert_arg_run [a0; str "-o"%string] kept j (S (S n))) as E2.
    eexists _, _. split; [|split].
    + erewrite am_bind_run; [|rewrite (am_bind_run _ _ _ _ _ E1); cbv beta iota; cbn [Z.eqb];
        rewrite (am_bind_run _ _ _ _ _ E2); reflexivity].
      cbn [Z.eqb]. erewrite am_bind_run; [reflexivity|].
      change (ctx_set_outargs (out_of ([a0; str "-o"%string] ++ j :: kept)) ?c) with
        (at_arg ctr ([a0; str "-o"%string] ++ j :: kept) (Some j) no).
      apply Hkeep; [|cbn; lia]. intros i Hi. specialize (Hlt i Hi). cbn. lia.
    + reflexivity.
    + reflexivity.
Qed.
End normal_forms.

Lemma parse_run data a0 l alloc n :
  (forall i, alloc_ok i = true) -> Forall nonul l ->
  let args := {| args_argc := Z.of_nat (length (a0 :: l)); args_argv := Some (a0 :: l); args_allocated := alloc |} in
  exists n', fuse_opt_parse args data [] None n =
    match scan false l with
    | Some r => inr ((0, out_of (a0 :: normal_form r), data), n')
    | None => inr ((-1, args, data), n')
    end.
Proof.
  intros Ha Hn args. set (argc := Z.of_nat (length (a0 :: l))). set (argv := a0 :: l).
  unfold fuse_opt_parse. cbn [args_argv args_argc args]. rewrite (proj2 (Z.eqb_neq _ 0)) by (cbn; lia).
  unfold opt_parse. cbn [ctx_argc ctx_argv]. unfold truth. rewrite (proj2 (Z.eqb_neq _ 0)) by (cbn; lia). cbn [negb head].
  pose proof (parse_loop_run data argc argv Ha (S (Z.to_nat argc)) 1 [a0] None 0 l (S (S n))) as H.
  specialize (H ltac:(lia) eq_refl eq_refl Hn ltac:(unfold argc; cbn; lia)).
  assert ((arg ← am_option OutOfBounds (Some a0); add_arg {| ctx_data := data; ctx_opt := []; ctx_proc := None;
      ctx_argctr := 0; ctx_argc := argc; ctx_argv := argv; ctx_outargs := args_none; ctx_opts := None; ctx_nonopt := 0 |} arg) n =
    inr ((0, at_arg data argc argv 0 [a0] None 0), S (S n))) as Hfirst.
  { rewrite (am_bind_run _ _ n a0 n) by done. unfold add_arg. cbn [ctx_outargs].
    by rewrite (am_bind_run _ _ _ _ _ (add_arg_run_gen Ha args_none [] a0 n (or_intror (conj eq_refl eq_refl)))). }
  destruct (scan false l) as [[[kept os] sep]|] eqn:Es; cbn [truth Z.eqb negb] in H; rewrite Es in H.
  - destruct H as (ctr & n1 & E).
    destruct (parse_end_run data argc argv Ha ctr a0 kept os sep n1) as (ctx & n2 & E2 & Ho & Hd).
    { intros i ->. by eapply scan_sep. }
    exists n2. rewrite (am_bind_run _ _ n (0, ctx) n2).
    { cbn [Z.eqb negb]. by rewrite Ho, Hd. }
    erewrite am_bind_run by apply Hfirst. cbn [Z.eqb]. erewrite am_bind_run by exact E. cbn [Z.eqb]. exact E2.
  - destruct H as (ctx & n1 & E & Hd). exists n1. rewrite (am_bind_run _ _ n (-1, ctx) n1).
    { cbn [Z.eqb negb]. by rewrite Hd. }
    erewrite am_bind_run by apply Hfirst. cbn [Z.eqb]. by erewrite am_bind_run by exact E.
Qed.


(** ** Normal forms are stable *)

Lemma group_split_nonempty acc s : group_split acc s <> [].
Proof.
  remember (length s) as k eqn:Hk. revert acc s Hk. induction k as [k IH] using lt_wf_ind. intros acc s ->.
  destruct s as [|c s1]; [done|]. cbn [group_split]. destruct (c =? COMMA); [done|].
  destruct (c =? BACKSLASH); [|eapply IH; [|reflexivity]; cbn; lia].
  destruct s1 as [|e [|f [|g s4]]]; try (eapply IH; [|reflexivity]; cbn; lia).
  destruct (octal_digits e f g); (eapply IH; [|reflexivity]; cbn; lia).
Qed.

Lemma group_opts_nonempty s : group_opts s <> [].
Proof. unfold group_opts. intros H%fmap_nil_inv. by apply group_split_nonempty in H. Qed.

Lemma group_opts_nonul s : Forall nonul (group_opts s).
Proof.
  unfold group_opts. apply Forall_fmap, Forall_true. intros o. unfold compose, c_prefix.
  destruct (cstr (o ++ [0])) as [p|] eqn:E; [by eapply cstr_nonul|constructor].
Qed.

Lemma joined_again os : Forall nonul os -> joined (group_opts (joined os)) = joined os.
Proof.
  induction 1 as [|o os Ho Hos IH]; [done|]. destruct o as [|c o]; [exact IH|].
  by rewrite group_opts_joined by (done || by constructor).
Qed.

Lemma scan_true l : scan true l = Some (l, [], None).
Proof. induction l as [|a l IH]; [done|]. cbn. by rewrite IH. Qed.

(** What stays of a scan stays again. *)
Lemma scan_again l kept os sep :
  scan false l = Some (kept, os, sep) -> scan false kept = Some (kept, [], sep) /\ Forall nonul os.
Proof.
  remember (length l) as k eqn:Hk. revert l kept os sep Hk. induction k as [k IH] using lt_wf_ind.
  intros l kept os sep -> Hs. destruct l as [|a l]; [by injection Hs as <- <- <-|]. cbn [scan orb] in Hs.
  assert (forall l' kept' os' sep', (length l' < length (a :: l))%nat -> scan false l' = Some (kept', os', sep') ->
    scan false kept' = Some (kept', [], sep') /\ Forall nonul os') as IHl by (intros l' ???? E; by eapply IH).
  assert (forall a', (negb (byte_at a' 0 =? DASH) = true \/
     byte_at a' 1 =? 111 = false /\ (byte_at a' 1 =? DASH) && (byte_at a' 2 =? 0) = false) ->
     forall l', scan false (a' :: l') = keep a' <$> scan false l') as Hkeep.
  { intros a' Ha' l'. cbn [scan orb]. destruct (negb (byte_at a' 0 =? DASH)); [done|].
    destruct Ha' as [|[-> ->]]; done. }
  assert (keep a <$> scan false l = Some (kept, os, sep) ->
     (negb (byte_at a 0 =? DASH) = true \/
     byte_at a 1 =? 111 = false /\ (byte_at a 1 =? DASH) && (byte_at a 2 =? 0) = false) ->
     scan false kept = Some (kept, [], sep) /\ Forall nonul os) as Hk1.
  { intros Hs' Ha. destruct (scan false l) as [[[k o] s]|] eqn:E; [|done]. injection Hs' as <- <- <-.
    destruct (IHl l k o s) as [H1 H2]; [cbn; lia|done|]. rewrite (Hkeep a Ha), H1. done. }
  destruct (byte_at a 0 =? DASH) eqn:E0; cbn [negb] in *; [|by auto].
  destruct (byte_at a 1 =? 111) eqn:E1.
  - destruct (negb (byte_at a 2 =? 0)).
    + destruct (scan false l) as [[[k o] s]|] eqn:E; [|done]. injection Hs as <- <- <-.
      destruct (IHl l k o s) as [H1 H2]; [cbn; lia|done|]. split; [done|]. apply Forall_app; split; [apply group_opts_nonul|done].
    + destruct l as [|g l]; [done|]. destruct (scan false l) as [[[k o] s]|] eqn:E; [|done]. injection Hs as <- <- <-.
      destruct (IHl l k o s) as [H1 H2]; [cbn; lia|done|]. split; [done|]. apply Forall_app; split; [apply group_opts_nonul|done].
  - destruct ((byte_at a 1 =? DASH) && (byte_at a 2 =? 0)) eqn:E2; [|by auto].
    rewrite scan_true in Hs. injection Hs as <- <- <-. cbn [scan orb]. rewrite E0, E1, E2, scan_true. done.
Qed.

(** The arguments before the separator. *)
Lemma scan_before_sep kept i : scan false kept = Some (kept, [], Some i) -> scan false (take i kept) = Some (take i kept, [], None).
Proof.
  revert i. induction kept as [|a kept IH]; intros i; [done|]. cbn [scan orb].
  destruct (byte_at a 0 =? DASH) eqn:E0; cbn [negb].
  2:{ destruct (scan false kept) as [[[k o] [j|]]|] eqn:E; try done. intros [= -> -> <-]. cbn [take scan orb].
      rewrite E0. cbn [negb]. by rewrite (IH j). }
  destruct (byte_at a 1 =? 111) eqn:E1.
  - intros H. exfalso. revert H. destruct (negb (byte_at a 2 =? 0)).
    + destruct (scan false kept) as [[[k o] s]|]; [|done]. intros [= _ [H _]%app_nil _]. by apply group_opts_nonempty in H.
    + destruct kept as [|g kept]; [done|]. destruct (scan false kept) as [[[k o] s]|]; [|done].
      intros [= _ [H _]%app_nil _]. by apply group_opts_nonempty in H.
  - destruct ((byte_at a 1 =? DASH) && (byte_at a 2 =? 0)) eqn:E2.
    + rewrite scan_true. intros [= <-]. done.
    + destruct (scan false kept) as [[[k o] [j|]]|] eqn:E; try done. intros [= -> -> <-]. cbn [take scan orb].
      rewrite E0, E1, E2. cbn [negb]. by rewrite (IH j).
Qed.

Lemma normal_form_again l r :
  scan false l = Some r -> exists r', scan false (normal_form r) = Some r' /\ normal_form r' = normal_form r.
Proof.
  destruct r as [[kept os] sep]. intros [Hs Hn]%scan_again. unfold normal_form at 1 3. destruct (decide (os = [])) as [->|Hos].
  - destruct (decide (S <$> sep = Some (length kept))) as [E|E].
    + destruct sep as [i|]; [|done]. injection E as E. rewrite <- E. cbn [pred].
      eexists. split; [by apply scan_before_sep|]. done.
    + eexists. split; [exact Hs|]. unfold normal_form. rewrite decide_True by done. by rewrite decide_False.
  - exists (kept, group_opts (joined os), sep). split.
    { change (scan false (str "-o"%string :: joined os :: kept)) with (with_opts (group_opts (joined os)) <$> scan false kept).
      rewrite Hs. cbn. by rewrite app_nil_r. }
    unfold normal_form. rewrite decide_False by apply group_opts_nonempty. by rewrite joined_again.
Qed.

Lemma scan_nonul l kept os sep :
  Forall nonul l -> scan false l = Some (kept, os, sep) -> Forall nonul kept.
Proof.
  remember (length l) as k eqn:Hk. revert l kept os sep Hk. induction k as [k IH] using lt_wf_ind.
  intros l kept os sep -> Hn Hs. destruct l as [|a l]; [by injection Hs as <- <- <-|]. cbn [scan orb] in Hs.
  apply Forall_cons in Hn as [Ha Hn].
  assert (forall l' kept' os' sep', (length l' < length (a :: l))%nat -> Forall nonul l' ->
    scan false l' = Some (kept', os', sep') -> Forall nonul kept') as IHl by (intros l' ???? E; by eapply IH).
  repeat match type of Hs with context [if ?b then _ else _] => destruct b end.
  - destruct (scan false l) as [[[k o] s]|] eqn:E; [|done]. injection Hs as <- <- <-.
    constructor; [done|]. eapply (IHl l); [cbn; lia|done|exact E].
  - destruct (scan false l) as [[[k o] s]|] eqn:E; [|done]. injection Hs as <- <- <-.
    eapply (IHl l); [cbn; lia|done|exact E].
  - destruct l as [|g l]; [done|]. apply Forall_cons in Hn as [_ Hn].
    destruct (scan false l) as [[[k o] s]|] eqn:E; [|done]. injection Hs as <- <- <-.
    eapply (IHl l); [cbn; lia|done|exact E].
  - rewrite scan_true in Hs. injection Hs as <- <- <-. by constructor.
  - destruct (scan false l) as [[[k o] s]|] eqn:E; [|done]. injection Hs as <- <- <-.
    constructor; [done|]. eapply (IHl l); [cbn; lia|done|exact E].
Qed.

Lemma normal_form_nonul l r : Forall nonul l -> scan false l = Some r -> Forall nonul (normal_form r).
Proof.
  destruct r as [[kept os] sep]. intros Hn Hs. pose proof (scan_nonul _ _ _ _ Hn Hs) as Hk.
  apply scan_again in Hs as [_ Ho]. unfold normal_form. case_decide; [case_decide; [by apply Forall_take|done]|].
  constructor; [repeat (constructor; try done)|]. constructor; [by apply joined_nonul|done].
Qed.

(** Parsing is idempotent: an argument vector that comes out of a parse
    without table and processing function is parsed to itself. *)
Theorem parse_idempotent data a0 l alloc n args1 data1 n1 m :
  (forall i, alloc_ok i = true) -> Forall nonul l ->
  fuse_opt_parse {| args_argc := Z.of_nat (length (a0 :: l)); args_argv := Some (a0 :: l); args_allocated := alloc |}
    data [] None n = inr ((0, args1, data1), n1) ->
  exists m1, fuse_opt_parse args1 data1 [] None m = inr ((0, args1, data1), m1).
Proof.
  intros Ha Hn E. destruct (parse_run data a0 l alloc n Ha Hn) as [n' E']. rewrite E' in E. clear E'.
  destruct (scan false l) as [r|] eqn:Es; [|done]. injection E as <- <- <-.
  destruct (parse_run data a0 (normal_form r) true m Ha (normal_form_nonul _ _ Hn Es)) as [m' E].
  destruct (normal_form_again _ _ Es) as (r' & Es' & Hr'). rewrite Es', Hr' in E. by exists m'.
Qed.
End props.

(** ** Examples *)

Definition nl_ctx (opts : list fuse_opt) : fuse_opt_context :=
  {| ctx_data := ∅; ctx_opt := opts; ctx_proc := None; ctx_argctr := 0; ctx_argc := 0; ctx_argv := [];
     ctx_outargs := args_none; ctx_opts := None; ctx_nonopt := 0 |}.

Definition text (s : String.string) : bytes := str s.

(** A comma that is escaped, and an octal escape. *)
Lemma option_group_split_witness :
  @process_option_group good (nl_ctx []) (text "fsname=a\,b,x\101,ro"%string) 0%nat =
  @run_opts good (nl_ctx []) [text "fsname=a,b"%string; text "xA"%string; text "ro"%string] 1%nat.
Proof.
  rewrite (@option_group_split good (nl_ctx []) (text "fsname=a\,b,x\101,ro"%string) 0%nat); [reflexivity| |reflexivity].
  cbn. repeat (constructor; try done).
Defined.



