(* ===== verification/OptSafety.v ===== *)
(** * The option parser is safe

    For every table, structure and processing function that fit together, and
    every argument vector, a parse returns: no access outside a string, vector
    or field, no failed assertion, no endless loop.  The one way out is a number
    in a ["%u"] parameter that does not fit, which C leaves undefined. *)

From S2P Require Import Prelude Platform World Opt OptProps.

(** ** What fits together *)

(** Which fields of a structure there are, and which are integers. *)
Definition kinds (data : optdata) : gmap Z bool :=
  (fun v => match v with V_int _ => true | V_str _ => false end) <$> data.

(** What follows the separator of a template. *)
Definition templ_format (t : bytes) : bytes :=
  match (match strchr t EQUALS with Some i => Some i | None => strchr t SPACE end) with
  | Some i => drop (S i) t
  | None => []
  end.

(** An entry goes to the processing function, but not as a non-option, or writes to an integer, a plain value or one read with ["%u"]. *)
Definition opt_ok (K : gmap Z bool) (o : fuse_opt) : Prop :=
  opt_offset o = OFFSET_NONE /\ opt_value o <> FUSE_OPT_KEY_NONOPT \/
  opt_offset o <> OFFSET_NONE /\ K !! opt_offset o = Some true /\
  (byte_at (templ_format (opt_templ o)) 0 = PERCENT -> templ_format (opt_templ o) = [PERCENT; 117]).

#[export] Instance opt_ok_dec K o : Decision (opt_ok K o).
Proof. unfold opt_ok. apply _. Defined.

(** An argument vector the parser built, with the program's name in front. *)
Definition args_ok (a0 : bytes) (a : fuse_args) : Prop := exists l, a = out_of (a0 :: l).

(** ** Returning *)

Definition returns {A} (m : AM A) (Q : A -> Prop) : Prop :=
  forall n, match m n with inr (a, _) => Q a | inl e => e = Overflow end.

Section returns.
Context {P : Platform}.

Lemma returns_ret {A} (a : A) (Q : A -> Prop) : Q a -> returns (mret a) Q.
Proof. intros H n. exact H. Qed.

Lemma returns_bind {A B} (m : AM A) (k : A -> AM B) (R : A -> Prop) Q :
  returns m R -> (forall a, R a -> returns (k a) Q) -> returns (m ≫= k) Q.
Proof.
  intros Hm Hk n. specialize (Hm n). unfold mbind, AM_bind. destruct (m n) as [e|[a n']]; [done|]. apply Hk, Hm.
Qed.

Lemma returns_weaken {A} (m : AM A) (R Q : A -> Prop) : returns m R -> (forall a, R a -> Q a) -> returns m Q.
Proof. intros Hm Hq n. specialize (Hm n). destruct (m n) as [e|[a n']]; auto. Qed.

Lemma returns_alloc (Q : bool -> Prop) : (forall b, Q b) -> returns try_alloc Q.
Proof. intros H n. apply H. Qed.

Lemma returns_assert (b : bool) (Q : unit -> Prop) : b = true -> Q tt -> returns (am_assert b) Q.
Proof. intros -> H n. exact H. Qed.

Lemma returns_option {A} e (o : option A) a (Q : A -> Prop) : o = Some a -> Q a -> returns (am_option e o) Q.
Proof. intros -> H n. exact H. Qed.

(** Without the bookkeeping of allocation: rules that match the source. *)
Lemma returns_bind_alloc {B} (k : bool -> AM B) Q :
  (forall b, returns (k b) Q) -> returns (try_alloc ≫= k) Q.
Proof. intros H. apply (returns_bind _ _ (fun _ => True)); [by apply returns_alloc|auto]. Qed.

Lemma returns_bind_option {A B} e (o : option A) a (k : A -> AM B) Q :
  o = Some a -> returns (k a) Q -> returns (am_option e o ≫= k) Q.
Proof. intros H Hk. apply (returns_bind _ _ (fun x => x = a)); [by apply (returns_option _ _ a)|]. by intros ? ->. Qed.

Lemma returns_add_arg a0 args a :
  args_ok a0 args -> returns (fuse_opt_add_arg args a)
    (fun r => (r.1 = 0 /\ args_argc r.2 = args_argc args + 1 \/ r.1 = -1) /\ args_ok a0 r.2).
Proof.
  intros [l ->] n. rewrite (add_arg_gen _ (a0 :: l)) by (by left).
  unfold args_ok. destruct (alloc_ok n); [destruct (alloc_ok (S n))|]; cbn [fst snd app]; (split; [|by eauto]); [left|by right..].
  split; [done|]. cbn [args_argc out_of length]. rewrite !length_app. cbn. lia.
Qed.

Lemma returns_insert_arg a0 args pos a :
  args_ok a0 args -> 1 <= pos <= args_argc args ->
  returns (fuse_opt_insert_arg args pos a)
    (fun r => (r.1 = 0 /\ args_argc r.2 = args_argc args + 1 \/ r.1 = -1) /\ args_ok a0 r.2).
Proof.
  intros [l ->] Hp n. cbn [args_argc out_of length] in Hp.
  assert (exists r, pos = Z.of_nat (length (a0 :: r)) /\ exists r', l = r ++ r') as (r & -> & r' & ->).
  { exists (take (Z.to_nat (pos - 1)) l). split; [cbn; rewrite length_take; lia|].
    exists (drop (Z.to_nat (pos - 1)) l). by rewrite take_drop. }
  change (a0 :: r ++ r') with ((a0 :: r) ++ r'). rewrite insert_arg_gen. unfold args_ok.
  destruct (alloc_ok n); [destruct (alloc_ok (S n))|]; cbn [fst snd app]; (split; [|by eauto]); [left|by right..].
  split; [done|]. cbn [args_argc out_of length]. rewrite !length_app. cbn. lia.
Qed.
End returns.

Lemma match_sep t arg sep :
  match_template t arg = Some sep ->
  sep = O \/ drop (S sep) t = templ_format t /\ (byte_at t (S sep) = 0 \/ byte_at t (S sep) = PERCENT).
Proof.
  unfold match_template, templ_format.
  destruct (match strchr t EQUALS with Some i => Some i | None => strchr t SPACE end) as [i|].
  - destruct ((byte_at t (S i) =? 0) || (byte_at t (S i) =? PERCENT)) eqn:E.
    + apply orb_true_iff in E as [E%Z.eqb_eq|E%Z.eqb_eq];
        (destruct (_ && _); [intros [= <-]; right; auto|]; destruct (streq t arg); [intros [= <-]; by left|done]).
    + destruct (streq t arg); [intros [= <-]; by left|done].
  - destruct (streq t arg); [intros [= <-]; by left|done].
Qed.

Lemma byte_at_drop s i : byte_at (drop i s) 0 = byte_at s i.
Proof. unfold byte_at. by rewrite lookup_drop, Nat.add_0_r. Qed.

Lemma kinds_int (data : optdata) off z : kinds data !! off = Some true -> kinds (<[off := V_int z]> data) = kinds data.
Proof. intros H. unfold kinds, optdata in *. rewrite (fmap_insert _ data off). by apply insert_id. Qed.

(** ** The parser *)

Section safety.
Context {P : Platform}.
Context (K : gmap Z bool) (a0 : bytes) (opts : list fuse_opt) (proc : option fuse_opt_proc_t) (argv : list bytes).

Definition proc_ok (p : fuse_opt_proc_t) : Prop := forall data arg key outargs,
  kinds data = K -> args_ok a0 outargs -> (key = FUSE_OPT_KEY_NONOPT -> arg ∈ argv) ->
  returns (p data arg key outargs) (fun r => kinds r.1.2 = K /\ args_ok a0 r.2).

Context (Hopts : Forall (opt_ok K) opts) (Hproc : forall p, proc = Some p -> proc_ok p).
Context (Hargv : Forall nonul argv).

Record ctx_ok (ctx : fuse_opt_context) : Prop := {
  co_opt : ctx_opt ctx = opts;
  co_proc : ctx_proc ctx = proc;
  co_argc : ctx_argc ctx = Z.of_nat (length argv);
  co_argv : ctx_argv ctx = argv;
  co_data : kinds (ctx_data ctx) = K;
  co_out : args_ok a0 (ctx_outargs ctx);
  co_ctr : 1 <= ctx_argctr ctx;
  co_nonopt : ctx_nonopt ctx = 0 \/ 2 <= ctx_nonopt ctx }.

(** A step of the parser from [ctx]. *)
Definition steps (ctx : fuse_opt_context) (m : AM (Z * fuse_opt_context)) : Prop :=
  returns m (fun r => ctx_ok r.2 /\ ctx_argctr ctx <= ctx_argctr r.2).

Lemma steps_ret ctx res : ctx_ok ctx -> steps ctx (mret (res, ctx)).
Proof. intros H. by apply returns_ret. Qed.

(** The source's pattern: stop at -1, go on otherwise. *)
Lemma steps_then ctx m k :
  steps ctx m ->
  (forall res ctx', ctx_ok ctx' -> ctx_argctr ctx <= ctx_argctr ctx' -> steps ctx' (k (res, ctx'))) ->
  steps ctx (m ≫= k).
Proof.
  intros Hm Hk. eapply returns_bind; [exact Hm|]. intros [res ctx'] [H1 H2]. eapply returns_weaken; [by apply Hk|].
  intros r [G1 G2]. cbn in H2. split; [done|lia].
Qed.

Lemma steps_stop ctx (res : Z) (m : AM (Z * fuse_opt_context)) x :
  ctx_ok ctx -> steps ctx m -> steps ctx (if res =? -1 then mret (x, ctx) else m).
Proof. intros H Hm. destruct (res =? -1); [by apply steps_ret|done]. Qed.

Lemma ctx_ok_out ctx args : ctx_ok ctx -> args_ok a0 args -> ctx_ok (ctx_set_outargs args ctx).
Proof. intros [] H. by constructor. Qed.
Lemma ctx_ok_data ctx data : ctx_ok ctx -> kinds data = K -> ctx_ok (ctx_set_data data ctx).
Proof. intros [] H. by constructor. Qed.
Lemma ctx_ok_opts ctx o : ctx_ok ctx -> ctx_ok (ctx_set_opts o ctx).
Proof. intros []. by constructor. Qed.

Lemma returns_ctx_add ctx arg :
  ctx_ok ctx -> returns (add_arg ctx arg) (fun r => ctx_ok r.2 /\ ctx_argctr r.2 = ctx_argctr ctx /\
    (r.1 = 0 /\ args_argc (ctx_outargs r.2) = args_argc (ctx_outargs ctx) + 1 \/ r.1 = -1)).
Proof.
  intros H. unfold add_arg. eapply returns_bind; [apply returns_add_arg, H|]. intros [res args] [Hr Ha].
  apply returns_ret. split; [by apply ctx_ok_out|]. done.
Qed.

Lemma steps_add_arg ctx arg : ctx_ok ctx -> steps ctx (add_arg ctx arg).
Proof. intros H. eapply returns_weaken; [by apply returns_ctx_add|]. intros r (H1 & H2 & _). split; [done|lia]. Qed.

Lemma steps_add_opt ctx opt : ctx_ok ctx -> steps ctx (add_opt ctx opt).
Proof.
  intros H. unfold add_opt. apply (returns_bind _ _ (fun _ => True)).
  - unfold add_opt_common. apply returns_bind_alloc. intros [|]; by apply returns_ret.
  - intros [res o] _. apply returns_ret. split; [by apply ctx_ok_opts|done].
Qed.

Lemma steps_call_proc ctx arg key iso :
  ctx_ok ctx -> (key = FUSE_OPT_KEY_NONOPT -> arg ∈ argv) -> steps ctx (call_proc ctx arg key iso).
Proof.
  intros H Hk. unfold call_proc. destruct (key =? FUSE_OPT_KEY_DISCARD); [by apply steps_ret|].
  assert (forall c, ctx_ok c -> steps c (if iso then add_opt c arg else add_arg c arg)) as Hkeep.
  { intros c Hc. destruct iso; [by apply steps_add_opt|by apply steps_add_arg]. }
  destruct (ctx_proc ctx) as [p|] eqn:Ep; [|by apply Hkeep].
  destruct (negb (key =? FUSE_OPT_KEY_KEEP)); [|by apply Hkeep].
  eapply returns_bind; [eapply Hproc; [by rewrite <- (co_proc _ H)|apply H|apply H|exact Hk]|].
  intros [[res data] outargs] [H1 H2]. cbn [fst snd] in H1, H2.
  assert (ctx_ok (ctx_set_outargs outargs (ctx_set_data data ctx))) as Hc by (by apply ctx_ok_out; [apply ctx_ok_data|]).
  destruct ((res =? -1) || (res =? 0)); [by apply returns_ret|]. eapply returns_weaken; [by apply Hkeep|].
  intros r [G1 G2]. split; [done|]. exact G2.
Qed.

Lemma steps_set_int ctx off z :
  ctx_ok ctx -> K !! off = Some true ->
  steps ctx (data ← set_int off z (ctx_data ctx); mret (0, ctx_set_data data ctx)).
Proof.
  intros H Hk. pose proof (co_data _ H) as Hd. unfold set_int.
  assert (kinds (ctx_data ctx) !! off = Some true) as Hl by (by rewrite Hd).
  assert (exists x, ctx_data ctx !! off = Some (V_int x)) as [x Hx].
  { unfold kinds in Hl. rewrite lookup_fmap in Hl. apply fmap_Some in Hl as ([x|x] & Hx & Hb); [by exists x|done]. }
  rewrite Hx.
  apply (returns_bind _ _ (fun d => d = <[off := V_int z]> (ctx_data ctx))); [by apply returns_ret|].
  intros d ->. apply returns_ret. split; [|done]. apply ctx_ok_data; [done|]. by rewrite kinds_int.
Qed.

Lemma steps_param ctx off param :
  ctx_ok ctx -> K !! off = Some true -> steps ctx (process_opt_param ctx off [PERCENT; 117] param).
Proof.
  intros H Hk. unfold process_opt_param. apply (returns_bind _ _ (fun _ => True)); [by apply returns_assert|].
  intros _ _. cbn [byte_at]. change (byte_at [PERCENT; 117] 1 =? 115) with false. cbv beta iota.
  change (streq [PERCENT; 117] [PERCENT; 117]) with true. cbv beta iota.
  apply (returns_bind _ _ (fun _ => True)).
  - intros n. unfold scan_unsigned, am_sum.
    destruct (match skip_space param with [] => _ | _ => _ end) as [neg s].
    destruct (digits s) as [|d ds]; [done|]. by destruct (_ <? _).
  - intros [v|] _; [by apply steps_set_int|by apply steps_ret].
Qed.

Lemma steps_opt ctx o sep arg arg' iso :
  ctx_ok ctx -> o ∈ opts -> match_template (opt_templ o) arg = Some sep -> steps ctx (process_opt ctx o sep arg' iso).
Proof.
  intros H Ho Hm. pose proof (proj1 (Forall_forall _ _) Hopts o Ho) as Hok. unfold process_opt.
  destruct (Z.eqb_spec (opt_offset o) OFFSET_NONE) as [E|E].
  { destruct Hok as [[_ Hv]|[? _]]; [|done]. apply steps_then; [by apply steps_call_proc|].
    intros res ctx' H' _. apply steps_stop; [done|by apply steps_ret]. }
  destruct Hok as [[? _]|(_ & Hk & Hf)]; [done|].
  destruct (match_sep _ _ _ Hm) as [->|[Ht Hb]]; [by apply steps_set_int|].
  destruct (negb (Nat.eqb sep 0) && negb (byte_at (opt_templ o) (S sep) =? 0)) eqn:Ec; [|by apply steps_set_int].
  apply andb_true_iff in Ec as [_ Ec%negb_true_iff%Z.eqb_neq]. destruct Hb as [Hb|Hb]; [done|].
  rewrite Ht, Hf by (by rewrite <- Ht, byte_at_drop).
  apply steps_then; [by apply steps_param|]. intros res ctx' H' _. apply steps_stop; [done|by apply steps_ret].
Qed.

Lemma cur_arg_run ctx :
  ctx_ok ctx -> ctx_argctr ctx < ctx_argc ctx -> exists a, a ∈ argv /\ cur_arg ctx = mret a.
Proof.
  intros H Hlt. pose proof (co_ctr _ H) as H1. rewrite (co_argc _ H) in Hlt.
  destruct (lookup_lt_is_Some_2 argv (Z.to_nat (ctx_argctr ctx))) as [a Ha]; [lia|]. exists a.
  split; [by eapply list_elem_of_lookup_2|]. unfold cur_arg. by rewrite (co_argv _ H), Ha.
Qed.

Lemma next_arg_cases ctx :
  ctx_ok ctx -> next_arg ctx = (-1, ctx) \/
  exists ctx', next_arg ctx = (0, ctx') /\ ctx_ok ctx' /\ ctx_argctr ctx <= ctx_argctr ctx' < ctx_argc ctx'.
Proof.
  intros H. unfold next_arg. destruct (Z.leb_spec (ctx_argc ctx) (ctx_argctr ctx + 1)); [by left|right].
  eexists. split; [reflexivity|]. split; [destruct H; constructor; cbn; (done || lia)|]. cbn. lia.
Qed.

Lemma mret_bind {A B} (a : A) (k : A -> AM B) : (mret a ≫= k) = k a.
Proof. reflexivity. Qed.

Lemma steps_trans ctx ctx' m : ctx_argctr ctx <= ctx_argctr ctx' -> steps ctx' m -> steps ctx m.
Proof. intros Hle Hm. eapply returns_weaken; [exact Hm|]. intros r [H1 H2]. split; [done|lia]. Qed.

Lemma steps_sep_arg ctx o sep arg iso :
  ctx_ok ctx -> o ∈ opts -> match_template (opt_templ o) arg = Some sep ->
  steps ctx (process_opt_sep_arg ctx o sep arg iso).
Proof.
  intros H Ho Hm. unfold process_opt_sep_arg.
  destruct (next_arg_cases ctx H) as [->|(ctx' & -> & H' & Hle & Hlt)]; cbn [Z.eqb]; [by apply steps_ret|].
  apply (steps_trans _ ctx'); [done|]. destruct (cur_arg_run ctx' H' Hlt) as (a & _ & ->). rewrite mret_bind.
  apply returns_bind_alloc. intros [|]; cbn [negb]; [|by apply steps_ret]. by eapply steps_opt.
Qed.

Lemma matches_elem o sep arg l : (o, sep) ∈ matches l arg -> o ∈ l /\ match_template (opt_templ o) arg = Some sep.
Proof.
  unfold matches. intros (o' & Ho & E)%list_elem_of_omap. destruct (match_template (opt_templ o') arg) eqn:Em; [|done].
  by injection E as <- <-.
Qed.

Lemma steps_matches ctx ms arg iso :
  ctx_ok ctx -> (forall m, m ∈ ms -> m.1 ∈ opts /\ match_template (opt_templ m.1) arg = Some m.2) ->
  steps ctx (run_matches ctx ms arg iso).
Proof.
  revert ctx. induction ms as [|m ms IH]; intros ctx H Hms; [by apply steps_ret|]. cbn [run_matches].
  destruct (Hms m) as [Ho Hm]; [set_solver|]. apply steps_then.
  - unfold run_match. destruct (wants_arg _ _ _); [by apply steps_sep_arg|by eapply steps_opt].
  - intros res ctx' H' _. apply steps_stop; [done|]. apply IH; [done|]. intros x Hx. apply Hms. set_solver.
Qed.

Lemma steps_ext ctx (m m' : AM (Z * fuse_opt_context)) : (forall n, m n = m' n) -> steps ctx m' -> steps ctx m.
Proof. intros He Hm n. rewrite He. apply Hm. Qed.

Lemma steps_gopt ctx arg iso : ctx_ok ctx -> steps ctx (process_gopt ctx arg iso).
Proof.
  intros H. assert (forall m, m ∈ matches (ctx_opt ctx) arg -> m.1 ∈ opts /\ match_template (opt_templ m.1) arg = Some m.2) as Hms.
  { intros [o sep] Hm. rewrite (co_opt _ H) in Hm. by apply matches_elem. }
  eapply steps_ext; [intros n; apply process_gopt_run|]. destruct (matches (ctx_opt ctx) arg) as [|m ms] eqn:E.
  - by apply steps_call_proc.
  - apply (steps_ext _ _ (run_matches ctx (m :: ms) arg iso)); [done|]. by apply steps_matches.
Qed.

Lemma steps_run_opts ctx os : ctx_ok ctx -> steps ctx (run_opts ctx os).
Proof.
  revert ctx. induction os as [|o os IH]; intros ctx H; [by apply steps_ret|]. cbn [run_opts].
  apply steps_then; [by apply steps_gopt|]. intros res ctx' H' _. apply steps_stop; [done|by apply IH].
Qed.

Lemma steps_group ctx s : ctx_ok ctx -> nonul s -> steps ctx (process_option_group ctx s).
Proof.
  intros H Hs n. destruct (alloc_ok n) eqn:E.
  - rewrite option_group_run by done. by apply steps_run_opts.
  - unfold process_option_group, try_alloc. rewrite (am_bind_run _ _ n false (S n)) by (by rewrite E). by split.
Qed.

Lemma steps_one ctx arg : ctx_ok ctx -> arg ∈ argv -> steps ctx (process_one ctx arg).
Proof.
  intros H Ha. pose proof (proj1 (Forall_forall _ _) Hargv) as Hn. unfold process_one.
  destruct (truth (ctx_nonopt ctx) || negb (byte_at arg 0 =? DASH)); [by apply steps_call_proc|].
  destruct (byte_at arg 1 =? 111).
  - destruct (negb (byte_at arg 2 =? 0)); [by apply steps_group, nonul_drop, Hn|].
    destruct (next_arg_cases ctx H) as [->|(ctx' & -> & H' & Hle & Hlt)]; cbn [Z.eqb]; [by apply steps_ret|].
    apply (steps_trans _ ctx'); [done|]. destruct (cur_arg_run ctx' H' Hlt) as (a & Haa & ->). rewrite mret_bind.
    by apply steps_group, Hn.
  - destruct ((byte_at arg 1 =? DASH) && (byte_at arg 2 =? 0)); [|by apply steps_gopt].
    eapply returns_bind; [by apply returns_ctx_add|]. intros [res ctx'] (H' & Hc & Hr). cbn [fst snd] in *.
    destruct Hr as [[-> Hr] | ->]; cbn [Z.eqb]; [|apply returns_ret; cbn; split; [done|lia]].
    apply returns_ret. cbn [snd]. split; [|cbn; lia]. destruct (co_out _ H) as [l Hl]. rewrite Hl in Hr.
    destruct H'. constructor; try done. right. cbn [ctx_nonopt ctx_set_nonopt]. rewrite Hr. cbn. lia.
Qed.

Lemma steps_loop fuel ctx :
  ctx_ok ctx -> (Z.to_nat (ctx_argc ctx - ctx_argctr ctx) < fuel)%nat -> steps ctx (parse_loop fuel ctx).
Proof.
  revert ctx. induction fuel as [|fuel IH]; intros ctx H Hf; [lia|]. cbn [parse_loop].
  destruct (Z.ltb_spec (ctx_argctr ctx) (ctx_argc ctx)) as [Hlt|]; [|by apply steps_ret].
  destruct (cur_arg_run ctx H Hlt) as (a & Ha & ->). rewrite mret_bind.
  apply steps_then; [by apply steps_one|]. intros res ctx' H' Hle. apply steps_stop; [done|].
  apply (steps_trans _ (ctx_set_argctr (ctx_argctr ctx' + 1) ctx')); [cbn; lia|].
  pose proof (co_argc _ H). pose proof (co_argc _ H').
  apply IH; [|cbn; lia]. pose proof (co_ctr _ H'). destruct H'; constructor; cbn; (done || lia).
Qed.

Lemma steps_insert ctx : ctx_ok ctx -> steps ctx (insert_opts ctx).
Proof.
  intros H. unfold insert_opts. destruct (ctx_opts ctx) as [o|]; [|by apply steps_ret].
  destruct (co_out _ H) as [l Hl]. eapply returns_bind; [apply returns_insert_arg; [apply H|rewrite Hl; cbn; lia]|].
  intros [res args] [Hr Ha]. cbn [fst snd] in *. destruct Hr as [[-> Hr] | ->]; cbn [Z.eqb].
  - eapply returns_bind; [apply returns_insert_arg; [exact Ha|rewrite Hr, Hl; cbn; lia]|].
    intros [res args'] [_ Ha']. apply returns_ret. split; [by apply ctx_ok_out|done].
  - apply returns_ret. split; [by apply ctx_ok_out|done].
Qed.

Lemma returns_drop ctx :
  ctx_ok ctx -> returns (drop_separator ctx) (fun c => kinds (ctx_data c) = K /\ args_ok a0 (ctx_outargs c)).
Proof.
  intros H. destruct (co_out _ H) as [l Hl]. pose proof (co_nonopt _ H) as Hn. unfold drop_separator. rewrite Hl.
  assert (returns (mret ctx : AM _) (fun c => kinds (ctx_data c) = K /\ args_ok a0 (ctx_outargs c))) as Hsame.
  { apply returns_ret. split; apply H. }
  destruct (truth (ctx_nonopt ctx) && _) eqn:E; [|done]. apply andb_true_iff in E as [E1 E2]. cbn [args_argc out_of] in E2 |- *.
  unfold truth in E1. zify_bool. destruct Hn as [Hn|Hn]; [done|]. rewrite E2 in Hn.
  eapply returns_bind_option; [reflexivity|].
  destruct (lookup_lt_is_Some_2 (a0 :: l) (Z.to_nat (Z.of_nat (length (a0 :: l)) - 1))) as [x Hx]; [cbn; lia|].
  eapply returns_bind_option; [exact Hx|]. destruct (streq x _); [|done]. apply returns_ret. split; [apply H|].
  cbn [ctx_outargs ctx_set_outargs args_allocated out_of]. exists (take (pred (length l)) l). unfold out_of.
  cbn [length] in Hn |- *. replace (Z.to_nat _) with (S (pred (length l))) by lia. cbn [take].
  f_equal. rewrite length_take. lia.
Qed.
End safety.

(** *** A whole parse *)

Section parse.
Context {P : Platform}.

Lemma parse_safe data opts proc a0 l alloc :
  Forall (opt_ok (kinds data)) opts -> Forall nonul (a0 :: l) ->
  (forall p, proc = Some p -> proc_ok (kinds data) a0 (a0 :: l) p) ->
  let args := {| args_argc := Z.of_nat (length (a0 :: l)); args_argv := Some (a0 :: l); args_allocated := alloc |} in
  returns (fuse_opt_parse args data opts proc) (fun '(res, args', data') =>
    (res = 0 /\ args_ok a0 args' \/ res = -1 /\ args' = args) /\ kinds data' = kinds data).
Proof.
  intros Ho Hn Hp args. unfold fuse_opt_parse. cbn [args_argv args_argc args].
  rewrite (proj2 (Z.eqb_neq _ 0)) by (cbn; lia). set (argc := Z.of_nat (length (a0 :: l))).
  set (ok := ctx_ok (kinds data) a0 opts proc (a0 :: l)).
  assert (returns (opt_parse {| ctx_data := data; ctx_opt := opts; ctx_proc := proc; ctx_argctr := 0; ctx_argc := argc;
      ctx_argv := a0 :: l; ctx_outargs := args_none; ctx_opts := None; ctx_nonopt := 0 |})
    (fun r => kinds (ctx_data r.2) = kinds data /\ (r.1 = 0 /\ args_ok a0 (ctx_outargs r.2) \/ r.1 = -1))) as Hr.
  2:{ eapply returns_bind; [exact Hr|]. intros [res ctx] [Hd Hres]. apply returns_ret. cbn [fst snd] in *.
      split; [|done]. destruct Hres as [[-> Ha] | ->]; cbn [Z.eqb negb]; [by left|by right]. }
  unfold opt_parse. cbn [ctx_argc ctx_argv]. unfold truth. rewrite (proj2 (Z.eqb_neq argc 0)) by (unfold argc; cbn; lia).
  cbn [negb head]. apply (returns_bind _ _ (fun r => kinds (ctx_data r.2) = kinds data /\
    (r.1 = -1 \/ r.1 = 0 /\ ok (ctx_set_argctr 1 r.2)))).
  { intros n. rewrite (am_bind_run _ _ n a0 n) by done. unfold add_arg. cbn [ctx_outargs].
    pose proof (add_arg_gen args_none [] a0 n (or_intror (conj eq_refl eq_refl))) as E.
    destruct (alloc_ok n); [destruct (alloc_ok (S n))|]; rewrite (am_bind_run _ _ _ _ _ E); cbn [fst snd];
      (split; [done|]); [right|by left..]. split; [done|].
    constructor; cbn [ctx_opt ctx_proc ctx_argc ctx_argv ctx_data ctx_outargs ctx_argctr ctx_nonopt ctx_set_argctr ctx_set_outargs];
      try done; [|by left]. by exists []. }
  intros [res ctx] [Hd Hc]. cbn [fst snd] in *. destruct Hc as [-> | [-> Hc]]; cbn [Z.eqb].
  { apply returns_ret. cbn. auto. }
  eapply returns_bind; [eapply (steps_loop (kinds data) a0 opts proc (a0 :: l)); try done; cbn; lia|].
  intros [res ctx1] [Hc1 _]. cbn [snd] in Hc1. pose proof (co_data _ _ _ _ _ _ Hc1) as Hd1.
  destruct (res =? -1); [apply returns_ret; cbn; auto|].
  eapply returns_bind; [by eapply (steps_insert (kinds data) a0 opts proc (a0 :: l))|].
  intros [res2 ctx2] [Hc2 _]. cbn [snd] in Hc2. pose proof (co_data _ _ _ _ _ _ Hc2) as Hd2.
  destruct (res2 =? -1); [apply returns_ret; cbn; auto|].
  eapply returns_bind; [by eapply (returns_drop (kinds data) a0 opts proc (a0 :: l))|].
  intros ctx3 [Hd3 Ha3]. apply returns_ret. cbn. auto.
Qed.

(** C24. A parse is safe.  For a table whose entries fit the structure they write
    to, and a processing function that keeps the structure and the output
    vector in shape, every argument vector is processed to the end: the result
    is 0 with a new vector that starts with the program's name, or -1 with the
    vector unchanged; the structure keeps its fields.  The only undefined
    behaviour left is a number that is too large. *)
Theorem parse_returns data opts proc a0 l alloc :
  Forall (opt_ok (kinds data)) opts -> Forall nonul (a0 :: l) ->
  (forall p, proc = Some p -> proc_ok (kinds data) a0 (a0 :: l) p) ->
  let args := {| args_argc := Z.of_nat (length (a0 :: l)); args_argv := Some (a0 :: l); args_allocated := alloc |} in
  returns (fuse_opt_parse args data opts proc) (fun '(res, args', data') =>
    (res = 0 /\ args_ok a0 args' \/ res = -1 /\ args' = args) /\ kinds data' = kinds data).
Proof. apply parse_safe. Qed.
End parse.

(** ** Example *)

(** A table with a plain option and a number. *)
Definition small_table : list fuse_opt := [
  {| opt_templ := str "-v"%string; opt_offset := 0; opt_value := 1 |};
  {| opt_templ := str "--size=%u"%string; opt_offset := 4; opt_value := 0 |}].
Definition small_data : optdata := <[0 := V_int 0]> (<[4 := V_int 0]> ∅).
Definition small_argv : list bytes := map str ["prog"; "-v"; "--size=17"; "file"]%string.

Lemma parse_returns_witness :
  returns (@fuse_opt_parse good (FUSE_ARGS_INIT 4 small_argv) small_data small_table None) (fun '(res, args', data') =>
    (res = 0 /\ args_ok (str "prog"%string) args' \/ res = -1 /\ args' = FUSE_ARGS_INIT 4 small_argv) /\
    kinds data' = kinds small_data) /\
  @fuse_opt_parse good (FUSE_ARGS_INIT 4 small_argv) small_data small_table None 0%nat =
  inr ((0, out_of (map str ["prog"; "file"]%string), <[0 := V_int 1]> (<[4 := V_int 17]> ∅)), 4%nat).
Proof.
  split; [|by vm_compute].
  apply (@parse_returns good small_data small_table None (str "prog"%string) (map str ["-v"; "--size=17"; "file"]%string) false).
  - apply (bool_decide_unpack _). by vm_compute.
  - repeat (constructor; try done).
  - done.
Defined.
