(* ===== verification/HelperProps.v ===== *)
(** * Properties of the command line helper

    A server program's options are read safely for every argument vector; a
    file system without a name gets the program's name as its type; the options
    of a connection switch exactly the features they name; and [fuse_main] never
    mounts anything in this port. *)

From S2P Require Import Prelude Wire Platform KernelAbi LinkedList World Monad Buffer Request.
From S2P Require Import Reply Server Handlers Interrupt Notify Init Opt OptProps OptSafety Helper.
From S2P Require Import Session Queue Daemon UkFs System FileOps Boot HelloLl Examples InitProps.

(** ** Reading a command line *)

Section cmdline.
Context {P : Platform}.

Definition cmdline_kinds : gmap Z bool := kinds cmdline_defaults.

(** Every entry of the tables fits the structure it is for. *)
Lemma helper_opts_ok : Forall (opt_ok cmdline_kinds) fuse_helper_opts.
Proof. apply (bool_decide_unpack _). by vm_compute. Qed.

Lemma conn_opts_ok : Forall (opt_ok (kinds conn_info_opts_zero)) conn_info_opt_spec.
Proof. apply (bool_decide_unpack _). by vm_compute. Qed.

Lemma kinds_str (data : optdata) off s : kinds data !! off = Some false -> kinds (<[off := V_str s]> data) = kinds data.
Proof. intros H. unfold kinds, optdata in *. rewrite (fmap_insert _ data off). by apply insert_id. Qed.

Lemma kinds_read_int data off :
  kinds data !! off = Some true -> exists z, opt_int data off = Some z.
Proof.
  unfold kinds, opt_int, optdata in *. rewrite lookup_fmap. intros ([z|s] & -> & Hb)%fmap_Some; [by exists z|done].
Qed.

Lemma kinds_read_str data off :
  kinds data !! off = Some false -> exists s, opt_str data off = Some s.
Proof.
  unfold kinds, opt_str, optdata in *. rewrite lookup_fmap. intros ([z|s] & -> & Hb)%fmap_Some; [done|by exists s].
Qed.

(** Arguments that fit the buffer of [realpath]. *)
Definition path_fits (a : bytes) : Prop := blen a < PATH_MAX.

Lemma returns_add_opt (opts : option bytes) opt Q :
  (forall r, returns (mret r : AM (Z * option bytes)) Q) -> returns (fuse_opt_add_opt opts opt) Q.
Proof.
  intros HQ. unfold fuse_opt_add_opt, add_opt_common. apply returns_bind_alloc. intros [|]; apply HQ.
Qed.

Lemma helper_proc_ok a0 argv : Forall path_fits argv -> proc_ok cmdline_kinds a0 argv fuse_helper_opt_proc.
Proof.
  intros Hfit data arg key out Hd Ho Hk. unfold fuse_helper_opt_proc.
  destruct (Z.eqb_spec key FUSE_OPT_KEY_NONOPT) as [Hkey|]; [|by apply returns_ret].
  destruct (kinds_read_str data mountpoint) as [mp Hmp]; [by rewrite Hd|].
  eapply returns_bind_option; [exact Hmp|]. destruct mp as [mp|]; [by apply returns_ret|].
  change (negb (fuse_mnt_parse_fuse_fd arg =? -1)) with false. cbv beta iota.
  pose proof (proj1 (Forall_forall _ _) Hfit arg (Hk Hkey)) as Hlen. unfold path_fits in Hlen.
  unfold realpath. rewrite (proj2 (Z.leb_le _ _)) by lia. cbn [am_sum].
  apply (returns_bind _ _ (fun _ => True)); [by apply returns_ret|]. intros path _.
  apply (returns_bind _ _ (fun _ => True)); [by apply returns_add_opt|]. intros [res mp'] _.
  apply returns_ret. cbn [fst snd]. split; [|done]. rewrite kinds_str; [done|by rewrite Hd].
Qed.

Lemma read_int_returns data off :
  kinds data = cmdline_kinds -> cmdline_kinds !! off = Some true ->
  exists z, opt_int data off = Some z /\ read_int data off = mret z.
Proof.
  intros Hd Hk. destruct (kinds_read_int data off) as [z Hz]; [by rewrite Hd|]. exists z. split; [done|].
  unfold read_int. by rewrite Hz.
Qed.

Definition subtype_opt (a0 : bytes) : bytes := str "-osubtype="%string ++ basename_of a0.

(** The type of the file system, in the arguments that are left. *)
Definition subtype_set (a0 : bytes) (opts : optdata) (args : fuse_args) : Prop :=
  opt_int opts nodefault_subtype = Some 0 -> exists l, args = out_of (a0 :: l ++ [subtype_opt a0]).

Lemma cmdline_run a0 l :
  Forall nonul (a0 :: l) -> Forall path_fits (a0 :: l) ->
  let args := FUSE_ARGS_INIT (Z.of_nat (length (a0 :: l))) (a0 :: l) in
  returns (fuse_parse_cmdline_312 args) (fun '(res, args', opts) => kinds opts = cmdline_kinds /\
    (res = -1 \/ res = 0 /\ args_ok a0 args' /\ subtype_set a0 opts args')).
Proof.
  intros Hn Hfit args. unfold fuse_parse_cmdline_312. eapply returns_bind.
  { apply (parse_safe cmdline_defaults fuse_helper_opts (Some fuse_helper_opt_proc) a0 l false); [apply helper_opts_ok|done|].
    intros p [= <-]. by apply helper_proc_ok. }
  intros [[res args1] opts] [Hres Hk]. destruct Hres as [[-> Ha] | [-> _]]; cbn [Z.eqb].
  2:{ apply returns_ret. auto. }
  destruct (read_int_returns opts nodefault_subtype) as (no & Hno & ->); [done|done|]. rewrite mret_bind.
  unfold truth. destruct (Z.eqb_spec no 0) as [->|Hne]; cbn [negb].
  - destruct Ha as [k ->]. eapply returns_bind_option; [reflexivity|]. eapply returns_bind_option; [reflexivity|].
    unfold add_default_subtype. apply (returns_bind _ _ (fun r => r.1 = -1 \/ r.1 = 0 /\ r.2 = out_of (a0 :: k ++ [subtype_opt a0]))).
    + apply returns_bind_alloc. intros [|]; cbn [negb]; [|apply returns_ret; by left].
      intros n. rewrite (add_arg_gen _ (a0 :: k)) by by left. destruct (alloc_ok n); [destruct (alloc_ok (S n))|]; cbn [fst]; auto.
    + intros [res args2] [Hr | [Hr Ha]]; cbn [fst snd] in *; subst; cbn [Z.eqb]; apply returns_ret; split; auto.
      right. split; [done|]. split; [by eexists|]. intros _. by eexists.
  - apply returns_ret. split; [done|]. right. split; [done|]. split; [done|]. unfold subtype_set. rewrite Hno. congruence.
Qed.


(** [fuse_main] never mounts.  Whatever its arguments, it ends with 0 after
    printing its version or help, or with 1, 2 or 3: a bad command line, no
    mount point, or no file system, because [_fuse_new_31] is a stub. *)
Lemma fuse_main_never_mounts pf sf a0 l :
  Forall nonul (a0 :: l) -> Forall path_fits (a0 :: l) ->
  returns (fuse_main_real_versioned pf sf (Z.of_nat (length (a0 :: l))) (a0 :: l))
    (fun code => code ∈ [Some 0; Some 1; Some 2; Some 3]).
Proof.
  intros Hn Hfit. unfold fuse_main_real_versioned, fuse_parse_cmdline_30.
  apply (returns_bind _ _ (fun '(rc, args, opts) => rc <> 0 \/ args_ok a0 args /\
    exists o, kinds o = cmdline_kinds /\ opts = old_fields o ∪ ∅)).
  { eapply returns_bind; [by apply (cmdline_run a0 l)|]. intros [[rc args] opts] [Hk Hr]. apply returns_ret.
    destruct Hr as [-> | (-> & Ha & _)]; cbn [Z.eqb]; [by left|right]. eauto. }
  intros [[rc args] opts] Hr. destruct (Z.eqb_spec rc 0) as [->|]; cbn [negb]; [|apply returns_ret; set_solver].
  destruct Hr as [|(Ha & o & Hk & ->)]; [done|].
  replace (old_fields o ∪ ∅) with (old_fields o) by (symmetry; exact (map_union_empty (M := gmap Z) (old_fields o))).
  assert (forall off z, off <= max_idle_threads -> opt_int o off = Some z -> read_int (old_fields o) off = mret z) as Hrd.
  { intros off z Hoff Hz. unfold read_int, opt_int, old_fields, optdata in *. destruct (o !! off) as [[x|x]|] eqn:E; try done.
    rewrite (map_lookup_filter_Some_2 _ _ _ (V_int x)) by done. by injection Hz as ->. }
  destruct (kinds_read_int o show_version) as [v Hv]; [by rewrite Hk|]. rewrite (Hrd show_version v (ltac:(by vm_compute)) Hv), mret_bind.
  destruct (truth v); [apply returns_ret; set_solver|].
  destruct (kinds_read_int o show_help) as [h Hh]; [by rewrite Hk|]. rewrite (Hrd show_help h (ltac:(by vm_compute)) Hh), mret_bind.
  destruct (truth h).
  { destruct Ha as [k ->]. do 2 (eapply returns_bind_option; [reflexivity|]). apply returns_ret. set_solver. }
  destruct (kinds_read_str o mountpoint) as [mp Hmp]; [by rewrite Hk|].
  assert (read_str (old_fields o) mountpoint = mret mp) as ->.
  { unfold read_str, opt_str, old_fields, optdata in *. destruct (o !! mountpoint) as [[x|x]|] eqn:E; try done.
    rewrite (map_lookup_filter_Some_2 _ _ _ (V_str x)) by done. by injection Hmp as ->. }
  rewrite mret_bind. destruct mp as [mp|]; cbn [_fuse_new_31]; apply returns_ret; set_solver.
Qed.
End cmdline.

(** ** Overriding a connection *)

(** A feature with the options that enable and disable it. *)
Record feature := { ft_bit : Z; ft_enable : option String.string; ft_disable : String.string }.

Definition features : list feature := [
  {| ft_bit := 9; ft_enable := Some "splice_read"; ft_disable := "no_splice_read" |};
  {| ft_bit := 7; ft_enable := Some "splice_write"; ft_disable := "no_splice_write" |};
  {| ft_bit := 8; ft_enable := Some "splice_move"; ft_disable := "no_splice_move" |};
  {| ft_bit := 12; ft_enable := Some "auto_inval_data"; ft_disable := "no_auto_inval_data" |};
  {| ft_bit := 13; ft_enable := None; ft_disable := "no_readdirplus" |};
  {| ft_bit := 14; ft_enable := None; ft_disable := "no_readdirplus_auto" |};
  {| ft_bit := 15; ft_enable := Some "async_dio"; ft_disable := "no_async_dio" |};
  {| ft_bit := 16; ft_enable := Some "writeback_cache"; ft_disable := "no_writeback_cache" |};
  {| ft_bit := 0; ft_enable := Some "async_read"; ft_disable := "sync_read" |};
  {| ft_bit := 1; ft_enable := None; ft_disable := "no_remote_posix_lock" |};
  {| ft_bit := 10; ft_enable := None; ft_disable := "no_remote_flock" |}]%string.

(** Is the option of this name set? *)
Definition option_on (opts : optdata) (f : String.string) : bool :=
  match opt_int opts (offset_of f) with Some z => truth z | None => false end.

(** A feature after the options were applied: the disabling option wins. *)
Definition switched (opts : optdata) (cap : Z) (f : feature) (old : bool) : bool :=
  if option_on opts (ft_disable f) then false
  else if match ft_enable f with Some e => option_on opts e | None => false end
       then Z.testbit cap (ft_bit f) || old else old.

(** The calls of the feature flag functions. *)
Definition feature_calls (opts : optdata) (f : feature) : list flag_call :=
  (if match ft_enable f with Some e => option_on opts e | None => false end then [Set_flag (ft_bit f)] else []) ++
  (if option_on opts (ft_disable f) then [Unset_flag (ft_bit f)] else []).

(** A limit after the options were applied. *)
Definition limit (opts : optdata) (set_field field : String.string) (old : Z) : Z :=
  if option_on opts set_field then default 0 (opt_int opts (offset_of field)) else old.

Section apply.
Context {P : Platform}.
Implicit Types (w : world).

(** The members [fuse_apply_conn_info_opts] may override. *)
Definition limits w : Z * Z * Z * Z * Z :=
  let c := se_conn (w_se w) in
  (max_write c, max_background c, congestion_threshold c, time_gran c, max_readahead c).

Lemma flag_call_limits c w w' : run_flag_call c w = Ok tt w' -> limits w' = limits w.
Proof.
  destruct w as [? ? ? ? ? ? ? ? ? ? se ? ? ? ?], se as [? ? ? ? ? ? ? conn], conn.
  destruct c as [k|k|k]; cbn.
  - unfold fuse_set_feature_flag, mbind, M_bind, get_conn, gets. cbn.
    destruct (flag _ _); cbn; by intros [= <-].
  - by intros [= <-].
  - by intros [= <-].
Qed.

Lemma flag_calls_limits cs w w' : run_flag_calls cs w = Ok tt w' -> limits w' = limits w.
Proof.
  revert w. induction cs as [|c cs IH]; intros w; cbn; [by intros [= <-]|]. unfold mbind at 1, M_bind at 1.
  destruct (run_flag_call c w) as [[] w1|] eqn:E; [|done]. intros H. rewrite (IH _ H). by eapply flag_call_limits.
Qed.

(** Calls one after the other, and the rest of the program. *)
Lemma run_flag_calls_app cs cs' w :
  run_flag_calls (cs ++ cs') w = (run_flag_calls cs;; run_flag_calls cs') w.
Proof.
  revert w. induction cs as [|c cs IH]; intros w; [done|]. cbn [run_flag_calls app]. rewrite bind_assoc.
  unfold mbind, M_bind. destruct (run_flag_call c w) as [[] w1|]; [apply IH|done].
Qed.

Context (opts : optdata) (Hopts : kinds opts = kinds conn_info_opts_zero).

Definition field_known (f : String.string) : bool := bool_decide (f ∈ ci_fields).

Lemma field_int f : field_known f = true -> exists z, opt_int opts (offset_of f) = Some z.
Proof.
  intros Hf%bool_decide_eq_true. apply kinds_read_int. rewrite Hopts.
  assert (Forall (fun f => kinds conn_info_opts_zero !! offset_of f = Some true) ci_fields) as Hall
    by (apply (bool_decide_unpack _); by vm_compute).
  by apply (proj1 (Forall_forall _ _) Hall).
Qed.

Lemma ci_opt_run f w : field_known f = true -> ci_opt opts f w = Ok (option_on opts f) w.
Proof. intros Hf. destruct (field_int f Hf) as [z Hz]. unfold ci_opt, option_on. by rewrite Hz. Qed.

Lemma enable_run f k w : field_known f = true ->
  LL_ENABLE opts f (bit_flag k) w = run_flag_calls (if option_on opts f then [Set_flag k] else []) w.
Proof.
  intros Hf. unfold LL_ENABLE. mstep by (by apply ci_opt_run). destruct (option_on opts f); cbn; [|done].
  unfold mbind, M_bind. by destruct (fuse_set_feature_flag (bit_flag k) w).
Qed.

Lemma disable_run f k w : field_known f = true ->
  LL_DISABLE opts f (bit_flag k) w = run_flag_calls (if option_on opts f then [Unset_flag k] else []) w.
Proof.
  intros Hf. unfold LL_DISABLE. mstep by (by apply ci_opt_run). destruct (option_on opts f); cbn; [|done].
  unfold mbind, M_bind. by destruct (fuse_unset_feature_flag (bit_flag k) w) as [[] w'|].
Qed.

Lemma bind_ext (m m' k k' : M unit) w :
  (forall w, m w = m' w) -> (forall w, k w = k' w) -> (m;; k) w = (m';; k') w.
Proof. intros H1 H2. unfold mbind, M_bind. rewrite H1. by destruct (m' w). Qed.

(** The second half of [fuse_apply_conn_info_opts] is a list of flag calls. *)
Definition all_calls : list flag_call := features ≫= feature_calls opts.

Definition switch_features : M unit :=
  LL_ENABLE opts "splice_read" FUSE_CAP_SPLICE_READ;;
  LL_DISABLE opts "no_splice_read" FUSE_CAP_SPLICE_READ;;
  LL_ENABLE opts "splice_write" FUSE_CAP_SPLICE_WRITE;;
  LL_DISABLE opts "no_splice_write" FUSE_CAP_SPLICE_WRITE;;
  LL_ENABLE opts "splice_move" FUSE_CAP_SPLICE_MOVE;;
  LL_DISABLE opts "no_splice_move" FUSE_CAP_SPLICE_MOVE;;
  LL_ENABLE opts "auto_inval_data" FUSE_CAP_AUTO_INVAL_DATA;;
  LL_DISABLE opts "no_auto_inval_data" FUSE_CAP_AUTO_INVAL_DATA;;
  LL_DISABLE opts "no_readdirplus" FUSE_CAP_READDIRPLUS;;
  LL_DISABLE opts "no_readdirplus_auto" FUSE_CAP_READDIRPLUS_AUTO;;
  LL_ENABLE opts "async_dio" FUSE_CAP_ASYNC_DIO;;
  LL_DISABLE opts "no_async_dio" FUSE_CAP_ASYNC_DIO;;
  LL_ENABLE opts "writeback_cache" FUSE_CAP_WRITEBACK_CACHE;;
  LL_DISABLE opts "no_writeback_cache" FUSE_CAP_WRITEBACK_CACHE;;
  LL_ENABLE opts "async_read" FUSE_CAP_ASYNC_READ;;
  LL_DISABLE opts "sync_read" FUSE_CAP_ASYNC_READ;;
  LL_DISABLE opts "no_remote_posix_lock" FUSE_CAP_POSIX_LOCKS;;
  LL_DISABLE opts "no_remote_flock" FUSE_CAP_FLOCK_LOCKS.

Lemma switch_features_run w : switch_features w = run_flag_calls all_calls w.
Proof.
  transitivity (run_flag_calls (
    (if option_on opts "splice_read" then [Set_flag 9] else []) ++ (if option_on opts "no_splice_read" then [Unset_flag 9] else []) ++
    (if option_on opts "splice_write" then [Set_flag 7] else []) ++ (if option_on opts "no_splice_write" then [Unset_flag 7] else []) ++
    (if option_on opts "splice_move" then [Set_flag 8] else []) ++ (if option_on opts "no_splice_move" then [Unset_flag 8] else []) ++
    (if option_on opts "auto_inval_data" then [Set_flag 12] else []) ++ (if option_on opts "no_auto_inval_data" then [Unset_flag 12] else []) ++
    (if option_on opts "no_readdirplus" then [Unset_flag 13] else []) ++ (if option_on opts "no_readdirplus_auto" then [Unset_flag 14] else []) ++
    (if option_on opts "async_dio" then [Set_flag 15] else []) ++ (if option_on opts "no_async_dio" then [Unset_flag 15] else []) ++
    (if option_on opts "writeback_cache" then [Set_flag 16] else []) ++ (if option_on opts "no_writeback_cache" then [Unset_flag 16] else []) ++
    (if option_on opts "async_read" then [Set_flag 0] else []) ++ (if option_on opts "sync_read" then [Unset_flag 0] else []) ++
    (if option_on opts "no_remote_posix_lock" then [Unset_flag 1] else []) ++ (if option_on opts "no_remote_flock" then [Unset_flag 10] else [])) w).
  - unfold switch_features. revert w.
    repeat (intros ?; rewrite run_flag_calls_app; apply bind_ext; [intros; (by apply enable_run) || (by apply disable_run)|]).
    intros ?. by apply disable_run.
  - f_equal. unfold all_calls, features. cbn [mbind list_bind]. unfold feature_calls. cbn [ft_enable ft_disable ft_bit].
    cbn [app]. rewrite app_nil_r, <- !app_assoc. reflexivity.
Qed.

(** What the calls do to one bit. *)
Lemma feature_calls_bit cap i f old :
  fold_left (track cap i) (feature_calls opts f) old = if i =? ft_bit f then switched opts cap f old else old.
Proof.
  unfold feature_calls, switched. destruct f as [k en dis]. cbn [ft_enable ft_disable ft_bit].
  destruct (match en with Some e => option_on opts e | None => false end), (option_on opts dis); cbn;
    destruct (Z.eqb_spec i k) as [->|]; done.
Qed.

Fixpoint switched_bit (fs : list feature) (cap i : Z) (old : bool) : bool :=
  match fs with
  | [] => old
  | f :: fs => switched_bit fs cap i (if i =? ft_bit f then switched opts cap f old else old)
  end.

Lemma all_calls_bit fs cap i old :
  fold_left (track cap i) (fs ≫= feature_calls opts) old = switched_bit fs cap i old.
Proof.
  revert old. induction fs as [|f fs IH]; intros old; [done|]. rewrite bind_cons, fold_left_app, feature_calls_bit.
  apply IH.
Qed.

Lemma switched_bit_other fs cap i old : (forall f, f ∈ fs -> ft_bit f <> i) -> switched_bit fs cap i old = old.
Proof.
  revert old. induction fs as [|f fs IH]; intros old Hi; [done|]. cbn.
  rewrite (proj2 (Z.eqb_neq _ _)) by (intros Hf; by apply (Hi f); [apply elem_of_cons; left|]).
  apply IH. intros g Hg. apply Hi. apply elem_of_cons. by right.
Qed.

Lemma switched_bit_elem fs cap f old :
  NoDup (map ft_bit fs) -> f ∈ fs -> switched_bit fs cap (ft_bit f) old = switched opts cap f old.
Proof.
  induction fs as [|g fs IH]; intros Hnd Hf; [by apply not_elem_of_nil in Hf|]. cbn [map] in Hnd. apply NoDup_cons in Hnd as [Hg Hnd].
  cbn. apply elem_of_cons in Hf as [->|Hf].
  - rewrite Z.eqb_refl. apply switched_bit_other. intros x Hx Hb. apply Hg. rewrite <- Hb.
    apply list_elem_of_fmap. by exists x.
  - rewrite (proj2 (Z.eqb_neq _ _)); [by apply IH|]. intros Hb. apply Hg. rewrite <- Hb.
    apply list_elem_of_fmap. by exists f.
Qed.

Lemma features_bits : Forall (fun f => 0 <= ft_bit f < 64) features.
Proof. apply (bool_decide_unpack _). by vm_compute. Qed.

Lemma all_calls_ok : Forall flag_call_ok all_calls.
Proof.
  pose proof features_bits as H.
  unfold all_calls. induction H as [|f fs Hf _ IH]; [constructor|]. rewrite bind_cons. apply Forall_app; split; [|done].
  unfold feature_calls. apply Forall_app; split.
  - destruct (match ft_enable f with Some e => option_on opts e | None => false end); [|constructor].
    constructor; [exact Hf|constructor].
  - destruct (option_on opts (ft_disable f)); [|constructor]. constructor; [exact Hf|constructor].
Qed.

Lemma override_run sf f assign w :
  field_known sf = true -> field_known f = true ->
  ci_override opts sf f assign w =
  Ok tt (if option_on opts sf then
           w_set_se (se_set_conn (assign (default 0 (opt_int opts (offset_of f))) (se_conn (w_se w))) (w_se w)) w
         else w).
Proof.
  intros Hs Hf. unfold ci_override. mstep by (by apply ci_opt_run). destruct (option_on opts sf); [|done].
  destruct (field_int f Hf) as [v Hv]. cbn [when]. unfold ci_value. rewrite Hv. done.
Qed.

(** Options that override a connection.  Each of the eleven features is off
    when its disabling option was given, on when only its enabling option was
    and the peer offers it, and as before otherwise; all other features stay.
    Each limit is the one given, or as before.  The offer stays and the old
    flag word remains the low half of the new one. *)
Theorem conn_options_applied w :
  is_u 64 (caps w) -> old_wanted w = u32 (wanted w) ->
  exists w', fuse_apply_conn_info_opts opts w = Ok tt w' /\
    (forall f, f ∈ features ->
       Z.testbit (wanted w') (ft_bit f) = switched opts (caps w) f (Z.testbit (wanted w) (ft_bit f))) /\
    (forall i, 0 <= i < 64 -> i ∉ map ft_bit features -> Z.testbit (wanted w') i = Z.testbit (wanted w) i) /\
    (let '(mw, mb, ct, tg, mr) := limits w in
     limits w' = (limit opts "set_max_write" "max_write" mw, limit opts "set_max_background" "max_background" mb,
                  limit opts "set_congestion_threshold" "congestion_threshold" ct,
                  limit opts "set_time_gran" "time_gran" tg, limit opts "set_max_readahead" "max_readahead" mr)) /\
    caps w' = caps w /\ old_wanted w' = u32 (wanted w').
Proof.
  intros Hc Ho. set (w1 := w_set_se (se_set_conn (
    let c := se_conn (w_se w) in
    let app (sf f : String.string) assign c := if option_on opts sf then assign (default 0 (opt_int opts (offset_of f))) c else c in
    app "set_max_readahead" "max_readahead" conn_set_max_readahead
      (app "set_time_gran" "time_gran" conn_set_time_gran
        (app "set_congestion_threshold" "congestion_threshold" conn_set_congestion_threshold
          (app "set_max_background" "max_background" conn_set_max_background
            (app "set_max_write" "max_write" conn_set_max_write c))))%string) (w_se w)) w).
  assert (fuse_apply_conn_info_opts opts w = switch_features w1) as ->.
  { unfold fuse_apply_conn_info_opts. do 5 (mstep by (by apply override_run)). unfold switch_features, w1. f_equal.
    unfold when. destruct w as [? ? ? ? ? ? ? ? ? ? se ? ? ? ?], se as [? ? ? ? ? ? ? conn].
    repeat match goal with |- context [option_on opts ?f] => destruct (option_on opts f) end; reflexivity. }
  assert (caps w1 = caps w /\ wanted w1 = wanted w /\ old_wanted w1 = old_wanted w) as (Hcw & Hww & Hoo).
  { unfold w1, caps, wanted, old_wanted. destruct w as [? ? ? ? ? ? ? ? ? ? se ? ? ? ?], se as [? ? ? ? ? ? ? conn], conn. cbn.
    repeat match goal with |- context [option_on opts ?f] => destruct (option_on opts f) end; done. }
  destruct (run_flag_calls_spec all_calls w1) as (w' & E & Hb & Hc' & Ho' & _); [apply all_calls_ok|congruence|congruence|].
  assert (forall i, 0 <= i < 64 -> Z.testbit (wanted w') i = switched_bit features (caps w) i (Z.testbit (wanted w) i)) as Hbit.
  { intros i Hi. rewrite Hb by done. unfold all_calls. by rewrite all_calls_bit, Hcw, Hww. }
  exists w'. rewrite switch_features_run. split; [exact E|]. split_and!.
  - intros f Hf. rewrite Hbit.
    + apply switched_bit_elem; [apply (bool_decide_unpack _); by vm_compute|done].
    + by apply (proj1 (Forall_forall _ _) features_bits).
  - intros i Hi Hn. rewrite Hbit by done. apply switched_bit_other. intros f Hf <-. apply Hn.
    apply list_elem_of_fmap. by exists f.
  - rewrite (flag_calls_limits _ _ _ E). unfold w1, limits, limit.
    destruct w as [? ? ? ? ? ? ? ? ? ? se ? ? ? ?], se as [? ? ? ? ? ? ? conn], conn. cbn.
    repeat match goal with |- context [option_on opts ?f] => destruct (option_on opts f) end; done.
  - congruence.
  - done.
Qed.
End apply.

(** ** Examples *)

Definition prog_argv : list bytes := map str ["/bin/prog"; "-o"; "max_threads=7,ro"; "/mnt"]%string.


Lemma fuse_main_never_mounts_witness :
  returns (@fuse_main_real_versioned good false false 4 prog_argv)
    (fun code => code ∈ [Some 0; Some 1; Some 2; Some 3]) /\
  @fuse_main_real_versioned good false false 4 prog_argv 0%nat = inr (Some 3, 12%nat).
Proof.
  split; [|by vm_compute].
  apply (@fuse_main_never_mounts good false false (str "/bin/prog"%string) (map str ["-o"; "max_threads=7,ro"; "/mnt"]%string)).
  - repeat (constructor; try done).
  - apply (bool_decide_unpack _). by vm_compute.
Defined.

(** Offered: everything; wanted before: asynchronous reads. *)
Definition offer_world : @world good :=
  w_set_se (se_set_conn (conn_set_want 1 (conn_set_want_ext 1 (conn_set_capable_ext (2 ^ 32 - 1) conn_zero)))
    (w_se good_world)) good_world.
Definition some_options : optdata :=
  <[offset_of "splice_move" := V_int 1]> (<[offset_of "sync_read" := V_int 1]> conn_info_opts_zero).

Lemma conn_options_applied_witness : exists w',
  @fuse_apply_conn_info_opts good some_options offer_world = Ok tt w' /\
  Z.testbit (wanted w') 8 = true /\ Z.testbit (wanted w') 0 = false.
Proof.
  destruct (@conn_options_applied good some_options eq_refl offer_world) as (w' & E & Hb & _); [done|done|].
  exists w'. split; [exact E|]. split.
  - etransitivity; [apply (Hb {| ft_bit := 8; ft_enable := Some "splice_move"%string; ft_disable := "no_splice_move"%string |})|reflexivity].
    by apply (list_elem_of_lookup_2 features 2).
  - etransitivity; [apply (Hb {| ft_bit := 0; ft_enable := Some "async_read"%string; ft_disable := "sync_read"%string |})|reflexivity].
    by apply (list_elem_of_lookup_2 features 8).
Defined.
