(* ===== verification/HelloMain.v ===== *)
(** * The program of the example server

    [main] of [src/apps/fuse-test/hello_ll.c], as the tests start it in a thread
    of its own ([backend_thread_fn] of [src/apps/fuse-test/main.c]): it reads its
    command line, creates and mounts its session, and waits.  Output is left
    out. *)

From S2P Require Import Prelude Wire Platform KernelAbi LinkedList World Monad Buffer Request.
From S2P Require Import Reply Server Handlers Interrupt Notify Init Opt Helper OptProps OptSafety HelperProps.
From S2P Require Import Session Queue Daemon UkFs System FileOps Boot Posix HelloLl HelloSpec.

Section main.
Context {P : Platform} {S : Server}.

(** The option parser within the program: both count the same allocations. *)
Definition lift_am {A} (m : AM A) : M A := fun w =>
  match m (w_nalloc w) with inr (a, n) => Ok a (w_set_nalloc n w) | inl e => Fault e end.

(** Where [main] is: gone (in a parent that was forked away), at its end, or at
    the call of [fuse_session_loop]. *)
Inductive main_at := Gone | Exited (code : Z) | In_loop.

Definition fuse_session_loop_mt_312 : Z := -1.

Definition exit_code (ret : Z) : Z := if truth ret then 1 else 0.

(** [main] up to its loop; [err_out] marks its cleanup labels. *)
Definition main_to_loop (pipe_fails setsid_fails : bool) (argc : Z) (argv : list bytes) : M main_at :=
  '(res, args, opts) ← lift_am (fuse_parse_cmdline_312 (FUSE_ARGS_INIT argc argv));
  if negb (res =? 0) then mret (Exited 1)
  else
    help ← lift_am (read_int opts show_help);
    if truth help then mret (Exited (exit_code 0))
    else
      version ← lift_am (read_int opts show_version);
      if truth version then mret (Exited (exit_code 0))
      else
        mp ← lift_am (read_str opts mountpoint);
        match mp with
        | None => mret (Exited (exit_code 1))
        | Some _ =>
            se ← fuse_session_new_30 true sizeof_lowlevel_ops;
            if negb se then mret (Exited (exit_code (-1)))
            else if negb (fuse_set_signal_handlers =? 0) then fuse_session_destroy;; mret (Exited (exit_code (-1)))
            else
              mounted ← fuse_session_mount;
              if negb (mounted =? 0) then fuse_session_destroy;; mret (Exited (exit_code (-1)))
              else
                fg ← lift_am (read_int opts foreground);
                match fuse_daemonize pipe_fails setsid_fails fg with
                | None => mret Gone
                | Some _ =>
                    single ← lift_am (read_int opts singlethread);
                    if truth single then mret In_loop
                    else
                      fuse_session_unmount;;
                      fuse_session_destroy;;
                      mret (Exited (exit_code fuse_session_loop_mt_312))
                end
        end.

Definition hello_ll_main (pipe_fails setsid_fails : bool) (argc : Z) (argv : list bytes) : M main_at :=
  at_ ← main_to_loop pipe_fails setsid_fails argc argv;
  match at_ with
  | In_loop =>
      ret ← fuse_session_loop;
      fuse_session_unmount;;
      fuse_session_destroy;;
      mret (Exited (exit_code ret))
  | _ => mret at_
  end.

(** [bk_argv] of [backend_thread_fn] *)
Definition bk_argv : list bytes := [str "fuse"; str "-f"; str "-s"; str "/"]%string.

Definition backend_thread_fn (pipe_fails setsid_fails : bool) : M main_at :=
  hello_ll_main pipe_fails setsid_fails 4 bk_argv.
End main.

(** ** The command line of the tests *)

Section backend.
Context {P : Platform}.

(** The parser at an argument of [bk_argv]. *)
Definition bk_ctx (proc : option fuse_opt_proc_t) (ctr : Z) (out : fuse_args) (data : optdata) : fuse_opt_context :=
  {| ctx_data := data; ctx_opt := fuse_helper_opts; ctx_proc := proc; ctx_argctr := ctr; ctx_argc := 4;
     ctx_argv := bk_argv; ctx_outargs := out; ctx_opts := None; ctx_nonopt := 0 |}.

Definition after_f : optdata := <[foreground := V_int 1]> cmdline_defaults.
Definition after_s : optdata := <[singlethread := V_int 1]> after_f.
Definition bk_opts : optdata := <[mountpoint := V_str (Some (str "/"%string))]> after_s.

Lemma bk_f proc out n :
  process_one (bk_ctx proc 1 out cmdline_defaults) (str "-f"%string) n = inr ((0, bk_ctx proc 1 out after_f), n).
Proof. by vm_compute. Qed.

Lemma bk_s proc out n :
  process_one (bk_ctx proc 2 out after_f) (str "-s"%string) n = inr ((0, bk_ctx proc 2 out after_s), n).
Proof. by vm_compute. Qed.

Lemma bk_mountpoint out n :
  alloc_ok n = true ->
  process_one (bk_ctx (Some fuse_helper_opt_proc) 3 out after_s) (str "/"%string) n =
  inr ((0, bk_ctx (Some fuse_helper_opt_proc) 3 out bk_opts), S n).
Proof.
  intros Ha. change (call_proc (bk_ctx (Some fuse_helper_opt_proc) 3 out after_s) (str "/"%string) FUSE_OPT_KEY_NONOPT false n =
    inr ((0, bk_ctx (Some fuse_helper_opt_proc) 3 out bk_opts), S n)).
  unfold call_proc. change (FUSE_OPT_KEY_NONOPT =? FUSE_OPT_KEY_DISCARD) with false. cbv iota. cbn [ctx_proc bk_ctx].
  change (negb (FUSE_OPT_KEY_NONOPT =? FUSE_OPT_KEY_KEEP)) with true. cbv iota.
  assert (fuse_helper_opt_proc after_s (str "/"%string) FUSE_OPT_KEY_NONOPT out n = inr ((0, bk_opts, out), S n)) as E.
  { unfold fuse_helper_opt_proc. change (FUSE_OPT_KEY_NONOPT =? FUSE_OPT_KEY_NONOPT) with true. cbv iota.
    rewrite (am_bind_run _ _ n None n) by done. change (negb (fuse_mnt_parse_fuse_fd _ =? -1)) with false. cbv iota.
    rewrite (am_bind_run _ _ n (str "/"%string) n) by done. 
    rewrite (am_bind_run _ _ n (0, Some (str "/"%string)) (S n)); [reflexivity|].
    unfold fuse_opt_add_opt, add_opt_common, try_alloc. rewrite (am_bind_run _ _ n true (S n)) by (by rewrite Ha). reflexivity. }
  rewrite (am_bind_run _ _ _ _ _ E). reflexivity.
Qed.

Definition bk_args : fuse_args := out_of [str "fuse"; str "-osubtype=fuse"]%string.

(** One turn of the parser's loop. *)
Lemma bk_turn fuel proc ctr out data data' arg n n' :
  bk_argv !! Z.to_nat ctr = Some arg -> ctr < 4 ->
  process_one (bk_ctx proc ctr out data) arg n = inr ((0, bk_ctx proc ctr out data'), n') ->
  parse_loop (S fuel) (bk_ctx proc ctr out data) n = parse_loop fuel (bk_ctx proc (ctr + 1) out data') n'.
Proof.
  intros Ha Hc E. cbn [parse_loop]. change (ctx_argctr (bk_ctx proc ctr out data)) with ctr.
  change (ctx_argc (bk_ctx proc ctr out data)) with 4. rewrite (proj2 (Z.ltb_lt _ _) Hc).
  rewrite (am_bind_run _ _ n arg n).
  2:{ unfold cur_arg. change (ctx_argv (bk_ctx proc ctr out data)) with bk_argv.
      change (ctx_argctr (bk_ctx proc ctr out data)) with ctr. by rewrite Ha. }
  by rewrite (am_bind_run _ _ _ _ _ E).
Qed.

(** Six allocations: two for the program's name, the mount point, three for the
    subtype. *)
Lemma bk_cmdline n :
  (forall i, (n <= i < n + 6)%nat -> alloc_ok i = true) ->
  fuse_parse_cmdline_312 (FUSE_ARGS_INIT 4 bk_argv) n = inr ((0, bk_args, bk_opts), (n + 6)%nat).
Proof.
  intros Ha. set (pr := Some fuse_helper_opt_proc). set (o1 := out_of [str "fuse"%string]).
  assert (fuse_opt_parse (FUSE_ARGS_INIT 4 bk_argv) cmdline_defaults fuse_helper_opts pr n =
    inr ((0, o1, bk_opts), S (S (S n)))) as E.
  { unfold fuse_opt_parse. cbn [args_argv args_argc FUSE_ARGS_INIT]. change (4 =? 0) with false. cbv iota.
    assert (opt_parse (bk_ctx pr 0 args_none cmdline_defaults) n = inr ((0, bk_ctx pr 4 o1 bk_opts), S (S (S n)))) as Ep;
      [|by rewrite (am_bind_run _ _ _ _ _ Ep)].
    unfold opt_parse. change (truth (ctx_argc (bk_ctx pr 0 args_none cmdline_defaults))) with true. cbv iota.
    rewrite (am_bind_run _ _ n (0, bk_ctx pr 0 o1 cmdline_defaults) (S (S n))).
    2:{ rewrite (am_bind_run _ _ n (str "fuse"%string) n) by done. unfold add_arg.
        rewrite (am_bind_run _ _ n (0, o1) (S (S n))); [done|].
        rewrite (add_arg_gen _ []) by (by right). by rewrite !Ha by lia. }
    change (0 =? -1) with false. cbv iota. change (Z.to_nat (ctx_argc _)) with 4%nat.
    change (ctx_set_argctr 1 (bk_ctx pr 0 o1 cmdline_defaults)) with (bk_ctx pr 1 o1 cmdline_defaults).
    rewrite (am_bind_run _ _ (S (S n)) (0, bk_ctx pr 4 o1 bk_opts) (S (S (S n)))).
    - change (0 =? -1) with false. cbv iota. rewrite (am_bind_run _ _ (S (S (S n))) (0, bk_ctx pr 4 o1 bk_opts) (S (S (S n)))) by done.
      change (0 =? -1) with false. cbv iota. by rewrite (am_bind_run _ _ (S (S (S n))) (bk_ctx pr 4 o1 bk_opts) (S (S (S n)))).
    - rewrite (bk_turn _ _ 1 _ _ _ _ _ _ eq_refl eq_refl (bk_f pr o1 _)).
      rewrite (bk_turn _ _ 2 _ _ _ _ _ _ eq_refl eq_refl (bk_s pr o1 _)).
      rewrite (bk_turn _ _ 3 _ _ _ _ _ _ eq_refl eq_refl (bk_mountpoint o1 _ (Ha (S (S n)) ltac:(lia)))). done. }
  unfold fuse_parse_cmdline_312. rewrite (am_bind_run _ _ _ _ _ E). change (0 =? -1) with false. cbv iota.
  rewrite (am_bind_run _ _ (S (S (S n))) 0 (S (S (S n)))) by done. cbn [truth Z.eqb negb].
  rewrite (am_bind_run _ _ (S (S (S n))) [str "fuse"%string] (S (S (S n)))) by done.
  rewrite (am_bind_run _ _ (S (S (S n))) (str "fuse"%string) (S (S (S n)))) by done.
  rewrite (am_bind_run _ _ (S (S (S n))) (0, bk_args) (n + 6)%nat); [done|].
  unfold add_default_subtype, try_alloc. rewrite (am_bind_run _ _ (S (S (S n))) true (S (S (S (S n))))) by (by rewrite Ha by lia).
  cbn [negb]. rewrite (add_arg_gen _ [str "fuse"%string]) by (by left). rewrite !Ha by lia. f_equal. f_equal. lia.
Qed.
End backend.

(** ** From the command line to a served file system *)

Section serve.
Context {P : Platform} {PS : PlatformSpec P} {S : Server} {F : FileServer S}.

(** Ten allocations and a thread. *)
Definition backend_resources : Prop :=
  (forall i, (i < 10)%nat -> alloc_ok i = true) /\ uk_alloc_get_default = true /\ uk_thread_create_ok 0 = true.

Lemma lift_am_run {A} (m : AM A) w a n : m (w_nalloc w) = inr (a, n) -> lift_am m w = Ok a (w_set_nalloc n w).
Proof. intros H. unfold lift_am. by rewrite H. Qed.

(** The program in its loop. *)
Definition waiting io : world :=
  w_set_registered true
    (w_set_reqs (<[SE_LIST := list_head SE_LIST]> (<[SE_INTERRUPTS := list_head SE_INTERRUPTS]> ∅))
      (w_set_nreqs {[SE_NOTIFY := Build_fuse_notify_req 0 0 SE_NOTIFY SE_NOTIFY]}
        (w_set_se booted_session (w_set_next 5 (w_set_nalloc 7 (start_world io)))))).

Lemma main_run pf sf io :
  (forall i, (i < 7)%nat -> alloc_ok i = true) ->
  main_to_loop pf sf 4 bk_argv (start_world io) = Ok In_loop (waiting io).
Proof.
  intros Ha. unfold main_to_loop.
  mstep by (apply lift_am_run, (bk_cmdline 0); intros; apply Ha; lia). cbn [Z.eqb negb].
  mstep by (by apply (lift_am_run _ _ 0)). cbn [truth Z.eqb negb].
  mstep by (by apply (lift_am_run _ _ 0)). cbn [truth Z.eqb negb].
  mstep by (by apply (lift_am_run _ _ (Some (str "/"%string)))).
  mstep by (apply (new_session_at 6), Ha; lia). cbn [negb]. change (negb (fuse_set_signal_handlers =? 0)) with false. cbv iota.
  mstep by done. cbn [Z.eqb negb].
  mstep by (by apply (lift_am_run _ _ 1)). unfold fuse_daemonize. cbn [Z.eqb].
  by mstep by (by apply (lift_am_run _ _ 1)).
Qed.

Lemma volume_opens io : backend_resources ->
  open_volume (waiting io) = Ok (Some ROOT_FILE, Some DAEMON_BUF) (booted_at 6 io).
Proof.
  intros (Ha & Hd & Ht). unfold open_volume.
  mstep by (apply fusefs_vopen_run; try done; apply Ha; cbn; lia).
  mstep by (unfold fuse_daemon_begin, memalign; mstep by done;
            mstep by (apply alloc_run, Ha; cbn; lia); by mstep by done). done.
Qed.

(** C16. The tests' server program reaches its loop.  Started with the command
    line of [backend_thread_fn] in a fresh program with ten allocations and a
    thread to come, it creates and mounts its session and then waits for good;
    once it is there, opening the volume and the daemon's start give the state
    in which every file operation is served. *)
Theorem backend_serves pf sf io :
  backend_resources ->
  exists w1, main_to_loop pf sf 4 bk_argv (start_world io) = Ok In_loop w1 /\
    open_volume w1 = Ok (Some ROOT_FILE, Some DAEMON_BUF) (booted_at 6 io) /\
    sys_ok DAEMON_BUF [] (booted_at 6 io) /\ files_ok (booted_at 6 io) /\
    backend_thread_fn pf sf (start_world io) = Fault Deadlock.
Proof.
  intros H. pose proof (main_run pf sf io ltac:(intros; apply H; lia)) as E.
  eexists. split; [exact E|]. split_and!.
  - by apply volume_opens.
  - apply booted_at_ok.
  - apply booted_files_at.
  - unfold backend_thread_fn, hello_ll_main. mstep by (exact E).
    assert (fuse_session_loop (P := P) = fault_ Deadlock) as Hloop; [|by rewrite Hloop].
    unfold fuse_session_loop. destruct (uk_semaphore_down (uk_semaphore_init 0)) as [s|] eqn:Es; [|done].
    apply sem_down_value in Es. by rewrite sem_init_value in Es by done.
Qed.
End serve.

Lemma backend_serves_witness : exists w1,
  @main_to_loop good hello_server false false 4 bk_argv (@start_world good []) = Ok In_loop w1 /\
  sys_ok (P := good) DAEMON_BUF [] (booted_at (P := good) 6 []).
Proof.
  destruct (@backend_serves good good_spec hello_server hello_file_server false false []) as (w1 & E & _ & H & _); [done|].
  by exists w1.
Defined.
