(* ===== verification/LinuxMain.v ===== *)
(** * The program of the baseline's server

    [main] of [src/apps/fuse-perf-test/linux_hello_ll.c].  It asks for version 31
    of the interface, so the command line is read with the structure of that
    version and the loop is [fuse_session_loop_mt_31], which only the libfuse of
    Linux has and which is a parameter.  Output is left out. *)

From S2P Require Import Prelude Wire Platform KernelAbi LinkedList World Monad Buffer Request.
From S2P Require Import Reply Server Handlers Init Opt Helper OptProps Session UkFs System FileOps Boot HelloMain.

Section main.
Context {P : Platform} {S : Server}.
(** The loop, which takes [clone_fd], and the address of [config]. *)
Context (fuse_session_loop_mt_31 : Z -> M Z) (config : Z).

(** [&config] is passed as the [int] that [fuse_session_loop_mt_31] takes, so
    what is written to [config] before has no effect. *)
Definition linux_hello_main (pipe_fails setsid_fails : bool) (argc : Z) (argv : list bytes) : M main_at :=
  '(res, args, opts) ← lift_am (fuse_parse_cmdline_30 (FUSE_ARGS_INIT argc argv) ∅);
  if negb (res =? 0) then mret (Exited 1)
  else
    help ← lift_am (read_int opts show_help);
    if truth help then mret (Exited (exit_code 0))
    else
      version ← lift_am (read_int opts show_version);
      if truth version then mret (Exited (exit_code 0))
      else
        mp ← lift_am (read_str opts mountpoint);
        match mp with
        | None => mret (Exited (exit_code 1))
        | Some _ =>
            se ← fuse_session_new_30 true sizeof_lowlevel_ops;
            if negb se then mret (Exited (exit_code (-1)))
            else if negb (fuse_set_signal_handlers =? 0) then fuse_session_destroy;; mret (Exited (exit_code (-1)))
            else
              mounted ← fuse_session_mount;
              if negb (mounted =? 0) then fuse_session_destroy;; mret (Exited (exit_code (-1)))
              else
                fg ← lift_am (read_int opts foreground);
                match fuse_daemonize pipe_fails setsid_fails fg with
                | None => mret Gone
                | Some _ =>
                    _ ← lift_am (read_int opts clone_fd);
                    _ ← lift_am (read_int opts max_idle_threads);
                    ret ← fuse_session_loop_mt_31 (i32 config);
                    fuse_session_unmount;;
                    fuse_session_destroy;;
                    mret (Exited (exit_code ret))
                end
        end.
End main.

Section run.
Context {P : Platform} {PS : PlatformSpec P} {S : Server} {F : FileServer S}.

Lemma linux_cmdline n :
  (forall i, (n <= i < n + 6)%nat -> alloc_ok i = true) ->
  fuse_parse_cmdline_30 (FUSE_ARGS_INIT 4 bk_argv) ∅ n = inr ((0, bk_args, old_fields bk_opts ∪ ∅), (n + 6)%nat).
Proof.
  intros Ha. unfold fuse_parse_cmdline_30. by rewrite (am_bind_run _ _ _ _ _ (bk_cmdline n Ha)).
Qed.

(** With the command line of the tests, which does not say [clone_fd], the
    session is mounted and the loop is called with an address for it; its result
    decides the exit code. *)
Lemma linux_main_run loop config pf sf io :
  (forall i, (i < 7)%nat -> alloc_ok i = true) ->
  linux_hello_main loop config pf sf 4 bk_argv (start_world io) =
  (ret ← loop (i32 config);
   fuse_session_unmount;; fuse_session_destroy;; mret (Exited (exit_code ret))) (waiting io).
Proof.
  intros Ha. unfold linux_hello_main.
  mstep by (apply lift_am_run, (linux_cmdline 0); intros; apply Ha; lia). cbn [Z.eqb negb].
  mstep by (by apply (lift_am_run _ _ 0)). cbn [truth Z.eqb negb].
  mstep by (by apply (lift_am_run _ _ 0)). cbn [truth Z.eqb negb].
  mstep by (by apply (lift_am_run _ _ (Some (str "/"%string)))).
  mstep by (apply (new_session_at 6), Ha; lia). cbn [negb]. change (negb (fuse_set_signal_handlers =? 0)) with false. cbv iota.
  mstep by done. cbn [Z.eqb negb].
  mstep by (by apply (lift_am_run _ _ 1)). unfold fuse_daemonize. cbn [Z.eqb].
  mstep by (by apply (lift_am_run _ _ 0)).
  by mstep by (by apply (lift_am_run _ _ UINT_MAX)).
Qed.
End run.
