(* ===== verification/Program.v ===== *)
(** * Client programs

    The test and benchmark programs under [src/apps] are sequences of system
    calls with data of their own between them.  This file has their state, a
    monad in which they read like the source, and the start of the server in a
    thread of its own, which all of them do first.  What they print is left
    out. *)

From S2P Require Import Prelude Wire Platform KernelAbi LinkedList World Monad Buffer Request.
From S2P Require Import Reply Server Handlers Session Posix HelloLl HelloMain.

(** ** What the calls return *)

(** The value a call returns, and [errno] when that is -1. *)
Definition code (r : Z + Z) : Z := match r with inl _ => -1 | inr v => v end.
Definition errno {A} (r : Z + A) : Z := match r with inl e => e | inr _ => 0 end.

(** Length and contents of the buffer after [read]. *)
Definition count (r : Z + bytes) : Z := match r with inl _ => -1 | inr bs => blen bs end.
Definition data (r : Z + bytes) : bytes := match r with inl _ => [] | inr bs => bs end.

(** [memcmp(a, b, n) != 0] *)
Definition memcmp_ne (a b : bytes) (n : nat) : bool := negb (bool_decide (take n a = take n b)).

Definition S_ISDIR (m : Z) : bool := Z.land m S_IFMT =? S_IFDIR.
Definition S_ISREG (m : Z) : bool := Z.land m S_IFMT =? S_IFREG.

(** ** State and monad *)

Section program.
Context {P : Platform} {X : Posix}.

(** The virtual file system, the rest of the system, and the data of the
    program. *)
Record pstate (D : Type) := { t_vfs : vfs; t_world : world; t_data : D }.
Arguments t_vfs {D}.
Arguments t_world {D}.
Arguments t_data {D}.

Context {D : Type}.

(** [None]: the program hangs, faults, or stops at an assertion. *)
Definition PM (A : Type) : Type := pstate D -> option (A * pstate D).
#[export] Instance PM_ret : MRet PM := fun A a s => Some (a, s).
#[export] Instance PM_bind : MBind PM := fun A B k m s =>
  match m s with Some (a, s') => k a s' | None => None end.

Definition after (s : pstate D) (v : vfs) (w : world) : pstate D :=
  {| t_vfs := v; t_world := w; t_data := t_data s |}.

Definition sys {A} (c : syscall vfs A) : PM (Z + A) := fun s =>
  match c (t_vfs s) (t_world s) with Some (r, v, w) => Some (r, after s v w) | None => None end.

(** What the library in the program does between the calls. *)
Definition own {A} (m : M A) : PM A := fun s =>
  match m (t_world s) with Ok a w => Some (a, after s (t_vfs s) w) | Fault _ => None end.

(** The program's own data. *)
Definition get_data {A} (f : D -> A) : PM A := fun s => Some (f (t_data s), s).
Definition mod_data (f : D -> D) : PM unit := fun s =>
  Some (tt, {| t_vfs := t_vfs s; t_world := t_world s; t_data := f (t_data s) |}).

Definition UK_ASSERT (b : bool) : PM unit := fun s => if b then Some (tt, s) else None.

(** An endless loop, or a failed assertion. *)
Definition HANGS {A} : PM A := fun _ => None.

(** [while ((de = readdir(dp)) != NULL)], at most [fuel] turns. *)
Fixpoint readdir_while {A} (fuel : nat) (dp : Z) (body : Z -> bytes -> A -> PM A) (a : A) : PM A :=
  match fuel with
  | O => HANGS
  | Datatypes.S fuel =>
      de ← sys (px_readdir dp);
      match de with
      | inr (Some (d_ino, d_name)) => a ← body d_ino d_name a; readdir_while fuel dp body a
      | _ => mret a
      end
  end.
End program.
Arguments t_vfs {P X D}.
Arguments t_world {P X D}.
Arguments t_data {P X D}.
Arguments PM {P X} D.

(** ** The server's thread *)

Section start.
Context {P : Platform} {S : Server} {X : Posix} {D : Type}.

(** Creating the backend's thread, whose success is given, and yielding until it
    has registered the session: the backend runs up to its loop.  [false]: the
    thread was not created. *)
Definition start_thread (pipe_fails setsid_fails created : bool) : PM D bool :=
  if created then
    own (main_to_loop pipe_fails setsid_fails 4 bk_argv);;
    registered ← own fuse_session_get_registered;
    if (registered : bool) then mret true else HANGS
  else mret false.

Definition mount_fuse : PM D (Z + unit) := sys (px_mount (str "none"%string) SLASH (str "fuse"%string)).
End start.
