(* ===== verification/TestSuite.v ===== *)
(** * The correctness tests

    [src/apps/fuse-correctness-test/main.c] and [src/apps/fuse-test/main.c]: the
    programs that start the example server in a thread, mount it and check what
    the file system says.  They run on a POSIX interface; what they print is
    left out. *)

From S2P Require Import Prelude Wire Platform KernelAbi LinkedList World Monad Buffer Request.
From S2P Require Import Reply Server Handlers Session Posix HelloLl HelloMain Program.

(** ** Counters *)

Record counters := { test_passed : Z; test_failed : Z }.

Section tests.
Context {P : Platform} {S : Server} {X : Posix}.
Notation TM := (PM counters).

(** [printf] and a counter *)
Definition TEST_PASS : TM unit :=
  mod_data (fun c => {| test_passed := u32 (test_passed c + 1); test_failed := test_failed c |}).
Definition TEST_FAIL : TM unit :=
  mod_data (fun c => {| test_passed := test_passed c; test_failed := u32 (test_failed c + 1) |}).

(** ** Helpers *)

Definition check_type (path : bytes) (expected_type : Z) : TM Z :=
  r ← sys (px_stat path);
  match r with
  | inl _ => mret (-1)
  | inr st => if negb (Z.land (st_mode st) S_IFMT =? expected_type) then mret (-1) else mret 0
  end.

Definition check_mode (path : bytes) (expected_perm : Z) : TM Z :=
  r ← sys (px_stat path);
  match r with
  | inl _ => mret (-1)
  | inr st => if negb (Z.land (st_mode st) 511 =? expected_perm) then mret (-1) else mret 0
  end.

Definition check_size (path : bytes) (expected_size : Z) : TM Z :=
  r ← sys (px_stat path);
  match r with
  | inl _ => mret (-1)
  | inr st => if negb (st_size st =? expected_size) then mret (-1) else mret 0
  end.

Definition check_nlink (path : bytes) (expected : Z) : TM Z :=
  r ← sys (px_stat path);
  match r with
  | inl _ => mret (-1)
  | inr st => if negb (st_nlink st =? expected) then mret (-1) else mret 0
  end.

Definition check_ino (path : bytes) (expected : Z) : TM Z :=
  r ← sys (px_stat path);
  match r with
  | inl _ => mret (-1)
  | inr st => if negb (st_ino st =? expected) then mret (-1) else mret 0
  end.

Definition check_data (path expected : bytes) (offset len : Z) : TM Z :=
  fd ← sys (px_open path O_RDONLY);
  let fd := code fd in
  if fd <? 0 then mret (-1)
  else
    pos ← sys (px_lseek fd offset SEEK_SET);
    if code pos =? -1 then sys (px_close fd);; mret (-1)
    else
      n ← sys (px_read fd len);
      sys (px_close fd);;
      if negb (count n =? len) then mret (-1)
      else if memcmp_ne (data n) expected (Z.to_nat len) then mret (-1)
      else mret 0.

Definition check_nonexist (path : bytes) : TM Z :=
  res ← sys (px_stat path);
  match res with
  | inr _ => mret (-1)
  | inl e => if negb (e =? ENOENT) then mret (-1) else mret 0
  end.

(** ** Attributes *)

Definition HELLO : bytes := str "/hello"%string.
Definition NONEXISTENT : bytes := str "/nonexistent"%string.

Definition test_stat_root : TM unit :=
  r ← sys (px_stat SLASH);
  match r with
  | inl _ => TEST_FAIL
  | inr st =>
      if negb (S_ISDIR (st_mode st)) then TEST_FAIL
      else if negb (st_ino st =? 1) then TEST_FAIL
      else if st_nlink st <? 2 then TEST_FAIL
      else TEST_PASS
  end.

Definition test_stat_file : TM unit :=
  r ← sys (px_stat HELLO);
  match r with
  | inl _ => TEST_FAIL
  | inr st =>
      if negb (S_ISREG (st_mode st)) then TEST_FAIL
      else if negb (Z.land (st_mode st) 511 =? 292) then TEST_FAIL
      else if negb (st_ino st =? 2) then TEST_FAIL
      else if negb (st_nlink st =? 1) then TEST_FAIL
      else if negb (st_size st =? 13) then TEST_FAIL
      else TEST_PASS
  end.

Definition test_stat_enoent : TM unit :=
  res ← check_nonexist NONEXISTENT;
  if negb (res =? 0) then TEST_FAIL else TEST_PASS.

Definition test_fstat_file : TM unit :=
  r ← sys (px_stat HELLO);
  match r with
  | inl _ => TEST_FAIL
  | inr st_path =>
      fd ← sys (px_open HELLO O_RDONLY);
      let fd := code fd in
      if fd <? 0 then TEST_FAIL
      else
        r ← sys (px_fstat fd);
        match r with
        | inl _ => TEST_FAIL;; sys (px_close fd);; mret tt
        | inr st_fd =>
            sys (px_close fd);;
            if negb (st_ino st_fd =? st_ino st_path) || negb (st_mode st_fd =? st_mode st_path) ||
               negb (st_size st_fd =? st_size st_path) || negb (st_nlink st_fd =? st_nlink st_path)
            then TEST_FAIL
            else TEST_PASS
        end
  end.

Definition test_open_enoent : TM unit :=
  r ← sys (px_open NONEXISTENT O_RDONLY);
  let fd := code r in
  if 0 <=? fd then TEST_FAIL;; sys (px_close fd);; mret tt
  else if negb (errno r =? ENOENT) then TEST_FAIL
  else TEST_PASS.

Definition test_open_dir : TM unit :=
  fd ← sys (px_open SLASH O_RDONLY);
  let fd := code fd in
  if fd <? 0 then TEST_FAIL
  else
    r ← sys (px_fstat fd);
    match r with
    | inl _ => TEST_FAIL;; sys (px_close fd);; mret tt
    | inr st =>
        sys (px_close fd);;
        if negb (S_ISDIR (st_mode st)) then TEST_FAIL else TEST_PASS
    end.

(** ** Reading *)

Definition test_read_full : TM unit :=
  res ← check_data HELLO hello_str 0 13;
  if negb (res =? 0) then TEST_FAIL else TEST_PASS.

Definition test_read_offset : TM unit :=
  res ← check_data HELLO (str "orld!"%string ++ [10]) 7 6;
  if negb (res =? 0) then TEST_FAIL else TEST_PASS.

Definition test_read_eof : TM unit :=
  fd ← sys (px_open HELLO O_RDONLY);
  let fd := code fd in
  if fd <? 0 then TEST_FAIL
  else
    pos ← sys (px_lseek fd 100 SEEK_SET);
    if code pos =? -1 then TEST_FAIL;; sys (px_close fd);; mret tt
    else
      n ← sys (px_read fd 16);
      sys (px_close fd);;
      if negb (count n =? 0) then TEST_FAIL else TEST_PASS.

Definition test_read_partial : TM unit :=
  res ← check_data HELLO (str "Hello"%string) 0 5;
  if negb (res =? 0) then TEST_FAIL else TEST_PASS.

Definition test_read_sequential : TM unit :=
  fd ← sys (px_open HELLO O_RDONLY);
  let fd := code fd in
  if fd <? 0 then TEST_FAIL
  else
    n1 ← sys (px_read fd 5);
    n2 ← sys (px_read fd 8);
    sys (px_close fd);;
    if negb (count n1 =? 5) then TEST_FAIL
    else if negb (count n2 =? 8) then TEST_FAIL
    else if memcmp_ne (data n1) (str "Hello"%string) 5 then TEST_FAIL
    else if memcmp_ne (data n2) (str " World!"%string ++ [10]) 8 then TEST_FAIL
    else TEST_PASS.

(** ** Directories *)

(** The test on the characters of [de->d_name], which a NUL follows. *)
Definition is_dot_or_dotdot (d_name : bytes) : bool :=
  let c i := nth i (d_name ++ [0]) 0 in
  (c 0%nat =? 46) && ((c 1%nat =? 0) || ((c 1%nat =? 46) && (c 2%nat =? 0))).

Definition test_readdir_contents (fuel : nat) : TM unit :=
  dp ← sys (px_opendir SLASH);
  match dp with
  | inl _ => TEST_FAIL
  | inr dp =>
      '(found_hello, unexpected) ← readdir_while fuel dp (fun _ d_name '(found_hello, unexpected) =>
        if is_dot_or_dotdot d_name then mret (found_hello, unexpected)
        else if bool_decide (d_name = hello_name) then mret (found_hello + 1, unexpected)
        else mret (found_hello, unexpected + 1)) (0, 0);
      sys (px_closedir dp);;
      if found_hello =? 0 then TEST_FAIL
      else if 1 <? found_hello then TEST_FAIL
      else if negb (unexpected =? 0) then TEST_FAIL
      else TEST_PASS
  end.

(** [snprintf(path, sizeof(path), "/%s", de->d_name)] *)
Definition entry_path (d_name : bytes) : bytes := take 63 (SLASH ++ d_name).

Definition test_readdir_ino (fuel : nat) : TM unit :=
  dp ← sys (px_opendir SLASH);
  match dp with
  | inl _ => TEST_FAIL
  | inr dp =>
      err ← readdir_while fuel dp (fun d_ino d_name err =>
        if is_dot_or_dotdot d_name then mret err
        else
          r ← sys (px_stat (entry_path d_name));
          match r with
          | inl _ => mret (err + 1)
          | inr st => if negb (d_ino =? st_ino st) then mret (err + 1) else mret err
          end) 0;
      sys (px_closedir dp);;
      if negb (err =? 0) then TEST_FAIL else TEST_PASS
  end.

(** The loop for [i] from [3 - n] on: [false] when it returns early. *)
Fixpoint open_and_list (fuel n : nat) : TM bool :=
  match n with
  | O => mret true
  | Datatypes.S n =>
      dp ← sys (px_opendir SLASH);
      match dp with
      | inl _ => TEST_FAIL;; mret false
      | inr dp =>
          readdir_while fuel dp (fun _ _ a => mret a) tt;;
          sys (px_closedir dp);;
          open_and_list fuel n
      end
  end.

Definition test_readdir_repeated (fuel : nat) : TM unit :=
  done ← open_and_list fuel 3;
  if (done : bool) then TEST_PASS else mret tt.

(** ** State of descriptors *)

Definition test_two_fds : TM unit :=
  fd1 ← sys (px_open HELLO O_RDONLY);
  let fd1 := code fd1 in
  if fd1 <? 0 then TEST_FAIL
  else
    fd2 ← sys (px_open HELLO O_RDONLY);
    let fd2 := code fd2 in
    if fd2 <? 0 then TEST_FAIL;; sys (px_close fd1);; mret tt
    else
      pos ← sys (px_lseek fd1 7 SEEK_SET);
      if negb (code pos =? 7) then TEST_FAIL;; sys (px_close fd1);; sys (px_close fd2);; mret tt
      else
        n2 ← sys (px_read fd2 5);
        n1 ← sys (px_read fd1 5);
        sys (px_close fd1);;
        sys (px_close fd2);;
        if negb (count n2 =? 5) || memcmp_ne (data n2) (str "Hello"%string) 5 then TEST_FAIL
        else if negb (count n1 =? 5) || memcmp_ne (data n1) (str "orld!"%string) 5 then TEST_FAIL
        else TEST_PASS.

Definition test_stat_after_read : TM unit :=
  fd ← sys (px_open HELLO O_RDONLY);
  let fd := code fd in
  if fd <? 0 then TEST_FAIL
  else
    sys (px_read fd 5);;
    sys (px_close fd);;
    t ← check_type HELLO S_IFREG;
    if negb (t =? 0) then TEST_FAIL
    else
      s ← check_size HELLO 13;
      if negb (s =? 0) then TEST_FAIL
      else
        i ← check_ino HELLO 2;
        if negb (i =? 0) then TEST_FAIL else TEST_PASS.

Definition test_stat_idempotent : TM unit :=
  r0 ← sys (px_stat HELLO);
  match r0 with inl _ => TEST_FAIL | inr st0 =>
  r1 ← sys (px_stat HELLO);
  match r1 with inl _ => TEST_FAIL | inr st1 =>
  r2 ← sys (px_stat HELLO);
  match r2 with inl _ => TEST_FAIL | inr st2 =>
    if negb (st_ino st0 =? st_ino st1) || negb (st_ino st1 =? st_ino st2) ||
       negb (st_size st0 =? st_size st1) || negb (st_size st1 =? st_size st2) ||
       negb (st_mode st0 =? st_mode st1) || negb (st_mode st1 =? st_mode st2)
    then TEST_FAIL
    else TEST_PASS
  end end end.

(** ** Positions *)

Definition test_lseek_seek_set : TM unit :=
  fd ← sys (px_open HELLO O_RDONLY);
  let fd := code fd in
  if fd <? 0 then TEST_FAIL
  else
    pos ← sys (px_lseek fd 6 SEEK_SET);
    if negb (code pos =? 6) then TEST_FAIL;; sys (px_close fd);; mret tt
    else
      n ← sys (px_read fd 6);
      sys (px_close fd);;
      if negb (count n =? 6) || memcmp_ne (data n) (str "World!"%string) 6 then TEST_FAIL
      else TEST_PASS.

Definition test_lseek_seek_cur : TM unit :=
  fd ← sys (px_open HELLO O_RDONLY);
  let fd := code fd in
  if fd <? 0 then TEST_FAIL
  else
    sys (px_read fd 5);;
    pos ← sys (px_lseek fd 3 SEEK_CUR);
    if negb (code pos =? 8) then TEST_FAIL;; sys (px_close fd);; mret tt
    else
      n ← sys (px_read fd 5);
      sys (px_close fd);;
      if negb (count n =? 5) || memcmp_ne (data n) (str "rld!"%string ++ [10]) 5 then TEST_FAIL
      else TEST_PASS.

Definition test_lseek_seek_end : TM unit :=
  fd ← sys (px_open HELLO O_RDONLY);
  let fd := code fd in
  if fd <? 0 then TEST_FAIL
  else
    pos ← sys (px_lseek fd (-5) SEEK_END);
    if negb (code pos =? 8) then TEST_FAIL;; sys (px_close fd);; mret tt
    else
      n ← sys (px_read fd 5);
      sys (px_close fd);;
      if negb (count n =? 5) || memcmp_ne (data n) (str "rld!"%string ++ [10]) 5 then TEST_FAIL
      else TEST_PASS.

Definition test_lseek_seek_end_size : TM unit :=
  fd ← sys (px_open HELLO O_RDONLY);
  let fd := code fd in
  if fd <? 0 then TEST_FAIL
  else
    pos ← sys (px_lseek fd 0 SEEK_END);
    sys (px_close fd);;
    if negb (code pos =? 13) then TEST_FAIL else TEST_PASS.

Definition test_pread_no_offset_change : TM unit :=
  fd ← sys (px_open HELLO O_RDONLY);
  let fd := code fd in
  if fd <? 0 then TEST_FAIL
  else
    sys (px_lseek fd 3 SEEK_SET);;
    n ← sys (px_pread fd 6 7);
    if negb (count n =? 6) || memcmp_ne (data n) (str "orld!"%string ++ [10]) 6 then
      TEST_FAIL;; sys (px_close fd);; mret tt
    else
      cur ← sys (px_lseek fd 0 SEEK_CUR);
      sys (px_close fd);;
      if negb (code cur =? 3) then TEST_FAIL else TEST_PASS.

Definition test_pread_multiple_offsets : TM unit :=
  fd ← sys (px_open HELLO O_RDONLY);
  let fd := code fd in
  if fd <? 0 then TEST_FAIL
  else
    n0 ← sys (px_pread fd 5 0);
    n6 ← sys (px_pread fd 6 6);
    n12 ← sys (px_pread fd 1 12);
    sys (px_close fd);;
    if negb (count n0 =? 5) || memcmp_ne (data n0) (str "Hello"%string) 5 then TEST_FAIL
    else if negb (count n6 =? 6) || memcmp_ne (data n6) (str "World!"%string) 6 then TEST_FAIL
    else if negb (count n12 =? 1) || negb (nth 0 (data n12) 0 =? 10) then TEST_FAIL
    else TEST_PASS.

Definition test_access : TM unit :=
  r ← sys (px_access HELLO F_OK);
  let err := match r with inl _ => 1 | inr _ => 0 end in
  r ← sys (px_access HELLO R_OK);
  let err := match r with inl _ => err + 1 | inr _ => err end in
  r ← sys (px_access SLASH F_OK);
  let err := match r with inl _ => err + 1 | inr _ => err end in
  r ← sys (px_access NONEXISTENT F_OK);
  let err := match r with
             | inr _ => err + 1
             | inl e => if negb (e =? ENOENT) then err + 1 else err
             end in
  if negb (err =? 0) then TEST_FAIL else TEST_PASS.

(** ** The programs *)

(** [UK_ASSERT(bt != NULL)] after the thread is created. *)
Definition start_backend (pipe_fails setsid_fails created : bool) : TM unit :=
  ok ← start_thread pipe_fails setsid_fails created; UK_ASSERT ok.

Definition run_tests (fuel : nat) : TM unit :=
  test_stat_root;; test_stat_file;; test_stat_enoent;; test_fstat_file;; test_open_enoent;;
  test_open_dir;; test_read_full;; test_read_offset;; test_read_eof;; test_read_partial;;
  test_read_sequential;; test_readdir_contents fuel;; test_readdir_ino fuel;;
  test_readdir_repeated fuel;; test_two_fds;; test_stat_after_read;; test_stat_idempotent;;
  test_lseek_seek_set;; test_lseek_seek_cur;; test_lseek_seek_end;; test_lseek_seek_end_size;;
  test_pread_no_offset_change;; test_pread_multiple_offsets;; test_access.

(** [main] of the test suite *)
Definition correctness_main (fuel : nat) (pipe_fails setsid_fails created : bool) : TM Z :=
  start_backend pipe_fails setsid_fails created;;
  ret ← mount_fuse;
  match ret with
  | inl _ => mret 1
  | inr _ =>
      run_tests fuel;;
      failed ← get_data test_failed;
      mret (if 0 <? failed then 1 else 0)
  end.

(** [main] of [src/apps/fuse-test]: every check is an assertion. *)
Definition smoke_main (fuel : nat) (pipe_fails setsid_fails created : bool) : TM Z :=
  start_backend pipe_fails setsid_fails created;;
  ret ← mount_fuse;
  UK_ASSERT (match ret with inl _ => false | inr _ => true end);;
  r ← sys (px_stat SLASH);
  match r with inl _ => HANGS | inr st =>
  UK_ASSERT (st_ino st =? 1);;
  UK_ASSERT (S_ISDIR (st_mode st));;
  r ← sys (px_stat HELLO);
  match r with inl _ => HANGS | inr st =>
  UK_ASSERT (st_ino st =? 2);;
  UK_ASSERT (S_ISREG (st_mode st));;
  UK_ASSERT (st_size st =? 13);;
  r ← sys (px_stat (str "/foo"%string));
  UK_ASSERT (match r with inl _ => true | inr _ => false end);;
  UK_ASSERT (errno r =? ENOENT);;
  fd ← sys (px_open HELLO O_RDONLY);
  let fd := code fd in
  if fd <? 0 then HANGS
  else
    n ← sys (px_read fd 31);
    if count n <? 0 then HANGS
    else
      sys (px_close fd);;
      UK_ASSERT (bool_decide (cstr (data n ++ replicate (32 - length (data n)) 0) = Some hello_str));;
      d ← sys (px_opendir SLASH);
      match d with inl _ => HANGS | inr d =>
      found_hello ← readdir_while fuel d (fun _ d_name found_hello =>
        mret (if bool_decide (d_name = hello_name) then true else found_hello)) false;
      sys (px_closedir d);;
      UK_ASSERT found_hello;;
      mret 0
      end
  end end.
End tests.
