(* ===== verification/ClientRules.v ===== *)
(** * Rules for client programs

    What each system call of a program gives on the file system of a server, as
    a rule of a weakest precondition [wp] over the monad of the programs: one
    rule per call, from the promises of [PosixSpec] and the results of the
    server.  Then the run of a program from the start of the server to the mount. *)

From S2P Require Import Prelude Wire Platform KernelAbi LinkedList World Monad Buffer Request.
From S2P Require Import Reply Server Handlers Interrupt Notify Init Session Queue Dirent Daemon UkFs.
From S2P Require Import System FileOps Boot Posix PosixProps HelloLl HelloMain PosixRef Program.

(** ** Nodes and paths *)

Lemma hello_component : component hello_name.
Proof. split_and!; try done; [by repeat constructor|set_solver]. Qed.

Section nodes.
Context {P : Platform} {PS : PlatformSpec P} {S : Server} {F : FileServer S}.

(** A path and what it names below the root, node 1. *)
Inductive path_node : bytes -> Z + Z -> Prop :=
| path_root : path_node SLASH (inr 1)
| path_entry name : component name -> path_node (SLASH ++ name) (looked_up 1 name).

Lemma entry_node path name t :
  component name -> path = SLASH ++ name -> looked_up 1 name = t -> path_node path t.
Proof. intros Hc -> <-. by constructor. Qed.

Lemma path_simple path t : path_node path t -> simple_path path.
Proof. intros []; [by left|right; eauto]. Qed.

Lemma component_nonempty name : component name -> SLASH ++ name <> SLASH.
Proof. intros [Hne _] E. by destruct name. Qed.

Lemma names_path path t t' : path_node path t -> names_node 1 path t' -> t' = t.
Proof.
  intros Hp Hn. destruct Hn as [|name x Hc Hl].
  - remember SLASH as path eqn:E. destruct Hp as [|name Hc]; [done|]. by destruct (component_nonempty name Hc).
  - remember (SLASH ++ name) as path eqn:E. destruct Hp as [|name' Hc'].
    + by destruct (component_nonempty name Hc).
    + assert (name' = name) as -> by (injection E; congruence). by apply driver_lookup_eq.
Qed.

(** The attributes the server reports for a node. *)
Definition attrs (n : Z) (st : stat) : Prop :=
  exists st0, fs_getattr n = inr st0 /\ st_mode st = st_mode st0 /\ st_ino st = st_ino st0 /\
              st_nlink st = st_nlink st0 /\ st_size st = st_size st0.

Lemma driver_stat_attrs n st0 x r :
  fs_getattr n = inr st0 -> driver_stat n x -> stat_result x r -> exists st, r = inr st /\ attrs n st.
Proof.
  intros H0 ->%driver_stat_eq. unfold getstat_result. rewrite H0. intros (st & -> & Hm & Hi & Hl & Hs).
  exists st. split; [done|]. by exists st0.
Qed.

(** A state in which the driver serves the node is known. *)
Definition known (n : Z) : Prop := exists w f, usable w /\ file_of w n f.

Lemma known_type n st0 : fs_getattr n = inr st0 -> known n -> node_type n (Z.land (st_mode st0) S_IFMT).
Proof.
  intros H0 (w & f & Hu & Hf). destruct (getstat_usable w n f Hu Hf) as (w' & E & _).
  exists (statx_of st0). split; [|done]. exists w, f, w'. split_and!; [done|done|].
  rewrite E. unfold getstat_result. by rewrite H0.
Qed.

Lemma known_entry n name m : component name -> looked_up n name = inr m -> known n -> known m.
Proof.
  intros Hc Hl (w & f & Hu & Hf).
  destruct (lookup_usable w n f name [] Hu Hf Hc) as (res & w' & _ & Hu' & _ & H).
  rewrite Hl in H. destruct H as (c & _ & Hf' & _). by exists w', c.
Qed.

(** A regular file that is served. *)
Definition known_file (n : Z) : Prop :=
  known n /\ exists st o, fs_getattr n = inr st /\ Z.land (st_mode st) S_IFMT = S_IFREG /\ fs_open n 0 = inr o.

Lemma known_file_type n : known_file n -> node_type n S_IFREG.
Proof. intros (Hk & st & o & H0 & <- & _). by apply known_type. Qed.
End nodes.

(** ** Rules for the calls *)

Section rules.
Context {P : Platform} {PS : PlatformSpec P} {S : Server} {F : FileServer S} {X : Posix} {XS : PosixSpec X}.
Context {D : Type}.
Implicit Types (s : pstate D) (fds dirs : gmap Z (Z * Z)) (dt : D).

(** [m] returns, with [Q] of its result and the state. *)
Definition wp {A} (m : PM D A) s (Q : A -> pstate D -> Prop) : Prop := exists a s', m s = Some (a, s') /\ Q a s'.

Lemma wp_ret {A} (a : A) s (Q : A -> pstate D -> Prop) : Q a s -> wp (mret a) s Q.
Proof. intros H. by exists a, s. Qed.

Lemma wp_bind {A B} (m : PM D A) (k : A -> PM D B) s (Q : B -> pstate D -> Prop) :
  wp m s (fun a s' => wp (k a) s' Q) -> wp (m ≫= k) s Q.
Proof.
  intros (a & s1 & E & b & s2 & E2 & HQ). exists b, s2. split; [|done].
  unfold mbind, PM_bind. by rewrite E.
Qed.

Lemma wp_mono {A} (m : PM D A) s (Q Q' : A -> pstate D -> Prop) :
  wp m s Q -> (forall a s', Q a s' -> Q' a s') -> wp m s Q'.
Proof. intros (a & s' & E & H) Hi. exists a, s'. auto. Qed.

(** The file system is in order, with these descriptors and streams, and the
    program has these data. *)
Record at_ s fds dirs dt : Prop := {
  at_ok : px_ok (t_vfs s) (t_world s);
  at_root : px_root (t_vfs s) = 1;
  at_fds : px_fds (t_vfs s) = fds;
  at_dirs : px_dirs (t_vfs s) = dirs;
  at_data : t_data s = dt }.

Lemma wp_sys {A} (c : syscall vfs A) s Q0 (Q : Z + A -> pstate D -> Prop) :
  returns X px_ok px_root c (t_vfs s) (t_world s) Q0 ->
  (forall r v w, px_ok v w -> px_root v = px_root (t_vfs s) -> Q0 r v -> Q r (after s v w)) ->
  wp (sys c) s Q.
Proof.
  intros (r & v & w & E & Hok & Hr & HQ) H. exists r, (after s v w). split; [|by apply H].
  unfold sys. by rewrite E.
Qed.

Lemma after_same s fds dirs dt v w :
  at_ s fds dirs dt -> px_ok v w -> px_root v = px_root (t_vfs s) ->
  same X px_fds px_dirs (t_vfs s) v -> at_ (after s v w) fds dirs dt.
Proof. intros [] ? ? []. split; cbn; congruence. Qed.

Lemma after_moved s fds dirs dt v w fd n pos :
  at_ s fds dirs dt -> px_ok v w -> px_root v = px_root (t_vfs s) ->
  moved X px_fds px_dirs (t_vfs s) v fd n pos -> at_ (after s v w) (<[fd := (n, pos)]> fds) dirs dt.
Proof. intros [] ? ? []. split; cbn; congruence. Qed.

Lemma after_turned s fds dirs dt v w d n cur :
  at_ s fds dirs dt -> px_ok v w -> px_root v = px_root (t_vfs s) ->
  turned X px_fds px_dirs (t_vfs s) v d n cur -> at_ (after s v w) fds (<[d := (n, cur)]> dirs) dt.
Proof. intros [] ? ? []. split; cbn; congruence. Qed.

Lemma wp_stat s fds dirs dt path n st0 (Q : Z + stat -> pstate D -> Prop) :
  at_ s fds dirs dt -> path_node path (inr n) -> fs_getattr n = inr st0 ->
  (forall s' st, at_ s' fds dirs dt -> attrs n st -> Q (inr st) s') ->
  wp (sys (px_stat path)) s Q.
Proof.
  intros Hs Hp H0 HQ. eapply wp_sys; [apply px_stat_ok; [apply Hs|by eapply path_simple]|].
  intros r v w Hok Hr (Hsame & t & Hn & Ht). rewrite (at_root _ _ _ _ Hs) in Hn.
  apply (names_path _ _ _ Hp) in Hn as ->. destruct Ht as (x & Hd & Hx).
  destruct (driver_stat_attrs n st0 x r H0 Hd Hx) as (st & -> & Ha). apply HQ; [|done]. by eapply after_same.
Qed.

Lemma wp_stat_none s fds dirs dt path e (Q : Z + stat -> pstate D -> Prop) :
  at_ s fds dirs dt -> path_node path (inl e) ->
  (forall s', at_ s' fds dirs dt -> Q (inl e) s') ->
  wp (sys (px_stat path)) s Q.
Proof.
  intros Hs Hp HQ. eapply wp_sys; [apply px_stat_ok; [apply Hs|by eapply path_simple]|].
  intros r v w Hok Hr (Hsame & t & Hn & Ht). rewrite (at_root _ _ _ _ Hs) in Hn.
  apply (names_path _ _ _ Hp) in Hn as ->. subst r. apply HQ. by eapply after_same.
Qed.

Lemma wp_open s fds dirs dt path n (Q : Z + Z -> pstate D -> Prop) :
  at_ s fds dirs dt -> path_node path (inr n) -> (size fds + size dirs < 16)%nat ->
  (forall s' fd, at_ s' (<[fd := (n, 0)]> fds) dirs dt -> 0 <= fd -> fds !! fd = None -> Q (inr fd) s') ->
  wp (sys (px_open path O_RDONLY)) s Q.
Proof.
  intros Hs Hp Hsz HQ. pose proof Hs as [Hok0 Hr0 Hf0 Hd0 _].
  eapply wp_sys; [apply px_open_ok; [done|by eapply path_simple|unfold few; by rewrite Hf0, Hd0]|].
  intros r v w Hok Hr (t & Hn & Ht). rewrite Hr0 in Hn.
  apply (names_path _ _ _ Hp) in Hn as ->. destruct Ht as (fd & -> & Hfd & Hnew & Hm).
  apply HQ; [by eapply after_moved|done|by rewrite <- Hf0].
Qed.

Lemma wp_open_none s fds dirs dt path e (Q : Z + Z -> pstate D -> Prop) :
  at_ s fds dirs dt -> path_node path (inl e) -> (size fds + size dirs < 16)%nat ->
  (forall s', at_ s' fds dirs dt -> Q (inl e) s') ->
  wp (sys (px_open path O_RDONLY)) s Q.
Proof.
  intros Hs Hp Hsz HQ. pose proof Hs as [Hok0 Hr0 Hf0 Hd0 _].
  eapply wp_sys; [apply px_open_ok; [done|by eapply path_simple|unfold few; by rewrite Hf0, Hd0]|].
  intros r v w Hok Hr (t & Hn & Ht). rewrite Hr0 in Hn.
  apply (names_path _ _ _ Hp) in Hn as ->. destruct Ht as (-> & Hm). apply HQ. by eapply after_same.
Qed.

Lemma wp_fstat s fds dirs dt fd n pos st0 (Q : Z + stat -> pstate D -> Prop) :
  at_ s fds dirs dt -> fds !! fd = Some (n, pos) -> fs_getattr n = inr st0 ->
  (forall s' st, at_ s' fds dirs dt -> attrs n st -> Q (inr st) s') ->
  wp (sys (px_fstat fd)) s Q.
Proof.
  intros Hs Hfd H0 HQ. pose proof Hs as [Hok0 Hr0 Hf0 Hd0 _].
  eapply wp_sys; [eapply px_fstat_ok; [done|rewrite Hf0; exact Hfd]|].
  intros r v w Hok Hr (Hsame & x & Hd & Hx).
  destruct (driver_stat_attrs n st0 x r H0 Hd Hx) as (st & -> & Ha). apply HQ; [|done]. by eapply after_same.
Qed.

Lemma wp_close s fds dirs dt fd n pos fds' (Q : Z + unit -> pstate D -> Prop) :
  at_ s fds dirs dt -> fds !! fd = Some (n, pos) -> delete fd fds = fds' ->
  (forall s', at_ s' fds' dirs dt -> Q (inr tt) s') ->
  wp (sys (px_close fd)) s Q.
Proof.
  intros Hs Hfd <- HQ. pose proof Hs as [Hok0 Hr0 Hf0 Hd0 Hdt0].
  eapply wp_sys; [eapply px_close_ok; [done|rewrite Hf0; exact Hfd]|].
  intros r v w Hok Hr (-> & Hfds & Hdirs). apply HQ. split; cbn; congruence.
Qed.

(** A descriptor moved by a call that reports its result exactly. *)
Lemma wp_seek_set s fds dirs dt fd n pos off (Q : Z + Z -> pstate D -> Prop) :
  at_ s fds dirs dt -> fds !! fd = Some (n, pos) -> is_u 63 off ->
  (forall s', at_ s' (<[fd := (n, off)]> fds) dirs dt -> Q (inr off) s') ->
  wp (sys (px_lseek fd off SEEK_SET)) s Q.
Proof.
  intros Hs Hfd Ho HQ. pose proof Hs as [Hok0 Hr0 Hf0 Hd0 _].
  eapply wp_sys; [eapply px_seek_set_ok; [done|rewrite Hf0; exact Hfd|done]|].
  intros r v w Hok Hr (-> & Hm). apply HQ. by eapply after_moved.
Qed.

Lemma wp_seek_cur s fds dirs dt fd n pos off (Q : Z + Z -> pstate D -> Prop) :
  at_ s fds dirs dt -> fds !! fd = Some (n, pos) -> is_u 63 (pos + off) ->
  (forall s', at_ s' (<[fd := (n, pos + off)]> fds) dirs dt -> Q (inr (pos + off)) s') ->
  wp (sys (px_lseek fd off SEEK_CUR)) s Q.
Proof.
  intros Hs Hfd Ho HQ. pose proof Hs as [Hok0 Hr0 Hf0 Hd0 _].
  eapply wp_sys; [eapply px_seek_cur_ok; [done|rewrite Hf0; exact Hfd|done]|].
  intros r v w Hok Hr (-> & Hm). apply HQ. by eapply after_moved.
Qed.

(** ** Data and directories *)

Lemma wp_seek_end s fds dirs dt fd n pos off st (Q : Z + Z -> pstate D -> Prop) :
  at_ s fds dirs dt -> fds !! fd = Some (n, pos) -> known_file n -> fs_getattr n = inr st ->
  is_u 63 (st_size st + off) ->
  (forall s', at_ s' (<[fd := (n, st_size st + off)]> fds) dirs dt -> Q (inr (st_size st + off)) s') ->
  wp (sys (px_lseek fd off SEEK_END)) s Q.
Proof.
  intros Hs Hfd Hk Hg Ho HQ. pose proof Hs as [Hok0 Hr0 Hf0 Hd0 _].
  assert (getstat_result n true = (0, Some (statx_of st))) as Eg by (unfold getstat_result; by rewrite Hg).
  eapply wp_sys; [eapply px_seek_end_ok; [done|rewrite Hf0; exact Hfd|by apply known_file_type|]|].
  { intros x Hx%driver_stat_eq. rewrite Eg in Hx. injection Hx as ->. exact Ho. }
  intros r v w Hok Hr (x & Hx%driver_stat_eq & Ht). rewrite Eg in Hx. subst x.
  destruct Ht as (-> & Hm). apply HQ. by eapply after_moved.
Qed.

Lemma file_read_eq n size off x bs :
  known_file n -> driver_read n size off x -> 0 < size < 2 ^ 31 -> is_u 63 off ->
  (forall fh, fs_read n fh off size = inr bs) -> x = inr bs.
Proof. intros (_ & _ & o & _ & _ & Ho) Hd Hs Hoff Hr. by eapply driver_read_eq. Qed.

Lemma wp_read s fds dirs dt fd n pos count bs (Q : Z + bytes -> pstate D -> Prop) :
  at_ s fds dirs dt -> fds !! fd = Some (n, pos) -> known_file n -> 0 < count < 2 ^ 31 -> is_u 63 pos ->
  (forall fh, fs_read n fh pos count = inr bs) ->
  (forall s', at_ s' (<[fd := (n, pos + blen bs)]> fds) dirs dt -> Q (inr bs) s') ->
  wp (sys (px_read fd count)) s Q.
Proof.
  intros Hs Hfd Hk Hc Hp Hrd HQ. pose proof Hs as [Hok0 Hr0 Hf0 Hd0 _].
  eapply wp_sys; [eapply px_read_ok; [done|rewrite Hf0; exact Hfd|by apply known_file_type|done|done]|].
  intros r v w Hok Hr (Hx & Hm). apply (file_read_eq n count pos r bs) in Hx as ->; [|done..].
  apply HQ. by eapply after_moved.
Qed.

Lemma wp_pread s fds dirs dt fd n pos count off bs (Q : Z + bytes -> pstate D -> Prop) :
  at_ s fds dirs dt -> fds !! fd = Some (n, pos) -> known_file n -> 0 < count < 2 ^ 31 -> is_u 63 off ->
  (forall fh, fs_read n fh off count = inr bs) ->
  (forall s', at_ s' fds dirs dt -> Q (inr bs) s') ->
  wp (sys (px_pread fd count off)) s Q.
Proof.
  intros Hs Hfd Hk Hc Ho Hrd HQ. pose proof Hs as [Hok0 Hr0 Hf0 Hd0 _].
  eapply wp_sys; [eapply px_pread_ok; [done|rewrite Hf0; exact Hfd|by apply known_file_type|done|done]|].
  intros r v w Hok Hr (Hx & Hm). apply (file_read_eq n count off r bs) in Hx as ->; [|done..].
  apply HQ. by eapply after_same.
Qed.

Lemma wp_opendir s fds dirs dt st (Q : Z + Z -> pstate D -> Prop) :
  at_ s fds dirs dt -> known 1 -> fs_getattr 1 = inr st -> Z.land (st_mode st) S_IFMT = S_IFDIR ->
  (size fds + size dirs < 16)%nat ->
  (forall s' d, at_ s' fds (<[d := (1, 0)]> dirs) dt -> dirs !! d = None -> Q (inr d) s') ->
  wp (sys (px_opendir SLASH)) s Q.
Proof.
  intros Hs Hk Hg Hty Hsz HQ. pose proof Hs as [Hok0 Hr0 Hf0 Hd0 _].
  assert (path_node SLASH (inr 1)) as Hp by constructor.
  eapply wp_sys; [apply px_opendir_ok; [done|by left| |unfold few; by rewrite Hf0, Hd0]|].
  { intros n Hn. rewrite Hr0 in Hn. apply (names_path _ _ _ Hp) in Hn as [= ->]. rewrite <- Hty. by apply known_type. }
  intros r v w Hok Hr (t & Hn & Ht). rewrite Hr0 in Hn. apply (names_path _ _ _ Hp) in Hn as ->.
  destruct Ht as (d & -> & Hnew & Hm). apply HQ; [by eapply after_turned|by rewrite <- Hd0].
Qed.

(** One entry of the root. *)
Lemma wp_readdir s fds dirs dt d cur bs fd name (Q : Z + option (Z * bytes) -> pstate D -> Prop) :
  at_ s fds dirs dt -> dirs !! d = Some (1, cur) -> is_u 63 cur -> fs_cursor 1 cur = true ->
  fs_readdir 1 0 cur LISTDIR_SIZE = inr bs -> first_dirent bs = Some (fd, name) -> blen name <= 255 -> nonul name ->
  (forall s', at_ s' fds (<[d := (1, dirent_off fd)]> dirs) dt -> Q (inr (Some (dirent_ino fd, name))) s') ->
  wp (sys (px_readdir d)) s Q.
Proof.
  intros Hs Hd Hcu Hc Hw Hfd Hb Hn HQ. pose proof Hs as [Hok0 Hr0 Hf0 Hd0 _].
  eapply wp_sys; [eapply px_readdir_ok; [done|rewrite Hd0; exact Hd|done|done]|].
  intros r v w Hok Hr (x & Hx & Ht). apply driver_listdir_eq in Hx; [|done|done].
  apply (listed_entry _ _ bs fd name) in Hx as ->; [|done..].
  destruct Ht as (name' & Hname & -> & Hm). rewrite record_name in Hname by (done || unfold blen in *; lia).
  injection Hname as <-. apply HQ. by eapply after_turned.
Qed.

Lemma wp_readdir_end s fds dirs dt d cur (Q : Z + option (Z * bytes) -> pstate D -> Prop) :
  at_ s fds dirs dt -> dirs !! d = Some (1, cur) -> is_u 63 cur -> fs_cursor 1 cur = true ->
  fs_readdir 1 0 cur LISTDIR_SIZE = inr [] ->
  (forall s', at_ s' fds dirs dt -> Q (inr None) s') ->
  wp (sys (px_readdir d)) s Q.
Proof.
  intros Hs Hd Hcu Hc He HQ. pose proof Hs as [Hok0 Hr0 Hf0 Hd0 _].
  eapply wp_sys; [eapply px_readdir_ok; [done|rewrite Hd0; exact Hd|done|done]|].
  intros r v w Hok Hr (x & Hx & Ht). apply driver_listdir_eq in Hx; [|done|done].
  apply (listed_end 1 cur) in Hx as ->; [|done]. destruct Ht as (-> & Hm). apply HQ. by eapply after_same.
Qed.

Lemma wp_closedir s fds dirs dt d n cur dirs' (Q : Z + unit -> pstate D -> Prop) :
  at_ s fds dirs dt -> dirs !! d = Some (n, cur) -> delete d dirs = dirs' ->
  (forall s', at_ s' fds dirs' dt -> Q (inr tt) s') ->
  wp (sys (px_closedir d)) s Q.
Proof.
  intros Hs Hd <- HQ. pose proof Hs as [Hok0 Hr0 Hf0 Hd0 Hdt0].
  eapply wp_sys; [eapply px_closedir_ok; [done|rewrite Hd0; exact Hd]|].
  intros r v w Hok Hr (-> & Hdirs & Hfds). apply HQ. split; cbn; congruence.
Qed.

Lemma wp_access s fds dirs dt path mode n st0 (Q : Z + unit -> pstate D -> Prop) :
  at_ s fds dirs dt -> path_node path (inr n) -> fs_getattr n = inr st0 ->
  mode = F_OK \/ mode = R_OK ->
  (forall s', at_ s' fds dirs dt -> Q (inr tt) s') ->
  wp (sys (px_access path mode)) s Q.
Proof.
  intros Hs Hp H0 Hmo HQ. eapply wp_sys; [apply px_access_ok; [apply Hs|by eapply path_simple|done]|].
  intros r v w Hok Hr (Hsame & t & Hn & Ht). rewrite (at_root _ _ _ _ Hs) in Hn.
  apply (names_path _ _ _ Hp) in Hn as ->. destruct Ht as (x & ->%driver_stat_eq & Hx).
  unfold getstat_result in Hx.
  rewrite H0 in Hx. cbn [snd] in Hx. subst r. apply HQ. by eapply after_same.
Qed.

Lemma wp_access_none s fds dirs dt path mode e (Q : Z + unit -> pstate D -> Prop) :
  at_ s fds dirs dt -> path_node path (inl e) -> mode = F_OK \/ mode = R_OK ->
  (forall s', at_ s' fds dirs dt -> Q (inl e) s') ->
  wp (sys (px_access path mode)) s Q.
Proof.
  intros Hs Hp Hmo HQ. eapply wp_sys; [apply px_access_ok; [apply Hs|by eapply path_simple|done]|].
  intros r v w Hok Hr (Hsame & t & Hn & Ht). rewrite (at_root _ _ _ _ Hs) in Hn.
  apply (names_path _ _ _ Hp) in Hn as ->. subst r. apply HQ. by eapply after_same.
Qed.

Lemma wp_mod_data s fds dirs dt f (Q : unit -> pstate D -> Prop) :
  at_ s fds dirs dt -> (forall s', at_ s' fds dirs (f dt) -> Q tt s') -> wp (mod_data f) s Q.
Proof. intros [? ? ? ? <-] HQ. eexists _, _. split; [reflexivity|]. by apply HQ. Qed.

Lemma wp_get_data s fds dirs dt {A} (f : D -> A) (Q : A -> pstate D -> Prop) :
  at_ s fds dirs dt -> Q (f dt) s -> wp (get_data f) s Q.
Proof. intros Hs HQ. rewrite <- (at_data _ _ _ _ Hs) in HQ. by exists (f (t_data s)), s. Qed.

Lemma wp_assert b s (Q : unit -> pstate D -> Prop) : b = true -> Q tt s -> wp (UK_ASSERT b) s Q.
Proof. intros -> HQ. by exists tt, s. Qed.

Lemma at_eq s fds dirs fds' dirs' dt : at_ s fds dirs dt -> fds = fds' -> dirs = dirs' -> at_ s fds' dirs' dt.
Proof. by intros H <- <-. Qed.

(** ** Reading a whole directory *)

(** The entries of the root from a cursor on. *)
Inductive listing : Z -> list (Z * bytes) -> Prop :=
| listing_end cur :
    is_u 63 cur -> fs_cursor 1 cur = true -> fs_readdir 1 0 cur LISTDIR_SIZE = inr [] -> listing cur []
| listing_entry cur bs fd name l :
    is_u 63 cur -> fs_cursor 1 cur = true -> fs_readdir 1 0 cur LISTDIR_SIZE = inr bs ->
    first_dirent bs = Some (fd, name) -> blen name <= 255 -> nonul name ->
    listing (dirent_off fd) l -> listing cur ((dirent_ino fd, name) :: l).

(** A loop whose body does what [g] says goes through the entries. *)
Lemma wp_while {A} (g : A -> Z * bytes -> A) (body : Z -> bytes -> A -> PM D A) l fuel a s fds dirs dt d cur
    (Q : A -> pstate D -> Prop) :
  listing cur l -> (length l < fuel)%nat -> at_ s fds dirs dt -> dirs !! d = Some (1, cur) ->
  (forall ino name a s' dirs', (ino, name) ∈ l -> at_ s' fds dirs' dt ->
    wp (body ino name a) s' (fun a' s'' => a' = g a (ino, name) /\ at_ s'' fds dirs' dt)) ->
  (forall s' cur', at_ s' fds (<[d := (1, cur')]> dirs) dt -> Q (foldl g a l) s') ->
  wp (readdir_while fuel d body a) s Q.
Proof.
  intros Hl. revert fuel a s dirs. induction Hl as [cur Hu Hc He|cur bs fd name l Hu Hc He Hfd Hb Hn Hl IH];
    intros fuel a s dirs Hf Hs Hd Hbody HQ; (destruct fuel as [|fuel]; [cbn in Hf; lia|]); cbn [readdir_while].
  - apply wp_bind. eapply wp_readdir_end; [exact Hs|exact Hd|done..|].
    intros s' Hs'. apply wp_ret, (HQ s' cur). by rewrite insert_id.
  - apply wp_bind. eapply wp_readdir; [exact Hs|exact Hd|done..|]. intros s1 Hs1. cbv beta iota.
    apply wp_bind. eapply wp_mono; [eapply Hbody; [by left|exact Hs1]|]. intros a1 s2 [-> Hs2].
    eapply IH; [cbn in Hf; lia|exact Hs2|by rewrite lookup_insert_eq|intros; apply Hbody; [by right|done]|].
    intros s3 cur' Hs3. cbn [foldl]. apply (HQ s3 cur'). by rewrite insert_insert_eq in Hs3.
Qed.
End rules.

(** ** From the start of the server to the mount *)

Section mounted.
Context {P : Platform} {PS : PlatformSpec P} {S : Server} {F : FileServer S} {X : Posix} {XS : PosixSpec X}.
Context {D : Type}.

Definition started (dt : D) (io : iostate) : pstate D :=
  {| t_vfs := vfs_start; t_world := start_world io; t_data := dt |}.

Lemma usable_booted io : memory_ok (booted_at 6 io) -> usable (booted_at 6 io).
Proof. intros Hm. split_and!; [apply booted_at_ok|apply booted_files_at|done]. Qed.

Lemma root_known io : memory_ok (booted_at 6 io) -> known 1.
Proof. intros Hm. exists (booted_at 6 io), ROOT_FILE. split; [by apply usable_booted|]. by exists root_file. Qed.

Lemma wp_start_thread pf sf dt io (Q : bool -> pstate D -> Prop) :
  backend_resources -> Q true (after (started dt io) vfs_start (waiting io)) ->
  wp (start_thread pf sf true) (started dt io) Q.
Proof.
  intros Hr HQ. exists true, (after (started dt io) vfs_start (waiting io)). split; [|done].
  unfold start_thread, own, mbind, PM_bind. cbn [t_world started].
  rewrite (main_run pf sf io) by (intros; apply Hr; lia). reflexivity.
Qed.

Lemma wp_mount dt io (Q : Z + unit -> pstate D -> Prop) :
  backend_resources -> memory_ok (booted_at 6 io) ->
  (forall s, at_ s ∅ ∅ dt -> Q (inr tt) s) ->
  wp mount_fuse (after (started dt io) vfs_start (waiting io)) Q.
Proof.
  intros Hr Hm HQ.
  destruct (px_mount_ok (str "none"%string) (waiting io) ROOT_FILE (booted_at 6 io) 1) as (v & w & E & Hok & Hn & Hf & Hd).
  { by apply volume_opens. } { by apply usable_booted. } { by exists root_file. }
  eexists _, _. split; [unfold mount_fuse, sys; cbn [t_vfs t_world after started]; by rewrite E|]. apply HQ. by split.
Qed.
End mounted.

(** ** Automation

    A program is run by [step]s: the rule for its first call, whose side
    conditions are decided, or its first test.  What names which node and what
    may be read is looked up in the database [client]. *)

Create HintDb client.
#[export] Hint Resolve path_root : client.

(** What is known of the attributes of nodes, for the server at hand. *)
Ltac know_attrs := idtac.

(** Rewrite with what is known of attributes and descriptors. *)
Ltac rewrite_known :=
  cbn [code errno count data fst snd];
  repeat match goal with
  | H : st_mode ?x = _ |- context[st_mode ?x] => rewrite H
  | H : st_ino ?x = _ |- context[st_ino ?x] => rewrite H
  | H : st_nlink ?x = _ |- context[st_nlink ?x] => rewrite H
  | H : st_size ?x = _ |- context[st_size ?x] => rewrite H
  | H : 0 <= ?fd |- context[?fd <? 0] => rewrite (proj2 (Z.ltb_ge fd 0) H)
  | H : 0 <= ?fd |- context[0 <=? ?fd] => rewrite (proj2 (Z.leb_le 0 fd) H)
  end.

(** Decide the test at the head of the program. *)
Ltac decide_test :=
  rewrite_known;
  lazymatch goal with
  | |- wp (if ?b then _ else _) _ _ =>
      let v := eval vm_compute in b in
      match v with true => idtac | false => idtac end; change b with v; cbv iota
  | _ => idtac
  end.

Ltac decide_value := rewrite_known; vm_compute; reflexivity.

(** Sizes, lookups and deletions of the few descriptors of a test. *)
Ltac few_goal := by rewrite ?insert_empty, ?map_size_singleton, ?map_size_empty; lia.
Ltac lookup_goal := by simplify_map_eq.
Ltac delete_goal :=
  apply map_eq; intros ?i;
  repeat match goal with |- context[<[?d := _]> _] =>
    match goal with i : Z |- _ => lazymatch goal with H : i <> d |- _ => fail | _ => destruct (decide (i = d)); [subst i|] end end end;
  by simplify_map_eq.
Ltac bound_goal := split; vm_compute; congruence.
Ltac attr_goal := first [reflexivity|solve [eauto with client]].
Ltac value_goal := intros; first [vm_compute; reflexivity|solve [eauto with client]].

(** The state after a call, in normal form. *)
Ltac enter := intros; know_attrs;
  repeat match goal with H : <[_ := _]> _ !! _ = None |- _ => apply lookup_insert_None in H as [_ ?] end; rewrite ?insert_insert_eq, ?delete_insert_eq, ?delete_empty in *; cbv beta iota zeta.

Ltac head_of t := lazymatch t with ?f _ => head_of f | _ => t end.

(** One step of a program: the rule of its first call, or its first test. *)
Ltac step :=
  lazymatch goal with
  | |- wp (sys (px_stat _) ≫= _) _ _ => apply wp_bind;
      first [ eapply wp_stat; [eassumption|solve [eauto with client]|attr_goal|enter]
            | eapply wp_stat_none; [eassumption|solve [eauto with client]|enter] ]
  | |- wp (sys (px_open _ _) ≫= _) _ _ => apply wp_bind;
      first [ eapply wp_open; [eassumption|solve [eauto with client]|few_goal|enter]
            | eapply wp_open_none; [eassumption|solve [eauto with client]|few_goal|enter] ]
  | |- wp (sys (px_fstat _) ≫= _) _ _ => apply wp_bind;
      eapply wp_fstat; [eassumption|lookup_goal|attr_goal|enter]
  | |- wp (sys (px_close _) ≫= _) _ _ => apply wp_bind;
      eapply wp_close; [eassumption|lookup_goal|reflexivity|enter]
  | |- wp (sys (px_lseek _ _ SEEK_SET) ≫= _) _ _ => apply wp_bind;
      eapply wp_seek_set; [eassumption|lookup_goal|bound_goal|enter]
  | |- wp (sys (px_lseek _ _ SEEK_CUR) ≫= _) _ _ => apply wp_bind;
      eapply wp_seek_cur; [eassumption|lookup_goal|bound_goal|enter]
  | |- wp (sys (px_lseek _ _ SEEK_END) ≫= _) _ _ => apply wp_bind;
      eapply wp_seek_end; [eassumption|lookup_goal|solve [eauto with client]|reflexivity|bound_goal|enter]
  | |- wp (sys (px_read _ _) ≫= _) _ _ => apply wp_bind;
      eapply wp_read; [eassumption|lookup_goal|solve [eauto with client]|bound_goal|bound_goal|value_goal|enter]
  | |- wp (sys (px_pread _ _ _) ≫= _) _ _ => apply wp_bind;
      eapply wp_pread; [eassumption|lookup_goal|solve [eauto with client]|bound_goal|bound_goal|value_goal|enter]
  | |- wp (sys (px_opendir _) ≫= _) _ _ => apply wp_bind;
      eapply wp_opendir; [eassumption|solve [eauto with client]|attr_goal|attr_goal|few_goal|enter]
  | |- wp (sys (px_closedir _) ≫= _) _ _ => apply wp_bind;
      eapply wp_closedir; [eassumption|lookup_goal|reflexivity|enter]
  | |- wp (sys (px_access _ _) ≫= _) _ _ => apply wp_bind;
      first [ eapply wp_access; [eassumption|solve [eauto with client]|reflexivity|(by left) || (by right)|enter]
            | eapply wp_access_none; [eassumption|solve [eauto with client]|(by left) || (by right)|enter] ]
  | |- wp (UK_ASSERT _ ≫= _) _ _ => apply wp_bind, wp_assert; [decide_value|cbv beta iota]
  | |- wp (readdir_while _ _ _ _ ≫= _) _ _ => fail
  | |- wp (mod_data _ ≫= _) _ _ => apply wp_bind; eapply wp_mod_data; [eassumption|enter]
  | |- wp (mod_data _) _ _ => eapply wp_mod_data; [eassumption|enter]
  | |- wp ((_ ≫= _) ≫= _) _ _ => apply wp_bind
  | |- wp (mret _ ≫= _) _ _ => apply wp_bind
  | |- wp (mret _) _ _ => apply wp_ret; cbv beta iota zeta
  | |- wp (if _ then _ else _) _ _ => decide_test
  | |- wp (?t ≫= _) _ _ => apply wp_bind; let h := head_of t in unfold h; cbv beta
  | |- wp ?t _ _ => let h := head_of t in unfold h; cbv beta
  end.

