(* ===== verification/TestRules.v ===== *)
(** * The example server as programs see it

    Paths, attributes and entries of the example server's three nodes, in the
    form the rules of ClientRules ask for. *)

From S2P Require Import Prelude Wire Platform KernelAbi LinkedList World Monad Buffer Request.
From S2P Require Import Reply Server Handlers Init Session Dirent Daemon UkFs.
From S2P Require Import System FileOps Boot Posix PosixProps HelloLl HelloSpec PosixRef HelloMain Program TestSuite ClientRules.

Section hello_files.
Context {P : Platform} {PS : PlatformSpec P}.

Lemma path_hello : path_node HELLO (inr 2).
Proof. by apply (entry_node _ hello_name); [apply hello_component|..]. Qed.

Lemma path_none : path_node NONEXISTENT (inl ENOENT).
Proof. apply (entry_node _ (str "nonexistent"%string)); [|done..]. split_and!; try done; [by repeat constructor|set_solver]. Qed.

Lemma path_foo : path_node (str "/foo"%string) (inl ENOENT).
Proof. apply (entry_node _ (str "foo"%string)); [|done..]. split_and!; try done; [by repeat constructor|set_solver]. Qed.

Lemma attrs_root st : attrs 1 st -> st_mode st = 16877 /\ st_ino st = 1 /\ st_nlink st = 2.
Proof. intros (st0 & [= <-] & -> & -> & -> & _). done. Qed.

Lemma attrs_file st : attrs 2 st -> st_mode st = 33060 /\ st_ino st = 2 /\ st_nlink st = 1 /\ st_size st = 13.
Proof. intros (st0 & [= <-] & -> & -> & -> & ->). done. Qed.

Lemma known_hello : known 1 -> known_file 2.
Proof.
  intros Hk. split; [apply (known_entry 1 hello_name); [apply hello_component|done|done]|]. by eexists _, _.
Qed.

Definition root_names : list (Z * bytes) := [(1, str "."); (1, str ".."); (2, hello_name)]%string.

Lemma root_listing : listing 0 root_names.
Proof.
  eapply (listing_entry 0 _ (dirent_head (str "."%string) (ino_stat 1) 32));
    [done|done|done|by vm_compute|done|by repeat constructor|].
  eapply (listing_entry 32 _ (dirent_head (str ".."%string) (ino_stat 1) 64));
    [done|done|done|by vm_compute|done|by repeat constructor|].
  eapply (listing_entry 64 _ (dirent_head hello_name (ino_stat 2) 96));
    [done|done|done|by vm_compute|done|by repeat constructor|].
  by apply (listing_end 96).
Qed.

#[export] Instance hello_plain : PlainServer.
Proof.
  split.
  - intros n st H Ht. cbn [fs_getattr hello_file_server] in H. unfold hello_getattr_result, hello_stat in H.
    destruct (Z.eqb_spec n 1) as [->|_]; [injection H as <-; by vm_compute in Ht|].
    destruct (Z.eqb_spec n 2) as [->|_]; [|done]. by eexists _; split; [|intros; eexists].
  - intros n cur Hc. cbn [fs_readdir hello_file_server]. unfold hello_readdir_result.
    cbn [fs_cursor hello_file_server] in Hc. unfold hello_cursor in Hc.
    destruct (Z.eqb_spec n 1) as [->|_]; [|done]. cbn [negb orb] in *.
    repeat (apply orb_true_iff in Hc as [Hc|Hc]); apply Z.eqb_eq in Hc; subst cur; [right..|left].
    + by eexists (dirent_head (str "."%string) (ino_stat 1) 32), _; split; [vm_compute|split; [|repeat constructor]].
    + by eexists (dirent_head (str ".."%string) (ino_stat 1) 64), _; split; [vm_compute|split; [|repeat constructor]].
    + by eexists (dirent_head hello_name (ino_stat 2) 96), _; split; [vm_compute|split; [|repeat constructor]].
    + by vm_compute.
Qed.

(** A loop over the root directory. *)
Lemma wp_root {X : Posix} {XS : PosixSpec X} {D A} (g : A -> Z * bytes -> A) (body : Z -> bytes -> A -> PM D A)
    fuel a s fds dirs dt d (Q : A -> pstate D -> Prop) :
  (4 <= fuel)%nat -> at_ s fds dirs dt -> dirs !! d = Some (1, 0) ->
  (forall ino name a s' dirs', (ino, name) ∈ root_names -> at_ s' fds dirs' dt ->
    wp (body ino name a) s' (fun a' s'' => a' = g a (ino, name) /\ at_ s'' fds dirs' dt)) ->
  (forall s' cur', at_ s' fds (<[d := (1, cur')]> dirs) dt -> Q (foldl g a root_names) s') ->
  wp (readdir_while fuel d body a) s Q.
Proof. intros Hf Hs Hd. by eapply wp_while; [exact root_listing|..]. Qed.
End hello_files.

#[export] Hint Resolve path_hello path_none path_foo known_hello : client.

Ltac know_attrs ::=
  repeat match goal with
  | H : attrs 1 _ |- _ => apply attrs_root in H as (?Hmo & ?Hin & ?Hnl)
  | H : attrs 2 _ |- _ => apply attrs_file in H as (?Hmo & ?Hin & ?Hnl & ?Hsz)
  end.
