(* ===== verification/TestProps.v ===== *)
(** * The tests pass

    Each of the 24 tests of [src/apps/fuse-correctness-test/main.c] on the
    example server, then the two test programs as a whole. *)

From S2P Require Import Prelude Wire Platform KernelAbi LinkedList World Monad Buffer Request.
From S2P Require Import Reply Server Handlers Init Session Dirent Daemon UkFs System FileOps Boot.
From S2P Require Import Posix PosixProps Examples HelloLl HelloSpec PosixRef HelloMain Program TestSuite ClientRules TestRules.

(** [p] passed and no failed tests. *)
Notation counts p := {| test_passed := p; test_failed := 0 |}.

Section tests.
Context {P : Platform} {PS : PlatformSpec P} {X : Posix} {XS : PosixSpec X}.
Context (K : known 1).

(** From a state with nothing open, the test returns to one, and counts as
    passed. *)
Definition passes (t : PM counters unit) : Prop := forall s p,
  at_ s ∅ ∅ (counts p) -> wp t s (fun _ s' => at_ s' ∅ ∅ (counts (u32 (p + 1)))).

Lemma pass_run s fds dirs p :
  at_ s fds dirs (counts p) -> fds = ∅ -> dirs = ∅ -> wp TEST_PASS s (fun _ s' => at_ s' ∅ ∅ (counts (u32 (p + 1)))).
Proof. intros Hs -> ->. by eapply wp_mod_data; [exact Hs|]. Qed.

Ltac finish := eapply pass_run; [eassumption|delete_goal..].
Ltac run := repeat lazymatch goal with |- wp TEST_PASS _ _ => finish | _ => step end.

Lemma stat_root_passes : passes test_stat_root.
Proof. intros s p Hs. unfold test_stat_root. run. Qed.

Lemma stat_file_passes : passes test_stat_file.
Proof. intros s p Hs. run. Qed.

Lemma stat_enoent_passes : passes test_stat_enoent.
Proof. intros s p Hs. run. Qed.

Lemma fstat_file_passes : passes test_fstat_file.
Proof. intros s p Hs. run. Qed.

Lemma open_enoent_passes : passes test_open_enoent.
Proof. intros s p Hs. run. Qed.

Lemma open_dir_passes : passes test_open_dir.
Proof. intros s p Hs. run. Qed.

Lemma read_full_passes : passes test_read_full.
Proof. intros s p Hs. run. Qed.

Lemma read_offset_passes : passes test_read_offset.
Proof. intros s p Hs. run. Qed.

Lemma read_eof_passes : passes test_read_eof.
Proof. intros s p Hs. run. Qed.

Lemma read_partial_passes : passes test_read_partial.
Proof. intros s p Hs. run. Qed.

Lemma read_sequential_passes : passes test_read_sequential.
Proof. intros s p Hs. run. Qed.

Lemma two_fds_passes : passes test_two_fds.
Proof. intros s p Hs. run. Qed.

Lemma stat_after_read_passes : passes test_stat_after_read.
Proof. intros s p Hs. run. Qed.

Lemma stat_idempotent_passes : passes test_stat_idempotent.
Proof. intros s p Hs. run. Qed.

Lemma lseek_seek_set_passes : passes test_lseek_seek_set.
Proof. intros s p Hs. run. Qed.

Lemma lseek_seek_cur_passes : passes test_lseek_seek_cur.
Proof. intros s p Hs. run. Qed.

Lemma lseek_seek_end_passes : passes test_lseek_seek_end.
Proof. intros s p Hs. run. Qed.

Lemma lseek_seek_end_size_passes : passes test_lseek_seek_end_size.
Proof. intros s p Hs. run. Qed.

Lemma pread_no_offset_change_passes : passes test_pread_no_offset_change.
Proof. intros s p Hs. run. Qed.

Lemma pread_multiple_offsets_passes : passes test_pread_multiple_offsets.
Proof. intros s p Hs. run. Qed.

Lemma access_passes : passes test_access.
Proof. intros s p Hs. run. Qed.

(** ** Directories *)

Definition count_hello (a : Z * Z) (e : Z * bytes) : Z * Z :=
  if is_dot_or_dotdot (snd e) then a
  else if bool_decide (snd e = hello_name) then (fst a + 1, snd a) else (fst a, snd a + 1).

Lemma readdir_contents_passes fuel : (4 <= fuel)%nat -> passes (test_readdir_contents fuel).
Proof.
  intros Hf s p Hs. do 2 step.
  apply wp_bind. eapply (wp_root count_hello); [done|eassumption|lookup_goal| |].
  { intros ino name [a b] s1 dirs1 _ Hs1. unfold count_hello. cbn [fst snd]. repeat case_match; by apply wp_ret. }
  enter. change (foldl count_hello (0, 0) root_names) with (1, 0). cbv beta iota. run.
Qed.

Lemma readdir_ino_passes fuel : (4 <= fuel)%nat -> passes (test_readdir_ino fuel).
Proof.
  intros Hf s p Hs. do 2 step.
  apply wp_bind. eapply (wp_root (fun a _ => a)); [done|eassumption|lookup_goal| |].
  { intros ino name a s1 dirs1 Hi Hs1. unfold root_names in Hi. set_unfold in Hi.
    destruct Hi as [Hi|[Hi|[Hi|[]]]]; injection Hi as -> ->; [by apply wp_ret..|].
    change (is_dot_or_dotdot hello_name) with false. change (entry_path hello_name) with HELLO. repeat step. done. }
  enter. change (foldl (fun a _ => a) 0 root_names) with 0. run.
Qed.

Lemma open_and_list_runs fuel n s p : (4 <= fuel)%nat -> at_ s ∅ ∅ (counts p) ->
  wp (open_and_list fuel n) s (fun b s' => b = true /\ at_ s' ∅ ∅ (counts p)).
Proof.
  intros Hf. revert s. induction n as [|n IH]; intros s Hs; cbn [open_and_list]; [by apply wp_ret|].
  step. apply wp_bind. eapply (wp_root (fun a _ => a)); [done|eassumption|lookup_goal| |].
  { intros. by apply wp_ret. }
  enter. step. by apply IH.
Qed.

Lemma readdir_repeated_passes fuel : (4 <= fuel)%nat -> passes (test_readdir_repeated fuel).
Proof.
  intros Hf s p Hs. unfold test_readdir_repeated. apply wp_bind.
  eapply wp_mono; [by apply open_and_list_runs|]. intros b s1 [-> Hs1]. run.
Qed.
End tests.

#[export] Hint Resolve stat_root_passes stat_file_passes stat_enoent_passes fstat_file_passes open_enoent_passes open_dir_passes read_full_passes read_offset_passes read_eof_passes read_partial_passes read_sequential_passes two_fds_passes stat_after_read_passes stat_idempotent_passes lseek_seek_set_passes lseek_seek_cur_passes lseek_seek_end_passes lseek_seek_end_size_passes pread_no_offset_change_passes pread_multiple_offsets_passes access_passes readdir_contents_passes readdir_ino_passes readdir_repeated_passes : client.

(** ** The programs *)

Section programs.
Context {P : Platform} {PS : PlatformSpec P} {X : Posix} {XS : PosixSpec X}.
Implicit Types (s : pstate counters).

Lemma wp_test s p t {B} (k : unit -> PM counters B) (Q : B -> pstate counters -> Prop) :
  passes t -> at_ s ∅ ∅ (counts p) -> (forall s', at_ s' ∅ ∅ (counts (u32 (p + 1))) -> wp (k tt) s' Q) -> wp (t ≫= k) s Q.
Proof. intros Ht Hs HQ. apply wp_bind. eapply wp_mono; [by eapply Ht|]. intros [] s' Hs'. by apply HQ. Qed.

(** The suite, after a mount that worked. *)
Lemma run_tests_passes fuel s : known 1 -> (4 <= fuel)%nat -> at_ s ∅ ∅ (counts 0) ->
  wp (run_tests fuel) s (fun _ s' => at_ s' ∅ ∅ (counts 24)).
Proof.
  intros K Hf Hs. unfold run_tests.
  do 23 (eapply wp_test; [auto with client|eassumption|clear Hs; intros s1 Hs; clear s; rename s1 into s]).
  exact (access_passes s _ Hs).
Qed.

(** Both programs start the server and mount it. *)
Lemma mounted_runs pf sf io {B} (k : Z + unit -> PM counters B) (Q : B -> pstate counters -> Prop) :
  backend_resources -> memory_ok (booted_at 6 io) ->
  (forall s, at_ s ∅ ∅ (counts 0) -> wp (k (inr tt)) s Q) ->
  wp (start_backend pf sf true;; ret ← mount_fuse; k ret) (started (counts 0) io) Q.
Proof.
  intros Hr Hm HQ. apply wp_bind, wp_bind, wp_start_thread; [done|]. apply wp_assert; [done|].
  apply wp_bind. by apply wp_mount.
Qed.

Lemma suite_passes fuel pf sf io :
  backend_resources -> memory_ok (booted_at 6 io) -> (4 <= fuel)%nat ->
  exists s, correctness_main fuel pf sf true (started (counts 0) io) = Some (0, s) /\ t_data s = counts 24.
Proof.
  intros Hr Hm Hf. enough (wp (correctness_main fuel pf sf true) (started (counts 0) io)
    (fun r s => r = 0 /\ t_data s = counts 24)) as (r & s & E & -> & H) by eauto.
  apply mounted_runs; [done..|]. intros s Hs. apply wp_bind. eapply wp_mono; [apply run_tests_passes; [by eapply root_known|done..]|].
  intros [] s1 Hs1. apply wp_bind. eapply wp_get_data; [exact Hs1|]. apply wp_ret. split; [done|apply Hs1].
Qed.

(** None of the assertions of the smoke test fails. *)
Lemma smoke_passes fuel pf sf io :
  backend_resources -> memory_ok (booted_at 6 io) -> (4 <= fuel)%nat ->
  exists s, smoke_main fuel pf sf true (started (counts 0) io) = Some (0, s).
Proof.
  intros Hr Hm Hf. enough (wp (smoke_main fuel pf sf true) (started (counts 0) io) (fun r s => r = 0)) as (r & s & E & ->) by eauto.
  apply mounted_runs; [done..|]. intros s Hs. pose proof (root_known io Hm) as K.
  repeat step. apply wp_bind. eapply (wp_root (fun b e => if bool_decide (snd e = hello_name) then true else b));
    [done|eassumption|lookup_goal| |].
  { intros. by apply wp_ret. }
  enter. by repeat step.
Qed.

(** C12. The test programs of the repository succeed on the example server: from a
    fresh program with memory, the correctness suite starts the server, mounts
    it, runs all its tests and returns 0, with every one of the 24 counted as
    passed and none as failed, and the smoke test returns 0 with no assertion
    failed, whatever system call layer keeps the promises of POSIX. *)
Theorem tests_pass fuel pf sf io :
  backend_resources -> memory_ok (booted_at 6 io) -> (4 <= fuel)%nat ->
  (exists s, correctness_main fuel pf sf true (started (counts 0) io) = Some (0, s) /\ t_data s = counts 24) /\
  (exists s, smoke_main fuel pf sf true (started (counts 0) io) = Some (0, s)).
Proof. intros. split; [by apply suite_passes|by apply smoke_passes]. Qed.
End programs.

Lemma tests_pass_witness : exists s s',
  @correctness_main good hello_server ref_posix 4 false false true (@started good ref_posix counters (counts 0) []) = Some (0, s) /\
  t_data s = counts 24 /\
  @smoke_main good hello_server ref_posix 4 false false true (@started good ref_posix counters (counts 0) []) = Some (0, s').
Proof.
  destruct (@tests_pass good good_spec ref_posix ref_posix_spec 4 false false []) as [(s & E & Hp) (s' & E')];
    [done|by intros ?|lia|].
  exists s, s'. split; [exact E|]. split; [exact Hp|exact E'].
Defined.
