(* ===== verification/Ideal.v ===== *)
(** * An ideal file system

    What a program should see: one directory of read-only files, given by their
    attributes, contents and entries, and a step relation for the system calls
    with their answers.  [Presents] says that a server presents such a file
    system; the example server and the benchmark server do. *)

From S2P Require Import Prelude Wire Platform KernelAbi LinkedList World Monad Buffer Request.
From S2P Require Import Reply Server Handlers Init Session Dirent Daemon UkFs System FileOps Boot.
From S2P Require Import Posix PosixProps HelloLl HelloSpec PerfLl PerfSpec HelloMain Program ClientRules.

(** ** The file system *)

Record flat := {
  fl_node : bytes -> option Z;              (* the node of a name *)
  fl_attr : Z -> option stat;
  fl_data : Z -> option bytes;              (* contents of a regular file *)
  fl_list : list (Z * bytes) }.             (* the directory: inode numbers and names *)

(** Open descriptors with node and position; open streams with what is left. *)
Record istate := { i_fds : gmap Z (Z * Z); i_dirs : gmap Z (list (Z * bytes)) }.

Definition i_start : istate := {| i_fds := ∅; i_dirs := ∅ |}.
Definition i_set_fds m i : istate := {| i_fds := m; i_dirs := i_dirs i |}.
Definition i_set_dirs m i : istate := {| i_fds := i_fds i; i_dirs := m |}.

Inductive call :=
| C_stat (path : bytes) | C_access (path : bytes) | C_open (path : bytes)
| C_fstat (fd : Z) | C_lseek (fd off whence : Z) | C_read (fd count : Z) | C_pread (fd count off : Z)
| C_close (fd : Z) | C_opendir | C_readdir (d : Z) | C_closedir (d : Z).

Inductive answer :=
| A_stat (r : Z + stat) | A_num (r : Z + Z) | A_data (r : Z + bytes) | A_unit (r : Z + unit)
| A_entry (r : Z + option (Z * bytes)).

Section ideal.
Context (T : flat).

(** The node of a path, or an error. *)
Inductive resolves : bytes -> Z + Z -> Prop :=
| resolves_root : resolves SLASH (inr 1)
| resolves_entry name n : component name -> fl_node T name = Some n -> resolves (SLASH ++ name) (inr n)
| resolves_none name : component name -> fl_node T name = None -> resolves (SLASH ++ name) (inl ENOENT).

(** [stat] reports the attributes it is about. *)
Definition same_attr (st st0 : stat) : Prop :=
  st_mode st = st_mode st0 /\ st_ino st = st_ino st0 /\ st_nlink st = st_nlink st0 /\ st_size st = st_size st0.

(** Where [lseek] goes. *)
Definition seek_base n pos whence : option Z :=
  if whence =? SEEK_SET then Some 0
  else if whence =? SEEK_CUR then Some pos
  else if whence =? SEEK_END then st_size <$> fl_attr T n
  else None.

(** The calls a program may make: on simple paths and open descriptors, to
    positions that fit, reading regular files, with few files open. *)
Inductive allowed (i : istate) : call -> Prop :=
| may_stat path t : resolves path t -> allowed i (C_stat path)
| may_access path t : resolves path t -> allowed i (C_access path)
| may_open path t : resolves path t -> (size (i_fds i) + size (i_dirs i) < 16)%nat -> allowed i (C_open path)
| may_fstat fd x : i_fds i !! fd = Some x -> allowed i (C_fstat fd)
| may_lseek fd off whence n pos base :
    i_fds i !! fd = Some (n, pos) -> seek_base n pos whence = Some base -> is_u 63 (base + off) ->
    (whence = SEEK_END -> is_Some (fl_data T n)) -> allowed i (C_lseek fd off whence)
| may_read fd count n pos :
    i_fds i !! fd = Some (n, pos) -> is_Some (fl_data T n) -> 0 < count < 2 ^ 31 -> is_u 63 pos ->
    allowed i (C_read fd count)
| may_pread fd count off n pos :
    i_fds i !! fd = Some (n, pos) -> is_Some (fl_data T n) -> 0 < count < 2 ^ 31 -> is_u 63 off ->
    allowed i (C_pread fd count off)
| may_close fd x : i_fds i !! fd = Some x -> allowed i (C_close fd)
| may_opendir : (size (i_fds i) + size (i_dirs i) < 16)%nat -> allowed i C_opendir
| may_readdir d l : i_dirs i !! d = Some l -> allowed i (C_readdir d)
| may_closedir d l : i_dirs i !! d = Some l -> allowed i (C_closedir d).

(** What the call answers, and the state after it.  Only the number of a new
    descriptor or stream is left open. *)
Inductive istep (i : istate) : call -> answer -> istate -> Prop :=
| do_stat path n st st0 : resolves path (inr n) -> fl_attr T n = Some st0 -> same_attr st st0 ->
    istep i (C_stat path) (A_stat (inr st)) i
| do_stat_none path e : resolves path (inl e) -> istep i (C_stat path) (A_stat (inl e)) i
| do_access path n : resolves path (inr n) -> istep i (C_access path) (A_unit (inr tt)) i
| do_access_none path e : resolves path (inl e) -> istep i (C_access path) (A_unit (inl e)) i
| do_open path n fd : resolves path (inr n) -> 0 <= fd -> i_fds i !! fd = None ->
    istep i (C_open path) (A_num (inr fd)) (i_set_fds (<[fd := (n, 0)]> (i_fds i)) i)
| do_open_none path e : resolves path (inl e) -> istep i (C_open path) (A_num (inl e)) i
| do_fstat fd n pos st st0 : i_fds i !! fd = Some (n, pos) -> fl_attr T n = Some st0 -> same_attr st st0 ->
    istep i (C_fstat fd) (A_stat (inr st)) i
| do_lseek fd off whence n pos base : i_fds i !! fd = Some (n, pos) -> seek_base n pos whence = Some base ->
    istep i (C_lseek fd off whence) (A_num (inr (base + off)))
      (i_set_fds (<[fd := (n, base + off)]> (i_fds i)) i)
| do_read fd count n pos data : i_fds i !! fd = Some (n, pos) -> fl_data T n = Some data ->
    let bs := window data pos count in
    istep i (C_read fd count) (A_data (inr bs)) (i_set_fds (<[fd := (n, pos + blen bs)]> (i_fds i)) i)
| do_pread fd count off n pos data : i_fds i !! fd = Some (n, pos) -> fl_data T n = Some data ->
    istep i (C_pread fd count off) (A_data (inr (window data off count))) i
| do_close fd x : i_fds i !! fd = Some x ->
    istep i (C_close fd) (A_unit (inr tt)) (i_set_fds (delete fd (i_fds i)) i)
| do_opendir d : i_dirs i !! d = None ->
    istep i C_opendir (A_num (inr d)) (i_set_dirs (<[d := fl_list T]> (i_dirs i)) i)
| do_readdir d x l : i_dirs i !! d = Some (x :: l) ->
    istep i (C_readdir d) (A_entry (inr (Some x))) (i_set_dirs (<[d := l]> (i_dirs i)) i)
| do_readdir_end d : i_dirs i !! d = Some [] -> istep i (C_readdir d) (A_entry (inr None)) i
| do_closedir d l : i_dirs i !! d = Some l ->
    istep i (C_closedir d) (A_unit (inr tt)) (i_set_dirs (delete d (i_dirs i)) i).

(** Runs: the calls with their answers, the latest first. *)
Inductive irun : list (call * answer) -> istate -> Prop :=
| irun_start : irun [] i_start
| irun_step h i c a i' : irun h i -> allowed i c -> istep i c a i' -> irun ((c, a) :: h) i'.
End ideal.

(** ** Servers that present one *)

Class Presents {P : Platform} {PS : PlatformSpec P} {S : Server} {F : FileServer S} (T : flat) := {
  pr_node : forall name, component name ->
    looked_up 1 name = match fl_node T name with Some n => inr n | None => inl ENOENT end;
  pr_there : forall name n, fl_node T name = Some n -> is_Some (fl_attr T n);
  pr_attr : forall n st, fl_attr T n = Some st -> fs_getattr n = inr st;
  pr_root : exists st, fl_attr T 1 = Some st /\ Z.land (st_mode st) S_IFMT = S_IFDIR;
  pr_data : forall n data, fl_data T n = Some data -> exists st o,
    fl_attr T n = Some st /\ Z.land (st_mode st) S_IFMT = S_IFREG /\ fs_open n 0 = inr o /\
    forall fh off size, 0 <= off -> 0 < size -> fs_read n fh off size = inr (window data off size);
  pr_list : listing 0 (fl_list T) }.

(** ** Programs *)

Section client.
Context {P : Platform} {S : Server} {X : Posix} {D : Type}.

Definition do_call (c : call) : PM D answer :=
  match c with
  | C_stat path => r ← sys (px_stat path); mret (A_stat r)
  | C_access path => r ← sys (px_access path R_OK); mret (A_unit r)
  | C_open path => r ← sys (px_open path O_RDONLY); mret (A_num r)
  | C_fstat fd => r ← sys (px_fstat fd); mret (A_stat r)
  | C_lseek fd off whence => r ← sys (px_lseek fd off whence); mret (A_num r)
  | C_read fd count => r ← sys (px_read fd count); mret (A_data r)
  | C_pread fd count off => r ← sys (px_pread fd count off); mret (A_data r)
  | C_close fd => r ← sys (px_close fd); mret (A_unit r)
  | C_opendir => r ← sys (px_opendir SLASH); mret (A_num r)
  | C_readdir d => r ← sys (px_readdir d); mret (A_entry r)
  | C_closedir d => r ← sys (px_closedir d); mret (A_unit r)
  end.

(** A program decides on its next call from what it has seen. *)
Fixpoint run_client (client : list (call * answer) -> option call) (n : nat) (h : list (call * answer)) :
    PM D (list (call * answer)) :=
  match n, client h with
  | Datatypes.S n, Some c => a ← do_call c; run_client client n ((c, a) :: h)
  | _, _ => mret h
  end.

(** The program on a freshly mounted file system. *)
Definition client_main client n (pipe_fails setsid_fails created : bool) : PM D (list (call * answer)) :=
  ok ← start_thread pipe_fails setsid_fails created;
  UK_ASSERT ok;;
  ret ← mount_fuse;
  match ret with inl _ => HANGS | inr _ => run_client client n [] end.
End client.

(** The calls are the program's. *)
Inductive made (client : list (call * answer) -> option call) : list (call * answer) -> Prop :=
| made_none : made client []
| made_call h c a : made client h -> client h = Some c -> made client ((c, a) :: h).
