(* ===== verification/Bench.v ===== *)
(** * The benchmarks

    [src/apps/fuse-perf-test/main.c]: the program that measures the operations
    of the benchmark server in cycles of the time stamp counter.  What it prints
    is its result, so the reports are kept; the counter and the decisions of
    [malloc] come from outside. *)

From stdpp Require Import sorting.
From S2P Require Import Prelude Wire Platform KernelAbi LinkedList World Monad Buffer Request.
From S2P Require Import Reply Server Handlers Session Posix HelloLl HelloMain Program TestSuite.

Definition NUM_ITERATIONS : Z := 100000.

Definition BIGFILE : bytes := str "/bigfile"%string.

(** ** What is printed *)

Record workload := {
  wl_samples : Z; wl_avg : Z; wl_min : Z; wl_p50 : Z; wl_p90 : Z; wl_p95 : Z; wl_p99 : Z;
  wl_p999 : Z; wl_max : Z }.

Record throughput := { tp_mb : Z; tp_cycles : Z; tp_cycles_per_byte : Z; tp_mb_per_sec : Z }.

(** ** Statistics *)

Definition cmp_u64 (arg1 arg2 : Z) : Z :=
  if arg1 <? arg2 then -1 else if arg2 <? arg1 then 1 else 0.

(** The order in which [qsort] leaves its array. *)
Definition cmp_le (a b : Z) : Prop := cmp_u64 a b <= 0.
#[export] Instance cmp_le_dec : RelDecision cmp_le := fun a b => Z_le_dec _ _.

Definition qsort (times : list Z) (count : nat) : list Z :=
  merge_sort cmp_le (take count times) ++ drop count times.

Definition sum_u64 (times : list Z) : Z := foldl (fun sum t => u64 (sum + t)) 0 times.

Definition stats (times : list Z) (count : Z) : workload :=
  let at_ i := nth (Z.to_nat i) times 0 in
  {| wl_samples := count;
     wl_avg := sum_u64 (take (Z.to_nat count) times) / count;
     wl_min := at_ 0;
     wl_p50 := at_ (count / 2);
     wl_p90 := at_ ((count * 90) / 100);
     wl_p95 := at_ ((count * 95) / 100);
     wl_p99 := at_ ((count * 99) / 100);
     wl_p999 := at_ ((count * 999) / 1000);
     wl_max := at_ (count - 1) |}.

(** ** The program *)

Record bench_data := {
  b_reads : nat;                          (* readings of the counter so far *)
  samples : list Z;
  b_workloads : list workload;
  b_throughputs : list throughput }.

Definition bench_start : bench_data :=
  {| b_reads := 0; samples := replicate (Z.to_nat NUM_ITERATIONS) 0; b_workloads := []; b_throughputs := [] |}.

Definition b_tick (b : bench_data) : bench_data :=
  {| b_reads := Datatypes.S (b_reads b); samples := samples b; b_workloads := b_workloads b;
     b_throughputs := b_throughputs b |}.
Definition b_set_samples (l : list Z) (b : bench_data) : bench_data :=
  {| b_reads := b_reads b; samples := l; b_workloads := b_workloads b; b_throughputs := b_throughputs b |}.
Definition b_report (x : workload) (b : bench_data) : bench_data :=
  {| b_reads := b_reads b; samples := samples b; b_workloads := b_workloads b ++ [x];
     b_throughputs := b_throughputs b |}.
Definition b_transfer (x : throughput) (b : bench_data) : bench_data :=
  {| b_reads := b_reads b; samples := samples b; b_workloads := b_workloads b;
     b_throughputs := b_throughputs b ++ [x] |}.

(** [for (int i = from; i < from + n; i++)] *)
Fixpoint for_from {P : Platform} {X : Posix} {D} (i n : nat) (body : nat -> PM D unit) : PM D unit :=
  match n with O => mret tt | Datatypes.S n => body i;; for_from (Datatypes.S i) n body end.
Definition for_ {P : Platform} {X : Posix} {D} (n : Z) (body : nat -> PM D unit) : PM D unit :=
  for_from 0 (Z.to_nat n) body.

Section bench.
Context {P : Platform} {S : Server} {X : Posix}.
(** The time stamp counter at each reading, and whether [malloc] has so many
    bytes. *)
Context (tsc : nat -> Z) (malloc_ok : Z -> bool).
Notation BM := (PM bench_data).

Definition rdtsc : BM Z :=
  n ← get_data b_reads; mod_data b_tick;; mret (tsc n).

Definition print_stats (count : Z) : BM unit :=
  mod_data (fun b => b_set_samples (qsort (samples b) (Z.to_nat count)) b);;
  mod_data (fun b => b_report (stats (samples b) count) b).

(** The body of the measuring loops: [op] between two readings. *)
Definition sample (i : nat) (op : BM unit) : BM unit :=
  t0 ← rdtsc; op;; t1 ← rdtsc;
  mod_data (fun b => b_set_samples (<[i := u64 (t1 - t0)]> (samples b)) b).

Definition bench_stat : BM unit :=
  for_ 100 (fun _ => sys (px_stat HELLO);; mret tt);;
  for_ NUM_ITERATIONS (fun i => sample i (sys (px_stat HELLO);; mret tt));;
  print_stats NUM_ITERATIONS.

Definition bench_stat_root : BM unit :=
  for_ 100 (fun _ => sys (px_stat SLASH);; mret tt);;
  for_ NUM_ITERATIONS (fun i => sample i (sys (px_stat SLASH);; mret tt));;
  print_stats NUM_ITERATIONS.

Definition bench_pread : BM unit :=
  fd ← sys (px_open HELLO O_RDONLY);
  let fd := code fd in
  if fd <? 0 then mret tt
  else
    for_ 100 (fun _ => sys (px_pread fd 13 0);; mret tt);;
    for_ NUM_ITERATIONS (fun i => sample i (sys (px_pread fd 13 0);; mret tt));;
    sys (px_close fd);;
    print_stats NUM_ITERATIONS.

Definition bench_seq_read : BM unit :=
  fd ← sys (px_open HELLO O_RDONLY);
  let fd := code fd in
  if fd <? 0 then mret tt
  else
    for_ 100 (fun _ =>
      sys (px_lseek fd 0 SEEK_SET);; sys (px_read fd 5);; sys (px_read fd 8);; mret tt);;
    for_ NUM_ITERATIONS (fun i =>
      sys (px_lseek fd 0 SEEK_SET);;
      sample i (sys (px_read fd 5);; sys (px_read fd 8);; mret tt));;
    sys (px_close fd);;
    print_stats NUM_ITERATIONS.

Definition bench_open_read_close : BM unit :=
  let count := 1000 in
  for_ count (fun i => sample i (
    fd ← sys (px_open HELLO O_RDONLY);
    let fd := code fd in
    if 0 <=? fd then sys (px_pread fd 13 0);; sys (px_close fd);; mret tt else mret tt));;
  print_stats count.

(** One traversal of the root. *)
Definition list_root (fuel : nat) : BM unit :=
  dp ← sys (px_opendir SLASH);
  match dp with
  | inl _ => mret tt
  | inr dp => readdir_while fuel dp (fun _ _ a => mret a) tt;; sys (px_closedir dp);; mret tt
  end.

Definition bench_readdir (fuel : nat) : BM unit :=
  let count := NUM_ITERATIONS / 10 in
  for_ 20 (fun _ => list_root fuel);;
  for_ count (fun i => sample i (list_root fuel));;
  print_stats count.

(** [while (bytes_read < target_bytes)], at most [fuel] turns. *)
Fixpoint read_while (fuel : nat) (fd block_size target_bytes bytes_read : Z) : BM Z :=
  match fuel with
  | O => HANGS
  | Datatypes.S fuel =>
      if bytes_read <? target_bytes then
        n ← sys (px_read fd block_size);
        if count n <=? 0 then mret bytes_read
        else read_while fuel fd block_size target_bytes (u64 (bytes_read + count n))
      else mret bytes_read
  end.

Definition transfer (total_cycles bytes_read : Z) : throughput :=
  let mb := u32 (bytes_read / (1024 * 1024)) in
  let cycles_per_byte := if 0 <? bytes_read then total_cycles / bytes_read else 0 in
  let ms_approx := total_cycles / 3000000 in
  let ms_approx := if ms_approx =? 0 then 1 else ms_approx in
  {| tp_mb := mb; tp_cycles := total_cycles; tp_cycles_per_byte := cycles_per_byte;
     tp_mb_per_sec := u64 (mb * 1000) / ms_approx |}.

Definition bench_throughput (fuel : nat) (block_size : Z) : BM unit :=
  fd ← sys (px_open BIGFILE O_RDONLY);
  let fd := code fd in
  if fd <? 0 then mret tt
  else if negb (malloc_ok block_size) then sys (px_close fd);; mret tt
  else
    t0 ← rdtsc;
    bytes_read ← read_while fuel fd block_size (50 * 1024 * 1024) 0;
    t1 ← rdtsc;
    sys (px_close fd);;
    mod_data (b_transfer (transfer (u64 (t1 - t0)) bytes_read)).

(** What [main] does once the file system is mounted. *)
Definition run_benchmarks (fuel : nat) : BM Z :=
  bench_stat_root;;
  bench_stat;;
  bench_pread;;
  bench_seq_read;;
  bench_open_read_close;;
  bench_readdir fuel;;
  bench_throughput fuel (4 * 1024);;
  bench_throughput fuel (64 * 1024);;
  bench_throughput fuel (1024 * 1024);;
  mret 0.

(** [main] *)
Definition bench_main (fuel : nat) (pipe_fails setsid_fails created : bool) : BM Z :=
  ok ← start_thread pipe_fails setsid_fails created;
  if negb (ok : bool) then mret 1
  else
    ret ← mount_fuse;
    match ret with
    | inl _ => mret 1
    | inr _ => run_benchmarks fuel
    end.
End bench.
