(* ===== verification/BenchRules.v ===== *)
(** * Rules for the benchmarks

    The statistics as functions on lists; the benchmark server as programs see
    it; and the loops that measure. *)

From stdpp Require Import sorting.
From S2P Require Import Prelude Wire Platform KernelAbi LinkedList World Monad Buffer Request.
From S2P Require Import Reply Server Handlers Init Session Dirent Daemon UkFs System FileOps Boot.
From S2P Require Import Posix PosixProps HelloLl HelloSpec PosixRef HelloMain Program TestSuite ClientRules.
From S2P Require Import PerfLl PerfSpec Ideal Bench.

(** ** Statistics *)

Lemma cmp_le_le a b : cmp_le a b <-> a <= b.
Proof. unfold cmp_le, cmp_u64. repeat case_match; zify_bool; lia. Qed.

#[export] Instance cmp_le_trans : Transitive cmp_le.
Proof. intros a b c. rewrite !cmp_le_le. lia. Qed.
#[export] Instance cmp_le_total : Total cmp_le.
Proof. intros a b. rewrite !cmp_le_le. lia. Qed.

Lemma sorted_nth l i j : StronglySorted cmp_le l -> (i <= j < length l)%nat -> nth i l 0 <= nth j l 0.
Proof.
  intros Hl. revert i j. induction Hl as [|x l Hl IH Hx]; intros i j Hij; cbn in Hij; [lia|].
  destruct i as [|i], j as [|j]; cbn; try lia.
  - rewrite Forall_forall in Hx. apply cmp_le_le, Hx. apply list_elem_of_In, nth_In. lia.
  - apply IH. lia.
Qed.

Section qsort.
Context (times : list Z) (n : nat) (Hn : (n <= length times)%nat).

Lemma qsort_prefix : take n (qsort times n) = merge_sort cmp_le (take n times).
Proof.
  unfold qsort. apply take_app_length'. rewrite (Permutation_length (merge_sort_Permutation _ _)), length_take. lia.
Qed.

Lemma qsort_length : length (qsort times n) = length times.
Proof.
  unfold qsort. rewrite length_app, (Permutation_length (merge_sort_Permutation _ _)), length_take, length_drop. lia.
Qed.

Lemma nth_prefix i (l : list Z) : (i < n)%nat -> nth i l 0 = nth i (take n l) 0.
Proof. intros Hi. by rewrite nth_firstn, (proj2 (Nat.ltb_lt _ _) Hi). Qed.

Lemma qsort_ordered i j : (i <= j < n)%nat -> nth i (qsort times n) 0 <= nth j (qsort times n) 0.
Proof.
  intros Hij. rewrite (nth_prefix i), (nth_prefix j) by lia. rewrite qsort_prefix.
  apply sorted_nth; [apply StronglySorted_merge_sort; apply _|].
  rewrite (Permutation_length (merge_sort_Permutation _ _)), length_take. lia.
Qed.

(** Sorting permutes the samples. *)
Lemma qsort_forall (F : Z -> Prop) : Forall F (take n times) -> Forall F (take n (qsort times n)).
Proof. rewrite qsort_prefix. by rewrite merge_sort_Permutation. Qed.

Lemma nth_forall (F : Z -> Prop) i : Forall F (take n times) -> (i < n)%nat -> F (nth i (qsort times n) 0).
Proof.
  intros HF Hi. rewrite nth_prefix by done. apply qsort_forall in HF. rewrite Forall_forall in HF.
  apply HF, list_elem_of_In, nth_In. rewrite length_take, qsort_length. lia.
Qed.
End qsort.

(** The figures of a report in their order, and the mean between the extremes
    when the sum fits into its word. *)
Definition ordered (w : workload) : Prop :=
  wl_min w <= wl_p50 w <= wl_p90 w /\ wl_p90 w <= wl_p95 w <= wl_p99 w /\ wl_p99 w <= wl_p999 w <= wl_max w /\
  (wl_max w * wl_samples w < 2 ^ 64 -> wl_min w <= wl_avg w <= wl_max w).

Definition figures (w : workload) : list Z :=
  [wl_min w; wl_p50 w; wl_p90 w; wl_p95 w; wl_p99 w; wl_p999 w; wl_max w].

Lemma sum_bounds lo hi l acc :
  0 <= acc -> 0 <= lo -> Forall (fun x => lo <= x <= hi) l -> acc + hi * blen l < 2 ^ 64 ->
  acc + lo * blen l <= foldl (fun sum t => u64 (sum + t)) acc l <= acc + hi * blen l.
Proof.
  intros Ha Hlo Hl. revert acc Ha. induction Hl as [|x l Hx Hl IH]; intros acc Ha Hb; [unfold blen; cbn [length foldl]; lia|].
  unfold blen in *. cbn [length foldl] in *. rewrite Nat2Z.inj_succ in *.
  assert (u64 (acc + x) = acc + x) as -> by (apply wrapu_id; unfold is_u; nia).
  specialize (IH (acc + x)). nia.
Qed.

Lemma mean_bounds lo hi l :
  l <> [] -> 0 <= lo -> Forall (fun x => lo <= x <= hi) l -> hi * blen l < 2 ^ 64 ->
  lo <= sum_u64 l / blen l <= hi.
Proof.
  intros Hne Hlo Hl Hb. assert (0 < blen l) by (destruct l; [done|unfold blen; cbn; lia]).
  pose proof (sum_bounds lo hi l 0) as Hs. unfold sum_u64.
  split; [apply Z.div_le_lower_bound|apply Z.div_le_upper_bound]; try done; specialize (Hs ltac:(lia) Hlo Hl ltac:(lia)); lia.
Qed.

Section report.
Context (times : list Z) (n : Z) (Hn : 0 < n <= blen times).
Let w := stats (qsort times (Z.to_nat n)) n.

Lemma index_range i : 0 <= i < n -> (Z.to_nat i < Z.to_nat n)%nat.
Proof. lia. Qed.

Lemma prefix_fits : (Z.to_nat n <= length times)%nat.
Proof. unfold blen in Hn. lia. Qed.

Ltac index := Z.to_euclidean_division_equations; lia.

Lemma report_figures (F : Z -> Prop) : Forall F (take (Z.to_nat n) times) -> Forall F (figures w).
Proof.
  intros HF. unfold figures, w, stats. cbn [wl_min wl_p50 wl_p90 wl_p95 wl_p99 wl_p999 wl_max].
  repeat constructor; (apply nth_forall; [apply prefix_fits|done|apply index_range]); index.
Qed.

Lemma report_ordered : Forall (Z.le 0) (take (Z.to_nat n) times) -> ordered w.
Proof.
  intros H0. pose proof prefix_fits as Hp.
  assert (forall i j, 0 <= i <= j -> j < n ->
    nth (Z.to_nat i) (qsort times (Z.to_nat n)) 0 <= nth (Z.to_nat j) (qsort times (Z.to_nat n)) 0) as Ho.
  { intros i j Hij Hj. apply qsort_ordered; [done|lia]. }
  unfold ordered, w, stats. cbn [wl_min wl_p50 wl_p90 wl_p95 wl_p99 wl_p999 wl_max wl_samples wl_avg].
  split_and!; try (apply Ho; index). intros Hmax.
  set (l := take (Z.to_nat n) (qsort times (Z.to_nat n))) in *.
  assert (blen l = n) as Hl by (unfold blen, l; rewrite length_take, qsort_length by done; lia).
  replace (sum_u64 l / n) with (sum_u64 l / blen l) by (by rewrite Hl). apply mean_bounds.
  - intros E. rewrite E in Hl. unfold blen in Hl. cbn [length] in Hl. lia.
  - by apply (nth_forall times _ Hp (Z.le 0)); [|lia].
  - apply Forall_forall. intros x (i & Hi)%list_elem_of_lookup. pose proof (lookup_lt_Some _ _ _ Hi) as Hlt.
    apply (nth_lookup_Some _ _ 0) in Hi. rewrite <- Hi. unfold l. rewrite <- nth_prefix by (unfold blen in Hl; lia).
    rewrite <- (Nat2Z.id i). split; apply Ho; unfold blen in Hl; lia.
  - by rewrite Hl.
Qed.
End report.

(** ** The files of the benchmarks *)

Definition perf_names : list (Z * bytes) := [(1, str "."); (1, str ".."); (2, hello_name); (3, bigfile_name)]%string.

Definition perf_flat : flat := {|
  fl_node name := if bool_decide (name = hello_name) then Some 2
                  else if bool_decide (name = bigfile_name) then Some 3 else None;
  fl_attr n := PerfLl.hello_stat n stat_zero;
  fl_data n := if n =? 2 then Some hello_str
               else if n =? 3 then Some (replicate (Z.to_nat BIGFILE_SIZE) 65) else None;
  fl_list := perf_names |}.


Lemma bigfile_component : component bigfile_name.
Proof. split_and!; try done; [by repeat constructor|set_solver]. Qed.

(** Any server that presents them, as programs see it. *)
Section bench_files.
Context {P : Platform} {PS : PlatformSpec P} {S : Server} {F : FileServer S} {PR : Presents perf_flat}.

Lemma perf_looked_up name n : component name -> fl_node perf_flat name = Some n -> looked_up 1 name = inr n.
Proof. intros Hc Hn. rewrite pr_node by done. by rewrite Hn. Qed.

Lemma perf_path_hello : path_node HELLO (inr 2).
Proof. apply (entry_node _ hello_name); [apply hello_component|done|by apply perf_looked_up; [apply hello_component|]]. Qed.
Lemma perf_path_bigfile : path_node BIGFILE (inr 3).
Proof. apply (entry_node _ bigfile_name); [apply bigfile_component|done|by apply perf_looked_up; [apply bigfile_component|]]. Qed.

Lemma perf_attr_root : fs_getattr 1 = inr (default stat_zero (hello_stat 1 stat_zero)).
Proof. by apply pr_attr. Qed.
Lemma perf_attr_hello : fs_getattr 2 = inr (default stat_zero (hello_stat 2 stat_zero)).
Proof. by apply pr_attr. Qed.

Lemma perf_known name n : component name -> fl_node perf_flat name = Some n -> is_Some (fl_data perf_flat n) ->
  known 1 -> known_file n.
Proof.
  intros Hc Hn [data Hd] Hk. split; [apply (known_entry 1 name); [done|by apply perf_looked_up|done]|].
  destruct (pr_data n data Hd) as (st & o & Ha & Hty & Ho & _). exists st, o. split_and!; [by apply pr_attr|done|done].
Qed.
Lemma perf_known_hello : known 1 -> known_file 2.
Proof. apply (perf_known hello_name); [apply hello_component|done|by eexists]. Qed.
Lemma perf_known_bigfile : known 1 -> known_file 3.
Proof. apply (perf_known bigfile_name); [apply bigfile_component|done|by eexists]. Qed.

Lemma perf_read_hello fh off size : 0 <=? off = true -> 0 <? size = true ->
  fs_read 2 fh off size = inr (window hello_str off size).
Proof.
  intros Ho%Z.leb_le Hs%Z.ltb_lt. destruct (pr_data 2 hello_str) as (st & o & _ & _ & _ & Hr); [done|by apply Hr].
Qed.
End bench_files.

#[export] Hint Resolve perf_path_hello perf_path_bigfile perf_known_hello perf_known_bigfile perf_attr_root perf_attr_hello perf_read_hello : client.

(** ** The benchmark server *)

Section perf_files.
Context {P : Platform} {PS : PlatformSpec P}.
#[local] Existing Instance perf_server.
#[local] Existing Instance perf_file_server.

Lemma perf_listing : listing 0 perf_names.
Proof.
  eapply (listing_entry 0 _ (dirent_head (str "."%string) (ino_stat 1) 32));
    [done|done|done|by vm_compute|done|by repeat constructor|].
  eapply (listing_entry 32 _ (dirent_head (str ".."%string) (ino_stat 1) 64));
    [done|done|done|by vm_compute|done|by repeat constructor|].
  eapply (listing_entry 64 _ (dirent_head hello_name (ino_stat 2) 96));
    [done|done|done|by vm_compute|done|by repeat constructor|].
  eapply (listing_entry 96 _ (dirent_head bigfile_name (ino_stat 3) 128));
    [done|done|done|by vm_compute|done|by repeat constructor|].
  by apply (listing_end 128).
Qed.

Lemma perf_plain : PlainServer.
Proof.
  split.
  - intros n st H Ht. cbn [fs_getattr perf_file_server] in H. unfold perf_getattr_result, PerfLl.hello_stat in H.
    cbn [fs_open fs_read perf_file_server]. unfold perf_open_result, perf_read_result.
    destruct (Z.eqb_spec n 1) as [->|_]; [injection H as <-; by vm_compute in Ht|].
    destruct (Z.eqb_spec n 2) as [->|_]; [by eexists; split; [|intros; eexists]|].
    destruct (Z.eqb_spec n 3) as [->|_]; [|done]. by eexists; split; [|intros; eexists].
  - intros n cur Hc. cbn [fs_readdir perf_file_server]. unfold perf_readdir_result.
    cbn [fs_cursor perf_file_server] in Hc. unfold perf_cursor in Hc.
    destruct (Z.eqb_spec n 1) as [->|_]; [|done]. cbn [negb orb] in *.
    repeat (apply orb_true_iff in Hc as [Hc|Hc]); apply Z.eqb_eq in Hc; subst cur; [right..|left].
    + by eexists (dirent_head (str "."%string) (ino_stat 1) 32), _; split; [vm_compute|split; [|repeat constructor]].
    + by eexists (dirent_head (str ".."%string) (ino_stat 1) 64), _; split; [vm_compute|split; [|repeat constructor]].
    + by eexists (dirent_head hello_name (ino_stat 2) 96), _; split; [vm_compute|split; [|repeat constructor]].
    + by eexists (dirent_head bigfile_name (ino_stat 3) 128), _; split; [vm_compute|split; [|repeat constructor]].
    + by vm_compute.
Qed.
End perf_files.

Lemma perf_presents {P : Platform} {PS : PlatformSpec P} : @Presents P PS perf_server perf_file_server perf_flat.
Proof.
  split.
  - intros name _. unfold looked_up. cbn [fs_lookup perf_file_server perf_flat fl_node]. unfold perf_lookup_result.
    cbn [Z.eqb Pos.eqb negb]. by repeat case_bool_decide.
  - intros name n. cbn [perf_flat fl_node fl_attr]. repeat case_bool_decide; try done; intros [= <-]; by eexists.
  - intros n st. cbn [fl_attr perf_flat fs_getattr perf_file_server]. unfold perf_getattr_result. by intros ->.
  - by eexists.
  - intros n data. cbn [fl_data perf_flat fl_attr fs_open fs_read perf_file_server]. unfold perf_read_result.
    destruct (Z.eqb_spec n 2) as [->|]; [intros [= <-]; eexists _, _; split_and!; done|].
    destruct (Z.eqb_spec n 3) as [->|]; [|done]. cbn [Z.eqb Pos.eqb]. intros H.
    assert (data = replicate (Z.to_nat BIGFILE_SIZE) 65) as -> by congruence. clear H.
    eexists _, _. split; [reflexivity|]. split; [reflexivity|]. split; [reflexivity|].
    intros fh off size Ho _. by rewrite letters_window.
  - apply perf_listing.
Qed.

