(* ===== verification/BenchProps.v ===== *)
(** * The benchmarks complete

    The measuring loops of [src/apps/fuse-perf-test/main.c], each benchmark, and
    the program as a whole on the benchmark server. *)

From S2P Require Import Prelude Wire Platform KernelAbi LinkedList World Monad Buffer Request.
From S2P Require Import Reply Server Handlers Init Session Dirent Daemon UkFs System FileOps Boot Examples.
From S2P Require Import Posix PosixProps HelloLl HelloSpec PosixRef HelloMain Program TestSuite ClientRules.
From S2P Require Import PerfLl PerfSpec Ideal Bench BenchRules.

(** The measurements and the program, for any server with the files of the
    benchmarks. *)
Section bench.
Context {P : Platform} {PS : PlatformSpec P} {S : Server} {F : FileServer S} {PR : Presents perf_flat}.
Context {X : Posix} {XS : PosixSpec X}.
Context (tsc : nat -> Z) (malloc_ok : Z -> bool).
Notation state := (pstate bench_data).
Notation maps := (gmap Z (Z * Z)).
Implicit Types (s : state) (b : bench_data) (fds dirs : maps) (J : maps -> maps -> Prop).

(** Cycles between two consecutive readings of the counter. *)
Definition cycles (v : Z) : Prop := exists k, v = u64 (tsc (Datatypes.S k) - tsc k).

Lemma cycles_nonneg v : cycles v -> 0 <= v.
Proof. intros (k & ->). unfold u64, wrapu. apply Z.mod_pos_bound. lia. Qed.

(** Only the counter has moved. *)
Definition ticked b b' : Prop :=
  samples b' = samples b /\ b_workloads b' = b_workloads b /\ b_throughputs b' = b_throughputs b.

(** The files are as [J] says. *)
Definition in_order J b s : Prop := exists fds dirs, at_ s fds dirs b /\ J fds dirs.

(** An operation takes the files from one condition to another, or leaves them
    as they are. *)
Definition takes J J' (op : PM bench_data unit) : Prop :=
  forall b s, in_order J b s -> wp op s (fun _ s' => in_order J' b s').
Definition neutral J := takes J J.

Lemma wp_rdtsc J b s (Q : Z -> state -> Prop) :
  in_order J b s -> (forall s', in_order J (b_tick b) s' -> Q (tsc (b_reads b)) s') -> wp (rdtsc tsc) s Q.
Proof.
  intros (fds & dirs & Hs & HJ) HQ. apply wp_bind. eapply wp_get_data; [exact Hs|].
  apply wp_bind. eapply wp_mod_data; [exact Hs|]. intros s' Hs'. apply wp_ret, HQ. by exists fds, dirs.
Qed.

Lemma wp_mod J b s f (Q : unit -> state -> Prop) :
  in_order J b s -> (forall s', in_order J (f b) s' -> Q tt s') -> wp (mod_data f) s Q.
Proof.
  intros (fds & dirs & Hs & HJ) HQ. eapply wp_mod_data; [exact Hs|]. intros s' Hs'. apply HQ. by exists fds, dirs.
Qed.

(** The cycles of a measured operation are stored as a sample. *)
Definition measured J i b s' : Prop := exists b' v, in_order J b' s' /\ cycles v /\
  ticked (b_set_samples (<[i := v]> (samples b)) b) b'.
Definition measures J (body : nat -> PM bench_data unit) : Prop :=
  forall i b s, in_order J b s -> wp (body i) s (fun _ s' => measured J i b s').

Lemma wp_sample J J' op i b s :
  takes J J' op -> in_order J b s -> wp (sample tsc i op) s (fun _ s' => measured J' i b s').
Proof.
  intros Hop Hs. apply wp_bind. eapply wp_rdtsc; [exact Hs|]. intros s1 Hs1.
  apply wp_bind. eapply wp_mono; [by apply Hop|]. intros [] s2 Hs2.
  apply wp_bind. eapply wp_rdtsc; [exact Hs2|]. intros s3 Hs3.
  eapply wp_mod; [exact Hs3|]. intros s4 Hs4. eexists _, _. split; [exact Hs4|].
  split; [by eexists|done].
Qed.

Lemma sample_measures J op : neutral J op -> measures J (fun i => sample tsc i op).
Proof. intros Hop i b s Hs. by eapply wp_sample. Qed.

Lemma wp_for n body (I : nat -> state -> Prop) s :
  I O s -> (forall i s, (i < Z.to_nat n)%nat -> I i s -> wp (body i) s (fun _ s' => I (Datatypes.S i) s')) ->
  wp (for_ n body) s (fun _ => I (Z.to_nat n)).
Proof.
  intros H0 Hb. unfold for_. generalize dependent (Z.to_nat n). intros m Hb.
  assert (forall k i s, (i + k)%nat = m -> I i s -> wp (for_from i k body) s (fun _ => I m)) as H; [|by apply (H m O)].
  clear s H0. induction k as [|k IH]; intros i s E Hs; cbn [for_from].
  - apply wp_ret. by replace m with i by lia.
  - apply wp_bind. eapply wp_mono; [apply Hb; [lia|done]|]. intros [] s' Hs'. apply IH; [lia|done].
Qed.

(** A warm-up changes nothing. *)
Lemma wp_warmup J n op b s :
  neutral J op -> in_order J b s -> wp (for_ n (fun _ => op)) s (fun _ s' => in_order J b s').
Proof. intros Hop Hs. apply (wp_for n _ (fun _ => in_order J b)); [done|]. intros i s1 _ Hs1. by apply Hop. Qed.

(** So many samples have been taken. *)
Definition sampled (i : nat) b b' : Prop :=
  length (samples b') = length (samples b) /\ Forall cycles (take i (samples b')) /\
  b_workloads b' = b_workloads b /\ b_throughputs b' = b_throughputs b.

Lemma sampled_next i v b b1 b2 :
  (i < length (samples b))%nat -> sampled i b b1 -> cycles v ->
  ticked (b_set_samples (<[i := v]> (samples b1)) b1) b2 -> sampled (Datatypes.S i) b b2.
Proof.
  intros Hi (Hl & Hc & Hw & Ht) Hv (Es & Ew & Et). cbn in Es, Ew, Et. unfold sampled. rewrite Es, Ew, Et.
  rewrite length_insert. split_and!; [done| |done|done].
  rewrite (take_S_r _ _ v) by (apply list_lookup_insert_eq; lia). rewrite take_insert_ge by lia.
  apply Forall_app. by split; [|constructor].
Qed.

Lemma wp_measure J n body b s :
  measures J body -> (Z.to_nat n <= length (samples b))%nat -> in_order J b s ->
  wp (for_ n body) s (fun _ s' => exists b', in_order J b' s' /\ sampled (Z.to_nat n) b b').
Proof.
  intros Hm Hn Hs.
  apply (wp_for n _ (fun i s' => exists b', in_order J b' s' /\ sampled i b b')); [by exists b|].
  intros i s1 Hi (b1 & Hs1 & Hb1).
  eapply wp_mono; [by apply Hm|]. intros [] s3 (b3 & v & Hs3 & Hv & Ht). exists b3. split; [done|].
  eapply sampled_next; [lia|done..].
Qed.

(** ** Reports *)

(** A report on [n] samples: its figures are cycles between two readings, in
    their order. *)
Definition sound n w : Prop := wl_samples w = n /\ ordered w /\ Forall cycles (figures w).

Definition reported n b b' : Prop := exists w, sound n w /\
  length (samples b') = length (samples b) /\ b_workloads b' = b_workloads b ++ [w] /\ b_throughputs b' = b_throughputs b.

Lemma wp_print J n b b1 s :
  0 < n -> (Z.to_nat n <= length (samples b))%nat -> sampled (Z.to_nat n) b b1 -> in_order J b1 s ->
  wp (print_stats n) s (fun _ s' => exists b', in_order J b' s' /\ reported n b b').
Proof.
  intros H0 Hn (Hl & Hc & Hw & Ht) Hs. apply wp_bind. eapply wp_mod; [exact Hs|]. intros s1 Hs1.
  eapply wp_mod; [exact Hs1|]. intros s2 Hs2. eexists. split; [exact Hs2|].
  assert (0 < n <= blen (samples b1)) as Hn' by (unfold blen; lia).
  exists (stats (qsort (samples b1) (Z.to_nat n)) n). split; [split; [|split]|split_and!].
  - done.
  - apply report_ordered; [done|]. eapply Forall_impl; [exact Hc|]. apply cycles_nonneg.
  - by apply report_figures.
  - cbn. rewrite qsort_length by lia. done.
  - cbn. by rewrite Hw.
  - done.
Qed.

(** Nothing is open. *)
Definition closed fds dirs : Prop := fds = ∅ /\ dirs = ∅.
(** One descriptor is open on the file, somewhere. *)
Definition open_at fd fds dirs : Prop := (exists pos, fds = <[fd := (2, pos)]> ∅) /\ dirs = ∅.

(** A benchmark starts and ends with nothing open and leaves a report. *)
Definition benchmark n (m : PM bench_data unit) : Prop := forall b s,
  length (samples b) = Z.to_nat NUM_ITERATIONS -> in_order closed b s ->
  wp m s (fun _ s' => exists b', in_order closed b' s' /\ reported n b b').

Context (K : known 1).

Ltac neutral_run := intros b s (fds & dirs & Hs & [-> ->]); repeat step; by eexists _, _.

Lemma stat_file_neutral : neutral closed (sys (px_stat HELLO);; mret tt).
Proof. neutral_run. Qed.
Lemma stat_root_neutral : neutral closed (sys (px_stat SLASH);; mret tt).
Proof. neutral_run. Qed.
Lemma pread_neutral fd : neutral (open_at fd) (sys (px_pread fd 13 0);; mret tt).
Proof. intros b s (fds & dirs & Hs & [[pos ->] ->]). repeat step. eexists _, _. split; [eassumption|]. split; [by exists pos|done]. Qed.
Lemma open_read_close_neutral : neutral closed (fd ← sys (px_open HELLO O_RDONLY);
    let fd := code fd in
    if 0 <=? fd then sys (px_pread fd 13 0);; sys (px_close fd);; mret tt else mret tt).
Proof. neutral_run. Qed.
Lemma list_root_neutral fuel : (5 <= fuel)%nat -> neutral closed (list_root fuel).
Proof.
  intros Hf b s (fds & dirs & Hs & [-> ->]). do 2 step. apply wp_bind.
  eapply (wp_while (fun a _ => a)); [exact pr_list|done|eassumption|lookup_goal|intros; by apply wp_ret|].
  enter. repeat step. by eexists _, _.
Qed.

Lemma samples_fit n b : length (samples b) = Z.to_nat NUM_ITERATIONS -> n <= NUM_ITERATIONS ->
  (Z.to_nat n <= length (samples b))%nat.
Proof. intros -> H. lia. Qed.

Lemma wp_loop n body :
  0 < n <= NUM_ITERATIONS -> measures closed body -> benchmark n (for_ n body;; print_stats n).
Proof.
  intros Hn Hm b s Hl Hs. pose proof (samples_fit n b Hl (proj2 Hn)) as Hf.
  apply wp_bind. eapply wp_mono; [by apply wp_measure|]. intros [] s2 (b2 & Hs2 & Hb2).
  by eapply wp_print; [lia|..].
Qed.

(** Warm up first. *)
Lemma wp_warm n m body op :
  0 < n <= NUM_ITERATIONS -> neutral closed op -> measures closed body ->
  benchmark n (for_ m (fun _ => op);; for_ n body;; print_stats n).
Proof.
  intros Hn Hop Hm b s Hl Hs. apply wp_bind. eapply wp_mono; [by apply wp_warmup|]. intros [] s1 Hs1.
  by apply wp_loop.
Qed.

(** The same on a descriptor. *)
Lemma wp_opened n body pre (op : Z -> PM bench_data unit) :
  0 < n <= NUM_ITERATIONS -> (forall fd, neutral (open_at fd) (op fd)) -> (forall fd, measures (open_at fd) (body fd)) ->
  benchmark n (
    fd ← sys (px_open HELLO O_RDONLY);
    let fd := code fd in
    if fd <? 0 then mret tt
    else for_ pre (fun _ => op fd);; for_ n (body fd);; sys (px_close fd);; print_stats n).
Proof.
  intros Hn Hop Hm b s Hl (fds & dirs & Hs & [-> ->]). pose proof (samples_fit n b Hl (proj2 Hn)) as Hf.
  step. step. assert (in_order (open_at fd) b s') as Hs' by (eexists _, _; split; [eassumption|]; split; [by eexists|done]).
  apply wp_bind. eapply wp_mono; [by apply wp_warmup|]. intros [] s1 Hs1.
  apply wp_bind. eapply wp_mono; [by apply wp_measure|]. intros [] s2 (b2 & (fds & dirs & Hs2 & [[pos ->] ->]) & Hb2).
  step. eapply wp_print; [lia|done|done|]. by eexists _, _.
Qed.

(** ** The benchmarks one by one *)

Lemma iterations_range : 0 < NUM_ITERATIONS <= NUM_ITERATIONS.
Proof. done. Qed.

Lemma bench_stat_reports : benchmark NUM_ITERATIONS (bench_stat tsc).
Proof. apply wp_warm; [done|apply stat_file_neutral|apply sample_measures, stat_file_neutral]. Qed.

Lemma bench_stat_root_reports : benchmark NUM_ITERATIONS (bench_stat_root tsc).
Proof. apply wp_warm; [done|apply stat_root_neutral|apply sample_measures, stat_root_neutral]. Qed.

Lemma bench_pread_reports : benchmark NUM_ITERATIONS (bench_pread tsc).
Proof.
  apply (wp_opened NUM_ITERATIONS (fun fd i => sample tsc i (sys (px_pread fd 13 0);; mret tt)) 100
    (fun fd => sys (px_pread fd 13 0);; mret tt)); [done|apply pread_neutral|].
  intros fd. apply sample_measures, pread_neutral.
Qed.

Ltac reopen := eexists _, _; split; [eassumption|]; split; [by eexists|done].

Lemma bench_seq_read_reports : benchmark NUM_ITERATIONS (bench_seq_read tsc).
Proof.
  apply (wp_opened NUM_ITERATIONS (fun fd i => sys (px_lseek fd 0 SEEK_SET);;
      sample tsc i (sys (px_read fd 5);; sys (px_read fd 8);; mret tt)) 100
    (fun fd => sys (px_lseek fd 0 SEEK_SET);; sys (px_read fd 5);; sys (px_read fd 8);; mret tt)); [done| |].
  - intros fd b s (fds & dirs & Hs & [[pos ->] ->]). repeat step. reopen.
  - intros fd i b s (fds & dirs & Hs & [[pos ->] ->]). step.
    eapply (wp_sample (fun f d => f = <[fd := (2, 0)]> ∅ /\ d = ∅)); [|by eexists _, _].
    intros b1 s1 (fds1 & dirs1 & Hs1 & [-> ->]). repeat step. reopen.
Qed.

Lemma bench_open_read_close_reports : benchmark 1000 (bench_open_read_close tsc).
Proof. apply wp_loop; [done|]. apply sample_measures, open_read_close_neutral. Qed.

Lemma bench_readdir_reports fuel : (5 <= fuel)%nat -> benchmark 10000 (bench_readdir tsc fuel).
Proof.
  intros Hf. apply (wp_warm 10000 20 (fun i => sample tsc i (list_root fuel)) (list_root fuel));
    [done|by apply list_root_neutral|by apply sample_measures, list_root_neutral].
Qed.

(** ** Throughput *)

Definition TARGET : Z := 50 * 1024 * 1024.

Lemma bigfile_block pos block fh :
  0 <= pos -> 0 < block -> pos + block <= TARGET ->
  fs_read 3 fh pos block = inr (replicate (Z.to_nat block) 65).
Proof.
  intros Hp Hb Ht. destruct (pr_data 3 (replicate (Z.to_nat BIGFILE_SIZE) 65)) as (st & o & _ & _ & _ & Hr); [done|].
  rewrite Hr by done. rewrite <- letters_window by done. unfold letters, BIGFILE_SIZE, TARGET in *. do 2 f_equal. lia.
Qed.

Lemma blen_block block : 0 < block -> blen (replicate (Z.to_nat block) 65) = block.
Proof. intros H. unfold blen. rewrite length_replicate. lia. Qed.

(** Reading goes on block by block up to the target. *)
Lemma wp_read_while fd block k fuel pos b s :
  0 < block < 2 ^ 31 -> 0 <= pos -> pos + block * Z.of_nat k = TARGET -> (k < fuel)%nat ->
  at_ s (<[fd := (3, pos)]> ∅) ∅ b ->
  wp (read_while fuel fd block TARGET pos) s (fun r s' => r = TARGET /\ at_ s' (<[fd := (3, TARGET)]> ∅) ∅ b).
Proof.
  intros Hb. revert fuel pos s. induction k as [|k IH]; intros fuel pos s Hp He Hf Hs;
    (destruct fuel as [|fuel]; [lia|]); cbn [read_while].
  - assert (pos = TARGET) as -> by lia. rewrite Z.ltb_irrefl. by apply wp_ret.
  - assert (pos + block <= TARGET) as Hle by nia. assert (TARGET = 52428800) as ET by done.
    rewrite (proj2 (Z.ltb_lt _ _)) by lia.
    apply wp_bind. eapply wp_read; [exact Hs|lookup_goal|auto with client|done|unfold is_u; lia|
      intros fh; apply bigfile_block; lia|].
    rewrite blen_block by lia. intros s1 Hs1. cbn [count]. rewrite blen_block by lia.
    rewrite (proj2 (Z.leb_gt _ _)) by lia. rewrite insert_insert_eq in Hs1.
    assert (u64 (pos + block) = pos + block) as -> by (apply wrapu_id; unfold is_u; lia).
    apply IH; [lia|lia|lia|done].
Qed.

(** A transfer of 50 MB. *)
Definition transferred t : Prop :=
  tp_mb t = 50 /\ cycles (tp_cycles t) /\ tp_cycles_per_byte t = tp_cycles t / TARGET.

Lemma bench_throughput_transfers fuel block k b s :
  0 < block < 2 ^ 31 -> malloc_ok block = true -> block * Z.of_nat k = TARGET -> (k < fuel)%nat ->
  in_order closed b s ->
  wp (bench_throughput tsc malloc_ok fuel block) s (fun _ s' => exists b' t, in_order closed b' s' /\ transferred t /\
    samples b' = samples b /\ b_workloads b' = b_workloads b /\ b_throughputs b' = b_throughputs b ++ [t]).
Proof.
  intros Hb Hm Hk Hf (fds & dirs & Hs & [-> ->]). do 2 step. rewrite_known. rewrite Hm. cbn [negb].
  apply wp_bind. eapply (wp_rdtsc (fun f d => f = <[fd := (3, 0)]> ∅ /\ d = ∅)); [by eexists _, _|].
  intros s1 (fds & dirs & Hs1 & [-> ->]).
  apply wp_bind. eapply wp_mono; [eapply (wp_read_while fd block k); [done|lia|lia|done|exact Hs1]|].
  intros r s2 [-> Hs2].
  apply wp_bind. eapply (wp_rdtsc (fun f d => f = <[fd := (3, TARGET)]> ∅ /\ d = ∅)); [by eexists _, _|].
  intros s3 (fds & dirs & Hs3 & [-> ->]).
  step. eapply wp_mod_data; [eassumption|]. intros s5 Hs5.
  eexists _, _. split; [by eexists _, _|]. split; [|done].
  split; [done|]. split; [by eexists|done].
Qed.

(** ** The run *)

(** After reports on [counts] samples and [m] transfers. *)
Definition progress (counts : list Z) (m : nat) b : Prop :=
  length (samples b) = Z.to_nat NUM_ITERATIONS /\
  map wl_samples (b_workloads b) = counts /\
  Forall (fun w => ordered w /\ Forall cycles (figures w)) (b_workloads b) /\
  length (b_throughputs b) = m /\ Forall transferred (b_throughputs b).

Lemma wp_benchmark n m {B} (k : unit -> PM bench_data B) counts tps b s (Q : B -> state -> Prop) :
  benchmark n m -> progress counts tps b -> in_order closed b s ->
  (forall b' s', progress (counts ++ [n]) tps b' -> in_order closed b' s' -> wp (k tt) s' Q) -> wp (m ≫= k) s Q.
Proof.
  intros Hm (Hl & Hc & Hw & Ht & Htr) Hs HQ. apply wp_bind. eapply wp_mono; [by apply Hm|].
  intros [] s1 (b1 & Hs1 & w & (Hn & Ho & Hf) & Hl1 & Hw1 & Ht1). apply (HQ b1); [|done].
  unfold progress. rewrite Hl1, Hw1, Ht1, map_app, Hc. cbn [map]. rewrite Hn.
  split_and!; try done. apply Forall_app. by rewrite Forall_singleton.
Qed.

Lemma wp_transfer fuel block n {B} (k : unit -> PM bench_data B) counts tps b s (Q : B -> state -> Prop) :
  0 < block < 2 ^ 31 -> malloc_ok block = true -> 0 <= n -> block * n = TARGET -> n < Z.of_nat fuel ->
  progress counts tps b -> in_order closed b s ->
  (forall b' s', progress counts (Datatypes.S tps) b' -> in_order closed b' s' -> wp (k tt) s' Q) ->
  wp (bench_throughput tsc malloc_ok fuel block ≫= k) s Q.
Proof.
  intros Hb Hm Hn Hbn Hf (Hl & Hc & Hw & Ht & Htr) Hs HQ. apply wp_bind.
  eapply wp_mono; [apply (bench_throughput_transfers fuel block (Z.to_nat n)); try done; lia|].
  intros [] s1 (b1 & t & Hs1 & Htt & Hl1 & Hw1 & Ht1). apply (HQ b1); [|done].
  unfold progress. rewrite Hl1, Hw1, Ht1, length_app. cbn [length].
  split_and!; try done; [lia|]. apply Forall_app. by rewrite Forall_singleton.
Qed.

(** From the mount on. *)
Lemma wp_run_benchmarks fuel s :
  (forall n, malloc_ok n = true) -> 12800 < Z.of_nat fuel -> at_ s ∅ ∅ bench_start ->
  wp (run_benchmarks tsc malloc_ok fuel) s (fun r s' => r = 0 /\ exists b, in_order closed b s' /\
    progress [100000; 100000; 100000; 100000; 1000; 10000] 3 b).
Proof.
  intros Hma Hf Hs.
  assert (progress [] 0 bench_start) as Hb0 by (split_and!; [apply length_replicate|done..]).
  eapply wp_benchmark; [by apply bench_stat_root_reports|exact Hb0|by eexists _, _|]. intros b1 s1 Hb1 Hs1.
  eapply wp_benchmark; [by apply bench_stat_reports|done..|]. intros b2 s2 Hb2 Hs2.
  eapply wp_benchmark; [by apply bench_pread_reports|done..|]. intros b3 s3 Hb3 Hs3.
  eapply wp_benchmark; [by apply bench_seq_read_reports|done..|]. intros b4 s4 Hb4 Hs4.
  eapply wp_benchmark; [by apply bench_open_read_close_reports|done..|]. intros b5 s5 Hb5 Hs5.
  eapply wp_benchmark; [apply bench_readdir_reports; lia|done..|]. intros b6 s6 Hb6 Hs6.
  eapply (wp_transfer _ _ 12800); [done..|lia|done|done|]. intros b7 s7 Hb7 Hs7.
  eapply (wp_transfer _ _ 800); [done..|lia|done|done|]. intros b8 s8 Hb8 Hs8.
  eapply (wp_transfer _ _ 50); [done..|lia|done|done|]. intros b9 s9 Hb9 Hs9.
  apply wp_ret. split; [done|]. by exists b9.
Qed.
End bench.

Section bench_program.
Context {P : Platform} {PS : PlatformSpec P} {S : Server} {F : FileServer S} {PR : Presents perf_flat}.
Context {X : Posix} {XS : PosixSpec X}.

(** C14. The benchmark program completes on every server that presents the files
    of the benchmark server, whatever the time stamp counter reads: it returns 0
    with nothing left open, after six reports on 100000, 100000, 100000, 100000,
    1000 and 10000 samples and three transfers of exactly 50 MB.  In every report the figures are numbers of cycles between two
    consecutive readings of the counter, from the minimum over the percentiles to
    the maximum in this order, and the average lies between the extremes if the
    sum fits into 64 bits. *)
Theorem benchmarks_complete tsc malloc_ok fuel pf sf io :
  backend_resources -> memory_ok (booted_at 6 io) -> (forall n, malloc_ok n = true) -> 12800 < Z.of_nat fuel ->
  exists s, bench_main tsc malloc_ok fuel pf sf true (started bench_start io) = Some (0, s) /\
    px_fds (t_vfs s) = ∅ /\ px_dirs (t_vfs s) = ∅ /\
    progress tsc [100000; 100000; 100000; 100000; 1000; 10000] 3 (t_data s).
Proof.
  intros Hr Hm Hma Hf. enough (wp (bench_main tsc malloc_ok fuel pf sf true) (started bench_start io)
    (fun r s => r = 0 /\ exists b, in_order closed b s /\
       progress tsc [100000; 100000; 100000; 100000; 1000; 10000] 3 b))
    as (r & s & E & -> & b & (fds & dirs & [] & [-> ->]) & Hb) by (exists s; by subst).
  apply wp_bind, wp_start_thread; [done|]. cbn [negb]. apply wp_bind, wp_mount; [done..|]. intros s Hs. cbv beta iota.
  apply wp_run_benchmarks; [by apply (root_known io)|done..].
Qed.
End bench_program.

Lemma benchmarks_complete_witness : exists s,
  @bench_main good perf_server (@ref_posix good perf_server) (fun k => 3000 * Z.of_nat k) (fun _ => true) (Z.to_nat 12801) false false true
    (@started good (@ref_posix good perf_server) bench_data bench_start []) = Some (0, s) /\
  map wl_samples (b_workloads (t_data s)) = [100000; 100000; 100000; 100000; 1000; 10000].
Proof.
  destruct (@benchmarks_complete good good_spec perf_server perf_file_server perf_presents (@ref_posix good perf_server)
    (@ref_posix_spec good good_spec perf_server perf_file_server perf_plain)
    (fun k => 3000 * Z.of_nat k) (fun _ => true) (Z.to_nat 12801) false false [])
    as (s & E & _ & _ & _ & Hc & _); [done|by intros ?|done|rewrite Z2Nat.id; lia|].
  exists s. split; [exact E|exact Hc].
Defined.
