(* ===== verification/LinuxBench.v ===== *)
(** * The benchmarks on Linux

    [src/apps/fuse-perf-test/linux_baseline.c]: the measurements of the benchmark
    program below the mount point of its argument, for comparison with the same
    files served on Linux.  [rdtsc], [cmp_u64] and the statistics are the same
    text as in [main.c]; what the system calls do is a parameter again. *)

From S2P Require Import Prelude Wire Platform KernelAbi LinkedList World Monad Buffer Request.
From S2P Require Import Reply Server Handlers Session Posix HelloLl HelloMain Program TestSuite Bench.

(** ** What is printed *)

(** The report on a transfer: time in milliseconds instead of cycles per byte. *)
Record linux_throughput := { lt_mb : Z; lt_cycles : Z; lt_ms : Z; lt_mb_per_sec : Z }.

Record linux_data := {
  l_reads : nat;                          (* readings of the counter so far *)
  l_samples : list Z;
  l_workloads : list workload;
  l_throughputs : list linux_throughput }.

Definition linux_start : linux_data :=
  {| l_reads := 0; l_samples := replicate (Z.to_nat NUM_ITERATIONS) 0; l_workloads := []; l_throughputs := [] |}.

Definition l_tick (b : linux_data) : linux_data :=
  {| l_reads := Datatypes.S (l_reads b); l_samples := l_samples b; l_workloads := l_workloads b;
     l_throughputs := l_throughputs b |}.
Definition l_set_samples (l : list Z) (b : linux_data) : linux_data :=
  {| l_reads := l_reads b; l_samples := l; l_workloads := l_workloads b; l_throughputs := l_throughputs b |}.
Definition l_report (x : workload) (b : linux_data) : linux_data :=
  {| l_reads := l_reads b; l_samples := l_samples b; l_workloads := l_workloads b ++ [x];
     l_throughputs := l_throughputs b |}.
Definition l_transfer (x : linux_throughput) (b : linux_data) : linux_data :=
  {| l_reads := l_reads b; l_samples := l_samples b; l_workloads := l_workloads b;
     l_throughputs := l_throughputs b ++ [x] |}.

(** [mb] and [mb_per_sec] are 32 bits wide, the quotient is computed in 64. *)
Definition transfer (total_cycles bytes_read : Z) : linux_throughput :=
  let milliseconds := total_cycles / 3000000 in
  let mb := u32 (bytes_read / (1024 * 1024)) in
  let milliseconds := if milliseconds =? 0 then 1 else milliseconds in
  {| lt_mb := mb; lt_cycles := total_cycles; lt_ms := u32 milliseconds;
     lt_mb_per_sec := u32 (u32 (mb * 1000) / milliseconds) |}.

(** [snprintf(buf, 256, "%s<suffix>", dir)] *)
Definition file_path (dir suffix : bytes) : bytes := take 255 (dir ++ suffix).

Section linux_bench.
Context {P : Platform} {X : Posix}.
Context (tsc : nat -> Z) (malloc_ok : Z -> bool).
Notation LM := (PM linux_data).

Definition rdtsc : LM Z :=
  n ← get_data l_reads; mod_data l_tick;; mret (tsc n).

Definition print_stats (count : Z) : LM unit :=
  mod_data (fun b => l_set_samples (qsort (l_samples b) (Z.to_nat count)) b);;
  mod_data (fun b => l_report (stats (l_samples b) count) b).

(** The body of the measuring loops. *)
Definition sample (i : nat) (op : LM unit) : LM unit :=
  t0 ← rdtsc; op;; t1 ← rdtsc;
  mod_data (fun b => l_set_samples (<[i := u64 (t1 - t0)]> (l_samples b)) b).

(** [bench_stat] and [bench_stat_root] *)
Definition bench_stat (path : bytes) : LM unit :=
  for_ 100 (fun _ => sys (px_stat path);; mret tt);;
  for_ NUM_ITERATIONS (fun i => sample i (sys (px_stat path);; mret tt));;
  print_stats NUM_ITERATIONS.
Definition bench_stat_root (dir_path : bytes) : LM unit :=
  for_ 100 (fun _ => sys (px_stat dir_path);; mret tt);;
  for_ NUM_ITERATIONS (fun i => sample i (sys (px_stat dir_path);; mret tt));;
  print_stats NUM_ITERATIONS.

Definition bench_seq_read (path : bytes) : LM unit :=
  fd ← sys (px_open path O_RDONLY);
  let fd := code fd in
  if fd <? 0 then mret tt
  else
    for_ 100 (fun _ =>
      sys (px_lseek fd 0 SEEK_SET);; sys (px_read fd 5);; sys (px_read fd 8);; mret tt);;
    for_ NUM_ITERATIONS (fun i =>
      sys (px_lseek fd 0 SEEK_SET);;
      sample i (sys (px_read fd 5);; sys (px_read fd 8);; mret tt));;
    sys (px_close fd);;
    print_stats NUM_ITERATIONS.

Definition bench_open_read_close (path : bytes) : LM unit :=
  let count := 1000 in
  for_ count (fun i => sample i (
    fd ← sys (px_open path O_RDONLY);
    let fd := code fd in
    if 0 <=? fd then sys (px_pread fd 13 0);; sys (px_close fd);; mret tt else mret tt));;
  print_stats count.

Definition bench_pread (path : bytes) : LM unit :=
  fd ← sys (px_open path O_RDONLY);
  let fd := code fd in
  if fd <? 0 then mret tt
  else
    for_ 100 (fun _ => sys (px_pread fd 13 0);; mret tt);;
    for_ NUM_ITERATIONS (fun i => sample i (sys (px_pread fd 13 0);; mret tt));;
    sys (px_close fd);;
    print_stats NUM_ITERATIONS.

(** One traversal of the directory. *)
Definition list_dir (fuel : nat) (dir_path : bytes) : LM unit :=
  dp ← sys (px_opendir dir_path);
  match dp with
  | inl _ => mret tt
  | inr dp => readdir_while fuel dp (fun _ _ a => mret a) tt;; sys (px_closedir dp);; mret tt
  end.

Definition bench_readdir (fuel : nat) (dir_path : bytes) : LM unit :=
  let count := NUM_ITERATIONS / 10 in
  for_ 20 (fun _ => list_dir fuel dir_path);;
  for_ count (fun i => sample i (list_dir fuel dir_path));;
  print_stats count.

(** [while (bytes_read < target_bytes)], at most [fuel] turns. *)
Fixpoint read_while (fuel : nat) (fd block_size target_bytes bytes_read : Z) : LM Z :=
  match fuel with
  | O => HANGS
  | Datatypes.S fuel =>
      if bytes_read <? target_bytes then
        n ← sys (px_read fd block_size);
        if count n <=? 0 then mret bytes_read
        else read_while fuel fd block_size target_bytes (u64 (bytes_read + count n))
      else mret bytes_read
  end.

Definition bench_throughput (fuel : nat) (path : bytes) (block_size : Z) : LM unit :=
  fd ← sys (px_open path O_RDONLY);
  let fd := code fd in
  if fd <? 0 then mret tt
  else if negb (malloc_ok block_size) then sys (px_close fd);; mret tt
  else
    t0 ← rdtsc;
    bytes_read ← read_while fuel fd block_size (50 * 1024 * 1024) 0;
    t1 ← rdtsc;
    sys (px_close fd);;
    mod_data (l_transfer (transfer (u64 (t1 - t0)) bytes_read)).

(** [main] *)
Definition baseline_main (fuel : nat) (argv : list bytes) : LM Z :=
  match argv with
  | [_; mountpoint] =>
      let path := file_path mountpoint (str "/hello"%string) in
      bench_stat_root mountpoint;;
      bench_stat path;;
      bench_pread path;;
      bench_seq_read path;;
      bench_open_read_close path;;
      bench_readdir fuel mountpoint;;
      let bigfile_path := file_path mountpoint (str "/bigfile"%string) in
      bench_throughput fuel bigfile_path (4 * 1024);;
      bench_throughput fuel bigfile_path (64 * 1024);;
      bench_throughput fuel bigfile_path (1024 * 1024);;
      mret 0
  | _ => mret 1
  end.
End linux_bench.
