(* ===== verification/LinuxProps.v ===== *)
(** * The baseline is comparable

    The server of the baseline presents the files of the benchmark server, and
    [linux_baseline.c] run below a mount point measures exactly what the benchmark
    program measures on the mounted file system: the two programs run in lock
    step, by a relation between their monads. *)

From S2P Require Import Prelude Wire Platform KernelAbi LinkedList World Monad Buffer Request.
From S2P Require Import Reply Server Handlers Init Session Dirent Daemon UkFs System FileOps Boot Examples.
From S2P Require Import Posix PosixProps HelloLl HelloSpec PosixRef HelloMain Program TestSuite ClientRules.
From S2P Require Import PerfLl PerfSpec Ideal Bench BenchRules BenchProps.
From S2P Require LinuxLl.
From S2P Require Import LinuxSpec.
From S2P Require LinuxBench.

(** ** The files *)

Section files.
Context {P : Platform} {PS : PlatformSpec P}.
#[local] Existing Instance LinuxLl.linux_server.
#[local] Existing Instance linux_file_server.

Lemma linux_listing : listing 0 perf_names.
Proof.
  eapply (listing_entry 0 _ (dirent_head (str "."%string) (LinuxLl.node_stat 1 S_IFDIR 0 0) 1));
    [done|done|done|by vm_compute|done|by repeat constructor|].
  eapply (listing_entry 1 _ (dirent_head (str ".."%string) (LinuxLl.node_stat 1 S_IFDIR 0 0) 2));
    [done|done|done|by vm_compute|done|by repeat constructor|].
  eapply (listing_entry 2 _ (dirent_head hello_name (LinuxLl.node_stat 2 S_IFREG 0 0) 3));
    [done|done|done|by vm_compute|done|by repeat constructor|].
  eapply (listing_entry 3 _ (dirent_head bigfile_name (LinuxLl.node_stat 3 S_IFREG 0 0) 4));
    [done|done|done|by vm_compute|done|by repeat constructor|].
  by apply (listing_end 4).
Qed.

Lemma linux_attr n : linux_getattr_result n = perf_getattr_result n.
Proof.
  unfold linux_getattr_result, perf_getattr_result, hello_stat.
  repeat (case_match; zify_bool; subst; try done).
Qed.

Lemma linux_presents : Presents perf_flat.
Proof.
  destruct (@perf_presents P PS) as [_ Hthere Hattr Hroot Hdata _]. split.
  - intros name _. unfold looked_up. cbn [fs_lookup linux_file_server perf_flat fl_node]. unfold linux_lookup_result.
    cbn [Z.eqb Pos.eqb andb]. change LinuxLl.bigfile_name with bigfile_name. by repeat case_bool_decide.
  - done.
  - intros n st H%Hattr. cbn [fs_getattr linux_file_server]. by rewrite linux_attr.
  - done.
  - intros n data Hd. destruct (Hdata n data Hd) as (st & o & Ha & Hty & _ & Hr).
    assert (linux_open_result n = inr direct_open) as Ho.
    { cbn [perf_flat fl_data] in Hd. unfold linux_open_result.
      destruct (Z.eqb_spec n 2) as [->|]; [done|]. by destruct (Z.eqb_spec n 3) as [->|]. }
    by exists st, direct_open.
  - apply linux_listing.
Qed.

Lemma linux_plain : PlainServer.
Proof.
  split.
  - intros n st H Ht. cbn [fs_getattr linux_file_server] in H. rewrite linux_attr in H.
    cbn [fs_open fs_read linux_file_server]. unfold linux_open_result, perf_read_result.
    unfold perf_getattr_result, hello_stat in H.
    destruct (Z.eqb_spec n 1) as [->|_]; [injection H as <-; by vm_compute in Ht|].
    destruct (Z.eqb_spec n 2) as [->|_]; [by eexists; split; [|intros; eexists]|].
    destruct (Z.eqb_spec n 3) as [->|_]; [|done]. by eexists; split; [|intros; eexists].
  - intros n cur Hc. cbn [fs_readdir linux_file_server fs_cursor] in *. unfold linux_readdir_result.
    destruct (Z.eqb_spec n 1) as [->|_]; [|done]. cbn [negb].
    destruct (linux_first_entry cur Hc) as [H|(fd & name & H)]; [by left|right]. exists fd, name. tauto.
Qed.
End files.

(** ** Below a mount point *)

Section mount_point.
Context {P : Platform} (X : Posix) (mnt : bytes).

(** What a path names in the file system mounted at [mnt]. *)
Definition below (path : bytes) : option bytes :=
  if bool_decide (take (length mnt) path = mnt) then
    match drop (length mnt) path with
    | [] => if path is [] then None else Some SLASH
    | c :: rest => if c =? 47 then Some (c :: rest) else None
    end
  else None.

(** The system calls of a system whose only files are those below [mnt]. *)
Definition at_path {A} (c : bytes -> syscall vfs A) (path : bytes) : syscall vfs A := fun v w =>
  match below path with Some p => c p v w | None => Some (inl ENOENT, v, w) end.

Definition at_mount : Posix := {|
  vfs := vfs; vfs_start := vfs_start; px_mount := px_mount;
  px_stat := at_path px_stat;
  px_open path flags := at_path (fun p => px_open p flags) path;
  px_fstat := px_fstat; px_lseek := px_lseek; px_read := px_read; px_pread := px_pread; px_close := px_close;
  px_opendir := at_path px_opendir; px_readdir := px_readdir; px_closedir := px_closedir;
  px_access path mode := at_path (fun p => px_access p mode) path |}.

Lemma below_root : mnt <> [] -> below mnt = Some SLASH.
Proof. intros Hne. unfold below. rewrite take_ge, drop_ge, bool_decide_eq_true_2 by done. by destruct mnt. Qed.

Lemma below_file rest : below (mnt ++ 47 :: rest) = Some (47 :: rest).
Proof. unfold below. by rewrite take_app_length, drop_app_length, bool_decide_eq_true_2. Qed.

Lemma at_path_eq {A} (c : bytes -> syscall vfs A) path p v w : below path = Some p -> at_path c path v w = c p v w.
Proof. intros E. unfold at_path. by rewrite E. Qed.
End mount_point.

(** ** Running in lock step *)

(** Reports on a transfer that say the same. *)
Definition same_transfer (l : LinuxBench.linux_throughput) (t : throughput) : Prop :=
  LinuxBench.lt_mb l = tp_mb t /\ LinuxBench.lt_cycles l = tp_cycles t /\
  (tp_mb t * 1000 < 2 ^ 32 -> LinuxBench.lt_mb_per_sec l = tp_mb_per_sec t).

Lemma transfers_same cycles n : 0 <= cycles -> same_transfer (LinuxBench.transfer cycles n) (transfer cycles n).
Proof.
  intros Hc. split_and!; [done..|]. cbn. set (mb := u32 (n / (1024 * 1024))). intros Hmb.
  assert (0 <= mb) by (apply Z.mod_pos_bound; lia).
  set (ms := if cycles / 3000000 =? 0 then 1 else cycles / 3000000).
  assert (1 <= ms) by (unfold ms; pose proof (Z.div_pos cycles 3000000 Hc eq_refl); destruct (Z.eqb_spec (cycles / 3000000) 0); lia).
  assert (u32 (mb * 1000) = mb * 1000) as -> by (apply wrapu_id; unfold is_u; lia).
  assert (u64 (mb * 1000) = mb * 1000) as -> by (apply wrapu_id; unfold is_u; lia).
  apply wrapu_id. unfold is_u. split; [apply Z.div_pos; lia|]. apply Z.div_lt_upper_bound; nia.
Qed.

(** The data of the two programs. *)
Record same_data (l : LinuxBench.linux_data) (b : bench_data) : Prop := {
  sd_reads : LinuxBench.l_reads l = b_reads b;
  sd_samples : LinuxBench.l_samples l = samples b;
  sd_workloads : LinuxBench.l_workloads l = b_workloads b;
  sd_transfers : Forall2 same_transfer (LinuxBench.l_throughputs l) (b_throughputs b) }.

Section lockstep.
Context {P : Platform} (X : Posix) (mnt : bytes) (tsc : nat -> Z) (malloc_ok : Z -> bool).
Notation X' := (at_mount X mnt).
Notation LM := (@PM P X' LinuxBench.linux_data).
Notation BM := (@PM P X bench_data).

(** The same system, and the same data. *)
Record same_state (s1 : @pstate P X' LinuxBench.linux_data) (s2 : @pstate P X bench_data) : Prop := {
  ss_vfs : @t_vfs P X' _ s1 = @t_vfs P X _ s2;
  ss_world : @t_world P X' _ s1 = @t_world P X _ s2;
  ss_data : same_data (@t_data P X' _ s1) (@t_data P X _ s2) }.

(** From the same state, both return the same in the same state, or neither
    returns. *)
Definition lockstep {A} (m1 : LM A) (m2 : BM A) : Prop := forall s1 s2, same_state s1 s2 ->
  option_Forall2 (fun x y => fst x = fst y /\ same_state (snd x) (snd y)) (m1 s1) (m2 s2).

Lemma lockstep_ret {A} (a : A) : lockstep (mret (M := LM) a) (mret (M := BM) a).
Proof. intros s1 s2 Hs. by constructor. Qed.

Lemma lockstep_bind {A B} (m1 : LM A) (m2 : BM A) (k1 : A -> LM B) (k2 : A -> BM B) :
  lockstep m1 m2 -> (forall a, lockstep (k1 a) (k2 a)) -> lockstep (m1 ≫= k1) (m2 ≫= k2).
Proof.
  intros Hm Hk s1 s2 Hs. unfold mbind, PM_bind. destruct (Hm s1 s2 Hs) as [[a s1'] [a' s2'] [E Hs']|]; [|constructor].
  cbn in E. subst a'. by apply Hk.
Qed.

Lemma lockstep_hangs {A} : lockstep (HANGS (A := A)) (HANGS (A := A)).
Proof. intros s1 s2 Hs. constructor. Qed.

Lemma lockstep_sys {A} (c1 : @syscall P (@vfs P X') A) (c2 : @syscall P (@vfs P X) A) :
  (forall v w, c1 v w = c2 v w) -> lockstep (@sys P X' _ A c1) (@sys P X _ A c2).
Proof.
  intros Hc s1 s2 [Hv Hw Hd]. unfold sys. rewrite Hc, Hv, Hw.
  destruct (c2 _ _) as [[[r v] w]|]; constructor. split; [done|]. by split.
Qed.

Lemma lockstep_mod f1 f2 :
  (forall l b, same_data l b -> same_data (f1 l) (f2 b)) -> lockstep (@mod_data P X' _ f1) (@mod_data P X _ f2).
Proof. intros Hf s1 s2 [Hv Hw Hd]. constructor. split; [done|]. split; [done|done|by apply Hf]. Qed.

Lemma lockstep_rdtsc : lockstep (@LinuxBench.rdtsc P X' tsc) (@rdtsc P X tsc).
Proof.
  apply lockstep_bind.
  - intros s1 s2 Hs. constructor. split; [apply (ss_data _ _ Hs)|done].
  - intros n. apply lockstep_bind; [|intros; apply lockstep_ret].
    apply lockstep_mod. intros l b []. split; cbn; congruence.
Qed.

Lemma lockstep_for n (body1 : nat -> LM unit) (body2 : nat -> BM unit) :
  (forall i, lockstep (body1 i) (body2 i)) -> lockstep (@for_ P X' _ n body1) (@for_ P X _ n body2).
Proof.
  intros Hb. unfold for_. generalize O. induction (Z.to_nat n) as [|k IH]; intros i; cbn [for_from];
    [apply lockstep_ret|by apply lockstep_bind].
Qed.

Lemma lockstep_while fuel dp :
  lockstep (@readdir_while P X' _ unit fuel dp (fun _ _ a => mret a) tt)
           (@readdir_while P X _ unit fuel dp (fun _ _ a => mret a) tt).
Proof.
  induction fuel as [|fuel IH]; cbn [readdir_while]; [apply lockstep_hangs|].
  apply lockstep_bind; [by apply lockstep_sys|]. intros [e|[[ino name]|]]; [apply lockstep_ret| |apply lockstep_ret].
  apply lockstep_bind; [apply lockstep_ret|]. by intros [].
Qed.

Lemma lockstep_read_while fuel fd block target n :
  lockstep (@LinuxBench.read_while P X' fuel fd block target n) (@read_while P X fuel fd block target n).
Proof.
  revert n. induction fuel as [|fuel IH]; intros n; cbn [LinuxBench.read_while read_while]; [apply lockstep_hangs|].
  destruct (n <? target); [|apply lockstep_ret].
  apply lockstep_bind; [by apply lockstep_sys|]. intros r. destruct (count r <=? 0); [apply lockstep_ret|apply IH].
Qed.

Lemma lockstep_stats n : lockstep (@LinuxBench.print_stats P X' n) (@print_stats P X n).
Proof.
  apply lockstep_bind; [|intros _]; apply lockstep_mod; intros l b []; split; cbn; congruence.
Qed.

Lemma lockstep_at {A} (c : bytes -> @syscall P (@vfs P X) A) path q :
  below mnt path = Some q -> lockstep (@sys P X' _ A (at_path X mnt c path)) (@sys P X _ A (c q)).
Proof. intros E. apply lockstep_sys. intros v w. exact (at_path_eq X mnt c path q v w E). Qed.

Lemma lockstep_open path q flags : below mnt path = Some q ->
  lockstep (@sys P X' _ Z (@px_open P X' path flags)) (@sys P X _ Z (@px_open P X q flags)).
Proof. apply (lockstep_at (fun p => @px_open P X p flags)). Qed.

(** Walk both programs. *)
Ltac walk :=
  repeat first
    [ apply lockstep_ret | apply lockstep_rdtsc | apply lockstep_stats | apply lockstep_while
    | apply lockstep_read_while | apply lockstep_for; intros ?
    | apply lockstep_at; eassumption | apply lockstep_open; eassumption | by apply lockstep_sys
    | solve [apply lockstep_mod; intros ? ? []; split; cbn; congruence]
    | apply lockstep_bind; [|intros ?; cbv beta zeta]
    | match goal with
      | |- lockstep (if ?b then _ else _) (if ?b then _ else _) => destruct b
      | |- lockstep (match ?x with _ => _ end) (match ?x with _ => _ end) => destruct x
      end ].

Lemma lockstep_bench_stat path : below mnt path = Some HELLO ->
  lockstep (@LinuxBench.bench_stat P X' tsc path) (@bench_stat P X tsc).
Proof. intros E. unfold LinuxBench.bench_stat, bench_stat. walk. Qed.

Lemma lockstep_bench_stat_root path : below mnt path = Some SLASH ->
  lockstep (@LinuxBench.bench_stat_root P X' tsc path) (@bench_stat_root P X tsc).
Proof. intros E. unfold LinuxBench.bench_stat_root, bench_stat_root. walk. Qed.

Lemma lockstep_bench_pread path : below mnt path = Some HELLO ->
  lockstep (@LinuxBench.bench_pread P X' tsc path) (@bench_pread P X tsc).
Proof. intros E. unfold LinuxBench.bench_pread, bench_pread. walk. Qed.

Lemma lockstep_bench_seq_read path : below mnt path = Some HELLO ->
  lockstep (@LinuxBench.bench_seq_read P X' tsc path) (@bench_seq_read P X tsc).
Proof. intros E. unfold LinuxBench.bench_seq_read, bench_seq_read. walk. Qed.

Lemma lockstep_bench_open_read_close path : below mnt path = Some HELLO ->
  lockstep (@LinuxBench.bench_open_read_close P X' tsc path) (@bench_open_read_close P X tsc).
Proof. intros E. unfold LinuxBench.bench_open_read_close, bench_open_read_close. walk. Qed.

Lemma lockstep_bench_readdir fuel path : below mnt path = Some SLASH ->
  lockstep (@LinuxBench.bench_readdir P X' tsc fuel path) (@bench_readdir P X tsc fuel).
Proof. intros E. unfold LinuxBench.bench_readdir, bench_readdir. walk. Qed.

Lemma lockstep_bench_throughput fuel path block : below mnt path = Some BIGFILE ->
  lockstep (@LinuxBench.bench_throughput P X' tsc malloc_ok fuel path block)
           (@bench_throughput P X tsc malloc_ok fuel block).
Proof.
  intros E. unfold LinuxBench.bench_throughput, bench_throughput. walk.
  apply lockstep_mod. intros l b []. split; try done. cbn. apply Forall2_app; [done|]. constructor; [|done].
  apply transfers_same, Z.mod_pos_bound. lia.
Qed.

Lemma below_mount suffix : blen mnt <= 247 -> blen suffix <= 7 ->
  below mnt (LinuxBench.file_path mnt (47 :: suffix)) = Some (47 :: suffix).
Proof.
  intros Hm Hs. unfold LinuxBench.file_path. rewrite take_ge by (unfold blen in *; rewrite length_app; cbn; lia).
  apply below_file.
Qed.

(** The baseline below the mount point, and the benchmarks on the mounted system. *)
Lemma baseline_lockstep fuel prog : mnt <> [] -> blen mnt <= 247 ->
  lockstep (@LinuxBench.baseline_main P X' tsc malloc_ok fuel [prog; mnt]) (@run_benchmarks P X tsc malloc_ok fuel).
Proof.
  intros Hne Hm. pose proof (below_root mnt Hne) as Hr.
  pose proof (below_mount (str "hello"%string) Hm ltac:(done)) as Hh.
  pose proof (below_mount (str "bigfile"%string) Hm ltac:(done)) as Hb.
  unfold LinuxBench.baseline_main, run_benchmarks. cbv zeta.
  apply lockstep_bind; [by apply lockstep_bench_stat_root|intros _].
  apply lockstep_bind; [by apply lockstep_bench_stat|intros _].
  apply lockstep_bind; [by apply lockstep_bench_pread|intros _].
  apply lockstep_bind; [by apply lockstep_bench_seq_read|intros _].
  apply lockstep_bind; [by apply lockstep_bench_open_read_close|intros _].
  apply lockstep_bind; [by apply lockstep_bench_readdir|intros _].
  apply lockstep_bind; [by apply lockstep_bench_throughput|intros _].
  apply lockstep_bind; [by apply lockstep_bench_throughput|intros _].
  apply lockstep_bind; [by apply lockstep_bench_throughput|intros _].
  apply lockstep_ret.
Qed.
End lockstep.

(** ** The same measurements *)

Definition with_data {P : Platform} {X : Posix} {D D'} (d : D') (s : pstate D) : pstate D' :=
  {| t_vfs := t_vfs s; t_world := t_world s; t_data := d |}.

(** The same system, its files below a mount point. *)
Definition entered {P : Platform} (X : Posix) (mnt : bytes) {D D'} (d : D') (s : @pstate P X D) :
    @pstate P (at_mount X mnt) D' :=
  @Build_pstate P (at_mount X mnt) D' (t_vfs s) (t_world s) d.

Section comparison.
Context {P : Platform} {PS : PlatformSpec P} {S : Server} {F : FileServer S} {PR : Presents perf_flat}.
Context {X : Posix} {XS : PosixSpec X}.

(** C15. The baseline measures what the benchmark program measures.  On a freshly
    started and mounted system that presents the benchmark's files, the baseline,
    run with the mount point as its argument on the system calls below that mount
    point, and the measurements of the benchmark program both return 0; they take
    the same samples with the same number of readings of the counter and leave
    the same reports, the same system and nothing open.  The transfers agree in
    size, cycles and rate, although the baseline computes the rate in 32 bits. *)
Theorem baseline_measures_same tsc malloc_ok fuel prog mnt pf sf io :
  backend_resources -> memory_ok (booted_at 6 io) -> (forall n, malloc_ok n = true) -> 12800 < Z.of_nat fuel ->
  mnt <> [] -> blen mnt <= 247 ->
  exists (s : @pstate P X unit) (l : @pstate P (at_mount X mnt) LinuxBench.linux_data) (b : @pstate P X bench_data),
    (start_thread pf sf true;; mount_fuse) (started tt io) = Some (inr tt, s) /\
    @LinuxBench.baseline_main P (at_mount X mnt) tsc malloc_ok fuel [prog; mnt]
      (entered X mnt LinuxBench.linux_start s) = Some (0, l) /\
    run_benchmarks tsc malloc_ok fuel (with_data bench_start s) = Some (0, b) /\
    same_state X mnt l b /\ px_fds (t_vfs b) = ∅ /\ px_dirs (t_vfs b) = ∅ /\
    progress tsc [100000; 100000; 100000; 100000; 1000; 10000] 3 (t_data b) /\
    Forall2 (fun x y => LinuxBench.lt_mb x = 50 /\ LinuxBench.lt_mb_per_sec x = tp_mb_per_sec y)
      (LinuxBench.l_throughputs (@t_data P (at_mount X mnt) _ l)) (b_throughputs (t_data b)).
Proof.
  intros Hr Hm Hma Hf Hne Hl.
  assert (wp (start_thread pf sf true;; mount_fuse) (started tt io) (fun r s => r = inr tt /\ at_ s ∅ ∅ tt)) as Hstart.
  { apply wp_bind, wp_start_thread; [done|]. by apply wp_mount. }
  destruct Hstart as (r & s & Es & -> & Hs). exists s.
  assert (at_ (with_data bench_start s) ∅ ∅ bench_start) as Hb by (destruct Hs; by split).
  destruct (wp_run_benchmarks tsc malloc_ok (root_known io Hm) fuel _ Hma Hf Hb)
    as (r & b & Eb & -> & d & (fds & dirs & [] & [-> ->]) & Hp). subst d.
  assert (same_state X mnt (entered X mnt LinuxBench.linux_start s) (with_data bench_start s)) as H0.
  { split; [done|done|by split]. }
  pose proof (baseline_lockstep X mnt tsc malloc_ok fuel prog Hne Hl _ _ H0) as H. rewrite Eb in H.
  inversion H as [[r' l] ? [Hret Hsame] El|]; subst. cbn [fst snd] in *. subst r'.
  exists l, b. split_and!; try done. destruct Hp as (_ & _ & _ & _ & Htr).
  pose proof (sd_transfers _ _ (ss_data _ _ _ _ Hsame)) as Ht.
  eapply Forall2_impl; [exact (Forall2_and_r _ _ _ _ Ht Htr)|].
  intros x y [(Hmb & _ & Hrate) (H50 & _)]. rewrite Hmb, H50. split; [done|]. apply Hrate. by rewrite H50.
Qed.
End comparison.

(** With the baseline's own server, mounted at /mnt/fuse. *)
Lemma baseline_measures_same_witness : exists s l b,
  (@start_thread good LinuxLl.linux_server (@ref_posix good LinuxLl.linux_server) unit false false true;; mount_fuse)
    (@started good (@ref_posix good LinuxLl.linux_server) unit tt []) = Some (inr tt, s) /\
  @LinuxBench.baseline_main good (at_mount (@ref_posix good LinuxLl.linux_server) (str "/mnt/fuse"%string))
    (fun k => 3000 * Z.of_nat k) (fun _ => true) (Z.to_nat 12801) [str "linux_baseline"; str "/mnt/fuse"]%string
    (entered (@ref_posix good LinuxLl.linux_server) (str "/mnt/fuse"%string) LinuxBench.linux_start s)
    = Some (0, l) /\
  same_state (@ref_posix good LinuxLl.linux_server) (str "/mnt/fuse"%string) l b.
Proof.
  destruct (@baseline_measures_same good good_spec LinuxLl.linux_server linux_file_server linux_presents
    (@ref_posix good LinuxLl.linux_server) (@ref_posix_spec good good_spec LinuxLl.linux_server linux_file_server linux_plain)
    (fun k => 3000 * Z.of_nat k) (fun _ => true) (Z.to_nat 12801) (str "linux_baseline"%string) (str "/mnt/fuse"%string)
    false false []) as (s & l & b & Es & El & _ & Hsame & _);
    [done|by intros ?|done|rewrite Z2Nat.id; lia|done|done|].
  exists s, l, b. split; [exact Es|]. split; [exact El|exact Hsame].
Defined.
