(* ===== verification/IdealProps.v ===== *)
(** * Programs see the ideal file system

    Every call a program may make is answered as [Ideal] says, by any system call
    layer that keeps its promises and any server that presents the file system. *)

From S2P Require Import Prelude Wire Platform KernelAbi LinkedList World Monad Buffer Request.
From S2P Require Import Reply Server Handlers Init Session Dirent Daemon UkFs System FileOps Boot Examples.
From S2P Require Import Posix PosixProps PosixRef HelloLl HelloSpec PerfLl PerfSpec HelloMain Program ClientRules TestSuite TestRules.
From S2P Require Import Bench BenchRules Ideal.

Section refines.
Context {P : Platform} {PS : PlatformSpec P} {S : Server} {F : FileServer S} {X : Posix} {XS : PosixSpec X}.
Context {D : Type} (T : flat) {PR : Presents T} (K : known 1).
Implicit Types (s : pstate D) (i : istate).

(** ** What the server presents, for the rules *)

Lemma resolves_path path t : resolves T path t -> path_node path t.
Proof.
  intros [|name n Hc Hn|name Hc Hn]; [constructor|..]; (apply (entry_node _ name); [done|done|]);
    rewrite pr_node by done; by rewrite Hn.
Qed.

(** The root and what is in it. *)
Definition in_tree (n : Z) : Prop := n = 1 \/ exists name, component name /\ fl_node T name = Some n.

Lemma resolves_tree path n : resolves T path (inr n) -> in_tree n.
Proof. intros H. inversion H; [by left|right; eauto]. Qed.

Lemma tree_attr n : in_tree n -> exists st, fl_attr T n = Some st /\ fs_getattr n = inr st.
Proof.
  intros [->|(name & _ & Hn)].
  - destruct pr_root as (st & E & _). exists st. split; [done|by apply pr_attr].
  - destruct (pr_there name n Hn) as [st E]. exists st. split; [done|by apply pr_attr].
Qed.

Lemma tree_known n : in_tree n -> known n.
Proof.
  intros [->|(name & Hc & Hn)]; [done|]. apply (known_entry 1 name); [done| |done]. rewrite pr_node by done. by rewrite Hn.
Qed.

Lemma tree_file n : in_tree n -> is_Some (fl_data T n) -> known_file n.
Proof.
  intros Ht [data Hd]. destruct (pr_data n data Hd) as (st & o & Ha & Hty & Ho & _).
  split; [by apply tree_known|]. exists st, o. split_and!; [by apply pr_attr|done|done].
Qed.

Lemma attrs_same n st st0 : fs_getattr n = inr st0 -> attrs n st -> same_attr st st0.
Proof. intros H (st1 & H1 & Hm & Hi & Hl & Hs). rewrite H in H1. injection H1 as <-. done. Qed.

(** ** Simulation *)

(** A stream stands at the cursor of what is left of it. *)
Definition dirs_match (dirs : gmap Z (Z * Z)) (m : gmap Z (list (Z * bytes))) : Prop :=
  map_Forall2 (fun _ x l => x.1 = 1 /\ listing x.2 l) dirs m.

Definition sim (dt : D) i s : Prop := exists dirs, at_ s (i_fds i) dirs dt /\ dirs_match dirs (i_dirs i) /\
  map_Forall (fun _ x => in_tree x.1) (i_fds i).

Lemma dirs_match_size dirs m : dirs_match dirs m -> size dirs = size m.
Proof.
  intros H. rewrite <- !size_dom. f_equal. apply set_eq. intros d. rewrite !elem_of_dom. specialize (H d).
  by destruct H.
Qed.

Lemma dirs_match_some dirs m d l : dirs_match dirs m -> m !! d = Some l ->
  exists cur, dirs !! d = Some (1, cur) /\ listing cur l.
Proof.
  intros H E. specialize (H d). rewrite E in H. inversion H as [[n cur] ? [Hn Hl] E1|]; subst. cbn in *. subst. by exists cur.
Qed.

Lemma dirs_match_none dirs m d : dirs_match dirs m -> dirs !! d = None -> m !! d = None.
Proof. intros H E. specialize (H d). rewrite E in H. by inversion H. Qed.

(** A call is answered as the ideal file system does. *)
Definition answered dt i c s : Prop :=
  wp (do_call c) s (fun a s' => exists i', istep T i c a i' /\ sim dt i' s').

Lemma sim_same dt i s s' dirs :
  dirs_match dirs (i_dirs i) -> map_Forall (fun _ x => in_tree x.1) (i_fds i) ->
  at_ s' (i_fds i) dirs dt -> sim dt i s'.
Proof. intros. by exists dirs. Qed.

Lemma sim_fds dt i s' fd n pos dirs :
  dirs_match dirs (i_dirs i) -> map_Forall (fun _ x => in_tree x.1) (i_fds i) -> in_tree n ->
  at_ s' (<[fd := (n, pos)]> (i_fds i)) dirs dt -> sim dt (i_set_fds (<[fd := (n, pos)]> (i_fds i)) i) s'.
Proof. intros Hd Ht Hn Hs. exists dirs. split_and!; [done|done|]. by apply map_Forall_insert_2. Qed.

Lemma stat_answered dt i path t s : resolves T path t -> sim dt i s -> answered dt i (C_stat path) s.
Proof.
  intros Hr (dirs & Hs & Hd & Ht). apply wp_bind. destruct t as [e|n].
  - eapply wp_stat_none; [done|by apply resolves_path|]. intros s' Hs'. apply wp_ret.
    exists i. split; [by constructor|by eapply sim_same].
  - destruct (tree_attr n (resolves_tree _ _ Hr)) as (st0 & Ha & Hg).
    eapply wp_stat; [done|by apply resolves_path|done|]. intros s' st Hs' Hst. apply wp_ret.
    exists i. split; [eapply do_stat; [done|done|by eapply attrs_same]|by eapply sim_same].
Qed.

Lemma access_answered dt i path t s : resolves T path t -> sim dt i s -> answered dt i (C_access path) s.
Proof.
  intros Hr (dirs & Hs & Hd & Ht). apply wp_bind. destruct t as [e|n].
  - eapply wp_access_none; [done|by apply resolves_path|by right|]. intros s' Hs'. apply wp_ret.
    exists i. split; [by constructor|by eapply sim_same].
  - destruct (tree_attr n (resolves_tree _ _ Hr)) as (st0 & Ha & Hg).
    eapply wp_access; [done|by apply resolves_path|done|by right|]. intros s' Hs'. apply wp_ret.
    exists i. split; [by econstructor|by eapply sim_same].
Qed.

Lemma open_answered dt i path t s :
  resolves T path t -> (size (i_fds i) + size (i_dirs i) < 16)%nat -> sim dt i s -> answered dt i (C_open path) s.
Proof.
  intros Hr Hsz (dirs & Hs & Hd & Ht). rewrite <- (dirs_match_size _ _ Hd) in Hsz. apply wp_bind. destruct t as [e|n].
  - eapply wp_open_none; [done|by apply resolves_path|done|]. intros s' Hs'. apply wp_ret.
    exists i. split; [by constructor|by eapply sim_same].
  - eapply wp_open; [done|by apply resolves_path|done|]. intros s' fd Hs' Hfd Hn. apply wp_ret.
    eexists. split; [by constructor|]. eapply sim_fds; [done|done|by eapply resolves_tree|done].
Qed.

Lemma fstat_answered dt i fd x s : i_fds i !! fd = Some x -> sim dt i s -> answered dt i (C_fstat fd) s.
Proof.
  intros Hfd (dirs & Hs & Hd & Ht). destruct x as [n pos]. apply wp_bind.
  destruct (tree_attr n (Ht _ _ Hfd)) as (st0 & Ha & Hg).
  eapply wp_fstat; [done|done|done|]. intros s' st Hs' Hst. apply wp_ret.
  exists i. split; [eapply do_fstat; [done|done|by eapply attrs_same]|by eapply sim_same].
Qed.

Lemma lseek_answered dt i fd off whence n pos base s :
  i_fds i !! fd = Some (n, pos) -> seek_base T n pos whence = Some base -> is_u 63 (base + off) ->
  (whence = SEEK_END -> is_Some (fl_data T n)) -> sim dt i s -> answered dt i (C_lseek fd off whence) s.
Proof.
  intros Hfd Hb Hu He (dirs & Hs & Hd & Ht). apply wp_bind. pose proof (Ht _ _ Hfd) as Hn. cbn in Hn.
  assert (forall s', at_ s' (<[fd := (n, base + off)]> (i_fds i)) dirs dt ->
    wp (mret (A_num (inr (base + off)))) s' (fun a s' => exists i', istep T i (C_lseek fd off whence) a i' /\ sim dt i' s')) as Hpost.
  { intros s' Hs'. apply wp_ret. eexists. split; [by eapply do_lseek|by eapply sim_fds]. }
  pose proof Hb as Hb'. unfold seek_base in Hb'.
  destruct (Z.eqb_spec whence SEEK_SET) as [->|]; [injection Hb' as <-; eapply wp_seek_set; [done|done|done|]; exact Hpost|].
  destruct (Z.eqb_spec whence SEEK_CUR) as [->|]; [injection Hb' as <-; eapply wp_seek_cur; [done|done|done|]; exact Hpost|].
  destruct (Z.eqb_spec whence SEEK_END) as [->|]; [|done].
  destruct (tree_attr n Hn) as (st0 & Ha & Hg). rewrite Ha in Hb'. injection Hb' as <-.
  eapply wp_seek_end; [done|done|by apply tree_file; [|apply He]|done|done|]. exact Hpost.
Qed.

Lemma read_answered dt i fd count n pos s :
  i_fds i !! fd = Some (n, pos) -> is_Some (fl_data T n) -> 0 < count < 2 ^ 31 -> is_u 63 pos ->
  sim dt i s -> answered dt i (C_read fd count) s.
Proof.
  intros Hfd [data Hdt] Hc Hp (dirs & Hs & Hd & Ht). apply wp_bind. pose proof (Ht _ _ Hfd) as Hn. cbn in Hn.
  destruct (pr_data n data Hdt) as (st & o & _ & _ & _ & Hr).
  eapply wp_read; [done|done|by apply tree_file|done|done|intros fh; apply Hr; [apply Hp|lia]|].
  intros s' Hs'. apply wp_ret. eexists. split; [by eapply do_read|by eapply sim_fds].
Qed.

Lemma pread_answered dt i fd count off n pos s :
  i_fds i !! fd = Some (n, pos) -> is_Some (fl_data T n) -> 0 < count < 2 ^ 31 -> is_u 63 off ->
  sim dt i s -> answered dt i (C_pread fd count off) s.
Proof.
  intros Hfd [data Hdt] Hc Hp (dirs & Hs & Hd & Ht). apply wp_bind. pose proof (Ht _ _ Hfd) as Hn. cbn in Hn.
  destruct (pr_data n data Hdt) as (st & o & _ & _ & _ & Hr).
  eapply wp_pread; [done|done|by apply tree_file|done|done|intros fh; apply Hr; [apply Hp|lia]|].
  intros s' Hs'. apply wp_ret. exists i. split; [by eapply do_pread|by eapply sim_same].
Qed.

Lemma close_answered dt i fd x s : i_fds i !! fd = Some x -> sim dt i s -> answered dt i (C_close fd) s.
Proof.
  intros Hfd (dirs & Hs & Hd & Ht). destruct x as [n pos]. apply wp_bind.
  eapply wp_close; [done|done|reflexivity|]. intros s' Hs'. apply wp_ret.
  eexists. split; [by econstructor|]. exists dirs. split_and!; [done|done|by apply map_Forall_delete].
Qed.

Lemma opendir_answered dt i s :
  (size (i_fds i) + size (i_dirs i) < 16)%nat -> sim dt i s -> answered dt i C_opendir s.
Proof.
  intros Hsz (dirs & Hs & Hd & Ht). rewrite <- (dirs_match_size _ _ Hd) in Hsz. apply wp_bind.
  destruct pr_root as (st & Ha & Hty).
  eapply wp_opendir; [done|done|by apply pr_attr|done|done|]. intros s' d Hs' Hn. apply wp_ret.
  eexists. split; [constructor; by eapply dirs_match_none|].
  exists (<[d := (1, 0)]> dirs). split_and!; [done| |done]. apply map_Forall2_insert_2; [|done].
  split; [done|apply pr_list].
Qed.

Lemma readdir_answered dt i d l s : i_dirs i !! d = Some l -> sim dt i s -> answered dt i (C_readdir d) s.
Proof.
  intros Hl (dirs & Hs & Hd & Ht). destruct (dirs_match_some _ _ _ _ Hd Hl) as (cur & Hcur & Hli). apply wp_bind.
  destruct Hli as [cur Hu Hc He|cur bs fd name l Hu Hc He Hfd Hb Hn Hli].
  - eapply wp_readdir_end; [done..|]. intros s' Hs'. apply wp_ret.
    exists i. split; [by apply do_readdir_end|by eapply sim_same].
  - eapply wp_readdir; [done..|]. intros s' Hs'. apply wp_ret. eexists. split; [by apply do_readdir|].
    exists (<[d := (1, dirent_off fd)]> dirs). split_and!; [done| |done]. by apply map_Forall2_insert_2.
Qed.

Lemma closedir_answered dt i d l s : i_dirs i !! d = Some l -> sim dt i s -> answered dt i (C_closedir d) s.
Proof.
  intros Hl (dirs & Hs & Hd & Ht). destruct (dirs_match_some _ _ _ _ Hd Hl) as (cur & Hcur & Hli). apply wp_bind.
  eapply wp_closedir; [done|done|reflexivity|]. intros s' Hs'. apply wp_ret.
  eexists. split; [by econstructor|]. exists (delete d dirs). split_and!; [done|by apply map_Forall2_delete|done].
Qed.

Lemma call_answered dt i c s : allowed T i c -> sim dt i s -> answered dt i c s.
Proof.
  intros []; eauto using stat_answered, access_answered, open_answered, fstat_answered, lseek_answered,
    read_answered, pread_answered, close_answered, opendir_answered, readdir_answered, closedir_answered.
Qed.

(** ** Runs *)

Lemma run_answered dt client n h i s :
  (forall h i c, irun T h i -> made client h -> client h = Some c -> allowed T i c) ->
  irun T h i -> made client h -> sim dt i s ->
  wp (run_client client n h) s (fun h' s' => exists i', irun T h' i' /\ made client h' /\ sim dt i' s' /\
    (length h' = n + length h \/ client h' = None)%nat).
Proof.
  intros Hc. revert h i s. induction n as [|n IH]; intros h i s Hr Hm Hs; cbn [run_client].
  - apply wp_ret. exists i. by auto.
  - destruct (client h) as [c|] eqn:E; [|apply wp_ret; exists i; by auto].
    apply wp_bind. eapply wp_mono; [eapply call_answered; [by eapply Hc|done]|].
    intros a s1 (i1 & Hst & Hs1). eapply wp_mono; [apply (IH _ i1); [|by constructor|done]|].
    { econstructor; [done|by eapply Hc|done]. }
    intros h' s' (i' & H1 & H2 & H3 & [H4|H4]); exists i'; split_and!; try done; [left|right]; [cbn in H4; lia|done].
Qed.
End refines.

Section client_runs.
Context {P : Platform} {PS : PlatformSpec P} {S : Server} {F : FileServer S} {X : Posix} {XS : PosixSpec X}.
Context {D : Type} (T : flat) {PR : Presents T}.

(** C2. Programs see the ideal file system.  Let the server present the file system
    [T].  A program that chooses its calls by what it has seen, and stays within
    what [allowed] says, runs on the freshly started and mounted system without
    a failure of the system for as many calls as it likes, and the answers it
    gets, in their order, are a run of the ideal file system: attributes, contents
    at every offset, positions, entries and errors are those of [T]. *)
Theorem posix_refines client n pf sf io (dt : D) :
  backend_resources -> memory_ok (booted_at 6 io) ->
  (forall h i c, irun T h i -> made client h -> client h = Some c -> allowed T i c) ->
  exists h s i, client_main client n pf sf true (started dt io) = Some (h, s) /\
    irun T h i /\ made client h /\ (length h = n \/ client h = None).
Proof.
  intros Hr Hm Hc. enough (wp (client_main client n pf sf true) (started dt io)
    (fun h s => exists i, irun T h i /\ made client h /\ (length h = n \/ client h = None)))
    as (h & s & E & i & H) by (by exists h, s, i).
  apply wp_bind, wp_start_thread; [done|]. apply wp_bind, wp_assert; [done|].
  apply wp_bind, wp_mount; [done..|]. intros s Hs. cbv beta iota.
  eapply wp_mono; [apply (run_answered T (root_known io Hm) dt _ _ _ i_start); try done; [constructor|constructor|]|].
  - exists ∅. split_and!; [done|apply map_Forall2_empty|apply map_Forall_empty].
  - intros h s' (i & H1 & H2 & _ & H3). exists i. split_and!; [done|done|]. destruct H3 as [H3|H3]; [left|by right].
    cbn in H3. lia.
Qed.
End client_runs.

(** ** The example server *)

Definition hello_flat : flat := {|
  fl_node name := if bool_decide (name = hello_name) then Some 2 else None;
  fl_attr n := HelloLl.hello_stat n stat_zero;
  fl_data n := if n =? 2 then Some hello_str else None;
  fl_list := root_names |}.

#[export] Instance hello_presents {P : Platform} {PS : PlatformSpec P} : Presents hello_flat.
Proof.
  split.
  - intros name _. unfold looked_up. cbn [fs_lookup hello_file_server hello_flat fl_node]. unfold hello_lookup_result.
    cbn [Z.eqb Pos.eqb negb orb]. by case_bool_decide.
  - intros name n. cbn [hello_flat fl_node]. case_bool_decide; [intros [= <-]; by eexists|done].
  - intros n st. cbn [fl_attr hello_flat fs_getattr hello_file_server]. unfold hello_getattr_result. by intros ->.
  - by eexists.
  - intros n data. cbn [fl_data hello_flat]. destruct (Z.eqb_spec n 2) as [->|]; [|done]. intros [= <-].
    eexists _, _. split_and!; [done|done|done|]. done.
  - apply root_listing.
Qed.

(** ** A program *)

(** It opens the file, seeks to six bytes before its end and reads to it. *)
Definition tail_reader (h : list (call * answer)) : option call :=
  match h with
  | [] => Some (C_open HELLO)
  | [(_, A_num (inr fd))] => Some (C_lseek fd (-6) SEEK_END)
  | [(C_lseek fd _ _, _); _] => Some (C_read fd 100)
  | _ => None
  end.

Section reader.
Context {P : Platform} {PS : PlatformSpec P}.

Lemma resolves_hello t : resolves hello_flat HELLO t -> t = inr 2.
Proof.
  remember HELLO as path eqn:E. intros H. destruct H as [|name n Hc Hn|name Hc Hn]; [discriminate E|..];
    (apply (inj (app SLASH) _ hello_name) in E as ->); [|done]. by injection Hn as <-.
Qed.

Lemma open_hello_run i a c :
  irun hello_flat [(c, a)] i -> made tail_reader [(c, a)] ->
  exists fd, c = C_open HELLO /\ a = A_num (inr fd) /\ i_fds i = {[fd := (2, 0)]}.
Proof.
  intros Hr Hm. inversion Hm as [|? ? ? _ Hc]; subst. injection Hc as <-.
  inversion Hr as [|? i0 ? ? ? Hr0 _ Hst]; subst. inversion Hr0; subst.
  inversion Hst as [| | | |? n fd Hres _ _|? e Hres| | | | | | | | |]; subst; apply resolves_hello in Hres; [|done].
  injection Hres as ->. by exists fd.
Qed.

Lemma seek_hello_run i x c a :
  irun hello_flat [(c, a); x] i -> made tail_reader [(c, a); x] ->
  exists fd, c = C_lseek fd (-6) SEEK_END /\ a = A_num (inr 7) /\ i_fds i = {[fd := (2, 7)]}.
Proof.
  intros Hr Hm. inversion Hm as [|h0 ? ? Hm0 Hc]; subst. destruct x as [c1 a1].
  inversion Hr as [|? i0 ? ? ? Hr0 _ Hst]; subst.
  destruct (open_hello_run i0 a1 c1 Hr0 Hm0) as (fd & -> & -> & Hi). injection Hc as <-.
  inversion Hst as [| | | | | | |? ? ? n pos base Hfd Hb| | | | | | |]; subst.
  rewrite Hi in Hfd. apply lookup_singleton_Some in Hfd as [_ [= <- <-]]. injection Hb as <-.
  exists fd. split; [done|]. split; [done|]. cbn [i_fds i_set_fds]. rewrite Hi. by rewrite insert_singleton_eq.
Qed.

Lemma read_hello_run i x y c a :
  irun hello_flat [(c, a); x; y] i -> made tail_reader [(c, a); x; y] ->
  a = A_data (inr (str "orld!"%string ++ [10])).
Proof.
  intros Hr Hm. inversion Hm as [|h0 ? ? Hm0 Hc]; subst. destruct x as [c1 a1].
  inversion Hr as [|? i0 ? ? ? Hr0 _ Hst]; subst.
  destruct (seek_hello_run i0 y c1 a1 Hr0 Hm0) as (fd & -> & -> & Hi). injection Hc as <-.
  inversion Hst as [| | | | | | | |? ? n pos data Hfd Hd bs| | | | | |]; subst.
  rewrite Hi in Hfd. apply lookup_singleton_Some in Hfd as [_ [= <- <-]]. injection Hd as <-. subst bs. by vm_compute.
Qed.

(** It stays within the rules. *)
Lemma tail_reader_allowed h i c :
  irun hello_flat h i -> made tail_reader h -> tail_reader h = Some c -> allowed hello_flat i c.
Proof.
  intros Hr Hm Hc. destruct h as [|[c1 a1] [|x2 [|x3 h]]].
  - injection Hc as <-. inversion Hr; subst. apply (may_open _ _ _ (inr 2)); [|by cbn; rewrite !map_size_empty; lia].
    apply (resolves_entry _ hello_name); [apply hello_component|done].
  - destruct (open_hello_run i a1 c1 Hr Hm) as (fd & -> & -> & Hi). injection Hc as <-.
    apply (may_lseek _ _ fd _ _ 2 0 13); [by rewrite Hi, lookup_singleton_eq|done|by vm_compute|]. by eexists.
  - destruct (seek_hello_run i x2 c1 a1 Hr Hm) as (fd & -> & -> & Hi). injection Hc as <-.
    apply (may_read _ _ fd _ 2 7); [by rewrite Hi, lookup_singleton_eq|by eexists|done|by vm_compute].
  - cbn in Hc. destruct a1 as [|[]| | |], c1; done.
Qed.

(** When it ends, it has read the end of the file. *)
Lemma tail_reader_end h i :
  irun hello_flat h i -> made tail_reader h -> length h = 3%nat \/ tail_reader h = None ->
  exists c l, h = (c, A_data (inr (str "orld!"%string ++ [10]))) :: l.
Proof.
  intros Hr Hm He. destruct h as [|[c1 a1] [|x2 [|x3 [|x4 h]]]].
  - by destruct He.
  - destruct (open_hello_run i a1 c1 Hr Hm) as (fd & -> & -> & Hi). by destruct He.
  - destruct (seek_hello_run i x2 c1 a1 Hr Hm) as (fd & -> & -> & Hi). by destruct He.
  - rewrite (read_hello_run i x2 x3 c1 a1 Hr Hm). by eexists _, _.
  - inversion Hm as [|h0 ? ? _ Hc]; subst. cbn in Hc. destruct x2 as [c2 [|[]| | |]], c2; done.
Qed.
End reader.

Lemma posix_refines_witness : exists h s i c l,
  @client_main good hello_server ref_posix unit tail_reader 3 false false true (@started good ref_posix unit tt []) = Some (h, s) /\
  irun hello_flat h i /\ h = (c, A_data (inr (str "orld!"%string ++ [10]))) :: l.
Proof.
  destruct (@posix_refines good good_spec hello_server hello_file_server ref_posix ref_posix_spec unit hello_flat
    hello_presents tail_reader 3 false false [] tt) as (h & s & i & E & Hr & Hm & He);
    [done|by intros ?|apply tail_reader_allowed|].
  destruct (tail_reader_end h i Hr Hm He) as (c & l & Hh).
  exists h, s, i, c, l. split; [exact E|]. split; [exact Hr|exact Hh].
Defined.
