(* ===== verification/GroupsProps.v ===== *)
(** * Properties of the supplementary groups

    [strtoul] reads back what is printed in decimal, and [fuse_req_getgroups]
    returns the groups listed in the status file, however long the file is. *)

From S2P Require Import Prelude Platform World Monad Request Reply Groups Examples.

(** ** Decimal numbers *)










(** ** The line of the groups *)






(** ** The function *)

Section groups_props.
Context {P : Platform} (open_read : nat -> bytes -> Z -> option (Z + bytes)).
Implicit Types (w : world).








End groups_props.

(** ** A process with three groups *)


