(* ===== verification/CallsProps.v ===== *)
(** * The handlers understand the protocol

    For every operation of the protocol: a message reaches the server's function
    with the arguments the peer put into it. *)

From S2P Require Import Prelude Wire Platform KernelAbi LinkedList World Monad Buffer Request.
From S2P Require Import Reply Server Handlers Interrupt Notify Init Session Calls.
From S2P Require Import Boot Daemon Examples HelloLl SessionProps.

Section calls.
Context {P : Platform} {PS : PlatformSpec P} {S : Server}.
Implicit Types (w : world) (l : list Z).

(** ** Reading arguments *)

Lemma c_string_run s rest w : nonul s -> c_string (zstr s rest) w = Ok s w.
Proof. intros Hs. apply of_option_run. by apply cstr_app. Qed.

Lemma after_string_run s rest w : nonul s -> after_string (zstr s rest) w = Ok rest w.
Proof.
  intros Hs. unfold after_string. mstep by (by apply c_string_run). unfold zstr.
  rewrite cons_middle, app_assoc, drop_app_length'; [done|]. by rewrite length_app.
Qed.

(** The peer speaks a version without compatibility rules, and the layout of
    SETXATTR is the negotiated one. *)
Record speaks w (ext : bool) : Prop := {
  sp_minor : 12 <= proto_minor (se_conn (w_se w));
  sp_ext : flag (want (se_conn (w_se w))) FUSE_CAP_SETXATTR_EXT = ext }.

Lemma minor_run {A} n (a b : M A) w :
  12 <= proto_minor (se_conn (w_se w)) -> n <= 12 ->
  (m ← minor; if n <=? m then a else b) w = a w /\ (m ← minor; if m <? n then b else a) w = a w.
Proof.
  intros Hm Hn. split; mstep by done; [rewrite (proj2 (Z.leb_le _ _)) by lia|rewrite (proj2 (Z.ltb_ge _ _)) by lia];
    done.
Qed.

(** ** The handlers *)

(** The file handle is no attribute. *)
Lemma setattr_valid to_set fh :
  is_u 32 to_set -> Z.land to_set setattr_mask = to_set ->
  flag (Z.lor to_set (opt_bit fh FATTR_FH)) FATTR_FH = (if fh then true else false) /\
  Z.land (if fh then Z.land (Z.lor to_set (opt_bit fh FATTR_FH)) (Z.lxor (2 ^ 32 - 1) FATTR_FH)
          else Z.lor to_set (opt_bit fh FATTR_FH)) setattr_mask = to_set.
Proof.
  intros Hu Hm.
  assert (Z.land to_set FATTR_FH = 0) as H0 by (rewrite <- Hm, <- Z.land_assoc; apply Z.land_0_r).
  assert (Z.land to_set (Z.lxor (2 ^ 32 - 1) FATTR_FH) = to_set) as H1.
  { rewrite <- Hm, <- Z.land_assoc. f_equal. }
  destruct fh; cbn [opt_bit].
  - unfold flag. rewrite Z.land_lor_distr_l, H0. split; [done|].
    rewrite Z.land_lor_distr_l, H1, Z.land_lor_distr_l, Hm. apply Z.lor_0_r.
  - unfold flag. by rewrite Z.lor_0_r, H0.
Qed.

Lemma opt_bit_range fh m : is_u 32 m -> is_u 32 (opt_bit fh m).
Proof. destruct fh; [done|]. by intros _. Qed.
Lemma bit_if_range b m : is_u 32 m -> is_u 32 (bit_if b m).
Proof. destruct b; [done|]. by intros _. Qed.
Lemma or_zero_range fh : fh_ok fh -> is_u 64 (or_zero fh).
Proof. destruct fh; [done|]. by intros _. Qed.

(** A member of a message is in range. *)
Ltac in_range :=
  match goal with
  | |- is_u ?w ?x =>
      let v := eval vm_compute in w in
      let y := eval cbn -[u32 u64 Z.lor opt_bit bit_if or_zero blen lock_range COPY_MAX] in x in
      change (is_u v y)
  end;
  first [assumption |
    lazymatch goal with
    | |- is_u _ (or_zero _) => apply or_zero_range; assumption
    | |- is_u _ (u32 _) => apply wrapu_range; lia
    | |- is_u _ (u64 _) => apply wrapu_range; lia
    | |- is_u _ (Z.lor _ _) => apply lor_u32; in_range
    | |- is_u _ (opt_bit _ _) => apply opt_bit_range; in_range
    | |- is_u _ (bit_if _ _) => apply bit_if_range; in_range
    | |- _ => by vm_compute
    end].

Ltac message_wf :=
  split; [unfold fits; cbn [layout members app];
          repeat first [apply Forall2_nil_2 | apply Forall2_cons_2]; in_range|done].

(** What a handler does before it calls the operation. *)
Ltac call_step :=
  match goal with
  | |- context [mbind _ (arg_of _ (enc _ ++ _)) _] => mstep by (apply arg_of_enc; message_wf)
  | |- context [mbind _ (c_string (zstr _ _)) _] => mstep by (by apply c_string_run)
  | |- context [mbind _ (after_string (zstr _ _)) _] => mstep by (by apply after_string_run)
  | |- context [mbind _ (mbind _ _)] => rewrite bind_assoc
  | |- context [mbind _ (mret _) _] => mstep by done
  | |- context [mbind _ minor _] => mstep by done
  | |- context [mbind _ (gets _) _] => mstep by done
  | |- context [PARAM ?A (enc _ ++ _)] => rewrite (PARAM_enc (A := A))
  | H : 12 <= ?m |- context [?n <=? ?m] => rewrite (proj2 (Z.leb_le n m)) by lia
  | H : 12 <= ?m |- context [?m <? ?n] => rewrite (proj2 (Z.ltb_ge m n)) by lia
  end; cbn [when].

(** The file info the server gets. *)
Ltac same_info :=
  cbn -[i32 i64 u32 u64 Z.land Z.lor flag blen]; rewrite ?i32_u32, ?i64_u64 by assumption; reflexivity.

(** The same action before two continuations that agree. *)
Lemma bind_same {A B} (m : M A) (f g : A -> M B) w :
  (forall x w', f x w' = g x w') -> (m ≫= f) w = (m ≫= g) w.
Proof. intros H. unfold mbind, M_bind. by destruct (m w). Qed.

Ltac open_handler :=
  unfold do_lookup, _do_lookup, do_forget, _do_forget, do_batch_forget, _do_batch_forget,
    do_getattr, _do_getattr, do_setattr, _do_setattr, do_readlink, _do_readlink, do_symlink, _do_symlink,
    do_mknod, _do_mknod, do_mkdir, _do_mkdir, do_unlink, _do_unlink, do_rmdir, _do_rmdir,
    do_rename, _do_rename, do_rename2, _do_rename2, do_link, _do_link, do_open, _do_open,
    do_read, _do_read, do_write, _do_write, do_statfs, _do_statfs, do_release, _do_release,
    do_fsync, _do_fsync, do_setxattr, _do_setxattr, do_getxattr, _do_getxattr,
    do_listxattr, _do_listxattr, do_removexattr, _do_removexattr, do_flush, _do_flush,
    do_opendir, _do_opendir, do_readdir, _do_readdir, do_readdirplus, _do_readdirplus,
    do_releasedir, _do_releasedir, do_fsyncdir, _do_fsyncdir, do_getlk, _do_getlk,
    do_setlk, _do_setlk, do_setlkw, _do_setlkw, do_setlk_common, do_access, _do_access,
    do_create, _do_create, do_tmpfile, _do_tmpfile, do_bmap, _do_bmap, do_ioctl, _do_ioctl,
    do_poll, _do_poll, do_fallocate, _do_fallocate, do_lseek, _do_lseek,
    do_copy_file_range, _do_copy_file_range, copy_file_range_common, lk_message.

Ltac steps H := open_handler; rewrite ?H; repeat call_step.
Ltac by_steps H := steps H; same_info.

Lemma i32_u64 z : is_i 32 z -> i32 (u64 z) = z.
Proof.
  unfold is_i. intros Hz. unfold i32, u64, wraps, wrapu.
  replace (z mod 2 ^ 64 + 2 ^ (32 - 1)) with (z + 2 ^ (32 - 1) + - (2 ^ 32 * (z / 2 ^ 64)) * 2 ^ 32).
  2:{ pose proof (Z.div_mod z (2 ^ 64)). lia. }
  rewrite Z_mod_plus_full, Z.mod_small; lia.
Qed.

(** A lock comes back as the peer described it. *)
Lemma lock_back lk : lock_ok lk -> convert_fuse_file_lock (lock_range lk) = lk.
Proof.
  intros (Ht & Hw & Hs & Hl & He). destruct lk as [ty wh st len]. cbn in *. subst wh.
  unfold OFFSET_MAX, is_u in *. unfold convert_fuse_file_lock, lock_range. cbn [l_type l_whence l_start l_len
    file_lock_type file_lock_start file_lock_end].
  rewrite (wraps_id 16 ty) by lia. unfold i64. rewrite (wraps_id 64 st) by lia. f_equal. unfold OFFSET_MAX.
  destruct (Z.eqb_spec len 0) as [->|]; [done|].
  rewrite (proj2 (Z.eqb_neq (st + len - 1) _)) by lia. unfold u64. rewrite wrapu_id, wraps_id by (unfold is_u; lia). lia.
Qed.

Lemma lock_range_ok lk : lock_ok lk ->
  is_u 64 (file_lock_start (lock_range lk)) /\ is_u 64 (file_lock_end (lock_range lk)) /\
  is_u 32 (file_lock_type (lock_range lk)).
Proof.
  intros (Ht & Hw & Hs & Hl & He). unfold lock_range, OFFSET_MAX, is_u in *. cbn.
  destruct (Z.eqb_spec (l_len lk) 0); lia.
Qed.

(** SETXATTR, in either layout.  Without the extension the handler's pointer to
    the fixed part covers the first bytes behind it too. *)
Lemma setxattr_arg ext size flags tail w :
  is_u 32 size -> is_u 32 flags -> (ext = false -> 8 <= blen tail) ->
  exists arg, arg_of fuse_setxattr_in (setxattr_message ext size flags ++ tail) w = Ok arg w /\
    setxattr_in_size arg = size /\ setxattr_in_flags arg = flags.
Proof.
  intros Hs Hf Hl. unfold setxattr_message. destruct ext.
  { eexists. split; [apply arg_of_enc; message_wf|done]. }
  change (take (Z.to_nat FUSE_COMPAT_SETXATTR_IN_SIZE) (enc (Build_fuse_setxattr_in size flags 0 0)))
    with (le 4 size ++ le 4 flags).
  unfold arg_of, dec. rewrite (proj2 (Z.leb_le _ _)).
  2:{ specialize (Hl eq_refl). unfold blen in *. rewrite !length_app, !length_le. change (sizeof fuse_setxattr_in) with 16. lia. }
  cbn [layout fuse_setxattr_in_wire]. cbn [unpack].
  rewrite <- app_assoc, (take_app_length' (le 4 size)), (drop_app_length' (le 4 size)) by (by rewrite length_le).
  rewrite (take_app_length' (le 4 flags)), (drop_app_length' (le 4 flags)) by (by rewrite length_le).
  rewrite !unle_le_id by done. by eexists.
Qed.

Lemma setxattr_rest (ext : bool) size flags tail :
  (if ext then PARAM fuse_setxattr_in (setxattr_message ext size flags ++ tail)
   else drop (Z.to_nat FUSE_COMPAT_SETXATTR_IN_SIZE) (setxattr_message ext size flags ++ tail)) = tail.
Proof. destruct ext; [apply (PARAM_enc (A := fuse_setxattr_in))|by rewrite drop_app_length']. Qed.

Lemma handler_called c f rest r node w ext :
  kcall_ok c -> speaks w ext -> (ext = false -> 8 <= blen rest) -> server_call c rest = Some f ->
  exists h n, fuse_ll_ops (kernel_op c) = Some (Func h, n) /\
    h r node (call_message ext c rest) w = f r node w.
Proof.
  intros Hok [Hm He] Hr Hf.
  destruct c; cbn [kernel_op call_message kcall_ok server_call] in *;
    try (match type of Hf with mbind _ ?o = _ => destruct o eqn:Eop end; [|done]; injection Hf as <-);
    destruct_and?; try (eexists _, _; split; [reflexivity|]).
  all: lazymatch goal with
    | |- do_getattr _ _ _ _ = _ => destruct fh; by_steps Eop
    | |- do_release _ _ _ _ = _ => destruct flush, unlock; by_steps Eop
    | |- do_fsync _ _ _ _ = _ => destruct datasync; by_steps Eop
    | |- do_fsyncdir _ _ _ _ = _ => destruct datasync; by_steps Eop
    | |- do_setattr _ _ _ _ = _ => idtac
    | |- do_mknod _ _ _ _ = _ => idtac
    | |- do_mkdir _ _ _ _ = _ => idtac
    | |- do_write _ _ _ _ = _ => idtac
    | |- do_setxattr _ _ _ _ = _ => idtac
    | |- do_getlk _ _ _ _ = _ => idtac
    | |- do_create _ _ _ _ = _ => idtac
    | |- do_ioctl _ _ _ _ = _ => idtac
    | |- do_copy_file_range _ _ _ _ = _ => idtac
    | |- exists _, _ => idtac
    | |- _ => by_steps Eop
    end.
  - (* setattr *) destruct (setattr_valid to_set fh) as [Hv1 Hv2]; [done..|].
    steps Eop. cbn [setattr_in_valid setattr_in_fh]. rewrite Hv1. cbv zeta.
    unfold convert_attr. cbn -[i64 u64 Z.land Z.lor setattr_mask]. rewrite !i64_u64 by done.
    destruct fh; rewrite Hv2; reflexivity.
  - (* mknod *) steps Eop. apply bind_same. intros x w'. steps Eop. done.
  - (* mkdir *) steps Eop. apply bind_same. intros x w'. steps Eop. done.
  - (* write *) destruct (op_write_buf se_op); [done|]. destruct (op_write se_op) eqn:Eop; [|done].
    injection Hf as <-. destruct cached; by_steps Eop.
  - (* setxattr *) open_handler. mstep by done. rewrite He, setxattr_rest, Eop.
    mstep by (by apply after_string_run). mstep by (by apply c_string_run).
    destruct (setxattr_arg ext (blen value) (u32 flags) (zstr name (value ++ rest)) w) as (arg & Ea & H1' & H2');
      [done|by apply wrapu_range| |].
    { intros ->. specialize (Hr eq_refl). unfold zstr, blen in *. rewrite !length_app in *. cbn [length]. rewrite length_app. lia. }
    mstep by (exact Ea). rewrite H1', H2', i32_u32 by done. done.
  - (* getlk *) destruct (lock_range_ok lk) as (? & ? & ?); [done|]. steps Eop. cbn -[lock_range convert_fuse_file_lock].
    by rewrite lock_back.
  - (* setlk *) destruct (lock_range_ok lk) as (? & ? & ?); [done|]. destruct sleep; (eexists _, _; split; [reflexivity|]);
    steps Eop; cbn -[lock_range convert_fuse_file_lock]; by rewrite lock_back.
  - (* flock *) destruct sleep; (eexists _, _; split; [reflexivity|]); by_steps Eop.
  - (* create *) steps Eop. apply bind_same. intros x w'. steps Eop. cbn -[i32 u32]. by rewrite i32_u32.
  - (* ioctl *) steps Eop. mstep by done. cbn -[flag truth blen Z.eqb].
    match goal with H : flag _ FUSE_IOCTL_DIR = false |- _ => rewrite H end. cbn [andb]. unfold truth.
    by destruct (blen data =? 0).
  - (* copy_file_range *) assert (is_u 64 len) by (unfold is_u, COPY_MAX in *; lia). steps Eop.
    cbn -[i32 i64 u64 COPY_MAX Z.ltb]. rewrite (proj2 (Z.ltb_ge COPY_MAX len)) by lia.
    cbn -[i32 i64 u64]. by rewrite i32_u64, !i64_u64.
Qed.

(** C10. A request of the peer reaches the server.  The message of any operation
    of the protocol, with arguments within their types, calls the server's
    function for it on a new request in progress, with exactly these arguments:
    names as strings, signed numbers with their sign, a lock with its length, the
    flags of the open file in its [fuse_file_info]. *)
Theorem message_reaches_server c f ext rest w b size h u l :
  w_mem w !! b = Some (enc h ++ call_message ext c rest) -> wire_wf h ->
  in_header_opcode h = kernel_op c -> alloc_ok (w_nalloc w) = true ->
  sess_ok w l [] -> reject_code (w_se w) h = 0 -> speaks w ext ->
  kcall_ok c -> (ext = false -> 8 <= blen rest) -> server_call c rest = Some f ->
  exists hp q,
    let w' := w_set_reqs hp (with_req h (Some u) w) in
    fuse_session_process_buf_internal (req_buf b size) (Some u) w =
      (f (w_next w) (in_header_nodeid h);; mret tt) w' /\
    live w' (w_next w) (in_progress w l) [] /\
    hp !! w_next w = Some q /\ strip q = strip (received (w_next w) h (Some u)) /\
    contents hp = <[w_next w := strip q]> (contents (w_reqs w)).
Proof.
  intros Hb Hwf Hop Ha Hs Hrej Hsp Hok Hr Hf.
  destruct (handler_called c f rest (w_next w) (in_header_nodeid h) w ext) as (hd & n & Ht & _); [done..|].
  destruct (process_accept w b size h (call_message ext c rest) u l hd n) as (hp & q & E & H1 & H2 & H3 & H4);
    [done..|by rewrite Hop|rewrite Hop; by destruct c as []; try destruct sleep| | |].
  { rewrite Hop. by destruct c; try destruct sleep. }
  { destruct c; try (left; rewrite Hop; done); try (left; rewrite Hop; by destruct sleep).
    right. cbn in Hf. by destruct (op_write_buf se_op). }
  exists hp, q. split_and!; try done. rewrite E.
  destruct (handler_called c f rest (w_next w) (in_header_nodeid h) (w_set_reqs hp (with_req h (Some u) w)) ext)
    as (hd' & n' & Ht' & Eh); [done|by destruct Hsp|done..|].
  assert (hd' = hd) as -> by congruence. unfold mbind, M_bind. by rewrite Eh.
Qed.
End calls.

(** ** Reading from an open file of the example server *)

Definition read_call : kcall := K_read 5 3 100 0 7.
Definition read_header : fuse_in_header := daemon_header FUSE_READ 1 2 80.

Lemma message_reaches_server_witness : exists hp,
  @fuse_session_process_buf_internal good hello_server (req_buf DAEMON_BUF 80) (Some 8)
    (message_world read_header (call_message false read_call (repeat 0 8))) =
  (@hello_ll_read good 9 2 100 3 (file_info 5 0 7 0 false false false);; mret tt)
    (w_set_reqs hp (with_req read_header (Some 8)
      (message_world read_header (call_message false read_call (repeat 0 8))))).
Proof.
  destruct (@message_reaches_server good good_spec hello_server read_call
    (fun r node => @hello_ll_read good r node 100 3 (file_info 5 0 7 0 false false false)) false (repeat 0 8)
    (message_world read_header (call_message false read_call (repeat 0 8))) DAEMON_BUF 80 read_header 8 [])
    as (hp & q & E & _).
  - apply lookup_singleton_eq.
  - apply daemon_header_wf; by vm_compute.
  - reflexivity.
  - reflexivity.
  - apply message_sess_ok.
  - reflexivity.
  - constructor; by vm_compute.
  - by vm_compute.
  - by intros _.
  - reflexivity.
  - exists hp. exact E.
Defined.
