(* ===== verification/NotifyProps.v ===== *)
(** * Properties of the retrieve notifications

    The server may ask the peer for data it has cached.  The session keeps a
    table of the notifications whose answers are still to come, a circular list
    of objects; abstractly a list of pairs of an id and the server's cookie.
    Sending enters a pair, the answer takes it out again. *)

From S2P Require Import Prelude Wire Platform KernelAbi LinkedList World Monad Request Reply.
From S2P Require Import Buffer Server Handlers Interrupt Notify Init Session Queue Daemon UkFs.
From S2P Require Import System FileOps Boot HelloLl Examples.

(** ** The table of outstanding notifications *)

Section table.
Implicit Types (h : gmap Z fuse_notify_req) (n : Z) (l : list Z) (t : list (Z * Z)).

(** Id and cookie of a notification. *)
Definition entry_of h n : option (Z * Z) := (fun q => (nq_unique q, nq_cookie q)) <$> h !! n.

(** The objects are the list head and the notifications [l], which stand for
    the entries [t]. *)
Record table_at h l t : Prop := {
  ta_list : dll h SE_NOTIFY l;
  ta_entries : entry_of h <$> l = Some <$> t;
  ta_dom : forall n, is_Some (h !! n) -> n ∈ SE_NOTIFY :: l }.

(** Every notification sent and not yet answered is in the table, no other is,
    and none is leaked.  Ids are below [ctr] and used once, addresses below [nx]. *)
Record outstanding (ctr nx : Z) h t : Prop := {
  os_table : exists l, table_at h l t;
  os_nodup : NoDup (t.*1);
  os_ids : Forall (fun e => e.1 < ctr) t;
  os_fresh : forall n, is_Some (h !! n) -> n < nx }.

Lemma entry_of_contents h h' n : contents h' = contents h -> entry_of h' n = entry_of h n.
Proof.
  intros E. unfold entry_of. assert (strip <$> h' !! n = strip <$> h !! n) as H.
  { rewrite <- !lookup_fmap. unfold contents in E. by rewrite E. }
  destruct (h' !! n) as [[]|], (h !! n) as [[]|]; cbn in *; congruence.
Qed.

Lemma contents_dom h h' n : contents h' = contents h -> is_Some (h' !! n) -> is_Some (h !! n).
Proof.
  intros E [q Hq]. destruct (contents_lookup h' h n q) as (q' & ? & _); [done|done|by exists q'].
Qed.

Lemma table_fresh h l t n : table_at h l t -> h !! n = None -> n ∉ SE_NOTIFY :: l.
Proof. intros [H _ _] Hn Hin. destruct (dll_dom _ _ _ _ H Hin) as [q Hq]. congruence. Qed.

(** Changes of other objects and of links leave the entries alone. *)
Lemma entries_frame h h' l t :
  (forall m, m ∈ l -> entry_of h' m = entry_of h m) ->
  entry_of h <$> l = Some <$> t -> entry_of h' <$> l = Some <$> t.
Proof. intros Hf <-. apply Forall_fmap_ext_1, Forall_forall, Hf. Qed.

Lemma table_add h l t n (q : fuse_notify_req) :
  table_at h l t -> h !! n = None ->
  exists h', ll_add (A := fuse_notify_req) n SE_NOTIFY (<[n := q]> h) = Some h' /\
    table_at h' (l ++ [n]) (t ++ [(nq_unique q, nq_cookie q)]) /\ contents h' = contents (<[n := q]> h).
Proof.
  intros Ht Hn. pose proof (table_fresh _ _ _ _ Ht Hn) as Hf. destruct Ht as [H1 H2 H3].
  destruct (dll_add (<[n := q]> h) SE_NOTIFY l n) as (h' & E & Hd);
    [by apply dll_insert_fresh|done|by rewrite lookup_insert_eq|].
  pose proof (contents_ll_add _ _ _ _ E) as Hc.
  exists h'. split; [done|]. split; [|done]. split; [done| |].
  - rewrite !fmap_app. f_equal.
    + apply (entries_frame h); [|done]. intros m Hm. rewrite (entry_of_contents _ _ _ Hc). unfold entry_of.
      rewrite lookup_insert_ne; [done|]. intros ->. set_solver.
    + cbn. rewrite (entry_of_contents _ _ _ Hc). unfold entry_of. by rewrite lookup_insert_eq.
  - intros m Hm%(contents_dom _ _ _ Hc). rewrite lookup_insert_is_Some' in Hm.
    destruct Hm as [->|Hm%H3]; set_solver.
Qed.

Lemma table_del h l1 n l2 t :
  table_at h (l1 ++ n :: l2) t ->
  exists t1 e t2 h', t = t1 ++ e :: t2 /\ length t1 = length l1 /\ entry_of h n = Some e /\
    ll_del n h = Some h' /\ contents h' = contents h /\ table_at (delete n h') (l1 ++ l2) (t1 ++ t2).
Proof.
  intros [H1 H2 H3]. destruct (dll_del _ _ _ _ _ H1) as (h' & E & Hd).
  pose proof (contents_ll_del _ _ _ E) as Hc.
  rewrite fmap_app, fmap_cons in H2. symmetry in H2.
  apply fmap_app_inv in H2 as (t1 & t2' & E1 & E2 & ->).
  symmetry in E2. apply fmap_cons_inv in E2 as (e & t2 & He & E2 & ->).
  destruct H1 as [[Hh Hnd]%NoDup_cons _].
  apply NoDup_app in Hnd as (_ & Hdis & [Hn2 _]%NoDup_cons).
  exists t1, e, t2, h'. split_and!; try done.
  { apply (f_equal length) in E1. by rewrite !length_fmap in E1. }
  split.
  - apply dll_delete_fresh; [set_solver|done].
  - rewrite !fmap_app. f_equal.
    + apply (entries_frame h); [|done]. intros m Hm. unfold entry_of at 1.
      rewrite lookup_delete_ne by (intros ->; set_solver). by apply entry_of_contents.
    + apply (entries_frame h); [|done]. intros m Hm. unfold entry_of at 1.
      rewrite lookup_delete_ne by (intros ->; set_solver). by apply entry_of_contents.
  - intros m [q Hq]. apply lookup_delete_Some in Hq as [Hne Hq].
    assert (is_Some (h !! m)) as Hm%H3 by (apply (contents_dom _ _ _ Hc); by exists q). set_solver.
Qed.

(** The search of the list finds the notification of an entry. *)
Lemma table_find h l t1 id cookie t2 :
  table_at h l (t1 ++ (id, cookie) :: t2) -> NoDup (t1 ++ (id, cookie) :: t2).*1 ->
  exists l1 n l2, l = l1 ++ n :: l2 /\ length l1 = length t1 /\ entry_of h n = Some (id, cookie) /\
    ll_find (fun q => nq_unique q =? id) SE_NOTIFY h = Some (Some n).
Proof.
  intros [H1 H2 _] Hnd. rewrite fmap_app, fmap_cons in H2.
  apply fmap_app_inv in H2 as (l1 & l2' & E1 & E2 & ->).
  symmetry in E2. apply fmap_cons_inv in E2 as (n & l2 & He & E2 & ->).
  exists l1, n, l2. split_and!; try done.
  { apply (f_equal length) in E1. by rewrite !length_fmap in E1. }
  rewrite (dll_find _ _ _ _ H1). f_equal.
  rewrite fmap_app in Hnd. apply NoDup_app in Hnd as (_ & Hdis & _).
  clear H1 E2. revert t1 E1 Hdis. induction l1 as [|m l1 IH]; intros [|[i c] t1] E1 Hdis; try done; cbn.
  - unfold sat. unfold entry_of in He. destruct (h !! n) as [q|]; [|done]. cbn in He.
    injection He as <- _. by rewrite Z.eqb_refl.
  - cbn in E1. injection E1 as Em E1. unfold sat. unfold entry_of in Em.
    destruct (h !! m) as [q|]; [|done]. cbn in Em. injection Em as Ei _. rewrite <- Ei.
    rewrite (proj2 (Z.eqb_neq i id)) by (intros ->; apply (Hdis id); set_solver).
    apply (IH t1); [done|]. intros x Hx. apply Hdis. set_solver.
Qed.

Lemma table_find_none h l t id :
  table_at h l t -> id ∉ t.*1 -> ll_find (fun q => nq_unique q =? id) SE_NOTIFY h = Some None.
Proof.
  intros [H1 H2 _] Hid. rewrite (dll_find _ _ _ _ H1). f_equal. apply first_match_None. clear H1.
  revert l H2. induction t as [|[i c] t IH]; intros [|m l] H2; try done. cbn in H2.
  injection H2 as Em H2. constructor; [|apply IH; [set_solver|done]].
  unfold sat. unfold entry_of in Em. destruct (h !! m) as [q|]; [|done]. cbn in Em. injection Em as Ei _. rewrite Ei.
  apply Z.eqb_neq. set_solver.
Qed.
End table.

Section notify_props.
Context {P : Platform} {PS : PlatformSpec P} {S : Server}.
Implicit Types (w : world) (h : gmap Z fuse_notify_req) (l : list Z) (t : list (Z * Z)).

(** The world inside a critical section of the table or outside of it. *)
Definition tab_ w h (s : fuse_session) : world := w_set_se s (w_set_nreqs h w).

Lemma on_nreqs_run f h w : f (w_nreqs w) = Some h -> on_nreqs f w = Ok tt (w_set_nreqs h w).
Proof. unfold on_nreqs. by intros ->. Qed.

Lemma tab_lock w h m :
  uk_mutex_lock (se_lock (w_se w)) = Some m ->
  lock_se (tab_ w h (w_se w)) = Ok tt (tab_ w h (se_set_lock m (w_se w))).
Proof. intros H. by apply (lock_se_run m). Qed.

Lemma tab_unlock w h m :
  uk_mutex_unlock m = se_lock (w_se w) ->
  unlock_se (tab_ w h (se_set_lock m (w_se w))) = Ok tt (tab_ w h (w_se w)).
Proof.
  intros H. unfold unlock_se, mod_se, modify, tab_. cbn.
  by rewrite se_set_lock_lock, se_set_lock_twice, H, se_set_lock_id.
Qed.

Lemma tab_self w : tab_ w (w_nreqs w) (w_se w) = w.
Proof. by destruct w. Qed.

(** The [fuse_buf] the server gets: [n] bytes behind the header of the data. *)
Definition retrieved_buf (inarg : ptr) (ibuf : fuse_buf) (n : Z) : fuse_buf :=
  {| buf_size := n; buf_flags := buf_flags ibuf;
     buf_mem := Some (ptr_add inarg (sizeof fuse_notify_retrieve_in));
     buf_fd := buf_fd ibuf; buf_pos := buf_pos ibuf; buf_mem_size := buf_mem_size ibuf |}.

(** What becomes of a retrieve reply whose notification is known: the server
    gets it, unless the message is shorter than the data it announces or the
    server has no function for it. *)
Definition hand_over (r cookie node : Z) (inarg : ptr) (ibuf : fuse_buf)
    (arg : fuse_notify_retrieve_in) : M unit :=
  let room := u64 (buf_size ibuf - (sizeof fuse_in_header + sizeof fuse_notify_retrieve_in)) in
  if room <? notify_retrieve_in_size arg then fuse_reply_none r
  else match op_retrieve_reply se_op with
       | Some f => f r cookie node (i64 (notify_retrieve_in_offset arg))
                     (bv_one (retrieved_buf inarg ibuf (notify_retrieve_in_size arg)));; mret tt
       | None => fuse_reply_none r
       end.

Definition forget_nreq (n : Z) : M unit := modify (fun w => w_set_nreqs (delete n (w_nreqs w)) w).

(** The reply of a notification taken off the list. *)
Lemma retrieve_reply_run w n nq r node inarg ibuf arg rest :
  w_nreqs w !! n = Some nq -> wire_wf arg -> flag (buf_flags ibuf) FUSE_BUF_IS_FD = false ->
  view inarg w = Ok (enc arg ++ rest) w ->
  fuse_ll_retrieve_reply n r node inarg ibuf w =
    (hand_over r (nq_cookie nq) node inarg ibuf arg;; forget_nreq n) w.
Proof.
  intros Hn Hwf Hfd Hv. unfold fuse_ll_retrieve_reply, hand_over, forget_nreq. mstep by done.
  erewrite bind_run by (unfold get_nreq; by rewrite Hn). cbv beta zeta. rewrite Hfd.
  mstep by (by apply arg_of_enc). cbn [buf_size buf_mem andb when].
  unfold retrieved_buf, mbind, M_bind.
  case_bool; [by destruct (fuse_reply_none r w) as [[]|]|].
  destruct (op_retrieve_reply se_op) as [f|]; [|by destruct (fuse_reply_none r w) as [[]|]].
  by destruct (f _ _ _ _ _ w).
Qed.

(** C29. The answer to a retrieve notification reaches its owner: the entry with
    the id of the request is found and taken off the table, whatever other
    notifications are outstanding; the server gets the cookie it registered
    under that id with the data behind the argument, and the notification is
    freed after that.  The session lock is free meanwhile, so that the server
    may send notifications of its own. *)
Theorem retrieve_reply_matched w r q node inarg ibuf arg rest ctr nx t1 cookie t2 :
  outstanding ctr nx (w_nreqs w) (t1 ++ (rq_unique q, cookie) :: t2) ->
  mutex_held (se_lock (w_se w)) = false -> w_reqs w !! r = Some q ->
  wire_wf arg -> flag (buf_flags ibuf) FUSE_BUF_IS_FD = false ->
  view inarg w = Ok (enc arg ++ rest) w ->
  exists n h,
    do_notify_reply r node inarg ibuf w =
      (hand_over r cookie node inarg ibuf arg;; forget_nreq n) (w_set_nreqs h w) /\
    outstanding ctr nx (delete n h) (t1 ++ t2).
Proof.
  intros [[l Ht] Hnd Hids Hfr] Hlk Hq Hwf Hfd Hv.
  destruct (mutex_lock_free _ Hlk) as (m & Em & _ & Hum).
  destruct (table_find _ _ _ _ _ _ Ht Hnd) as (l1 & n & l2 & -> & Hlen & He & Ef).
  destruct (table_del _ _ _ _ _ Ht) as (t1' & e & t2' & h & Et & Hlen' & _ & Ed & Hc & Ht').
  apply app_inj_1 in Et as [<- Et]; [|congruence]. injection Et as <- <-.
  exists n, h. split.
  - unfold do_notify_reply. rewrite <- (tab_self w) at 1. mstep by (by apply tab_lock).
    mstep by (apply (get_req_run _ q); exact Hq).
    erewrite bind_run by (cbn [w_nreqs tab_ w_set_se w_set_nreqs]; by rewrite Ef). cbv beta iota.
    mstep by (apply (on_nreqs_run _ h); exact Ed).
    change (w_set_nreqs h (tab_ w ?a ?s)) with (tab_ w h s). mstep by (by apply tab_unlock).
    change (tab_ w h (w_se w)) with (w_set_se (w_se (w_set_nreqs h w)) (w_set_nreqs h w)).
    rewrite w_set_se_id.
    rewrite <- (entry_of_contents _ _ _ Hc) in He. unfold entry_of in He.
    destruct (h !! n) as [nq|] eqn:Hn; [|done]. cbn in He. injection He as _ <-.
    apply (retrieve_reply_run (w_set_nreqs h w) n nq r node inarg ibuf arg rest); try done.
    unfold view in *. cbn. destruct (w_mem w !! inarg.1); [|done]. case_bool; [|done]. by injection Hv as ->.
  - rewrite fmap_app, fmap_cons in Hnd. rewrite Forall_app, Forall_cons in Hids.
    split; [by exists (l1 ++ l2)| | |].
    + rewrite fmap_app. apply NoDup_app in Hnd as (? & Hd & [_ ?]%NoDup_cons).
      apply NoDup_app. split_and!; try done. intros x Hx Hx'. apply (Hd x Hx). set_solver.
    + apply Forall_app. tauto.
    + intros y [a Ha]. apply lookup_delete_Some in Ha as [_ Ha].
      apply Hfr, (contents_dom _ _ _ Hc). by exists a.
Qed.

(** An answer with an id that is not in the table does nothing at all. *)
Lemma unknown_reply_ignored w r q node inarg ibuf ctr nx t :
  outstanding ctr nx (w_nreqs w) t -> rq_unique q ∉ t.*1 ->
  mutex_held (se_lock (w_se w)) = false -> w_reqs w !! r = Some q ->
  do_notify_reply r node inarg ibuf w = Ok tt w.
Proof.
  intros [[l Ht] _ _ _] Hid Hlk Hq. destruct (mutex_lock_free _ Hlk) as (m & Em & _ & Hum).
  unfold do_notify_reply. rewrite <- (tab_self w) at 1. mstep by (by apply tab_lock).
  mstep by (apply (get_req_run _ q); exact Hq).
  erewrite bind_run by (cbn [w_nreqs tab_ w_set_se w_set_nreqs];
    by rewrite (table_find_none _ _ _ _ Ht Hid)). cbv beta iota.
  mstep by apply ret_run. mstep by (by apply tab_unlock). by rewrite tab_self.
Qed.

Lemma fuse_send_notify_run ch out iov w :
  blen (concat iov) < 2 ^ 63 ->
  fuse_send_msg ch out iov None w =
  let msg := reply_msg (out_header_unique out) (out_header_error out) iov in
  Ok (dev_result (dev_fd ch w) msg w) (sent (dev_fd ch w) msg w).
Proof.
  intros Hl. unfold fuse_send_msg, reply_msg. rewrite fuse_write_msg_dev_run.
  assert (blen (concat (enc out :: iov)) = sizeof fuse_out_header + blen (concat iov)) as E.
  { cbn [concat]. unfold blen at 1. rewrite length_app, Nat2Z.inj_add. by rewrite length_enc. }
  rewrite iov_length_concat; rewrite E; [done|]. change (sizeof fuse_out_header) with 16. lia.
Qed.

Lemma table_length h l t : table_at h l t -> length t = length l.
Proof. intros [_ H _]. apply (f_equal length) in H. by rewrite !length_fmap in H. Qed.

(** A new entry with the next id and the next address. *)
Lemma outstanding_add id nx h h' l t q :
  table_at h' l (t ++ [(id, nq_cookie q)]) -> NoDup (t.*1) -> Forall (fun e => e.1 < id) t ->
  (forall n, is_Some (h !! n) -> n < nx) -> contents h' = contents (<[nx := q]> h) ->
  outstanding (id + 1) (nx + 1) h' (t ++ [(id, nq_cookie q)]).
Proof.
  intros Ht Hnd Hids Hfr Hc. split; [by exists l| | |].
  - rewrite fmap_app. apply NoDup_app. split_and!; [done| |apply NoDup_singleton].
    intros x Hx ->%list_elem_of_singleton. apply list_elem_of_fmap in Hx as (e & E & He).
    rewrite Forall_forall in Hids. specialize (Hids e He). cbn in E. lia.
  - apply Forall_app. split; [|apply Forall_cons; split; [cbn; lia|done]].
    eapply Forall_impl; [exact Hids|]. cbn. lia.
  - intros y Hy%(contents_dom _ _ _ Hc). rewrite lookup_insert_is_Some' in Hy.
    destruct Hy as [->|Hy%Hfr]; lia.
Qed.

Lemma se_set_lock_ctr m se : se_notify_ctr (se_set_lock m se) = se_notify_ctr se.
Proof. by destruct se. Qed.

(** The message that asks the peer for data. *)
Definition retrieve_msg (id ino size offset : Z) : bytes :=
  reply_msg 0 FUSE_NOTIFY_RETRIEVE
    [enc {| notify_retrieve_out_notify_unique := id; notify_retrieve_out_nodeid := ino;
            notify_retrieve_out_offset := u64 offset; notify_retrieve_out_size := u32 size;
            notify_retrieve_out_padding := 0 |}].

(** The world in which the notification has been registered. *)
Definition registered_world w h : world :=
  w_set_se (se_set_notify_ctr (u64 (se_notify_ctr (w_se w) + 1)) (w_se w))
    (w_set_nreqs h (w_set_next (w_next w + 1) (w_set_nalloc (Datatypes.S (w_nalloc w)) w))).

Lemma registered_unlock w h h0 m c v :
  uk_mutex_unlock m = se_lock (w_se w) ->
  unlock_se (w_set_nreqs h (w_set_nreqs h0
    (w_set_se (se_set_notify_ctr c (se_set_lock m (w_se w))) (w_set_se (se_set_lock m (w_se w)) v)))) =
  Ok tt (w_set_se (se_set_notify_ctr c (w_se w)) (w_set_nreqs h v)).
Proof. intros H. unfold unlock_se, mod_se, modify. cbn. destruct (w_se w). cbn in *. by rewrite H. Qed.

(** Bumping the counter of notifications leaves the device alone. *)
Lemma send_notify_run w c iov code v :
  se_got_init (w_se w) = true -> blen (concat iov) < 2 ^ 63 ->
  w_se v = se_set_notify_ctr c (w_se w) -> w_nio v = w_nio w ->
  let msg := reply_msg 0 code iov in
  send_notify_iov code iov v = Ok (dev_result (dev_fd None w) msg w) (sent (dev_fd None w) msg v).
Proof.
  intros Hg Hb Hse Hio msg. unfold send_notify_iov. mstep by done. rewrite Hse.
  assert (se_got_init (se_set_notify_ctr c (w_se w)) = true) as -> by (by destruct (w_se w)). cbn [negb].
  rewrite fuse_send_notify_run by done. cbv zeta. cbn [out_header_unique out_header_error]. fold msg.
  unfold dev_result, dev_fd. rewrite Hse, Hio. by destruct (w_se w).
Qed.

(** Taking a notification off the table again. *)
Lemma unregister_run w n h :
  mutex_held (se_lock (w_se w)) = false -> ll_del n (w_nreqs w) = Some h ->
  (lock_se;; list_del_nreq n;; unlock_se;; forget_nreq n) w = Ok tt (w_set_nreqs (delete n h) w).
Proof.
  intros Hlk Hd. destruct (mutex_lock_free _ Hlk) as (m & Em & _ & Hum).
  rewrite <- (tab_self w) at 1. mstep by (by apply tab_lock).
  mstep by (apply (on_nreqs_run _ h); exact Hd).
  change (w_set_nreqs h (tab_ w ?a ?s)) with (tab_ w h s). mstep by (by apply tab_unlock).
  unfold forget_nreq, modify, tab_. cbn. by destruct w.
Qed.

(** C28. A retrieve notification is outstanding from the moment its message is
    sent until it is answered.  One that is sent is entered into the table with
    an id never used before and the server's cookie; the peer gets one message
    with that id.  When there is no memory, or the message cannot be sent, the
    server gets the error and the table is what it was: nothing is leaked and no
    id is used twice. *)
Theorem retrieve_registered w ino size offset cookie t :
  outstanding (se_notify_ctr (w_se w)) (w_next w) (w_nreqs w) t ->
  0 <= se_notify_ctr (w_se w) < 2 ^ 64 - 1 -> mutex_held (se_lock (w_se w)) = false ->
  se_got_init (w_se w) = true -> 15 <= proto_minor (se_conn (w_se w)) ->
  exists res w', fuse_lowlevel_notify_retrieve ino size offset cookie w = Ok res w' /\
    let id := se_notify_ctr (w_se w) in
    let msg := retrieve_msg id ino size offset in
    let fd := dev_fd None w in
    if alloc_ok (w_nalloc w) then
      res = dev_result fd msg w /\ w_trace w' = w_trace w ++ [Ev_writev fd msg] /\
      outstanding (id + 1) (w_next w + 1) (w_nreqs w') (if res =? 0 then t ++ [(id, cookie)] else t) /\
      w_se w' = se_set_notify_ctr (id + 1) (w_se w)
    else
      res = - ENOMEM /\ w_trace w' = w_trace w /\ w_nreqs w' = w_nreqs w /\ w_se w' = w_se w.
Proof.
  intros [[l Ht] Hnd Hids Hfr] Hctr Hlk Hgot Hmin.
  destruct (mutex_lock_free _ Hlk) as (m & Em & _ & Hum).
  set (id := se_notify_ctr (w_se w)). set (n := w_next w).
  assert (w_nreqs w !! n = None) as Hn.
  { destruct (w_nreqs w !! n) eqn:E; [|done]. assert (n < n); [|lia]. apply Hfr. by eexists. }
  assert (u64 (id + 1) = id + 1) as Hid by (apply wrapu_id; unfold is_u; lia).
  destruct (table_add _ _ _ n {| nq_unique := id; nq_cookie := cookie; nq_next := 0; nq_prev := 0 |} Ht Hn)
    as (h & Ea & Ht1 & Hc). cbn [nq_unique nq_cookie] in Ht1.
  unfold fuse_lowlevel_notify_retrieve. mstep by done.
  rewrite (proj2 (Z.ltb_ge _ _)) by done.
  destruct (alloc_ok (w_nalloc w)) eqn:Hal.
  2:{ eexists _, _. split; [mstep by (unfold alloc; by rewrite Hal); reflexivity|]. by split_and!. }
  set (w0 := w_set_next (n + 1) (w_set_nalloc (Datatypes.S (w_nalloc w)) w)).
  set (w1 := registered_world w h).
  set (fd := dev_fd None w). set (msg := retrieve_msg id ino size offset).
  mstep by (unfold alloc; rewrite Hal; fold n w0; reflexivity).
  mstep by (apply (lock_se_run m); exact Em). mstep by done. cbv zeta.
  change (se_notify_ctr (w_se (w_set_se ?s ?x))) with (se_notify_ctr s).
  change (w_se w0) with (w_se w). rewrite se_set_lock_ctr. fold id.
  mstep by done. mstep by done. mstep by (eapply on_nreqs_run; exact Ea).
  erewrite bind_run by (by apply (registered_unlock w)). cbv beta iota. fold w0.
  fold (registered_world w h). fold w1.
  mstep by (apply (send_notify_run w (u64 (id + 1))); done).
  change (reply_msg 0 FUSE_NOTIFY_RETRIEVE _) with msg. fold fd.
  assert (w_se w1 = se_set_notify_ctr (id + 1) (w_se w)) as Hse1 by (unfold w1, registered_world; fold id; by rewrite Hid).
  set (res := dev_result fd msg w). unfold truth. destruct (Z.eqb_spec res 0) as [Hr|Hr]; cbn [negb when].
  - mstep by apply ret_run. eexists _, _. split; [reflexivity|]. split_and!; try done.
    rewrite (proj2 (Z.eqb_eq _ _) Hr). by eapply (outstanding_add id n (w_nreqs w) h _ _ (Build_fuse_notify_req id cookie 0 0)).
  - destruct (table_del _ _ _ _ _ Ht1) as (t1 & e & t2 & h' & Et & Hlen & _ & Ed & Hc' & Ht').
    apply app_inj_1 in Et as [<- Et]; [|by rewrite Hlen, <- (table_length _ _ _ Ht)].
    injection Et as <- <-. rewrite !app_nil_r in Ht'.
    erewrite bind_run.
    2:{ apply (unregister_run (sent fd msg w1) n h'); [|exact Ed]. change (w_se (sent fd msg w1)) with (w_se w1). rewrite Hse1. by destruct (w_se w). }
    cbv beta. eexists _, _. split; [reflexivity|]. split_and!; try done.
    rewrite (proj2 (Z.eqb_neq _ _) Hr). split; [by exists l|done| |].
    + eapply Forall_impl; [exact Hids|]. cbn. lia.
    + intros y [a Ha]. cbn in Ha. apply lookup_delete_Some in Ha as [Hne Ha].
      assert (is_Some (h' !! y)) as Hy by (by exists a).
      apply (contents_dom _ _ _ Hc'), (contents_dom _ _ _ Hc) in Hy.
      rewrite lookup_insert_ne in Hy by done. apply Hfr in Hy. lia.
Qed.
End notify_props.

(** ** One notification, sent and answered *)

Lemma empty_table : outstanding 1 (w_next serving_world) (w_nreqs serving_world) [].
Proof.
  change (w_nreqs serving_world) with ({[SE_NOTIFY := Build_fuse_notify_req 0 0 SE_NOTIFY SE_NOTIFY]} : gmap Z fuse_notify_req).
  split; [|constructor|constructor|].
  - exists []. split; [split; [apply NoDup_singleton|done]|done|].
    intros n [q Hq]. apply lookup_singleton_Some in Hq as [<- _]. set_solver.
  - intros n [q Hq]. apply lookup_singleton_Some in Hq as [<- _]. reflexivity.
Qed.

Lemma retrieve_registered_witness : exists res (w' : @world good),
  @fuse_lowlevel_notify_retrieve good 5 4096 0 77 serving_world = Ok res w' /\
  outstanding 2 (w_next serving_world + 1) (w_nreqs w') [(1, 77)].
Proof.
  destruct (@retrieve_registered good good_spec serving_world 5 4096 0 77 [] empty_table) as (res & w' & E & H);
    try reflexivity; [done..|].
  exists res, w'. split; [exact E|]. destruct H as (Hr & _ & Ht & _). rewrite Hr in Ht. exact Ht.
Defined.

(** The object at address 20 stands for a notification with id 1 and cookie 77;
    request 9 has that id, too. *)
Definition notify_heap : gmap Z fuse_notify_req :=
  <[20 := Build_fuse_notify_req 1 77 SE_NOTIFY SE_NOTIFY]> {[SE_NOTIFY := Build_fuse_notify_req 0 0 20 20]}.
Definition data_arg : fuse_notify_retrieve_in := Build_fuse_notify_retrieve_in 0 0 3 0 0 0.
Definition notify_world : @world good :=
  w_set_mem {[30 := enc data_arg ++ [7; 8; 9]]} (w_set_nreqs notify_heap serving_world).

Lemma notify_table : outstanding 2 21 notify_heap [(1, 77)].
Proof.
  split; [|apply NoDup_singleton|by constructor|].
  - exists [20]. split; [split; [|done]|done|].
    + apply NoDup_cons. split; [set_solver|apply NoDup_singleton].
    + intros n [q Hq]. unfold notify_heap in Hq. apply lookup_insert_Some in Hq as [[<- _]|[_ Hq]]; [set_solver|].
      apply lookup_singleton_Some in Hq as [<- _]. set_solver.
  - intros n [q Hq]. unfold notify_heap in Hq. apply lookup_insert_Some in Hq as [[<- _]|[_ Hq]]; [done|].
    by apply lookup_singleton_Some in Hq as [<- _].
Qed.

Lemma retrieve_reply_matched_witness : exists n h,
  @do_notify_reply good hello_server 9 5 (30, 0) (req_buf 30 91) notify_world =
    (@hand_over good hello_server 9 77 5 (30, 0) (req_buf 30 91) data_arg;; @forget_nreq good n)
      (w_set_nreqs h notify_world) /\
  outstanding 2 21 (delete n h) [].
Proof.
  destruct (@retrieve_reply_matched good good_spec hello_server notify_world 9
    (received 9 example_header (Some 8)) 5 (30, 0) (req_buf 30 91) data_arg [7; 8; 9] 2 21 [] 77 [])
    as (n & h & E & H); try reflexivity.
  - apply notify_table.
  - unfold data_arg. solve_wire_wf; by vm_compute.
  - exists n, h. split; [exact E|exact H].
Defined.
